(* ===== verification/_CoqProject ===== *)
-Q . S2P
Prelude.v
GoStd.v
GoNet.v
GoJSON.v
KubeTypes.v
ApiTypes.v
LangfuseTypes.v
Kube.v
Examples.v
Interfaces.v
GoHeap.v
GoTypes.v
DeepCopy.v
Status.v
Version.v
Config.v
Resources.v
Stores.v
Networking.v
Scaling.v
PodIssues.v
Phase.v
HealthMonitor.v
Identity.v
Instance.v
Migration.v
CircuitBreaker.v
Secrets.v
ClickHouse.v
Probes.v
Retention.v
SchemaDrift.v
Wiring.v
Topology.v
LangfuseClient.v
Tenancy.v
Organization.v
Project.v
Sharing.v
History.v
Watches.v
Operator.v
Settling.v
Pacing.v
