(* ===== verification/Prelude.v ===== *)
(** * A verification library for the Langfuse operator

    The operator is a set of Kubernetes controllers that deploy Langfuse (a Web
    and a Worker Deployment over PostgreSQL, ClickHouse, Redis and blob storage)
    from a [LangfuseInstance] custom resource.  Controllers reconcile
    independently and share one status object and the workloads.  Each pass of a
    controller reads objects, decides, writes objects and the status, and says when
    to run again.

    ** How the program is modelled

    A pass is a function of the state monad [Prelude.M] over [Kube.St]: a world
    outside the operator, about which nothing is known, and the trace of the calls
    made so far, each with its answer.  Every client call is a field of the class
    [Kube.KubeClient]; the theorems hold for all instances of it, so for every
    answer the API server can give, errors included, and every change other actors
    make between two calls.  A safety property is then a statement about the trace:
    which calls a pass may make, in which order, given the answers it saw.
    [Kube.traces] and [Kube.emits] are the program logic used for that, [Prelude.wp]
    the logic of states underneath.  [Kube.FakeCluster] is a concrete cluster, the
    world in which witnesses run and in which the round trips are stated.

    Go data is kept as it is: structs are Records with the Go field names prefixed
    by the struct, nil-able pointers are [option], strings are byte strings, maps
    with string keys are [gmap], [int32], [int64] and [uint64] are [Z] with the
    wrap-around written where arithmetic happens (retention percentages, byte
    units, failure counters, intervals).  An [error] is its API classification and
    text ([Prelude.GoError]).  Go's random map iteration is the class
    [GoStd.MapOrder], of which only the set of visited keys is known.

    ** Files

    - [Prelude]: errors, results, the monad and its logic, machine integers,
      tactics and hint databases; [GoStd], [GoNet] (with the HTTP transport): the functions of Go's standard
      library the operator calls, with their lemmas; [KubeTypes], [ApiTypes]: the Kubernetes
      and the custom resource types (api/v1alpha1); [Kube]: the client, the trace
      logic, conditions, owner references and finalizers as interfaces with laws, the concrete
      cluster; [Examples]: the resources witnesses run on; [Interfaces]: what the
      controllers rely on of the dependency probes.
    - [GoHeap]: a memory with pointers, slices and maps, what a value in it stands for,
      and what a deep copy is; [GoTypes], [DeepCopy]: the types of api/v1alpha1 with all
      their fields and zz_generated.deepcopy.go, statement by statement.
    - [Status] (controller/status.go): the guarded status write, retry policy.
    - [Version], [Config] (langfuse/version.go, config.go): [BuildConfig].
    - [Resources] (resources/labels.go, web_deployment.go, worker_deployment.go,
      migration_job.go), [Stores] (clickhouse.go, redis.go), [Networking]
      (services.go, networkpolicy.go, ingress.go, route.go, httproute.go and what is
      left of servicemonitor.go), [Scaling] (hpa.go, pdb.go): every object an
      instance owns, as a value.
    - [PodIssues] (pod_issues.go), [Phase] (phase.go), [HealthMonitor]
      (health_monitor.go).
    - [Instance] (langfuseinstance_controller.go): the freeze, the children applied
      in order ([reconcileChildren]; an apply that fails stops the pass, a builder
      that panics ends it, [Step]), the status observed and derived.
    - [Identity], [Migration] (migration_controller.go): the grammar of migration
      identities and the comparisons on them; the controller.
    - [CircuitBreaker] (circuit_breaker.go): the controller, with the process
      memory it keeps between passes as explicit argument and result.
    - [Secrets] (secret_controller.go), [ClickHouse] (clickhouse_client.go and the
      Secret lookups of health_probes.go), [Probes] (the rest of health_probes.go, an
      instance of [DependencyProbes] with its laws), [Retention]
      (retention_controller.go), [SchemaDrift] (schema_drift_controller.go).
    - [GoJSON] (encoding/json, base64), [LangfuseTypes], [LangfuseClient]
      (langfuse/client.go): the requests and responses of each method, and the
      interface [Client] as the class [LangfuseAPI], whose instance is the HTTP client;
      the tenant controllers are proved against the class.
    - [Organization], [Project] (langfuseorganization_controller.go,
      langfuseproject_controller.go): the controllers; [Tenancy]: a cluster with a
      Langfuse server in memory, on which their witnesses run.
    - [Watches] (the nine [SetupWithManager] and groupversion_info.go): what each
      controller watches, owns and maps, as values, and the requests an event gives.
    - [Operator] (cmd/main.go): the flags, the namespaces watched, the TLS, metrics and
      manager options, and [main] as the steps it takes, each of which may end it.
    - The controllers together, over the code of the seven that share an instance.
      [Sharing]: [reconcile] is the pass of any of them; the facets of the status, who
      writes which, and what each promises of its own ([consistent]).  [History]: the
      versions of an instance, stale reads in flight, and the API server accepting a
      write only of the version that was read, as a step relation.  [Settling]: what a
      second look at the same cluster finds, and the queues of the controllers when
      nothing but status writes happens.  [Pacing]: when each asks to run again.
    - [Wiring]: properties across components, on Secrets and their keys; [Topology]:
      properties of all the objects of an instance together, which are those of the
      relation [Topology.child].

    Controllers change the object they read in place and compare it with a copy taken
    first.  Their definitions pass both as values; that this is what the code does is
    the theorem of [DeepCopy], the copy and the object having no memory in common.

    Where a Go function is long, its loops, branches or closures are definitions of
    their own, composed as the function composes them.  Logging is left out.

    ** What the theorems show

    - Migrations: a Job is created only when one is due and absent, carries the
      identity it migrates, is deleted in two situations only; a target is recorded
      as migrated only for a Job that succeeded for that very target or for a legacy
      baseline that is safe; a moved datastore is refused; a success settles the
      instance; what happens when the record of a success is not written; a refusal
      outlives the revert it asks for, and a success keeps a stale fatal issue.  The
      identity grammar round-trips for all names, and the retarget check and the
      gate are exact.
    - Circuit breaker: over all reachable histories the failure counters are the
      current streaks, replicas are patched with cause only, opening and recovery
      restore the cluster across a lost race; two situations in which the worker is
      not restored.
    - Secrets: generated credentials are never replaced and generation is
      idempotent; templates are stamped only on a change; hashes and watched names
      do not depend on map order; the event mapping is exact.  Every variable the
      pods get reads a Secret somebody provides; when the users of a managed
      ClickHouse agree on credentials.
    - Status: the phase refines an inductive specification; readiness; the health
      monitor publishes what its probes found and changes nothing else, and a PostgreSQL URL is probed at the
      host and port it names; retention, storage pressure and schema drift report
      what ClickHouse answered.
    - The controllers together: each writes its own facets of the status, from what it
      read, and keeps them consistent; so in every history of interleaved passes no
      report is lost and each version agrees with itself.  An edit wakes seven
      controllers and a status write one; with the workloads holding still the passes
      that status writes cause end, twenty at most; every pass without an error asks
      for the next within its bounds or waits for an event; of every object a pass
      applies an event comes back to that instance.  The operator starts whole or not
      at all.
    - Deep copies: equal to what was copied, and apart from it for good.
    - The instance: a pass applies what the spec asks for and nothing else, and all of
      it when it reports success on an instance that is there to stay and was not moved;
      the status shows what was read, or that the configuration is refused; a pass over what the
      last one published writes no status; a refused configuration leaves
      [status.ready] as it was.  The objects of all instances have distinct names,
      selectors pick one workload, ways in lead to the web pods, replica counts have
      one owner, managed stores are where pods and operator look for them.
    - Tenants: the client sends the documented requests, is exact on success and on
      403, and loses nothing of a UTF-8 text in a body, either way.  Members and API
      keys change with cause only; what is destroyed is what the resource names, on
      deletion or when a key is unknown; the admin key only mints organization keys;
      Secrets hold what was minted; statuses are honest, save that a minted key lost to
      an existing Secret passes for kept; a project holds its organization; against a
      server that answers ([LangfuseClient.OrgServerLaws], [Project.KeyStoreLaws])
      members listed once and keys in distinct Secrets converge in one pass and the
      next changes nothing.  A failed lookup duplicates
      a renamed organization; an incomplete organization key is minted for ever.
    - Pods and configuration: issue reports are independent of list order, capped
      without hiding a fatal issue and bounded in size; environments are duplicate
      free with matching mounts, and configuration fails exactly on the unsupported
      specs.

    ** Bounds and fuel

    [GoStd.strip_prefixes] runs with the length of the string as fuel, each round
    removing at least a byte; [Retention.humanize_loop] runs four rounds, the bound
    of the Go loop; [GoJSON.parse_value] runs with the length of the text plus one,
    each value or member reading at least a byte;
    [GoHeap.unfolds] and [meaning] take a bound on the nesting of a value, for which any
    that is large enough will do: the copy unfolds within the same bound.  All other recursion is structural.

    ** Parameters

    The API server ([KubeClient], with [ApplyClient] for the instance controller and
    [TenantClient] for the tenant controllers), condition lists of apimachinery
    ([ConditionAPI], with the laws of [meta.SetStatusCondition]), owner references
    ([OwnerAPI]), finalizers ([FinalizerAPI]), the scheme ([Instance.Scheme]), quantities
    ([Stores.QuantityParser], which may panic), randomness ([Secrets.Entropy]), SHA-256 ([Secrets.Hasher]), HTTP
    ([GoNet.HTTPTransport]), TCP ([Probes.Network]), PEM decoding
    ([ClickHouse.PEMParser]) [url.Parse] ([GoNet.URLParser]), the update predicate
    and the owner handler of controller-runtime ([Watches.PredicateAPI],
    [Watches.OwnerHandler]), the manager's REST mapper, the calls of [main]
    ([Operator.Startup]) and the copy functions of the Kubernetes types
    ([GoHeap.ExternalTypes]) are outside the source.  The verdict of a probe is put on the trace as a call of its own
    ([Kube.CProbed]); dials and HTTP probes are not.  Each class with laws has a concrete instance proved to
    satisfy them.

    ** Not modelled

    The registration of the Go types with the scheme, the logger and its flags,
    contexts and timeouts have no logic of their own.
    Metadata has no resource version: to one pass a write that conflicts is an answer
    of the client like any other, and in a history ([History]) the version is the
    position in the list of versions.  The [stringData] of a Secret stands as the data
    the server makes of it. *)

From stdpp Require Export base tactics option list strings gmap sets pretty.
From Stdlib Require Export ZArith Lia.

#[export] Set Default Goal Selector "!".
#[export] Set Warnings "-clear-no-such-hyp".

(** String concatenation computes (stdpp blocks it). *)
#[global] Arguments String.append !s1 s2 / : simpl nomatch.

(** ** Scope and hint databases of the development *)

Declare Scope go_scope.
Delimit Scope go_scope with go.

(** [go]: closing facts about the Go semantics, used by [eauto with go];
    [gorw]: unconditional computation rules, used by [autorewrite with gorw]. *)
Create HintDb go discriminated.
Create Rewrite HintDb gorw.

(** ** Go errors

    A Go [error] value is its classification (what [apierrors.IsNotFound] and
    friends, or [langfuse.IsForbidden], can recover from it through any number
    of [%w] wrappings) and its text. *)

Inductive ErrKind :=
  | KindOther
  | KindNotFound
  | KindConflict
  | KindAlreadyExists
  | KindNoMatch
  | KindAPI (status : Z).

#[global] Instance ErrKind_eq_dec : EqDecision ErrKind.
Proof. solve_decision. Defined.

Record GoError := mkErr { err_kind : ErrKind; err_msg : string }.

#[global] Instance GoError_eq_dec : EqDecision GoError.
Proof. solve_decision. Defined.

(** [errors.New msg], and [fmt.Errorf] without a [%w] verb. *)
Definition newError (msg : string) : GoError := mkErr KindOther msg.

(** [fmt.Errorf("prefix: %w", e)]: the text gains a prefix, the classification
    is the one of the wrapped error. *)
Definition wrapError (prefix : string) (e : GoError) : GoError :=
  mkErr (err_kind e) (prefix +:+ ": " +:+ err_msg e).

Definition IsNotFound (e : GoError) : bool := bool_decide (err_kind e = KindNotFound).
Definition IsConflict (e : GoError) : bool := bool_decide (err_kind e = KindConflict).
Definition IsAlreadyExists (e : GoError) : bool := bool_decide (err_kind e = KindAlreadyExists).
Definition IsNoMatchError (e : GoError) : bool := bool_decide (err_kind e = KindNoMatch).

Lemma wrapError_kind p e : err_kind (wrapError p e) = err_kind e.
Proof. reflexivity. Qed.

(** A fallible Go call returns a value or an error. *)
Inductive result (A : Type) :=
  | Ok (a : A)
  | Err (e : GoError).
Arguments Ok {A} a.
Arguments Err {A} e.

Definition result_bind {A B} (r : result A) (f : A → result B) : result B :=
  match r with Ok a => f a | Err e => Err e end.

Definition is_ok {A} (r : result A) : bool := match r with Ok _ => true | Err _ => false end.

Notation "'try' x := r 'in' k" := (result_bind r (λ x, k))
  (at level 10, x name, r at level 100, k at level 200) : go_scope.

(** ** The state monad in which the controllers run

    [M S A] is a computation over a state [S].  The controllers use it with a
    state made of the world outside the operator and the trace of the calls
    made so far (see [Kube]). *)

Definition M (S A : Type) : Type := S → A * S.

#[global] Instance M_ret S : MRet (M S) := λ A a s, (a, s).
#[global] Instance M_bind S : MBind (M S) := λ A B f m s, let '(a, s') := m s in f a s'.

(** Weakest precondition: [wp m Q s] says that running [m] from [s] ends in a
    value and a state related by [Q]. *)
Definition wp {S A} (m : M S A) (Q : A → S → Prop) (s : S) : Prop :=
  let '(a, s') := m s in Q a s'.

Section wp.
Context {S : Type}.

Lemma wp_ret {A} (a : A) (Q : A → S → Prop) s : Q a s → wp (mret a) Q s.
Proof. exact id. Qed.

Lemma wp_bind {A B} (m : M S A) (f : A → M S B) Q s :
  wp m (λ a, wp (f a) Q) s → wp (m ≫= f) Q s.
Proof. unfold wp, mbind, M_bind. by destruct (m s). Qed.

Lemma wp_mono {A} (m : M S A) (Q Q' : A → S → Prop) s :
  wp m Q s → (∀ a s', Q a s' → Q' a s') → wp m Q' s.
Proof. unfold wp. destruct (m s). eauto. Qed.

Lemma wp_and {A} (m : M S A) (Q Q' : A → S → Prop) s :
  wp m Q s → wp m Q' s → wp m (λ a s', Q a s' ∧ Q' a s') s.
Proof. unfold wp. destruct (m s). eauto. Qed.

Lemma wp_run {A} (m : M S A) (Q : A → S → Prop) s a s' :
  wp m Q s → m s = (a, s') → Q a s'.
Proof. unfold wp. intros H E. by rewrite E in H. Qed.

Lemma run_wp {A} (m : M S A) (Q : A → S → Prop) s :
  (∀ a s', m s = (a, s') → Q a s') → wp m Q s.
Proof. unfold wp. destruct (m s) eqn:E. eauto. Qed.
End wp.

#[export] Hint Resolve wp_ret : go.

(** [mfold f l a] is a Go [for ... range] loop over [l] that threads [a]. *)
Fixpoint mfold {S A B} (f : A → B → M S A) (l : list B) (a : A) : M S A :=
  match l with
  | [] => mret a
  | b :: l' => a' ← f a b; mfold f l' a'
  end.

Lemma wp_mfold {S A B} (I : A → S → Prop) (f : A → B → M S A) l a s :
  I a s →
  (∀ b a s, b ∈ l → I a s → wp (f a b) I s) →
  wp (mfold f l a) I s.
Proof.
  revert a s. induction l as [|b l IH]; intros a s Ha Hstep; cbn [mfold].
  { by apply wp_ret. }
  apply wp_bind. eapply wp_mono; [apply Hstep; [set_solver|done]|].
  intros a' s' HI. apply IH; [done|]. intros b' a'' s'' Hb'. apply Hstep. set_solver.
Qed.

Lemma triple_eta {A B C} (p : A * B * C) : p = (p.1.1, p.1.2, p.2).
Proof. by destruct p as [[??]?]. Qed.

Lemma triple_fst {A B C} (p : A * B * C) a : p.1.1 = a → p = (a, p.1.2, p.2).
Proof. destruct p as [[??]?]. by intros <-. Qed.

Lemma quad_eta {A B C D} (p : A * B * C * D) : p = (p.1.1.1, p.1.1.2, p.1.2, p.2).
Proof. by destruct p as [[[??]?]?]. Qed.

(** ** Fixed-width integers *)

Open Scope Z_scope.

Definition wrapS (w : Z) (z : Z) : Z := (z + 2 ^ (w - 1)) mod 2 ^ w - 2 ^ (w - 1).
Definition wrapU (w : Z) (z : Z) : Z := z mod 2 ^ w.

Definition int32 (z : Z) : Z := wrapS 32 z.
Definition int64 (z : Z) : Z := wrapS 64 z.
Definition uint64 (z : Z) : Z := wrapU 64 z.

Definition in_int32 (z : Z) : Prop := - 2 ^ 31 ≤ z < 2 ^ 31.
Definition in_int64 (z : Z) : Prop := - 2 ^ 63 ≤ z < 2 ^ 63.
Definition in_uint64 (z : Z) : Prop := 0 ≤ z < 2 ^ 64.

Lemma int32_id z : in_int32 z → int32 z = z.
Proof.
  unfold int32, wrapS, in_int32. intros.
  rewrite Z.mod_small; [|change (2 ^ (32 - 1)) with (2 ^ 31)]; lia.
Qed.

Lemma int64_id z : in_int64 z → int64 z = z.
Proof.
  unfold int64, wrapS, in_int64. intros.
  rewrite Z.mod_small; [|change (2 ^ (64 - 1)) with (2 ^ 63)]; lia.
Qed.

Lemma uint64_id z : in_uint64 z → uint64 z = z.
Proof. unfold uint64, wrapU, in_uint64. intros. rewrite Z.mod_small; lia. Qed.

Lemma int32_range z : in_int32 (int32 z).
Proof.
  unfold int32, wrapS, in_int32.
  pose proof (Z.mod_pos_bound (z + 2 ^ (32 - 1)) (2 ^ 32)). lia.
Qed.

Lemma uint64_range z : in_uint64 (uint64 z).
Proof.
  unfold uint64, wrapU, in_uint64. pose proof (Z.mod_pos_bound z (2 ^ 64)). lia.
Qed.

#[export] Hint Resolve int32_id int64_id uint64_id int32_range uint64_range : go.

(** ** Tactics of the development *)

(** Case analysis on every scrutinee of a [match] or [if] that blocks the goal
    or a hypothesis, keeping the equations. *)
Ltac destr_goal :=
  match goal with
  | |- context [match ?x with _ => _ end] => destruct x eqn:?
  end.

Ltac destr_hyp H :=
  match type of H with
  | context [match ?x with _ => _ end] => destruct x eqn:?
  end.

(** Turns boolean tests of the code into the propositions they decide. *)
Ltac to_prop :=
  repeat match goal with
  | H : bool_decide _ = true |- _ => apply bool_decide_eq_true in H
  | H : bool_decide _ = false |- _ => apply bool_decide_eq_false in H
  | H : negb _ = true |- _ => apply negb_true_iff in H
  | H : negb _ = false |- _ => apply negb_false_iff in H
  | H : _ && _ = true |- _ => apply andb_true_iff in H; destruct H
  | H : _ || _ = false |- _ => apply orb_false_iff in H; destruct H
  | H : (_ <? _) = true |- _ => apply Z.ltb_lt in H
  | H : (_ <? _) = false |- _ => apply Z.ltb_ge in H
  | H : (_ <=? _) = true |- _ => apply Z.leb_le in H
  | H : (_ <=? _) = false |- _ => apply Z.leb_gt in H
  | H : (_ =? _) = true |- _ => apply Z.eqb_eq in H
  | H : (_ =? _) = false |- _ => apply Z.eqb_neq in H
  end.
