(* ===== verification/GoStd.v ===== *)
(** * Go's standard library, as far as the operator uses it

    Go strings are sequences of bytes: [string] of [ascii].  This file holds
    the functions of the packages [strings], [strconv], [fmt] and [sort] the
    operator calls, with the lemmas the components share.

    [fmt.Sprintf] is written out as concatenations; [%d] is [itoa], [%t] is
    [FormatBool], [%q] is [quote] (Go's escapes for bytes below 0x80; longer
    UTF-8 sequences are kept, which is what Go does for printable runes). *)

From S2P Require Import Prelude.
From Stdlib Require Import Ascii.
From stdpp Require Import sorting.

Open Scope string_scope.
Open Scope list_scope.

(** ** Characters and strings *)

(** [strings.IndexByte s c >= 0]. *)
Fixpoint has_char (c : ascii) (s : string) : bool :=
  match s with
  | "" => false
  | String d s' => if ascii_dec d c then true else has_char c s'
  end.

Definition HasPrefix (s p : string) : bool := String.prefix p s.

(** [strings.CutPrefix]: the rest after the prefix, or nothing. *)
Fixpoint CutPrefix (s p : string) {struct p} : option string :=
  match p, s with
  | "", _ => Some s
  | String a p', String b s' => if ascii_dec a b then CutPrefix s' p' else None
  | String _ _, "" => None
  end.

Definition TrimPrefix (s p : string) : string := default s (CutPrefix s p).

(** [strings.Cut s sep], as an option: the parts around the first [sep]. *)
Fixpoint cut (s sep : string) : option (string * string) :=
  match CutPrefix s sep with
  | Some rest => Some ("", rest)
  | None => match s with
            | "" => None
            | String c s' => '(a, b) ← cut s' sep; Some (String c a, b)
            end
  end.

(** Is [s] not the empty string? *)
Definition nonempty_str (s : string) : bool := match s with "" => false | _ => true end.

(** The Go result: [(before, after, found)], [s], nothing and [false] when absent. *)
Definition Cut (s sep : string) : string * string * bool :=
  match cut s sep with
  | Some (a, b) => (a, b, true)
  | None => (s, "", false)
  end.

(** [strings.Split s sep] for a separator of one byte. *)
Fixpoint Split (c : ascii) (s : string) : list string :=
  match s with
  | "" => [""]
  | String d s' =>
      if ascii_dec d c then "" :: Split c s'
      else match Split c s' with
           | [] => [String d ""]
           | w :: ws => String d w :: ws
           end
  end.

(** [strings.Join]. *)
Fixpoint Join (l : list string) (sep : string) : string :=
  match l with
  | [] => ""
  | [s] => s
  | s :: l' => s +:+ sep +:+ Join l' sep
  end.

(** The parts of [s] around the last [c]. *)
Fixpoint cut_last (c : ascii) (s : string) : option (string * string) :=
  match s with
  | "" => None
  | String d s' =>
      match cut_last c s' with
      | Some (a, b) => Some (String d a, b)
      | None => if ascii_dec d c then Some ("", s') else None
      end
  end.

(** [s[:n]] and [s[n:]] for [n] within bounds. *)
Definition take_str (n : nat) (s : string) : string := String.substring 0 n s.
Definition len (s : string) : Z := Z.of_nat (String.length s).

Fixpoint drop_while (p : ascii → bool) (s : string) : string :=
  match s with
  | String c s' => if p c then drop_while p s' else s
  | "" => ""
  end.

Fixpoint take_until (p : ascii → bool) (s : string) : string :=
  match s with
  | String c s' => if p c then "" else String c (take_until p s')
  | "" => ""
  end.

Fixpoint rev_app_str (s acc : string) : string :=
  match s with "" => acc | String c s' => rev_app_str s' (String c acc) end.
Definition rev_str (s : string) : string := rev_app_str s "".

(** [strings.TrimLeft], [strings.TrimRight] and [strings.Trim] for a set of bytes. *)
Definition in_cutset (cs : string) (c : ascii) : bool := has_char c cs.
Definition TrimLeft (s cs : string) : string := drop_while (in_cutset cs) s.
Definition TrimRight (s cs : string) : string := rev_str (drop_while (in_cutset cs) (rev_str s)).
Definition Trim (s cs : string) : string := TrimRight (TrimLeft s cs) cs.

Definition chr (n : nat) : string := String (ascii_of_nat n) "".

(** The UTF-8 encodings of the runes [unicode.IsSpace] accepts. *)
Definition utf8_spaces : list string :=
  [ chr 9; chr 10; chr 11; chr 12; chr 13; chr 32;
    chr 194 +:+ chr 133; chr 194 +:+ chr 160;
    chr 225 +:+ chr 154 +:+ chr 128 ] ++
  ((λ n, chr 226 +:+ chr 128 +:+ chr (128 + n)) <$> seq 0 11) ++
  [ chr 226 +:+ chr 128 +:+ chr 168; chr 226 +:+ chr 128 +:+ chr 169;
    chr 226 +:+ chr 128 +:+ chr 175; chr 226 +:+ chr 129 +:+ chr 159;
    chr 227 +:+ chr 128 +:+ chr 128 ].

(** Strips leading members of [ws]; [fuel] at least the length suffices, since
    every member is non-empty. *)
Fixpoint strip_prefixes (ws : list string) (fuel : nat) (s : string) : string :=
  match fuel with
  | O => s
  | S f => match head (omap (CutPrefix s) ws) with
           | Some rest => strip_prefixes ws f rest
           | None => s
           end
  end.

Definition TrimSpace (s : string) : string :=
  let l := strip_prefixes utf8_spaces (String.length s) s in
  rev_str (strip_prefixes (rev_str <$> utf8_spaces) (String.length l) (rev_str l)).

(** ** strconv and fmt *)

Definition itoa (z : Z) : string := pretty z.
Definition FormatBool (b : bool) : string := if b then "true" else "false".

Definition digit_val (c : ascii) : option Z :=
  let n := nat_of_ascii c in
  if (48 <=? n)%nat && (n <=? 57)%nat then Some (Z.of_nat n - 48)%Z else None.

Fixpoint digits_acc (s : string) (acc : Z) : option Z :=
  match s with
  | "" => Some acc
  | String c s' => d ← digit_val c; digits_acc s' (acc * 10 + d)%Z
  end.

Definition digits (s : string) : option Z :=
  match s with "" => None | _ => digits_acc s 0 end.

Definition hex_digit (n : nat) : ascii :=
  default "0"%char (String.get n "0123456789abcdef").
Definition hex_byte (c : ascii) : string :=
  let n := nat_of_ascii c in String (hex_digit (n / 16)) (String (hex_digit (n mod 16)) "").

Definition quote_char (c : ascii) : string :=
  let n := nat_of_ascii c in
  match n with
  | 7 => "\a" | 8 => "\b" | 12 => "\f" | 10 => "\n" | 13 => "\r" | 9 => "\t" | 11 => "\v"
  | 34 => "\" +:+ chr 34
  | 92 => "\\"
  | _ => if (n <? 32)%nat || (n =? 127)%nat then "\x" +:+ hex_byte c else String c ""
  end%nat.

Fixpoint quote_body (s : string) : string :=
  match s with "" => "" | String c s' => quote_char c +:+ quote_body s' end.
Definition quote (s : string) : string := chr 34 +:+ quote_body s +:+ chr 34.

(** [strconv.ParseUint s 10 64]. *)
Definition ParseUint (s : string) : result Z :=
  match digits s with
  | None => Err (newError ("strconv.ParseUint: parsing " +:+ quote s +:+ ": invalid syntax"))
  | Some z => if (z <? 2 ^ 64)%Z then Ok z
              else Err (newError ("strconv.ParseUint: parsing " +:+ quote s +:+ ": value out of range"))
  end.

(** [strconv.Atoi s], on a 64-bit [int]. *)
Definition Atoi (s : string) : result Z :=
  let '(neg, body) := match s with
                      | String "-" s' => (true, s')
                      | String "+" s' => (false, s')
                      | _ => (false, s)
                      end in
  match digits body with
  | None => Err (newError ("strconv.Atoi: parsing " +:+ quote s +:+ ": invalid syntax"))
  | Some z => let v := if (neg : bool) then (- z)%Z else z in
              if ((- 2 ^ 63 <=? v) && (v <? 2 ^ 63))%Z then Ok v
              else Err (newError ("strconv.Atoi: parsing " +:+ quote s +:+ ": value out of range"))
  end.

(** ** sort *)

(** [sort.SliceStable l less]: the stable sort by [less]; [sort.Strings] is its
    instance at the byte order on strings. *)
Fixpoint insert_stable {A} (less : A → A → bool) (x : A) (l : list A) : list A :=
  match l with
  | [] => [x]
  | y :: l' => if less y x then y :: insert_stable less x l' else x :: y :: l'
  end.

Definition SliceStable {A} (less : A → A → bool) (l : list A) : list A :=
  foldr (insert_stable less) [] l.

Definition str_lt (a b : string) : bool := String.ltb a b.
Definition sort_Strings (l : list string) : list string := SliceStable str_lt l.

(** ** range over a map

    Go iterates over a map in an unspecified order: a parameter, of which only
    the set of keys visited is known. *)

Class MapOrder := { range_keys : ∀ {V : Type}, gmap string V → list string }.

Class MapOrderLaws (MO : MapOrder) : Prop := {
  range_keys_perm {V} (m : gmap string V) : range_keys m ≡ₚ (map_to_list m).*1
}.

Definition list_order : MapOrder := {| range_keys V m := (map_to_list m).*1 |}.

Lemma list_order_laws : MapOrderLaws list_order.
Proof. by split. Qed.

Lemma elem_of_range_keys {MO : MapOrder} `{!MapOrderLaws MO} {V} (m : gmap string V) k :
  k ∈ range_keys m ↔ is_Some (m !! k).
Proof.
  rewrite range_keys_perm, list_elem_of_fmap. split.
  - intros ([k' v] & -> & Hin). apply elem_of_map_to_list in Hin. cbn. by rewrite Hin.
  - intros [v Hv]. exists (k, v). split; [done|]. by apply elem_of_map_to_list.
Qed.

Lemma NoDup_range_keys {MO : MapOrder} `{!MapOrderLaws MO} {V} (m : gmap string V) : NoDup (range_keys m).
Proof. rewrite range_keys_perm. apply NoDup_fst_map_to_list. Qed.

(** ** encoding/hex *)

Fixpoint hex_EncodeToString (s : string) : string :=
  match s with "" => "" | String c s' => hex_byte c +:+ hex_EncodeToString s' end.

(** ** Lemmas on strings *)

Lemma str_app_nil_r s : s +:+ "" = s.
Proof. induction s; cbn; congruence. Qed.

Lemma str_app_assoc a b c : (a +:+ b) +:+ c = a +:+ (b +:+ c).
Proof. induction a; cbn; congruence. Qed.

Lemma str_app_cons c a b : String c a +:+ b = String c (a +:+ b).
Proof. reflexivity. Qed.

Lemma str_length_app a b :
  String.length (a +:+ b) = (String.length a + String.length b)%nat.
Proof. induction a; cbn; congruence. Qed.

Lemma len_app a b : len (a +:+ b) = (len a + len b)%Z.
Proof. unfold len. rewrite str_length_app. lia. Qed.

Lemma len_nonneg s : (0 ≤ len s)%Z.
Proof. unfold len. lia. Qed.

Lemma has_char_app c a b : has_char c (a +:+ b) = has_char c a || has_char c b.
Proof. induction a; cbn; [done|]. by destruct (ascii_dec _ _). Qed.

Lemma CutPrefix_app p s : CutPrefix (p +:+ s) p = Some s.
Proof. induction p; cbn; [done|]. by destruct (ascii_dec _ _). Qed.

Lemma CutPrefix_Some s p r : CutPrefix s p = Some r → s = p +:+ r.
Proof.
  revert s. induction p as [|a p IH]; intros [|b s]; cbn; try congruence.
  destruct (ascii_dec a b); [|done]. intros ->%IH. by subst.
Qed.

Lemma cut_Some s sep a b : cut s sep = Some (a, b) → s = a +:+ sep +:+ b.
Proof.
  revert a. induction s as [|c s IH]; intros a.
  - destruct sep; cbn; [intros [=]; by subst|done].
  - unfold cut; fold cut. destruct (CutPrefix (String c s) sep) eqn:E.
    { intros [= <- <-]. by apply CutPrefix_Some in E. }
    destruct (cut s sep) as [[a' b']|]; cbn; [|done].
    intros [= <- <-]. cbn. f_equal. by apply IH.
Qed.

(** A separator is found where its first byte first occurs, when it is there. *)
Lemma cut_app_first c sep a b :
  has_char c a = false → cut (a +:+ String c sep +:+ b) (String c sep) = Some (a, b).
Proof.
  induction a as [|d a IH]; intros Hc.
  - change ("" +:+ String c sep +:+ b) with (String c sep +:+ b). change (String c sep +:+ b) with (String c (sep +:+ b)). cbn.
    destruct (ascii_dec c c); [|done]. by rewrite CutPrefix_app.
  - cbn in Hc |- *. destruct (ascii_dec d c); [done|].
    destruct (ascii_dec c d); [congruence|]. cbn in IH. by rewrite IH.
Qed.

(** Text without the separator's first byte is skipped. *)
Lemma cut_skip c sep a b :
  has_char c a = false →
  cut (a +:+ b) (String c sep) = '(x, y) ← cut b (String c sep); Some (a +:+ x, y).
Proof.
  induction a as [|d a IH]; intros Hc; [change ("" +:+ b) with b; by destruct (cut b _) as [[??]|]|].
  cbn in Hc |- *. destruct (ascii_dec d c); [done|].
  destruct (ascii_dec c d); [congruence|]. rewrite IH by done.
  by destruct (cut b _) as [[??]|].
Qed.

(** One occurrence of the first byte which does not start the separator. *)
Lemma cut_step c sep s :
  CutPrefix s sep = None →
  cut (String c s) (String c sep) = '(x, y) ← cut s (String c sep); Some (String c x, y).
Proof. intros H. cbn. destruct (ascii_dec c c); [|done]. by rewrite H. Qed.

Lemma cut_None_nochar c sep s :
  has_char c s = false → cut s (String c sep) = None.
Proof.
  induction s as [|d s IH]; [done|]. cbn. destruct (ascii_dec d c); [done|].
  intros Hs. destruct (ascii_dec c d); [congruence|]. by rewrite IH.
Qed.

Lemma Split_app c a b :
  has_char c a = false → Split c (a +:+ String c b) = a :: Split c b.
Proof.
  induction a as [|d a IH]; intros Hc; cbn in *; destruct (ascii_dec _ _); try done.
  by rewrite IH.
Qed.

Lemma Split_nochar c a : has_char c a = false → Split c a = [a].
Proof.
  induction a as [|d a IH]; intros Hc; cbn in *; [done|].
  destruct (ascii_dec _ _); [done|]. by rewrite IH.
Qed.

Lemma Split_nonnil c s : Split c s ≠ [].
Proof. destruct s; cbn; [done|]. destruct (ascii_dec _ _); [done|]. by destruct (Split _ _). Qed.

(** [Join] undoes [Split]. *)
Lemma Join_Split c s : Join (Split c s) (String c "") = s.
Proof.
  induction s as [|d s IH]; [done|]. cbn.
  pose proof (Split_nonnil c s). destruct (ascii_dec d c) as [->|].
  - destruct (Split c s); [done|]. change (Join ("" :: ?a :: ?l) ?x) with (x +:+ Join (a :: l) x).
    by rewrite IH.
  - destruct (Split c s) as [|w ws]; [done|]. rewrite <- IH. by destruct ws.
Qed.

Lemma take_str_length n s :
  (n ≤ String.length s)%nat → String.length (take_str n s) = n.
Proof.
  unfold take_str. revert n. induction s; intros [|n] Hn; cbn in *; try lia.
  rewrite IHs; lia.
Qed.

Lemma take_str_prefix n s : ∃ r, s = take_str n s +:+ r.
Proof.
  unfold take_str. revert n. induction s as [|c s IH]; intros [|n]; cbn; eauto.
  destruct (IH n) as [r Hr]. exists r. by rewrite <- Hr.
Qed.

Lemma HasPrefix_app p s : HasPrefix (p +:+ s) p = true.
Proof. unfold HasPrefix. induction p; cbn; [by destruct s|]. by destruct (ascii_dec _ _). Qed.

Lemma take_str_app n a b :
  (String.length a ≤ n)%nat → take_str n (a +:+ b) = a +:+ take_str (n - String.length a) b.
Proof.
  unfold take_str. revert n. induction a as [|c a IH]; intros n Hn; cbn in *.
  { by rewrite Nat.sub_0_r. }
  destruct n as [|n]; [lia|]. cbn. f_equal. apply IH. lia.
Qed.

(** ** Lemmas on the stable sort *)

Section sort.
Context {A : Type} (less : A → A → bool).

(** [a] may stand before [b]. *)
Definition not_after (a b : A) : Prop := less b a = false.
Definition equiv (a b : A) : bool := negb (less a b) && negb (less b a).

Lemma insert_stable_Permutation x l : insert_stable less x l ≡ₚ x :: l.
Proof.
  induction l as [|y l IH]; cbn; [done|]. destruct (less y x); [|done].
  rewrite IH. constructor.
Qed.

Lemma SliceStable_Permutation l : SliceStable less l ≡ₚ l.
Proof. induction l; cbn; [done|]. by rewrite insert_stable_Permutation, IHl. Qed.

(** Go requires [less] to be a strict weak order. *)
Context (less_asym : ∀ a b, less a b = true → less b a = false).
Context (not_after_trans : ∀ a b c, not_after a b → not_after b c → not_after a c).

Lemma insert_stable_sorted x l :
  StronglySorted not_after l → StronglySorted not_after (insert_stable less x l).
Proof.
  induction 1 as [|y l Hl IH Hy]; cbn; [by repeat constructor|].
  destruct (less y x) eqn:E.
  - constructor; [done|]. rewrite insert_stable_Permutation. constructor; [|done].
    by apply less_asym.
  - constructor; [by constructor|]. constructor; [done|].
    eapply Forall_impl; [exact Hy|]. intros z. by apply not_after_trans.
Qed.

Lemma SliceStable_sorted l : StronglySorted not_after (SliceStable less l).
Proof. induction l; cbn; [constructor|]. by apply insert_stable_sorted. Qed.

Lemma equiv_spec a b : equiv a b = true ↔ not_after a b ∧ not_after b a.
Proof. unfold equiv, not_after. destruct (less a b), (less b a); cbn; intuition congruence. Qed.

Lemma equiv_refl a : equiv a a = true.
Proof.
  unfold equiv. destruct (less a a) eqn:E; [|done]. by rewrite (less_asym a a E) in E.
Qed.

(** Elements that compare equal keep their order. *)
Lemma insert_stable_filter z x l :
  filter (λ y, equiv z y = true) (insert_stable less x l)
  = filter (λ y, equiv z y = true) (x :: l).
Proof.
  induction l as [|y l IH]; cbn [insert_stable]; [done|].
  destruct (less y x) eqn:E; [|done].
  rewrite filter_cons, IH, !filter_cons.
  destruct (decide (equiv z y = true)) as [Hy|], (decide (equiv z x = true)) as [Hx|]; try done.
  exfalso. apply equiv_spec in Hy as [? ?], Hx as [? ?].
  assert (not_after x y) as Hxy by eauto. unfold not_after in Hxy. congruence.
Qed.

Lemma SliceStable_filter z l :
  filter (λ y, equiv z y = true) (SliceStable less l) = filter (λ y, equiv z y = true) l.
Proof.
  induction l as [|x l IH]; cbn [SliceStable foldr]; [done|].
  rewrite insert_stable_filter. fold (SliceStable less l). by rewrite !filter_cons, IH.
Qed.

Lemma sorted_head_first x l y :
  StronglySorted not_after (x :: l) → y ∈ x :: l → not_after x y.
Proof.
  intros [Hx _]%StronglySorted_cons [->|Hy]%elem_of_cons.
  - apply equiv_spec, equiv_refl.
  - by eapply Forall_forall in Hx.
Qed.

(** A sorted list is determined by its runs of equal elements. *)
Lemma sorted_filter_ext l1 l2 :
  StronglySorted not_after l1 → StronglySorted not_after l2 →
  (∀ z, filter (λ y, equiv z y = true) l1 = filter (λ y, equiv z y = true) l2) →
  l1 = l2.
Proof.
  revert l2. induction l1 as [|x l1 IH]; intros l2 H1 H2 Hf.
  { destruct l2 as [|y l2]; [done|]. specialize (Hf y).
    rewrite filter_cons_True in Hf by apply equiv_refl. done. }
  destruct l2 as [|y l2].
  { specialize (Hf x). by rewrite filter_cons_True in Hf by apply equiv_refl. }
  assert (y ∈ x :: l1) as Hy.
  { assert (y ∈ filter (λ u, equiv y u = true) (x :: l1)) as E
      by (rewrite Hf, filter_cons_True by apply equiv_refl; apply list_elem_of_here).
    by apply list_elem_of_filter in E as [_ E]. }
  assert (x ∈ y :: l2) as Hx.
  { assert (x ∈ filter (λ u, equiv x u = true) (y :: l2)) as E
      by (rewrite <- Hf, filter_cons_True by apply equiv_refl; apply list_elem_of_here).
    by apply list_elem_of_filter in E as [_ E]. }
  assert (equiv x y = true) as Exy by (apply equiv_spec; split; by eapply sorted_head_first).
  assert (x = y) as ->.
  { specialize (Hf x). rewrite !filter_cons_True in Hf by (done || apply equiv_refl). congruence. }
  f_equal. apply StronglySorted_cons in H1 as [_ ?], H2 as [_ ?].
  apply IH; [done..|]. intros z. specialize (Hf z).
  rewrite !filter_cons in Hf. destruct (decide _); congruence.
Qed.

(** The result of a stable sort depends only on those runs. *)
Lemma SliceStable_ext l1 l2 :
  (∀ z, filter (λ y, equiv z y = true) l1 = filter (λ y, equiv z y = true) l2) →
  SliceStable less l1 = SliceStable less l2.
Proof.
  intros H. apply sorted_filter_ext; [apply SliceStable_sorted..|].
  intros z. by rewrite !SliceStable_filter.
Qed.
End sort.

(** ** The byte order on strings *)

Lemma str_lt_ge a b : str_lt b a = false ↔ String.le a b.
Proof.
  unfold str_lt, String.le, String.ltb, String.leb. rewrite (String.compare_antisym b a).
  destruct (a ?= b)%string; cbn; naive_solver.
Qed.

Lemma str_lt_asym a b : str_lt a b = true → str_lt b a = false.
Proof.
  unfold str_lt, String.ltb. rewrite (String.compare_antisym b a).
  by destruct (a ?= b)%string.
Qed.

Lemma str_not_after_trans a b c :
  not_after str_lt a b → not_after str_lt b c → not_after str_lt a c.
Proof. unfold not_after. rewrite !str_lt_ge. by etrans. Qed.

Lemma str_lt_antisym a b : str_lt a b = false → str_lt b a = false → a = b.
Proof. rewrite !str_lt_ge. intros. by apply (anti_symm String.le). Qed.

Lemma str_lt_trans a b c : str_lt a b = true → str_lt b c = true → str_lt a c = true.
Proof.
  intros H1 H2. destruct (str_lt a c) eqn:E; [done|].
  pose proof (proj1 (str_lt_ge _ _) (str_lt_asym _ _ H1)) as L1.
  pose proof (proj1 (str_lt_ge _ _) (str_lt_asym _ _ H2)) as L2.
  apply str_lt_ge in E. assert (b = c) as -> by (apply (anti_symm String.le); [done|by trans a]).
  pose proof (str_lt_asym _ _ H2). congruence.
Qed.

Lemma sort_Strings_sorted l : StronglySorted (not_after str_lt) (sort_Strings l).
Proof. apply SliceStable_sorted; [exact str_lt_asym|exact str_not_after_trans]. Qed.

(** Sorting strings forgets the order of the input. *)
Lemma sort_Strings_Permutation l1 l2 : l1 ≡ₚ l2 → sort_Strings l1 = sort_Strings l2.
Proof.
  intros Hl.
  assert (AntiSymm (=) (not_after str_lt)) by (intros a b ??; by apply str_lt_antisym).
  apply (StronglySorted_unique (not_after str_lt)); [apply sort_Strings_sorted..|].
  unfold sort_Strings. by rewrite !SliceStable_Permutation.
Qed.

(** *** Reversal *)

Lemma rev_app_str_app s acc : rev_app_str s acc = rev_str s +:+ acc.
Proof.
  unfold rev_str. revert acc. induction s as [|c s IH]; intros acc; cbn; [done|].
  rewrite IH, (IH (String c "")), str_app_assoc. done.
Qed.

Lemma rev_str_cons c s : rev_str (String c s) = rev_str s +:+ String c "".
Proof. unfold rev_str at 1. cbn. by rewrite rev_app_str_app. Qed.

Lemma rev_str_snoc s c : rev_str (s +:+ String c "") = String c (rev_str s).
Proof.
  induction s as [|d s IH]; [done|]. change (String d s +:+ String c "") with (String d (s +:+ String c "")).
  rewrite !rev_str_cons, IH. done.
Qed.

Lemma rev_str_involutive s : rev_str (rev_str s) = s.
Proof. induction s as [|c s IH]; [done|]. by rewrite rev_str_cons, rev_str_snoc, IH. Qed.

Lemma rev_str_app a b : rev_str (a +:+ b) = rev_str b +:+ rev_str a.
Proof.
  induction a as [|c a IH]; [by rewrite str_app_nil_r|].
  rewrite str_app_cons, !rev_str_cons, IH. by rewrite str_app_assoc.
Qed.

(** ** Names told apart by their suffixes *)

Definition has_suffix (s t : string) : bool := HasPrefix (rev_str s) (rev_str t).

Lemma has_suffix_app u s : has_suffix (u +:+ s) s = true.
Proof. unfold has_suffix. rewrite rev_str_app. apply HasPrefix_app. Qed.

Lemma str_app_split a b s t :
  a +:+ s = b +:+ t → (∃ u, t = u +:+ s) ∨ (∃ u, s = u +:+ t).
Proof.
  revert b. induction a as [|c a IH]; intros b E; [right; by exists b|].
  destruct b as [|d b]; [left; by exists (String c a)|]. injection E as _ E. eauto.
Qed.

(** Neither of two suffixes ends with the other, or they are the same. *)
Definition suffixes_apart (s t : string) : bool :=
  String.eqb s t || negb (has_suffix s t || has_suffix t s).

Lemma str_app_apart a b s t : suffixes_apart s t = true → a +:+ s = b +:+ t → a = b ∧ s = t.
Proof.
  intros [Hs%String.eqb_eq|Hs]%orb_true_iff E.
  - subst. split; [|done]. revert b E. induction a as [|c a IH]; intros b E; destruct b as [|d b]; [done|..].
    + apply (f_equal String.length) in E. cbn in E. rewrite str_length_app in E. lia.
    + apply (f_equal String.length) in E. cbn in E. rewrite str_length_app in E. lia.
    + injection E as -> E. by rewrite (IH b).
  - apply negb_true_iff, orb_false_iff in Hs as [H1 H2].
    destruct (str_app_split _ _ _ _ E) as [[u ->]|[u ->]]; rewrite has_suffix_app in *; done.
Qed.
