(* ===== verification/GoNet.v ===== *)
(** * Go's package net, as far as the operator uses it

    [net.SplitHostPort] and [net.JoinHostPort], the host and port accessors of
    [url.URL], and [url.Parse] as a parameter. *)

From Stdlib Require Import Ascii.
From S2P Require Import Prelude GoStd.

Open Scope string_scope.
Open Scope list_scope.

Definition colon : ascii := ":"%char.
Definition open_bracket : ascii := "["%char.
Definition close_bracket : ascii := "]"%char.

Definition addrError {A} (addr why : string) : result A :=
  Err (newError ("address " +:+ addr +:+ ": " +:+ why)).

(** [net.SplitHostPort]. The port starts after the last colon; a leading bracket
    must be closed right before it. *)
Definition SplitHostPort (hostport : string) : result (string * string) :=
  match cut_last colon hostport with
  | None => addrError hostport "missing port in address"
  | Some (before, port) =>
      let finish host from_open from_close :=
        if has_char open_bracket from_open then addrError hostport "unexpected '[' in address"
        else if has_char close_bracket from_close then addrError hostport "unexpected ']' in address"
        else Ok (host, port) in
      match hostport with
      | String "[" inner =>
          match cut inner "]" with
          | None => addrError hostport "missing ']' in address"
          | Some (host, rest) =>
              if bool_decide (rest = String colon port) then finish host inner rest
              else if HasPrefix rest ":" then addrError hostport "too many colons in address"
              else addrError hostport "missing port in address"
          end
      | _ =>
          if has_char colon before then addrError hostport "too many colons in address"
          else finish before hostport hostport
      end
  end.

Definition JoinHostPort (host port : string) : string :=
  if has_char colon host then "[" +:+ host +:+ "]:" +:+ port else host +:+ ":" +:+ port.

(** ** net/url

    What [url.Parse] accepts has changed from one Go release to the next; the
    operator reads the parts below of what it returns. *)

Record URL := mkURL { url_Scheme : string; url_Host : string; url_Path : string; url_RawQuery : string }.

Class URLParser := { url_Parse : string → result URL }.

Fixpoint all_digits (s : string) : bool :=
  match s with "" => true | String c s => bool_decide (is_Some (digit_val c)) && all_digits s end.

(** The parts of [Host] around the last colon, when a port follows it. *)
Definition split_port (host : string) : string * string :=
  match cut_last colon host with
  | Some (before, port) => if all_digits port then (before, port) else (host, "")
  | None => (host, "")
  end.

Definition Hostname (u : URL) : string :=
  let host := (split_port (url_Host u)).1 in
  match host with
  | String "[" inner => default host (cut_last close_bracket inner ≫= λ '(h, rest), if nonempty_str rest then None else Some h)
  | _ => host
  end.

Definition Port (u : URL) : string := (split_port (url_Host u)).2.

(** ** Lemmas *)

Lemma cut_last_None c s : has_char c s = false → cut_last c s = None.
Proof.
  induction s as [|d s IH]; [done|]. cbn. destruct (ascii_dec d c); intros Hs; [discriminate|].
  by rewrite IH.
Qed.

Lemma cut_last_app c a b : has_char c b = false → cut_last c (a +:+ String c b) = Some (a, b).
Proof.
  intros Hb. induction a as [|d a IH]; cbn.
  - rewrite cut_last_None by done. by destruct (ascii_dec c c).
  - cbn in IH. by rewrite IH.
Qed.

Lemma cut_char c a b : has_char c a = false → cut (a +:+ String c b) (String c "") = Some (a, b).
Proof. apply (cut_app_first c ""). Qed.

(** A host and port can be read back from the address they make. *)
Lemma SplitHostPort_Join host port :
  has_char open_bracket host = false → has_char close_bracket host = false →
  has_char colon port = false → has_char open_bracket port = false → has_char close_bracket port = false →
  SplitHostPort (JoinHostPort host port) = Ok (host, port).
Proof.
  intros Ho Hc Hpc Hpo Hpb. unfold JoinHostPort. destruct (has_char colon host) eqn:E.
  - assert (cut_last colon (String "[" (host +:+ String close_bracket (String colon port))) =
              Some (String "[" (host +:+ "]"), port)) as Hl.
    { rewrite <- (cut_last_app colon (String "[" (host +:+ "]")) port Hpc). f_equal. cbn. f_equal.
      by rewrite str_app_assoc. }
    unfold SplitHostPort. change ("[" +:+ host +:+ "]:" +:+ port)
      with (String "[" (host +:+ String close_bracket (String colon port))).
    rewrite Hl, cut_char by done. cbv zeta. rewrite bool_decide_true by done.
    rewrite has_char_app, Ho. cbn. by rewrite Hpo, Hpb.
  - unfold SplitHostPort. change (host +:+ ":" +:+ port) with (host +:+ String colon port).
    rewrite cut_last_app by done. cbv zeta. rewrite E, !has_char_app, Ho, Hc. cbn. rewrite Hpo, Hpb.
    destruct host as [|d host]; [done|]. cbn in Ho. destruct (ascii_dec d open_bracket) as [|Hd]; [done|].
    cbn. destruct d as [[] [] [] [] [] [] [] []]; try reflexivity. by destruct Hd.
Qed.

(** ** net/http

    A request as the operator builds it, and what becomes of it: a parameter.
    The trusted CA is the client's, [None] for the system's roots. *)

Record HTTPRequest := mkRequest {
  req_Method : string;
  req_URL : string;
  req_Headers : list (string * string);
  req_Body : string;
  req_TrustedCA : option string
}.

(** The request cannot be built, no response arrives, or one does: its status, the
    bytes of its body that can be read, and the error reading it ends with, if not
    the end of the body. *)
Inductive HTTPAnswer :=
  | BadRequest (e : GoError)
  | NoResponse (e : GoError)
  | Response (status : Z) (body : string) (broken : option GoError).

Class HTTPTransport (W : Type) := { http_Do : HTTPRequest → W → HTTPAnswer * W }.
