(* ===== verification/GoJSON.v ===== *)
(** * Go's packages encoding/json and encoding/base64, as far as the operator uses them

    [Marshal] of a [map[string]string], the decoder, the filling of a struct of
    text fields or of a slice of such structs from a decoded value, and
    [base64.StdEncoding].  Strings are byte strings; text that is not UTF-8 is
    replaced byte by byte, on both sides, as Go does. *)

From Stdlib Require Import Ascii.
From S2P Require Import Prelude GoStd.

Open Scope string_scope.
Open Scope list_scope.

Unset Elimination Schemes.
Inductive JSON :=
  | JNull
  | JBool (b : bool)
  | JNumber (literal : string)
  | JString (s : string)
  | JArray (l : list JSON)
  | JObject (members : list (string * JSON)).
Set Elimination Schemes.

(** ** UTF-8 *)

Definition code (c : ascii) : nat := nat_of_ascii c.
Definition between (lo hi : nat) (c : ascii) : bool := (lo <=? code c)%nat && (code c <=? hi)%nat.
Definition continuation (c : ascii) : bool := between 128 191 c.

(** The encodings of one rune of two, three and four bytes: neither overlong, nor
    a surrogate, nor above U+10FFFF. *)
Definition rune2 (a b : ascii) : bool := between 194 223 a && continuation b.
Definition rune3 (a b c : ascii) : bool :=
  continuation c &&
  ((between 224 224 a && between 160 191 b) ||
   ((between 225 236 a || between 238 239 a) && continuation b) ||
   (between 237 237 a && between 128 159 b)).
Definition rune4 (a b c d : ascii) : bool :=
  continuation c && continuation d &&
  ((between 240 240 a && between 144 191 b) ||
   (between 241 243 a && continuation b) ||
   (between 244 244 a && between 128 143 b)).

Inductive utf8 : string → Prop :=
  | utf8_nil : utf8 ""
  | utf8_ascii a s : (code a < 128)%nat → utf8 s → utf8 (String a s)
  | utf8_two a b s : rune2 a b = true → utf8 s → utf8 (String a (String b s))
  | utf8_three a b c s : rune3 a b c = true → utf8 s → utf8 (String a (String b (String c s)))
  | utf8_four a b c d s :
      rune4 a b c d = true → utf8 s → utf8 (String a (String b (String c (String d s)))).

(** [utf8.AppendRune]. *)
Definition byte_of (z : Z) : ascii := ascii_of_nat (Z.to_nat z).

Definition rune_bytes (r : Z) : string :=
  (if r <? 128 then String (byte_of r) ""
   else if r <? 2048 then
     String (byte_of (192 + r / 64)) (String (byte_of (128 + r mod 64)) "")
   else if r <? 65536 then
     String (byte_of (224 + r / 4096)) (String (byte_of (128 + (r / 64) mod 64))
       (String (byte_of (128 + r mod 64)) ""))
   else
     String (byte_of (240 + r / 262144)) (String (byte_of (128 + (r / 4096) mod 64))
       (String (byte_of (128 + (r / 64) mod 64)) (String (byte_of (128 + r mod 64)) ""))))%Z.

(** U+FFFD. *)
Definition replacement : string := chr 239 +:+ chr 191 +:+ chr 189.

(** ** Encoding *)

Definition dquote : ascii := ascii_of_nat 34.
Definition backslash : ascii := ascii_of_nat 92.

(** One byte below 0x80, with [escapeHTML] on. *)
Definition escape_ascii (c : ascii) : string :=
  match code c with
  | 34 | 92 => String backslash (String c "")
  | 8 => "\b" | 12 => "\f" | 10 => "\n" | 13 => "\r" | 9 => "\t"
  | 60 | 62 | 38 => "\u00" +:+ hex_byte c
  | n => if (n <? 32)%nat then "\u00" +:+ hex_byte c else String c ""
  end%nat.

(** U+2028 and U+2029. *)
Definition line_separator (a b c : ascii) : option string :=
  if between 226 226 a && between 128 128 b then
    if between 168 168 c then Some "\u2028" else if between 169 169 c then Some "\u2029" else None
  else None.

Fixpoint escape (s : string) : string :=
  match s with
  | "" => ""
  | String a s1 =>
      if (code a <? 128)%nat then escape_ascii a +:+ escape s1
      else match s1 with
      | String b s2 =>
          if rune2 a b then String a (String b (escape s2))
          else match s2 with
          | String c s3 =>
              if rune3 a b c then
                match line_separator a b c with
                | Some t => t +:+ escape s3
                | None => String a (String b (String c (escape s3)))
                end
              else match s3 with
              | String d s4 =>
                  if rune4 a b c d then String a (String b (String c (String d (escape s4))))
                  else "\ufffd" +:+ escape s1
              | "" => "\ufffd" +:+ escape s1
              end
          | "" => "\ufffd" +:+ escape s1
          end
      | "" => "\ufffd" +:+ escape s1
      end
  end.

Definition json_string (s : string) : string :=
  String dquote (escape s +:+ String dquote "").

(** [json.Marshal] of a [map[string]string] given by its members in the order of
    their keys. *)
Definition Marshal (members : list (string * string)) : string :=
  "{" +:+ Join ((λ m, json_string m.1 +:+ ":" +:+ json_string m.2) <$> members) "," +:+ "}".

(** ** Decoding *)

Definition hex_val (c : ascii) : option Z :=
  let n := Z.of_nat (code c) in
  if between 48 57 c then Some (n - 48)%Z
  else if between 97 102 c then Some (n - 87)%Z
  else if between 65 70 c then Some (n - 55)%Z
  else None.

Definition hex4 (a b c d : ascii) : option Z :=
  x ← hex_val a; y ← hex_val b; z ← hex_val c; w ← hex_val d;
  Some (x * 4096 + y * 256 + z * 16 + w)%Z.

Definition is_surrogate (r : Z) : bool := (55296 <=? r)%Z && (r <=? 57343)%Z.
Definition high_surrogate (r : Z) : bool := (55296 <=? r)%Z && (r <=? 56319)%Z.
Definition low_surrogate (r : Z) : bool := (56320 <=? r)%Z && (r <=? 57343)%Z.

Definition simple_escape (c : ascii) : option ascii :=
  match code c with
  | 34 | 92 | 47 => Some c
  | 98 => Some (ascii_of_nat 8) | 102 => Some (ascii_of_nat 12) | 110 => Some (ascii_of_nat 10)
  | 114 => Some (ascii_of_nat 13) | 116 => Some (ascii_of_nat 9)
  | _ => None
  end%nat.

(** The text of a string literal up to its closing quote, and what follows. *)
Definition consing (t : string) (r : option (string * string)) : option (string * string) :=
  '(s, rest) ← r; Some (t +:+ s, rest).

Fixpoint unescape (s : string) : option (string * string) :=
  match s with
  | "" => None
  | String a s1 =>
      if ascii_dec a dquote then Some ("", s1)
      else if ascii_dec a backslash then
        match s1 with
        | "" => None
        | String e s2 =>
            if ascii_dec e "u" then
              match s2 with
              | String h1 (String h2 (String h3 (String h4 s3))) =>
                  match hex4 h1 h2 h3 h4 with
                  | None => None
                  | Some r =>
                      if is_surrogate r then
                        match s3 with
                        | String p (String q (String l1 (String l2 (String l3 (String l4 s4))))) =>
                            match (if ascii_dec p backslash then
                                     if ascii_dec q "u" then hex4 l1 l2 l3 l4 else None else None) with
                            | Some r2 =>
                                if high_surrogate r && low_surrogate r2
                                then consing (rune_bytes (65536 + (r - 55296) * 1024 + (r2 - 56320))%Z)
                                       (unescape s4)
                                else consing replacement (unescape s3)
                            | None => consing replacement (unescape s3)
                            end
                        | _ => consing replacement (unescape s3)
                        end
                      else consing (rune_bytes r) (unescape s3)
                  end
              | _ => None
              end
            else match simple_escape e with
                 | Some c => consing (String c "") (unescape s2)
                 | None => None
                 end
        end
      else if (code a <? 32)%nat then None
      else if (code a <? 128)%nat then consing (String a "") (unescape s1)
      else match s1 with
      | String b s2 =>
          if rune2 a b then consing (String a (String b "")) (unescape s2)
          else match s2 with
          | String c s3 =>
              if rune3 a b c then consing (String a (String b (String c ""))) (unescape s3)
              else match s3 with
              | String d s4 =>
                  if rune4 a b c d then consing (String a (String b (String c (String d "")))) (unescape s4)
                  else consing replacement (unescape s1)
              | "" => consing replacement (unescape s1)
              end
          | "" => consing replacement (unescape s1)
          end
      | "" => consing replacement (unescape s1)
      end
  end.

Definition is_space (c : ascii) : bool :=
  let n := code c in (n =? 32)%nat || (n =? 9)%nat || (n =? 10)%nat || (n =? 13)%nat.
Definition skip (s : string) : string := drop_while is_space s.

Definition is_digit (c : ascii) : bool := between 48 57 c.

(** The digits a text starts with, and the rest. *)
Definition span_digits (s : string) : string * string :=
  (take_until (λ c, negb (is_digit c)) s, drop_while is_digit s).

(** A number literal, and the rest. *)
Definition scan_number (s : string) : option (string * string) :=
  let '(sign, s) := match s with String "-" s' => ("-", s') | _ => ("", s) end in
  int ← match s with
        | String "0" s' => Some ("0", s')
        | _ => let '(ds, s') := span_digits s in if nonempty_str ds then Some (ds, s') else None
        end;
  let '(i, s) := int in
  frac ← match s with
         | String "." s' => let '(ds, s'') := span_digits s' in
                            if nonempty_str ds then Some ("." +:+ ds, s'') else None
         | _ => Some ("", s)
         end;
  let '(f, s) := frac in
  ex ← match s with
       | String c s' =>
           if ascii_dec c "e" then
             let '(sg, s'') := match s' with
                               | String "+" t => ("+", t) | String "-" t => ("-", t) | _ => ("", s') end in
             let '(ds, t) := span_digits s'' in
             if nonempty_str ds then Some (String c (sg +:+ ds), t) else None
           else if ascii_dec c "E" then
             let '(sg, s'') := match s' with
                               | String "+" t => ("+", t) | String "-" t => ("-", t) | _ => ("", s') end in
             let '(ds, t) := span_digits s'' in
             if nonempty_str ds then Some (String c (sg +:+ ds), t) else None
           else Some ("", s)
       | "" => Some ("", s)
       end;
  let '(x, s) := ex in
  Some (sign +:+ i +:+ f +:+ x, s).

(** The values of an array after its opening bracket, and the members of an
    object, given a parser of values; each round consumes text. *)
Fixpoint parse_values (value : string → option (JSON * string)) (fuel : nat) (s : string)
    : option (list JSON * string) :=
  match fuel with
  | O => None
  | S f =>
      '(v, s) ← value (skip s);
      match skip s with
      | String "]" rest => Some ([v], rest)
      | String "," rest => '(vs, rest) ← parse_values value f rest; Some (v :: vs, rest)
      | _ => None
      end
  end.

Fixpoint parse_members (value : string → option (JSON * string)) (fuel : nat) (s : string)
    : option (list (string * JSON) * string) :=
  match fuel with
  | O => None
  | S f =>
      match skip s with
      | String q s =>
          if ascii_dec q dquote then
            '(k, s) ← unescape s;
            match skip s with
            | String ":" s =>
                '(v, s) ← value (skip s);
                match skip s with
                | String "}" rest => Some ([(k, v)], rest)
                | String "," rest => '(ms, rest) ← parse_members value f rest; Some ((k, v) :: ms, rest)
                | _ => None
                end
            | _ => None
            end
          else None
      | _ => None
      end
  end.

Definition literal (word : string) (j : JSON) (s : string) : option (JSON * string) :=
  rest ← CutPrefix s word; Some (j, rest).

(** One value, at the start of the text; [fuel] bounds the nesting and the number
    of values of one array or object. *)
Fixpoint parse_value (fuel : nat) (s : string) : option (JSON * string) :=
  match fuel with
  | O => None
  | S f =>
      match s with
      | "" => None
      | String c rest =>
          if ascii_dec c dquote then '(t, rest) ← unescape rest; Some (JString t, rest)
          else if ascii_dec c "{" then
            match skip rest with
            | String "}" rest => Some (JObject [], rest)
            | _ => '(ms, rest) ← parse_members (parse_value f) f rest; Some (JObject ms, rest)
            end
          else if ascii_dec c "[" then
            match skip rest with
            | String "]" rest => Some (JArray [], rest)
            | _ => '(vs, rest) ← parse_values (parse_value f) f rest; Some (JArray vs, rest)
            end
          else if ascii_dec c "t" then literal "true" (JBool true) s
          else if ascii_dec c "f" then literal "false" (JBool false) s
          else if ascii_dec c "n" then literal "null" JNull s
          else '(lit, rest) ← scan_number s; Some (JNumber lit, rest)
      end
  end.

(** The first value of a text, what [json.NewDecoder(r).Decode] reads. *)
Definition read_value (s : string) : option JSON :=
  fst <$> parse_value (S (String.length s)) (skip s).

(** ** Structs of text fields

    How a decoded value fills a struct: a member fills the field of its name, or
    else the field whose name agrees with it up to case; [null] fills nothing; a
    member of another type is an error, reported after the rest was filled. *)

(** Up to case; the Kelvin sign and the long s fold to ASCII letters. *)
Definition upper (c : ascii) : ascii := if between 97 122 c then ascii_of_nat (code c - 32) else c.
Fixpoint fold_name (s : string) : string :=
  match s with
  | "" => ""
  | String a s1 =>
      match s1 with
      | "" => String (upper a) ""
      | String b s2 =>
          if (code a =? 197)%nat && (code b =? 191)%nat then String "S" (fold_name s2)
          else match s2 with
               | "" => String (upper a) (fold_name s1)
               | String c s3 =>
                   if (code a =? 226)%nat && (code b =? 132)%nat && (code c =? 170)%nat
                   then String "K" (fold_name s3)
                   else String (upper a) (fold_name s1)
               end
      end
  end.

Definition find_field {X} (fields : list (string * X)) (key : string) : option X :=
  match find (λ f, String.eqb f.1 key) fields with
  | Some f => Some f.2
  | None => snd <$> find (λ f, String.eqb (fold_name f.1) (fold_name key)) fields
  end.

Section struct.
Context {A : Type}.

(** Fills one field: the value and whether its type was wrong. *)
Definition filler : Type := JSON → A → A * bool.

Definition text_field (set : string → A → A) : filler := λ j a,
  match j with
  | JString s => (set s a, false)
  | JNull => (a, false)
  | _ => (a, true)
  end.

Definition fill_struct (fields : list (string * filler)) (j : JSON) (a : A) : A * bool :=
  match j with
  | JObject members =>
      foldl (λ acc m, match find_field fields m.1 with
                      | Some fill => let '(a, e) := fill m.2 acc.1 in (a, acc.2 || e)
                      | None => acc
                      end) (a, false) members
  | JNull => (a, false)
  | _ => (a, true)
  end.
End struct.

(** A slice: element [i] starts from the element [i] the slice held, if any. *)
Fixpoint fill_elements {A} (fill : JSON → A → A * bool) (zero : A) (js : list JSON) (old : list A)
    : list A * bool :=
  match js with
  | [] => ([], false)
  | j :: js =>
      let '(a, e) := fill j (default zero (head old)) in
      let '(l, es) := fill_elements fill zero js (tail old) in
      (a :: l, e || es)
  end.

Definition fill_slice {A} (fill : JSON → A → A * bool) (zero : A) (j : JSON) (old : list A)
    : list A * bool :=
  match j with
  | JArray js => fill_elements fill zero js old
  | JNull => ([], false)
  | _ => (old, true)
  end.

(** An [int] field: a number literal without fraction or exponent, within 64 bits. *)
Definition int_field {A} (set : Z → A → A) : JSON → A → A * bool := λ j a,
  match j with
  | JNumber lit => match Atoi lit with Ok n => (set n a, false) | Err _ => (a, true) end
  | JNull => (a, false)
  | _ => (a, true)
  end.

(** [json.NewDecoder(r).Decode(&v)], for [v] filled by [fill] from its zero value. *)
Definition Decode {A} (fill : JSON → A → A * bool) (zero : A) (body : string) : result A :=
  match read_value body with
  | None => Err (newError (if nonempty_str (skip body) then "invalid JSON" else "EOF"))
  | Some j => let '(a, e) := fill j zero in
              if (e : bool) then Err (newError "json: cannot unmarshal") else Ok a
  end.

(** ** encoding/base64 *)

Definition base64_char (n : Z) : ascii :=
  default "="%char
    (String.get (Z.to_nat n) "ABCDEFGHIJKLMNOPQRSTUVWXYZabcdefghijklmnopqrstuvwxyz0123456789+/").

Fixpoint base64_EncodeToString (s : string) : string :=
  let v (c : ascii) := Z.of_nat (code c) in
  match s with
  | "" => ""
  | String a "" =>
      String (base64_char (v a / 4)) (String (base64_char ((v a mod 4) * 16)) "==")
  | String a (String b "") =>
      String (base64_char (v a / 4)) (String (base64_char ((v a mod 4) * 16 + v b / 16))
        (String (base64_char ((v b mod 16) * 4)) "="))
  | String a (String b (String c rest)) =>
      String (base64_char (v a / 4)) (String (base64_char ((v a mod 4) * 16 + v b / 16))
        (String (base64_char ((v b mod 16) * 4 + v c / 64)) (String (base64_char (v c mod 64))
          (base64_EncodeToString rest))))
  end.

(** ** What is encoded is read back *)

Lemma unescape_ascii a t :
  (code a < 128)%nat → unescape (escape_ascii a +:+ t) = consing (String a "") (unescape t).
Proof.
  intros Ha. destruct a as [[] [] [] [] [] [] [] []]; try reflexivity; exfalso; cbv in Ha; lia.
Qed.

(** Bytes above 0x7f are neither quotes nor backslashes nor controls. *)
Lemma unescape_high a s :
  (128 ≤ code a)%nat →
  unescape (String a s) =
  match s with
  | String b s2 =>
      if rune2 a b then consing (String a (String b "")) (unescape s2)
      else match s2 with
      | String c s3 =>
          if rune3 a b c then consing (String a (String b (String c ""))) (unescape s3)
          else match s3 with
          | String d s4 =>
              if rune4 a b c d then consing (String a (String b (String c (String d "")))) (unescape s4)
              else consing replacement (unescape s)
          | "" => consing replacement (unescape s)
          end
      | "" => consing replacement (unescape s)
      end
  | "" => consing replacement (unescape s)
  end.
Proof.
  intros Ha. cbn [unescape].
  destruct (ascii_dec a dquote) as [->|]; [exfalso; cbv in Ha; lia|].
  destruct (ascii_dec a backslash) as [->|]; [exfalso; cbv in Ha; lia|].
  destruct (Nat.ltb_spec (code a) 32); [lia|]. destruct (Nat.ltb_spec (code a) 128); [lia|]. done.
Qed.

Lemma between_spec lo hi c : between lo hi c = true ↔ (lo ≤ code c ≤ hi)%nat.
Proof. unfold between. rewrite andb_true_iff, !Nat.leb_le. done. Qed.

Ltac byte_facts :=
  unfold rune2, rune3, rune4, continuation in *;
  rewrite ?andb_true_iff, ?orb_true_iff, ?andb_true_iff, ?orb_true_iff, ?between_spec in *.

(** The three forms of a longer rune exclude each other by their first byte. *)
Lemma rune2_lead a b : rune2 a b = true → (194 ≤ code a ≤ 223)%nat.
Proof. intros H. byte_facts. lia. Qed.
Lemma rune3_lead a b c : rune3 a b c = true → (224 ≤ code a ≤ 239)%nat.
Proof. intros H. byte_facts. lia. Qed.
Lemma rune4_lead a b c d : rune4 a b c d = true → (240 ≤ code a ≤ 244)%nat.
Proof. intros H. byte_facts. lia. Qed.

Lemma code_inj a b : code a = code b → a = b.
Proof. unfold code. intros H. by rewrite <- (ascii_nat_embedding a), H, ascii_nat_embedding. Qed.

Lemma line_separator_unescape a b c t rest :
  line_separator a b c = Some t →
  unescape (t +:+ rest) = consing (String a (String b (String c ""))) (unescape rest).
Proof.
  unfold line_separator. intros H.
  destruct (between 226 226 a) eqn:Ea, (between 128 128 b) eqn:Eb; cbn in H; try done.
  apply between_spec in Ea, Eb.
  assert (a = ascii_of_nat 226) as -> by (apply code_inj; cbv; cbv in Ea; lia).
  assert (b = ascii_of_nat 128) as -> by (apply code_inj; cbv; cbv in Eb; lia).
  destruct (between 168 168 c) eqn:Ec; [|destruct (between 169 169 c) eqn:Ec'; [|done]]; injection H as <-.
  - apply between_spec in Ec. assert (c = ascii_of_nat 168) as -> by (apply code_inj; cbv; cbv in Ec; lia). done.
  - apply between_spec in Ec'. assert (c = ascii_of_nat 169) as -> by (apply code_inj; cbv; cbv in Ec'; lia). done.
Qed.

Lemma consing_app t s rest r : r = Some (s, rest) → consing t r = Some (t +:+ s, rest).
Proof. by intros ->. Qed.

Lemma unescape_escape s rest :
  utf8 s → unescape (escape s +:+ String dquote rest) = Some (s, rest).
Proof.
  induction 1 as [|a s Ha Hs IH|a b s Hr Hs IH|a b c s Hr Hs IH|a b c d s Hr Hs IH].
  - done.
  - cbn [escape]. destruct (Nat.ltb_spec (code a) 128); [|lia].
    rewrite str_app_assoc, unescape_ascii by done. by apply (consing_app (String a "")).
  - pose proof (rune2_lead _ _ Hr). cbn [escape]. destruct (Nat.ltb_spec (code a) 128); [lia|]. rewrite Hr.
    rewrite !str_app_cons, unescape_high by lia. rewrite Hr. by apply (consing_app (String a (String b ""))).
  - pose proof (rune3_lead _ _ _ Hr). cbn [escape]. destruct (Nat.ltb_spec (code a) 128); [lia|].
    destruct (rune2 a b) eqn:E2; [apply rune2_lead in E2; lia|]. rewrite Hr.
    destruct (line_separator a b c) eqn:El.
    + rewrite str_app_assoc, (line_separator_unescape _ _ _ _ _ El).
      by apply (consing_app (String a (String b (String c "")))).
    + rewrite !str_app_cons, unescape_high by lia. rewrite E2, Hr.
      by apply (consing_app (String a (String b (String c "")))).
  - pose proof (rune4_lead _ _ _ _ Hr). cbn [escape]. destruct (Nat.ltb_spec (code a) 128); [lia|].
    destruct (rune2 a b) eqn:E2; [apply rune2_lead in E2; lia|].
    destruct (rune3 a b c) eqn:E3; [apply rune3_lead in E3; lia|]. rewrite Hr.
    rewrite !str_app_cons, unescape_high by lia. rewrite E2, E3, Hr.
    by apply (consing_app (String a (String b (String c (String d ""))))).
Qed.

Lemma skip_quote s : skip (String dquote s) = String dquote s.
Proof. done. Qed.

Lemma parse_string f s rest :
  utf8 s → parse_value (S f) (json_string s +:+ rest) = Some (JString s, rest).
Proof.
  intros Hs. unfold json_string. rewrite str_app_cons, str_app_assoc. cbn [parse_value].
  destruct (ascii_dec dquote dquote); [|done].
  rewrite str_app_cons. change ("" +:+ rest) with rest. by rewrite unescape_escape.
Qed.

Definition json_member (m : string * string) : string := json_string m.1 +:+ ":" +:+ json_string m.2.
Definition text_members (ms : list (string * string)) : list (string * JSON) :=
  (λ m, (m.1, JString m.2)) <$> ms.
Definition utf8_member (m : string * string) : Prop := utf8 m.1 ∧ utf8 m.2.

Lemma parse_members_one g f m rest k :
  utf8_member m →
  (∀ s, skip (String k rest) = String k rest → s = String k rest →
   parse_members (parse_value (S g)) (S f) (json_member m +:+ s) =
     match String k rest with
     | String "}" rest => Some ([(m.1, JString m.2)], rest)
     | String "," rest => '(ms, rest) ← parse_members (parse_value (S g)) f rest;
                          Some ((m.1, JString m.2) :: ms, rest)
     | _ => None
     end).
Proof.
  intros [Hk Hv] s Hskip ->. destruct m as [key v]; cbn [fst snd] in *. cbn [parse_members].
  unfold json_member. cbn [fst snd]. rewrite !str_app_assoc. unfold json_string at 1.
  rewrite str_app_cons, skip_quote. destruct (ascii_dec dquote dquote); [|done].
  rewrite str_app_assoc, str_app_cons, unescape_escape by done.
  cbn [mbind option_bind]. change (":" +:+ ?t) with (String ":" t).
  change ("" +:+ String ":" ?t) with (String ":" t). change (skip (String ":" ?t)) with (String ":" t).
  cbn match. unfold json_string at 1. rewrite str_app_cons, skip_quote, <- str_app_cons.
  fold (json_string v). rewrite parse_string by done. cbn [mbind option_bind]. rewrite Hskip. done.
Qed.

Lemma parse_members_text g f ms rest :
  ms ≠ [] → (length ms ≤ f)%nat → Forall utf8_member ms →
  parse_members (parse_value (S g)) f (Join (json_member <$> ms) "," +:+ String "}" rest) =
    Some (text_members ms, rest).
Proof.
  revert f. induction ms as [|m ms IH]; [done|]. intros f _ Hf [Hm Hms]%Forall_cons.
  destruct f as [|f]; cbn in Hf; [lia|]. destruct ms as [|m' ms].
  - cbn [fmap list_fmap Join]. by rewrite (parse_members_one g f m rest "}") by done.
  - change (Join (json_member <$> m :: m' :: ms) ",")
      with (json_member m +:+ "," +:+ Join (json_member <$> m' :: ms) ",").
    rewrite str_app_assoc. change (("," +:+ ?a) +:+ ?b) with (String "," (a +:+ b)).
    rewrite (parse_members_one g f m _ ",") by done.
    rewrite IH by (done || cbn in *; lia). done.
Qed.

Lemma join_length (ms : list (string * string)) sep :
  (length ms ≤ String.length (Join (json_member <$> ms) sep))%nat.
Proof.
  induction ms as [|m ms IH]; [cbn; lia|]. assert (1 ≤ String.length (json_member m))%nat as Hm.
  { unfold json_member, json_string. cbn. lia. }
  destruct ms as [|m' ms]; [cbn in *; lia|].
  change (Join (json_member <$> m :: m' :: ms) sep)
    with (json_member m +:+ sep +:+ Join (json_member <$> m' :: ms) sep).
  rewrite !str_length_app. cbn [length] in *. lia.
Qed.

Lemma parse_object f t :
  parse_value (S f) (String "{" (String dquote t)) =
  '(ms, rest) ← parse_members (parse_value f) f (String dquote t); Some (JObject ms, rest).
Proof. done. Qed.

(** A marshalled map of UTF-8 texts is read back as the object it was. *)
Lemma read_Marshal ms :
  ms ≠ [] → Forall utf8_member ms → read_value (Marshal ms) = Some (JObject (text_members ms)).
Proof.
  intros Hn Hms. unfold read_value, Marshal. fold (json_member). change (λ m, json_string m.1 +:+ ":" +:+ json_string m.2) with json_member.
  set (body := Join (json_member <$> ms) ",").
  pose proof (join_length ms ",") as Hl. fold body in Hl.
  change ("{" +:+ body +:+ "}") with (String "{" (body +:+ "}")).
  change (skip (String "{" ?t)) with (String "{" t).
  assert (length ms ≠ 0)%nat by (destruct ms; done).
  destruct (String.length (String "{" (body +:+ "}"))) as [|n] eqn:En; [done|].
  cbn in En. injection En as En. rewrite str_length_app in En. cbn in En.
  assert (∃ t, body +:+ "}" = String dquote t) as [t Ht].
  { unfold body. destruct ms as [|m [|m' ms]]; [done|by eexists..]. }
  rewrite Ht, parse_object, <- Ht. destruct n as [|n]; [lia|].
  change (body +:+ "}") with (body +:+ String "}" ""). unfold body.
  rewrite parse_members_text by (done || lia). done.
Qed.
