(* ===== verification/KubeTypes.v ===== *)
(** * Kubernetes API objects, as far as the operator reads or builds them

    These are types of [k8s.io/api] and [k8s.io/apimachinery].  Only the fields
    the operator uses are kept; values it only carries along (affinities,
    tolerations, volume sources of other kinds) are [Opaque]: their serialised
    form.  [metav1.Condition.LastTransitionTime] is left out: the operator never
    reads it, and it changes only together with the condition's status. *)

From S2P Require Import Prelude GoJSON.

Open Scope string_scope.
Open Scope list_scope.

Definition Opaque := string.

(** [types.NamespacedName] / [client.ObjectKey]. *)
Record NamespacedName := mkKey { key_Namespace : string; key_Name : string }.

#[global] Instance NamespacedName_eq_dec : EqDecision NamespacedName.
Proof. solve_decision. Defined.
#[global] Instance NamespacedName_countable : Countable NamespacedName.
Proof.
  refine (inj_countable' (λ k, (key_Namespace k, key_Name k)) (λ p, mkKey p.1 p.2) _).
  by intros [].
Defined.

(** [NamespacedName.String]. *)
Definition key_String (k : NamespacedName) : string := key_Namespace k +:+ "/" +:+ key_Name k.

Record OwnerRef := mkOwnerRef { owner_Kind : string; owner_Name : string }.

Record ObjectMeta := mkObjectMeta {
  om_Name : string;
  om_Namespace : string;
  om_Labels : gmap string string;
  om_Annotations : gmap string string;
  om_OwnerReferences : list OwnerRef;
  om_Generation : Z;
  om_DeletionTimestamp : option Z;
  om_Finalizers : list string
}.

Definition zero_ObjectMeta : ObjectMeta := mkObjectMeta "" "" ∅ ∅ [] 0 None [].

Definition om_key (m : ObjectMeta) : NamespacedName := mkKey (om_Namespace m) (om_Name m).

(** [metav1.ConditionStatus]. *)
Inductive ConditionStatus := ConditionTrue | ConditionFalse | ConditionUnknown.

#[global] Instance ConditionStatus_eq_dec : EqDecision ConditionStatus.
Proof. solve_decision. Defined.

Record Condition := mkCondition {
  cond_Type : string;
  cond_Status : ConditionStatus;
  cond_Reason : string;
  cond_Message : string;
  cond_ObservedGeneration : Z
}.

#[global] Instance Condition_eq_dec : EqDecision Condition.
Proof. solve_decision. Defined.

(** ** Environment variables and volumes *)

Record LocalObjectReference := mkLocalRef { lref_Name : string }.

Record SecretKeySelector := mkSecretKeySelector { sks_Name : string; sks_Key : string }.

(** [corev1.EnvVarSource]: a Secret key, or another source. *)
Inductive EnvVarSource :=
  | SecretKeyRefSource (sel : SecretKeySelector)
  | OtherEnvSource (o : Opaque).

Record EnvVar := mkEnvVar {
  env_Name : string;
  env_Value : string;
  env_ValueFrom : option EnvVarSource
}.

Record KeyToPath := mkKeyToPath { ktp_Key : string; ktp_Path : string }.

Inductive VolumeSource :=
  | SecretVolume (secretName : string) (items : list KeyToPath)
  | ConfigMapVolume (name : string)
  | OtherVolume (o : Opaque).

Record Volume := mkVolume { vol_Name : string; vol_Source : VolumeSource }.

Record VolumeMount := mkVolumeMount {
  vm_Name : string;
  vm_MountPath : string;
  vm_ReadOnly : bool
}.

(** ** Pods *)

Record PodCondition := mkPodCondition {
  pc_Type : string;
  pc_Status : ConditionStatus;
  pc_Reason : string;
  pc_Message : string
}.

Record ContainerStateWaiting := mkWaiting { wait_Reason : string; wait_Message : string }.

Record ContainerStateTerminated := mkTerminated {
  term_ExitCode : Z;
  term_Reason : string;
  term_Message : string
}.

Record ContainerState := mkContainerState {
  cstate_Waiting : option ContainerStateWaiting;
  cstate_Running : bool;
  cstate_Terminated : option ContainerStateTerminated
}.

Record ContainerStatus := mkContainerStatus {
  cs_Name : string;
  cs_State : ContainerState;
  cs_LastTerminationState : ContainerState;
  cs_Ready : bool;
  cs_RestartCount : Z
}.

Record Pod := mkPod {
  pod_Name : string;
  pod_DeletionTimestamp : option Z;
  pod_Phase : string;
  pod_Conditions : list PodCondition;
  pod_InitContainerStatuses : list ContainerStatus;
  pod_ContainerStatuses : list ContainerStatus
}.

(** ** Workloads, Jobs and Secrets as the controllers read them *)

Record Deployment := mkDeployment {
  dep_Meta : ObjectMeta;
  dep_Replicas : option Z;               (* spec.replicas *)
  dep_TemplateAnnotations : gmap string string;
  dep_StatusReplicas : Z;
  dep_StatusReadyReplicas : Z
}.

Record JobStatus := mkJobStatus {
  job_Succeeded : Z;
  job_Failed : Z;
  job_CompletionTime : option Z          (* nanoseconds *)
}.

(** A Job as the operator reads it back. *)
Record Job := mkJob {
  job_Meta : ObjectMeta;
  job_BackoffLimit : option Z;
  job_Status : JobStatus
}.

(** [metav1.DeletionPropagation]. *)
Inductive DeletionPropagation := PropagationForeground | PropagationBackground.

Record Secret := mkSecret {
  sec_Meta : ObjectMeta;
  sec_Data : gmap string string
}.

(** ** Objects the operator builds *)

Record ContainerPort := mkContainerPort {
  cp_Name : string;
  cp_ContainerPort : Z;
  cp_Protocol : string
}.

Inductive ProbeHandler :=
  | HTTPGetHandler (path : string) (port : Z)
  | ExecHandler (command : list string).

Record Probe := mkProbe {
  probe_Handler : ProbeHandler;
  probe_InitialDelaySeconds : Z;
  probe_PeriodSeconds : Z;
  probe_FailureThreshold : Z
}.

Record SecurityContext := mkSecurityContext {
  sctx_ReadOnlyRootFilesystem : option bool;
  sctx_RunAsNonRoot : option bool;
  sctx_RunAsUser : option Z
}.

(** [corev1.ResourceRequirements]; a quantity is its canonical text. *)
Record CoreResources := mkCoreResources {
  res_Requests : gmap string string;
  res_Limits : gmap string string
}.

Definition zero_CoreResources : CoreResources := mkCoreResources ∅ ∅.

Record Container := mkContainer {
  ctr_Name : string;
  ctr_Image : string;
  ctr_Command : list string;
  ctr_Args : list string;
  ctr_Ports : list ContainerPort;
  ctr_Env : list EnvVar;
  ctr_VolumeMounts : list VolumeMount;
  ctr_Resources : CoreResources;
  ctr_LivenessProbe : option Probe;
  ctr_ReadinessProbe : option Probe;
  ctr_SecurityContext : option SecurityContext
}.

Record PodSpec := mkPodSpec {
  ps_InitContainers : list Container;
  ps_Containers : list Container;
  ps_Volumes : list Volume;
  ps_RestartPolicy : string;
  ps_NodeSelector : gmap string string;
  ps_Tolerations : list Opaque;
  ps_Affinity : option Opaque;
  ps_ImagePullSecrets : list LocalObjectReference
}.

Record PodTemplateSpec := mkPodTemplate {
  pt_Labels : gmap string string;
  pt_Spec : PodSpec
}.

Record JobObject := mkJobObject {
  jobo_Meta : ObjectMeta;
  jobo_BackoffLimit : option Z;
  jobo_TTLSecondsAfterFinished : option Z;
  jobo_Template : PodTemplateSpec
}.

Record DeploymentObject := mkDeploymentObject {
  depo_Meta : ObjectMeta;
  depo_Replicas : option Z;
  depo_Selector : gmap string string;
  depo_Template : PodTemplateSpec
}.

(** [intstr.IntOrString]. *)
Inductive IntOrString := FromInt (n : Z) | FromString (s : string).

Record ServicePort := mkServicePort {
  sp_Name : string;
  sp_Port : Z;
  sp_TargetPort : IntOrString;
  sp_Protocol : string
}.

Record ServiceObject := mkServiceObject {
  svc_Meta : ObjectMeta;
  svc_Type : string;
  svc_Selector : gmap string string;
  svc_Ports : list ServicePort
}.

Record ConfigMapObject := mkConfigMapObject {
  cm_Meta : ObjectMeta;
  cm_Data : gmap string string
}.

Record VolumeClaim := mkVolumeClaim {
  pvc_Name : string;
  pvc_AccessModes : list string;
  pvc_StorageRequest : string;
  pvc_StorageClassName : option string
}.

Record StatefulSetObject := mkStatefulSetObject {
  sts_Meta : ObjectMeta;
  sts_ServiceName : string;
  sts_Replicas : Z;
  sts_Selector : gmap string string;
  sts_Template : PodTemplateSpec;
  sts_VolumeClaimTemplates : list VolumeClaim
}.

(** [networkingv1.NetworkPolicyPort]. *)
Record NetPolPort := mkNetPolPort { npp_Protocol : string; npp_Port : Z }.

(** An ingress or egress rule of a NetworkPolicy: its ports, from or to anywhere. *)
Record NetworkPolicyObject := mkNetworkPolicyObject {
  np_Meta : ObjectMeta;
  np_PodSelector : gmap string string;
  np_PolicyTypes : list string;
  np_Ingress : list (list NetPolPort);
  np_Egress : list (list NetPolPort)
}.

Record IngressPath := mkIngressPath {
  ip_Path : string;
  ip_PathType : string;
  ip_ServiceName : string;
  ip_ServicePort : Z
}.

Record IngressObject := mkIngressObject {
  ing_Meta : ObjectMeta;
  ing_ClassName : option string;
  ing_Rules : list (string * list IngressPath);      (* host, paths *)
  ing_TLS : list (list string * string)              (* hosts, Secret *)
}.

Record ScaleTargetRef := mkScaleTargetRef {
  str_APIVersion : string;
  str_Kind : string;
  str_Name : string
}.

(** A HorizontalPodAutoscaler with one CPU utilization metric. *)
Record HPAObject := mkHPAObject {
  hpa_Meta : ObjectMeta;
  hpa_ScaleTargetRef : ScaleTargetRef;
  hpa_MinReplicas : Z;
  hpa_MaxReplicas : Z;
  hpa_AverageUtilization : Z
}.

Record PDBObject := mkPDBObject {
  pdb_Meta : ObjectMeta;
  pdb_MinAvailable : IntOrString;
  pdb_Selector : gmap string string
}.

(** [unstructured.Unstructured]: the metadata, the rest as JSON values. *)
Record Unstructured := mkUnstructured {
  un_APIVersion : string;
  un_Kind : string;
  un_Meta : ObjectMeta;
  un_Spec : list (string * JSON)
}.

(** [client.Object], for the kinds the instance controller applies. *)
Inductive Object :=
  | ODeployment (d : DeploymentObject)
  | OService (s : ServiceObject)
  | OStatefulSet (s : StatefulSetObject)
  | OConfigMap (c : ConfigMapObject)
  | ONetworkPolicy (p : NetworkPolicyObject)
  | OIngress (i : IngressObject)
  | OHPA (h : HPAObject)
  | OPDB (p : PDBObject)
  | OUnstructured (u : Unstructured).

Definition obj_Meta (o : Object) : ObjectMeta :=
  match o with
  | ODeployment d => depo_Meta d
  | OService s => svc_Meta s
  | OStatefulSet s => sts_Meta s
  | OConfigMap c => cm_Meta c
  | ONetworkPolicy p => np_Meta p
  | OIngress i => ing_Meta i
  | OHPA h => hpa_Meta h
  | OPDB p => pdb_Meta p
  | OUnstructured u => un_Meta u
  end.

Definition set_obj_Meta (m : ObjectMeta) (o : Object) : Object :=
  match o with
  | ODeployment d => ODeployment (mkDeploymentObject m (depo_Replicas d) (depo_Selector d) (depo_Template d))
  | OService s => OService (mkServiceObject m (svc_Type s) (svc_Selector s) (svc_Ports s))
  | OStatefulSet s =>
      OStatefulSet (mkStatefulSetObject m (sts_ServiceName s) (sts_Replicas s) (sts_Selector s)
                      (sts_Template s) (sts_VolumeClaimTemplates s))
  | OConfigMap c => OConfigMap (mkConfigMapObject m (cm_Data c))
  | ONetworkPolicy p =>
      ONetworkPolicy (mkNetworkPolicyObject m (np_PodSelector p) (np_PolicyTypes p) (np_Ingress p) (np_Egress p))
  | OIngress i => OIngress (mkIngressObject m (ing_ClassName i) (ing_Rules i) (ing_TLS i))
  | OHPA h => OHPA (mkHPAObject m (hpa_ScaleTargetRef h) (hpa_MinReplicas h) (hpa_MaxReplicas h)
                      (hpa_AverageUtilization h))
  | OPDB p => OPDB (mkPDBObject m (pdb_MinAvailable p) (pdb_Selector p))
  | OUnstructured u => OUnstructured (mkUnstructured (un_APIVersion u) (un_Kind u) m (un_Spec u))
  end.

Lemma obj_Meta_set m o : obj_Meta (set_obj_Meta m o) = m.
Proof. by destruct o. Qed.

(** The kind of an object ([apiutil.GVKForObject], by its type). *)
Definition obj_Kind (o : Object) : string :=
  match o with
  | ODeployment _ => "Deployment"
  | OService _ => "Service"
  | OStatefulSet _ => "StatefulSet"
  | OConfigMap _ => "ConfigMap"
  | ONetworkPolicy _ => "NetworkPolicy"
  | OIngress _ => "Ingress"
  | OHPA _ => "HorizontalPodAutoscaler"
  | OPDB _ => "PodDisruptionBudget"
  | OUnstructured u => un_Kind u
  end.

(** Its Go type, as [%T] prints it. *)
Definition obj_Type (o : Object) : string :=
  match o with
  | OHPA _ => "*v2.HorizontalPodAutoscaler"
  | OUnstructured _ => "*unstructured.Unstructured"
  | _ => "*v1." +:+ obj_Kind o
  end.
