(* ===== verification/ApiTypes.v ===== *)
(** * The custom resources: types of [api/v1alpha1]

    One record per Go struct, with the struct's fields in its order; a pointer
    is an [option], a slice a [list] ([[]] for both the nil and the empty
    slice, which [equality.Semantic.DeepEqual] does not tell apart), a map a
    [gmap].  Field [F] of struct [S] is [<S>_F], a trailing [Spec] of the name
    left out.  [zero_S] is Go's zero value [S{}] and [set_S_F] the assignment
    [s.F = v], for the structs the controllers mutate. *)

From S2P Require Import Prelude KubeTypes.

Record SecretKeyRef := mkSecretKeyRef {
  SecretKeyRef_Name : string;
  SecretKeyRef_Key : string
}.

Definition zero_SecretKeyRef : SecretKeyRef :=
  mkSecretKeyRef "" "".

Record SecretKeysRef := mkSecretKeysRef {
  SecretKeysRef_Name : string;
  SecretKeysRef_Keys : gmap string string
}.

Definition zero_SecretKeysRef : SecretKeysRef :=
  mkSecretKeysRef "" ∅.

Record ResourceRequirements := mkResourceRequirements {
  ResourceRequirements_Requests : gmap string string;
  ResourceRequirements_Limits : gmap string string
}.

Definition zero_ResourceRequirements : ResourceRequirements :=
  mkResourceRequirements ∅ ∅.

Record ObjectReference := mkObjectReference {
  ObjectReference_Name : string;
  ObjectReference_Namespace : string
}.

Definition zero_ObjectReference : ObjectReference :=
  mkObjectReference "" "".

Record ImageSpec := mkImageSpec {
  Image_Repository : string;
  Image_Tag : string;
  Image_PullPolicy : string;
  Image_PullSecrets : list LocalObjectReference
}.

Definition zero_ImageSpec : ImageSpec :=
  mkImageSpec "" "" "" [].

Record WorkerImageSpec := mkWorkerImageSpec {
  WorkerImage_Repository : string;
  WorkerImage_Tag : string
}.

Definition zero_WorkerImageSpec : WorkerImageSpec :=
  mkWorkerImageSpec "" "".

Record CustomMetric := mkCustomMetric {
  CustomMetric_Type : string;
  CustomMetric_Threshold : Z
}.

Definition zero_CustomMetric : CustomMetric :=
  mkCustomMetric "" 0.

Record AutoscalingSpec := mkAutoscalingSpec {
  Autoscaling_Enabled : bool;
  Autoscaling_MinReplicas : option Z;
  Autoscaling_MaxReplicas : Z;
  Autoscaling_TargetCPUUtilization : option Z;
  Autoscaling_CustomMetrics : list CustomMetric
}.

Definition zero_AutoscalingSpec : AutoscalingSpec :=
  mkAutoscalingSpec false None 0 None [].

Record PDBSpec := mkPDBSpec {
  PDB_Enabled : bool;
  PDB_MinAvailable : option Z
}.

Definition zero_PDBSpec : PDBSpec :=
  mkPDBSpec false None.

Record TopologySpreadSpec := mkTopologySpreadSpec {
  TopologySpread_Enabled : bool;
  TopologySpread_MaxSkew : option Z;
  TopologySpread_TopologyKey : string
}.

Definition zero_TopologySpreadSpec : TopologySpreadSpec :=
  mkTopologySpreadSpec false None "".

Record WebSpec := mkWebSpec {
  Web_Replicas : option Z;
  Web_Autoscaling : option AutoscalingSpec;
  Web_Resources : option ResourceRequirements;
  Web_PodDisruptionBudget : option PDBSpec;
  Web_TopologySpreadConstraints : option TopologySpreadSpec;
  Web_ExtraEnv : list EnvVar;
  Web_ExtraVolumeMounts : list VolumeMount;
  Web_ExtraVolumes : list Volume;
  Web_NodeSelector : gmap string string;
  Web_Tolerations : list Opaque;
  Web_Affinity : option Opaque
}.

Definition zero_WebSpec : WebSpec :=
  mkWebSpec None None None None None [] [] [] ∅ [] None.

Record WorkerSpec := mkWorkerSpec {
  Worker_Replicas : option Z;
  Worker_Image : option WorkerImageSpec;
  Worker_Autoscaling : option AutoscalingSpec;
  Worker_Resources : option ResourceRequirements;
  Worker_PodDisruptionBudget : option PDBSpec;
  Worker_Concurrency : option Z;
  Worker_ExtraEnv : list EnvVar;
  Worker_ExtraVolumeMounts : list VolumeMount;
  Worker_ExtraVolumes : list Volume;
  Worker_NodeSelector : gmap string string;
  Worker_Tolerations : list Opaque;
  Worker_Affinity : option Opaque
}.

Definition zero_WorkerSpec : WorkerSpec :=
  mkWorkerSpec None None None None None None [] [] [] ∅ [] None.

Record SecretValue := mkSecretValue {
  SecretValue_SecretRef : option SecretKeyRef
}.

Definition zero_SecretValue : SecretValue :=
  mkSecretValue None.

Record EmailPasswordSpec := mkEmailPasswordSpec {
  EmailPassword_Enabled : option bool;
  EmailPassword_DisableSignup : bool
}.

Definition zero_EmailPasswordSpec : EmailPasswordSpec :=
  mkEmailPasswordSpec None false.

Record OIDCSpec := mkOIDCSpec {
  OIDC_Enabled : bool;
  OIDC_Issuer : string;
  OIDC_ClientId : option SecretKeyRef;
  OIDC_ClientSecret : option SecretKeyRef;
  OIDC_Name : string;
  OIDC_Scope : list string;
  OIDC_SSOEnforcedDomains : list string
}.

Definition zero_OIDCSpec : OIDCSpec :=
  mkOIDCSpec false "" None None "" [] [].

Record InitUserSpec := mkInitUserSpec {
  InitUser_Enabled : bool;
  InitUser_Email : string;
  InitUser_Password : option SecretKeyRef;
  InitUser_OrgName : string;
  InitUser_ProjectName : string
}.

Definition zero_InitUserSpec : InitUserSpec :=
  mkInitUserSpec false "" None "" "".

Record AuthSpec := mkAuthSpec {
  Auth_NextAuthSecret : option SecretValue;
  Auth_NextAuthUrl : string;
  Auth_Salt : option SecretValue;
  Auth_EmailPassword : option EmailPasswordSpec;
  Auth_OIDC : option OIDCSpec;
  Auth_InitUser : option InitUserSpec;
  Auth_AdminApiKey : option SecretValue
}.

Definition zero_AuthSpec : AuthSpec :=
  mkAuthSpec None "" None None None None None.

Record CACertSecretRef := mkCACertSecretRef {
  CACertSecretRef_Name : string;
  CACertSecretRef_Key : string
}.

Definition zero_CACertSecretRef : CACertSecretRef :=
  mkCACertSecretRef "" "".

Record TLSSpec := mkTLSSpec {
  TLS_TrustedCASecretRef : option CACertSecretRef
}.

Definition zero_TLSSpec : TLSSpec :=
  mkTLSSpec None.

Record ClientCertSecretRef := mkClientCertSecretRef {
  ClientCertSecretRef_Name : string;
  ClientCertSecretRef_CertKey : string;
  ClientCertSecretRef_KeyKey : string
}.

Definition zero_ClientCertSecretRef : ClientCertSecretRef :=
  mkClientCertSecretRef "" "" "".

Record AutoGenerateSpec := mkAutoGenerateSpec {
  AutoGenerate_Enabled : option bool
}.

Definition zero_AutoGenerateSpec : AutoGenerateSpec :=
  mkAutoGenerateSpec None.

Record SecretRestartMapping := mkSecretRestartMapping {
  SecretRestartMapping_SecretName : string;
  SecretRestartMapping_RestartComponents : list string
}.

Definition zero_SecretRestartMapping : SecretRestartMapping :=
  mkSecretRestartMapping "" [].

Record RotationSpec := mkRotationSpec {
  Rotation_Enabled : option bool;
  Rotation_CustomMappings : list SecretRestartMapping
}.

Definition zero_RotationSpec : RotationSpec :=
  mkRotationSpec None [].

Record SecretManagementSpec := mkSecretManagementSpec {
  SecretManagement_AutoGenerate : option AutoGenerateSpec;
  SecretManagement_Rotation : option RotationSpec
}.

Definition zero_SecretManagementSpec : SecretManagementSpec :=
  mkSecretManagementSpec None None.

Record CloudNativePGSpec := mkCloudNativePGSpec {
  CloudNativePG_ClusterRef : ObjectReference;
  CloudNativePG_Database : string
}.

Definition zero_CloudNativePGSpec : CloudNativePGSpec :=
  mkCloudNativePGSpec zero_ObjectReference "".

Record DatabaseBackupSpec := mkDatabaseBackupSpec {
  DatabaseBackup_Enabled : bool;
  DatabaseBackup_Schedule : string
}.

Definition zero_DatabaseBackupSpec : DatabaseBackupSpec :=
  mkDatabaseBackupSpec false "".

Record ManagedDatabaseSpec := mkManagedDatabaseSpec {
  ManagedDatabase_Instances : option Z;
  ManagedDatabase_StorageSize : string;
  ManagedDatabase_StorageClass : string;
  ManagedDatabase_Backup : option DatabaseBackupSpec
}.

Definition zero_ManagedDatabaseSpec : ManagedDatabaseSpec :=
  mkManagedDatabaseSpec None "" "" None.

Record DatabaseTLSSpec := mkDatabaseTLSSpec {
  DatabaseTLS_SSLMode : string;
  DatabaseTLS_CASecretRef : option CACertSecretRef
}.

Definition zero_DatabaseTLSSpec : DatabaseTLSSpec :=
  mkDatabaseTLSSpec "" None.

Record ExternalDatabaseSpec := mkExternalDatabaseSpec {
  ExternalDatabase_SecretRef : SecretKeysRef;
  ExternalDatabase_TLS : option DatabaseTLSSpec
}.

Definition zero_ExternalDatabaseSpec : ExternalDatabaseSpec :=
  mkExternalDatabaseSpec zero_SecretKeysRef None.

Record BackgroundMigrationSpec := mkBackgroundMigrationSpec {
  BackgroundMigration_Enabled : option bool;
  BackgroundMigration_Timeout : string
}.

Definition zero_BackgroundMigrationSpec : BackgroundMigrationSpec :=
  mkBackgroundMigrationSpec None "".

Record MigrationSpec := mkMigrationSpec {
  Migration_RunOnDeploy : option bool;
  Migration_BackgroundMigrations : option BackgroundMigrationSpec
}.

Definition zero_MigrationSpec : MigrationSpec :=
  mkMigrationSpec None None.

Record DatabaseSpec := mkDatabaseSpec {
  Database_CloudNativePG : option CloudNativePGSpec;
  Database_Managed : option ManagedDatabaseSpec;
  Database_External : option ExternalDatabaseSpec;
  Database_Migration : option MigrationSpec
}.

Definition zero_DatabaseSpec : DatabaseSpec :=
  mkDatabaseSpec None None None None.

Record ClickHouseResourceSpec := mkClickHouseResourceSpec {
  ClickHouseResource_Preset : string;
  ClickHouseResource_Custom : option ResourceRequirements
}.

Definition zero_ClickHouseResourceSpec : ClickHouseResourceSpec :=
  mkClickHouseResourceSpec "" None.

Record ClickHouseAuthSpec := mkClickHouseAuthSpec {
  ClickHouseAuth_SecretRef : option SecretKeysRef
}.

Definition zero_ClickHouseAuthSpec : ClickHouseAuthSpec :=
  mkClickHouseAuthSpec None.

Record ManagedClickHouseSpec := mkManagedClickHouseSpec {
  ManagedClickHouse_Shards : option Z;
  ManagedClickHouse_Replicas : option Z;
  ManagedClickHouse_StorageSize : string;
  ManagedClickHouse_StorageClass : string;
  ManagedClickHouse_Resources : option ClickHouseResourceSpec;
  ManagedClickHouse_Auth : option ClickHouseAuthSpec
}.

Definition zero_ManagedClickHouseSpec : ManagedClickHouseSpec :=
  mkManagedClickHouseSpec None None "" "" None None.

Record ClickHouseTLSSpec := mkClickHouseTLSSpec {
  ClickHouseTLS_Enabled : bool
}.

Definition zero_ClickHouseTLSSpec : ClickHouseTLSSpec :=
  mkClickHouseTLSSpec false.

Record ExternalClickHouseSpec := mkExternalClickHouseSpec {
  ExternalClickHouse_SecretRef : SecretKeysRef;
  ExternalClickHouse_TLS : option ClickHouseTLSSpec
}.

Definition zero_ExternalClickHouseSpec : ExternalClickHouseSpec :=
  mkExternalClickHouseSpec zero_SecretKeysRef None.

Record ClickHouseEncryptionSpec := mkClickHouseEncryptionSpec {
  ClickHouseEncryption_Enabled : bool;
  ClickHouseEncryption_BlobStorage : bool
}.

Definition zero_ClickHouseEncryptionSpec : ClickHouseEncryptionSpec :=
  mkClickHouseEncryptionSpec false false.

Record TableRetentionSpec := mkTableRetentionSpec {
  TableRetention_TTLDays : Z
}.

Definition zero_TableRetentionSpec : TableRetentionSpec :=
  mkTableRetentionSpec 0.

Record StoragePressureSpec := mkStoragePressureSpec {
  StoragePressure_Enabled : bool;
  StoragePressure_WarningThresholdPercent : Z;
  StoragePressure_CriticalThresholdPercent : Z;
  StoragePressure_PruneOldestPartitions : bool;
  StoragePressure_MinRetainDays : Z
}.

Definition zero_StoragePressureSpec : StoragePressureSpec :=
  mkStoragePressureSpec false 0 0 false 0.

Record RetentionSpec := mkRetentionSpec {
  Retention_Traces : option TableRetentionSpec;
  Retention_Observations : option TableRetentionSpec;
  Retention_Scores : option TableRetentionSpec;
  Retention_StoragePressure : option StoragePressureSpec
}.

Definition zero_RetentionSpec : RetentionSpec :=
  mkRetentionSpec None None None None.

Record SchemaDriftSpec := mkSchemaDriftSpec {
  SchemaDrift_Enabled : bool;
  SchemaDrift_CheckIntervalMinutes : Z;
  SchemaDrift_AutoRepair : bool
}.

Definition zero_SchemaDriftSpec : SchemaDriftSpec :=
  mkSchemaDriftSpec false 0 false.

Record ClickHouseClusterSpec := mkClickHouseClusterSpec {
  ClickHouseCluster_Enabled : bool
}.

Definition zero_ClickHouseClusterSpec : ClickHouseClusterSpec :=
  mkClickHouseClusterSpec false.

Record ClickHouseSpec := mkClickHouseSpec {
  ClickHouse_Managed : option ManagedClickHouseSpec;
  ClickHouse_External : option ExternalClickHouseSpec;
  ClickHouse_Encryption : option ClickHouseEncryptionSpec;
  ClickHouse_Retention : option RetentionSpec;
  ClickHouse_SchemaDrift : option SchemaDriftSpec;
  ClickHouse_Cluster : option ClickHouseClusterSpec;
  ClickHouse_Database : string
}.

Definition zero_ClickHouseSpec : ClickHouseSpec :=
  mkClickHouseSpec None None None None None None "".

Record ManagedRedisSpec := mkManagedRedisSpec {
  ManagedRedis_Replicas : option Z;
  ManagedRedis_StorageSize : string
}.

Definition zero_ManagedRedisSpec : ManagedRedisSpec :=
  mkManagedRedisSpec None "".

Record RedisTLSSpec := mkRedisTLSSpec {
  RedisTLS_Enabled : bool;
  RedisTLS_CASecretRef : option CACertSecretRef;
  RedisTLS_ClientCertSecretRef : option ClientCertSecretRef;
  RedisTLS_ServerName : string
}.

Definition zero_RedisTLSSpec : RedisTLSSpec :=
  mkRedisTLSSpec false None None "".

Record ExternalRedisSpec := mkExternalRedisSpec {
  ExternalRedis_SecretRef : SecretKeysRef;
  ExternalRedis_TLS : option RedisTLSSpec
}.

Definition zero_ExternalRedisSpec : ExternalRedisSpec :=
  mkExternalRedisSpec zero_SecretKeysRef None.

Record RedisSpec := mkRedisSpec {
  Redis_Managed : option ManagedRedisSpec;
  Redis_External : option ExternalRedisSpec
}.

Definition zero_RedisSpec : RedisSpec :=
  mkRedisSpec None None.

Record S3CredentialsSpec := mkS3CredentialsSpec {
  S3Credentials_SecretRef : SecretKeysRef
}.

Definition zero_S3CredentialsSpec : S3CredentialsSpec :=
  mkS3CredentialsSpec zero_SecretKeysRef.

Record S3Spec := mkS3Spec {
  S3_Endpoint : string;
  S3_Region : string;
  S3_Bucket : string;
  S3_ForcePathStyle : bool;
  S3_Credentials : option S3CredentialsSpec
}.

Definition zero_S3Spec : S3Spec :=
  mkS3Spec "" "" "" false None.

Record AzureCredentialsSpec := mkAzureCredentialsSpec {
  AzureCredentials_SecretRef : SecretKeysRef
}.

Definition zero_AzureCredentialsSpec : AzureCredentialsSpec :=
  mkAzureCredentialsSpec zero_SecretKeysRef.

Record AzureBlobSpec := mkAzureBlobSpec {
  AzureBlob_StorageAccountName : string;
  AzureBlob_ContainerName : string;
  AzureBlob_Endpoint : string;
  AzureBlob_Credentials : option AzureCredentialsSpec
}.

Definition zero_AzureBlobSpec : AzureBlobSpec :=
  mkAzureBlobSpec "" "" "" None.

Record GCSCredentialsSpec := mkGCSCredentialsSpec {
  GCSCredentials_SecretRef : SecretKeysRef
}.

Definition zero_GCSCredentialsSpec : GCSCredentialsSpec :=
  mkGCSCredentialsSpec zero_SecretKeysRef.

Record GCSSpec := mkGCSSpec {
  GCS_BucketName : string;
  GCS_ProjectId : string;
  GCS_Credentials : option GCSCredentialsSpec
}.

Definition zero_GCSSpec : GCSSpec :=
  mkGCSSpec "" "" None.

Record BlobStorageSpec := mkBlobStorageSpec {
  BlobStorage_Provider : string;
  BlobStorage_S3 : option S3Spec;
  BlobStorage_Azure : option AzureBlobSpec;
  BlobStorage_GCS : option GCSSpec
}.

Definition zero_BlobStorageSpec : BlobStorageSpec :=
  mkBlobStorageSpec "" None None None.

Record LLMSpec := mkLLMSpec {
  LLM_APIBase : string;
  LLM_APIKey : option SecretKeyRef;
  LLM_Model : string
}.

Definition zero_LLMSpec : LLMSpec :=
  mkLLMSpec "" None "".

Record CertManagerIssuerRef := mkCertManagerIssuerRef {
  CertManagerIssuerRef_Name : string;
  CertManagerIssuerRef_Kind : string
}.

Definition zero_CertManagerIssuerRef : CertManagerIssuerRef :=
  mkCertManagerIssuerRef "" "".

Record CertManagerSpec := mkCertManagerSpec {
  CertManager_IssuerRef : CertManagerIssuerRef
}.

Definition zero_CertManagerSpec : CertManagerSpec :=
  mkCertManagerSpec zero_CertManagerIssuerRef.

Record IngressTLSSpec := mkIngressTLSSpec {
  IngressTLS_Enabled : bool;
  IngressTLS_SecretName : string;
  IngressTLS_CertManager : option CertManagerSpec
}.

Definition zero_IngressTLSSpec : IngressTLSSpec :=
  mkIngressTLSSpec false "" None.

Record IngressSpec := mkIngressSpec {
  Ingress_Enabled : bool;
  Ingress_ClassName : string;
  Ingress_Host : string;
  Ingress_Annotations : gmap string string;
  Ingress_TLS : option IngressTLSSpec
}.

Definition zero_IngressSpec : IngressSpec :=
  mkIngressSpec false "" "" ∅ None.

Record RouteSpec := mkRouteSpec {
  Route_Enabled : bool;
  Route_Host : string;
  Route_Annotations : gmap string string
}.

Definition zero_RouteSpec : RouteSpec :=
  mkRouteSpec false "" ∅.

Record GatewayRef := mkGatewayRef {
  GatewayRef_Name : string;
  GatewayRef_Namespace : string;
  GatewayRef_SectionName : string
}.

Definition zero_GatewayRef : GatewayRef :=
  mkGatewayRef "" "" "".

Record GatewayAPISpec := mkGatewayAPISpec {
  GatewayAPI_Enabled : bool;
  GatewayAPI_GatewayRef : GatewayRef;
  GatewayAPI_Hostname : string;
  GatewayAPI_Annotations : gmap string string
}.

Definition zero_GatewayAPISpec : GatewayAPISpec :=
  mkGatewayAPISpec false zero_GatewayRef "" ∅.

Record NetworkPolicyPort := mkNetworkPolicyPort {
  NetworkPolicyPort_Port : Z;
  NetworkPolicyPort_Protocol : string
}.

Definition zero_NetworkPolicyPort : NetworkPolicyPort :=
  mkNetworkPolicyPort 0 "".

Record NetworkPolicySpec := mkNetworkPolicySpec {
  NetworkPolicy_Enabled : option bool;
  NetworkPolicy_ExtraEgressPorts : list NetworkPolicyPort
}.

Definition zero_NetworkPolicySpec : NetworkPolicySpec :=
  mkNetworkPolicySpec None [].

Record TelemetrySpec := mkTelemetrySpec {
  Telemetry_Enabled : option bool
}.

Definition zero_TelemetrySpec : TelemetrySpec :=
  mkTelemetrySpec None.

Record SecuritySpec := mkSecuritySpec {
  Security_ReadOnlyRootFilesystem : option bool;
  Security_RunAsNonRoot : option bool;
  Security_RunAsUser : option Z;
  Security_NetworkPolicy : option NetworkPolicySpec;
  Security_Telemetry : option TelemetrySpec
}.

Definition zero_SecuritySpec : SecuritySpec :=
  mkSecuritySpec None None None None None.

Record ServiceMonitorSpec := mkServiceMonitorSpec {
  ServiceMonitor_Enabled : bool;
  ServiceMonitor_Interval : string;
  ServiceMonitor_Labels : gmap string string
}.

Definition zero_ServiceMonitorSpec : ServiceMonitorSpec :=
  mkServiceMonitorSpec false "" ∅.

Record OTELSpec := mkOTELSpec {
  OTEL_Enabled : bool;
  OTEL_Endpoint : string;
  OTEL_Protocol : string
}.

Definition zero_OTELSpec : OTELSpec :=
  mkOTELSpec false "" "".

Record ObservabilitySpec := mkObservabilitySpec {
  Observability_ServiceMonitor : option ServiceMonitorSpec;
  Observability_OTEL : option OTELSpec
}.

Definition zero_ObservabilitySpec : ObservabilitySpec :=
  mkObservabilitySpec None None.

Record ComponentCircuitBreakerSpec := mkComponentCircuitBreakerSpec {
  Breaker_Action : string;
  Breaker_ProbeIntervalSeconds : Z;
  Breaker_FailureThreshold : Z;
  Breaker_RecoveryAction : string
}.

Definition zero_ComponentCircuitBreakerSpec : ComponentCircuitBreakerSpec :=
  mkComponentCircuitBreakerSpec "" 0 0 "".

Record CircuitBreakerSpec := mkCircuitBreakerSpec {
  CircuitBreaker_Enabled : option bool;
  CircuitBreaker_ClickHouse : option ComponentCircuitBreakerSpec;
  CircuitBreaker_Redis : option ComponentCircuitBreakerSpec;
  CircuitBreaker_Database : option ComponentCircuitBreakerSpec
}.

Definition zero_CircuitBreakerSpec : CircuitBreakerSpec :=
  mkCircuitBreakerSpec None None None None.

Record PreUpgradeSpec := mkPreUpgradeSpec {
  PreUpgrade_RunMigrations : option bool;
  PreUpgrade_BackupDatabase : bool
}.

Definition zero_PreUpgradeSpec : PreUpgradeSpec :=
  mkPreUpgradeSpec None false.

Record RollingUpdateSpec := mkRollingUpdateSpec {
  RollingUpdate_MaxUnavailable : option Z;
  RollingUpdate_MaxSurge : option Z
}.

Definition zero_RollingUpdateSpec : RollingUpdateSpec :=
  mkRollingUpdateSpec None None.

Record PostUpgradeSpec := mkPostUpgradeSpec {
  PostUpgrade_RunBackgroundMigrations : option bool;
  PostUpgrade_HealthCheckTimeout : string;
  PostUpgrade_AutoRollback : bool
}.

Definition zero_PostUpgradeSpec : PostUpgradeSpec :=
  mkPostUpgradeSpec None "" false.

Record UpgradeSpec := mkUpgradeSpec {
  Upgrade_Strategy : string;
  Upgrade_PreUpgrade : option PreUpgradeSpec;
  Upgrade_RollingUpdate : option RollingUpdateSpec;
  Upgrade_PostUpgrade : option PostUpgradeSpec
}.

Definition zero_UpgradeSpec : UpgradeSpec :=
  mkUpgradeSpec "" None None None.

Record LangfuseInstanceSpec := mkLangfuseInstanceSpec {
  Spec_Image : ImageSpec;
  Spec_Web : WebSpec;
  Spec_Worker : WorkerSpec;
  Spec_Auth : AuthSpec;
  Spec_TLS : option TLSSpec;
  Spec_EELicenseKey : option SecretValue;
  Spec_Secrets : option SecretManagementSpec;
  Spec_Database : option DatabaseSpec;
  Spec_ClickHouse : option ClickHouseSpec;
  Spec_Redis : option RedisSpec;
  Spec_BlobStorage : option BlobStorageSpec;
  Spec_LLM : option LLMSpec;
  Spec_Ingress : option IngressSpec;
  Spec_Route : option RouteSpec;
  Spec_GatewayAPI : option GatewayAPISpec;
  Spec_Security : option SecuritySpec;
  Spec_Observability : option ObservabilitySpec;
  Spec_CircuitBreaker : option CircuitBreakerSpec;
  Spec_Upgrade : option UpgradeSpec
}.

Definition zero_LangfuseInstanceSpec : LangfuseInstanceSpec :=
  mkLangfuseInstanceSpec zero_ImageSpec zero_WebSpec zero_WorkerSpec zero_AuthSpec None None None None None None None None None None None None None None None.

Record PodIssue := mkPodIssue {
  PodIssue_Pod : string;
  PodIssue_Container : string;
  PodIssue_Reason : string;
  PodIssue_Message : string;
  PodIssue_RestartCount : Z;
  PodIssue_Fatal : bool
}.

Definition zero_PodIssue : PodIssue :=
  mkPodIssue "" "" "" "" 0 false.

#[global] Instance PodIssue_eq_dec : EqDecision PodIssue.
Proof. solve_decision. Defined.

Record ComponentStatus := mkComponentStatus {
  Component_Replicas : Z;
  Component_ReadyReplicas : Z;
  Component_Endpoint : string;
  Component_Issues : list PodIssue
}.

Definition zero_ComponentStatus : ComponentStatus :=
  mkComponentStatus 0 0 "" [].

#[global] Instance ComponentStatus_eq_dec : EqDecision ComponentStatus.
Proof. solve_decision. Defined.

Definition set_Component_Replicas (v : Z) (s : ComponentStatus) : ComponentStatus :=
  mkComponentStatus v (Component_ReadyReplicas s) (Component_Endpoint s) (Component_Issues s).
Definition set_Component_ReadyReplicas (v : Z) (s : ComponentStatus) : ComponentStatus :=
  mkComponentStatus (Component_Replicas s) v (Component_Endpoint s) (Component_Issues s).
Definition set_Component_Endpoint (v : string) (s : ComponentStatus) : ComponentStatus :=
  mkComponentStatus (Component_Replicas s) (Component_ReadyReplicas s) v (Component_Issues s).
Definition set_Component_Issues (v : list PodIssue) (s : ComponentStatus) : ComponentStatus :=
  mkComponentStatus (Component_Replicas s) (Component_ReadyReplicas s) (Component_Endpoint s) v.

Record WorkerComponentStatus := mkWorkerComponentStatus {
  WorkerStatus_ComponentStatus : ComponentStatus;
  WorkerStatus_QueueDepth : Z;
  WorkerStatus_CircuitBreakerActive : bool;
  WorkerStatus_CircuitBreakerReason : string
}.

Definition zero_WorkerComponentStatus : WorkerComponentStatus :=
  mkWorkerComponentStatus zero_ComponentStatus 0 false "".

#[global] Instance WorkerComponentStatus_eq_dec : EqDecision WorkerComponentStatus.
Proof. solve_decision. Defined.

Definition set_WorkerStatus_ComponentStatus (v : ComponentStatus) (s : WorkerComponentStatus) : WorkerComponentStatus :=
  mkWorkerComponentStatus v (WorkerStatus_QueueDepth s) (WorkerStatus_CircuitBreakerActive s) (WorkerStatus_CircuitBreakerReason s).
Definition set_WorkerStatus_QueueDepth (v : Z) (s : WorkerComponentStatus) : WorkerComponentStatus :=
  mkWorkerComponentStatus (WorkerStatus_ComponentStatus s) v (WorkerStatus_CircuitBreakerActive s) (WorkerStatus_CircuitBreakerReason s).
Definition set_WorkerStatus_CircuitBreakerActive (v : bool) (s : WorkerComponentStatus) : WorkerComponentStatus :=
  mkWorkerComponentStatus (WorkerStatus_ComponentStatus s) (WorkerStatus_QueueDepth s) v (WorkerStatus_CircuitBreakerReason s).
Definition set_WorkerStatus_CircuitBreakerReason (v : string) (s : WorkerComponentStatus) : WorkerComponentStatus :=
  mkWorkerComponentStatus (WorkerStatus_ComponentStatus s) (WorkerStatus_QueueDepth s) (WorkerStatus_CircuitBreakerActive s) v.

Record BackgroundMigrationStatus := mkBackgroundMigrationStatus {
  BackgroundMigrationStatus_Pending : Z;
  BackgroundMigrationStatus_Running : Z;
  BackgroundMigrationStatus_Completed : Z
}.

Definition zero_BackgroundMigrationStatus : BackgroundMigrationStatus :=
  mkBackgroundMigrationStatus 0 0 0.

#[global] Instance BackgroundMigrationStatus_eq_dec : EqDecision BackgroundMigrationStatus.
Proof. solve_decision. Defined.

Record DatabaseStatus := mkDatabaseStatus {
  DatabaseStatus_Connected : option bool;
  DatabaseStatus_MigrationVersion : string;
  DatabaseStatus_BackgroundMigrations : option BackgroundMigrationStatus
}.

Definition zero_DatabaseStatus : DatabaseStatus :=
  mkDatabaseStatus None "" None.

#[global] Instance DatabaseStatus_eq_dec : EqDecision DatabaseStatus.
Proof. solve_decision. Defined.

Definition set_DatabaseStatus_Connected (v : option bool) (s : DatabaseStatus) : DatabaseStatus :=
  mkDatabaseStatus v (DatabaseStatus_MigrationVersion s) (DatabaseStatus_BackgroundMigrations s).
Definition set_DatabaseStatus_MigrationVersion (v : string) (s : DatabaseStatus) : DatabaseStatus :=
  mkDatabaseStatus (DatabaseStatus_Connected s) v (DatabaseStatus_BackgroundMigrations s).
Definition set_DatabaseStatus_BackgroundMigrations (v : option BackgroundMigrationStatus) (s : DatabaseStatus) : DatabaseStatus :=
  mkDatabaseStatus (DatabaseStatus_Connected s) (DatabaseStatus_MigrationVersion s) v.

Record MigrationStatus := mkMigrationStatus {
  MigrationStatus_JobName : string;
  MigrationStatus_Failed : Z;
  MigrationStatus_Issues : list PodIssue;
  MigrationStatus_AppliedIdentity : string
}.

Definition zero_MigrationStatus : MigrationStatus :=
  mkMigrationStatus "" 0 [] "".

#[global] Instance MigrationStatus_eq_dec : EqDecision MigrationStatus.
Proof. solve_decision. Defined.

Definition set_MigrationStatus_JobName (v : string) (s : MigrationStatus) : MigrationStatus :=
  mkMigrationStatus v (MigrationStatus_Failed s) (MigrationStatus_Issues s) (MigrationStatus_AppliedIdentity s).
Definition set_MigrationStatus_Failed (v : Z) (s : MigrationStatus) : MigrationStatus :=
  mkMigrationStatus (MigrationStatus_JobName s) v (MigrationStatus_Issues s) (MigrationStatus_AppliedIdentity s).
Definition set_MigrationStatus_Issues (v : list PodIssue) (s : MigrationStatus) : MigrationStatus :=
  mkMigrationStatus (MigrationStatus_JobName s) (MigrationStatus_Failed s) v (MigrationStatus_AppliedIdentity s).
Definition set_MigrationStatus_AppliedIdentity (v : string) (s : MigrationStatus) : MigrationStatus :=
  mkMigrationStatus (MigrationStatus_JobName s) (MigrationStatus_Failed s) (MigrationStatus_Issues s) v.

Record ClickHouseStatus := mkClickHouseStatus {
  ClickHouseStatus_Connected : option bool;
  ClickHouseStatus_StorageUsed : string;
  ClickHouseStatus_StorageTotal : string;
  ClickHouseStatus_SchemaDrift : option bool;
  ClickHouseStatus_RetentionApplied : option bool
}.

Definition zero_ClickHouseStatus : ClickHouseStatus :=
  mkClickHouseStatus None "" "" None None.

#[global] Instance ClickHouseStatus_eq_dec : EqDecision ClickHouseStatus.
Proof. solve_decision. Defined.

Definition set_ClickHouseStatus_Connected (v : option bool) (s : ClickHouseStatus) : ClickHouseStatus :=
  mkClickHouseStatus v (ClickHouseStatus_StorageUsed s) (ClickHouseStatus_StorageTotal s) (ClickHouseStatus_SchemaDrift s) (ClickHouseStatus_RetentionApplied s).
Definition set_ClickHouseStatus_StorageUsed (v : string) (s : ClickHouseStatus) : ClickHouseStatus :=
  mkClickHouseStatus (ClickHouseStatus_Connected s) v (ClickHouseStatus_StorageTotal s) (ClickHouseStatus_SchemaDrift s) (ClickHouseStatus_RetentionApplied s).
Definition set_ClickHouseStatus_StorageTotal (v : string) (s : ClickHouseStatus) : ClickHouseStatus :=
  mkClickHouseStatus (ClickHouseStatus_Connected s) (ClickHouseStatus_StorageUsed s) v (ClickHouseStatus_SchemaDrift s) (ClickHouseStatus_RetentionApplied s).
Definition set_ClickHouseStatus_SchemaDrift (v : option bool) (s : ClickHouseStatus) : ClickHouseStatus :=
  mkClickHouseStatus (ClickHouseStatus_Connected s) (ClickHouseStatus_StorageUsed s) (ClickHouseStatus_StorageTotal s) v (ClickHouseStatus_RetentionApplied s).
Definition set_ClickHouseStatus_RetentionApplied (v : option bool) (s : ClickHouseStatus) : ClickHouseStatus :=
  mkClickHouseStatus (ClickHouseStatus_Connected s) (ClickHouseStatus_StorageUsed s) (ClickHouseStatus_StorageTotal s) (ClickHouseStatus_SchemaDrift s) v.

Record ConnectionStatus := mkConnectionStatus {
  ConnectionStatus_Connected : option bool
}.

Definition zero_ConnectionStatus : ConnectionStatus :=
  mkConnectionStatus None.

#[global] Instance ConnectionStatus_eq_dec : EqDecision ConnectionStatus.
Proof. solve_decision. Defined.

Definition set_ConnectionStatus_Connected (v : option bool) (s : ConnectionStatus) : ConnectionStatus :=
  mkConnectionStatus v.

Record BlobStorageStatus := mkBlobStorageStatus {
  BlobStorageStatus_Connected : option bool;
  BlobStorageStatus_Provider : string
}.

Definition zero_BlobStorageStatus : BlobStorageStatus :=
  mkBlobStorageStatus None "".

#[global] Instance BlobStorageStatus_eq_dec : EqDecision BlobStorageStatus.
Proof. solve_decision. Defined.

Definition set_BlobStorageStatus_Connected (v : option bool) (s : BlobStorageStatus) : BlobStorageStatus :=
  mkBlobStorageStatus v (BlobStorageStatus_Provider s).
Definition set_BlobStorageStatus_Provider (v : string) (s : BlobStorageStatus) : BlobStorageStatus :=
  mkBlobStorageStatus (BlobStorageStatus_Connected s) v.

Record SecretsStatus := mkSecretsStatus {
  SecretsStatus_AutoGenerated : bool;
  SecretsStatus_ManagedSecretName : string;
  SecretsStatus_LastRotationCheck : option Z
}.

Definition zero_SecretsStatus : SecretsStatus :=
  mkSecretsStatus false "" None.

#[global] Instance SecretsStatus_eq_dec : EqDecision SecretsStatus.
Proof. solve_decision. Defined.

Definition set_SecretsStatus_AutoGenerated (v : bool) (s : SecretsStatus) : SecretsStatus :=
  mkSecretsStatus v (SecretsStatus_ManagedSecretName s) (SecretsStatus_LastRotationCheck s).
Definition set_SecretsStatus_ManagedSecretName (v : string) (s : SecretsStatus) : SecretsStatus :=
  mkSecretsStatus (SecretsStatus_AutoGenerated s) v (SecretsStatus_LastRotationCheck s).
Definition set_SecretsStatus_LastRotationCheck (v : option Z) (s : SecretsStatus) : SecretsStatus :=
  mkSecretsStatus (SecretsStatus_AutoGenerated s) (SecretsStatus_ManagedSecretName s) v.

Record LangfuseInstanceStatus := mkLangfuseInstanceStatus {
  Status_Ready : bool;
  Status_Phase : string;
  Status_Web : option ComponentStatus;
  Status_Worker : option WorkerComponentStatus;
  Status_Database : option DatabaseStatus;
  Status_Migration : option MigrationStatus;
  Status_ClickHouse : option ClickHouseStatus;
  Status_Redis : option ConnectionStatus;
  Status_BlobStorage : option BlobStorageStatus;
  Status_Secrets : option SecretsStatus;
  Status_Version : string;
  Status_PublicUrl : string;
  Status_Organizations : Z;
  Status_Projects : Z;
  Status_Conditions : list Condition
}.

Definition zero_LangfuseInstanceStatus : LangfuseInstanceStatus :=
  mkLangfuseInstanceStatus false "" None None None None None None None None "" "" 0 0 [].

#[global] Instance LangfuseInstanceStatus_eq_dec : EqDecision LangfuseInstanceStatus.
Proof. solve_decision. Defined.

Definition set_Status_Ready (v : bool) (s : LangfuseInstanceStatus) : LangfuseInstanceStatus :=
  mkLangfuseInstanceStatus v (Status_Phase s) (Status_Web s) (Status_Worker s) (Status_Database s) (Status_Migration s) (Status_ClickHouse s) (Status_Redis s) (Status_BlobStorage s) (Status_Secrets s) (Status_Version s) (Status_PublicUrl s) (Status_Organizations s) (Status_Projects s) (Status_Conditions s).
Definition set_Status_Phase (v : string) (s : LangfuseInstanceStatus) : LangfuseInstanceStatus :=
  mkLangfuseInstanceStatus (Status_Ready s) v (Status_Web s) (Status_Worker s) (Status_Database s) (Status_Migration s) (Status_ClickHouse s) (Status_Redis s) (Status_BlobStorage s) (Status_Secrets s) (Status_Version s) (Status_PublicUrl s) (Status_Organizations s) (Status_Projects s) (Status_Conditions s).
Definition set_Status_Web (v : option ComponentStatus) (s : LangfuseInstanceStatus) : LangfuseInstanceStatus :=
  mkLangfuseInstanceStatus (Status_Ready s) (Status_Phase s) v (Status_Worker s) (Status_Database s) (Status_Migration s) (Status_ClickHouse s) (Status_Redis s) (Status_BlobStorage s) (Status_Secrets s) (Status_Version s) (Status_PublicUrl s) (Status_Organizations s) (Status_Projects s) (Status_Conditions s).
Definition set_Status_Worker (v : option WorkerComponentStatus) (s : LangfuseInstanceStatus) : LangfuseInstanceStatus :=
  mkLangfuseInstanceStatus (Status_Ready s) (Status_Phase s) (Status_Web s) v (Status_Database s) (Status_Migration s) (Status_ClickHouse s) (Status_Redis s) (Status_BlobStorage s) (Status_Secrets s) (Status_Version s) (Status_PublicUrl s) (Status_Organizations s) (Status_Projects s) (Status_Conditions s).
Definition set_Status_Database (v : option DatabaseStatus) (s : LangfuseInstanceStatus) : LangfuseInstanceStatus :=
  mkLangfuseInstanceStatus (Status_Ready s) (Status_Phase s) (Status_Web s) (Status_Worker s) v (Status_Migration s) (Status_ClickHouse s) (Status_Redis s) (Status_BlobStorage s) (Status_Secrets s) (Status_Version s) (Status_PublicUrl s) (Status_Organizations s) (Status_Projects s) (Status_Conditions s).
Definition set_Status_Migration (v : option MigrationStatus) (s : LangfuseInstanceStatus) : LangfuseInstanceStatus :=
  mkLangfuseInstanceStatus (Status_Ready s) (Status_Phase s) (Status_Web s) (Status_Worker s) (Status_Database s) v (Status_ClickHouse s) (Status_Redis s) (Status_BlobStorage s) (Status_Secrets s) (Status_Version s) (Status_PublicUrl s) (Status_Organizations s) (Status_Projects s) (Status_Conditions s).
Definition set_Status_ClickHouse (v : option ClickHouseStatus) (s : LangfuseInstanceStatus) : LangfuseInstanceStatus :=
  mkLangfuseInstanceStatus (Status_Ready s) (Status_Phase s) (Status_Web s) (Status_Worker s) (Status_Database s) (Status_Migration s) v (Status_Redis s) (Status_BlobStorage s) (Status_Secrets s) (Status_Version s) (Status_PublicUrl s) (Status_Organizations s) (Status_Projects s) (Status_Conditions s).
Definition set_Status_Redis (v : option ConnectionStatus) (s : LangfuseInstanceStatus) : LangfuseInstanceStatus :=
  mkLangfuseInstanceStatus (Status_Ready s) (Status_Phase s) (Status_Web s) (Status_Worker s) (Status_Database s) (Status_Migration s) (Status_ClickHouse s) v (Status_BlobStorage s) (Status_Secrets s) (Status_Version s) (Status_PublicUrl s) (Status_Organizations s) (Status_Projects s) (Status_Conditions s).
Definition set_Status_BlobStorage (v : option BlobStorageStatus) (s : LangfuseInstanceStatus) : LangfuseInstanceStatus :=
  mkLangfuseInstanceStatus (Status_Ready s) (Status_Phase s) (Status_Web s) (Status_Worker s) (Status_Database s) (Status_Migration s) (Status_ClickHouse s) (Status_Redis s) v (Status_Secrets s) (Status_Version s) (Status_PublicUrl s) (Status_Organizations s) (Status_Projects s) (Status_Conditions s).
Definition set_Status_Secrets (v : option SecretsStatus) (s : LangfuseInstanceStatus) : LangfuseInstanceStatus :=
  mkLangfuseInstanceStatus (Status_Ready s) (Status_Phase s) (Status_Web s) (Status_Worker s) (Status_Database s) (Status_Migration s) (Status_ClickHouse s) (Status_Redis s) (Status_BlobStorage s) v (Status_Version s) (Status_PublicUrl s) (Status_Organizations s) (Status_Projects s) (Status_Conditions s).
Definition set_Status_Version (v : string) (s : LangfuseInstanceStatus) : LangfuseInstanceStatus :=
  mkLangfuseInstanceStatus (Status_Ready s) (Status_Phase s) (Status_Web s) (Status_Worker s) (Status_Database s) (Status_Migration s) (Status_ClickHouse s) (Status_Redis s) (Status_BlobStorage s) (Status_Secrets s) v (Status_PublicUrl s) (Status_Organizations s) (Status_Projects s) (Status_Conditions s).
Definition set_Status_PublicUrl (v : string) (s : LangfuseInstanceStatus) : LangfuseInstanceStatus :=
  mkLangfuseInstanceStatus (Status_Ready s) (Status_Phase s) (Status_Web s) (Status_Worker s) (Status_Database s) (Status_Migration s) (Status_ClickHouse s) (Status_Redis s) (Status_BlobStorage s) (Status_Secrets s) (Status_Version s) v (Status_Organizations s) (Status_Projects s) (Status_Conditions s).
Definition set_Status_Organizations (v : Z) (s : LangfuseInstanceStatus) : LangfuseInstanceStatus :=
  mkLangfuseInstanceStatus (Status_Ready s) (Status_Phase s) (Status_Web s) (Status_Worker s) (Status_Database s) (Status_Migration s) (Status_ClickHouse s) (Status_Redis s) (Status_BlobStorage s) (Status_Secrets s) (Status_Version s) (Status_PublicUrl s) v (Status_Projects s) (Status_Conditions s).
Definition set_Status_Projects (v : Z) (s : LangfuseInstanceStatus) : LangfuseInstanceStatus :=
  mkLangfuseInstanceStatus (Status_Ready s) (Status_Phase s) (Status_Web s) (Status_Worker s) (Status_Database s) (Status_Migration s) (Status_ClickHouse s) (Status_Redis s) (Status_BlobStorage s) (Status_Secrets s) (Status_Version s) (Status_PublicUrl s) (Status_Organizations s) v (Status_Conditions s).
Definition set_Status_Conditions (v : list Condition) (s : LangfuseInstanceStatus) : LangfuseInstanceStatus :=
  mkLangfuseInstanceStatus (Status_Ready s) (Status_Phase s) (Status_Web s) (Status_Worker s) (Status_Database s) (Status_Migration s) (Status_ClickHouse s) (Status_Redis s) (Status_BlobStorage s) (Status_Secrets s) (Status_Version s) (Status_PublicUrl s) (Status_Organizations s) (Status_Projects s) v.

Record LangfuseInstance := mkLangfuseInstance {
  Instance_ObjectMeta : ObjectMeta;
  Instance_Spec : LangfuseInstanceSpec;
  Instance_Status : LangfuseInstanceStatus
}.

Definition zero_LangfuseInstance : LangfuseInstance :=
  mkLangfuseInstance zero_ObjectMeta zero_LangfuseInstanceSpec zero_LangfuseInstanceStatus.

Definition set_Instance_ObjectMeta (v : ObjectMeta) (s : LangfuseInstance) : LangfuseInstance :=
  mkLangfuseInstance v (Instance_Spec s) (Instance_Status s).
Definition set_Instance_Spec (v : LangfuseInstanceSpec) (s : LangfuseInstance) : LangfuseInstance :=
  mkLangfuseInstance (Instance_ObjectMeta s) v (Instance_Status s).
Definition set_Instance_Status (v : LangfuseInstanceStatus) (s : LangfuseInstance) : LangfuseInstance :=
  mkLangfuseInstance (Instance_ObjectMeta s) (Instance_Spec s) v.

Record OrganizationMemberSpec := mkOrganizationMemberSpec {
  OrganizationMember_Email : string;
  OrganizationMember_Role : string
}.

Definition zero_OrganizationMemberSpec : OrganizationMemberSpec :=
  mkOrganizationMemberSpec "" "".

Record OrganizationMembersSpec := mkOrganizationMembersSpec {
  OrganizationMembers_ManagedExclusively : bool;
  OrganizationMembers_Users : list OrganizationMemberSpec
}.

Definition zero_OrganizationMembersSpec : OrganizationMembersSpec :=
  mkOrganizationMembersSpec false [].

Record LangfuseOrganizationSpec := mkLangfuseOrganizationSpec {
  OrgSpec_InstanceRef : ObjectReference;
  OrgSpec_DisplayName : string;
  OrgSpec_Members : OrganizationMembersSpec
}.

Definition zero_LangfuseOrganizationSpec : LangfuseOrganizationSpec :=
  mkLangfuseOrganizationSpec zero_ObjectReference "" zero_OrganizationMembersSpec.

Record LangfuseOrganizationStatus := mkLangfuseOrganizationStatus {
  OrgStatus_Ready : bool;
  OrgStatus_OrganizationID : string;
  OrgStatus_MemberCount : Z;
  OrgStatus_SyncedMembers : Z;
  OrgStatus_ProjectCount : Z;
  OrgStatus_Conditions : list Condition
}.

Definition zero_LangfuseOrganizationStatus : LangfuseOrganizationStatus :=
  mkLangfuseOrganizationStatus false "" 0 0 0 [].

#[global] Instance LangfuseOrganizationStatus_eq_dec : EqDecision LangfuseOrganizationStatus.
Proof. solve_decision. Defined.

Definition set_OrgStatus_Ready (v : bool) (s : LangfuseOrganizationStatus) : LangfuseOrganizationStatus :=
  mkLangfuseOrganizationStatus v (OrgStatus_OrganizationID s) (OrgStatus_MemberCount s) (OrgStatus_SyncedMembers s) (OrgStatus_ProjectCount s) (OrgStatus_Conditions s).
Definition set_OrgStatus_OrganizationID (v : string) (s : LangfuseOrganizationStatus) : LangfuseOrganizationStatus :=
  mkLangfuseOrganizationStatus (OrgStatus_Ready s) v (OrgStatus_MemberCount s) (OrgStatus_SyncedMembers s) (OrgStatus_ProjectCount s) (OrgStatus_Conditions s).
Definition set_OrgStatus_MemberCount (v : Z) (s : LangfuseOrganizationStatus) : LangfuseOrganizationStatus :=
  mkLangfuseOrganizationStatus (OrgStatus_Ready s) (OrgStatus_OrganizationID s) v (OrgStatus_SyncedMembers s) (OrgStatus_ProjectCount s) (OrgStatus_Conditions s).
Definition set_OrgStatus_SyncedMembers (v : Z) (s : LangfuseOrganizationStatus) : LangfuseOrganizationStatus :=
  mkLangfuseOrganizationStatus (OrgStatus_Ready s) (OrgStatus_OrganizationID s) (OrgStatus_MemberCount s) v (OrgStatus_ProjectCount s) (OrgStatus_Conditions s).
Definition set_OrgStatus_ProjectCount (v : Z) (s : LangfuseOrganizationStatus) : LangfuseOrganizationStatus :=
  mkLangfuseOrganizationStatus (OrgStatus_Ready s) (OrgStatus_OrganizationID s) (OrgStatus_MemberCount s) (OrgStatus_SyncedMembers s) v (OrgStatus_Conditions s).
Definition set_OrgStatus_Conditions (v : list Condition) (s : LangfuseOrganizationStatus) : LangfuseOrganizationStatus :=
  mkLangfuseOrganizationStatus (OrgStatus_Ready s) (OrgStatus_OrganizationID s) (OrgStatus_MemberCount s) (OrgStatus_SyncedMembers s) (OrgStatus_ProjectCount s) v.

Record LangfuseOrganization := mkLangfuseOrganization {
  Org_ObjectMeta : ObjectMeta;
  Org_Spec : LangfuseOrganizationSpec;
  Org_Status : LangfuseOrganizationStatus
}.

Definition zero_LangfuseOrganization : LangfuseOrganization :=
  mkLangfuseOrganization zero_ObjectMeta zero_LangfuseOrganizationSpec zero_LangfuseOrganizationStatus.

Definition set_Org_ObjectMeta (v : ObjectMeta) (s : LangfuseOrganization) : LangfuseOrganization :=
  mkLangfuseOrganization v (Org_Spec s) (Org_Status s).
Definition set_Org_Spec (v : LangfuseOrganizationSpec) (s : LangfuseOrganization) : LangfuseOrganization :=
  mkLangfuseOrganization (Org_ObjectMeta s) v (Org_Status s).
Definition set_Org_Status (v : LangfuseOrganizationStatus) (s : LangfuseOrganization) : LangfuseOrganization :=
  mkLangfuseOrganization (Org_ObjectMeta s) (Org_Spec s) v.

Record APIKeySpec := mkAPIKeySpec {
  APIKey_Name : string;
  APIKey_SecretName : string
}.

Definition zero_APIKeySpec : APIKeySpec :=
  mkAPIKeySpec "" "".

Record LangfuseProjectSpec := mkLangfuseProjectSpec {
  ProjectSpec_InstanceRef : ObjectReference;
  ProjectSpec_OrganizationRef : ObjectReference;
  ProjectSpec_ProjectName : string;
  ProjectSpec_APIKeys : list APIKeySpec
}.

Definition zero_LangfuseProjectSpec : LangfuseProjectSpec :=
  mkLangfuseProjectSpec zero_ObjectReference zero_ObjectReference "" [].

Record APIKeyStatus := mkAPIKeyStatus {
  APIKeyStatus_Name : string;
  APIKeyStatus_SecretName : string;
  APIKeyStatus_Created : bool;
  APIKeyStatus_LastRotated : option Z
}.

Definition zero_APIKeyStatus : APIKeyStatus :=
  mkAPIKeyStatus "" "" false None.

#[global] Instance APIKeyStatus_eq_dec : EqDecision APIKeyStatus.
Proof. solve_decision. Defined.

Definition set_APIKeyStatus_Name (v : string) (s : APIKeyStatus) : APIKeyStatus :=
  mkAPIKeyStatus v (APIKeyStatus_SecretName s) (APIKeyStatus_Created s) (APIKeyStatus_LastRotated s).
Definition set_APIKeyStatus_SecretName (v : string) (s : APIKeyStatus) : APIKeyStatus :=
  mkAPIKeyStatus (APIKeyStatus_Name s) v (APIKeyStatus_Created s) (APIKeyStatus_LastRotated s).
Definition set_APIKeyStatus_Created (v : bool) (s : APIKeyStatus) : APIKeyStatus :=
  mkAPIKeyStatus (APIKeyStatus_Name s) (APIKeyStatus_SecretName s) v (APIKeyStatus_LastRotated s).
Definition set_APIKeyStatus_LastRotated (v : option Z) (s : APIKeyStatus) : APIKeyStatus :=
  mkAPIKeyStatus (APIKeyStatus_Name s) (APIKeyStatus_SecretName s) (APIKeyStatus_Created s) v.

Record LangfuseProjectStatus := mkLangfuseProjectStatus {
  ProjectStatus_Ready : bool;
  ProjectStatus_ProjectID : string;
  ProjectStatus_OrganizationID : string;
  ProjectStatus_APIKeys : list APIKeyStatus;
  ProjectStatus_Conditions : list Condition
}.

Definition zero_LangfuseProjectStatus : LangfuseProjectStatus :=
  mkLangfuseProjectStatus false "" "" [] [].

#[global] Instance LangfuseProjectStatus_eq_dec : EqDecision LangfuseProjectStatus.
Proof. solve_decision. Defined.

Definition set_ProjectStatus_Ready (v : bool) (s : LangfuseProjectStatus) : LangfuseProjectStatus :=
  mkLangfuseProjectStatus v (ProjectStatus_ProjectID s) (ProjectStatus_OrganizationID s) (ProjectStatus_APIKeys s) (ProjectStatus_Conditions s).
Definition set_ProjectStatus_ProjectID (v : string) (s : LangfuseProjectStatus) : LangfuseProjectStatus :=
  mkLangfuseProjectStatus (ProjectStatus_Ready s) v (ProjectStatus_OrganizationID s) (ProjectStatus_APIKeys s) (ProjectStatus_Conditions s).
Definition set_ProjectStatus_OrganizationID (v : string) (s : LangfuseProjectStatus) : LangfuseProjectStatus :=
  mkLangfuseProjectStatus (ProjectStatus_Ready s) (ProjectStatus_ProjectID s) v (ProjectStatus_APIKeys s) (ProjectStatus_Conditions s).
Definition set_ProjectStatus_APIKeys (v : list APIKeyStatus) (s : LangfuseProjectStatus) : LangfuseProjectStatus :=
  mkLangfuseProjectStatus (ProjectStatus_Ready s) (ProjectStatus_ProjectID s) (ProjectStatus_OrganizationID s) v (ProjectStatus_Conditions s).
Definition set_ProjectStatus_Conditions (v : list Condition) (s : LangfuseProjectStatus) : LangfuseProjectStatus :=
  mkLangfuseProjectStatus (ProjectStatus_Ready s) (ProjectStatus_ProjectID s) (ProjectStatus_OrganizationID s) (ProjectStatus_APIKeys s) v.

Record LangfuseProject := mkLangfuseProject {
  Project_ObjectMeta : ObjectMeta;
  Project_Spec : LangfuseProjectSpec;
  Project_Status : LangfuseProjectStatus
}.

Definition zero_LangfuseProject : LangfuseProject :=
  mkLangfuseProject zero_ObjectMeta zero_LangfuseProjectSpec zero_LangfuseProjectStatus.

Definition set_Project_ObjectMeta (v : ObjectMeta) (s : LangfuseProject) : LangfuseProject :=
  mkLangfuseProject v (Project_Spec s) (Project_Status s).
Definition set_Project_Spec (v : LangfuseProjectSpec) (s : LangfuseProject) : LangfuseProject :=
  mkLangfuseProject (Project_ObjectMeta s) v (Project_Status s).
Definition set_Project_Status (v : LangfuseProjectStatus) (s : LangfuseProject) : LangfuseProject :=
  mkLangfuseProject (Project_ObjectMeta s) (Project_Spec s) v.
