(* ===== verification/LangfuseTypes.v ===== *)
(** * The data of the Langfuse API ([internal/langfuse/client.go])

    The values the API returns, and the calls of the [Client] interface with
    their answers, as they stand in the trace of a pass. *)

From S2P Require Import Prelude.

Record Organization := mkOrganization { Organization_ID : string; Organization_Name : string }.

Record OrgMember := mkOrgMember {
  OrgMember_ID : string;
  OrgMember_Email : string;
  OrgMember_Role : string
}.

(** [Project] of package langfuse. *)
Record LFProject := mkLFProject { LFProject_ID : string; LFProject_Name : string }.

Record APIKey := mkAPIKey { APIKey_ID : string; APIKey_PublicKey : string }.

Record APIKeyPair := mkAPIKeyPair {
  APIKeyPair_ID : string;
  APIKeyPair_PublicKey : string;
  APIKeyPair_SecretKey : string
}.

Record BackgroundMigrations := mkBackgroundMigrations {
  BackgroundMigrations_Pending : Z;
  BackgroundMigrations_Running : Z;
  BackgroundMigrations_Completed : Z
}.

#[global] Instance OrgMember_eq_dec : EqDecision OrgMember.
Proof. solve_decision. Defined.
#[global] Instance APIKey_eq_dec : EqDecision APIKey.
Proof. solve_decision. Defined.

(** [httpClient]: whom a client speaks to, and as whom. *)
Record httpClient := mkHttpClient { hc_baseURL : string; hc_authHeader : string }.

Inductive APICall :=
  | AHealth (e : option GoError)
  | AListOrganizations (r : result (list Organization))
  | AGetOrganization (id : string) (r : result Organization)
  | ACreateOrganization (name : string) (r : result Organization)
  | AUpdateOrganization (id name : string) (r : result Organization)
  | ADeleteOrganization (id : string) (e : option GoError)
  | AListOrgMembers (orgID : string) (r : result (list OrgMember))
  | AAddOrgMember (orgID email role : string) (r : result OrgMember)
  | AUpdateOrgMemberRole (orgID memberID role : string) (e : option GoError)
  | ARemoveOrgMember (orgID memberID : string) (e : option GoError)
  | ACreateOrganizationAPIKey (orgID note : string) (r : result APIKeyPair)
  | AListProjects (r : result (list LFProject))
  | AGetProject (projectID : string) (r : result LFProject)
  | ACreateProject (name : string) (r : result LFProject)
  | ADeleteProject (projectID : string) (e : option GoError)
  | AListAPIKeys (projectID : string) (r : result (list APIKey))
  | ACreateAPIKey (projectID note : string) (r : result APIKeyPair)
  | ADeleteAPIKey (projectID apiKeyID : string) (e : option GoError)
  | AGetBackgroundMigrations (r : result BackgroundMigrations).
