(* ===== verification/Kube.v ===== *)
(** * The API server, as the operator sees it

    The Kubernetes client is code outside the repository: a parameter.
    [KubeClient W] lists the calls the controllers make, each a transformer of
    an arbitrary world [W], so that a theorem about all clients covers every
    answer, every failure and every interleaving with other actors.  Calls go
    through [call], which records each call and its answer in a trace;
    theorems about what a controller does speak of that trace.

    [ConditionAPI] is [k8s.io/apimachinery/pkg/api/meta], with its documented
    behaviour as the laws [ConditionLaws].  [FakeCluster] and [list_conditions]
    are concrete instances, used to run the controllers on examples. *)

From S2P Require Import Prelude KubeTypes ApiTypes LangfuseTypes.

Open Scope string_scope.
Open Scope list_scope.

(** ** Reconcile outcomes *)

(** [time.Duration], in nanoseconds. *)
Definition Second : Z := 1000000000.
Definition Minute : Z := 60 * Second.
Definition Hour : Z := 60 * Minute.

(** [ctrl.Result]. *)
Record Result := mkResult { RequeueAfter : Z }.
Definition zero_Result : Result := mkResult 0.

#[global] Instance Result_eq_dec : EqDecision Result.
Proof. solve_decision. Defined.

(** What a [Reconcile] returns: [(ctrl.Result, error)]. *)
Definition Outcome : Type := Result * option GoError.

Definition done_after (d : Z) : Outcome := (mkResult d, None).
Definition done_now : Outcome := (zero_Result, None).
Definition failed (e : GoError) : Outcome := (zero_Result, Some e).

(** ** Calls and their trace *)

Inductive EventType := EventNormal | EventWarning.

#[global] Instance EventType_eq_dec : EqDecision EventType.
Proof. solve_decision. Defined.

Inductive Call :=
  | CGetInstance (k : NamespacedName) (r : result LangfuseInstance)
  | CGetDeployment (k : NamespacedName) (r : result Deployment)
  | CGetJob (k : NamespacedName) (r : result Job)
  | CGetSecret (k : NamespacedName) (r : result Secret)
  | CListInstances (ns : string) (r : result (list LangfuseInstance))
  | CListPods (ns : string) (selector : gmap string string) (r : result (list Pod))
  | CUpdateStatus (i : LangfuseInstance) (e : option GoError)
  | CCreateJob (j : JobObject) (e : option GoError)
  | CDeleteJob (k : NamespacedName) (p : DeletionPropagation) (e : option GoError)
  | CPatchReplicas (k : NamespacedName) (n : Z) (e : option GoError)
  | CPatchTemplateAnnotation (k : NamespacedName) (key value owner : string) (e : option GoError)
  | CCreateSecret (s : Secret) (e : option GoError)
  | CUpdateSecret (s : Secret) (e : option GoError)
  | CEvent (t : EventType) (reason message : string)
  | CProbed (instance component : string) (healthy : bool)
  | CStatement (endpoint database statement : string) (answer : result string)
  | CApply (o : Object) (owner : string) (e : option GoError)
  | CDeleteServiceMonitor (k : NamespacedName) (e : option GoError)
  | CDeleteSecret (k : NamespacedName) (e : option GoError)
  | CGetOrganization (k : NamespacedName) (r : result LangfuseOrganization)
  | CUpdateOrganization (o : LangfuseOrganization) (r : result LangfuseOrganization)
  | CUpdateOrganizationStatus (o : LangfuseOrganization) (e : option GoError)
  | CListProjects (r : result (list LangfuseProject))
  | CGetProject (k : NamespacedName) (r : result LangfuseProject)
  | CUpdateProject (p : LangfuseProject) (r : result LangfuseProject)
  | CUpdateProjectStatus (p : LangfuseProject) (e : option GoError)
  | CLangfuse (who : httpClient) (c : APICall).

Class KubeClient (W : Type) := {
  kc_get_instance : NamespacedName → W → result LangfuseInstance * W;
  kc_get_deployment : NamespacedName → W → result Deployment * W;
  kc_get_job : NamespacedName → W → result Job * W;
  kc_get_secret : NamespacedName → W → result Secret * W;
  kc_list_instances : string → W → result (list LangfuseInstance) * W;
  kc_list_pods : string → gmap string string → W → result (list Pod) * W;
  kc_update_status : LangfuseInstance → W → option GoError * W;
  kc_create_job : JobObject → W → option GoError * W;
  kc_delete_job : NamespacedName → DeletionPropagation → W → option GoError * W;
  kc_patch_replicas : NamespacedName → Z → W → option GoError * W;
  kc_patch_template_annotation :
    NamespacedName → string → string → string → W → option GoError * W;
  kc_create_secret : Secret → W → option GoError * W;
  kc_update_secret : Secret → W → option GoError * W;
  kc_event : EventType → string → string → W → unit * W;
  kc_now : W → Z * W
}.

(** The calls of the instance controller: a server-side apply under a field
    owner, forcing ownership, and the removal of a ServiceMonitor. *)
Class ApplyClient (W : Type) := {
  kc_apply : Object → string → W → option GoError * W;
  kc_delete_service_monitor : NamespacedName → W → option GoError * W
}.

(** The calls of the organization and project controllers.  An update returns the
    object as the API server now holds it. *)
Class TenantClient (W : Type) := {
  kc_get_organization : NamespacedName → W → result LangfuseOrganization * W;
  kc_update_organization : LangfuseOrganization → W → result LangfuseOrganization * W;
  kc_update_organization_status : LangfuseOrganization → W → option GoError * W;
  kc_list_projects : W → result (list LangfuseProject) * W;
  kc_get_project : NamespacedName → W → result LangfuseProject * W;
  kc_update_project : LangfuseProject → W → result LangfuseProject * W;
  kc_update_project_status : LangfuseProject → W → option GoError * W;
  kc_delete_secret : NamespacedName → W → option GoError * W
}.

Record St (W : Type) := mkSt { st_world : W; st_trace : list Call }.
Arguments mkSt {W} _ _.
Arguments st_world {W} _.
Arguments st_trace {W} _.

Definition call {W X} (op : W → X * W) (label : X → Call) : M (St W) X :=
  λ s, let '(x, w) := op (st_world s) in (x, mkSt w (st_trace s ++ [label x])).

(** Reads that leave no trace entry: the clock. *)
Definition silent {W X} (op : W → X * W) : M (St W) X :=
  λ s, let '(x, w) := op (st_world s) in (x, mkSt w (st_trace s)).

Section client.
Context {W : Type} `{KubeClient W}.

Definition Get_Instance k := call (kc_get_instance k) (CGetInstance k).
Definition Get_Deployment k := call (kc_get_deployment k) (CGetDeployment k).
Definition Get_Job k := call (kc_get_job k) (CGetJob k).
Definition Get_Secret k := call (kc_get_secret k) (CGetSecret k).
Definition List_Instances ns := call (kc_list_instances ns) (CListInstances ns).
Definition List_Pods ns sel := call (kc_list_pods ns sel) (CListPods ns sel).
Definition Status_Update i := call (kc_update_status i) (CUpdateStatus i).
Definition Create_Job j := call (kc_create_job j) (CCreateJob j).
Definition Delete_Job k p := call (kc_delete_job k p) (CDeleteJob k p).
Definition Patch_Replicas k n := call (kc_patch_replicas k n) (CPatchReplicas k n).
Definition Patch_TemplateAnnotation k key value owner :=
  call (kc_patch_template_annotation k key value owner)
    (CPatchTemplateAnnotation k key value owner).
Definition Create_Secret s := call (kc_create_secret s) (CCreateSecret s).
Definition Update_Secret s := call (kc_update_secret s) (CUpdateSecret s).
Definition Event t reason msg := call (kc_event t reason msg) (λ _, CEvent t reason msg).
Definition Now : M (St W) Z := silent kc_now.
End client.

Definition Apply `{ApplyClient W} o owner := call (kc_apply o owner) (CApply o owner).
Definition Delete_ServiceMonitor `{ApplyClient W} k :=
  call (kc_delete_service_monitor k) (CDeleteServiceMonitor k).

Section tenants.
Context `{TenantClient W}.

Definition Get_Organization k := call (kc_get_organization k) (CGetOrganization k).
Definition Update_Organization o := call (kc_update_organization o) (CUpdateOrganization o).
Definition Status_Update_Organization o :=
  call (kc_update_organization_status o) (CUpdateOrganizationStatus o).
Definition List_Projects := call kc_list_projects CListProjects.
Definition Get_Project k := call (kc_get_project k) (CGetProject k).
Definition Update_Project p := call (kc_update_project p) (CUpdateProject p).
Definition Status_Update_Project p := call (kc_update_project_status p) (CUpdateProjectStatus p).
Definition Delete_Secret k := call (kc_delete_secret k) (CDeleteSecret k).
End tenants.

(** A log line the theorems speak of leaves an entry in the trace. *)
Definition note {W} (c : Call) : M (St W) unit :=
  λ s, (tt, mkSt (st_world s) (st_trace s ++ [c])).

(** A run from a world: the value, the final world and the calls made. *)
Definition run {W A} (m : M (St W) A) (w : W) : A * W * list Call :=
  let '(a, s) := m (mkSt w []) in (a, st_world s, st_trace s).

(** ** Reasoning about traces *)

Section trace.
Context {W : Type}.

Lemma wp_call {X} (op : W → X * W) (label : X → Call) (Q : X → St W → Prop) s :
  (∀ x w, Q x (mkSt w (st_trace s ++ [label x]))) → wp (call op label) Q s.
Proof. intros HQ. unfold wp, call. destruct (op (st_world s)). apply HQ. Qed.

(** The same, knowing the answer. *)
Lemma wp_call_run {X} (op : W → X * W) (label : X → Call) (Q : X → St W → Prop) s :
  Q (op (st_world s)).1 (mkSt (op (st_world s)).2 (st_trace s ++ [label (op (st_world s)).1])) →
  wp (call op label) Q s.
Proof. intros HQ. unfold wp, call. by destruct (op (st_world s)). Qed.

Lemma wp_silent {X} (op : W → X * W) (Q : X → St W → Prop) s :
  (∀ x w, Q x (mkSt w (st_trace s))) → wp (silent op) Q s.
Proof. intros HQ. unfold wp, silent. destruct (op (st_world s)). apply HQ. Qed.

(** Every call [m] makes, whatever the answers, satisfies [P]. *)
Definition emits {A} (P : Call → Prop) (m : M (St W) A) : Prop :=
  ∀ s, wp m (λ _ s', ∃ cs, st_trace s' = st_trace s ++ cs ∧ Forall P cs) s.

(** The same, with a postcondition on the value returned. *)
Definition emits_ret {A} (P : Call → Prop) (R : A → Prop) (m : M (St W) A) : Prop :=
  ∀ s, wp m (λ a s', R a ∧ ∃ cs, st_trace s' = st_trace s ++ cs ∧ Forall P cs) s.

Lemma emits_ret_True {A} P (m : M (St W) A) : emits_ret P (λ _, True) m ↔ emits P m.
Proof. unfold emits, emits_ret. split; intros Hm s; (eapply wp_mono; [apply Hm|]); cbn; intuition. Qed.

Lemma emits_ret_mret {A} P (R : A → Prop) (a : A) : R a → emits_ret P R (mret a).
Proof. intros HR s. apply wp_ret. split; [done|]. exists []. by rewrite app_nil_r. Qed.

Lemma emits_ret_bind {A B} P (R : A → Prop) (R' : B → Prop) (m : M (St W) A) (f : A → M (St W) B) :
  emits_ret P R m → (∀ a, R a → emits_ret P R' (f a)) → emits_ret P R' (m ≫= f).
Proof.
  intros Hm Hf s. apply wp_bind. eapply wp_mono; [apply Hm|].
  intros a s1 (HR & cs1 & E1 & F1). eapply wp_mono; [by apply Hf|].
  intros b s2 (HR' & cs2 & E2 & F2). split; [done|].
  exists (cs1 ++ cs2). rewrite E2, E1, app_assoc. split; [done|]. by apply Forall_app.
Qed.

Lemma emits_ret_call {X} P (R : X → Prop) (op : W → X * W) (label : X → Call) :
  (∀ x, R x ∧ P (label x)) → emits_ret P R (call op label).
Proof.
  intros HP s. apply wp_call. intros x w. destruct (HP x). split; [done|].
  exists [label x]. split; [done|]. by constructor.
Qed.

Lemma emits_ret_silent {X} P (op : W → X * W) : emits_ret P (λ _, True) (silent op).
Proof.
  intros s. apply wp_silent. intros x w. split; [done|]. exists []. by rewrite app_nil_r.
Qed.

Lemma emits_ret_mono {A} P P' (R R' : A → Prop) (m : M (St W) A) :
  emits_ret P R m → (∀ c, P c → P' c) → (∀ a, R a → R' a) → emits_ret P' R' m.
Proof.
  intros Hm HP HR s. eapply wp_mono; [apply Hm|]. intros a s' (? & cs & ? & HF).
  split; [by apply HR|]. exists cs. split; [done|]. eapply Forall_impl; [exact HF|done].
Qed.

Lemma emits_ret_mfold {A B} P (I : A → Prop) (f : A → B → M (St W) A) l a :
  I a → (∀ a b, b ∈ l → I a → emits_ret P I (f a b)) → emits_ret P I (mfold f l a).
Proof.
  revert a. induction l as [|b l IH]; intros a Ha Hf; cbn [mfold]; [by apply emits_ret_mret|].
  apply emits_ret_bind with I; [apply Hf; [set_solver|done]|].
  intros a' Ha'. apply IH; [done|]. intros ????. apply Hf; [set_solver|done].
Qed.

(** The general form: value and calls are related by [T]. *)
Definition traces {A} (T : A → list Call → Prop) (m : M (St W) A) : Prop :=
  ∀ s, wp m (λ a s', ∃ cs, st_trace s' = st_trace s ++ cs ∧ T a cs) s.

Lemma traces_mret {A} (T : A → list Call → Prop) (a : A) : T a [] → traces T (mret a).
Proof. intros HT s. apply wp_ret. exists []. by rewrite app_nil_r. Qed.

Lemma traces_bind {A B} (T1 : A → list Call → Prop) (T2 : B → list Call → Prop)
    (m : M (St W) A) (f : A → M (St W) B) :
  traces T1 m → (∀ a cs, T1 a cs → traces (λ b cs', T2 b (cs ++ cs')) (f a)) →
  traces T2 (m ≫= f).
Proof.
  intros Hm Hf s. apply wp_bind. eapply wp_mono; [apply Hm|]. intros a s1 (cs1 & E1 & H1).
  eapply wp_mono; [by eapply Hf|]. intros b s2 (cs2 & E2 & H2).
  exists (cs1 ++ cs2). by rewrite E2, E1, app_assoc.
Qed.

Lemma traces_mono {A} (T T' : A → list Call → Prop) (m : M (St W) A) :
  traces T m → (∀ a cs, T a cs → T' a cs) → traces T' m.
Proof.
  intros Hm HT s. eapply wp_mono; [apply Hm|]. intros a s' (cs & E & HC). exists cs. auto.
Qed.

Lemma traces_call {X} (T : X → list Call → Prop) (op : W → X * W) (label : X → Call) :
  (∀ x, T x [label x]) → traces T (call op label).
Proof. intros HT s. apply wp_call. intros x w. by exists [label x]. Qed.

Lemma traces_call_bind {X B} (T : B → list Call → Prop) (op : W → X * W) (label : X → Call)
    (f : X → M (St W) B) :
  (∀ x, traces (λ b cs, T b (label x :: cs)) (f x)) → traces T (call op label ≫= f).
Proof.
  intros Hf. apply traces_bind with (λ x cs, cs = [label x]); [by apply traces_call|].
  intros x cs ->. apply Hf.
Qed.

Lemma traces_silent_bind {X B} (T : B → list Call → Prop) (op : W → X * W) (f : X → M (St W) B) :
  (∀ x, traces T (f x)) → traces T (silent op ≫= f).
Proof.
  intros Hf s. apply wp_bind, wp_silent. intros x w.
  specialize (Hf x (mkSt w (st_trace s))). exact Hf.
Qed.

Lemma traces_note_bind {B} (T : B → list Call → Prop) (c : Call) (f : unit → M (St W) B) :
  traces (λ b cs, T b (c :: cs)) (f tt) → traces T (note c ≫= f).
Proof.
  intros Hf. apply traces_bind with (λ _ cs, cs = [c]).
  - intros s. unfold wp, note. by exists [c].
  - intros [] cs ->. apply Hf.
Qed.

Lemma traces_fmap {A B} (T : A → list Call → Prop) (m : M (St W) A) (f : A → B) :
  traces T m → traces (λ b cs, ∃ a, b = f a ∧ T a cs) (m ≫= λ a, mret (f a)).
Proof.
  intros Hm. eapply traces_bind; [exact Hm|]. intros a cs HT. apply traces_mret.
  rewrite app_nil_r. eauto.
Qed.

Lemma traces_mfold {A B} (T : A → list Call → Prop) (f : A → B → M (St W) A) l a :
  T a [] →
  (∀ a cs b, b ∈ l → T a cs → traces (λ a' cs', T a' (cs ++ cs')) (f a b)) →
  traces T (mfold f l a).
Proof.
  intros Ha Hf.
  assert (∀ l' a cs, l' ⊆ l → T a cs → traces (λ a' cs', T a' (cs ++ cs')) (mfold f l' a)) as Hgen.
  { induction l' as [|b l' IH]; intros a0 cs Hsub HT; cbn [mfold].
    - apply traces_mret. by rewrite app_nil_r.
    - eapply traces_bind; [apply Hf; [set_solver|done]|]. cbn. intros a1 cs1 HT1.
      eapply traces_mono; [apply IH; [set_solver|done]|]. cbn. intros ??. by rewrite app_assoc. }
  by apply (Hgen l a []).
Qed.

Lemma emits_traces {A} P (R : A → Prop) (m : M (St W) A) :
  emits_ret P R m ↔ traces (λ a cs, R a ∧ Forall P cs) m.
Proof.
  split; intros Hm s; (eapply wp_mono; [apply Hm|]); cbn; intros a s' HH.
  - destruct HH as (HR & cs & E & F). eauto.
  - destruct HH as (cs & E & HR & F). eauto.
Qed.

(** Two facts about one trace. *)
Lemma traces_and {A} (T T' : A → list Call → Prop) (m : M (St W) A) :
  traces T m → traces T' m → traces (λ a cs, T a cs ∧ T' a cs) m.
Proof.
  intros HT HT' s. eapply wp_mono; [apply wp_and; [apply HT|apply HT']|].
  intros a s' [(cs & E & H1) (cs' & E' & H2)]. rewrite E in E'. apply app_inv_head in E' as <-. eauto.
Qed.

(** From a run to its trace. *)
Lemma traces_run {A} (T : A → list Call → Prop) (m : M (St W) A) w a w' cs :
  traces T m → run m w = (a, w', cs) → T a cs.
Proof.
  intros Hm Hr. unfold run in Hr. specialize (Hm (mkSt w [])). unfold wp in Hm.
  destruct (m (mkSt w [])) as [a' s']. simplify_eq.
  destruct Hm as (cs' & E & HT). cbn in E. by subst.
Qed.

(** From a run to the calls in its trace. *)
Lemma emits_run {A} P (R : A → Prop) (m : M (St W) A) w a w' cs :
  emits_ret P R m → run m w = (a, w', cs) → R a ∧ ∀ c, c ∈ cs → P c.
Proof.
  intros Hm%emits_traces Hr. destruct (traces_run _ _ _ _ _ _ Hm Hr) as [HR HF].
  split; [done|]. by apply Forall_forall.
Qed.
End trace.

(** Symbolic execution of a handler: one step per call, all answers.  Stops
    at a loop or at an abstract call. *)
Ltac wp_step :=
  match goal with
  | |- wp (mret _) _ _ => apply wp_ret
  | |- wp (_ ≫= _) _ _ => apply wp_bind
  | |- wp (call _ _) _ _ => apply wp_call; intros ? ?
  | |- wp (silent _) _ _ => apply wp_silent; intros ? ?
  | |- wp (match ?x with _ => _ end) _ _ => destruct x eqn:?
  | |- wp (let '(_, _) := ?x in _) _ _ => destruct x eqn:?
  end.

Ltac emits_step :=
  match goal with
  | |- emits_ret _ _ (mret _) => apply emits_ret_mret
  | |- emits_ret _ _ (call _ _) => apply emits_ret_call; intros ?
  | |- emits_ret _ (λ _, True) (silent _) => apply emits_ret_silent
  | |- emits_ret _ _ (match ?x with _ => _ end) => destruct x eqn:?
  end.

(** ** Status conditions ([k8s.io/apimachinery/pkg/api/meta]) *)

Class ConditionAPI := {
  FindStatusCondition : list Condition → string → option Condition;
  SetStatusCondition : list Condition → Condition → list Condition;
  RemoveStatusCondition : list Condition → string → list Condition
}.

Class ConditionLaws (C : ConditionAPI) : Prop := {
  find_set_eq cs c : FindStatusCondition (SetStatusCondition cs c) (cond_Type c) = Some c;
  find_set_ne cs c t :
    t ≠ cond_Type c → FindStatusCondition (SetStatusCondition cs c) t = FindStatusCondition cs t;
  find_remove_eq cs t : FindStatusCondition (RemoveStatusCondition cs t) t = None;
  find_remove_ne cs t t' :
    t' ≠ t → FindStatusCondition (RemoveStatusCondition cs t) t' = FindStatusCondition cs t';
  set_same cs c : FindStatusCondition cs (cond_Type c) = Some c → SetStatusCondition cs c = cs;
  remove_absent cs t : FindStatusCondition cs t = None → RemoveStatusCondition cs t = cs;
  find_nil t : FindStatusCondition [] t = None
}.

(** [metav1.Condition] values as the controllers write them. *)
Definition condition (t : string) (s : ConditionStatus) (reason msg : string) (gen : Z) : Condition :=
  mkCondition t s reason msg gen.

(** The list implementation used on examples. *)
Fixpoint list_find (cs : list Condition) (t : string) : option Condition :=
  match cs with
  | [] => None
  | c :: cs' => if decide (cond_Type c = t) then Some c else list_find cs' t
  end.

Fixpoint list_set (cs : list Condition) (c : Condition) : list Condition :=
  match cs with
  | [] => [c]
  | d :: cs' => if decide (cond_Type d = cond_Type c) then c :: cs' else d :: list_set cs' c
  end.

Definition list_conditions : ConditionAPI := {|
  FindStatusCondition := list_find;
  SetStatusCondition := list_set;
  RemoveStatusCondition := λ cs t, filter (λ c, cond_Type c ≠ t) cs
|}.

Lemma list_conditions_laws : ConditionLaws list_conditions.
Proof.
  split; cbn.
  - intros cs c. induction cs as [|d cs IH]; cbn; [by rewrite decide_True|].
    destruct (decide (cond_Type d = cond_Type c)); cbn; case_decide; done.
  - intros cs c t Ht. induction cs as [|d cs IH]; cbn; [by rewrite decide_False|].
    destruct (decide (cond_Type d = cond_Type c)) as [E|]; cbn.
    + rewrite E, !decide_False by done. done.
    + by rewrite IH.
  - intros cs t. induction cs as [|d cs IH]; [done|]. rewrite filter_cons.
    case_decide; [cbn; by rewrite decide_False|done].
  - intros cs t t' Ht. induction cs as [|d cs IH]; [done|]. rewrite filter_cons.
    case_decide as E; cbn; [by rewrite IH|]. rewrite IH, decide_False; congruence.
  - intros cs c. induction cs as [|d cs IH]; cbn; [done|].
    case_decide; [congruence|]. intros ?. by rewrite IH.
  - intros cs t. induction cs as [|d cs IH]; [done|]. rewrite filter_cons.
    intros Hf. cbn in Hf. destruct (decide (cond_Type d = t)) in Hf; [done|].
    rewrite decide_True by done. by rewrite IH.
  - done.
Qed.

#[export] Hint Rewrite @find_set_eq @find_remove_eq using typeclasses eauto : gorw.

(** ** Owner references ([controllerutil])

    [SetControllerReference owner obj] makes [owner] the controller of [obj], or
    refuses an object that has another controller. It touches the owner
    references of [obj] only. *)

Class OwnerAPI := {
  SetControllerReference : ObjectMeta → ObjectMeta → result ObjectMeta
}.

Class OwnerLaws (O : OwnerAPI) : Prop := {
  owner_keeps o m m' :
    SetControllerReference o m = Ok m' →
    m' = mkObjectMeta (om_Name m) (om_Namespace m) (om_Labels m) (om_Annotations m)
           (om_OwnerReferences m') (om_Generation m) (om_DeletionTimestamp m) (om_Finalizers m)
}.

Definition list_owner : OwnerAPI := {|
  SetControllerReference o m :=
    match om_OwnerReferences m with
    | [] => Ok (mkObjectMeta (om_Name m) (om_Namespace m) (om_Labels m) (om_Annotations m)
                  [mkOwnerRef "LangfuseInstance" (om_Name o)] (om_Generation m)
                  (om_DeletionTimestamp m) (om_Finalizers m))
    | _ => Err (newError "already owned by another controller")
    end
|}.

Lemma list_owner_laws : OwnerLaws list_owner.
Proof. split. intros o m m'. cbn. destruct (om_OwnerReferences m); [|done]. by intros [= <-]. Qed.

(** ** Finalizers ([controllerutil]) *)

Class FinalizerAPI := {
  ContainsFinalizer : ObjectMeta → string → bool;
  AddFinalizer : ObjectMeta → string → ObjectMeta;
  RemoveFinalizer : ObjectMeta → string → ObjectMeta
}.

(** [m'] is [m] with other finalizers. *)
Definition refinalized (m m' : ObjectMeta) : Prop :=
  m' = mkObjectMeta (om_Name m) (om_Namespace m) (om_Labels m) (om_Annotations m)
         (om_OwnerReferences m) (om_Generation m) (om_DeletionTimestamp m) (om_Finalizers m').

Class FinalizerLaws (F : FinalizerAPI) : Prop := {
  contains_add m f : ContainsFinalizer (AddFinalizer m f) f = true;
  contains_remove m f : ContainsFinalizer (RemoveFinalizer m f) f = false;
  contains_add_other m f f' :
    f' ≠ f → ContainsFinalizer (AddFinalizer m f) f' = ContainsFinalizer m f';
  contains_remove_other m f f' :
    f' ≠ f → ContainsFinalizer (RemoveFinalizer m f) f' = ContainsFinalizer m f';
  add_refinalized m f : refinalized m (AddFinalizer m f);
  remove_refinalized m f : refinalized m (RemoveFinalizer m f)
}.

Definition with_finalizers (l : list string) (m : ObjectMeta) : ObjectMeta :=
  mkObjectMeta (om_Name m) (om_Namespace m) (om_Labels m) (om_Annotations m)
    (om_OwnerReferences m) (om_Generation m) (om_DeletionTimestamp m) l.

Definition list_finalizers : FinalizerAPI := {|
  ContainsFinalizer m f := bool_decide (f ∈ om_Finalizers m);
  AddFinalizer m f :=
    if bool_decide (f ∈ om_Finalizers m) then m else with_finalizers (om_Finalizers m ++ [f]) m;
  RemoveFinalizer m f := with_finalizers (filter (λ g, g ≠ f) (om_Finalizers m)) m
|}.

Lemma list_finalizers_laws : FinalizerLaws list_finalizers.
Proof.
  split; cbn.
  - intros m f. destruct (bool_decide (f ∈ om_Finalizers m)) eqn:E; [exact E|].
    apply bool_decide_eq_true_2. cbn. set_solver.
  - intros m f. apply bool_decide_eq_false_2. cbn. rewrite list_elem_of_filter. naive_solver.
  - intros m f f' Hf. destruct (bool_decide (f ∈ om_Finalizers m)); [done|].
    apply bool_decide_ext. cbn. set_solver.
  - intros m f f' Hf. apply bool_decide_ext. cbn. rewrite list_elem_of_filter. naive_solver.
  - intros [] f. cbn. by destruct (bool_decide _).
  - intros [] f. done.
Qed.

(** ** A concrete cluster, to run the controllers on examples *)

Record FakeCluster := mkFake {
  fk_instances : gmap NamespacedName LangfuseInstance;
  fk_deployments : gmap NamespacedName Deployment;
  fk_jobs : gmap NamespacedName Job;
  fk_secrets : gmap NamespacedName Secret;
  fk_pods : list Pod;
  fk_status_error : option GoError;     (* fault injected into status writes *)
  fk_write_error : option GoError;      (* fault injected into other writes *)
  fk_clock : Z
}.

Definition empty_cluster : FakeCluster := mkFake ∅ ∅ ∅ ∅ [] None None 0.

Definition not_found (what : string) (k : NamespacedName) : GoError :=
  mkErr KindNotFound (what +:+ " " +:+ key_String k +:+ " not found").

Definition fake_get {V} (what : string) (sel : FakeCluster → gmap NamespacedName V)
    (k : NamespacedName) (w : FakeCluster) : result V * FakeCluster :=
  (match sel w !! k with Some v => Ok v | None => Err (not_found what k) end, w).

Definition fake_write (f : FakeCluster → FakeCluster) (w : FakeCluster) : option GoError * FakeCluster :=
  match fk_write_error w with Some e => (Some e, w) | None => (None, f w) end.

Definition set_deployments (f : gmap NamespacedName Deployment → gmap NamespacedName Deployment)
    (w : FakeCluster) : FakeCluster :=
  mkFake (fk_instances w) (f (fk_deployments w)) (fk_jobs w) (fk_secrets w) (fk_pods w)
    (fk_status_error w) (fk_write_error w) (fk_clock w).

Definition set_jobs (f : gmap NamespacedName Job → gmap NamespacedName Job)
    (w : FakeCluster) : FakeCluster :=
  mkFake (fk_instances w) (fk_deployments w) (f (fk_jobs w)) (fk_secrets w) (fk_pods w)
    (fk_status_error w) (fk_write_error w) (fk_clock w).

Definition set_secrets (f : gmap NamespacedName Secret → gmap NamespacedName Secret)
    (w : FakeCluster) : FakeCluster :=
  mkFake (fk_instances w) (fk_deployments w) (fk_jobs w) (f (fk_secrets w)) (fk_pods w)
    (fk_status_error w) (fk_write_error w) (fk_clock w).

Definition set_instances (f : gmap NamespacedName LangfuseInstance → gmap NamespacedName LangfuseInstance)
    (w : FakeCluster) : FakeCluster :=
  mkFake (f (fk_instances w)) (fk_deployments w) (fk_jobs w) (fk_secrets w) (fk_pods w)
    (fk_status_error w) (fk_write_error w) (fk_clock w).

Definition dep_with_replicas (n : Z) (d : Deployment) : Deployment :=
  mkDeployment (dep_Meta d) (Some n) (dep_TemplateAnnotations d)
    (dep_StatusReplicas d) (dep_StatusReadyReplicas d).

Definition dep_with_annotation (k v : string) (d : Deployment) : Deployment :=
  mkDeployment (dep_Meta d) (dep_Replicas d) (<[k := v]> (dep_TemplateAnnotations d))
    (dep_StatusReplicas d) (dep_StatusReadyReplicas d).

Definition created_job (j : JobObject) : Job :=
  mkJob (jobo_Meta j) (jobo_BackoffLimit j) (mkJobStatus 0 0 None).

#[global] Instance fake_client : KubeClient FakeCluster := {|
  kc_get_instance := fake_get "langfuseinstance" fk_instances;
  kc_get_deployment := fake_get "deployment" fk_deployments;
  kc_get_job := fake_get "job" fk_jobs;
  kc_get_secret := fake_get "secret" fk_secrets;
  kc_list_instances ns w :=
    (Ok (filter (λ i, om_Namespace (Instance_ObjectMeta i) = ns) (map_to_list (fk_instances w)).*2), w);
  kc_list_pods _ _ w := (Ok (fk_pods w), w);
  kc_update_status i w :=
    match fk_status_error w with
    | Some e => (Some e, w)
    | None => (None, set_instances (<[om_key (Instance_ObjectMeta i) := i]>) w)
    end;
  kc_create_job j := fake_write (set_jobs (<[om_key (jobo_Meta j) := created_job j]>));
  kc_delete_job k _ := fake_write (set_jobs (delete k));
  kc_patch_replicas k n := fake_write (set_deployments (alter (dep_with_replicas n) k));
  kc_patch_template_annotation k key v _ :=
    fake_write (set_deployments (alter (dep_with_annotation key v) k));
  kc_create_secret s := fake_write (set_secrets (<[om_key (sec_Meta s) := s]>));
  kc_update_secret s := fake_write (set_secrets (<[om_key (sec_Meta s) := s]>));
  kc_event _ _ _ w := (tt, w);
  kc_now w := (fk_clock w, w)
|}.

(** An applied Deployment keeps the status it has, and its replica count unless
    the applied object declares one; other kinds are accepted and not stored. *)
Definition applied_deployment (d : DeploymentObject) (old : option Deployment) : Deployment :=
  mkDeployment (depo_Meta d)
    (match depo_Replicas d with Some n => Some n | None => old ≫= dep_Replicas end)
    (from_option dep_TemplateAnnotations ∅ old)
    (from_option dep_StatusReplicas 0 old) (from_option dep_StatusReadyReplicas 0 old).

#[global] Instance fake_apply_client : ApplyClient FakeCluster := {|
  kc_apply o _ :=
    fake_write (match o with
                | ODeployment d =>
                    set_deployments (λ m, let k := om_key (depo_Meta d) in <[k := applied_deployment d (m !! k)]> m)
                | _ => λ w, w
                end);
  kc_delete_service_monitor _ w := (Some (mkErr KindNoMatch "no matches for kind ServiceMonitor"), w)
|}.

(** The fake cluster's answers, as rewriting rules on a bind. *)
Section fake_rules.
Context {B : Type} (s : St FakeCluster).

Lemma fake_Get_Deployment k d (f : result Deployment → M (St FakeCluster) B) :
  fk_deployments (st_world s) !! k = Some d →
  (Get_Deployment k ≫= f) s =
  f (Ok d) (mkSt (st_world s) (st_trace s ++ [CGetDeployment k (Ok d)])).
Proof.
  intros Hd. unfold Get_Deployment, call, mbind, M_bind. cbn. unfold fake_get. by rewrite Hd.
Qed.

Lemma fake_Patch_Replicas k n (f : option GoError → M (St FakeCluster) B) :
  fk_write_error (st_world s) = None →
  (Patch_Replicas k n ≫= f) s =
  f None (mkSt (set_deployments (alter (dep_with_replicas n) k) (st_world s))
            (st_trace s ++ [CPatchReplicas k n None])).
Proof.
  intros Hw. unfold Patch_Replicas, call, mbind, M_bind. cbn. unfold fake_write. by rewrite Hw.
Qed.

Lemma fake_Get_Secret k v (f : result Secret → M (St FakeCluster) B) :
  fk_secrets (st_world s) !! k = Some v →
  (Get_Secret k ≫= f) s = f (Ok v) (mkSt (st_world s) (st_trace s ++ [CGetSecret k (Ok v)])).
Proof.
  intros Hd. unfold Get_Secret, call, mbind, M_bind. cbn. unfold fake_get. by rewrite Hd.
Qed.

Lemma fake_Event t r m (f : unit → M (St FakeCluster) B) :
  (Event t r m ≫= f) s = f tt (mkSt (st_world s) (st_trace s ++ [CEvent t r m])).
Proof. done. Qed.
End fake_rules.
