(* ===== verification/Examples.v ===== *)
(** * Custom resources the examples and witnesses run on

    An instance called [lf] in the namespace [prod], against an external
    PostgreSQL and an external ClickHouse, at a given image tag. *)

From S2P Require Import Prelude GoStd KubeTypes ApiTypes Kube.

Open Scope string_scope.
Open Scope list_scope.

Definition ex_meta (name : string) : ObjectMeta :=
  mkObjectMeta name "prod" ∅ ∅ [] 1 None [].

Definition ex_keys (l : list (string * string)) : gmap string string := list_to_map l.

Definition ex_database (secret : string) : DatabaseSpec :=
  mkDatabaseSpec None None
    (Some (mkExternalDatabaseSpec (mkSecretKeysRef secret (ex_keys [("url", "database_url")])) None)) None.

Definition ex_clickhouse (database : string) : ClickHouseSpec :=
  mkClickHouseSpec None
    (Some (mkExternalClickHouseSpec
      (mkSecretKeysRef "ch" (ex_keys [("url", "url"); ("migrationUrl", "migration_url");
                                      ("username", "user"); ("password", "pass")])) None))
    None None None None database.

Definition ex_image (tag : string) : ImageSpec :=
  mkImageSpec "langfuse/langfuse" tag "" [].

Definition ex_spec (tag secret database : string) (breaker : option CircuitBreakerSpec)
    : LangfuseInstanceSpec :=
  mkLangfuseInstanceSpec (ex_image tag) zero_WebSpec zero_WorkerSpec zero_AuthSpec
    None None None (Some (ex_database secret)) (Some (ex_clickhouse database))
    None None None None None None None None breaker None.

Definition ex_instance (tag secret database : string) : LangfuseInstance :=
  mkLangfuseInstance (ex_meta "lf") (ex_spec tag secret database None) zero_LangfuseInstanceStatus.

(** An instance migrated by an operator that recorded a version only. *)
Definition ex_legacy (tag : string) : LangfuseInstance :=
  set_Instance_Status (set_Status_Database
    (Some (set_DatabaseStatus_MigrationVersion tag zero_DatabaseStatus)) zero_LangfuseInstanceStatus)
    (ex_instance tag "pg" "default").

Definition ex_key : NamespacedName := mkKey "prod" "lf".
Definition ex_job_key : NamespacedName := mkKey "prod" "lf-migrate".

(** A cluster that holds one instance and the given migration Job. *)
Definition ex_cluster (i : LangfuseInstance) (job : option Job) : FakeCluster :=
  mkFake {[ ex_key := i ]} ∅ (match job with Some j => {[ ex_job_key := j ]} | None => ∅ end)
    ∅ [] None None 0.

Definition ex_job (annotation identity : string) (succeeded : Z) : Job :=
  mkJob (mkObjectMeta "lf-migrate" "prod" ∅ {[ annotation := identity ]} [] 1 None [])
    (Some 3) (mkJobStatus succeeded 0 None).

(** An instance whose status records [identity] as migrated. *)
Definition ex_applied (identity : string) (i : LangfuseInstance) : LangfuseInstance :=
  set_Instance_Status (set_Status_Migration
    (Some (set_MigrationStatus_AppliedIdentity identity zero_MigrationStatus)) (Instance_Status i)) i.
