(* ===== verification/Interfaces.v ===== *)
(** * Interfaces between the controllers

    What one component relies on of another, where the client's theorems should
    not depend on how the other works.  The probes of [health_probes.go] open
    network connections; the circuit breaker and the health monitor use their
    verdict only, and rely on their making no call that changes the cluster. *)

From S2P Require Import Prelude GoStd KubeTypes ApiTypes Kube.

Open Scope string_scope.
Open Scope list_scope.

(** [probeResult] of [health_probes.go]. *)
Record probeResult := mkProbe {
  Connected : bool;
  probe_Reason : string;
  probe_Message : string
}.

(** A probe may read Secrets. *)
Definition reads_secrets (c : Call) : Prop :=
  match c with CGetSecret _ _ => True | _ => False end.

Class DependencyProbes (W : Type) := {
  probeClickHouse : LangfuseInstance → M (St W) probeResult;
  probeRedis : LangfuseInstance → M (St W) probeResult;
  probeDatabase : LangfuseInstance → M (St W) probeResult;
  probeBlobStorage : LangfuseInstance → M (St W) probeResult
}.

Class ProbeLaws {W} (P : DependencyProbes W) : Prop := {
  probeClickHouse_reads i : emits_ret reads_secrets (λ _, True) (probeClickHouse i);
  probeRedis_reads i : emits_ret reads_secrets (λ _, True) (probeRedis i);
  probeDatabase_reads i : emits_ret reads_secrets (λ _, True) (probeDatabase i);
  probeBlobStorage_reads i : emits_ret reads_secrets (λ _, True) (probeBlobStorage i)
}.

(** Probes with fixed verdicts; blob storage is up. *)
Definition fixed_probe {W} (up : bool) : M (St W) probeResult :=
  mret (mkProbe up (if up then "Connected" else "Unreachable") "").

Definition fixed_probes {W} (clickhouse redis database : bool) : DependencyProbes W := {|
  probeClickHouse _ := fixed_probe clickhouse;
  probeRedis _ := fixed_probe redis;
  probeDatabase _ := fixed_probe database;
  probeBlobStorage _ := fixed_probe true
|}.

Lemma fixed_probes_laws {W} c r d : ProbeLaws (fixed_probes (W := W) c r d).
Proof. split; intros i; by apply emits_ret_mret. Qed.
