(* ===== verification/GoHeap.v ===== *)
(** * Go values in memory

    The controllers take a copy of what they read, change the object in place and
    compare it with the copy.  Elsewhere in the library values have no identity and a
    copy is the value itself; here they have one.  A [value] refers to the cells of a
    [heap]; [unfolds] says which [tree] a value stands for, and [typed] which trees
    belong to a Go type.  [Copies] is the specification of a deep copy, proved here
    for each statement a generated copy function is made of. *)

From S2P Require Import Prelude GoStd.

Open Scope string_scope.
Open Scope list_scope.

#[local] Set Warnings "-register-all".

(** ** Memory *)

Definition loc := positive.

Inductive leaf := LString (s : string) | LBool (b : bool) | LInt (n : Z).

(** Pointers, slices and maps may be nil; a slice is an array, an offset and a length. *)
Inductive value :=
  | VLeaf (x : leaf)
  | VStruct (fs : gmap string value)
  | VPtr (p : option loc)
  | VSlice (s : option (loc * nat * nat))
  | VMap (m : option loc).

Inductive cell := CVar (v : value) | CArray (vs : list value) | CMap (kvs : gmap string value).

Definition heap := gmap loc cell.

Definition alloc (c : cell) : M heap loc := λ h, let l := fresh (dom h) in (l, <[l := c]> h).
Definition load (l : loc) : M heap (option cell) := λ h, (h !! l, h).

(** ** The meaning of a value *)

Inductive tree :=
  | TLeaf (x : leaf)
  | TStruct (fs : gmap string tree)
  | TNil
  | TRef (t : tree)
  | TSeq (ts : list tree)
  | TDict (kvs : gmap string tree).

(** In [h] the value [v] stands for [t], with nesting less than [n] deep.  Only the
    cells [v] leads to count. *)
Fixpoint unfolds (n : nat) (h : heap) (v : value) (t : tree) : Prop :=
  match n with
  | O => False
  | S n =>
      match v, t with
      | VLeaf x, TLeaf y => x = y
      | VStruct fs, TStruct ts => map_Forall2 (λ _, unfolds n h) fs ts
      | VPtr None, TNil | VSlice None, TNil | VMap None, TNil => True
      | VPtr (Some l), TRef t => ∃ v, h !! l = Some (CVar v) ∧ unfolds n h v t
      | VSlice (Some (l, offset, length)), TSeq ts =>
          ∃ vs, h !! l = Some (CArray vs) ∧ Forall2 (unfolds n h) (take length (drop offset vs)) ts
      | VMap (Some l), TDict ts => ∃ kvs, h !! l = Some (CMap kvs) ∧ map_Forall2 (λ _, unfolds n h) kvs ts
      | _, _ => False
      end
  end.

(** The tree read off the memory, if [n] is enough. *)
Definition all_some {A} (m : gmap string (option A)) : option (gmap string A) :=
  if bool_decide (map_Forall (λ _ o, is_Some o) m) then Some (omap id m) else None.

Fixpoint meaning (n : nat) (h : heap) (v : value) : option tree :=
  match n with
  | O => None
  | S n =>
      match v with
      | VLeaf x => Some (TLeaf x)
      | VStruct fs => TStruct <$> all_some (meaning n h <$> fs)
      | VPtr None | VSlice None | VMap None => Some TNil
      | VPtr (Some l) => match h !! l with Some (CVar v) => TRef <$> meaning n h v | _ => None end
      | VSlice (Some (l, offset, length)) =>
          match h !! l with
          | Some (CArray vs) => TSeq <$> mapM (meaning n h) (take length (drop offset vs))
          | _ => None
          end
      | VMap (Some l) =>
          match h !! l with Some (CMap kvs) => TDict <$> all_some (meaning n h <$> kvs) | _ => None end
      end
  end.

Lemma all_some_spec {A} (f : value → option A) kvs m :
  all_some (f <$> kvs) = Some m → map_Forall2 (λ _ v a, f v = Some a) kvs m.
Proof.
  unfold all_some. case_bool_decide as Hall; [|done]. intros [= <-] F. specialize (Hall F).
  rewrite lookup_omap, lookup_fmap in *. destruct (kvs !! F) as [v|]; cbn in *; [|constructor].
  destruct (Hall (f v) eq_refl) as [a Ha]. rewrite Ha. by constructor.
Qed.

Lemma meaning_unfolds n h v t : meaning n h v = Some t → unfolds n h v t.
Proof.
  revert v t. induction n as [|n IH]; [done|]. intros v t. cbn [meaning unfolds].
  destruct v as [x|fs|[l|]|[[[l o] k]|]|[l|]].
  - by intros [= <-].
  - intros (ts & Hts & ->)%fmap_Some_1. eapply map_Forall2_impl; [by apply all_some_spec|]. auto.
  - destruct (h !! l) as [[v|vs|kvs]|]; try done. intros (t' & Ht' & ->)%fmap_Some_1. eauto.
  - by intros [= <-].
  - destruct (h !! l) as [[v|vs|kvs]|]; try done. intros (ts & Hts%mapM_Some_1 & ->)%fmap_Some_1.
    exists vs. split; [done|]. eapply Forall2_impl; [exact Hts|]. auto.
  - by intros [= <-].
  - destruct (h !! l) as [[v|vs|kvs]|]; try done. intros (ts & Hts & ->)%fmap_Some_1.
    exists kvs. split; [done|]. eapply map_Forall2_impl; [by apply all_some_spec|]. auto.
  - by intros [= <-].
Qed.

(** ** Types *)

(** [TyExt]: a struct of another module, by its name. *)
Inductive ty :=
  | TyString | TyBool | TyInt
  | TyStruct (fs : list (string * ty))
  | TyPtr (T : ty) | TySlice (T : ty) | TyMap (T : ty)
  | TyExt (name : string).

(** The types of other modules, whose copy functions are not in the repository:
    [ext_copy] is what their [DeepCopyInto] leaves in [*out], and what their [DeepCopy]
    gives of a value. *)
Class ExternalTypes := {
  ext_typed : string → tree → bool;
  ext_copy : string → value → M heap value
}.

Section types.
Context `{EXT : ExternalTypes}.

Fixpoint typed (T : ty) (t : tree) {struct T} : bool :=
  match T, t with
  | TyString, TLeaf (LString _) | TyBool, TLeaf (LBool _) | TyInt, TLeaf (LInt _) => true
  | TyStruct Fs, TStruct ts =>
      (fix fields (Fs : list (string * ty)) : bool :=
         match Fs with
         | [] => true
         | (F, T) :: Fs => match ts !! F with Some t => typed T t | None => false end && fields Fs
         end) Fs && bool_decide (map_Forall (λ F _, F ∈ Fs.*1) ts)
  | TyPtr _, TNil | TySlice _, TNil | TyMap _, TNil => true
  | TyPtr T, TRef t => typed T t
  | TySlice T, TSeq ts => forallb (typed T) ts
  | TyMap T, TDict ts => bool_decide (map_Forall (λ _ t, Is_true (typed T t)) ts)
  | TyExt name, t => ext_typed name t
  | _, _ => false
  end.

(** Assignment copies all there is of these. *)
Fixpoint plain (T : ty) : bool :=
  match T with
  | TyString | TyBool | TyInt => true
  | TyStruct Fs => (fix fields (Fs : list (string * ty)) : bool :=
                      match Fs with [] => true | (_, T) :: Fs => plain T && fields Fs end) Fs
  | _ => false
  end.

Fixpoint field_type (F : string) (Fs : list (string * ty)) : option ty :=
  match Fs with
  | [] => None
  | (G, T) :: Fs => if String.eqb G F then Some T else field_type F Fs
  end.
End types.

(** ** The statements of a copy function *)

(** What is left in [*out], given [*in]. *)
Definition Copier := value → M heap value.

(** An assignment: [out.F = in.F], or what stands behind two pointers or in two slices. *)
Definition assign : Copier := mret.

(** Unless the pointer is nil: a [new(T)], and the copy of what [in] points to written
    to it; the cell is made with what is written to it before anyone else knows it. *)
Definition pointer (f : Copier) : Copier := λ v,
  match v with
  | VPtr (Some l) =>
      c ← load l;
      match c with
      | Some (CVar v) => v' ← f v; l' ← alloc (CVar v'); mret (VPtr (Some l'))
      | _ => mret v
      end
  | _ => mret v
  end.

(** Unless the slice is nil: a [make] of its length, and the elements copied in order. *)
Definition slice (f : Copier) : Copier := λ v,
  match v with
  | VSlice (Some (l, offset, length)) =>
      c ← load l;
      match c with
      | Some (CArray vs) =>
          vs' ← mfold (λ acc v, v' ← f v; mret (acc ++ [v'])) (take length (drop offset vs)) [];
          l' ← alloc (CArray vs');
          mret (VSlice (Some (l', 0, List.length vs')%nat))
      | _ => mret v
      end
  | _ => mret v
  end.

(** [out.F] or [out[key]] set to the copy of its counterpart, one after the other. *)
Definition entries (from : gmap string value) (stmts : list (string * Copier)) (out : gmap string value)
    : M heap (gmap string value) :=
  mfold (λ out (stmt : string * Copier),
    match from !! stmt.1 with
    | Some v => v' ← stmt.2 v; mret (<[stmt.1 := v']> out)
    | None => mret out
    end) stmts out.

(** Unless the map is nil: a [make], and the values copied, in the order of a [range]. *)
Definition dictionary `{MapOrder} (f : Copier) : Copier := λ v,
  match v with
  | VMap (Some l) =>
      c ← load l;
      match c with
      | Some (CMap kvs) =>
          kvs' ← entries kvs ((λ key, (key, f)) <$> range_keys kvs) ∅;
          l' ← alloc (CMap kvs');
          mret (VMap (Some l'))
      | _ => mret v
      end
  | _ => mret v
  end.

(** The whole struct assigned, then a statement for each of some fields. *)
Definition DeepCopyInto (stmts : list (string * Copier)) : Copier := λ in_,
  match in_ with
  | VStruct fields => out ← entries fields stmts fields; mret (VStruct out)
  | _ => mret in_
  end.

(** [if in == nil { return nil }; out := new(T); in.DeepCopyInto(out); return out]. *)
Definition DeepCopy (into : Copier) : Copier := pointer into.

(** [if c := in.DeepCopy(); c != nil { return c }; return nil]: a nil pointer becomes
    the nil interface, not an interface with a nil pointer in it. *)
Definition DeepCopyObject (type : string) (copy : Copier) (in_ : value) : M heap (option (string * value)) :=
  c ← copy in_;
  mret match c with VPtr None => None | _ => Some (type, c) end.

(** ** What a deep copy is

    The copy stands for the same tree as the original, in cells of its own alone; the
    cells there were before are as they were. *)

Section copies.
Context `{EXT : ExternalTypes} `{ORD : MapOrder} {OL : MapOrderLaws ORD}.

(** The heap [h] with what has been allocated since, of which [P] holds; [old] is the
    part of that which was there already. *)
Definition grown (h old : heap) (P : heap → Prop) (h' : heap) : Prop :=
  ∃ new, old ⊆ new ∧ h ##ₘ new ∧ h' = h ∪ new ∧ P new.

Definition Copies (T : ty) (f : Copier) : Prop :=
  ∀ n h v t, unfolds n h v t → typed T t → wp (f v) (λ v', grown h ∅ (λ new, unfolds n new v' t)) h.

Lemma unfolds_mono n h h' v t : h ⊆ h' → unfolds n h v t → unfolds n h' v t.
Proof.
  intros Hh. revert v t. induction n as [|n IH]; [done|]. intros v t. cbn [unfolds].
  destruct v as [|fs|[l|]|[[[l o] k]|]|[l|]], t as [|ts| |t|ts|ts]; try done.
  - intros Hf. eapply map_Forall2_impl; [exact Hf|]. naive_solver.
  - intros (v & Hl & Hv). exists v. split; [by eapply lookup_weaken|auto].
  - intros (vs & Hl & Hv). exists vs. split; [by eapply lookup_weaken|]. eapply Forall2_impl; [exact Hv|auto].
  - intros (kvs & Hl & Hv). exists kvs. split; [by eapply lookup_weaken|]. eapply map_Forall2_impl; [exact Hv|]. naive_solver.
Qed.

Lemma grown_mono h old P Q h' : (∀ new, old ⊆ new → P new → Q new) → grown h old P h' → grown h old Q h'.
Proof. intros Hpq (new & Ho & Hd & -> & HP). exists new. auto. Qed.

Lemma grown_trans h old1 old2 P h' : old1 ⊆ old2 → grown h old2 P h' → grown h old1 P h'.
Proof. intros Ho (new & Ho2 & Hd & -> & HP). exists new. split; [by etrans|done]. Qed.

(** A copier run later, when more has been allocated. *)
Lemma wp_copy T f n h old v t :
  Copies T f → unfolds n h v t → typed T t → h ##ₘ old →
  wp (f v) (λ v', grown h old (λ new, unfolds n new v' t)) (h ∪ old).
Proof.
  intros Hf Hv Ht Hd.
  eapply wp_mono; [apply (Hf n (h ∪ old) v t); [by eapply unfolds_mono, Hv; apply map_union_subseteq_l|done]|].
  intros v' h' (new & _ & [Hd1 Hd2]%map_disjoint_union_l & -> & Hv').
  exists (old ∪ new). split_and!.
  - apply map_union_subseteq_l.
  - by apply map_disjoint_union_r.
  - by rewrite (assoc_L (∪)).
  - by eapply unfolds_mono, Hv'; apply map_union_subseteq_r.
Qed.

Lemma wp_alloc c h old :
  h ##ₘ old → wp (alloc c) (λ l, grown h old (λ new, new !! l = Some c)) (h ∪ old).
Proof.
  intros Hd. unfold wp, alloc. set (l := fresh (dom (h ∪ old))).
  assert (Hl : (h ∪ old) !! l = None) by (apply not_elem_of_dom, is_fresh).
  apply lookup_union_None in Hl as [Hl Ho]. exists (<[l := c]> old). split_and!.
  - by apply insert_subseteq.
  - by apply map_disjoint_insert_r.
  - by apply insert_union_r.
  - apply lookup_insert_eq.
Qed.

Lemma wp_load l (Q : option cell → heap → Prop) h : Q (h !! l) h → wp (load l) Q h.
Proof. exact id. Qed.
(** One allocation after another. *)
Lemma wp_grown {A B} (m : M heap A) (k : A → M heap B) h old P (Q : B → heap → Prop) :
  wp m (λ a, grown h old (P a)) (h ∪ old) →
  (∀ a new, old ⊆ new → h ##ₘ new → P a new → wp (k a) (λ b, grown h new (Q b)) (h ∪ new)) →
  wp (m ≫= k) (λ b, grown h old (Q b)) (h ∪ old).
Proof.
  intros Hm Hk. apply wp_bind. eapply wp_mono; [exact Hm|]. intros a h' (new & Ho & Hd & -> & HP).
  eapply wp_mono; [by apply Hk|]. intros b h'. by apply grown_trans.
Qed.

Lemma wp_grown_ret {A} (a : A) h old (P : A → heap → Prop) :
  h ##ₘ old → P a old → wp (mret a) (λ a, grown h old (P a)) (h ∪ old).
Proof. intros Hd HP. by exists old. Qed.

(** A copy in a cell of its own. *)
Lemma wp_boxed c (f : loc → value) n h old t :
  h ##ₘ old → (∀ l new, old ⊆ new → new !! l = Some c → unfolds n new (f l) t) →
  wp (l ← alloc c; mret (f l)) (λ v', grown h old (λ new, unfolds n new v' t)) (h ∪ old).
Proof.
  intros Hd Hf. eapply wp_grown; [by apply wp_alloc|]. intros l new Ho Hd' Hl. apply wp_grown_ret; auto.
Qed.

(** Copies start with nothing allocated. *)
Lemma copies_start T f :
  (∀ n h v t, unfolds n h v t → typed T t → wp (f v) (λ v', grown h ∅ (λ new, unfolds n new v' t)) (h ∪ ∅)) →
  Copies T f.
Proof. intros Hf n h v t Hv Ht. pose proof (Hf n h v t Hv Ht) as H. by rewrite (right_id_L ∅ (∪)) in H. Qed.

Lemma nil_copies n h v t :
  unfolds n h v t → t = TNil → wp (mret v) (λ v', grown h ∅ (λ new, unfolds n new v' t)) (h ∪ ∅).
Proof.
  intros Hv ->. apply wp_grown_ret; [apply map_disjoint_empty_r|].
  by destruct n, v as [| |[]|[[[]]|]|[]].
Qed.

Lemma pointer_copies T f : Copies T f → Copies (TyPtr T) (pointer f).
Proof.
  intros Hf. apply copies_start. intros [|n] h v t; [done|]. intros Hv Ht. destruct t; try done.
  - pose proof Hv as Hn. destruct v as [| |[]|[[[]]|]|[]]; try done; by apply (nil_copies (S n)).
  - destruct v as [| |[l|]|[[[]]|]|[]]; try done. destruct Hv as (v & Hl & Hv). cbn [pointer].
    apply wp_bind, wp_load. rewrite (lookup_union_Some_l _ _ _ _ Hl).
    eapply wp_grown; [by eapply (wp_copy T); [..|apply map_disjoint_empty_r]|].
    intros v' new _ Hd Hv'. apply wp_boxed; [done|]. intros l' new' Ho Hl'. exists v'.
    split; [done|]. by eapply unfolds_mono.
Qed.

Lemma slice_copies T f : Copies T f → Copies (TySlice T) (slice f).
Proof.
  intros Hf. apply copies_start. intros [|n] h v t; [done|]. intros Hv Ht. destruct t as [| | | |ts|]; try done.
  { destruct v as [| |[]|[[[]]|]|[]]; try done; by apply (nil_copies (S n)). }
  destruct v as [| |[]|[[[l o] k]|]|[]]; try done. destruct Hv as (vs & Hl & Hv). cbn [slice].
  apply wp_bind, wp_load. rewrite (lookup_union_Some_l _ _ _ _ Hl).
  eapply wp_grown with (P := λ vs' new, Forall2 (unfolds n new) vs' ts).
  - clear Hl l. revert ts Ht Hv. generalize (take k (drop o vs)). intros l.
    assert (∀ acc ts0 ts old, h ##ₘ old → Forall2 (unfolds n old) acc ts0 → Forall (typed T) ts → Forall2 (unfolds n h) l ts →
      wp (mfold (λ acc v, v' ← f v; mret (acc ++ [v'])) l acc)
        (λ vs', grown h old (λ new, Forall2 (unfolds n new) vs' (ts0 ++ ts))) (h ∪ old)) as Hloop.
    { induction l as [|v l IH]; intros acc ts0 ts old Hd Hacc Ht Hv.
      - apply Forall2_nil_inv_l in Hv as ->. rewrite app_nil_r. by apply wp_grown_ret.
      - apply Forall2_cons_inv_l in Hv as (t & ts' & Hv & Hvs & ->). apply Forall_cons in Ht as [Ht Hts].
        cbn [mfold]. eapply wp_grown.
        + eapply wp_grown; [by eapply wp_copy|]. intros v' new Ho Hd' Hv'. apply wp_grown_ret; [done|].
          instantiate (1 := λ acc' new, Forall2 (unfolds n new) acc' (ts0 ++ [t])). cbn. apply Forall2_app; [|by constructor].
          eapply Forall2_impl; [exact Hacc|]. intros ? ?. by apply unfolds_mono.
        + intros acc' new Ho Hd' Hacc'. rewrite (cons_middle t ts0 ts'), app_assoc. by apply IH. }
    intros ts Ht Hv. apply forallb_True in Ht. apply (Hloop [] [] ts ∅); auto. apply map_disjoint_empty_r.
  - intros vs' new _ Hd Hvs'. apply wp_boxed; [done|]. intros l' new' Ho Hl'. exists vs'. split; [done|].
    rewrite drop_0, firstn_all. eapply Forall2_impl; [exact Hvs'|]. intros ? ?. by apply unfolds_mono.
Qed.
(** What [entries] leaves: copies under the keys it has been at, the rest as it was. *)
Definition entered (n : nat) (base : gmap string value) (ts : gmap string tree) (done : list string)
    (out : gmap string value) (new : heap) : Prop :=
  ∀ F, if decide (F ∈ done) then option_Forall2 (unfolds n new) (out !! F) (ts !! F) else out !! F = base !! F.

Lemma entered_mono n base ts done out old new :
  old ⊆ new → entered n base ts done out old → entered n base ts done out new.
Proof.
  intros Ho Hd F. specialize (Hd F). case_decide; [|done]. destruct Hd; constructor. by eapply unfolds_mono.
Qed.

Lemma wp_entries n h from ts base stmts done out old :
  map_Forall2 (λ _, unfolds n h) from ts →
  (∀ F f t, (F, f) ∈ stmts → ts !! F = Some t → ∃ T, Copies T f ∧ typed T t) →
  h ##ₘ old → entered n base ts done out old → (∀ F, F ∈ stmts.*1 → is_Some (from !! F)) →
  wp (entries from stmts out) (λ out', grown h old (entered n base ts (done ++ stmts.*1) out')) (h ∪ old).
Proof.
  intros Hv. unfold entries. revert done out old.
  induction stmts as [|[F f] stmts IH]; intros done out old Hs Hd He Hfrom; cbn [mfold fmap list_fmap fst snd].
  { rewrite app_nil_r. by apply wp_grown_ret. }
  destruct (Hfrom F) as [v Hf]; [by left|]. pose proof (Hv F) as HF. rewrite Hf in HF |- *.
  inversion HF as [? t Huv Eq1 Et|]; subst. destruct (Hs F f t) as (T & HT & Ht); [by left|done|].
  eapply wp_grown.
  - eapply wp_grown; [by eapply wp_copy|]. intros v' new Ho Hd' Hv'. apply wp_grown_ret; [done|].
    instantiate (1 := entered n base ts (done ++ [F])). intros G.
    destruct (decide (G = F)) as [->|Hne].
    + rewrite decide_True by set_solver. rewrite lookup_insert_eq, <- Et. by constructor.
    + rewrite lookup_insert_ne by done. pose proof (entered_mono _ _ _ _ _ _ _ Ho He G) as HG.
      destruct (decide (G ∈ done)); [rewrite decide_True by set_solver|rewrite decide_False by set_solver]; exact HG.
  - intros out' new Ho Hd' He'. rewrite (cons_middle F done), app_assoc. apply IH; try done.
    + intros G g t' Hin. apply Hs. by right.
    + intros G Hin. apply Hfrom. by right.
Qed.

Lemma dictionary_copies T f : Copies T f → Copies (TyMap T) (dictionary f).
Proof.
  intros Hf. apply copies_start. intros [|n] h v t; [done|]. intros Hv Ht. destruct t as [| | | | |ts]; try done.
  { destruct v as [| |[]|[[[]]|]|[]]; try done; by apply (nil_copies (S n)). }
  destruct v as [| |[]|[[[]]|]|[l|]]; try done. destruct Hv as (kvs & Hl & Hv). cbn [dictionary].
  apply wp_bind, wp_load. rewrite (lookup_union_Some_l _ _ _ _ Hl).
  assert (((λ key, (key, f)) <$> range_keys kvs).*1 = range_keys kvs) as Hkeys
    by (rewrite <- list_fmap_compose; apply list_fmap_id).
  eapply wp_grown.
  - apply wp_entries with (n := n) (ts := ts) (base := ∅) (done := []); [done| |apply map_disjoint_empty_r|done|].
    + intros F g t Hin Et. apply list_elem_of_fmap in Hin as (? & [= -> ->] & _). exists T. split; [done|]. exact (bool_decide_unpack _ Ht _ _ Et).
    + intros F. rewrite Hkeys. by rewrite elem_of_range_keys.
  - intros kvs' new _ Hd He. cbn [app] in He. rewrite Hkeys in He. apply wp_boxed; [done|].
    intros l' new' Ho Hl'. exists kvs'. split; [done|]. intros F.
    pose proof (entered_mono _ _ _ _ _ _ _ Ho He F) as HF. cbn in HF. case_decide as Ein; [exact HF|]. rewrite HF.
    rewrite elem_of_range_keys in Ein. pose proof (Hv F) as Hk. inversion Hk as [? ? _ E1 E2|E1 E2]; [|constructor].
    destruct Ein. by rewrite <- E1.
Qed.
(** What is plain needs no memory. *)
Lemma typed_fields Fs ts F T :
  typed (TyStruct Fs) (TStruct ts) → field_type F Fs = Some T → ∃ t, ts !! F = Some t ∧ typed T t.
Proof.
  intros [Hf _]%andb_True. revert Hf. induction Fs as [|[G U] Fs IH]; [done|].
  intros [HG Hf]%andb_True. cbn [field_type].
  destruct (String.eqb_spec G F) as [->|_]; [|auto]. intros [= <-]. destruct (ts !! F) as [t|]; [eauto|done].
Qed.

Lemma typed_known Fs ts F t : typed (TyStruct Fs) (TStruct ts) → ts !! F = Some t → F ∈ Fs.*1.
Proof. intros [_ Hk]%andb_True. apply (bool_decide_unpack _ Hk F). Qed.

Lemma field_type_Some Fs F : F ∈ Fs.*1 → ∃ T, field_type F Fs = Some T.
Proof.
  induction Fs as [|[G U] Fs IH]; cbn; [by intros []%elem_of_nil|]. intros Hin.
  destruct (String.eqb_spec G F); [eauto|]. apply IH. set_solver.
Qed.

Lemma plain_fields Fs F T : plain (TyStruct Fs) = true → field_type F Fs = Some T → plain T = true.
Proof.
  induction Fs as [|[G U] Fs IH]; [done|]. cbn [plain field_type]. intros [HU HFs]%andb_true_iff.
  destruct (String.eqb G F); [by intros [= <-]|by apply IH].
Qed.

Lemma plain_unfolds T n h v t : plain T = true → typed T t → unfolds n h v t → unfolds n ∅ v t.
Proof.
  revert T v t. induction n as [|n IH]; [done|]. intros T v t Hp Ht Hv.
  destruct T as [| | |Fs| | | |]; try done.
  1-3: by destruct t as [[]| | | | |], v as [| |[]|[[[]]|]|[]].
  destruct t as [|ts| | | |]; try done. destruct v as [|fs|[]|[[[]]|]|[]]; try done. cbn [unfolds] in Hv |- *.
  intros F. specialize (Hv F). inversion Hv as [v t Hvt E1 E2|]; constructor.
  destruct (field_type_Some Fs F) as [T HT]; [by eapply typed_known|].
  destruct (typed_fields _ _ _ _ Ht HT) as (t' & Et & Htt). rewrite <- E2 in Et. injection Et as <-.
  by eapply IH; [eapply plain_fields| |].
Qed.

Lemma assign_copies T : plain T = true → Copies T assign.
Proof.
  intros Hp. apply copies_start. intros n h v t Hv Ht. apply wp_grown_ret; [apply map_disjoint_empty_r|].
  by eapply plain_unfolds.
Qed.

(** The fields are copied by a statement that fits their type, or are plain. *)
Definition covered (stmts : list (string * Copier)) (Fs : list (string * ty)) : bool :=
  forallb (λ F, bool_decide (F.1 ∈ stmts.*1) || plain F.2) Fs.

Lemma struct_copies Fs stmts :
  Forall (λ stmt, ∃ T, field_type stmt.1 Fs = Some T ∧ Copies T stmt.2) stmts →
  covered stmts Fs = true →
  Copies (TyStruct Fs) (DeepCopyInto stmts).
Proof.
  intros Hs Hc. apply copies_start. intros [|n] h v t; [done|]. intros Hv Ht.
  destruct t as [|ts| | | |]; try done. destruct v as [|fs|[]|[[[]]|]|[]]; try done.
  rewrite Forall_forall in Hs. cbn [DeepCopyInto]. eapply wp_grown.
  - apply wp_entries with (n := n) (ts := ts) (base := fs) (done := []); [done| |apply map_disjoint_empty_r|done|].
    + intros F f t Hin Et. destruct (Hs _ Hin) as (T & HT & Hf). exists T. split; [done|].
      destruct (typed_fields _ _ _ _ Ht HT) as (t' & Et' & Ht'). cbn in Et'. rewrite Et in Et'. by injection Et' as <-.
    + intros F (stmt & -> & Hin)%list_elem_of_fmap. destruct (Hs _ Hin) as (T & HT & _).
      destruct (typed_fields _ _ _ _ Ht HT) as (t' & Et' & _). pose proof (Hv stmt.1) as HF. rewrite Et' in HF.
      inversion HF; eauto.
  - intros out new _ Hd He. cbn [app] in He. apply wp_grown_ret; [done|]. intros F. specialize (He F).
    case_decide as Ein; [exact He|]. rewrite He. specialize (Hv F). inversion Hv as [v t Hvt E1 E2|]; constructor.
    destruct (field_type_Some Fs F) as [T HT]; [by eapply typed_known|].
    destruct (typed_fields _ _ _ _ Ht HT) as (t' & Et & Htt). rewrite <- E2 in Et. injection Et as <-.
    eapply unfolds_mono; [apply map_empty_subseteq|]. eapply (plain_unfolds T); [|exact Htt|exact Hvt].
    unfold covered in Hc. rewrite forallb_forall in Hc. assert (In (F, T) Fs) as Hin.
    { clear -HT. induction Fs as [|[G U] Fs IH]; [done|]. cbn in HT. destruct (String.eqb_spec G F) as [->|_].
      - left. by injection HT as ->.
      - right. auto. }
    apply Hc in Hin. cbn in Hin. by rewrite bool_decide_false in Hin.
Qed.
(** The promise of the copy functions of other modules. *)
Class ExternalLaws := { ext_copies name : Copies (TyExt name) (ext_copy name) }.

(** The copy of a pointer, and what becomes of the two afterwards: whatever is written
    later, the original keeps its meaning while the cells there were before the copy
    are not written to, and the copy keeps its own while only those are. *)
Definition separate (n : nat) (h : heap) (p : value) (t : tree) (p' : value) (h' : heap) : Prop :=
  h ⊆ h' ∧ unfolds n h' p t ∧ unfolds n h' p' t ∧
  (∀ later, (∀ l, l ∈ dom h → later !! l = h' !! l) → unfolds n later p t) ∧
  (∀ later, (∀ l, l ∈ dom h' → l ∉ dom h → later !! l = h' !! l) → unfolds n later p' t).

Lemma deep_copy_separate T f n h p t :
  Copies T f → unfolds n h p t → typed (TyPtr T) t → wp (DeepCopy f p) (separate n h p t) h.
Proof.
  intros Hf Hp Ht. eapply wp_mono; [by eapply (pointer_copies T f Hf n h p t)|].
  intros p' h' (new & _ & Hd & -> & Hp').
  assert (h ⊆ h ∪ new) as Hsub by apply map_union_subseteq_l. split_and!.
  - exact Hsub.
  - by eapply unfolds_mono.
  - by eapply unfolds_mono, Hp'; apply map_union_subseteq_r.
  - intros later Hl. eapply unfolds_mono, Hp. apply map_subseteq_spec. intros l c Hc.
    rewrite Hl by exact (elem_of_dom_2 _ _ _ Hc). by eapply lookup_weaken.
  - intros later Hl. eapply unfolds_mono, Hp'. apply map_subseteq_spec. intros l c Hc.
    rewrite Hl.
    + by apply lookup_union_Some_r.
    + eapply elem_of_dom_2, lookup_union_Some_r; done.
    + intros Hin. apply map_disjoint_dom in Hd. exact (Hd l Hin (elem_of_dom_2 _ _ _ Hc)).
Qed.
End copies.

(** ** Automation: a struct is copied if each statement is, and the rest is plain *)

Create HintDb copies discriminated.
#[export] Hint Constants Opaque : copies.
#[export] Hint Resolve pointer_copies slice_copies dictionary_copies ext_copies : copies.
#[export] Hint Extern 1 (Copies _ (DeepCopy _)) => (apply pointer_copies) : copies.
#[export] Hint Extern 2 (Copies _ assign) => (apply assign_copies; vm_compute; reflexivity) : copies.

Ltac by_fields :=
  apply struct_copies;
  [ repeat (apply Forall_cons; split; [cbn [fst snd]; eexists; split; [reflexivity|eauto 6 with nocore copies]|]); by apply Forall_nil
  | vm_compute; reflexivity ].
