(* ===== verification/GoTypes.v ===== *)
(** * The types of the custom resources, as Go lays them out

    The structs of api/v1alpha1 with all their fields, in the order of the source: what
    [ApiTypes] has as Records, here as descriptions of which field is a value, a
    pointer, a slice or a map.  Two plain structs of other modules are spelled out. *)

From S2P Require Import Prelude GoHeap.

Open Scope string_scope.
Open Scope list_scope.

Definition TypeMeta_type : ty := TyStruct [("Kind", TyString); ("APIVersion", TyString)].
Definition LocalObjectReference_type : ty := TyStruct [("Name", TyString)].

Definition SecretKeyRef_type : ty := TyStruct [("Name", TyString); ("Key", TyString)].
Definition SecretKeysRef_type : ty := TyStruct [("Name", TyString); ("Keys", TyMap TyString)].
Definition ResourceRequirements_type : ty := TyStruct [
   ("Requests", TyMap (TyExt "resource.Quantity")); ("Limits", TyMap (TyExt "resource.Quantity"))].
Definition ObjectReference_type : ty := TyStruct [("Name", TyString); ("Namespace", TyString)].
Definition ImageSpec_type : ty := TyStruct [
   ("Repository", TyString); ("Tag", TyString); ("PullPolicy", TyString);
   ("PullSecrets", TySlice LocalObjectReference_type)].
Definition WorkerImageSpec_type : ty := TyStruct [("Repository", TyString); ("Tag", TyString)].
Definition CustomMetric_type : ty := TyStruct [("Type", TyString); ("Threshold", TyInt)].
Definition AutoscalingSpec_type : ty := TyStruct [
   ("Enabled", TyBool); ("MinReplicas", TyPtr TyInt); ("MaxReplicas", TyInt);
   ("TargetCPUUtilization", TyPtr TyInt); ("CustomMetrics", TySlice CustomMetric_type)].
Definition PDBSpec_type : ty := TyStruct [("Enabled", TyBool); ("MinAvailable", TyPtr TyInt)].
Definition TopologySpreadSpec_type : ty := TyStruct [
   ("Enabled", TyBool); ("MaxSkew", TyPtr TyInt); ("TopologyKey", TyString)].
Definition WebSpec_type : ty := TyStruct [
   ("Replicas", TyPtr TyInt); ("Autoscaling", TyPtr AutoscalingSpec_type);
   ("Resources", TyPtr ResourceRequirements_type); ("PodDisruptionBudget", TyPtr PDBSpec_type);
   ("TopologySpreadConstraints", TyPtr TopologySpreadSpec_type);
   ("ExtraEnv", TySlice (TyExt "corev1.EnvVar"));
   ("ExtraVolumeMounts", TySlice (TyExt "corev1.VolumeMount"));
   ("ExtraVolumes", TySlice (TyExt "corev1.Volume")); ("NodeSelector", TyMap TyString);
   ("Tolerations", TySlice (TyExt "corev1.Toleration")); ("Affinity", TyPtr (TyExt "corev1.Affinity"))].
Definition WorkerSpec_type : ty := TyStruct [
   ("Replicas", TyPtr TyInt); ("Image", TyPtr WorkerImageSpec_type);
   ("Autoscaling", TyPtr AutoscalingSpec_type); ("Resources", TyPtr ResourceRequirements_type);
   ("PodDisruptionBudget", TyPtr PDBSpec_type); ("Concurrency", TyPtr TyInt);
   ("ExtraEnv", TySlice (TyExt "corev1.EnvVar"));
   ("ExtraVolumeMounts", TySlice (TyExt "corev1.VolumeMount"));
   ("ExtraVolumes", TySlice (TyExt "corev1.Volume")); ("NodeSelector", TyMap TyString);
   ("Tolerations", TySlice (TyExt "corev1.Toleration")); ("Affinity", TyPtr (TyExt "corev1.Affinity"))].
Definition SecretValue_type : ty := TyStruct [("SecretRef", TyPtr SecretKeyRef_type)].
Definition EmailPasswordSpec_type : ty := TyStruct [("Enabled", TyPtr TyBool); ("DisableSignup", TyBool)].
Definition OIDCSpec_type : ty := TyStruct [
   ("Enabled", TyBool); ("Issuer", TyString); ("ClientId", TyPtr SecretKeyRef_type);
   ("ClientSecret", TyPtr SecretKeyRef_type); ("Name", TyString); ("Scope", TySlice TyString);
   ("SSOEnforcedDomains", TySlice TyString)].
Definition InitUserSpec_type : ty := TyStruct [
   ("Enabled", TyBool); ("Email", TyString); ("Password", TyPtr SecretKeyRef_type); ("OrgName", TyString);
   ("ProjectName", TyString)].
Definition AuthSpec_type : ty := TyStruct [
   ("NextAuthSecret", TyPtr SecretValue_type); ("NextAuthUrl", TyString); ("Salt", TyPtr SecretValue_type);
   ("EmailPassword", TyPtr EmailPasswordSpec_type); ("OIDC", TyPtr OIDCSpec_type);
   ("InitUser", TyPtr InitUserSpec_type); ("AdminApiKey", TyPtr SecretValue_type)].
Definition CACertSecretRef_type : ty := TyStruct [("Name", TyString); ("Key", TyString)].
Definition TLSSpec_type : ty := TyStruct [("TrustedCASecretRef", TyPtr CACertSecretRef_type)].
Definition ClientCertSecretRef_type : ty := TyStruct [
   ("Name", TyString); ("CertKey", TyString); ("KeyKey", TyString)].
Definition AutoGenerateSpec_type : ty := TyStruct [("Enabled", TyPtr TyBool)].
Definition SecretRestartMapping_type : ty := TyStruct [
   ("SecretName", TyString); ("RestartComponents", TySlice TyString)].
Definition RotationSpec_type : ty := TyStruct [
   ("Enabled", TyPtr TyBool); ("CustomMappings", TySlice SecretRestartMapping_type)].
Definition SecretManagementSpec_type : ty := TyStruct [
   ("AutoGenerate", TyPtr AutoGenerateSpec_type); ("Rotation", TyPtr RotationSpec_type)].
Definition CloudNativePGSpec_type : ty := TyStruct [
   ("ClusterRef", ObjectReference_type); ("Database", TyString)].
Definition DatabaseBackupSpec_type : ty := TyStruct [("Enabled", TyBool); ("Schedule", TyString)].
Definition ManagedDatabaseSpec_type : ty := TyStruct [
   ("Instances", TyPtr TyInt); ("StorageSize", TyString); ("StorageClass", TyString);
   ("Backup", TyPtr DatabaseBackupSpec_type)].
Definition DatabaseTLSSpec_type : ty := TyStruct [
   ("SSLMode", TyString); ("CASecretRef", TyPtr CACertSecretRef_type)].
Definition ExternalDatabaseSpec_type : ty := TyStruct [
   ("SecretRef", SecretKeysRef_type); ("TLS", TyPtr DatabaseTLSSpec_type)].
Definition BackgroundMigrationSpec_type : ty := TyStruct [("Enabled", TyPtr TyBool); ("Timeout", TyString)].
Definition MigrationSpec_type : ty := TyStruct [
   ("RunOnDeploy", TyPtr TyBool); ("BackgroundMigrations", TyPtr BackgroundMigrationSpec_type)].
Definition DatabaseSpec_type : ty := TyStruct [
   ("CloudNativePG", TyPtr CloudNativePGSpec_type); ("Managed", TyPtr ManagedDatabaseSpec_type);
   ("External", TyPtr ExternalDatabaseSpec_type); ("Migration", TyPtr MigrationSpec_type)].
Definition ClickHouseResourceSpec_type : ty := TyStruct [
   ("Preset", TyString); ("Custom", TyPtr ResourceRequirements_type)].
Definition ClickHouseAuthSpec_type : ty := TyStruct [("SecretRef", TyPtr SecretKeysRef_type)].
Definition ManagedClickHouseSpec_type : ty := TyStruct [
   ("Shards", TyPtr TyInt); ("Replicas", TyPtr TyInt); ("StorageSize", TyString); ("StorageClass", TyString);
   ("Resources", TyPtr ClickHouseResourceSpec_type); ("Auth", TyPtr ClickHouseAuthSpec_type)].
Definition ClickHouseTLSSpec_type : ty := TyStruct [("Enabled", TyBool)].
Definition ExternalClickHouseSpec_type : ty := TyStruct [
   ("SecretRef", SecretKeysRef_type); ("TLS", TyPtr ClickHouseTLSSpec_type)].
Definition ClickHouseEncryptionSpec_type : ty := TyStruct [("Enabled", TyBool); ("BlobStorage", TyBool)].
Definition TableRetentionSpec_type : ty := TyStruct [("TTLDays", TyInt)].
Definition StoragePressureSpec_type : ty := TyStruct [
   ("Enabled", TyBool); ("WarningThresholdPercent", TyInt); ("CriticalThresholdPercent", TyInt);
   ("PruneOldestPartitions", TyBool); ("MinRetainDays", TyInt)].
Definition RetentionSpec_type : ty := TyStruct [
   ("Traces", TyPtr TableRetentionSpec_type); ("Observations", TyPtr TableRetentionSpec_type);
   ("Scores", TyPtr TableRetentionSpec_type); ("StoragePressure", TyPtr StoragePressureSpec_type)].
Definition SchemaDriftSpec_type : ty := TyStruct [
   ("Enabled", TyBool); ("CheckIntervalMinutes", TyInt); ("AutoRepair", TyBool)].
Definition ClickHouseClusterSpec_type : ty := TyStruct [("Enabled", TyBool)].
Definition ClickHouseSpec_type : ty := TyStruct [
   ("Managed", TyPtr ManagedClickHouseSpec_type); ("External", TyPtr ExternalClickHouseSpec_type);
   ("Encryption", TyPtr ClickHouseEncryptionSpec_type); ("Retention", TyPtr RetentionSpec_type);
   ("SchemaDrift", TyPtr SchemaDriftSpec_type); ("Cluster", TyPtr ClickHouseClusterSpec_type);
   ("Database", TyString)].
Definition ManagedRedisSpec_type : ty := TyStruct [("Replicas", TyPtr TyInt); ("StorageSize", TyString)].
Definition RedisTLSSpec_type : ty := TyStruct [
   ("Enabled", TyBool); ("CASecretRef", TyPtr CACertSecretRef_type);
   ("ClientCertSecretRef", TyPtr ClientCertSecretRef_type); ("ServerName", TyString)].
Definition ExternalRedisSpec_type : ty := TyStruct [
   ("SecretRef", SecretKeysRef_type); ("TLS", TyPtr RedisTLSSpec_type)].
Definition RedisSpec_type : ty := TyStruct [
   ("Managed", TyPtr ManagedRedisSpec_type); ("External", TyPtr ExternalRedisSpec_type)].
Definition S3CredentialsSpec_type : ty := TyStruct [("SecretRef", SecretKeysRef_type)].
Definition S3Spec_type : ty := TyStruct [
   ("Endpoint", TyString); ("Region", TyString); ("Bucket", TyString); ("ForcePathStyle", TyBool);
   ("Credentials", TyPtr S3CredentialsSpec_type)].
Definition AzureCredentialsSpec_type : ty := TyStruct [("SecretRef", SecretKeysRef_type)].
Definition AzureBlobSpec_type : ty := TyStruct [
   ("StorageAccountName", TyString); ("ContainerName", TyString); ("Endpoint", TyString);
   ("Credentials", TyPtr AzureCredentialsSpec_type)].
Definition GCSCredentialsSpec_type : ty := TyStruct [("SecretRef", SecretKeysRef_type)].
Definition GCSSpec_type : ty := TyStruct [
   ("BucketName", TyString); ("ProjectId", TyString); ("Credentials", TyPtr GCSCredentialsSpec_type)].
Definition BlobStorageSpec_type : ty := TyStruct [
   ("Provider", TyString); ("S3", TyPtr S3Spec_type); ("Azure", TyPtr AzureBlobSpec_type);
   ("GCS", TyPtr GCSSpec_type)].
Definition LLMSpec_type : ty := TyStruct [
   ("APIBase", TyString); ("APIKey", TyPtr SecretKeyRef_type); ("Model", TyString)].
Definition CertManagerIssuerRef_type : ty := TyStruct [("Name", TyString); ("Kind", TyString)].
Definition CertManagerSpec_type : ty := TyStruct [("IssuerRef", CertManagerIssuerRef_type)].
Definition IngressTLSSpec_type : ty := TyStruct [
   ("Enabled", TyBool); ("SecretName", TyString); ("CertManager", TyPtr CertManagerSpec_type)].
Definition IngressSpec_type : ty := TyStruct [
   ("Enabled", TyBool); ("ClassName", TyString); ("Host", TyString); ("Annotations", TyMap TyString);
   ("TLS", TyPtr IngressTLSSpec_type)].
Definition RouteSpec_type : ty := TyStruct [
   ("Enabled", TyBool); ("Host", TyString); ("Annotations", TyMap TyString)].
Definition GatewayRef_type : ty := TyStruct [
   ("Name", TyString); ("Namespace", TyString); ("SectionName", TyString)].
Definition GatewayAPISpec_type : ty := TyStruct [
   ("Enabled", TyBool); ("GatewayRef", GatewayRef_type); ("Hostname", TyString);
   ("Annotations", TyMap TyString)].
Definition NetworkPolicyPort_type : ty := TyStruct [("Port", TyInt); ("Protocol", TyString)].
Definition NetworkPolicySpec_type : ty := TyStruct [
   ("Enabled", TyPtr TyBool); ("ExtraEgressPorts", TySlice NetworkPolicyPort_type)].
Definition TelemetrySpec_type : ty := TyStruct [("Enabled", TyPtr TyBool)].
Definition SecuritySpec_type : ty := TyStruct [
   ("ReadOnlyRootFilesystem", TyPtr TyBool); ("RunAsNonRoot", TyPtr TyBool); ("RunAsUser", TyPtr TyInt);
   ("NetworkPolicy", TyPtr NetworkPolicySpec_type); ("Telemetry", TyPtr TelemetrySpec_type)].
Definition ServiceMonitorSpec_type : ty := TyStruct [
   ("Enabled", TyBool); ("Interval", TyString); ("Labels", TyMap TyString)].
Definition OTELSpec_type : ty := TyStruct [
   ("Enabled", TyBool); ("Endpoint", TyString); ("Protocol", TyString)].
Definition ObservabilitySpec_type : ty := TyStruct [
   ("ServiceMonitor", TyPtr ServiceMonitorSpec_type); ("OTEL", TyPtr OTELSpec_type)].
Definition ComponentCircuitBreakerSpec_type : ty := TyStruct [
   ("Action", TyString); ("ProbeIntervalSeconds", TyInt); ("FailureThreshold", TyInt);
   ("RecoveryAction", TyString)].
Definition CircuitBreakerSpec_type : ty := TyStruct [
   ("Enabled", TyPtr TyBool); ("ClickHouse", TyPtr ComponentCircuitBreakerSpec_type);
   ("Redis", TyPtr ComponentCircuitBreakerSpec_type); ("Database", TyPtr ComponentCircuitBreakerSpec_type)].
Definition PreUpgradeSpec_type : ty := TyStruct [
   ("RunMigrations", TyPtr TyBool); ("BackupDatabase", TyBool)].
Definition RollingUpdateSpec_type : ty := TyStruct [
   ("MaxUnavailable", TyPtr TyInt); ("MaxSurge", TyPtr TyInt)].
Definition PostUpgradeSpec_type : ty := TyStruct [
   ("RunBackgroundMigrations", TyPtr TyBool); ("HealthCheckTimeout", TyString); ("AutoRollback", TyBool)].
Definition UpgradeSpec_type : ty := TyStruct [
   ("Strategy", TyString); ("PreUpgrade", TyPtr PreUpgradeSpec_type);
   ("RollingUpdate", TyPtr RollingUpdateSpec_type); ("PostUpgrade", TyPtr PostUpgradeSpec_type)].
Definition LangfuseInstanceSpec_type : ty := TyStruct [
   ("Image", ImageSpec_type); ("Web", WebSpec_type); ("Worker", WorkerSpec_type); ("Auth", AuthSpec_type);
   ("TLS", TyPtr TLSSpec_type); ("EELicenseKey", TyPtr SecretValue_type);
   ("Secrets", TyPtr SecretManagementSpec_type); ("Database", TyPtr DatabaseSpec_type);
   ("ClickHouse", TyPtr ClickHouseSpec_type); ("Redis", TyPtr RedisSpec_type);
   ("BlobStorage", TyPtr BlobStorageSpec_type); ("LLM", TyPtr LLMSpec_type);
   ("Ingress", TyPtr IngressSpec_type); ("Route", TyPtr RouteSpec_type);
   ("GatewayAPI", TyPtr GatewayAPISpec_type); ("Security", TyPtr SecuritySpec_type);
   ("Observability", TyPtr ObservabilitySpec_type); ("CircuitBreaker", TyPtr CircuitBreakerSpec_type);
   ("Upgrade", TyPtr UpgradeSpec_type)].
Definition PodIssue_type : ty := TyStruct [
   ("Pod", TyString); ("Container", TyString); ("Reason", TyString); ("Message", TyString);
   ("RestartCount", TyInt); ("Fatal", TyBool)].
Definition ComponentStatus_type : ty := TyStruct [
   ("Replicas", TyInt); ("ReadyReplicas", TyInt); ("Endpoint", TyString); ("Issues", TySlice PodIssue_type)].
Definition WorkerComponentStatus_type : ty := TyStruct [
   ("ComponentStatus", ComponentStatus_type); ("QueueDepth", TyInt); ("CircuitBreakerActive", TyBool);
   ("CircuitBreakerReason", TyString)].
Definition BackgroundMigrationStatus_type : ty := TyStruct [
   ("Pending", TyInt); ("Running", TyInt); ("Completed", TyInt)].
Definition DatabaseStatus_type : ty := TyStruct [
   ("Connected", TyPtr TyBool); ("MigrationVersion", TyString);
   ("BackgroundMigrations", TyPtr BackgroundMigrationStatus_type)].
Definition MigrationStatus_type : ty := TyStruct [
   ("JobName", TyString); ("Failed", TyInt); ("Issues", TySlice PodIssue_type);
   ("AppliedIdentity", TyString)].
Definition ClickHouseStatus_type : ty := TyStruct [
   ("Connected", TyPtr TyBool); ("StorageUsed", TyString); ("StorageTotal", TyString);
   ("SchemaDrift", TyPtr TyBool); ("RetentionApplied", TyPtr TyBool)].
Definition ConnectionStatus_type : ty := TyStruct [("Connected", TyPtr TyBool)].
Definition BlobStorageStatus_type : ty := TyStruct [("Connected", TyPtr TyBool); ("Provider", TyString)].
Definition SecretsStatus_type : ty := TyStruct [
   ("AutoGenerated", TyBool); ("ManagedSecretName", TyString);
   ("LastRotationCheck", TyPtr (TyExt "metav1.Time"))].
Definition LangfuseInstanceStatus_type : ty := TyStruct [
   ("Ready", TyBool); ("Phase", TyString); ("Web", TyPtr ComponentStatus_type);
   ("Worker", TyPtr WorkerComponentStatus_type); ("Database", TyPtr DatabaseStatus_type);
   ("Migration", TyPtr MigrationStatus_type); ("ClickHouse", TyPtr ClickHouseStatus_type);
   ("Redis", TyPtr ConnectionStatus_type); ("BlobStorage", TyPtr BlobStorageStatus_type);
   ("Secrets", TyPtr SecretsStatus_type); ("Version", TyString); ("PublicUrl", TyString);
   ("Organizations", TyInt); ("Projects", TyInt); ("Conditions", TySlice (TyExt "metav1.Condition"))].
Definition LangfuseInstance_type : ty := TyStruct [
   ("TypeMeta", TypeMeta_type); ("ObjectMeta", TyExt "metav1.ObjectMeta");
   ("Spec", LangfuseInstanceSpec_type); ("Status", LangfuseInstanceStatus_type)].
Definition LangfuseInstanceList_type : ty := TyStruct [
   ("TypeMeta", TypeMeta_type); ("ListMeta", TyExt "metav1.ListMeta");
   ("Items", TySlice LangfuseInstance_type)].
Definition OrganizationMemberSpec_type : ty := TyStruct [("Email", TyString); ("Role", TyString)].
Definition OrganizationMembersSpec_type : ty := TyStruct [
   ("ManagedExclusively", TyBool); ("Users", TySlice OrganizationMemberSpec_type)].
Definition LangfuseOrganizationSpec_type : ty := TyStruct [
   ("InstanceRef", ObjectReference_type); ("DisplayName", TyString);
   ("Members", OrganizationMembersSpec_type)].
Definition LangfuseOrganizationStatus_type : ty := TyStruct [
   ("Ready", TyBool); ("OrganizationID", TyString); ("MemberCount", TyInt); ("SyncedMembers", TyInt);
   ("ProjectCount", TyInt); ("Conditions", TySlice (TyExt "metav1.Condition"))].
Definition LangfuseOrganization_type : ty := TyStruct [
   ("TypeMeta", TypeMeta_type); ("ObjectMeta", TyExt "metav1.ObjectMeta");
   ("Spec", LangfuseOrganizationSpec_type); ("Status", LangfuseOrganizationStatus_type)].
Definition LangfuseOrganizationList_type : ty := TyStruct [
   ("TypeMeta", TypeMeta_type); ("ListMeta", TyExt "metav1.ListMeta");
   ("Items", TySlice LangfuseOrganization_type)].
Definition APIKeySpec_type : ty := TyStruct [("Name", TyString); ("SecretName", TyString)].
Definition LangfuseProjectSpec_type : ty := TyStruct [
   ("InstanceRef", ObjectReference_type); ("OrganizationRef", ObjectReference_type);
   ("ProjectName", TyString); ("APIKeys", TySlice APIKeySpec_type)].
Definition APIKeyStatus_type : ty := TyStruct [
   ("Name", TyString); ("SecretName", TyString); ("Created", TyBool);
   ("LastRotated", TyPtr (TyExt "metav1.Time"))].
Definition LangfuseProjectStatus_type : ty := TyStruct [
   ("Ready", TyBool); ("ProjectID", TyString); ("OrganizationID", TyString);
   ("APIKeys", TySlice APIKeyStatus_type); ("Conditions", TySlice (TyExt "metav1.Condition"))].
Definition LangfuseProject_type : ty := TyStruct [
   ("TypeMeta", TypeMeta_type); ("ObjectMeta", TyExt "metav1.ObjectMeta");
   ("Spec", LangfuseProjectSpec_type); ("Status", LangfuseProjectStatus_type)].
Definition LangfuseProjectList_type : ty := TyStruct [
   ("TypeMeta", TypeMeta_type); ("ListMeta", TyExt "metav1.ListMeta");
   ("Items", TySlice LangfuseProject_type)].
