(* ===== verification/DeepCopy.v ===== *)
(** * The deep copies ([api/v1alpha1/zz_generated.deepcopy.go])

    One definition per generated function, each a list of the statements it is made of,
    in their order.  They are right because every field of the types in [GoTypes] that
    is not plain has a statement of its kind: a field added to a type without the copy
    being generated again is refused by the proof. *)

From S2P Require Import Prelude GoStd GoHeap GoTypes.

Open Scope string_scope.
Open Scope list_scope.

Section functions.
Context `{EXT : ExternalTypes} `{ORD : MapOrder}.

Definition SecretKeyRef_DeepCopyInto : Copier := DeepCopyInto [].
Definition SecretKeyRef_DeepCopy : Copier := DeepCopy SecretKeyRef_DeepCopyInto.
Definition SecretKeysRef_DeepCopyInto : Copier := DeepCopyInto [("Keys", dictionary assign)].
Definition SecretKeysRef_DeepCopy : Copier := DeepCopy SecretKeysRef_DeepCopyInto.
Definition ResourceRequirements_DeepCopyInto : Copier := DeepCopyInto [
   ("Requests", dictionary (ext_copy "resource.Quantity"));
   ("Limits", dictionary (ext_copy "resource.Quantity"))].
Definition ResourceRequirements_DeepCopy : Copier := DeepCopy ResourceRequirements_DeepCopyInto.
Definition ObjectReference_DeepCopyInto : Copier := DeepCopyInto [].
Definition ObjectReference_DeepCopy : Copier := DeepCopy ObjectReference_DeepCopyInto.
Definition ImageSpec_DeepCopyInto : Copier := DeepCopyInto [("PullSecrets", slice assign)].
Definition ImageSpec_DeepCopy : Copier := DeepCopy ImageSpec_DeepCopyInto.
Definition WorkerImageSpec_DeepCopyInto : Copier := DeepCopyInto [].
Definition WorkerImageSpec_DeepCopy : Copier := DeepCopy WorkerImageSpec_DeepCopyInto.
Definition CustomMetric_DeepCopyInto : Copier := DeepCopyInto [].
Definition CustomMetric_DeepCopy : Copier := DeepCopy CustomMetric_DeepCopyInto.
Definition AutoscalingSpec_DeepCopyInto : Copier := DeepCopyInto [
   ("MinReplicas", pointer assign); ("TargetCPUUtilization", pointer assign);
   ("CustomMetrics", slice assign)].
Definition AutoscalingSpec_DeepCopy : Copier := DeepCopy AutoscalingSpec_DeepCopyInto.
Definition PDBSpec_DeepCopyInto : Copier := DeepCopyInto [("MinAvailable", pointer assign)].
Definition PDBSpec_DeepCopy : Copier := DeepCopy PDBSpec_DeepCopyInto.
Definition TopologySpreadSpec_DeepCopyInto : Copier := DeepCopyInto [("MaxSkew", pointer assign)].
Definition TopologySpreadSpec_DeepCopy : Copier := DeepCopy TopologySpreadSpec_DeepCopyInto.
Definition WebSpec_DeepCopyInto : Copier := DeepCopyInto [
   ("Replicas", pointer assign); ("Autoscaling", pointer AutoscalingSpec_DeepCopyInto);
   ("Resources", pointer ResourceRequirements_DeepCopyInto);
   ("PodDisruptionBudget", pointer PDBSpec_DeepCopyInto);
   ("TopologySpreadConstraints", pointer TopologySpreadSpec_DeepCopyInto);
   ("ExtraEnv", slice (ext_copy "corev1.EnvVar"));
   ("ExtraVolumeMounts", slice (ext_copy "corev1.VolumeMount"));
   ("ExtraVolumes", slice (ext_copy "corev1.Volume")); ("NodeSelector", dictionary assign);
   ("Tolerations", slice (ext_copy "corev1.Toleration"));
   ("Affinity", pointer (ext_copy "corev1.Affinity"))].
Definition WebSpec_DeepCopy : Copier := DeepCopy WebSpec_DeepCopyInto.
Definition WorkerSpec_DeepCopyInto : Copier := DeepCopyInto [
   ("Replicas", pointer assign); ("Image", pointer assign);
   ("Autoscaling", pointer AutoscalingSpec_DeepCopyInto);
   ("Resources", pointer ResourceRequirements_DeepCopyInto);
   ("PodDisruptionBudget", pointer PDBSpec_DeepCopyInto); ("Concurrency", pointer assign);
   ("ExtraEnv", slice (ext_copy "corev1.EnvVar"));
   ("ExtraVolumeMounts", slice (ext_copy "corev1.VolumeMount"));
   ("ExtraVolumes", slice (ext_copy "corev1.Volume")); ("NodeSelector", dictionary assign);
   ("Tolerations", slice (ext_copy "corev1.Toleration"));
   ("Affinity", pointer (ext_copy "corev1.Affinity"))].
Definition WorkerSpec_DeepCopy : Copier := DeepCopy WorkerSpec_DeepCopyInto.
Definition SecretValue_DeepCopyInto : Copier := DeepCopyInto [("SecretRef", pointer assign)].
Definition SecretValue_DeepCopy : Copier := DeepCopy SecretValue_DeepCopyInto.
Definition EmailPasswordSpec_DeepCopyInto : Copier := DeepCopyInto [("Enabled", pointer assign)].
Definition EmailPasswordSpec_DeepCopy : Copier := DeepCopy EmailPasswordSpec_DeepCopyInto.
Definition OIDCSpec_DeepCopyInto : Copier := DeepCopyInto [
   ("ClientId", pointer assign); ("ClientSecret", pointer assign); ("Scope", slice assign);
   ("SSOEnforcedDomains", slice assign)].
Definition OIDCSpec_DeepCopy : Copier := DeepCopy OIDCSpec_DeepCopyInto.
Definition InitUserSpec_DeepCopyInto : Copier := DeepCopyInto [("Password", pointer assign)].
Definition InitUserSpec_DeepCopy : Copier := DeepCopy InitUserSpec_DeepCopyInto.
Definition AuthSpec_DeepCopyInto : Copier := DeepCopyInto [
   ("NextAuthSecret", pointer SecretValue_DeepCopyInto); ("Salt", pointer SecretValue_DeepCopyInto);
   ("EmailPassword", pointer EmailPasswordSpec_DeepCopyInto); ("OIDC", pointer OIDCSpec_DeepCopyInto);
   ("InitUser", pointer InitUserSpec_DeepCopyInto); ("AdminApiKey", pointer SecretValue_DeepCopyInto)].
Definition AuthSpec_DeepCopy : Copier := DeepCopy AuthSpec_DeepCopyInto.
Definition CACertSecretRef_DeepCopyInto : Copier := DeepCopyInto [].
Definition CACertSecretRef_DeepCopy : Copier := DeepCopy CACertSecretRef_DeepCopyInto.
Definition TLSSpec_DeepCopyInto : Copier := DeepCopyInto [("TrustedCASecretRef", pointer assign)].
Definition TLSSpec_DeepCopy : Copier := DeepCopy TLSSpec_DeepCopyInto.
Definition ClientCertSecretRef_DeepCopyInto : Copier := DeepCopyInto [].
Definition ClientCertSecretRef_DeepCopy : Copier := DeepCopy ClientCertSecretRef_DeepCopyInto.
Definition AutoGenerateSpec_DeepCopyInto : Copier := DeepCopyInto [("Enabled", pointer assign)].
Definition AutoGenerateSpec_DeepCopy : Copier := DeepCopy AutoGenerateSpec_DeepCopyInto.
Definition SecretRestartMapping_DeepCopyInto : Copier := DeepCopyInto [("RestartComponents", slice assign)].
Definition SecretRestartMapping_DeepCopy : Copier := DeepCopy SecretRestartMapping_DeepCopyInto.
Definition RotationSpec_DeepCopyInto : Copier := DeepCopyInto [
   ("Enabled", pointer assign); ("CustomMappings", slice SecretRestartMapping_DeepCopyInto)].
Definition RotationSpec_DeepCopy : Copier := DeepCopy RotationSpec_DeepCopyInto.
Definition SecretManagementSpec_DeepCopyInto : Copier := DeepCopyInto [
   ("AutoGenerate", pointer AutoGenerateSpec_DeepCopyInto); ("Rotation", pointer RotationSpec_DeepCopyInto)].
Definition SecretManagementSpec_DeepCopy : Copier := DeepCopy SecretManagementSpec_DeepCopyInto.
Definition CloudNativePGSpec_DeepCopyInto : Copier := DeepCopyInto [("ClusterRef", assign)].
Definition CloudNativePGSpec_DeepCopy : Copier := DeepCopy CloudNativePGSpec_DeepCopyInto.
Definition DatabaseBackupSpec_DeepCopyInto : Copier := DeepCopyInto [].
Definition DatabaseBackupSpec_DeepCopy : Copier := DeepCopy DatabaseBackupSpec_DeepCopyInto.
Definition ManagedDatabaseSpec_DeepCopyInto : Copier := DeepCopyInto [
   ("Instances", pointer assign); ("Backup", pointer assign)].
Definition ManagedDatabaseSpec_DeepCopy : Copier := DeepCopy ManagedDatabaseSpec_DeepCopyInto.
Definition DatabaseTLSSpec_DeepCopyInto : Copier := DeepCopyInto [("CASecretRef", pointer assign)].
Definition DatabaseTLSSpec_DeepCopy : Copier := DeepCopy DatabaseTLSSpec_DeepCopyInto.
Definition ExternalDatabaseSpec_DeepCopyInto : Copier := DeepCopyInto [
   ("SecretRef", SecretKeysRef_DeepCopyInto); ("TLS", pointer DatabaseTLSSpec_DeepCopyInto)].
Definition ExternalDatabaseSpec_DeepCopy : Copier := DeepCopy ExternalDatabaseSpec_DeepCopyInto.
Definition BackgroundMigrationSpec_DeepCopyInto : Copier := DeepCopyInto [("Enabled", pointer assign)].
Definition BackgroundMigrationSpec_DeepCopy : Copier := DeepCopy BackgroundMigrationSpec_DeepCopyInto.
Definition MigrationSpec_DeepCopyInto : Copier := DeepCopyInto [
   ("RunOnDeploy", pointer assign); ("BackgroundMigrations", pointer BackgroundMigrationSpec_DeepCopyInto)].
Definition MigrationSpec_DeepCopy : Copier := DeepCopy MigrationSpec_DeepCopyInto.
Definition DatabaseSpec_DeepCopyInto : Copier := DeepCopyInto [
   ("CloudNativePG", pointer assign); ("Managed", pointer ManagedDatabaseSpec_DeepCopyInto);
   ("External", pointer ExternalDatabaseSpec_DeepCopyInto);
   ("Migration", pointer MigrationSpec_DeepCopyInto)].
Definition DatabaseSpec_DeepCopy : Copier := DeepCopy DatabaseSpec_DeepCopyInto.
Definition ClickHouseResourceSpec_DeepCopyInto : Copier := DeepCopyInto [
   ("Custom", pointer ResourceRequirements_DeepCopyInto)].
Definition ClickHouseResourceSpec_DeepCopy : Copier := DeepCopy ClickHouseResourceSpec_DeepCopyInto.
Definition ClickHouseAuthSpec_DeepCopyInto : Copier := DeepCopyInto [
   ("SecretRef", pointer SecretKeysRef_DeepCopyInto)].
Definition ClickHouseAuthSpec_DeepCopy : Copier := DeepCopy ClickHouseAuthSpec_DeepCopyInto.
Definition ManagedClickHouseSpec_DeepCopyInto : Copier := DeepCopyInto [
   ("Shards", pointer assign); ("Replicas", pointer assign);
   ("Resources", pointer ClickHouseResourceSpec_DeepCopyInto);
   ("Auth", pointer ClickHouseAuthSpec_DeepCopyInto)].
Definition ManagedClickHouseSpec_DeepCopy : Copier := DeepCopy ManagedClickHouseSpec_DeepCopyInto.
Definition ClickHouseTLSSpec_DeepCopyInto : Copier := DeepCopyInto [].
Definition ClickHouseTLSSpec_DeepCopy : Copier := DeepCopy ClickHouseTLSSpec_DeepCopyInto.
Definition ExternalClickHouseSpec_DeepCopyInto : Copier := DeepCopyInto [
   ("SecretRef", SecretKeysRef_DeepCopyInto); ("TLS", pointer assign)].
Definition ExternalClickHouseSpec_DeepCopy : Copier := DeepCopy ExternalClickHouseSpec_DeepCopyInto.
Definition ClickHouseEncryptionSpec_DeepCopyInto : Copier := DeepCopyInto [].
Definition ClickHouseEncryptionSpec_DeepCopy : Copier := DeepCopy ClickHouseEncryptionSpec_DeepCopyInto.
Definition TableRetentionSpec_DeepCopyInto : Copier := DeepCopyInto [].
Definition TableRetentionSpec_DeepCopy : Copier := DeepCopy TableRetentionSpec_DeepCopyInto.
Definition StoragePressureSpec_DeepCopyInto : Copier := DeepCopyInto [].
Definition StoragePressureSpec_DeepCopy : Copier := DeepCopy StoragePressureSpec_DeepCopyInto.
Definition RetentionSpec_DeepCopyInto : Copier := DeepCopyInto [
   ("Traces", pointer assign); ("Observations", pointer assign); ("Scores", pointer assign);
   ("StoragePressure", pointer assign)].
Definition RetentionSpec_DeepCopy : Copier := DeepCopy RetentionSpec_DeepCopyInto.
Definition SchemaDriftSpec_DeepCopyInto : Copier := DeepCopyInto [].
Definition SchemaDriftSpec_DeepCopy : Copier := DeepCopy SchemaDriftSpec_DeepCopyInto.
Definition ClickHouseClusterSpec_DeepCopyInto : Copier := DeepCopyInto [].
Definition ClickHouseClusterSpec_DeepCopy : Copier := DeepCopy ClickHouseClusterSpec_DeepCopyInto.
Definition ClickHouseSpec_DeepCopyInto : Copier := DeepCopyInto [
   ("Managed", pointer ManagedClickHouseSpec_DeepCopyInto);
   ("External", pointer ExternalClickHouseSpec_DeepCopyInto); ("Encryption", pointer assign);
   ("Retention", pointer RetentionSpec_DeepCopyInto); ("SchemaDrift", pointer assign);
   ("Cluster", pointer assign)].
Definition ClickHouseSpec_DeepCopy : Copier := DeepCopy ClickHouseSpec_DeepCopyInto.
Definition ManagedRedisSpec_DeepCopyInto : Copier := DeepCopyInto [("Replicas", pointer assign)].
Definition ManagedRedisSpec_DeepCopy : Copier := DeepCopy ManagedRedisSpec_DeepCopyInto.
Definition RedisTLSSpec_DeepCopyInto : Copier := DeepCopyInto [
   ("CASecretRef", pointer assign); ("ClientCertSecretRef", pointer assign)].
Definition RedisTLSSpec_DeepCopy : Copier := DeepCopy RedisTLSSpec_DeepCopyInto.
Definition ExternalRedisSpec_DeepCopyInto : Copier := DeepCopyInto [
   ("SecretRef", SecretKeysRef_DeepCopyInto); ("TLS", pointer RedisTLSSpec_DeepCopyInto)].
Definition ExternalRedisSpec_DeepCopy : Copier := DeepCopy ExternalRedisSpec_DeepCopyInto.
Definition RedisSpec_DeepCopyInto : Copier := DeepCopyInto [
   ("Managed", pointer ManagedRedisSpec_DeepCopyInto); ("External", pointer ExternalRedisSpec_DeepCopyInto)].
Definition RedisSpec_DeepCopy : Copier := DeepCopy RedisSpec_DeepCopyInto.
Definition S3CredentialsSpec_DeepCopyInto : Copier := DeepCopyInto [
   ("SecretRef", SecretKeysRef_DeepCopyInto)].
Definition S3CredentialsSpec_DeepCopy : Copier := DeepCopy S3CredentialsSpec_DeepCopyInto.
Definition S3Spec_DeepCopyInto : Copier := DeepCopyInto [
   ("Credentials", pointer S3CredentialsSpec_DeepCopyInto)].
Definition S3Spec_DeepCopy : Copier := DeepCopy S3Spec_DeepCopyInto.
Definition AzureCredentialsSpec_DeepCopyInto : Copier := DeepCopyInto [
   ("SecretRef", SecretKeysRef_DeepCopyInto)].
Definition AzureCredentialsSpec_DeepCopy : Copier := DeepCopy AzureCredentialsSpec_DeepCopyInto.
Definition AzureBlobSpec_DeepCopyInto : Copier := DeepCopyInto [
   ("Credentials", pointer AzureCredentialsSpec_DeepCopyInto)].
Definition AzureBlobSpec_DeepCopy : Copier := DeepCopy AzureBlobSpec_DeepCopyInto.
Definition GCSCredentialsSpec_DeepCopyInto : Copier := DeepCopyInto [
   ("SecretRef", SecretKeysRef_DeepCopyInto)].
Definition GCSCredentialsSpec_DeepCopy : Copier := DeepCopy GCSCredentialsSpec_DeepCopyInto.
Definition GCSSpec_DeepCopyInto : Copier := DeepCopyInto [
   ("Credentials", pointer GCSCredentialsSpec_DeepCopyInto)].
Definition GCSSpec_DeepCopy : Copier := DeepCopy GCSSpec_DeepCopyInto.
Definition BlobStorageSpec_DeepCopyInto : Copier := DeepCopyInto [
   ("S3", pointer S3Spec_DeepCopyInto); ("Azure", pointer AzureBlobSpec_DeepCopyInto);
   ("GCS", pointer GCSSpec_DeepCopyInto)].
Definition BlobStorageSpec_DeepCopy : Copier := DeepCopy BlobStorageSpec_DeepCopyInto.
Definition LLMSpec_DeepCopyInto : Copier := DeepCopyInto [("APIKey", pointer assign)].
Definition LLMSpec_DeepCopy : Copier := DeepCopy LLMSpec_DeepCopyInto.
Definition CertManagerIssuerRef_DeepCopyInto : Copier := DeepCopyInto [].
Definition CertManagerIssuerRef_DeepCopy : Copier := DeepCopy CertManagerIssuerRef_DeepCopyInto.
Definition CertManagerSpec_DeepCopyInto : Copier := DeepCopyInto [("IssuerRef", assign)].
Definition CertManagerSpec_DeepCopy : Copier := DeepCopy CertManagerSpec_DeepCopyInto.
Definition IngressTLSSpec_DeepCopyInto : Copier := DeepCopyInto [("CertManager", pointer assign)].
Definition IngressTLSSpec_DeepCopy : Copier := DeepCopy IngressTLSSpec_DeepCopyInto.
Definition IngressSpec_DeepCopyInto : Copier := DeepCopyInto [
   ("Annotations", dictionary assign); ("TLS", pointer IngressTLSSpec_DeepCopyInto)].
Definition IngressSpec_DeepCopy : Copier := DeepCopy IngressSpec_DeepCopyInto.
Definition RouteSpec_DeepCopyInto : Copier := DeepCopyInto [("Annotations", dictionary assign)].
Definition RouteSpec_DeepCopy : Copier := DeepCopy RouteSpec_DeepCopyInto.
Definition GatewayRef_DeepCopyInto : Copier := DeepCopyInto [].
Definition GatewayRef_DeepCopy : Copier := DeepCopy GatewayRef_DeepCopyInto.
Definition GatewayAPISpec_DeepCopyInto : Copier := DeepCopyInto [
   ("GatewayRef", assign); ("Annotations", dictionary assign)].
Definition GatewayAPISpec_DeepCopy : Copier := DeepCopy GatewayAPISpec_DeepCopyInto.
Definition NetworkPolicyPort_DeepCopyInto : Copier := DeepCopyInto [].
Definition NetworkPolicyPort_DeepCopy : Copier := DeepCopy NetworkPolicyPort_DeepCopyInto.
Definition NetworkPolicySpec_DeepCopyInto : Copier := DeepCopyInto [
   ("Enabled", pointer assign); ("ExtraEgressPorts", slice assign)].
Definition NetworkPolicySpec_DeepCopy : Copier := DeepCopy NetworkPolicySpec_DeepCopyInto.
Definition TelemetrySpec_DeepCopyInto : Copier := DeepCopyInto [("Enabled", pointer assign)].
Definition TelemetrySpec_DeepCopy : Copier := DeepCopy TelemetrySpec_DeepCopyInto.
Definition SecuritySpec_DeepCopyInto : Copier := DeepCopyInto [
   ("ReadOnlyRootFilesystem", pointer assign); ("RunAsNonRoot", pointer assign);
   ("RunAsUser", pointer assign); ("NetworkPolicy", pointer NetworkPolicySpec_DeepCopyInto);
   ("Telemetry", pointer TelemetrySpec_DeepCopyInto)].
Definition SecuritySpec_DeepCopy : Copier := DeepCopy SecuritySpec_DeepCopyInto.
Definition ServiceMonitorSpec_DeepCopyInto : Copier := DeepCopyInto [("Labels", dictionary assign)].
Definition ServiceMonitorSpec_DeepCopy : Copier := DeepCopy ServiceMonitorSpec_DeepCopyInto.
Definition OTELSpec_DeepCopyInto : Copier := DeepCopyInto [].
Definition OTELSpec_DeepCopy : Copier := DeepCopy OTELSpec_DeepCopyInto.
Definition ObservabilitySpec_DeepCopyInto : Copier := DeepCopyInto [
   ("ServiceMonitor", pointer ServiceMonitorSpec_DeepCopyInto); ("OTEL", pointer assign)].
Definition ObservabilitySpec_DeepCopy : Copier := DeepCopy ObservabilitySpec_DeepCopyInto.
Definition ComponentCircuitBreakerSpec_DeepCopyInto : Copier := DeepCopyInto [].
Definition ComponentCircuitBreakerSpec_DeepCopy : Copier := DeepCopy ComponentCircuitBreakerSpec_DeepCopyInto.
Definition CircuitBreakerSpec_DeepCopyInto : Copier := DeepCopyInto [
   ("Enabled", pointer assign); ("ClickHouse", pointer assign); ("Redis", pointer assign);
   ("Database", pointer assign)].
Definition CircuitBreakerSpec_DeepCopy : Copier := DeepCopy CircuitBreakerSpec_DeepCopyInto.
Definition PreUpgradeSpec_DeepCopyInto : Copier := DeepCopyInto [("RunMigrations", pointer assign)].
Definition PreUpgradeSpec_DeepCopy : Copier := DeepCopy PreUpgradeSpec_DeepCopyInto.
Definition RollingUpdateSpec_DeepCopyInto : Copier := DeepCopyInto [
   ("MaxUnavailable", pointer assign); ("MaxSurge", pointer assign)].
Definition RollingUpdateSpec_DeepCopy : Copier := DeepCopy RollingUpdateSpec_DeepCopyInto.
Definition PostUpgradeSpec_DeepCopyInto : Copier := DeepCopyInto [
   ("RunBackgroundMigrations", pointer assign)].
Definition PostUpgradeSpec_DeepCopy : Copier := DeepCopy PostUpgradeSpec_DeepCopyInto.
Definition UpgradeSpec_DeepCopyInto : Copier := DeepCopyInto [
   ("PreUpgrade", pointer PreUpgradeSpec_DeepCopyInto);
   ("RollingUpdate", pointer RollingUpdateSpec_DeepCopyInto);
   ("PostUpgrade", pointer PostUpgradeSpec_DeepCopyInto)].
Definition UpgradeSpec_DeepCopy : Copier := DeepCopy UpgradeSpec_DeepCopyInto.
Definition LangfuseInstanceSpec_DeepCopyInto : Copier := DeepCopyInto [
   ("Image", ImageSpec_DeepCopyInto); ("Web", WebSpec_DeepCopyInto); ("Worker", WorkerSpec_DeepCopyInto);
   ("Auth", AuthSpec_DeepCopyInto); ("TLS", pointer TLSSpec_DeepCopyInto);
   ("EELicenseKey", pointer SecretValue_DeepCopyInto);
   ("Secrets", pointer SecretManagementSpec_DeepCopyInto); ("Database", pointer DatabaseSpec_DeepCopyInto);
   ("ClickHouse", pointer ClickHouseSpec_DeepCopyInto); ("Redis", pointer RedisSpec_DeepCopyInto);
   ("BlobStorage", pointer BlobStorageSpec_DeepCopyInto); ("LLM", pointer LLMSpec_DeepCopyInto);
   ("Ingress", pointer IngressSpec_DeepCopyInto); ("Route", pointer RouteSpec_DeepCopyInto);
   ("GatewayAPI", pointer GatewayAPISpec_DeepCopyInto); ("Security", pointer SecuritySpec_DeepCopyInto);
   ("Observability", pointer ObservabilitySpec_DeepCopyInto);
   ("CircuitBreaker", pointer CircuitBreakerSpec_DeepCopyInto);
   ("Upgrade", pointer UpgradeSpec_DeepCopyInto)].
Definition LangfuseInstanceSpec_DeepCopy : Copier := DeepCopy LangfuseInstanceSpec_DeepCopyInto.
Definition PodIssue_DeepCopyInto : Copier := DeepCopyInto [].
Definition PodIssue_DeepCopy : Copier := DeepCopy PodIssue_DeepCopyInto.
Definition ComponentStatus_DeepCopyInto : Copier := DeepCopyInto [("Issues", slice assign)].
Definition ComponentStatus_DeepCopy : Copier := DeepCopy ComponentStatus_DeepCopyInto.
Definition WorkerComponentStatus_DeepCopyInto : Copier := DeepCopyInto [
   ("ComponentStatus", ComponentStatus_DeepCopyInto)].
Definition WorkerComponentStatus_DeepCopy : Copier := DeepCopy WorkerComponentStatus_DeepCopyInto.
Definition BackgroundMigrationStatus_DeepCopyInto : Copier := DeepCopyInto [].
Definition BackgroundMigrationStatus_DeepCopy : Copier := DeepCopy BackgroundMigrationStatus_DeepCopyInto.
Definition DatabaseStatus_DeepCopyInto : Copier := DeepCopyInto [
   ("Connected", pointer assign); ("BackgroundMigrations", pointer assign)].
Definition DatabaseStatus_DeepCopy : Copier := DeepCopy DatabaseStatus_DeepCopyInto.
Definition MigrationStatus_DeepCopyInto : Copier := DeepCopyInto [("Issues", slice assign)].
Definition MigrationStatus_DeepCopy : Copier := DeepCopy MigrationStatus_DeepCopyInto.
Definition ClickHouseStatus_DeepCopyInto : Copier := DeepCopyInto [
   ("Connected", pointer assign); ("SchemaDrift", pointer assign); ("RetentionApplied", pointer assign)].
Definition ClickHouseStatus_DeepCopy : Copier := DeepCopy ClickHouseStatus_DeepCopyInto.
Definition ConnectionStatus_DeepCopyInto : Copier := DeepCopyInto [("Connected", pointer assign)].
Definition ConnectionStatus_DeepCopy : Copier := DeepCopy ConnectionStatus_DeepCopyInto.
Definition BlobStorageStatus_DeepCopyInto : Copier := DeepCopyInto [("Connected", pointer assign)].
Definition BlobStorageStatus_DeepCopy : Copier := DeepCopy BlobStorageStatus_DeepCopyInto.
Definition SecretsStatus_DeepCopyInto : Copier := DeepCopyInto [
   ("LastRotationCheck", DeepCopy (ext_copy "metav1.Time"))].
Definition SecretsStatus_DeepCopy : Copier := DeepCopy SecretsStatus_DeepCopyInto.
Definition LangfuseInstanceStatus_DeepCopyInto : Copier := DeepCopyInto [
   ("Web", pointer ComponentStatus_DeepCopyInto); ("Worker", pointer WorkerComponentStatus_DeepCopyInto);
   ("Database", pointer DatabaseStatus_DeepCopyInto); ("Migration", pointer MigrationStatus_DeepCopyInto);
   ("ClickHouse", pointer ClickHouseStatus_DeepCopyInto); ("Redis", pointer ConnectionStatus_DeepCopyInto);
   ("BlobStorage", pointer BlobStorageStatus_DeepCopyInto); ("Secrets", pointer SecretsStatus_DeepCopyInto);
   ("Conditions", slice (ext_copy "metav1.Condition"))].
Definition LangfuseInstanceStatus_DeepCopy : Copier := DeepCopy LangfuseInstanceStatus_DeepCopyInto.
Definition LangfuseInstance_DeepCopyInto : Copier := DeepCopyInto [
   ("TypeMeta", assign); ("ObjectMeta", ext_copy "metav1.ObjectMeta");
   ("Spec", LangfuseInstanceSpec_DeepCopyInto); ("Status", LangfuseInstanceStatus_DeepCopyInto)].
Definition LangfuseInstance_DeepCopy : Copier := DeepCopy LangfuseInstance_DeepCopyInto.
Definition LangfuseInstance_DeepCopyObject : value → M heap (option (string * value)) :=
  DeepCopyObject "LangfuseInstance" LangfuseInstance_DeepCopy.
Definition LangfuseInstanceList_DeepCopyInto : Copier := DeepCopyInto [
   ("TypeMeta", assign); ("ListMeta", ext_copy "metav1.ListMeta");
   ("Items", slice LangfuseInstance_DeepCopyInto)].
Definition LangfuseInstanceList_DeepCopy : Copier := DeepCopy LangfuseInstanceList_DeepCopyInto.
Definition LangfuseInstanceList_DeepCopyObject : value → M heap (option (string * value)) :=
  DeepCopyObject "LangfuseInstanceList" LangfuseInstanceList_DeepCopy.
Definition OrganizationMemberSpec_DeepCopyInto : Copier := DeepCopyInto [].
Definition OrganizationMemberSpec_DeepCopy : Copier := DeepCopy OrganizationMemberSpec_DeepCopyInto.
Definition OrganizationMembersSpec_DeepCopyInto : Copier := DeepCopyInto [("Users", slice assign)].
Definition OrganizationMembersSpec_DeepCopy : Copier := DeepCopy OrganizationMembersSpec_DeepCopyInto.
Definition LangfuseOrganizationSpec_DeepCopyInto : Copier := DeepCopyInto [
   ("InstanceRef", assign); ("Members", OrganizationMembersSpec_DeepCopyInto)].
Definition LangfuseOrganizationSpec_DeepCopy : Copier := DeepCopy LangfuseOrganizationSpec_DeepCopyInto.
Definition LangfuseOrganizationStatus_DeepCopyInto : Copier := DeepCopyInto [
   ("Conditions", slice (ext_copy "metav1.Condition"))].
Definition LangfuseOrganizationStatus_DeepCopy : Copier := DeepCopy LangfuseOrganizationStatus_DeepCopyInto.
Definition LangfuseOrganization_DeepCopyInto : Copier := DeepCopyInto [
   ("TypeMeta", assign); ("ObjectMeta", ext_copy "metav1.ObjectMeta");
   ("Spec", LangfuseOrganizationSpec_DeepCopyInto); ("Status", LangfuseOrganizationStatus_DeepCopyInto)].
Definition LangfuseOrganization_DeepCopy : Copier := DeepCopy LangfuseOrganization_DeepCopyInto.
Definition LangfuseOrganization_DeepCopyObject : value → M heap (option (string * value)) :=
  DeepCopyObject "LangfuseOrganization" LangfuseOrganization_DeepCopy.
Definition LangfuseOrganizationList_DeepCopyInto : Copier := DeepCopyInto [
   ("TypeMeta", assign); ("ListMeta", ext_copy "metav1.ListMeta");
   ("Items", slice LangfuseOrganization_DeepCopyInto)].
Definition LangfuseOrganizationList_DeepCopy : Copier := DeepCopy LangfuseOrganizationList_DeepCopyInto.
Definition LangfuseOrganizationList_DeepCopyObject : value → M heap (option (string * value)) :=
  DeepCopyObject "LangfuseOrganizationList" LangfuseOrganizationList_DeepCopy.
Definition APIKeySpec_DeepCopyInto : Copier := DeepCopyInto [].
Definition APIKeySpec_DeepCopy : Copier := DeepCopy APIKeySpec_DeepCopyInto.
Definition LangfuseProjectSpec_DeepCopyInto : Copier := DeepCopyInto [
   ("InstanceRef", assign); ("OrganizationRef", assign); ("APIKeys", slice assign)].
Definition LangfuseProjectSpec_DeepCopy : Copier := DeepCopy LangfuseProjectSpec_DeepCopyInto.
Definition APIKeyStatus_DeepCopyInto : Copier := DeepCopyInto [
   ("LastRotated", DeepCopy (ext_copy "metav1.Time"))].
Definition APIKeyStatus_DeepCopy : Copier := DeepCopy APIKeyStatus_DeepCopyInto.
Definition LangfuseProjectStatus_DeepCopyInto : Copier := DeepCopyInto [
   ("APIKeys", slice APIKeyStatus_DeepCopyInto); ("Conditions", slice (ext_copy "metav1.Condition"))].
Definition LangfuseProjectStatus_DeepCopy : Copier := DeepCopy LangfuseProjectStatus_DeepCopyInto.
Definition LangfuseProject_DeepCopyInto : Copier := DeepCopyInto [
   ("TypeMeta", assign); ("ObjectMeta", ext_copy "metav1.ObjectMeta");
   ("Spec", LangfuseProjectSpec_DeepCopyInto); ("Status", LangfuseProjectStatus_DeepCopyInto)].
Definition LangfuseProject_DeepCopy : Copier := DeepCopy LangfuseProject_DeepCopyInto.
Definition LangfuseProject_DeepCopyObject : value → M heap (option (string * value)) :=
  DeepCopyObject "LangfuseProject" LangfuseProject_DeepCopy.
Definition LangfuseProjectList_DeepCopyInto : Copier := DeepCopyInto [
   ("TypeMeta", assign); ("ListMeta", ext_copy "metav1.ListMeta");
   ("Items", slice LangfuseProject_DeepCopyInto)].
Definition LangfuseProjectList_DeepCopy : Copier := DeepCopy LangfuseProjectList_DeepCopyInto.
Definition LangfuseProjectList_DeepCopyObject : value → M heap (option (string * value)) :=
  DeepCopyObject "LangfuseProjectList" LangfuseProjectList_DeepCopy.

(** The types of the package with their copies. *)
Definition package : list (ty * Copier) :=
  [(SecretKeyRef_type, SecretKeyRef_DeepCopyInto);
   (SecretKeysRef_type, SecretKeysRef_DeepCopyInto);
   (ResourceRequirements_type, ResourceRequirements_DeepCopyInto);
   (ObjectReference_type, ObjectReference_DeepCopyInto);
   (ImageSpec_type, ImageSpec_DeepCopyInto);
   (WorkerImageSpec_type, WorkerImageSpec_DeepCopyInto);
   (CustomMetric_type, CustomMetric_DeepCopyInto);
   (AutoscalingSpec_type, AutoscalingSpec_DeepCopyInto);
   (PDBSpec_type, PDBSpec_DeepCopyInto);
   (TopologySpreadSpec_type, TopologySpreadSpec_DeepCopyInto);
   (WebSpec_type, WebSpec_DeepCopyInto);
   (WorkerSpec_type, WorkerSpec_DeepCopyInto);
   (SecretValue_type, SecretValue_DeepCopyInto);
   (EmailPasswordSpec_type, EmailPasswordSpec_DeepCopyInto);
   (OIDCSpec_type, OIDCSpec_DeepCopyInto);
   (InitUserSpec_type, InitUserSpec_DeepCopyInto);
   (AuthSpec_type, AuthSpec_DeepCopyInto);
   (CACertSecretRef_type, CACertSecretRef_DeepCopyInto);
   (TLSSpec_type, TLSSpec_DeepCopyInto);
   (ClientCertSecretRef_type, ClientCertSecretRef_DeepCopyInto);
   (AutoGenerateSpec_type, AutoGenerateSpec_DeepCopyInto);
   (SecretRestartMapping_type, SecretRestartMapping_DeepCopyInto);
   (RotationSpec_type, RotationSpec_DeepCopyInto);
   (SecretManagementSpec_type, SecretManagementSpec_DeepCopyInto);
   (CloudNativePGSpec_type, CloudNativePGSpec_DeepCopyInto);
   (DatabaseBackupSpec_type, DatabaseBackupSpec_DeepCopyInto);
   (ManagedDatabaseSpec_type, ManagedDatabaseSpec_DeepCopyInto);
   (DatabaseTLSSpec_type, DatabaseTLSSpec_DeepCopyInto);
   (ExternalDatabaseSpec_type, ExternalDatabaseSpec_DeepCopyInto);
   (BackgroundMigrationSpec_type, BackgroundMigrationSpec_DeepCopyInto);
   (MigrationSpec_type, MigrationSpec_DeepCopyInto);
   (DatabaseSpec_type, DatabaseSpec_DeepCopyInto);
   (ClickHouseResourceSpec_type, ClickHouseResourceSpec_DeepCopyInto);
   (ClickHouseAuthSpec_type, ClickHouseAuthSpec_DeepCopyInto);
   (ManagedClickHouseSpec_type, ManagedClickHouseSpec_DeepCopyInto);
   (ClickHouseTLSSpec_type, ClickHouseTLSSpec_DeepCopyInto);
   (ExternalClickHouseSpec_type, ExternalClickHouseSpec_DeepCopyInto);
   (ClickHouseEncryptionSpec_type, ClickHouseEncryptionSpec_DeepCopyInto);
   (TableRetentionSpec_type, TableRetentionSpec_DeepCopyInto);
   (StoragePressureSpec_type, StoragePressureSpec_DeepCopyInto);
   (RetentionSpec_type, RetentionSpec_DeepCopyInto);
   (SchemaDriftSpec_type, SchemaDriftSpec_DeepCopyInto);
   (ClickHouseClusterSpec_type, ClickHouseClusterSpec_DeepCopyInto);
   (ClickHouseSpec_type, ClickHouseSpec_DeepCopyInto);
   (ManagedRedisSpec_type, ManagedRedisSpec_DeepCopyInto);
   (RedisTLSSpec_type, RedisTLSSpec_DeepCopyInto);
   (ExternalRedisSpec_type, ExternalRedisSpec_DeepCopyInto);
   (RedisSpec_type, RedisSpec_DeepCopyInto);
   (S3CredentialsSpec_type, S3CredentialsSpec_DeepCopyInto);
   (S3Spec_type, S3Spec_DeepCopyInto);
   (AzureCredentialsSpec_type, AzureCredentialsSpec_DeepCopyInto);
   (AzureBlobSpec_type, AzureBlobSpec_DeepCopyInto);
   (GCSCredentialsSpec_type, GCSCredentialsSpec_DeepCopyInto);
   (GCSSpec_type, GCSSpec_DeepCopyInto);
   (BlobStorageSpec_type, BlobStorageSpec_DeepCopyInto);
   (LLMSpec_type, LLMSpec_DeepCopyInto);
   (CertManagerIssuerRef_type, CertManagerIssuerRef_DeepCopyInto);
   (CertManagerSpec_type, CertManagerSpec_DeepCopyInto);
   (IngressTLSSpec_type, IngressTLSSpec_DeepCopyInto);
   (IngressSpec_type, IngressSpec_DeepCopyInto);
   (RouteSpec_type, RouteSpec_DeepCopyInto);
   (GatewayRef_type, GatewayRef_DeepCopyInto);
   (GatewayAPISpec_type, GatewayAPISpec_DeepCopyInto);
   (NetworkPolicyPort_type, NetworkPolicyPort_DeepCopyInto);
   (NetworkPolicySpec_type, NetworkPolicySpec_DeepCopyInto);
   (TelemetrySpec_type, TelemetrySpec_DeepCopyInto);
   (SecuritySpec_type, SecuritySpec_DeepCopyInto);
   (ServiceMonitorSpec_type, ServiceMonitorSpec_DeepCopyInto);
   (OTELSpec_type, OTELSpec_DeepCopyInto);
   (ObservabilitySpec_type, ObservabilitySpec_DeepCopyInto);
   (ComponentCircuitBreakerSpec_type, ComponentCircuitBreakerSpec_DeepCopyInto);
   (CircuitBreakerSpec_type, CircuitBreakerSpec_DeepCopyInto);
   (PreUpgradeSpec_type, PreUpgradeSpec_DeepCopyInto);
   (RollingUpdateSpec_type, RollingUpdateSpec_DeepCopyInto);
   (PostUpgradeSpec_type, PostUpgradeSpec_DeepCopyInto);
   (UpgradeSpec_type, UpgradeSpec_DeepCopyInto);
   (LangfuseInstanceSpec_type, LangfuseInstanceSpec_DeepCopyInto);
   (PodIssue_type, PodIssue_DeepCopyInto);
   (ComponentStatus_type, ComponentStatus_DeepCopyInto);
   (WorkerComponentStatus_type, WorkerComponentStatus_DeepCopyInto);
   (BackgroundMigrationStatus_type, BackgroundMigrationStatus_DeepCopyInto);
   (DatabaseStatus_type, DatabaseStatus_DeepCopyInto);
   (MigrationStatus_type, MigrationStatus_DeepCopyInto);
   (ClickHouseStatus_type, ClickHouseStatus_DeepCopyInto);
   (ConnectionStatus_type, ConnectionStatus_DeepCopyInto);
   (BlobStorageStatus_type, BlobStorageStatus_DeepCopyInto);
   (SecretsStatus_type, SecretsStatus_DeepCopyInto);
   (LangfuseInstanceStatus_type, LangfuseInstanceStatus_DeepCopyInto);
   (LangfuseInstance_type, LangfuseInstance_DeepCopyInto);
   (LangfuseInstanceList_type, LangfuseInstanceList_DeepCopyInto);
   (OrganizationMemberSpec_type, OrganizationMemberSpec_DeepCopyInto);
   (OrganizationMembersSpec_type, OrganizationMembersSpec_DeepCopyInto);
   (LangfuseOrganizationSpec_type, LangfuseOrganizationSpec_DeepCopyInto);
   (LangfuseOrganizationStatus_type, LangfuseOrganizationStatus_DeepCopyInto);
   (LangfuseOrganization_type, LangfuseOrganization_DeepCopyInto);
   (LangfuseOrganizationList_type, LangfuseOrganizationList_DeepCopyInto);
   (APIKeySpec_type, APIKeySpec_DeepCopyInto);
   (LangfuseProjectSpec_type, LangfuseProjectSpec_DeepCopyInto);
   (APIKeyStatus_type, APIKeyStatus_DeepCopyInto);
   (LangfuseProjectStatus_type, LangfuseProjectStatus_DeepCopyInto);
   (LangfuseProject_type, LangfuseProject_DeepCopyInto);
   (LangfuseProjectList_type, LangfuseProjectList_DeepCopyInto)].
End functions.

(** ** Every one of them is a deep copy *)

Section correct.
Context `{EXT : ExternalTypes} `{ORD : MapOrder} {OL : MapOrderLaws ORD} {EL : ExternalLaws}.

Lemma SecretKeyRef_copies : Copies SecretKeyRef_type SecretKeyRef_DeepCopyInto.
Proof. by_fields. Qed.
#[local] Hint Resolve SecretKeyRef_copies : copies.
Lemma SecretKeysRef_copies : Copies SecretKeysRef_type SecretKeysRef_DeepCopyInto.
Proof. by_fields. Qed.
#[local] Hint Resolve SecretKeysRef_copies : copies.
Lemma ResourceRequirements_copies : Copies ResourceRequirements_type ResourceRequirements_DeepCopyInto.
Proof. by_fields. Qed.
#[local] Hint Resolve ResourceRequirements_copies : copies.
Lemma ObjectReference_copies : Copies ObjectReference_type ObjectReference_DeepCopyInto.
Proof. by_fields. Qed.
#[local] Hint Resolve ObjectReference_copies : copies.
Lemma ImageSpec_copies : Copies ImageSpec_type ImageSpec_DeepCopyInto.
Proof. by_fields. Qed.
#[local] Hint Resolve ImageSpec_copies : copies.
Lemma WorkerImageSpec_copies : Copies WorkerImageSpec_type WorkerImageSpec_DeepCopyInto.
Proof. by_fields. Qed.
#[local] Hint Resolve WorkerImageSpec_copies : copies.
Lemma CustomMetric_copies : Copies CustomMetric_type CustomMetric_DeepCopyInto.
Proof. by_fields. Qed.
#[local] Hint Resolve CustomMetric_copies : copies.
Lemma AutoscalingSpec_copies : Copies AutoscalingSpec_type AutoscalingSpec_DeepCopyInto.
Proof. by_fields. Qed.
#[local] Hint Resolve AutoscalingSpec_copies : copies.
Lemma PDBSpec_copies : Copies PDBSpec_type PDBSpec_DeepCopyInto.
Proof. by_fields. Qed.
#[local] Hint Resolve PDBSpec_copies : copies.
Lemma TopologySpreadSpec_copies : Copies TopologySpreadSpec_type TopologySpreadSpec_DeepCopyInto.
Proof. by_fields. Qed.
#[local] Hint Resolve TopologySpreadSpec_copies : copies.
Lemma WebSpec_copies : Copies WebSpec_type WebSpec_DeepCopyInto.
Proof. by_fields. Qed.
#[local] Hint Resolve WebSpec_copies : copies.
Lemma WorkerSpec_copies : Copies WorkerSpec_type WorkerSpec_DeepCopyInto.
Proof. by_fields. Qed.
#[local] Hint Resolve WorkerSpec_copies : copies.
Lemma SecretValue_copies : Copies SecretValue_type SecretValue_DeepCopyInto.
Proof. by_fields. Qed.
#[local] Hint Resolve SecretValue_copies : copies.
Lemma EmailPasswordSpec_copies : Copies EmailPasswordSpec_type EmailPasswordSpec_DeepCopyInto.
Proof. by_fields. Qed.
#[local] Hint Resolve EmailPasswordSpec_copies : copies.
Lemma OIDCSpec_copies : Copies OIDCSpec_type OIDCSpec_DeepCopyInto.
Proof. by_fields. Qed.
#[local] Hint Resolve OIDCSpec_copies : copies.
Lemma InitUserSpec_copies : Copies InitUserSpec_type InitUserSpec_DeepCopyInto.
Proof. by_fields. Qed.
#[local] Hint Resolve InitUserSpec_copies : copies.
Lemma AuthSpec_copies : Copies AuthSpec_type AuthSpec_DeepCopyInto.
Proof. by_fields. Qed.
#[local] Hint Resolve AuthSpec_copies : copies.
Lemma CACertSecretRef_copies : Copies CACertSecretRef_type CACertSecretRef_DeepCopyInto.
Proof. by_fields. Qed.
#[local] Hint Resolve CACertSecretRef_copies : copies.
Lemma TLSSpec_copies : Copies TLSSpec_type TLSSpec_DeepCopyInto.
Proof. by_fields. Qed.
#[local] Hint Resolve TLSSpec_copies : copies.
Lemma ClientCertSecretRef_copies : Copies ClientCertSecretRef_type ClientCertSecretRef_DeepCopyInto.
Proof. by_fields. Qed.
#[local] Hint Resolve ClientCertSecretRef_copies : copies.
Lemma AutoGenerateSpec_copies : Copies AutoGenerateSpec_type AutoGenerateSpec_DeepCopyInto.
Proof. by_fields. Qed.
#[local] Hint Resolve AutoGenerateSpec_copies : copies.
Lemma SecretRestartMapping_copies : Copies SecretRestartMapping_type SecretRestartMapping_DeepCopyInto.
Proof. by_fields. Qed.
#[local] Hint Resolve SecretRestartMapping_copies : copies.
Lemma RotationSpec_copies : Copies RotationSpec_type RotationSpec_DeepCopyInto.
Proof. by_fields. Qed.
#[local] Hint Resolve RotationSpec_copies : copies.
Lemma SecretManagementSpec_copies : Copies SecretManagementSpec_type SecretManagementSpec_DeepCopyInto.
Proof. by_fields. Qed.
#[local] Hint Resolve SecretManagementSpec_copies : copies.
Lemma CloudNativePGSpec_copies : Copies CloudNativePGSpec_type CloudNativePGSpec_DeepCopyInto.
Proof. by_fields. Qed.
#[local] Hint Resolve CloudNativePGSpec_copies : copies.
Lemma DatabaseBackupSpec_copies : Copies DatabaseBackupSpec_type DatabaseBackupSpec_DeepCopyInto.
Proof. by_fields. Qed.
#[local] Hint Resolve DatabaseBackupSpec_copies : copies.
Lemma ManagedDatabaseSpec_copies : Copies ManagedDatabaseSpec_type ManagedDatabaseSpec_DeepCopyInto.
Proof. by_fields. Qed.
#[local] Hint Resolve ManagedDatabaseSpec_copies : copies.
Lemma DatabaseTLSSpec_copies : Copies DatabaseTLSSpec_type DatabaseTLSSpec_DeepCopyInto.
Proof. by_fields. Qed.
#[local] Hint Resolve DatabaseTLSSpec_copies : copies.
Lemma ExternalDatabaseSpec_copies : Copies ExternalDatabaseSpec_type ExternalDatabaseSpec_DeepCopyInto.
Proof. by_fields. Qed.
#[local] Hint Resolve ExternalDatabaseSpec_copies : copies.
Lemma BackgroundMigrationSpec_copies : Copies BackgroundMigrationSpec_type BackgroundMigrationSpec_DeepCopyInto.
Proof. by_fields. Qed.
#[local] Hint Resolve BackgroundMigrationSpec_copies : copies.
Lemma MigrationSpec_copies : Copies MigrationSpec_type MigrationSpec_DeepCopyInto.
Proof. by_fields. Qed.
#[local] Hint Resolve MigrationSpec_copies : copies.
Lemma DatabaseSpec_copies : Copies DatabaseSpec_type DatabaseSpec_DeepCopyInto.
Proof. by_fields. Qed.
#[local] Hint Resolve DatabaseSpec_copies : copies.
Lemma ClickHouseResourceSpec_copies : Copies ClickHouseResourceSpec_type ClickHouseResourceSpec_DeepCopyInto.
Proof. by_fields. Qed.
#[local] Hint Resolve ClickHouseResourceSpec_copies : copies.
Lemma ClickHouseAuthSpec_copies : Copies ClickHouseAuthSpec_type ClickHouseAuthSpec_DeepCopyInto.
Proof. by_fields. Qed.
#[local] Hint Resolve ClickHouseAuthSpec_copies : copies.
Lemma ManagedClickHouseSpec_copies : Copies ManagedClickHouseSpec_type ManagedClickHouseSpec_DeepCopyInto.
Proof. by_fields. Qed.
#[local] Hint Resolve ManagedClickHouseSpec_copies : copies.
Lemma ClickHouseTLSSpec_copies : Copies ClickHouseTLSSpec_type ClickHouseTLSSpec_DeepCopyInto.
Proof. by_fields. Qed.
#[local] Hint Resolve ClickHouseTLSSpec_copies : copies.
Lemma ExternalClickHouseSpec_copies : Copies ExternalClickHouseSpec_type ExternalClickHouseSpec_DeepCopyInto.
Proof. by_fields. Qed.
#[local] Hint Resolve ExternalClickHouseSpec_copies : copies.
Lemma ClickHouseEncryptionSpec_copies : Copies ClickHouseEncryptionSpec_type ClickHouseEncryptionSpec_DeepCopyInto.
Proof. by_fields. Qed.
#[local] Hint Resolve ClickHouseEncryptionSpec_copies : copies.
Lemma TableRetentionSpec_copies : Copies TableRetentionSpec_type TableRetentionSpec_DeepCopyInto.
Proof. by_fields. Qed.
#[local] Hint Resolve TableRetentionSpec_copies : copies.
Lemma StoragePressureSpec_copies : Copies StoragePressureSpec_type StoragePressureSpec_DeepCopyInto.
Proof. by_fields. Qed.
#[local] Hint Resolve StoragePressureSpec_copies : copies.
Lemma RetentionSpec_copies : Copies RetentionSpec_type RetentionSpec_DeepCopyInto.
Proof. by_fields. Qed.
#[local] Hint Resolve RetentionSpec_copies : copies.
Lemma SchemaDriftSpec_copies : Copies SchemaDriftSpec_type SchemaDriftSpec_DeepCopyInto.
Proof. by_fields. Qed.
#[local] Hint Resolve SchemaDriftSpec_copies : copies.
Lemma ClickHouseClusterSpec_copies : Copies ClickHouseClusterSpec_type ClickHouseClusterSpec_DeepCopyInto.
Proof. by_fields. Qed.
#[local] Hint Resolve ClickHouseClusterSpec_copies : copies.
Lemma ClickHouseSpec_copies : Copies ClickHouseSpec_type ClickHouseSpec_DeepCopyInto.
Proof. by_fields. Qed.
#[local] Hint Resolve ClickHouseSpec_copies : copies.
Lemma ManagedRedisSpec_copies : Copies ManagedRedisSpec_type ManagedRedisSpec_DeepCopyInto.
Proof. by_fields. Qed.
#[local] Hint Resolve ManagedRedisSpec_copies : copies.
Lemma RedisTLSSpec_copies : Copies RedisTLSSpec_type RedisTLSSpec_DeepCopyInto.
Proof. by_fields. Qed.
#[local] Hint Resolve RedisTLSSpec_copies : copies.
Lemma ExternalRedisSpec_copies : Copies ExternalRedisSpec_type ExternalRedisSpec_DeepCopyInto.
Proof. by_fields. Qed.
#[local] Hint Resolve ExternalRedisSpec_copies : copies.
Lemma RedisSpec_copies : Copies RedisSpec_type RedisSpec_DeepCopyInto.
Proof. by_fields. Qed.
#[local] Hint Resolve RedisSpec_copies : copies.
Lemma S3CredentialsSpec_copies : Copies S3CredentialsSpec_type S3CredentialsSpec_DeepCopyInto.
Proof. by_fields. Qed.
#[local] Hint Resolve S3CredentialsSpec_copies : copies.
Lemma S3Spec_copies : Copies S3Spec_type S3Spec_DeepCopyInto.
Proof. by_fields. Qed.
#[local] Hint Resolve S3Spec_copies : copies.
Lemma AzureCredentialsSpec_copies : Copies AzureCredentialsSpec_type AzureCredentialsSpec_DeepCopyInto.
Proof. by_fields. Qed.
#[local] Hint Resolve AzureCredentialsSpec_copies : copies.
Lemma AzureBlobSpec_copies : Copies AzureBlobSpec_type AzureBlobSpec_DeepCopyInto.
Proof. by_fields. Qed.
#[local] Hint Resolve AzureBlobSpec_copies : copies.
Lemma GCSCredentialsSpec_copies : Copies GCSCredentialsSpec_type GCSCredentialsSpec_DeepCopyInto.
Proof. by_fields. Qed.
#[local] Hint Resolve GCSCredentialsSpec_copies : copies.
Lemma GCSSpec_copies : Copies GCSSpec_type GCSSpec_DeepCopyInto.
Proof. by_fields. Qed.
#[local] Hint Resolve GCSSpec_copies : copies.
Lemma BlobStorageSpec_copies : Copies BlobStorageSpec_type BlobStorageSpec_DeepCopyInto.
Proof. by_fields. Qed.
#[local] Hint Resolve BlobStorageSpec_copies : copies.
Lemma LLMSpec_copies : Copies LLMSpec_type LLMSpec_DeepCopyInto.
Proof. by_fields. Qed.
#[local] Hint Resolve LLMSpec_copies : copies.
Lemma CertManagerIssuerRef_copies : Copies CertManagerIssuerRef_type CertManagerIssuerRef_DeepCopyInto.
Proof. by_fields. Qed.
#[local] Hint Resolve CertManagerIssuerRef_copies : copies.
Lemma CertManagerSpec_copies : Copies CertManagerSpec_type CertManagerSpec_DeepCopyInto.
Proof. by_fields. Qed.
#[local] Hint Resolve CertManagerSpec_copies : copies.
Lemma IngressTLSSpec_copies : Copies IngressTLSSpec_type IngressTLSSpec_DeepCopyInto.
Proof. by_fields. Qed.
#[local] Hint Resolve IngressTLSSpec_copies : copies.
Lemma IngressSpec_copies : Copies IngressSpec_type IngressSpec_DeepCopyInto.
Proof. by_fields. Qed.
#[local] Hint Resolve IngressSpec_copies : copies.
Lemma RouteSpec_copies : Copies RouteSpec_type RouteSpec_DeepCopyInto.
Proof. by_fields. Qed.
#[local] Hint Resolve RouteSpec_copies : copies.
Lemma GatewayRef_copies : Copies GatewayRef_type GatewayRef_DeepCopyInto.
Proof. by_fields. Qed.
#[local] Hint Resolve GatewayRef_copies : copies.
Lemma GatewayAPISpec_copies : Copies GatewayAPISpec_type GatewayAPISpec_DeepCopyInto.
Proof. by_fields. Qed.
#[local] Hint Resolve GatewayAPISpec_copies : copies.
Lemma NetworkPolicyPort_copies : Copies NetworkPolicyPort_type NetworkPolicyPort_DeepCopyInto.
Proof. by_fields. Qed.
#[local] Hint Resolve NetworkPolicyPort_copies : copies.
Lemma NetworkPolicySpec_copies : Copies NetworkPolicySpec_type NetworkPolicySpec_DeepCopyInto.
Proof. by_fields. Qed.
#[local] Hint Resolve NetworkPolicySpec_copies : copies.
Lemma TelemetrySpec_copies : Copies TelemetrySpec_type TelemetrySpec_DeepCopyInto.
Proof. by_fields. Qed.
#[local] Hint Resolve TelemetrySpec_copies : copies.
Lemma SecuritySpec_copies : Copies SecuritySpec_type SecuritySpec_DeepCopyInto.
Proof. by_fields. Qed.
#[local] Hint Resolve SecuritySpec_copies : copies.
Lemma ServiceMonitorSpec_copies : Copies ServiceMonitorSpec_type ServiceMonitorSpec_DeepCopyInto.
Proof. by_fields. Qed.
#[local] Hint Resolve ServiceMonitorSpec_copies : copies.
Lemma OTELSpec_copies : Copies OTELSpec_type OTELSpec_DeepCopyInto.
Proof. by_fields. Qed.
#[local] Hint Resolve OTELSpec_copies : copies.
Lemma ObservabilitySpec_copies : Copies ObservabilitySpec_type ObservabilitySpec_DeepCopyInto.
Proof. by_fields. Qed.
#[local] Hint Resolve ObservabilitySpec_copies : copies.
Lemma ComponentCircuitBreakerSpec_copies : Copies ComponentCircuitBreakerSpec_type ComponentCircuitBreakerSpec_DeepCopyInto.
Proof. by_fields. Qed.
#[local] Hint Resolve ComponentCircuitBreakerSpec_copies : copies.
Lemma CircuitBreakerSpec_copies : Copies CircuitBreakerSpec_type CircuitBreakerSpec_DeepCopyInto.
Proof. by_fields. Qed.
#[local] Hint Resolve CircuitBreakerSpec_copies : copies.
Lemma PreUpgradeSpec_copies : Copies PreUpgradeSpec_type PreUpgradeSpec_DeepCopyInto.
Proof. by_fields. Qed.
#[local] Hint Resolve PreUpgradeSpec_copies : copies.
Lemma RollingUpdateSpec_copies : Copies RollingUpdateSpec_type RollingUpdateSpec_DeepCopyInto.
Proof. by_fields. Qed.
#[local] Hint Resolve RollingUpdateSpec_copies : copies.
Lemma PostUpgradeSpec_copies : Copies PostUpgradeSpec_type PostUpgradeSpec_DeepCopyInto.
Proof. by_fields. Qed.
#[local] Hint Resolve PostUpgradeSpec_copies : copies.
Lemma UpgradeSpec_copies : Copies UpgradeSpec_type UpgradeSpec_DeepCopyInto.
Proof. by_fields. Qed.
#[local] Hint Resolve UpgradeSpec_copies : copies.
Lemma LangfuseInstanceSpec_copies : Copies LangfuseInstanceSpec_type LangfuseInstanceSpec_DeepCopyInto.
Proof. by_fields. Qed.
#[local] Hint Resolve LangfuseInstanceSpec_copies : copies.
Lemma PodIssue_copies : Copies PodIssue_type PodIssue_DeepCopyInto.
Proof. by_fields. Qed.
#[local] Hint Resolve PodIssue_copies : copies.
Lemma ComponentStatus_copies : Copies ComponentStatus_type ComponentStatus_DeepCopyInto.
Proof. by_fields. Qed.
#[local] Hint Resolve ComponentStatus_copies : copies.
Lemma WorkerComponentStatus_copies : Copies WorkerComponentStatus_type WorkerComponentStatus_DeepCopyInto.
Proof. by_fields. Qed.
#[local] Hint Resolve WorkerComponentStatus_copies : copies.
Lemma BackgroundMigrationStatus_copies : Copies BackgroundMigrationStatus_type BackgroundMigrationStatus_DeepCopyInto.
Proof. by_fields. Qed.
#[local] Hint Resolve BackgroundMigrationStatus_copies : copies.
Lemma DatabaseStatus_copies : Copies DatabaseStatus_type DatabaseStatus_DeepCopyInto.
Proof. by_fields. Qed.
#[local] Hint Resolve DatabaseStatus_copies : copies.
Lemma MigrationStatus_copies : Copies MigrationStatus_type MigrationStatus_DeepCopyInto.
Proof. by_fields. Qed.
#[local] Hint Resolve MigrationStatus_copies : copies.
Lemma ClickHouseStatus_copies : Copies ClickHouseStatus_type ClickHouseStatus_DeepCopyInto.
Proof. by_fields. Qed.
#[local] Hint Resolve ClickHouseStatus_copies : copies.
Lemma ConnectionStatus_copies : Copies ConnectionStatus_type ConnectionStatus_DeepCopyInto.
Proof. by_fields. Qed.
#[local] Hint Resolve ConnectionStatus_copies : copies.
Lemma BlobStorageStatus_copies : Copies BlobStorageStatus_type BlobStorageStatus_DeepCopyInto.
Proof. by_fields. Qed.
#[local] Hint Resolve BlobStorageStatus_copies : copies.
Lemma SecretsStatus_copies : Copies SecretsStatus_type SecretsStatus_DeepCopyInto.
Proof. by_fields. Qed.
#[local] Hint Resolve SecretsStatus_copies : copies.
Lemma LangfuseInstanceStatus_copies : Copies LangfuseInstanceStatus_type LangfuseInstanceStatus_DeepCopyInto.
Proof. by_fields. Qed.
#[local] Hint Resolve LangfuseInstanceStatus_copies : copies.
Lemma LangfuseInstance_copies : Copies LangfuseInstance_type LangfuseInstance_DeepCopyInto.
Proof. by_fields. Qed.
#[local] Hint Resolve LangfuseInstance_copies : copies.
Lemma LangfuseInstanceList_copies : Copies LangfuseInstanceList_type LangfuseInstanceList_DeepCopyInto.
Proof. by_fields. Qed.
#[local] Hint Resolve LangfuseInstanceList_copies : copies.
Lemma OrganizationMemberSpec_copies : Copies OrganizationMemberSpec_type OrganizationMemberSpec_DeepCopyInto.
Proof. by_fields. Qed.
#[local] Hint Resolve OrganizationMemberSpec_copies : copies.
Lemma OrganizationMembersSpec_copies : Copies OrganizationMembersSpec_type OrganizationMembersSpec_DeepCopyInto.
Proof. by_fields. Qed.
#[local] Hint Resolve OrganizationMembersSpec_copies : copies.
Lemma LangfuseOrganizationSpec_copies : Copies LangfuseOrganizationSpec_type LangfuseOrganizationSpec_DeepCopyInto.
Proof. by_fields. Qed.
#[local] Hint Resolve LangfuseOrganizationSpec_copies : copies.
Lemma LangfuseOrganizationStatus_copies : Copies LangfuseOrganizationStatus_type LangfuseOrganizationStatus_DeepCopyInto.
Proof. by_fields. Qed.
#[local] Hint Resolve LangfuseOrganizationStatus_copies : copies.
Lemma LangfuseOrganization_copies : Copies LangfuseOrganization_type LangfuseOrganization_DeepCopyInto.
Proof. by_fields. Qed.
#[local] Hint Resolve LangfuseOrganization_copies : copies.
Lemma LangfuseOrganizationList_copies : Copies LangfuseOrganizationList_type LangfuseOrganizationList_DeepCopyInto.
Proof. by_fields. Qed.
#[local] Hint Resolve LangfuseOrganizationList_copies : copies.
Lemma APIKeySpec_copies : Copies APIKeySpec_type APIKeySpec_DeepCopyInto.
Proof. by_fields. Qed.
#[local] Hint Resolve APIKeySpec_copies : copies.
Lemma LangfuseProjectSpec_copies : Copies LangfuseProjectSpec_type LangfuseProjectSpec_DeepCopyInto.
Proof. by_fields. Qed.
#[local] Hint Resolve LangfuseProjectSpec_copies : copies.
Lemma APIKeyStatus_copies : Copies APIKeyStatus_type APIKeyStatus_DeepCopyInto.
Proof. by_fields. Qed.
#[local] Hint Resolve APIKeyStatus_copies : copies.
Lemma LangfuseProjectStatus_copies : Copies LangfuseProjectStatus_type LangfuseProjectStatus_DeepCopyInto.
Proof. by_fields. Qed.
#[local] Hint Resolve LangfuseProjectStatus_copies : copies.
Lemma LangfuseProject_copies : Copies LangfuseProject_type LangfuseProject_DeepCopyInto.
Proof. by_fields. Qed.
#[local] Hint Resolve LangfuseProject_copies : copies.
Lemma LangfuseProjectList_copies : Copies LangfuseProjectList_type LangfuseProjectList_DeepCopyInto.
Proof. by_fields. Qed.
#[local] Hint Resolve LangfuseProjectList_copies : copies.

Lemma package_copies T f : (T, f) ∈ package → Copies T f.
Proof.
  assert (Forall (λ p, Copies p.1 p.2) package) as Hall
    by (repeat (apply Forall_cons; split; [cbn [fst snd]; auto with nocore copies|]); by apply Forall_nil).
  rewrite Forall_forall in Hall. apply (Hall (T, f)).
Qed.

(** C13: a copy shares nothing with what it was made of.  For each of the 102 types of
    the package and any pointer to a value of it, however the value is nested: the copy
    stands for the same value, nothing that was in memory is changed, and from then on
    the two are apart: writing to what was there before leaves the copy as it is, and
    writing to what the copy is made of leaves the original as it is.  So the [original]
    a controller keeps is what it read, whatever it does to the object it changes in
    place.  A nil pointer gives a nil pointer, and the nil interface where an interface
    is asked for. *)
Theorem deep_copies_separate T f n h p t :
  (T, f) ∈ package → unfolds n h p t → typed (TyPtr T) t →
  wp (DeepCopy f p) (separate n h p t) h ∧
  DeepCopy f (VPtr None) h = (VPtr None, h) ∧
  (∀ type, DeepCopyObject type (DeepCopy f) (VPtr None) h = (None, h)).
Proof. intros Hf%package_copies Hp Ht. split; [by apply (deep_copy_separate T)|done]. Qed.
End correct.

(** ** Witness

    Types of other modules without a pointer in them, and the settings of a login
    provider: a struct behind a pointer, and part of an array. *)

Definition leaves_only : ExternalTypes := {|
  ext_typed _ t := match t with TLeaf _ => true | _ => false end;
  ext_copy _ := assign
|}.

Lemma leaves_only_laws : ExternalLaws (EXT := leaves_only).
Proof.
  constructor. intros name. apply copies_start. intros n h v t Hv Ht. apply wp_grown_ret; [apply map_disjoint_empty_r|].
  destruct t; try done. destruct n, v as [| |[]|[[[]]|]|[]]; done.
Qed.

Definition ex_string (s : string) : value := VLeaf (LString s).
Definition ex_oidc : value := VStruct (list_to_map [
  ("Enabled", VLeaf (LBool true)); ("Issuer", ex_string "https://id.example.com");
  ("ClientId", VPtr (Some 2%positive)); ("ClientSecret", VPtr None); ("Name", ex_string "Example");
  ("Scope", VSlice (Some (3%positive, 1%nat, 2%nat))); ("SSOEnforcedDomains", VSlice None)]).
Definition ex_memory : heap := list_to_map [
  (1%positive, CVar ex_oidc);
  (2%positive, CVar (VStruct (list_to_map [("Name", ex_string "oidc"); ("Key", ex_string "id")])));
  (3%positive, CArray (ex_string <$> ["offline"; "openid"; "email"]))].
Definition ex_pointer : value := VPtr (Some 1%positive).
Definition ex_tree : tree := default TNil (meaning 5 ex_memory ex_pointer).

Definition ex_copy : value * heap :=
  DeepCopy OIDCSpec_DeepCopyInto ex_pointer ex_memory.

(** The scopes and the key of the original are overwritten; the copy is as it was. *)
Lemma deep_copies_separate_witness :
  unfolds 5 (<[3%positive := CArray []]> (<[2%positive := CVar (ex_string "")]> ex_copy.2)) ex_copy.1 ex_tree.
Proof.
  destruct (deep_copies_separate (EXT := leaves_only) (ORD := list_order) (OL := list_order_laws)
    (EL := leaves_only_laws) OIDCSpec_type OIDCSpec_DeepCopyInto 5 ex_memory ex_pointer ex_tree) as [Hsep _].
  - unfold package. repeat (apply elem_of_cons; first [left; reflexivity|right]).
  - apply meaning_unfolds. by vm_compute.
  - by vm_compute.
  - unfold wp in Hsep. fold ex_copy in Hsep. destruct ex_copy as [p' h'] eqn:E.
    destruct Hsep as (_ & _ & _ & _ & Hlater). apply Hlater. intros l _ Hl.
    etrans; apply lookup_insert_ne; intros <-; apply Hl, elem_of_dom; by eexists.
Defined.
