(* ===== verification/Status.v ===== *)
(** * Status writes ([internal/controller/status.go])

    Seven controllers write one status subresource; this file holds the rules
    they share: write only on a difference, and treat a lost race as a reason
    to repeat the pass, never as a failure. *)

From S2P Require Import Prelude KubeTypes ApiTypes Kube.

Open Scope string_scope.
Open Scope list_scope.

Definition statusConflictRetryDelay : Z := Second.

(** [equality.Semantic.DeepEqual] on statuses: equality up to nil and empty
    slices, which the model does not distinguish. *)
Definition Semantic_DeepEqual (a b : LangfuseInstanceStatus) : bool := bool_decide (a = b).

Section status.
Context {W : Type} `{KubeClient W}.

Definition updateInstanceStatus (instance original : LangfuseInstance) : M (St W) (option GoError) :=
  if Semantic_DeepEqual (Instance_Status original) (Instance_Status instance)
  then mret None
  else e ← Status_Update instance; mret (wrapError "updating status" <$> e).
End status.

Definition statusWriteFailed (err : GoError) (what : string) : Outcome :=
  if IsConflict err then done_after statusConflictRetryDelay
  else failed (wrapError what err).

Definition requeueIf (retry : bool) : Result :=
  if retry then mkResult statusConflictRetryDelay else zero_Result.

Definition noteStatusWriteFailure (err : option GoError) : bool :=
  match err with
  | None => false
  | Some e => IsConflict e
  end.

(** ** Properties *)

Section properties.
Context {W : Type} `{KubeClient W}.

Lemma updateInstanceStatus_emits instance original (P : Call → Prop) :
  (∀ e, P (CUpdateStatus instance e)) →
  emits_ret P (λ _, True) (updateInstanceStatus instance original).
Proof.
  intros HP. unfold updateInstanceStatus. destruct (Semantic_DeepEqual _ _).
  { by apply emits_ret_mret. }
  apply emits_ret_bind with (λ _, True); [by apply emits_ret_call|].
  intros. by apply emits_ret_mret.
Qed.

(** One status write happens exactly when the status changed, and its error
    keeps its classification. *)
Lemma wp_updateInstanceStatus instance original (Q : option GoError → St W → Prop) s :
  (Instance_Status original = Instance_Status instance → Q None s) →
  (Instance_Status original ≠ Instance_Status instance →
    ∀ e w, Q (wrapError "updating status" <$> e)
             (mkSt w (st_trace s ++ [CUpdateStatus instance e]))) →
  wp (updateInstanceStatus instance original) Q s.
Proof.
  intros HE HN. unfold updateInstanceStatus, Semantic_DeepEqual.
  case_bool_decide as E; [by apply wp_ret, HE|].
  apply wp_bind, wp_call. intros e w. by apply wp_ret, HN.
Qed.

(** The calls of one status write: none when nothing changed. *)
Definition status_write (instance original : LangfuseInstance) (r : option GoError) (cs : list Call) : Prop :=
  (Instance_Status original = Instance_Status instance ∧ r = None ∧ cs = []) ∨
  (Instance_Status original ≠ Instance_Status instance ∧
   ∃ e, r = (wrapError "updating status" <$> e) ∧ cs = [CUpdateStatus instance e]).

Lemma status_write_elem instance original r cs c :
  status_write instance original r cs → c ∈ cs → ∃ e, c = CUpdateStatus instance e.
Proof. intros [(_ & _ & ->)|(_ & e & _ & ->)] Hc; [set_solver|]. apply list_elem_of_singleton in Hc. eauto. Qed.

Lemma updateInstanceStatus_traces instance original :
  traces (status_write instance original) (updateInstanceStatus instance original).
Proof.
  intros s. apply wp_updateInstanceStatus.
  - intros. exists []. rewrite app_nil_r. split; [done|]. by left.
  - intros Hn e w. exists [CUpdateStatus instance e]. split; [done|]. right. eauto.
Qed.
End properties.

Lemma noteStatusWriteFailure_wrap e what :
  noteStatusWriteFailure (wrapError what <$> e) = noteStatusWriteFailure e.
Proof. by destruct e. Qed.

(** What a controller makes of a failed status write, by the API error. *)
Lemma statusWriteFailed_spec e what :
  (err_kind e = KindConflict ∧ statusWriteFailed e what = (mkResult Second, None)) ∨
  (err_kind e ≠ KindConflict ∧
   statusWriteFailed e what = (zero_Result, Some (wrapError what e))).
Proof.
  unfold statusWriteFailed, IsConflict. case_bool_decide; [left|right]; done.
Qed.
