(* ===== verification/Version.v ===== *)
(** * Version tags ([internal/langfuse/version.go]) *)

From S2P Require Import Prelude GoStd.

Open Scope string_scope.

Definition NormalizeVersion (tag : string) : string := TrimPrefix tag "v".

Definition VersionChanged (desired current : string) : bool :=
  bool_decide (NormalizeVersion desired ≠ NormalizeVersion current).
