(* ===== verification/Config.v ===== *)
(** * Langfuse configuration ([internal/langfuse/config.go])

    [BuildConfig] computes the environment of the Web, Worker and migration
    pods and the TLS material they mount.  A Go [cfg.CommonEnv = append(...)]
    under a condition is [emit] of a list that is empty when the condition
    fails. *)

From S2P Require Import Prelude GoStd KubeTypes ApiTypes Kube Examples.

Open Scope string_scope.
Open Scope list_scope.

Record Config := mkConfig {
  CommonEnv : list EnvVar;
  WebEnv : list EnvVar;
  WorkerEnv : list EnvVar;
  Volumes : list Volume;
  VolumeMounts : list VolumeMount
}.

Definition zero_Config : Config := mkConfig [] [] [] [] [].

Definition emit (es : list EnvVar) (c : Config) : Config :=
  mkConfig (CommonEnv c ++ es) (WebEnv c) (WorkerEnv c) (Volumes c) (VolumeMounts c).
Definition emitWeb (es : list EnvVar) (c : Config) : Config :=
  mkConfig (CommonEnv c) (WebEnv c ++ es) (WorkerEnv c) (Volumes c) (VolumeMounts c).
Definition emitWorker (es : list EnvVar) (c : Config) : Config :=
  mkConfig (CommonEnv c) (WebEnv c) (WorkerEnv c ++ es) (Volumes c) (VolumeMounts c).

Definition tlsBaseMountPath : string := "/etc/langfuse/tls".

Definition mountSecret (volName secretName mountPath : string) (items : list KeyToPath)
    (c : Config) : Config :=
  mkConfig (CommonEnv c) (WebEnv c) (WorkerEnv c)
    (Volumes c ++ [mkVolume volName (SecretVolume secretName items)])
    (VolumeMounts c ++ [mkVolumeMount volName mountPath true]).

Definition envVar (name value : string) : EnvVar := mkEnvVar name value None.

Definition envFromSecret (envName secretName key : string) : EnvVar :=
  mkEnvVar envName "" (Some (SecretKeyRefSource (mkSecretKeySelector secretName key))).

Definition envFromRef (envName : string) (ref : SecretKeyRef) : EnvVar :=
  envFromSecret envName (SecretKeyRef_Name ref) (SecretKeyRef_Key ref).

Definition generatedSecretName (i : LangfuseInstance) : string :=
  om_Name (Instance_ObjectMeta i) +:+ "-generated-secrets".

Definition GeneratedSecretName (i : LangfuseInstance) : string := generatedSecretName i.

(** [m[k]] on a Go [map[string]string]: the empty string when absent. *)
Definition key_of (ref : SecretKeysRef) (k : string) : string :=
  default "" (SecretKeysRef_Keys ref !! k).

(** The default of an unmapped key: [d] when [k] is empty. *)
Definition or_default (k d : string) : string := if decide (k = "") then d else k.

(** [if cond { append(e) }]. *)
Definition opt_env (cond : bool) (e : EnvVar) : list EnvVar := if cond then [e] else [].
Definition nonempty (s : string) : bool := nonempty_str s.

(** A Secret reference the user set, or the auto-generated Secret. *)
Definition env_secret_value (i : LangfuseInstance) (name : string) (v : option SecretValue)
    (generatedKey : string) : list EnvVar :=
  match v ≫= SecretValue_SecretRef with
  | Some ref => [envFromRef name ref]
  | None => [envFromSecret name (generatedSecretName i) generatedKey]
  end.

Definition oidcEnv (oidc : OIDCSpec) : list EnvVar :=
  (match OIDC_ClientId oidc with Some r => [envFromRef "AUTH_CUSTOM_CLIENT_ID" r] | None => [] end) ++
  (match OIDC_ClientSecret oidc with Some r => [envFromRef "AUTH_CUSTOM_CLIENT_SECRET" r] | None => [] end) ++
  opt_env (nonempty (OIDC_Issuer oidc)) (envVar "AUTH_CUSTOM_ISSUER" (OIDC_Issuer oidc)) ++
  [envVar "AUTH_CUSTOM_NAME" (or_default (OIDC_Name oidc) "SSO")] ++
  [envVar "AUTH_CUSTOM_SCOPE"
    (match OIDC_Scope oidc with [] => "openid email profile" | l => Join l " " end)] ++
  (match OIDC_SSOEnforcedDomains oidc with
   | [] => []
   | l => [envVar "AUTH_DOMAINS_WITH_SSO_ENFORCEMENT" (Join l ",")]
   end).

Definition initUserEnv (u : InitUserSpec) : list EnvVar :=
  [envVar "LANGFUSE_INIT_USER_EMAIL" (InitUser_Email u)] ++
  (match InitUser_Password u with Some r => [envFromRef "LANGFUSE_INIT_USER_PASSWORD" r] | None => [] end) ++
  opt_env (nonempty (InitUser_OrgName u)) (envVar "LANGFUSE_INIT_ORG_NAME" (InitUser_OrgName u)) ++
  opt_env (nonempty (InitUser_ProjectName u)) (envVar "LANGFUSE_INIT_PROJECT_NAME" (InitUser_ProjectName u)).

Definition emailPasswordEnv (e : EmailPasswordSpec) : list EnvVar :=
  opt_env (bool_decide (EmailPassword_Enabled e = Some false)) (envVar "AUTH_DISABLE_USERNAME_PASSWORD" "true") ++
  opt_env (EmailPassword_DisableSignup e) (envVar "AUTH_DISABLE_SIGNUP" "true").

Definition addAuthEnv (cfg : Config) (i : LangfuseInstance) : Config :=
  let auth := Spec_Auth (Instance_Spec i) in
  let cfg := emit [envVar "NEXTAUTH_URL" (Auth_NextAuthUrl auth)] cfg in
  let cfg := emit (env_secret_value i "NEXTAUTH_SECRET" (Auth_NextAuthSecret auth) "nextauth-secret") cfg in
  let cfg := emit (env_secret_value i "SALT" (Auth_Salt auth) "salt") cfg in
  let cfg := emit (env_secret_value i "ADMIN_API_KEY" (Auth_AdminApiKey auth) "admin-api-key") cfg in
  let cfg := emit (match Spec_EELicenseKey (Instance_Spec i) ≫= SecretValue_SecretRef with
                   | Some ref => [envFromRef "LANGFUSE_EE_LICENSE_KEY" ref]
                   | None => []
                   end) cfg in
  let cfg := emit (match Auth_EmailPassword auth with
                   | Some e => emailPasswordEnv e
                   | None => []
                   end) cfg in
  let cfg := emit (match Auth_OIDC auth with
                   | Some oidc => if OIDC_Enabled oidc then oidcEnv oidc else []
                   | None => []
                   end) cfg in
  emit (match Auth_InitUser auth with
        | Some u => if InitUser_Enabled u then initUserEnv u else []
        | None => []
        end) cfg.

(** Returns the Config and the in-container CA path (empty when none). *)
Definition addTrustedCAEnv (cfg : Config) (i : LangfuseInstance) : Config * string :=
  match Spec_TLS (Instance_Spec i) ≫= TLS_TrustedCASecretRef with
  | None => (cfg, "")
  | Some ref =>
      let key := or_default (CACertSecretRef_Key ref) "ca.crt" in
      let mountPath := tlsBaseMountPath +:+ "/trusted-ca" in
      let caPath := mountPath +:+ "/ca.crt" in
      let cfg := mountSecret "langfuse-trusted-ca" (CACertSecretRef_Name ref) mountPath
                   [mkKeyToPath key "ca.crt"] cfg in
      (emit [envVar "NODE_EXTRA_CA_CERTS" caPath] cfg, caPath)
  end.

Definition postgresTLSQuery (tls : DatabaseTLSSpec) (trustedCAPath : string) (cfg : Config)
    : string * Config :=
  let mode := or_default (DatabaseTLS_SSLMode tls) "require" in
  if decide (mode = "disable") then ("?sslmode=disable", cfg)
  else
    let params := ["sslmode=require"] in
    let params := params ++
      (if decide (mode = "verify-ca" ∨ mode = "verify-full")
       then ["sslaccept=strict"] else ["sslaccept=accept_invalid_certs"]) in
    let '(caPath, cfg) :=
      match DatabaseTLS_CASecretRef tls with
      | Some ref =>
          let key := or_default (CACertSecretRef_Key ref) "ca.crt" in
          let mountPath := tlsBaseMountPath +:+ "/postgres-ca" in
          (mountPath +:+ "/ca.crt",
           mountSecret "langfuse-postgres-ca" (CACertSecretRef_Name ref) mountPath
             [mkKeyToPath key "ca.crt"] cfg)
      | None => (trustedCAPath, cfg)
      end in
    let params := if nonempty caPath then params ++ ["sslcert=" +:+ caPath] else params in
    ("?" +:+ Join params "&", cfg).

Definition addDatabaseEnv (cfg : Config) (i : LangfuseInstance) (trustedCAPath : string)
    : result Config :=
  match Spec_Database (Instance_Spec i) with
  | None => Ok cfg
  | Some db =>
    match Database_Managed db, Database_CloudNativePG db, Database_External db with
    | Some _, _, _ =>
        Err (newError ("spec.database.managed is not implemented and is deprecated " +:+
          "(removed in 0.11.0): the operator does not deploy PostgreSQL in this mode. " +:+
          "Use spec.database.cloudnativepg or spec.database.external"))
    | None, Some cnpg, _ =>
        let secretName := ObjectReference_Name (CloudNativePG_ClusterRef cnpg) +:+ "-app" in
        Ok (emit [envFromSecret "DATABASE_URL" secretName "uri"] cfg)
    | None, None, Some ext =>
        let ref := ExternalDatabase_SecretRef ext in
        let name := SecretKeysRef_Name ref in
        let urlKey := or_default (key_of ref "url") "database_url" in
        let directKey := key_of ref "directUrl" in
        let hasDirect := nonempty directKey in
        match ExternalDatabase_TLS ext with
        | None =>
            let cfg := emit [envFromSecret "DATABASE_URL" name urlKey] cfg in
            Ok (emit (opt_env hasDirect (envFromSecret "DIRECT_URL" name directKey)) cfg)
        | Some tls =>
            let '(query, cfg) := postgresTLSQuery tls trustedCAPath cfg in
            let cfg := emit [envFromSecret "DATABASE_URL_BASE" name urlKey] cfg in
            let cfg := emit [envVar "DATABASE_URL" ("$(DATABASE_URL_BASE)" +:+ query)] cfg in
            let cfg := emit (opt_env hasDirect (envFromSecret "DIRECT_URL_BASE" name directKey)) cfg in
            Ok (emit (opt_env hasDirect (envVar "DIRECT_URL" ("$(DIRECT_URL_BASE)" +:+ query))) cfg)
        end
    | None, None, None => Ok cfg
    end
  end.

(** [ClickHouseSpec.ClusterEnabled], defined on nil too. *)
Definition ClusterEnabled (s : option ClickHouseSpec) : bool :=
  match s ≫= ClickHouse_Cluster with
  | Some c => ClickHouseCluster_Enabled c
  | None => false
  end.

Definition addClickHouseEnv (cfg : Config) (i : LangfuseInstance) : result Config :=
  match Spec_ClickHouse (Instance_Spec i) with
  | None => Ok cfg
  | Some ch =>
    let name := om_Name (Instance_ObjectMeta i) in
    if bool_decide (is_Some (ClickHouse_Managed ch)) && ClusterEnabled (Some ch) then
      Err (newError ("spec.clickhouse.cluster.enabled is not supported with " +:+
        "spec.clickhouse.managed: the managed mode is a single node with no Keeper. " +:+
        "Use spec.clickhouse.external against a replicated cluster"))
    else
      let cfg := emit [envVar "CLICKHOUSE_CLUSTER_ENABLED" (FormatBool (ClusterEnabled (Some ch)))] cfg in
      let cfg := emit (opt_env (nonempty (ClickHouse_Database ch))
                         (envVar "CLICKHOUSE_DB" (ClickHouse_Database ch))) cfg in
      match ClickHouse_Managed ch, ClickHouse_External ch with
      | Some m, _ =>
          let cfg :=
            match ManagedClickHouse_Auth m ≫= ClickHouseAuth_SecretRef with
            | Some ref =>
                let usernameKey := or_default (key_of ref "username") "username" in
                let passwordKey := or_default (key_of ref "password") "password" in
                emit [envFromSecret "CLICKHOUSE_USER" (SecretKeysRef_Name ref) usernameKey;
                      envFromSecret "CLICKHOUSE_PASSWORD" (SecretKeysRef_Name ref) passwordKey] cfg
            | None =>
                emit [envFromSecret "CLICKHOUSE_USER" (generatedSecretName i) "clickhouse-username";
                      envFromSecret "CLICKHOUSE_PASSWORD" (generatedSecretName i) "clickhouse-password"] cfg
            end in
          let cfg := emit [envVar "CLICKHOUSE_URL" ("http://" +:+ name +:+ "-clickhouse:8123")] cfg in
          Ok (emit [envVar "CLICKHOUSE_MIGRATION_URL" ("clickhouse://" +:+ name +:+ "-clickhouse:9000")] cfg)
      | None, Some ext =>
          let ref := ExternalClickHouse_SecretRef ext in
          let sname := SecretKeysRef_Name ref in
          let cfg := emit [envFromSecret "CLICKHOUSE_URL" sname (or_default (key_of ref "url") "url")] cfg in
          let cfg := emit (opt_env (nonempty (key_of ref "migrationUrl"))
                       (envFromSecret "CLICKHOUSE_MIGRATION_URL" sname (key_of ref "migrationUrl"))) cfg in
          let cfg := emit (opt_env (nonempty (key_of ref "username"))
                       (envFromSecret "CLICKHOUSE_USER" sname (key_of ref "username"))) cfg in
          let cfg := emit (opt_env (nonempty (key_of ref "password"))
                       (envFromSecret "CLICKHOUSE_PASSWORD" sname (key_of ref "password"))) cfg in
          Ok (emit (match ExternalClickHouse_TLS ext with
                    | Some tls => opt_env (ClickHouseTLS_Enabled tls) (envVar "CLICKHOUSE_MIGRATION_SSL" "true")
                    | None => []
                    end) cfg)
      | None, None => Ok cfg
      end
  end.

Definition addRedisTLSEnv (cfg : Config) (tls : RedisTLSSpec) (trustedCAPath : string)
    : result Config :=
  if negb (RedisTLS_Enabled tls) then
    if bool_decide (is_Some (RedisTLS_CASecretRef tls)) ||
       bool_decide (is_Some (RedisTLS_ClientCertSecretRef tls))
    then Err (newError "redis.external.tls: caSecretRef/clientCertSecretRef set but tls.enabled is false")
    else Ok cfg
  else
    let cfg := emit [envVar "REDIS_TLS_ENABLED" "true"] cfg in
    let '(caPath, cfg) :=
      match RedisTLS_CASecretRef tls with
      | Some ref =>
          let key := or_default (CACertSecretRef_Key ref) "ca.crt" in
          let mountPath := tlsBaseMountPath +:+ "/redis-ca" in
          (mountPath +:+ "/ca.crt",
           mountSecret "langfuse-redis-ca" (CACertSecretRef_Name ref) mountPath
             [mkKeyToPath key "ca.crt"] cfg)
      | None => (trustedCAPath, cfg)
      end in
    let cfg := emit (opt_env (nonempty caPath) (envVar "REDIS_TLS_CA_PATH" caPath)) cfg in
    let cfg :=
      match RedisTLS_ClientCertSecretRef tls with
      | Some cc =>
          let certKey := or_default (ClientCertSecretRef_CertKey cc) "tls.crt" in
          let keyKey := or_default (ClientCertSecretRef_KeyKey cc) "tls.key" in
          let mountPath := tlsBaseMountPath +:+ "/redis-client" in
          let cfg := mountSecret "langfuse-redis-client" (ClientCertSecretRef_Name cc) mountPath
                       [mkKeyToPath certKey "tls.crt"; mkKeyToPath keyKey "tls.key"] cfg in
          emit [envVar "REDIS_TLS_CERT_PATH" (mountPath +:+ "/tls.crt");
                envVar "REDIS_TLS_KEY_PATH" (mountPath +:+ "/tls.key")] cfg
      | None => cfg
      end in
    Ok (emit (opt_env (nonempty (RedisTLS_ServerName tls))
                (envVar "REDIS_TLS_SERVERNAME" (RedisTLS_ServerName tls))) cfg).

Definition addRedisEnv (cfg : Config) (i : LangfuseInstance) (trustedCAPath : string)
    : result Config :=
  match Spec_Redis (Instance_Spec i) with
  | None => Ok cfg
  | Some r =>
    match Redis_Managed r, Redis_External r with
    | Some _, _ =>
        Ok (emit [envVar "REDIS_HOST" (om_Name (Instance_ObjectMeta i) +:+ "-redis");
                  envVar "REDIS_PORT" "6379";
                  envFromSecret "REDIS_AUTH" (generatedSecretName i) "redis-password"] cfg)
    | None, Some ext =>
        let ref := ExternalRedis_SecretRef ext in
        let name := SecretKeysRef_Name ref in
        let cfg := emit [envFromSecret "REDIS_HOST" name (or_default (key_of ref "host") "host");
                         envFromSecret "REDIS_PORT" name (or_default (key_of ref "port") "port")] cfg in
        let cfg := emit (opt_env (nonempty (key_of ref "password"))
                           (envFromSecret "REDIS_AUTH" name (key_of ref "password"))) cfg in
        match ExternalRedis_TLS ext with
        | Some tls => addRedisTLSEnv cfg tls trustedCAPath
        | None => Ok (emit (opt_env (nonempty (key_of ref "tls"))
                              (envFromSecret "REDIS_TLS_ENABLED" name (key_of ref "tls"))) cfg)
        end
    | None, None => Ok cfg
    end
  end.

Definition azureBlobEndpoint (azure : AzureBlobSpec) : string :=
  if nonempty (AzureBlob_Endpoint azure) then AzureBlob_Endpoint azure
  else "https://" +:+ AzureBlob_StorageAccountName azure +:+ ".blob.core.windows.net".

Definition s3Env (s3 : S3Spec) : list EnvVar :=
  [envVar "LANGFUSE_S3_EVENT_UPLOAD_ENABLED" "true"] ++
  [envVar "LANGFUSE_S3_EVENT_UPLOAD_BUCKET" (S3_Bucket s3)] ++
  opt_env (nonempty (S3_Region s3)) (envVar "LANGFUSE_S3_EVENT_UPLOAD_REGION" (S3_Region s3)) ++
  opt_env (nonempty (S3_Endpoint s3)) (envVar "LANGFUSE_S3_EVENT_UPLOAD_ENDPOINT" (S3_Endpoint s3)) ++
  opt_env (S3_ForcePathStyle s3) (envVar "LANGFUSE_S3_EVENT_UPLOAD_FORCE_PATH_STYLE" "true") ++
  match S3_Credentials s3 with
  | Some c =>
      let ref := S3Credentials_SecretRef c in
      [envFromSecret "LANGFUSE_S3_EVENT_UPLOAD_ACCESS_KEY_ID" (SecretKeysRef_Name ref)
         (or_default (key_of ref "accessKeyId") "access_key")] ++
      [envFromSecret "LANGFUSE_S3_EVENT_UPLOAD_SECRET_ACCESS_KEY" (SecretKeysRef_Name ref)
         (or_default (key_of ref "secretAccessKey") "secret_key")]
  | None => []
  end.

Definition azureEnv (az : AzureBlobSpec) : list EnvVar :=
  [envVar "LANGFUSE_S3_EVENT_UPLOAD_ENABLED" "true"] ++
  [envVar "LANGFUSE_USE_AZURE_BLOB" "true"] ++
  [envVar "LANGFUSE_S3_EVENT_UPLOAD_BUCKET" (AzureBlob_ContainerName az)] ++
  [envVar "LANGFUSE_S3_EVENT_UPLOAD_ENDPOINT" (azureBlobEndpoint az)] ++
  [envVar "LANGFUSE_S3_EVENT_UPLOAD_ACCESS_KEY_ID" (AzureBlob_StorageAccountName az)] ++
  match AzureBlob_Credentials az with
  | Some c =>
      let ref := AzureCredentials_SecretRef c in
      [envFromSecret "LANGFUSE_S3_EVENT_UPLOAD_SECRET_ACCESS_KEY" (SecretKeysRef_Name ref)
         (or_default (key_of ref "accountKey") "accountKey")]
  | None => []
  end.

Definition gcsEnv (gcs : GCSSpec) : list EnvVar :=
  [envVar "LANGFUSE_S3_EVENT_UPLOAD_ENABLED" "true"] ++
  [envVar "LANGFUSE_USE_GOOGLE_CLOUD_STORAGE" "true"] ++
  [envVar "LANGFUSE_S3_EVENT_UPLOAD_BUCKET" (GCS_BucketName gcs)] ++
  match GCS_Credentials gcs with
  | Some c =>
      let ref := GCSCredentials_SecretRef c in
      [envFromSecret "LANGFUSE_GOOGLE_CLOUD_STORAGE_CREDENTIALS" (SecretKeysRef_Name ref)
         (or_default (key_of ref "credentials") "credentials")]
  | None => []
  end.

Definition addBlobStorageEnv (cfg : Config) (i : LangfuseInstance) : Config :=
  match Spec_BlobStorage (Instance_Spec i) with
  | None => cfg
  | Some bs =>
      if decide (BlobStorage_Provider bs = "s3") then
        match BlobStorage_S3 bs with Some s3 => emit (s3Env s3) cfg | None => cfg end
      else if decide (BlobStorage_Provider bs = "azure") then
        match BlobStorage_Azure bs with Some az => emit (azureEnv az) cfg | None => cfg end
      else if decide (BlobStorage_Provider bs = "gcs") then
        match BlobStorage_GCS bs with Some gcs => emit (gcsEnv gcs) cfg | None => cfg end
      else cfg
  end.

Definition llmEnv (llm : LLMSpec) : list EnvVar :=
  opt_env (nonempty (LLM_APIBase llm)) (envVar "LLM_API_BASE" (LLM_APIBase llm)) ++
  (match LLM_APIKey llm with Some r => [envFromRef "LLM_API_KEY" r] | None => [] end) ++
  opt_env (nonempty (LLM_Model llm)) (envVar "LLM_MODEL" (LLM_Model llm)).

Definition telemetryDisabled (i : LangfuseInstance) : bool :=
  bool_decide (((Spec_Security (Instance_Spec i) ≫= Security_Telemetry) ≫= Telemetry_Enabled) = Some false).

Definition otelEnv (i : LangfuseInstance) : list EnvVar :=
  match Spec_Observability (Instance_Spec i) ≫= Observability_OTEL with
  | Some otel =>
      if OTEL_Enabled otel then
        [envVar "OTEL_EXPORTER_OTLP_ENDPOINT" (OTEL_Endpoint otel)] ++
        [envVar "OTEL_EXPORTER_OTLP_PROTOCOL" (OTEL_Protocol otel)]
      else []
  | None => []
  end.

Definition webEnv : list EnvVar :=
  [envVar "LANGFUSE_WORKER_ENABLED" "false";
   envVar "PORT" "3000";
   envVar "HOSTNAME" "0.0.0.0";
   envVar "LANGFUSE_AUTO_POSTGRES_MIGRATION_DISABLED" "true";
   envVar "LANGFUSE_AUTO_CLICKHOUSE_MIGRATION_DISABLED" "true"].

Definition workerEnv (i : LangfuseInstance) : list EnvVar :=
  let concurrency := default 10%Z (Worker_Concurrency (Spec_Worker (Instance_Spec i))) in
  [envVar "LANGFUSE_WORKER_ENABLED" "true";
   envVar "LANGFUSE_WORKER_CONCURRENCY" (itoa concurrency);
   envVar "LANGFUSE_AUTO_POSTGRES_MIGRATION_DISABLED" "true";
   envVar "LANGFUSE_AUTO_CLICKHOUSE_MIGRATION_DISABLED" "true"].

Definition BuildConfig (i : LangfuseInstance) : result Config :=
  (let cfg := addAuthEnv zero_Config i in
   let '(cfg, trustedCAPath) := addTrustedCAEnv cfg i in
   try cfg := addDatabaseEnv cfg i trustedCAPath in
   try cfg := addClickHouseEnv cfg i in
   try cfg := addRedisEnv cfg i trustedCAPath in
   let cfg := addBlobStorageEnv cfg i in
   let cfg := emit (match Spec_LLM (Instance_Spec i) with Some llm => llmEnv llm | None => [] end) cfg in
   let cfg := emit (opt_env (telemetryDisabled i) (envVar "TELEMETRY_ENABLED" "false")) cfg in
   let cfg := emit (otelEnv i) cfg in
   let cfg := emitWeb webEnv cfg in
   Ok (emitWorker (workerEnv i) cfg))%go.

(** ** Properties *)

(** *** How a builder extends a Config

    [extends a b L V]: [b] is [a] with environment variables appended whose
    names, in order, are among [L], and volumes whose names are among [V], each
    volume with its read-only mount. *)

Definition mount_matches (v : Volume) (m : VolumeMount) : Prop :=
  vm_Name m = vol_Name v ∧ vm_ReadOnly m = true.

Record extends (a b : Config) (L V : list string) : Prop := {
  ext_env : ∃ es, CommonEnv b = CommonEnv a ++ es ∧ (env_Name <$> es) ⊆+ L;
  ext_web : WebEnv b = WebEnv a;
  ext_worker : WorkerEnv b = WorkerEnv a;
  ext_vol : ∃ vs ms, Volumes b = Volumes a ++ vs ∧ VolumeMounts b = VolumeMounts a ++ ms ∧
              Forall2 mount_matches vs ms ∧ (vol_Name <$> vs) ⊆+ V
}.

Lemma extends_refl a L V : extends a a L V.
Proof.
  split; [exists []|done|done|exists [], []]; rewrite ?app_nil_r;
    repeat split; auto using submseteq_nil_l.
Qed.

Lemma extends_env a b L V e : extends a b L V → e ∈ CommonEnv a → e ∈ CommonEnv b.
Proof. intros [(es & -> & _) _ _ _] He. apply elem_of_app. by left. Qed.

Lemma emit_env es c e : e ∈ CommonEnv (emit es c) ↔ e ∈ CommonEnv c ∨ e ∈ es.
Proof. apply elem_of_app. Qed.

Lemma extends_emit a es L V : (env_Name <$> es) ⊆+ L → extends a (emit es a) L V.
Proof.
  split; cbn; [by exists es|done|done|exists [], []]; rewrite ?app_nil_r;
    repeat split; auto using submseteq_nil_l.
Qed.

Lemma extends_mount a n s p items L V :
  [n] ⊆+ V → extends a (mountSecret n s p items a) L V.
Proof.
  split; cbn; [exists []; rewrite app_nil_r; split; auto using submseteq_nil_l|done|done|].
  eexists [_], [_]. repeat split; [by repeat constructor|done].
Qed.

Lemma extends_trans a b c L1 L2 V1 V2 :
  extends a b L1 V1 → extends b c L2 V2 → extends a c (L1 ++ L2) (V1 ++ V2).
Proof.
  intros [(e1 & E1 & S1) W1 K1 (v1 & m1 & Ev1 & Em1 & F1 & T1)]
         [(e2 & E2 & S2) W2 K2 (v2 & m2 & Ev2 & Em2 & F2 & T2)].
  split; [|congruence|congruence|].
  - exists (e1 ++ e2). rewrite E2, E1, app_assoc. split; [done|].
    rewrite fmap_app. by apply submseteq_app.
  - exists (v1 ++ v2), (m1 ++ m2). rewrite Ev2, Ev1, Em2, Em1, !app_assoc.
    repeat split; [by apply Forall2_app|]. rewrite fmap_app. by apply submseteq_app.
Qed.

Lemma extends_then_emit a b es L1 L2 V :
  extends a b L1 V → (env_Name <$> es) ⊆+ L2 → extends a (emit es b) (L1 ++ L2) V.
Proof.
  intros H1 H2. rewrite <- (app_nil_r V). eapply extends_trans; [exact H1|].
  by apply extends_emit.
Qed.

Lemma extends_mono a b L L' V V' :
  extends a b L V → L ⊆+ L' → V ⊆+ V' → extends a b L' V'.
Proof.
  intros [(e & E & S) W K (v & m & Ev & Em & F & T)] HL HV.
  split; [exists e; split; [done|by etrans]|done|done|].
  exists v, m. repeat split; [done..|by etrans].
Qed.

(** Closes [l ⊆+ L] on literal lists. *)
Ltac solve_literal := apply (bool_decide_unpack _); vm_compute; exact I.
Ltac solve_sublist :=
  cbn; apply sublist_submseteq;
  repeat first [ apply sublist_nil | apply sublist_skip | apply sublist_cons ].

(** Decides the tests of one block of optional variables. *)
Ltac solve_block :=
  unfold opt_env, env_secret_value; cbn;
  repeat first [ progress cbn | case_match ]; solve_sublist.

Definition authNames : list string :=
  ["NEXTAUTH_URL"] ++ ["NEXTAUTH_SECRET"] ++ ["SALT"] ++ ["ADMIN_API_KEY"] ++
  ["LANGFUSE_EE_LICENSE_KEY"] ++ ["AUTH_DISABLE_USERNAME_PASSWORD"; "AUTH_DISABLE_SIGNUP"] ++
  ["AUTH_CUSTOM_CLIENT_ID"; "AUTH_CUSTOM_CLIENT_SECRET"; "AUTH_CUSTOM_ISSUER";
   "AUTH_CUSTOM_NAME"; "AUTH_CUSTOM_SCOPE"; "AUTH_DOMAINS_WITH_SSO_ENFORCEMENT"] ++
  ["LANGFUSE_INIT_USER_EMAIL"; "LANGFUSE_INIT_USER_PASSWORD"; "LANGFUSE_INIT_ORG_NAME";
   "LANGFUSE_INIT_PROJECT_NAME"].

Lemma addAuthEnv_extends cfg i : extends cfg (addAuthEnv cfg i) authNames [].
Proof.
  unfold addAuthEnv, authNames, oidcEnv, initUserEnv, emailPasswordEnv. rewrite !app_assoc.
  repeat apply extends_then_emit; [apply extends_emit|..]; solve_block.
Qed.

Definition databaseNames : list string :=
  ["DATABASE_URL_BASE"] ++ ["DATABASE_URL"] ++ ["DIRECT_URL_BASE"] ++ ["DIRECT_URL"].
Definition clickHouseNames : list string :=
  ["CLICKHOUSE_CLUSTER_ENABLED"] ++ ["CLICKHOUSE_DB"] ++ ["CLICKHOUSE_URL"] ++
  ["CLICKHOUSE_MIGRATION_URL"] ++ ["CLICKHOUSE_USER"] ++ ["CLICKHOUSE_PASSWORD"] ++
  ["CLICKHOUSE_MIGRATION_SSL"].
Definition redisNames : list string :=
  ["REDIS_HOST"; "REDIS_PORT"] ++ ["REDIS_AUTH"] ++ ["REDIS_TLS_ENABLED"] ++
  ["REDIS_TLS_CA_PATH"] ++ ["REDIS_TLS_CERT_PATH"; "REDIS_TLS_KEY_PATH"] ++ ["REDIS_TLS_SERVERNAME"].
Definition blobNames : list string :=
  ["LANGFUSE_S3_EVENT_UPLOAD_ENABLED"; "LANGFUSE_USE_AZURE_BLOB";
   "LANGFUSE_USE_GOOGLE_CLOUD_STORAGE"; "LANGFUSE_S3_EVENT_UPLOAD_BUCKET";
   "LANGFUSE_S3_EVENT_UPLOAD_REGION"; "LANGFUSE_S3_EVENT_UPLOAD_ENDPOINT";
   "LANGFUSE_S3_EVENT_UPLOAD_FORCE_PATH_STYLE"; "LANGFUSE_S3_EVENT_UPLOAD_ACCESS_KEY_ID";
   "LANGFUSE_S3_EVENT_UPLOAD_SECRET_ACCESS_KEY"; "LANGFUSE_GOOGLE_CLOUD_STORAGE_CREDENTIALS"].

Lemma addTrustedCAEnv_extends cfg i :
  extends cfg (addTrustedCAEnv cfg i).1 ["NODE_EXTRA_CA_CERTS"] ["langfuse-trusted-ca"].
Proof.
  unfold addTrustedCAEnv. destruct (_ ≫= _); [|apply extends_refl]. cbn.
  apply (extends_then_emit _ _ _ []); [by apply extends_mount|done].
Qed.

Lemma postgresTLSQuery_extends tls path cfg :
  extends cfg (postgresTLSQuery tls path cfg).2 [] ["langfuse-postgres-ca"].
Proof.
  unfold postgresTLSQuery. destruct (decide _); [apply extends_refl|].
  destruct (DatabaseTLS_CASecretRef tls); [by apply extends_mount|apply extends_refl].
Qed.

Lemma addDatabaseEnv_extends cfg i path cfg' :
  addDatabaseEnv cfg i path = Ok cfg' → extends cfg cfg' databaseNames ["langfuse-postgres-ca"].
Proof.
  unfold addDatabaseEnv.
  destruct (Spec_Database _) as [db|]; [|intros [= <-]; apply extends_refl].
  destruct (Database_Managed db); [done|].
  destruct (Database_CloudNativePG db).
  { intros [= <-]. apply extends_emit. solve_block. }
  destruct (Database_External db) as [ext|]; [|intros [= <-]; apply extends_refl].
  cbv zeta. destruct (ExternalDatabase_TLS ext) as [tls|].
  - pose proof (postgresTLSQuery_extends tls path cfg) as Hq.
    destruct (postgresTLSQuery tls path cfg) as [q cfg1]. intros [= <-].
    eapply extends_mono with (L := ((([] ++ ["DATABASE_URL_BASE"]) ++ ["DATABASE_URL"]) ++
      ["DIRECT_URL_BASE"]) ++ ["DIRECT_URL"]); [|solve_literal|done].
    repeat apply extends_then_emit; [apply Hq|solve_block..].
  - intros [= <-]. eapply extends_mono with (L := ["DATABASE_URL"] ++ ["DIRECT_URL"]);
      [|solve_literal|apply submseteq_nil_l].
    apply extends_then_emit; [apply extends_emit|]; solve_block.
Qed.

Lemma addClickHouseEnv_extends cfg i cfg' :
  addClickHouseEnv cfg i = Ok cfg' → extends cfg cfg' clickHouseNames [].
Proof.
  unfold addClickHouseEnv.
  destruct (Spec_ClickHouse _) as [ch|]; [|intros [= <-]; apply extends_refl].
  destruct (_ && _); [done|]. cbv zeta. destruct (ClickHouse_Managed ch) as [m|].
  - intros [= <-].
    eapply extends_mono with (L := ((["CLICKHOUSE_CLUSTER_ENABLED"] ++ ["CLICKHOUSE_DB"]) ++
      ["CLICKHOUSE_USER"; "CLICKHOUSE_PASSWORD"]) ++ ["CLICKHOUSE_URL"] ++
      ["CLICKHOUSE_MIGRATION_URL"]); [|solve_literal|done].
    rewrite app_assoc.
    apply extends_then_emit; [apply extends_then_emit; [destruct (_ ≫= _)|]|].
    1,2: apply extends_then_emit; [apply extends_then_emit; [apply extends_emit|]|].
    all: solve_block.
  - destruct (ClickHouse_External ch) as [ext|]; intros [= <-].
    + eapply extends_mono with (L := (((((["CLICKHOUSE_CLUSTER_ENABLED"] ++ ["CLICKHOUSE_DB"]) ++
        ["CLICKHOUSE_URL"]) ++ ["CLICKHOUSE_MIGRATION_URL"]) ++ ["CLICKHOUSE_USER"]) ++
        ["CLICKHOUSE_PASSWORD"]) ++ ["CLICKHOUSE_MIGRATION_SSL"]); [|solve_literal|done].
      repeat apply extends_then_emit; [apply extends_emit|..]; solve_block.
    + eapply extends_mono with (L := ["CLICKHOUSE_CLUSTER_ENABLED"] ++ ["CLICKHOUSE_DB"]);
        [|solve_literal|done].
      apply extends_then_emit; [apply extends_emit|]; solve_block.
Qed.

Lemma addRedisTLSEnv_extends cfg tls path cfg' :
  addRedisTLSEnv cfg tls path = Ok cfg' →
  extends cfg cfg' ["REDIS_TLS_ENABLED"; "REDIS_TLS_CA_PATH"; "REDIS_TLS_CERT_PATH";
                    "REDIS_TLS_KEY_PATH"; "REDIS_TLS_SERVERNAME"]
    ["langfuse-redis-ca"; "langfuse-redis-client"].
Proof.
  unfold addRedisTLSEnv. destruct (negb _).
  { destruct (_ || _); [done|]. intros [= <-]. apply extends_refl. }
  cbv zeta. set (cfg1 := emit _ cfg).
  assert (extends cfg cfg1 ["REDIS_TLS_ENABLED"] []) as H1 by (apply extends_emit; solve_block).
  set (r := match RedisTLS_CASecretRef tls with Some _ => _ | None => _ end).
  assert (extends cfg1 r.2 [] ["langfuse-redis-ca"]) as H2.
  { subst r. destruct (RedisTLS_CASecretRef tls); [by apply extends_mount|apply extends_refl]. }
  destruct r as [caPath cfg2]. cbn [snd] in H2. set (cfg3 := emit _ cfg2).
  assert (extends cfg2 cfg3 ["REDIS_TLS_CA_PATH"] []) as H3 by (apply extends_emit; solve_block).
  set (cfg4 := match RedisTLS_ClientCertSecretRef tls with Some _ => _ | None => _ end).
  assert (extends cfg3 cfg4 ["REDIS_TLS_CERT_PATH"; "REDIS_TLS_KEY_PATH"] ["langfuse-redis-client"]) as H4.
  { subst cfg4. destruct (RedisTLS_ClientCertSecretRef tls); [|apply extends_refl].
    apply (extends_then_emit _ _ _ []); [by apply extends_mount|solve_block]. }
  intros [= <-].
  eapply extends_mono with (L := ((["REDIS_TLS_ENABLED"] ++ []) ++ ["REDIS_TLS_CA_PATH"] ++
    ["REDIS_TLS_CERT_PATH"; "REDIS_TLS_KEY_PATH"]) ++ ["REDIS_TLS_SERVERNAME"])
    (V := ([] ++ ["langfuse-redis-ca"]) ++ [] ++ ["langfuse-redis-client"]); [|solve_literal..].
  apply extends_then_emit; [|solve_block].
  eapply extends_trans; [eapply extends_trans; [exact H1|exact H2]|].
  eapply extends_trans; [exact H3|exact H4].
Qed.

Lemma addRedisEnv_extends cfg i path cfg' :
  addRedisEnv cfg i path = Ok cfg' →
  extends cfg cfg' redisNames ["langfuse-redis-ca"; "langfuse-redis-client"].
Proof.
  unfold addRedisEnv.
  destruct (Spec_Redis _) as [r|]; [|intros [= <-]; apply extends_refl].
  destruct (Redis_Managed r).
  { intros [= <-]. apply extends_emit. solve_block. }
  destruct (Redis_External r) as [ext|]; [|intros [= <-]; apply extends_refl].
  cbv zeta. set (cfg1 := emit _ (emit _ cfg)).
  assert (extends cfg cfg1 (["REDIS_HOST"; "REDIS_PORT"] ++ ["REDIS_AUTH"]) []) as H1.
  { apply extends_then_emit; [apply extends_emit|]; solve_block. }
  destruct (ExternalRedis_TLS ext) as [tls|].
  - intros Ht%addRedisTLSEnv_extends.
    eapply extends_mono; [exact (extends_trans _ _ _ _ _ _ _ H1 Ht)|solve_literal|solve_literal].
  - intros [= <-].
    eapply extends_mono with (L := (["REDIS_HOST"; "REDIS_PORT"] ++ ["REDIS_AUTH"]) ++ ["REDIS_TLS_ENABLED"]);
      [|solve_literal|apply submseteq_nil_l].
    apply extends_then_emit; [exact H1|solve_block].
Qed.

Lemma addBlobStorageEnv_extends cfg i : extends cfg (addBlobStorageEnv cfg i) blobNames [].
Proof.
  unfold addBlobStorageEnv. destruct (Spec_BlobStorage _) as [bs|]; [|apply extends_refl].
  repeat case_decide; (case_match; [|apply extends_refl]) || apply extends_refl;
    apply extends_emit; unfold s3Env, azureEnv, gcsEnv; solve_block.
Qed.

Definition tailNames : list string :=
  ["LLM_API_BASE"; "LLM_API_KEY"; "LLM_MODEL"] ++ ["TELEMETRY_ENABLED"] ++
  ["OTEL_EXPORTER_OTLP_ENDPOINT"; "OTEL_EXPORTER_OTLP_PROTOCOL"].

(** Every name the common environment can hold, and every volume. *)
Definition commonNames : list string :=
  authNames ++ ["NODE_EXTRA_CA_CERTS"] ++ databaseNames ++ clickHouseNames ++ redisNames ++
  blobNames ++ tailNames.
Definition volumeNames : list string :=
  ["langfuse-trusted-ca"; "langfuse-postgres-ca"; "langfuse-redis-ca"; "langfuse-redis-client"].

Lemma BuildConfig_inv i cfg :
  BuildConfig i = Ok cfg →
  ∃ cfg0, extends zero_Config cfg0 commonNames volumeNames ∧
    cfg = emitWorker (workerEnv i) (emitWeb webEnv cfg0).
Proof.
  unfold BuildConfig. pose proof (addAuthEnv_extends zero_Config i) as H1.
  set (cfg1 := addAuthEnv zero_Config i) in *.
  pose proof (addTrustedCAEnv_extends cfg1 i) as H2.
  destruct (addTrustedCAEnv cfg1 i) as [cfg2 path]. cbn [fst] in H2.
  destruct (addDatabaseEnv cfg2 i path) as [cfg3|] eqn:H3; [|done]. cbn [result_bind].
  destruct (addClickHouseEnv cfg3 i) as [cfg4|] eqn:H4; [|done]. cbn [result_bind].
  destruct (addRedisEnv cfg4 i path) as [cfg5|] eqn:H5; [|done]. cbn [result_bind].
  apply addDatabaseEnv_extends in H3. apply addClickHouseEnv_extends in H4.
  apply addRedisEnv_extends in H5. pose proof (addBlobStorageEnv_extends cfg5 i) as H6.
  set (cfg6 := addBlobStorageEnv cfg5 i) in *. intros [= <-].
  eexists. split; [|reflexivity].
  assert (∀ a b c L V L' V', extends a b L V → extends b c L' V' →
    extends a c (L ++ L') (V ++ V')) as T by eauto using extends_trans.
  eapply extends_mono with (L := (((((((authNames ++ ["NODE_EXTRA_CA_CERTS"]) ++ databaseNames) ++
    clickHouseNames) ++ redisNames) ++ blobNames) ++ ["LLM_API_BASE"; "LLM_API_KEY"; "LLM_MODEL"]) ++
    ["TELEMETRY_ENABLED"]) ++ ["OTEL_EXPORTER_OTLP_ENDPOINT"; "OTEL_EXPORTER_OTLP_PROTOCOL"])
    (V := ((([] ++ ["langfuse-trusted-ca"]) ++ ["langfuse-postgres-ca"]) ++ []) ++
          (["langfuse-redis-ca"; "langfuse-redis-client"] ++ []));
    [|unfold commonNames, tailNames; by rewrite <- !app_assoc|solve_literal].
  repeat apply extends_then_emit; [|unfold otelEnv, llmEnv; solve_block..].
  rewrite app_assoc. eauto 8 using T.
Qed.

(** The stages that name the stores, within the whole. *)
Lemma BuildConfig_stages i cfg :
  BuildConfig i = Ok cfg →
  ∃ c2 c3 c4 path, addClickHouseEnv c2 i = Ok c3 ∧ addRedisEnv c3 i path = Ok c4 ∧
    CommonEnv c3 ⊆ CommonEnv c4 ∧ CommonEnv c4 ⊆ CommonEnv cfg.
Proof.
  intros Hcfg. unfold BuildConfig in Hcfg. cbv zeta in Hcfg.
  destruct (addTrustedCAEnv _ i) as [c1 path].
  destruct (addDatabaseEnv c1 i path) as [c2|]; [|done]. cbn [result_bind] in Hcfg.
  destruct (addClickHouseEnv c2 i) as [c3|] eqn:E3; [|done]. cbn [result_bind] in Hcfg.
  destruct (addRedisEnv c3 i path) as [c4|] eqn:E4; [|done]. cbn [result_bind] in Hcfg.
  exists c2, c3, c4, path. split_and!; [done..| |].
  - intros e He. apply addRedisEnv_extends in E4. eapply extends_env; [exact E4|done].
  - intros e He. pose proof (addBlobStorageEnv_extends c4 i) as E5. injection Hcfg as <-.
    cbn [emitWorker emitWeb CommonEnv]. rewrite !emit_env. left; left; left. eapply extends_env; [exact E5|done].
Qed.

Lemma submseteq_NoDup {A} (l k : list A) : l ⊆+ k → NoDup k → NoDup l.
Proof.
  intros [k' Hk]%submseteq_Permutation. rewrite Hk. by intros [? _]%NoDup_app.
Qed.

(** The names of the common environment are distinct, also from those of the tails. *)
Lemma common_names_NoDup i cfg ns :
  BuildConfig i = Ok cfg → NoDup (commonNames ++ ns) → NoDup ((env_Name <$> CommonEnv cfg) ++ ns).
Proof.
  intros (cfg0 & [(es & E & S) _ _ _] & ->)%BuildConfig_inv.
  cbn [emitWorker emitWeb CommonEnv zero_Config app] in *. rewrite E.
  apply submseteq_NoDup. by apply submseteq_skips_r.
Qed.

(** C40: [BuildConfig] gives the Web and the Worker pods environments in which no
    variable is set twice, and volumes of distinct names, each with exactly its
    read-only mount. *)
Theorem config_env_wf i cfg :
  BuildConfig i = Ok cfg →
  NoDup (env_Name <$> CommonEnv cfg ++ WebEnv cfg) ∧
  NoDup (env_Name <$> CommonEnv cfg ++ WorkerEnv cfg) ∧
  NoDup (vol_Name <$> Volumes cfg) ∧
  Forall2 mount_matches (Volumes cfg) (VolumeMounts cfg).
Proof.
  intros Hcfg. pose proof (λ ns, common_names_NoDup i cfg ns Hcfg) as HN.
  apply BuildConfig_inv in Hcfg as (cfg0 & [_ Hw Hk (vs & ms & Ev & Em & F & T)] & ->).
  cbn in *. rewrite Hw, Hk, Ev, Em. cbn [app]. rewrite !fmap_app. repeat split.
  - apply HN. apply (bool_decide_unpack _). vm_compute. exact I.
  - apply HN. apply (bool_decide_unpack _). vm_compute. exact I.
  - eapply submseteq_NoDup; [exact T|]. apply (bool_decide_unpack _). vm_compute. exact I.
  - exact F.
Qed.

(** The specs [BuildConfig] refuses. *)
Definition redis_tls_misconfigured (r : RedisSpec) : Prop :=
  Redis_Managed r = None ∧
  ∃ ext tls, Redis_External r = Some ext ∧ ExternalRedis_TLS ext = Some tls ∧
    RedisTLS_Enabled tls = false ∧
    (is_Some (RedisTLS_CASecretRef tls) ∨ is_Some (RedisTLS_ClientCertSecretRef tls)).

Definition config_rejected (i : LangfuseInstance) : Prop :=
  (∃ db, Spec_Database (Instance_Spec i) = Some db ∧ is_Some (Database_Managed db)) ∨
  (∃ ch, Spec_ClickHouse (Instance_Spec i) = Some ch ∧ is_Some (ClickHouse_Managed ch) ∧
     ClusterEnabled (Some ch) = true) ∨
  (∃ r, Spec_Redis (Instance_Spec i) = Some r ∧ redis_tls_misconfigured r).

Lemma addDatabaseEnv_Err cfg i path :
  is_ok (addDatabaseEnv cfg i path) = false ↔
  ∃ db, Spec_Database (Instance_Spec i) = Some db ∧ is_Some (Database_Managed db).
Proof.
  unfold addDatabaseEnv. destruct (Spec_Database _) as [db|]; [|naive_solver].
  assert (is_Some (Database_Managed db) ↔
    ∃ d, Some db = Some d ∧ is_Some (Database_Managed d)) as <- by naive_solver.
  destruct (Database_Managed db); [naive_solver|].
  rewrite is_Some_alt. destruct (Database_CloudNativePG db); [naive_solver|].
  destruct (Database_External db) as [ext|]; [|naive_solver].
  cbv zeta. destruct (ExternalDatabase_TLS ext); [|naive_solver].
  destruct (postgresTLSQuery _ _ _). naive_solver.
Qed.

Lemma addClickHouseEnv_Err cfg i :
  is_ok (addClickHouseEnv cfg i) = false ↔
  ∃ ch, Spec_ClickHouse (Instance_Spec i) = Some ch ∧ is_Some (ClickHouse_Managed ch) ∧
    ClusterEnabled (Some ch) = true.
Proof.
  unfold addClickHouseEnv. destruct (Spec_ClickHouse _) as [ch|]; [|naive_solver].
  cbv zeta. destruct (_ && _) eqn:E.
  - to_prop. naive_solver.
  - split.
    + destruct (ClickHouse_Managed ch); [|destruct (ClickHouse_External ch)]; done.
    + intros (ch' & [= <-] & Hm & Hc). rewrite bool_decide_true in E by done. by rewrite Hc in E.
Qed.

Lemma addRedisTLSEnv_Err cfg tls path :
  is_ok (addRedisTLSEnv cfg tls path) = false ↔
  RedisTLS_Enabled tls = false ∧
  (is_Some (RedisTLS_CASecretRef tls) ∨ is_Some (RedisTLS_ClientCertSecretRef tls)).
Proof.
  unfold addRedisTLSEnv. destruct (RedisTLS_Enabled tls); cbn [negb].
  - cbv zeta. destruct (RedisTLS_CASecretRef tls); cbn; naive_solver.
  - do 2 case_bool_decide; cbn; naive_solver.
Qed.

Lemma addRedisEnv_Err cfg i path :
  is_ok (addRedisEnv cfg i path) = false ↔
  ∃ r, Spec_Redis (Instance_Spec i) = Some r ∧ redis_tls_misconfigured r.
Proof.
  unfold addRedisEnv, redis_tls_misconfigured.
  destruct (Spec_Redis _) as [r|]; [|naive_solver].
  destruct (Redis_Managed r) eqn:Em; [naive_solver|].
  destruct (Redis_External r) as [ext|] eqn:Ee; [|naive_solver].
  cbv zeta. destruct (ExternalRedis_TLS ext) as [tls|] eqn:Et; [|naive_solver].
  rewrite addRedisTLSEnv_Err. naive_solver.
Qed.

(** [BuildConfig] fails exactly on the specs the operator does not support:
    a managed database, clustering over a managed ClickHouse, or Redis TLS
    material given with TLS switched off; every other spec has a Config. *)
Theorem config_error_iff i :
  (∃ e, BuildConfig i = Err e) ↔ config_rejected i.
Proof.
  trans (is_ok (BuildConfig i) = false); [destruct (BuildConfig i); cbn; naive_solver|].
  unfold BuildConfig, config_rejected. cbv zeta.
  destruct (addTrustedCAEnv _ i) as [cfg path].
  pose proof (addDatabaseEnv_Err cfg i path) as H1.
  destruct (addDatabaseEnv cfg i path) as [cfg2|]; cbn [result_bind is_ok] in *; [|naive_solver].
  pose proof (addClickHouseEnv_Err cfg2 i) as H2.
  destruct (addClickHouseEnv cfg2 i) as [cfg3|]; cbn [result_bind is_ok] in *; [|naive_solver].
  pose proof (addRedisEnv_Err cfg3 i path) as H3.
  destruct (addRedisEnv cfg3 i path) as [cfg4|]; cbn [result_bind is_ok] in *; [|naive_solver].
  assert (true ≠ false) by done. naive_solver.
Qed.

(** ** Witnesses *)

(** The configuration of the example instance. *)
Definition ex_config : Config :=
  match BuildConfig (ex_instance "3.1" "pg" "db") with Ok cfg => cfg | Err _ => zero_Config end.

Lemma config_env_wf_witness :
  BuildConfig (ex_instance "3.1" "pg" "db") = Ok ex_config ∧
  NoDup (env_Name <$> CommonEnv ex_config ++ WebEnv ex_config).
Proof.
  assert (BuildConfig (ex_instance "3.1" "pg" "db") = Ok ex_config) as Hcfg by reflexivity.
  split; [exact Hcfg|]. apply (config_env_wf _ _ Hcfg).
Defined.
