(* ===== verification/Resources.v ===== *)
(** * Resource builders ([internal/resources])

    Names and labels, the Web and Worker Deployments, and the migration Job. *)

From S2P Require Import Prelude GoStd KubeTypes ApiTypes Config.

Open Scope string_scope.
Open Scope list_scope.

(** ** labels.go *)

Definition CommonLabels (i : LangfuseInstance) (component : string) : gmap string string :=
  let name := om_Name (Instance_ObjectMeta i) in
  list_to_map [
    ("app.kubernetes.io/name", "langfuse");
    ("app.kubernetes.io/instance", name);
    ("app.kubernetes.io/component", component);
    ("app.kubernetes.io/managed-by", "langfuse-operator");
    ("app.kubernetes.io/part-of", "langfuse");
    ("langfuse.palena.ai/instance", name)].

Definition SelectorLabels (i : LangfuseInstance) (component : string) : gmap string string :=
  list_to_map [
    ("app.kubernetes.io/name", "langfuse");
    ("app.kubernetes.io/instance", om_Name (Instance_ObjectMeta i));
    ("app.kubernetes.io/component", component)].

Definition WebName (i : LangfuseInstance) : string := om_Name (Instance_ObjectMeta i) +:+ "-web".
Definition WorkerName (i : LangfuseInstance) : string := om_Name (Instance_ObjectMeta i) +:+ "-worker".
Definition WebServiceName (i : LangfuseInstance) : string := om_Name (Instance_ObjectMeta i) +:+ "-web".
Definition MigrationJobName (i : LangfuseInstance) : string := om_Name (Instance_ObjectMeta i) +:+ "-migrate".

(** The key of an object of this name in the instance's namespace. *)
Definition in_ns (i : LangfuseInstance) (name : string) : NamespacedName :=
  mkKey (om_Namespace (Instance_ObjectMeta i)) name.

Definition child_meta (i : LangfuseInstance) (name : string) (labels : gmap string string) : ObjectMeta :=
  mkObjectMeta name (om_Namespace (Instance_ObjectMeta i)) labels ∅ [] 0 None [].

(** ** web_deployment.go: shared pieces *)

(** [nil] (here [None]) leaves the replica count to another controller. *)
Definition ownedReplicas (configured : option Z) (autoscaling : option AutoscalingSpec)
    (relinquish : bool) : option Z :=
  if relinquish || (match autoscaling with Some a => Autoscaling_Enabled a | None => false end)
  then None
  else Some (default 1 configured).

Definition containerImage (i : LangfuseInstance) : string :=
  let img := Spec_Image (Instance_Spec i) in
  or_default (Image_Repository img) "langfuse/langfuse" +:+ ":" +:+ Image_Tag img.

Definition workerContainerImage (i : LangfuseInstance) : string :=
  let tag := Image_Tag (Spec_Image (Instance_Spec i)) in
  let '(repo, tag) :=
    match Worker_Image (Spec_Worker (Instance_Spec i)) with
    | Some img =>
        (or_default (WorkerImage_Repository img) "langfuse/langfuse-worker",
         or_default (WorkerImage_Tag img) tag)
    | None => ("langfuse/langfuse-worker", tag)
    end in
  repo +:+ ":" +:+ tag.

Definition httpProbe (path : string) (port initialDelay period failureThreshold : Z) : Probe :=
  mkProbe (HTTPGetHandler path port) initialDelay period failureThreshold.

Definition containerSecurityContext (s : SecuritySpec) : SecurityContext :=
  mkSecurityContext (Security_ReadOnlyRootFilesystem s) (Security_RunAsNonRoot s) (Security_RunAsUser s).

Definition resourceRequirements (r : option ResourceRequirements) : CoreResources :=
  match r with
  | None => zero_CoreResources
  | Some r => mkCoreResources (ResourceRequirements_Requests r) (ResourceRequirements_Limits r)
  end.

(** [mergeEnv], [mergeVolumes] and [mergeVolumeMounts]. *)
Definition mergeEnv (envSets : list (list EnvVar)) : list EnvVar := mjoin envSets.
Definition mergeVolumes (sets : list (list Volume)) : list Volume := mjoin sets.
Definition mergeVolumeMounts (sets : list (list VolumeMount)) : list VolumeMount := mjoin sets.

Definition BuildWebDeployment (i : LangfuseInstance) (config : Config) : DeploymentObject :=
  let labels := CommonLabels i "web" in
  let web := Spec_Web (Instance_Spec i) in
  let container := mkContainer "langfuse-web" (containerImage i) [] []
    [mkContainerPort "http" 3000 "TCP"]
    (mergeEnv [CommonEnv config; WebEnv config; Web_ExtraEnv web])
    (mergeVolumeMounts [VolumeMounts config; Web_ExtraVolumeMounts web])
    (resourceRequirements (Web_Resources web))
    (Some (httpProbe "/api/public/health" 3000 30 10 3))
    (Some (httpProbe "/api/public/health" 3000 5 10 3))
    (containerSecurityContext <$> Spec_Security (Instance_Spec i)) in
  let podSpec := mkPodSpec [] [container]
    (mergeVolumes [Volumes config; Web_ExtraVolumes web]) ""
    (Web_NodeSelector web) (Web_Tolerations web) (Web_Affinity web)
    (Image_PullSecrets (Spec_Image (Instance_Spec i))) in
  mkDeploymentObject (child_meta i (WebName i) labels)
    (ownedReplicas (Web_Replicas web) (Web_Autoscaling web) false)
    (SelectorLabels i "web")
    (mkPodTemplate labels podSpec).

(** ** worker_deployment.go *)

Definition circuitBreakerHoldsWorker (i : LangfuseInstance) : bool :=
  match Status_Worker (Instance_Status i) with
  | Some w => WorkerStatus_CircuitBreakerActive w
  | None => false
  end.

Definition BuildWorkerDeployment (i : LangfuseInstance) (config : Config) : DeploymentObject :=
  let labels := CommonLabels i "worker" in
  let worker := Spec_Worker (Instance_Spec i) in
  let container := mkContainer "langfuse-worker" (workerContainerImage i) [] [] []
    (mergeEnv [CommonEnv config; WorkerEnv config; Worker_ExtraEnv worker])
    (mergeVolumeMounts [VolumeMounts config; Worker_ExtraVolumeMounts worker])
    (resourceRequirements (Worker_Resources worker))
    (Some (mkProbe (ExecHandler ["node"; "-e"; "process.exit(0)"]) 30 30 3))
    None
    (containerSecurityContext <$> Spec_Security (Instance_Spec i)) in
  let podSpec := mkPodSpec [] [container]
    (mergeVolumes [Volumes config; Worker_ExtraVolumes worker]) ""
    (Worker_NodeSelector worker) (Worker_Tolerations worker) (Worker_Affinity worker)
    (Image_PullSecrets (Spec_Image (Instance_Spec i))) in
  mkDeploymentObject (child_meta i (WorkerName i) labels)
    (ownedReplicas (Worker_Replicas worker) (Worker_Autoscaling worker) (circuitBreakerHoldsWorker i))
    (SelectorLabels i "worker")
    (mkPodTemplate labels podSpec).

(** ** migration_job.go *)

Definition dbWaitImage : string := "busybox:1.36".

(** A double quote. *)
Definition dq : string := chr 34.

(** The shell script of the init container; its lines break where it does. *)
Definition waitForStoresScript : string :=
  "set -eu
wait_tcp() {
  host=" +:+ dq +:+
  "$1" +:+ dq +:+
  "; port=" +:+ dq +:+
  "$2" +:+ dq +:+
  "; label=" +:+ dq +:+
  "$3" +:+ dq +:+
  "
  echo " +:+ dq +:+
  "waiting for ${label} at ${host}:${port}" +:+ dq +:+
  "
  i=0
  until nc -z " +:+ dq +:+
  "$host" +:+ dq +:+
  " " +:+ dq +:+
  "$port" +:+ dq +:+
  " 2>/dev/null; do
    i=$((i+1))
    if [ " +:+ dq +:+
  "$i" +:+ dq +:+
  " -ge 150 ]; then
      echo " +:+ dq +:+
  "timed out after 5m waiting for ${label} at ${host}:${port}" +:+ dq +:+
  " >&2
      exit 1
    fi
    sleep 2
  done
  echo " +:+ dq +:+
  "${label} is reachable" +:+ dq +:+
  "
}

parse_hostport() {
  # $1 = URL, $2 = default port. Echoes " +:+ dq +:+
  "host port" +:+ dq +:+
  ".
  rest=" +:+ dq +:+
  "${1#*://}" +:+ dq +:+
  "      # strip scheme
  rest=" +:+ dq +:+
  "${rest##*@}" +:+ dq +:+
  "    # strip credentials (up to last @)
  hostport=" +:+ dq +:+
  "${rest%%/*}" +:+ dq +:+
  " # strip /path
  hostport=" +:+ dq +:+
  "${hostport%%\?*}" +:+ dq +:+
  " # strip ?query
  h=" +:+ dq +:+
  "${hostport%%:*}" +:+ dq +:+
  "
  p=" +:+ dq +:+
  "${hostport##*:}" +:+ dq +:+
  "
  if [ " +:+ dq +:+
  "$p" +:+ dq +:+
  " = " +:+ dq +:+
  "$h" +:+ dq +:+
  " ] || [ -z " +:+ dq +:+
  "$p" +:+ dq +:+
  " ]; then p=" +:+ dq +:+
  "$2" +:+ dq +:+
  "; fi
  echo " +:+ dq +:+
  "$h $p" +:+ dq +:+
  "
}

if [ -n " +:+ dq +:+
  "${DATABASE_URL:-}" +:+ dq +:+
  " ]; then
  set -- $(parse_hostport " +:+ dq +:+
  "$DATABASE_URL" +:+ dq +:+
  " 5432)
  wait_tcp " +:+ dq +:+
  "$1" +:+ dq +:+
  " " +:+ dq +:+
  "$2" +:+ dq +:+
  " PostgreSQL
fi

if [ -n " +:+ dq +:+
  "${CLICKHOUSE_URL:-}" +:+ dq +:+
  " ]; then
  set -- $(parse_hostport " +:+ dq +:+
  "$CLICKHOUSE_URL" +:+ dq +:+
  " 8123)
  wait_tcp " +:+ dq +:+
  "$1" +:+ dq +:+
  " " +:+ dq +:+
  "$2" +:+ dq +:+
  " ClickHouse
fi
".

Definition BuildMigrationJob (i : LangfuseInstance) (config : Config) : JobObject :=
  let labels := CommonLabels i "migration" in
  let init := mkContainer "wait-for-stores" dbWaitImage ["sh"; "-c"; waitForStoresScript] [] []
    (CommonEnv config) [] zero_CoreResources None None None in
  let main := mkContainer "langfuse-migrate" (containerImage i) [] ["true"] []
    (CommonEnv config) (VolumeMounts config) zero_CoreResources None None None in
  mkJobObject (child_meta i (MigrationJobName i) labels) (Some 3) (Some 3600)
    (mkPodTemplate labels
       (mkPodSpec [init] [main] (Volumes config) "Never" ∅ [] None [])).
