(* ===== verification/Stores.v ===== *)
(** * The managed stores ([internal/resources/clickhouse.go], [redis.go])

    The StatefulSets, Services and the ConfigMap of the single-node ClickHouse and
    Redis.  A storage size is parsed by [resource.MustParse], which panics on text
    that is not a quantity: a builder that parses the spec's is an [option]. *)

From S2P Require Import Prelude GoStd KubeTypes ApiTypes Config Resources.

Open Scope string_scope.
Open Scope list_scope.

(** [resource.ParseQuantity], to the canonical text: outside the program. *)
Class QuantityParser := { ParseQuantity : string → option string }.

(** Digits, with a binary or decimal suffix or none, for examples. *)
Definition simple_quantity (s : string) : bool :=
  match digits (take_until (λ c, negb (bool_decide (is_Some (digit_val c)))) s) with
  | Some _ => bool_decide (drop_while (λ c, bool_decide (is_Some (digit_val c))) s ∈
                           [""; "m"; "k"; "M"; "G"; "T"; "Ki"; "Mi"; "Gi"; "Ti"])
  | None => false
  end.
Definition simple_quantities : QuantityParser := {|
  ParseQuantity s := if simple_quantity s then Some s else None
|}.

(** ** clickhouse.go *)

Definition clickHouseImage : string := "clickhouse/clickhouse-server:24-alpine".
Definition clickHouseHTTPPort : Z := 8123.
Definition clickHouseNativePort : Z := 9000.
Definition clickHouseDataMount : string := "/var/lib/clickhouse".
Definition clickHouseConfigMount : string := "/etc/clickhouse-server/config.d".
Definition defaultClickHouseStorageSize : string := "10Gi".

Definition ClickHouseName (i : LangfuseInstance) : string :=
  om_Name (Instance_ObjectMeta i) +:+ "-clickhouse".

Definition clickHouseEnvVars (i : LangfuseInstance) (managed : ManagedClickHouseSpec) : list EnvVar :=
  let '(secretName, userKey, passwordKey) :=
    match ManagedClickHouse_Auth managed ≫= ClickHouseAuth_SecretRef with
    | Some ref =>
        (SecretKeysRef_Name ref,
         default "clickhouse-username" (SecretKeysRef_Keys ref !! "username"),
         default "clickhouse-password" (SecretKeysRef_Keys ref !! "password"))
    | None => (GeneratedSecretName i, "clickhouse-username", "clickhouse-password")
    end in
  [envFromSecret "CLICKHOUSE_USER" secretName userKey;
   envFromSecret "CLICKHOUSE_PASSWORD" secretName passwordKey].

Definition preset_resources (cpu memory : string) : CoreResources :=
  let l : gmap string string := list_to_map [("cpu", cpu); ("memory", memory)] in
  mkCoreResources l l.

Definition clickHousePreset (preset : string) : CoreResources :=
  if String.eqb preset "medium" then preset_resources "2" "8Gi"
  else if String.eqb preset "large" then preset_resources "4" "16Gi"
  else preset_resources "1" "2Gi".

Definition clickHouseResources (spec : option ClickHouseResourceSpec) : CoreResources :=
  match spec with
  | None => clickHousePreset "small"
  | Some spec =>
      match (if String.eqb (ClickHouseResource_Preset spec) "custom"
             then ClickHouseResource_Custom spec else None) with
      | Some custom =>
          mkCoreResources (ResourceRequirements_Requests custom) (ResourceRequirements_Limits custom)
      | None => clickHousePreset (or_default (ClickHouseResource_Preset spec) "small")
      end
  end.

Definition clickHouseContainer (i : LangfuseInstance) (managed : ManagedClickHouseSpec) : Container :=
  mkContainer "clickhouse" clickHouseImage [] []
    [mkContainerPort "http" clickHouseHTTPPort "TCP"; mkContainerPort "native" clickHouseNativePort "TCP"]
    (clickHouseEnvVars i managed)
    [mkVolumeMount "data" clickHouseDataMount false; mkVolumeMount "config" clickHouseConfigMount true]
    (clickHouseResources (ManagedClickHouse_Resources managed))
    (Some (httpProbe "/ping" clickHouseHTTPPort 30 10 3))
    (Some (httpProbe "/ping" clickHouseHTTPPort 5 10 3))
    None.

(** Called for a spec with [clickhouse.managed] only. *)
Definition BuildClickHouseStatefulSet `{QuantityParser} (i : LangfuseInstance)
    (managed : ManagedClickHouseSpec) : option StatefulSetObject :=
  let labels := CommonLabels i "clickhouse" in
  let name := ClickHouseName i in
  storage ← ParseQuantity (or_default (ManagedClickHouse_StorageSize managed) defaultClickHouseStorageSize);
  let class := ManagedClickHouse_StorageClass managed in
  Some (mkStatefulSetObject (child_meta i name labels) name
    (default 1%Z (ManagedClickHouse_Replicas managed))
    (SelectorLabels i "clickhouse")
    (mkPodTemplate labels
       (mkPodSpec [] [clickHouseContainer i managed] [mkVolume "config" (ConfigMapVolume name)] ""
          ∅ [] None []))
    [mkVolumeClaim "data" ["ReadWriteOnce"] storage (if nonempty_str class then Some class else None)]).

Definition BuildClickHouseService (i : LangfuseInstance) : ServiceObject :=
  mkServiceObject (child_meta i (ClickHouseName i) (CommonLabels i "clickhouse")) "ClusterIP"
    (SelectorLabels i "clickhouse")
    [mkServicePort "http" clickHouseHTTPPort (FromString "http") "TCP";
     mkServicePort "native" clickHouseNativePort (FromString "native") "TCP"].

Definition configXML : string :=
  "<?xml version=" +:+ dq +:+
  "1.0" +:+ dq +:+
  "?>
<clickhouse>
    <logger>
        <level>information</level>
        <console>1</console>
    </logger>
    <listen_host>0.0.0.0</listen_host>
    <http_port>8123</http_port>
    <tcp_port>9000</tcp_port>
    <max_connections>4096</max_connections>
    <keep_alive_timeout>3</keep_alive_timeout>
    <max_concurrent_queries>100</max_concurrent_queries>
    <mark_cache_size>5368709120</mark_cache_size>
</clickhouse>".

Definition usersXML : string :=
  "<?xml version=" +:+ dq +:+
  "1.0" +:+ dq +:+
  "?>
<clickhouse>
    <profiles>
        <default>
            <max_memory_usage>10000000000</max_memory_usage>
            <load_balancing>random</load_balancing>
        </default>
    </profiles>
    <quotas>
        <default>
            <interval>
                <duration>3600</duration>
                <queries>0</queries>
                <errors>0</errors>
                <result_rows>0</result_rows>
                <read_rows>0</read_rows>
                <execution_time>0</execution_time>
            </interval>
        </default>
    </quotas>
</clickhouse>".

Definition BuildClickHouseConfigMap (i : LangfuseInstance) : ConfigMapObject :=
  mkConfigMapObject (child_meta i (ClickHouseName i) (CommonLabels i "clickhouse"))
    (list_to_map [("config.xml", configXML); ("users.xml", usersXML)]).

(** ** redis.go *)

Definition redisImage : string := "redis:7-alpine".
Definition redisPort : Z := 6379.
Definition redisDataDir : string := "/data".

Definition RedisName (i : LangfuseInstance) : string := om_Name (Instance_ObjectMeta i) +:+ "-redis".
Definition RedisServiceName (i : LangfuseInstance) : string := om_Name (Instance_ObjectMeta i) +:+ "-redis".

Definition redisContainer (i : LangfuseInstance) : Container :=
  let ping := ExecHandler ["redis-cli"; "-a"; "$(REDIS_PASSWORD)"; "ping"] in
  mkContainer "redis" redisImage
    ["redis-server"; "--requirepass"; "$(REDIS_PASSWORD)"; "--appendonly"; "yes"] []
    [mkContainerPort "redis" redisPort "TCP"]
    [envFromSecret "REDIS_PASSWORD" (om_Name (Instance_ObjectMeta i) +:+ "-generated-secrets") "redis-password"]
    [mkVolumeMount "data" redisDataDir false]
    zero_CoreResources
    (Some (mkProbe ping 15 10 3)) (Some (mkProbe ping 5 10 3)) None.

Definition BuildRedisStatefulSet `{QuantityParser} (i : LangfuseInstance) : option StatefulSetObject :=
  let labels := CommonLabels i "redis" in
  let configured :=
    match Spec_Redis (Instance_Spec i) ≫= Redis_Managed with
    | Some managed => ManagedRedis_StorageSize managed
    | None => "" end in
  storage ← ParseQuantity (or_default configured "1Gi");
  Some (mkStatefulSetObject (child_meta i (RedisName i) labels) (RedisServiceName i) 1
    (SelectorLabels i "redis")
    (mkPodTemplate labels (mkPodSpec [] [redisContainer i] [] "" ∅ [] None []))
    [mkVolumeClaim "data" ["ReadWriteOnce"] storage None]).

Definition BuildRedisService (i : LangfuseInstance) : ServiceObject :=
  mkServiceObject (child_meta i (RedisServiceName i) (CommonLabels i "redis")) "ClusterIP"
    (SelectorLabels i "redis")
    [mkServicePort "redis" redisPort (FromString "redis") "TCP"].
