(* ===== verification/Networking.v ===== *)
(** * Services, network policies and routes ([internal/resources])

    [services.go], [networkpolicy.go], [ingress.go], [route.go], [httproute.go]
    and the name of [servicemonitor.go]. *)

From S2P Require Import Prelude GoStd GoJSON KubeTypes ApiTypes Config Resources.

Open Scope string_scope.
Open Scope list_scope.
Open Scope Z_scope.

(** ** services.go *)

Definition BuildWebService (i : LangfuseInstance) : ServiceObject :=
  mkServiceObject (child_meta i (WebServiceName i) (CommonLabels i "web")) "ClusterIP"
    (SelectorLabels i "web")
    [mkServicePort "http" 3000 (FromString "http") "TCP"].

(** ** networkpolicy.go *)

Definition defaultEgressPorts : list Z := [5432; 8123; 8443; 9000; 9440; 6379; 6380; 443; 3000].

(** [intstrPtr]: the port as an [int32]. *)
Definition intstrPtr (port : Z) : Z := int32 port.

Definition extraEgressPorts (i : LangfuseInstance) : list NetPolPort :=
  match Spec_Security (Instance_Spec i) ≫= Security_NetworkPolicy with
  | None => []
  | Some policy =>
      omap (λ extra,
              let protocol := or_default (NetworkPolicyPort_Protocol extra) "TCP" in
              if String.eqb protocol "TCP" && bool_decide (NetworkPolicyPort_Port extra ∈ defaultEgressPorts)
              then None
              else Some (mkNetPolPort protocol (intstrPtr (NetworkPolicyPort_Port extra))))
           (NetworkPolicy_ExtraEgressPorts policy)
  end.

Definition commonEgressRules (i : LangfuseInstance) : list (list NetPolPort) :=
  [ ((λ p, mkNetPolPort "TCP" (intstrPtr p)) <$> defaultEgressPorts) ++ extraEgressPorts i;
    [mkNetPolPort "UDP" (intstrPtr 53); mkNetPolPort "TCP" (intstrPtr 53)] ].

Definition BuildWebNetworkPolicy (i : LangfuseInstance) : NetworkPolicyObject :=
  mkNetworkPolicyObject (child_meta i (WebName i +:+ "-netpol") (CommonLabels i "web"))
    (SelectorLabels i "web") ["Ingress"; "Egress"]
    [[mkNetPolPort "TCP" (intstrPtr 3000)]]
    (commonEgressRules i).

Definition BuildWorkerNetworkPolicy (i : LangfuseInstance) : NetworkPolicyObject :=
  mkNetworkPolicyObject (child_meta i (WorkerName i +:+ "-netpol") (CommonLabels i "worker"))
    (SelectorLabels i "worker") ["Ingress"; "Egress"]
    []
    (commonEgressRules i).

(** Metadata with annotations. *)
Definition annotated_meta (i : LangfuseInstance) (name : string) (labels annotations : gmap string string)
    : ObjectMeta :=
  mkObjectMeta name (om_Namespace (Instance_ObjectMeta i)) labels annotations [] 0 None [].

(** ** ingress.go *)

Definition IngressName (i : LangfuseInstance) : string := om_Name (Instance_ObjectMeta i) +:+ "-web".

(** The annotations of the spec, and the cert-manager one. *)
Definition ingressAnnotations (spec : IngressSpec) : gmap string string :=
  match Ingress_TLS spec ≫= IngressTLS_CertManager with
  | None => Ingress_Annotations spec
  | Some cm =>
      let issuer := CertManager_IssuerRef cm in
      let kind := or_default (CertManagerIssuerRef_Kind issuer) "ClusterIssuer" in
      if String.eqb kind "ClusterIssuer"
      then <["cert-manager.io/cluster-issuer" := CertManagerIssuerRef_Name issuer]> (Ingress_Annotations spec)
      else <["cert-manager.io/issuer" := CertManagerIssuerRef_Name issuer]> (Ingress_Annotations spec)
  end.

Definition ingressTLS (i : LangfuseInstance) (spec : IngressSpec) : list (list string * string) :=
  match Ingress_TLS spec with
  | None => []
  | Some tls =>
      if IngressTLS_Enabled tls then
        let name := IngressTLS_SecretName tls in
        [([Ingress_Host spec],
          if nonempty_str name then name
          else match IngressTLS_CertManager tls with
               | Some _ => om_Name (Instance_ObjectMeta i) +:+ "-web-tls"
               | None => name
               end)]
      else []
  end.

(** Called for a spec with an ingress only. *)
Definition BuildIngress (i : LangfuseInstance) (spec : IngressSpec) : IngressObject :=
  mkIngressObject
    (annotated_meta i (IngressName i) (CommonLabels i "web") (ingressAnnotations spec))
    (if nonempty_str (Ingress_ClassName spec) then Some (Ingress_ClassName spec) else None)
    [(Ingress_Host spec, [mkIngressPath "/" "Prefix" (WebServiceName i) 3000])]
    (ingressTLS i spec).

(** ** route.go *)

Definition RouteName (i : LangfuseInstance) : string := om_Name (Instance_ObjectMeta i) +:+ "-web".

Definition BuildRoute (i : LangfuseInstance) (spec : RouteSpec) : Unstructured :=
  mkUnstructured "route.openshift.io/v1" "Route"
    (annotated_meta i (RouteName i) (CommonLabels i "web") (Route_Annotations spec))
    ([("to", JObject [("kind", JString "Service"); ("name", JString (WebServiceName i));
                      ("weight", JNumber (itoa 100))]);
      ("port", JObject [("targetPort", JString "http")]);
      ("tls", JObject [("termination", JString "edge");
                       ("insecureEdgeTerminationPolicy", JString "Redirect")])] ++
     (if nonempty_str (Route_Host spec) then [("host", JString (Route_Host spec))] else [])).

(** ** httproute.go *)

Definition HTTPRouteName (i : LangfuseInstance) : string := om_Name (Instance_ObjectMeta i) +:+ "-web".

(** The reference to the gateway the route attaches to. *)
Definition gatewayParentRef (ref : GatewayRef) : JSON :=
  let optional key v := if nonempty_str v then [(key, JString v)] else [] in
  JObject ([("name", JString (GatewayRef_Name ref))] ++
           optional "namespace" (GatewayRef_Namespace ref) ++
           optional "sectionName" (GatewayRef_SectionName ref)).

Definition BuildHTTPRoute (i : LangfuseInstance) (spec : GatewayAPISpec) : Unstructured :=
  mkUnstructured "gateway.networking.k8s.io/v1" "HTTPRoute"
    (annotated_meta i (HTTPRouteName i) (CommonLabels i "web") (GatewayAPI_Annotations spec))
    ([("parentRefs", JArray [gatewayParentRef (GatewayAPI_GatewayRef spec)]);
      ("rules", JArray [JObject [
         ("matches", JArray [JObject [("path", JObject [("type", JString "PathPrefix"); ("value", JString "/")])]]);
         ("backendRefs", JArray [JObject [("name", JString (WebServiceName i)); ("port", JNumber (itoa 3000))]])]])] ++
     (if nonempty_str (GatewayAPI_Hostname spec)
      then [("hostnames", JArray [JString (GatewayAPI_Hostname spec)])] else [])).

(** ** servicemonitor.go *)

Definition ServiceMonitorName (i : LangfuseInstance) : string := om_Name (Instance_ObjectMeta i) +:+ "-web".
