(* ===== verification/Scaling.v ===== *)
(** * Autoscalers and disruption budgets ([internal/resources/hpa.go], [pdb.go]) *)

From S2P Require Import Prelude GoStd KubeTypes ApiTypes Config Resources.

Open Scope string_scope.
Open Scope list_scope.
Open Scope Z_scope.

(** ** hpa.go *)

Definition buildHPA (meta : ObjectMeta) (spec : option AutoscalingSpec) : HPAObject :=
  mkHPAObject meta
    (mkScaleTargetRef "apps/v1" "Deployment" (om_Name meta))
    (default 1 (spec ≫= Autoscaling_MinReplicas))
    (match spec with
     | Some s => if Autoscaling_MaxReplicas s >? 0 then Autoscaling_MaxReplicas s else 10
     | None => 10
     end)
    (default 80 (spec ≫= Autoscaling_TargetCPUUtilization)).

Definition BuildWebHPA (i : LangfuseInstance) : HPAObject :=
  buildHPA (child_meta i (WebName i) (CommonLabels i "web")) (Web_Autoscaling (Spec_Web (Instance_Spec i))).

Definition BuildWorkerHPA (i : LangfuseInstance) : HPAObject :=
  buildHPA (child_meta i (WorkerName i) (CommonLabels i "worker"))
    (Worker_Autoscaling (Spec_Worker (Instance_Spec i))).

(** ** pdb.go *)

Definition buildPDB (meta : ObjectMeta) (selector : gmap string string) (spec : option PDBSpec) : PDBObject :=
  mkPDBObject meta (FromInt (default 1 (spec ≫= PDB_MinAvailable))) selector.

Definition BuildWebPDB (i : LangfuseInstance) : PDBObject :=
  buildPDB (child_meta i (WebName i) (CommonLabels i "web")) (SelectorLabels i "web")
    (Web_PodDisruptionBudget (Spec_Web (Instance_Spec i))).

Definition BuildWorkerPDB (i : LangfuseInstance) : PDBObject :=
  buildPDB (child_meta i (WorkerName i) (CommonLabels i "worker")) (SelectorLabels i "worker")
    (Worker_PodDisruptionBudget (Spec_Worker (Instance_Spec i))).
