(* ===== verification/PodIssues.v ===== *)
(** * Pod diagnosis ([internal/controller/pod_issues.go])

    What keeps a component's pods from running, as a short, stable list, fatal
    problems first. *)

From stdpp Require Import sorting.
From S2P Require Import Prelude GoStd KubeTypes ApiTypes Kube.

Open Scope string_scope.
Open Scope list_scope.

Definition componentWeb : string := "web".
Definition componentWorker : string := "worker".
Definition componentMigration : string := "migration".

Definition maxReportedPodIssues : nat := 5.

(** Waiting reasons that need a human. *)
Definition fatalWaitingReasons : list string :=
  ["ImagePullBackOff"; "ErrImagePull"; "InvalidImageName"; "ErrImageNeverPull";
   "CreateContainerConfigError"; "CreateContainerError"].

(** Waiting reasons of a pod that is still starting. *)
Definition benignWaitingReasons : list string := [""; "ContainerCreating"; "PodInitializing"].

Definition reason_in (l : list string) (r : string) : bool := bool_decide (r ∈ l).

(** The byte string of the ellipsis character. *)
Definition ellipsis : string := "…".

Definition truncate (s : string) (max : nat) : string :=
  if (String.length s <=? max)%nat then s else take_str max s +:+ ellipsis.

Definition terminationMessage (t : ContainerStateTerminated) : string :=
  let parts := ["exited with code " +:+ itoa (term_ExitCode t)] in
  let parts := if nonempty_str (term_Reason t) && negb (bool_decide (term_Reason t = "Error"))
               then parts ++ ["(" +:+ term_Reason t +:+ ")"] else parts in
  let detail := TrimSpace (term_Message t) in
  let parts := if nonempty_str detail then parts ++ ["- " +:+ truncate detail 256] else parts in
  Join parts " ".

Definition waitingMessage (w : ContainerStateWaiting) (cs : ContainerStatus) : string :=
  let msg := wait_Message w in
  match cstate_Terminated (cs_LastTerminationState cs) with
  | Some t =>
      let last := terminationMessage t in
      if nonempty_str last then
        if nonempty_str msg then msg +:+ "; previous run " +:+ last else "previous run " +:+ last
      else msg
  | None => msg
  end.

(** [None] when the container has no problem. *)
Definition containerIssue (podName : string) (cs : ContainerStatus) : option PodIssue :=
  if cs_Ready cs then None
  else match cstate_Waiting (cs_State cs), cstate_Terminated (cs_State cs) with
  | Some w, _ =>
      let reason := wait_Reason w in
      if reason_in benignWaitingReasons reason then None
      else Some (mkPodIssue podName (cs_Name cs) reason (waitingMessage w cs)
                   (cs_RestartCount cs) (reason_in fatalWaitingReasons reason))
  | None, Some t =>
      if negb (term_ExitCode t =? 0)%Z then
        let reason := if nonempty_str (term_Reason t) then term_Reason t else "Error" in
        Some (mkPodIssue podName (cs_Name cs) reason (terminationMessage t) (cs_RestartCount cs) false)
      else None
  | None, None => None
  end.

Definition schedulingIssue (podName : string) (c : PodCondition) : option PodIssue :=
  if bool_decide (pc_Type c = "PodScheduled") && bool_decide (pc_Status c = ConditionFalse) &&
     nonempty_str (pc_Reason c)
  then Some (mkPodIssue podName "" (pc_Reason c) (pc_Message c) 0 false)
  else None.

Definition podIssues (pod : Pod) : list PodIssue :=
  match pod_DeletionTimestamp pod with
  | Some _ => []
  | None =>
      if decide (pod_Phase pod = "Succeeded") then []
      else omap (schedulingIssue (pod_Name pod)) (pod_Conditions pod) ++
           omap (containerIssue (pod_Name pod))
             (pod_InitContainerStatuses pod ++ pod_ContainerStatuses pod)
  end.

(** The comparison of the sort in [collectPodIssues]. *)
Definition issue_less (a b : PodIssue) : bool :=
  if negb (Bool.eqb (PodIssue_Fatal a) (PodIssue_Fatal b)) then PodIssue_Fatal a
  else if negb (bool_decide (PodIssue_Pod a = PodIssue_Pod b))
  then str_lt (PodIssue_Pod a) (PodIssue_Pod b)
  else str_lt (PodIssue_Container a) (PodIssue_Container b).

(** What [collectPodIssues] makes of the pods it listed. *)
Definition reportIssues (pods : list Pod) : list PodIssue :=
  take maxReportedPodIssues (SliceStable issue_less (pods ≫= podIssues)).

Definition hasFatalIssue (issues : list PodIssue) : bool := existsb PodIssue_Fatal issues.

Definition describeIssue (issue : PodIssue) : string :=
  let desc := PodIssue_Pod issue in
  let desc := if nonempty_str (PodIssue_Container issue)
              then desc +:+ " (" +:+ PodIssue_Container issue +:+ ")" else desc in
  let desc := desc +:+ ": " +:+ PodIssue_Reason issue in
  if nonempty_str (PodIssue_Message issue) then desc +:+ " — " +:+ PodIssue_Message issue else desc.

(** A condition reason and message. *)
Definition summarizePodIssues (issues : list PodIssue) (fallbackReason fallbackMessage : string)
    : string * string :=
  match issues with
  | [] => (fallbackReason, fallbackMessage)
  | primary :: _ =>
      (PodIssue_Reason primary,
       truncate (fallbackMessage +:+ "; " +:+ Join (describeIssue <$> issues) "; ") 1024)
  end.

Section client.
Context {W : Type} `{KubeClient W}.

Definition collectPodIssues (namespace : string) (selector : gmap string string)
    : M (St W) (result (list PodIssue)) :=
  r ← List_Pods namespace selector;
  match r with
  | Err e => mret (Err (wrapError "listing pods" e))
  | Ok pods => mret (Ok (reportIssues pods))
  end.
End client.

(** ** Properties *)

(** *** The order of the report *)

(** [issue_less] compares fatality, pod and container, in this order. *)
Definition issue_le (a b : PodIssue) : Prop :=
  (PodIssue_Fatal a = true ∧ PodIssue_Fatal b = false) ∨
  (PodIssue_Fatal a = PodIssue_Fatal b ∧
   (str_lt (PodIssue_Pod a) (PodIssue_Pod b) = true ∨
    (PodIssue_Pod a = PodIssue_Pod b ∧
     str_lt (PodIssue_Container b) (PodIssue_Container a) = false))).

Lemma issue_not_after a b : not_after issue_less a b ↔ issue_le a b.
Proof.
  unfold not_after, issue_less, issue_le.
  pose proof (str_lt_asym (PodIssue_Pod a) (PodIssue_Pod b)) as H1.
  pose proof (str_lt_antisym (PodIssue_Pod a) (PodIssue_Pod b)) as H2.
  pose proof (str_lt_asym (PodIssue_Pod a) (PodIssue_Pod a)) as H3.
  destruct (PodIssue_Fatal a), (PodIssue_Fatal b); cbn [Bool.eqb negb].
  2: intuition. 2: intuition discriminate.
  all: case_bool_decide as E; cbn [negb]; [rewrite E in *|].
  all: destruct (str_lt (PodIssue_Pod a) (PodIssue_Pod b)) eqn:?,
      (str_lt (PodIssue_Pod b) (PodIssue_Pod a)) eqn:?; intuition congruence.
Qed.

Lemma issue_less_asym a b : issue_less a b = true → issue_less b a = false.
Proof.
  unfold issue_less. intros H. destruct (PodIssue_Fatal a), (PodIssue_Fatal b); cbn in *; try done;
    rewrite (bool_decide_ext (PodIssue_Pod b = PodIssue_Pod a) (PodIssue_Pod a = PodIssue_Pod b))
      by naive_solver;
    case_bool_decide; cbn in *; by apply str_lt_asym.
Qed.

Lemma issue_not_after_trans a b c :
  not_after issue_less a b → not_after issue_less b c → not_after issue_less a c.
Proof.
  rewrite !issue_not_after. unfold issue_le.
  intros [[-> ->]|[-> Hab]] [[Hb ->]|[<- Hbc]]; [congruence|naive_solver..|].
  right. split; [done|].
  destruct Hab as [Hab|[-> Hab]], Hbc as [Hbc|[<- Hbc]]; [left..|right]; try done.
  - by eapply str_lt_trans.
  - split; [done|]. by eapply str_not_after_trans.
Qed.

#[export] Hint Resolve issue_less_asym issue_not_after_trans : go.

(** *** Where issues come from *)

Lemma schedulingIssue_spec n c i :
  schedulingIssue n c = Some i → PodIssue_Pod i = n ∧ PodIssue_Container i = "" ∧ PodIssue_Fatal i = false.
Proof. unfold schedulingIssue. intros. repeat case_match; by simplify_eq. Qed.

Lemma containerIssue_spec n cs i :
  containerIssue n cs = Some i →
  PodIssue_Pod i = n ∧ PodIssue_Container i = cs_Name cs ∧ cs_Ready cs = false.
Proof. unfold containerIssue. intros. repeat case_match; by simplify_eq/=. Qed.

Lemma podIssues_pod pod i : i ∈ podIssues pod → PodIssue_Pod i = pod_Name pod.
Proof.
  unfold podIssues. destruct (pod_DeletionTimestamp pod); [set_solver|].
  case_decide; [set_solver|].
  rewrite elem_of_app, !list_elem_of_omap.
  intros [(c & _ & ?%schedulingIssue_spec)|(c & _ & ?%containerIssue_spec)]; naive_solver.
Qed.

(** An issue of another pod never joins a run of equal issues. *)
Lemma issue_equiv_pod z i :
  equiv issue_less z i = true → PodIssue_Pod z = PodIssue_Pod i.
Proof.
  rewrite equiv_spec, !issue_not_after. unfold issue_le.
  pose proof (str_lt_asym (PodIssue_Pod z) (PodIssue_Pod i)).
  intros [[[??]|[? [?|[??]]]] [[??]|[? [?|[??]]]]]; intuition congruence.
Qed.

Lemma filter_none {A} (P : A → Prop) `{∀ x, Decision (P x)} l :
  (∀ x, x ∈ l → ¬ P x) → filter P l = [].
Proof.
  induction l as [|x l IH]; intros Hl; [done|].
  rewrite filter_cons_False by (apply Hl; set_solver). apply IH. set_solver.
Qed.

(** The run of equal issues at [z] is the same in any order of the pods. *)
Lemma issue_runs_perm z pods pods' :
  pods ≡ₚ pods' → NoDup (pod_Name <$> pods) →
  filter (λ y, equiv issue_less z y = true) (pods ≫= podIssues) =
  filter (λ y, equiv issue_less z y = true) (pods' ≫= podIssues).
Proof.
  induction 1 as [|p l l' _ IH|p q l|l1 l2 l3 H12 IH1 _ IH2]; intros Hn.
  - done.
  - cbn in *. apply NoDup_cons in Hn as [_ Hn]. by rewrite !filter_app, IH.
  - cbn in *. apply NoDup_cons in Hn as [Hp _]. rewrite !filter_app, !app_assoc. f_equal.
    destruct (decide (pod_Name p = PodIssue_Pod z)) as [Ep|Ep].
    + rewrite (filter_none _ (podIssues q)), app_nil_r; [done|].
      intros i Hi%podIssues_pod E%issue_equiv_pod.
      assert (pod_Name q = pod_Name p) as E2 by congruence. apply Hp. rewrite E2. by left.
    + rewrite (filter_none _ (podIssues p)), app_nil_r; [done|].
      intros i Hi%podIssues_pod E%issue_equiv_pod. congruence.
  - rewrite IH1 by done. apply IH2. by rewrite <- H12.
Qed.

(** The issues written to status do not depend on the order in which the
    API server lists the pods, so an unchanged cluster never produces a status
    write: pod names being unique, permuting the list changes nothing. *)
Theorem reportIssues_order_independent pods pods' :
  pods ≡ₚ pods' → NoDup (pod_Name <$> pods) → reportIssues pods = reportIssues pods'.
Proof.
  intros Hp Hn. unfold reportIssues. f_equal.
  apply SliceStable_ext; [eauto with go..|]. intros z. by apply issue_runs_perm.
Qed.

Lemma existsb_Permutation {A} (f : A → bool) l l' : l ≡ₚ l' → existsb f l = existsb f l'.
Proof.
  induction 1 as [| |x y|]; cbn; [done|congruence|by destruct (f x), (f y)|congruence].
Qed.

(** In a sorted report the first issue is fatal as soon as any is. *)
Lemma sorted_fatal_first l :
  StronglySorted (not_after issue_less) l →
  existsb PodIssue_Fatal l = match l with [] => false | i :: _ => PodIssue_Fatal i end.
Proof.
  destruct l as [|i l]; [done|]. intros [Hi _]%StronglySorted_cons. cbn.
  destruct (PodIssue_Fatal i) eqn:E; [done|]. cbn.
  destruct (existsb PodIssue_Fatal l) eqn:Ex; [|done].
  apply existsb_exists in Ex as (j & Hj & Fj).
  eapply Forall_forall in Hi; [|by apply list_elem_of_In].
  apply issue_not_after in Hi. unfold issue_le in Hi. naive_solver congruence.
Qed.

(** Capping the report never hides a problem that needs a human: a fatal
    issue of any pod is reported, and it is then the first one, the one whose
    reason becomes the condition's. *)
Theorem reportIssues_fatal pods :
  hasFatalIssue (reportIssues pods) = hasFatalIssue (pods ≫= podIssues) ∧
  (hasFatalIssue (pods ≫= podIssues) = true →
   ∃ i rest, reportIssues pods = i :: rest ∧ PodIssue_Fatal i = true) ∧
  (length (reportIssues pods) ≤ maxReportedPodIssues)%nat ∧
  reportIssues pods ⊆+ (pods ≫= podIssues).
Proof.
  unfold reportIssues, hasFatalIssue. set (l := pods ≫= podIssues).
  pose proof (SliceStable_sorted issue_less issue_less_asym issue_not_after_trans l) as Hs.
  pose proof (SliceStable_Permutation issue_less l) as Hp.
  pose proof (sorted_fatal_first _ Hs) as Hf.
  rewrite <- (existsb_Permutation _ _ _ Hp). rewrite Hf.
  assert (take maxReportedPodIssues (SliceStable issue_less l) ⊆+ l) as Hsub.
  { rewrite <- Hp at 2. apply submseteq_take. }
  assert (length (take maxReportedPodIssues (SliceStable issue_less l)) ≤ maxReportedPodIssues)%nat
    by (rewrite length_take; lia).
  destruct (SliceStable issue_less l) as [|i rest]; cbn in *; [done|].
  split; [|naive_solver]. destruct (PodIssue_Fatal i) eqn:E; [done|]. cbn.
  apply not_true_iff_false. intros (j & Hj & Fj)%existsb_exists.
  apply orb_false_iff in Hf as [_ Hr].
  apply not_true_iff_false in Hr. apply Hr, existsb_exists. exists j. split; [|done].
  apply list_elem_of_In in Hj. apply list_elem_of_In.
  eapply elem_of_submseteq; [exact Hj|]. apply (submseteq_take rest 4).
Qed.

(** *** Length of messages *)

Lemma truncate_length s max :
  String.length (truncate s max) =
  if (String.length s <=? max)%nat then String.length s else (max + 3)%nat.
Proof.
  unfold truncate. destruct (Nat.leb_spec (String.length s) max); [done|].
  rewrite str_length_app, take_str_length by lia. done.
Qed.

(** A text that has to be cut ends up longer than the limit it is cut to. *)
Lemma truncate_exceeds s max :
  (max < String.length s)%nat → (max < String.length (truncate s max))%nat.
Proof. rewrite truncate_length. destruct (Nat.leb_spec (String.length s) max); lia. Qed.

(** The condition built from a report takes the reason of the first issue,
    keeps the caller's own message as the beginning of the text as long as that
    fits, and stays below the 32 KiB the API server accepts whatever the pods
    wrote: at most 1027 bytes, three more than the 1024 asked for. *)
Theorem summarizePodIssues_bounds i rest fallbackReason fallbackMessage :
  let '(reason, message) := summarizePodIssues (i :: rest) fallbackReason fallbackMessage in
  reason = PodIssue_Reason i ∧
  (String.length message ≤ 1027)%nat ∧
  ((String.length fallbackMessage ≤ 1024)%nat → HasPrefix message fallbackMessage = true).
Proof.
  cbn [summarizePodIssues]. split; [done|]. rewrite truncate_length. split.
  { match goal with |- context [(?a <=? ?b)%nat] => destruct (Nat.leb_spec a b) end; lia. }
  intros Hf. unfold truncate. destruct (_ <=? _)%nat; [apply HasPrefix_app|].
  rewrite take_str_app by done. rewrite str_app_assoc. apply HasPrefix_app.
Qed.

(** ** Witnesses *)

Definition ex_pod (name reason : string) : Pod :=
  mkPod name None "Pending" [] []
    [mkContainerStatus "app" (mkContainerState (Some (mkWaiting reason "")) false None)
       (mkContainerState None false None) false 2].

Definition ex_pods : list Pod := [ex_pod "web-2" "CrashLoopBackOff"; ex_pod "web-1" "ImagePullBackOff"].

Lemma reportIssues_order_independent_witness :
  reportIssues ex_pods = reportIssues (reverse ex_pods) ∧ (length (reportIssues ex_pods) = 2)%nat.
Proof.
  split; [|by vm_compute].
  apply reportIssues_order_independent; [by rewrite reverse_Permutation|].
  apply (bool_decide_unpack _). by vm_compute.
Defined.
