(* ===== verification/Phase.v ===== *)
(** * Phase and readiness ([internal/controller/phase.go])

    The one place where [status.phase] and [status.ready] are decided, from the
    conditions the sibling controllers publish, and the names of the conditions
    and reasons those controllers agree on. *)

From S2P Require Import Prelude GoStd KubeTypes ApiTypes Kube PodIssues.

Open Scope string_scope.
Open Scope list_scope.

Definition phasePending : string := "Pending".
Definition phaseRunning : string := "Running".
Definition phaseMigrating : string := "Migrating".
Definition phaseDegraded : string := "Degraded".
Definition phaseError : string := "Error".

Definition conditionTypeReady : string := "Ready".
Definition conditionTypeDeprecated : string := "Deprecated".
Definition conditionTypeDatastoreTarget : string := "DatastoreTargetUnchanged".

Definition conditionDatabaseReady : string := "DatabaseReady".
Definition conditionClickHouseReady : string := "ClickHouseReady".
Definition conditionRedisReady : string := "RedisReady".
Definition conditionBlobStorageReady : string := "BlobStorageReady".
Definition conditionWebReady : string := "WebReady".
Definition conditionWorkerReady : string := "WorkerReady".

Definition conditionMigrationsComplete : string := "MigrationsComplete".
Definition reasonMigrationStarted : string := "MigrationStarted".
Definition reasonMigrationInProgress : string := "MigrationInProgress".
Definition reasonMigrationSucceeded : string := "MigrationSucceeded".
Definition reasonMigrationFailed : string := "MigrationFailed".

Definition dependencyConditions : list string :=
  [conditionDatabaseReady; conditionClickHouseReady; conditionRedisReady; conditionBlobStorageReady].

(** [instanceHasFatalPodIssue] of [health_monitor.go]. *)
Definition instanceHasFatalPodIssue (instance : LangfuseInstance) : bool :=
  let status := Instance_Status instance in
  if match Status_Web status with
     | Some web => hasFatalIssue (Component_Issues web) | None => false end then true
  else if match Status_Worker status with
     | Some worker => hasFatalIssue (Component_Issues (WorkerStatus_ComponentStatus worker))
     | None => false end then true
  else match Status_Migration status with
     | Some migration => hasFatalIssue (MigrationStatus_Issues migration) | None => false end.

Definition componentsReady (instance : LangfuseInstance) : bool :=
  match Status_Web (Instance_Status instance) with
  | Some web => (Component_ReadyReplicas web >? 0)%Z | None => false end &&
  match Status_Worker (Instance_Status instance) with
  | Some worker => (Component_ReadyReplicas (WorkerStatus_ComponentStatus worker) >? 0)%Z
  | None => false end.

Section conditions.
Context `{API : ConditionAPI}.

Definition find_condition (instance : LangfuseInstance) (t : string) : option Condition :=
  FindStatusCondition (Status_Conditions (Instance_Status instance)) t.

(** The loop of [dependencyHealth], from the value [allHealthy] reached. *)
Fixpoint dependencyHealth_loop (instance : LangfuseInstance) (types : list string)
    (allHealthy : bool) : bool * bool :=
  match types with
  | [] => (false, allHealthy)
  | conditionType :: types =>
      match find_condition instance conditionType with
      | None => dependencyHealth_loop instance types false
      | Some condition =>
          if negb (bool_decide (cond_Status condition = ConditionTrue)) then (true, false)
          else dependencyHealth_loop instance types allHealthy
      end
  end.

Definition dependencyHealth (instance : LangfuseInstance) : bool * bool :=
  dependencyHealth_loop instance dependencyConditions true.

Definition datastoreTargetChanged (instance : LangfuseInstance) : bool :=
  match find_condition instance conditionTypeDatastoreTarget with
  | Some condition => bool_decide (cond_Status condition = ConditionFalse)
  | None => false
  end.

Definition migrationRunning (instance : LangfuseInstance) : bool :=
  match find_condition instance conditionMigrationsComplete with
  | Some condition =>
      bool_decide (cond_Status condition = ConditionFalse) &&
      negb (bool_decide (cond_Reason condition = reasonMigrationFailed))
  | None => false
  end.

Definition migrationFailed (instance : LangfuseInstance) : bool :=
  match find_condition instance conditionMigrationsComplete with
  | Some condition =>
      bool_decide (cond_Status condition = ConditionFalse) &&
      bool_decide (cond_Reason condition = reasonMigrationFailed)
  | None => false
  end.

Definition derivePhase (instance : LangfuseInstance) : string * bool :=
  let '(anyUnhealthy, allHealthy) := dependencyHealth instance in
  if datastoreTargetChanged instance then (phaseError, false)
  else if migrationFailed instance || instanceHasFatalPodIssue instance then (phaseError, false)
  else if migrationRunning instance then (phaseMigrating, false)
  else if negb (componentsReady instance) then (phasePending, false)
  else if anyUnhealthy then (phaseDegraded, false)
  else if allHealthy then (phaseRunning, true)
  else (phasePending, false).
End conditions.

(** ** Properties *)

Section properties.
Context `{API : ConditionAPI}.

(** What the datastore probes have reported on a dependency. *)
Definition known_healthy (i : LangfuseInstance) (t : string) : Prop :=
  ∃ c, find_condition i t = Some c ∧ cond_Status c = ConditionTrue.
Definition known_unhealthy (i : LangfuseInstance) (t : string) : Prop :=
  ∃ c, find_condition i t = Some c ∧ cond_Status c ≠ ConditionTrue.

Lemma dependencyHealth_loop_spec i types acc :
  ((dependencyHealth_loop i types acc).1 = true ↔ Exists (known_unhealthy i) types) ∧
  ((dependencyHealth_loop i types acc).2 = true ↔ acc = true ∧ Forall (known_healthy i) types).
Proof.
  revert acc. induction types as [|t types IH]; intros acc; cbn [dependencyHealth_loop].
  { rewrite Exists_nil, Forall_nil. cbn. intuition discriminate. }
  rewrite Exists_cons, Forall_cons.
  destruct (find_condition i t) as [c|] eqn:E; [case_bool_decide; cbn [negb]|].
  - destruct (IH acc) as [-> ->].
    assert (known_healthy i t) by by exists c.
    assert (¬ known_unhealthy i t) by (intros (? & ? & ?); congruence). tauto.
  - assert (known_unhealthy i t) by by exists c.
    assert (¬ known_healthy i t) by (intros (? & ? & ?); congruence). cbn. intuition discriminate.
  - destruct (IH false) as [-> ->].
    assert (¬ known_unhealthy i t) by (intros (? & ? & ?); congruence).
    assert (¬ known_healthy i t) by (intros (? & ? & ?); congruence). intuition discriminate.
Qed.

Lemma dependencyHealth_any i :
  (dependencyHealth i).1 = true ↔ Exists (known_unhealthy i) dependencyConditions.
Proof. apply dependencyHealth_loop_spec. Qed.

Lemma dependencyHealth_all i :
  (dependencyHealth i).2 = true ↔ Forall (known_healthy i) dependencyConditions.
Proof.
  unfold dependencyHealth. destruct (dependencyHealth_loop_spec i dependencyConditions true) as [_ ->].
  tauto.
Qed.

(** What the phase depends on. *)
Definition phase_conditions : list string :=
  dependencyConditions ++ [conditionTypeDatastoreTarget; conditionMigrationsComplete].

Lemma dependencyHealth_loop_ext i j types acc :
  (∀ t, t ∈ types → find_condition i t = find_condition j t) →
  dependencyHealth_loop i types acc = dependencyHealth_loop j types acc.
Proof.
  revert acc. induction types as [|t types IH]; intros acc Ht; cbn [dependencyHealth_loop]; [done|].
  rewrite (Ht t) by by left. destruct (find_condition j t); [case_bool_decide; cbn; [|done]|];
    apply IH; intros t' ?; apply Ht; by right.
Qed.

Lemma derivePhase_ext i j :
  (∀ t, t ∈ phase_conditions → find_condition i t = find_condition j t) →
  Status_Web (Instance_Status i) = Status_Web (Instance_Status j) →
  Status_Worker (Instance_Status i) = Status_Worker (Instance_Status j) →
  Status_Migration (Instance_Status i) = Status_Migration (Instance_Status j) →
  derivePhase i = derivePhase j.
Proof.
  intros Hc Hweb Hworker Hmigration.
  unfold derivePhase, dependencyHealth, datastoreTargetChanged, migrationFailed, migrationRunning.
  unfold instanceHasFatalPodIssue, componentsReady. cbv zeta.
  rewrite (dependencyHealth_loop_ext i j) by (intros; apply Hc; unfold phase_conditions; set_solver).
  rewrite !(Hc conditionTypeDatastoreTarget), !(Hc conditionMigrationsComplete)
    by (unfold phase_conditions; set_solver).
  by rewrite Hweb, Hworker, Hmigration.
Qed.

(** The abstract meaning of each phase, as the API documents it. *)
Definition stopped (i : LangfuseInstance) : Prop :=
  datastoreTargetChanged i = true ∨ migrationFailed i = true ∨ instanceHasFatalPodIssue i = true.

Inductive phase_spec (i : LangfuseInstance) : string → bool → Prop :=
  | spec_error : stopped i → phase_spec i phaseError false
  | spec_migrating : ¬ stopped i → migrationRunning i = true → phase_spec i phaseMigrating false
  | spec_degraded :
      ¬ stopped i → migrationRunning i = false → componentsReady i = true →
      Exists (known_unhealthy i) dependencyConditions → phase_spec i phaseDegraded false
  | spec_running :
      ¬ stopped i → migrationRunning i = false → componentsReady i = true →
      Forall (known_healthy i) dependencyConditions → phase_spec i phaseRunning true
  | spec_pending :
      ¬ stopped i → migrationRunning i = false →
      (componentsReady i = false ∨
       (¬ Exists (known_unhealthy i) dependencyConditions ∧
        Exists (λ t, find_condition i t = None) dependencyConditions)) →
      phase_spec i phasePending false.

Lemma not_all_healthy i l :
  ¬ Exists (known_unhealthy i) l → ¬ Forall (known_healthy i) l →
  Exists (λ t, find_condition i t = None) l.
Proof.
  induction l as [|t l IH]; [by rewrite Forall_nil|].
  rewrite !Exists_cons, Forall_cons. intros HE HF.
  destruct (find_condition i t) as [c|] eqn:E; [|by left]. right. apply IH; [tauto|].
  intros HF'. apply HF. split; [|done]. exists c. split; [done|].
  destruct (decide (cond_Status c = ConditionTrue)); [done|]. exfalso. apply HE. left. by exists c.
Qed.

Lemma derivePhase_sound i : phase_spec i (derivePhase i).1 (derivePhase i).2.
Proof.
  unfold derivePhase. pose proof (dependencyHealth_any i) as HA. pose proof (dependencyHealth_all i) as HL.
  destruct (dependencyHealth i) as [any all]; cbn [fst snd] in *.
  destruct (datastoreTargetChanged i) eqn:E1; [constructor; by left|].
  destruct (migrationFailed i) eqn:E2; [constructor; by right; left|].
  destruct (instanceHasFatalPodIssue i) eqn:E3; [constructor; by right; right|].
  assert (¬ stopped i) as Hs by (unfold stopped; rewrite E1, E2, E3; intuition discriminate).
  destruct (migrationRunning i) eqn:E4; [by constructor|].
  destruct (componentsReady i) eqn:E5; cbn; [|constructor; tauto].
  destruct any; [constructor; tauto|].
  destruct all; [constructor; tauto|]. constructor; [done..|]. right.
  assert (¬ Exists (known_unhealthy i) dependencyConditions) by (rewrite <- HA; done).
  split; [done|]. apply not_all_healthy; [done|]. by rewrite <- HL.
Qed.

Lemma phase_spec_functional i p r p' r' :
  phase_spec i p r → phase_spec i p' r' → p = p' ∧ r = r'.
Proof.
  assert (∀ l, Exists (known_unhealthy i) l → ¬ Forall (known_healthy i) l).
  { intros l HE HF. rewrite Exists_exists in HE. rewrite Forall_forall in HF.
    destruct HE as (t & Ht & c & Hc & Hn). destruct (HF t Ht) as (c' & Hc' & ?). congruence. }
  assert (∀ l, Exists (λ t, find_condition i t = None) l → ¬ Forall (known_healthy i) l).
  { intros l HE HF. rewrite Exists_exists in HE. rewrite Forall_forall in HF.
    destruct HE as (t & Ht & Hc). destruct (HF t Ht) as (c' & Hc' & ?). congruence. }
  intros H1 H2. destruct H1, H2; try done; try congruence; naive_solver congruence.
Qed.

(** C39: [derivePhase] decides the phase and the readiness flag exactly as the
    phases are defined: the five specified cases are exhaustive and exclude each
    other, so an instance has one phase and the code computes it. *)
Theorem derivePhase_refines i p r : derivePhase i = (p, r) ↔ phase_spec i p r.
Proof.
  pose proof (derivePhase_sound i) as Hs. destruct (derivePhase i) as [p0 r0]. cbn in Hs. split.
  - by intros [= <- <-].
  - intros H. destruct (phase_spec_functional _ _ _ _ _ Hs H). congruence.
Qed.

(** An instance is reported ready in phase Running only, and exactly when
    nothing stops it, no migration is pending, web and worker have a ready
    replica and every datastore probe has reported healthy. *)
Theorem derivePhase_ready i :
  (derivePhase i).2 = true ↔
  ¬ stopped i ∧ migrationRunning i = false ∧ componentsReady i = true ∧
  Forall (known_healthy i) dependencyConditions.
Proof.
  destruct (derivePhase i) as [p r] eqn:E. cbn. apply derivePhase_refines in E. split.
  - by destruct E.
  - intros (?&?&?&?). assert (phase_spec i phaseRunning true) as HR by by constructor.
    destruct (phase_spec_functional _ _ _ _ _ HR E) as [_ <-]. done.
Qed.
End properties.
