(* ===== verification/HealthMonitor.v ===== *)
(** * The health monitor ([internal/controller/health_monitor.go])

    Probes every dependency and inspects the two Deployments, publishes a condition
    for each, and mirrors the verdicts into the status. *)

From S2P Require Import Prelude GoStd KubeTypes ApiTypes Kube Examples Interfaces Status.
From S2P Require Import Config Resources PodIssues Phase.

Open Scope string_scope.
Open Scope list_scope.
Open Scope Z_scope.

Definition healthCheckInterval : Z := 30 * Second.

Definition conditionFromProbe (conditionType : string) (res : probeResult) (gen : Z) : Condition :=
  condition conditionType (if Connected res then ConditionTrue else ConditionFalse)
    (probe_Reason res) (probe_Message res) gen.

(** A meaningful change: another status or another reason. *)
Definition conditionChanged (existing updated : Condition) : bool :=
  negb (bool_decide (cond_Status existing = cond_Status updated)) ||
  negb (bool_decide (cond_Reason existing = cond_Reason updated)).

(** ** Mirrors of the verdicts, created when absent *)

Definition set_database_connected (b : bool) (i : LangfuseInstance) : LangfuseInstance :=
  let s := Instance_Status i in
  set_Instance_Status (set_Status_Database
    (Some (set_DatabaseStatus_Connected (Some b) (default zero_DatabaseStatus (Status_Database s)))) s) i.

Definition set_clickhouse_connected (b : bool) (i : LangfuseInstance) : LangfuseInstance :=
  let s := Instance_Status i in
  set_Instance_Status (set_Status_ClickHouse
    (Some (set_ClickHouseStatus_Connected (Some b) (default zero_ClickHouseStatus (Status_ClickHouse s)))) s) i.

Definition set_redis_connected (b : bool) (i : LangfuseInstance) : LangfuseInstance :=
  let s := Instance_Status i in
  set_Instance_Status (set_Status_Redis
    (Some (set_ConnectionStatus_Connected (Some b) (default zero_ConnectionStatus (Status_Redis s)))) s) i.

Definition set_blob_connected (b : bool) (provider : string) (i : LangfuseInstance) : LangfuseInstance :=
  let s := Instance_Status i in
  set_Instance_Status (set_Status_BlobStorage
    (Some (set_BlobStorageStatus_Provider provider (set_BlobStorageStatus_Connected (Some b)
             (default zero_BlobStorageStatus (Status_BlobStorage s))))) s) i.

Definition set_web_issues (issues : list PodIssue) (i : LangfuseInstance) : LangfuseInstance :=
  let s := Instance_Status i in
  set_Instance_Status (set_Status_Web
    (Some (set_Component_Issues issues (default zero_ComponentStatus (Status_Web s)))) s) i.

Definition set_worker_issues (issues : list PodIssue) (i : LangfuseInstance) : LangfuseInstance :=
  let s := Instance_Status i in
  let w := default zero_WorkerComponentStatus (Status_Worker s) in
  set_Instance_Status (set_Status_Worker
    (Some (set_WorkerStatus_ComponentStatus
             (set_Component_Issues issues (WorkerStatus_ComponentStatus w)) w)) s) i.

(** ** The controller *)

Section controller.
Context {W : Type} `{KubeClient W} `{API : ConditionAPI} `{PROBES : DependencyProbes W}.

(** Emits an event when a condition already published changes. *)
Definition applyCondition (instance : LangfuseInstance) (c : Condition) : M (St W) LangfuseInstance :=
  (match find_condition instance (cond_Type c) with
   | Some existing =>
       if conditionChanged existing c then
         Event (if bool_decide (cond_Status c = ConditionFalse) then EventWarning else EventNormal)
           (cond_Reason c) (cond_Type c +:+ ": " +:+ cond_Message c)
       else mret tt
   | None => mret tt
   end) ≫= λ _,
  mret (set_Instance_Status (set_Status_Conditions
          (SetStatusCondition (Status_Conditions (Instance_Status instance)) c)
          (Instance_Status instance)) instance).

Definition generation (i : LangfuseInstance) : Z := om_Generation (Instance_ObjectMeta i).

(** The verdict of a probe, on record. *)
Definition probed (i : LangfuseInstance) (component : string) (probe : LangfuseInstance → M (St W) probeResult)
    : M (St W) probeResult :=
  res ← probe i;
  note (CProbed (key_String (om_key (Instance_ObjectMeta i))) component (Connected res)) ≫= λ _,
  mret res.

Definition checkDatabase (i : LangfuseInstance) : M (St W) (LangfuseInstance * Condition) :=
  res ← probed i "database" probeDatabase;
  mret (set_database_connected (Connected res) i, conditionFromProbe conditionDatabaseReady res (generation i)).

Definition checkClickHouse (i : LangfuseInstance) : M (St W) (LangfuseInstance * Condition) :=
  res ← probed i "clickhouse" probeClickHouse;
  mret (set_clickhouse_connected (Connected res) i,
        conditionFromProbe conditionClickHouseReady res (generation i)).

Definition checkRedis (i : LangfuseInstance) : M (St W) (LangfuseInstance * Condition) :=
  res ← probed i "redis" probeRedis;
  mret (set_redis_connected (Connected res) i, conditionFromProbe conditionRedisReady res (generation i)).

Definition checkBlobStorage (i : LangfuseInstance) : M (St W) (LangfuseInstance * Condition) :=
  match Spec_BlobStorage (Instance_Spec i) with
  | None => mret (i, condition conditionBlobStorageReady ConditionTrue "NotConfigured"
                       "Blob storage is not configured (using default)" (generation i))
  | Some bs =>
      res ← probed i "blobstorage" probeBlobStorage;
      mret (set_blob_connected (Connected res) (BlobStorage_Provider bs) i,
            conditionFromProbe conditionBlobStorageReady res (generation i))
  end.

Definition deploymentReady (d : Deployment) : bool :=
  (dep_StatusReadyReplicas d >? 0) && (dep_StatusReadyReplicas d >=? dep_StatusReplicas d).

Definition checkComponentDeployment (i : LangfuseInstance) (component deployName conditionType : string)
    : M (St W) (Condition * list PodIssue) :=
  let cond status reason message := condition conditionType status reason message (generation i) in
  r ← Get_Deployment (in_ns i deployName);
  match r with
  | Err e =>
      mret (if IsNotFound e
            then cond ConditionFalse "DeploymentNotFound" (component +:+ " deployment does not exist")
            else cond ConditionFalse "FetchError"
                   ("Failed to check " +:+ component +:+ " deployment: " +:+ err_msg e), [])
  | Ok deploy =>
      let replicaSummary := component +:+ " deployment has " +:+ itoa (dep_StatusReadyReplicas deploy) +:+
        "/" +:+ itoa (dep_StatusReplicas deploy) +:+ " ready replicas" in
      if deploymentReady deploy then mret (cond ConditionTrue "DeploymentReady" replicaSummary, [])
      else
        r ← collectPodIssues (om_Namespace (Instance_ObjectMeta i)) (SelectorLabels i component);
        mret match r with
             | Err _ => (cond ConditionFalse "DeploymentNotReady" replicaSummary, [])
             | Ok issues =>
                 let '(reason, message) := summarizePodIssues issues "DeploymentNotReady" replicaSummary in
                 (cond ConditionFalse reason message, issues)
             end
  end.

Definition checkWebDeployment (i : LangfuseInstance) : M (St W) (LangfuseInstance * Condition) :=
  '(c, issues) ← checkComponentDeployment i componentWeb (WebName i) conditionWebReady;
  mret (set_web_issues issues i, c).

Definition checkWorkerDeployment (i : LangfuseInstance) : M (St W) (LangfuseInstance * Condition) :=
  '(c, issues) ← checkComponentDeployment i componentWorker (WorkerName i) conditionWorkerReady;
  mret (set_worker_issues issues i, c).

(** One check and the condition it publishes. *)
Definition checkAndApply (check : LangfuseInstance → M (St W) (LangfuseInstance * Condition))
    (i : LangfuseInstance) : M (St W) LangfuseInstance :=
  '(i, c) ← check i;
  applyCondition i c.

(** Steps 3 to 8 of the pass. *)
Definition inspect (i : LangfuseInstance) : M (St W) LangfuseInstance :=
  i ← checkAndApply checkDatabase i;
  i ← checkAndApply checkClickHouse i;
  i ← checkAndApply checkRedis i;
  i ← checkAndApply checkBlobStorage i;
  i ← checkAndApply checkWebDeployment i;
  checkAndApply checkWorkerDeployment i.

Definition Reconcile (req : NamespacedName) : M (St W) Outcome :=
  r ← Get_Instance req;
  match r with
  | Err e => if IsNotFound e then mret done_now
             else mret (failed (wrapError "fetching LangfuseInstance" e))
  | Ok instance =>
      match om_DeletionTimestamp (Instance_ObjectMeta instance) with
      | Some _ => mret done_now
      | None =>
          if migrationRunning instance then mret (done_after healthCheckInterval)
          else
            i ← inspect instance;
            e ← updateInstanceStatus i instance;
            mret match e with
                 | Some e => statusWriteFailed e "updating health status"
                 | None => done_after healthCheckInterval
                 end
      end
  end.
End controller.

(** ** Properties *)

(** The verdicts a trace holds, in order. *)
Definition verdict_of (c : Call) : option (string * bool) :=
  match c with CProbed _ component healthy => Some (component, healthy) | _ => None end.
Definition verdicts (cs : list Call) : list (string * bool) := omap verdict_of cs.

Definition verdict_status (b : bool) : ConditionStatus := if b then ConditionTrue else ConditionFalse.

(** The status of the Deployment an answer is about. *)
Definition deployment_status (r : result Deployment) : ConditionStatus :=
  verdict_status (match r with Ok d => deploymentReady d | Err _ => false end).

Section properties.
Context {W : Type} `{KubeClient W} `{API : ConditionAPI} {LAWS : ConditionLaws API}
  `{PROBES : DependencyProbes W} {PL : ProbeLaws PROBES}.

Definition status_of (i : LangfuseInstance) (t : string) : option ConditionStatus :=
  cond_Status <$> find_condition i t.

(** The instance but for its conditions. *)
Definition bare (i : LangfuseInstance) : LangfuseInstance :=
  set_Instance_Status (set_Status_Conditions [] (Instance_Status i)) i.

(** [i'] is [i] with the condition [t] at status [s]: spec, metadata, migration
    status and the other conditions are untouched. *)
Record reports (i i' : LangfuseInstance) (t : string) (s : ConditionStatus) : Prop := {
  reports_spec : Instance_Spec i' = Instance_Spec i;
  reports_meta : Instance_ObjectMeta i' = Instance_ObjectMeta i;
  reports_migration : Status_Migration (Instance_Status i') = Status_Migration (Instance_Status i);
  reports_this : status_of i' t = Some s;
  reports_others t' : t' ≠ t → find_condition i' t' = find_condition i t'
}.

Lemma verdicts_app cs cs' : verdicts (cs ++ cs') = verdicts cs ++ verdicts cs'.
Proof. apply omap_app. Qed.

Lemma reads_verdicts cs : Forall reads_secrets cs → verdicts cs = [].
Proof. unfold verdicts. induction 1 as [|c cs Hc _ IH]; [done|]. cbn. by destruct c. Qed.

Lemma applyCondition_traces i c :
  traces (λ i' cs, (reports i i' (cond_Type c) (cond_Status c) ∧ bare i' = bare i) ∧ verdicts cs = [])
    (applyCondition i c).
Proof.
  unfold applyCondition.
  apply traces_bind with (λ _ cs, verdicts cs = []).
  { destruct (find_condition _ _) as [existing|]; [|by apply traces_mret].
    destruct (conditionChanged _ _); [by apply traces_call|by apply traces_mret]. }
  intros _ cs Hcs. apply traces_mret. rewrite app_nil_r. split; [|done]. split; [|done]. split; try done.
  - unfold status_of, find_condition. cbn. by rewrite find_set_eq.
  - intros t Ht. unfold find_condition. cbn. by rewrite find_set_ne.
Qed.

(** A mirror in the status changes no condition, and reads none. *)
Definition mirror (f : LangfuseInstance → LangfuseInstance) : Prop :=
  ∀ i, Instance_Spec (f i) = Instance_Spec i ∧ Instance_ObjectMeta (f i) = Instance_ObjectMeta i ∧
       Status_Migration (Instance_Status (f i)) = Status_Migration (Instance_Status i) ∧
       Status_Conditions (Instance_Status (f i)) = Status_Conditions (Instance_Status i) ∧
       bare (f i) = f (bare i).

Lemma reports_mirror f i i' t s : mirror f → reports (f i) i' t s → reports i i' t s.
Proof.
  intros Hf [H1 H2 H3 H4 H5]. destruct (Hf i) as (E1 & E2 & E3 & E4 & _). split; try congruence.
  intros t' Ht. rewrite H5 by done. unfold find_condition. by rewrite E4.
Qed.

Lemma probed_traces i comp (probe : LangfuseInstance → M (St W) probeResult) :
  emits_ret reads_secrets (λ _, True) (probe i) →
  traces (λ res cs, verdicts cs = [(comp, Connected res)]) (probed i comp probe).
Proof.
  intros Hp. unfold probed. eapply traces_bind; [by apply emits_traces|]. intros res reads [_ Hr].
  apply traces_note_bind, traces_mret. rewrite verdicts_app, reads_verdicts by done. done.
Qed.

(** A check that probes: the condition it publishes is the verdict. *)
Lemma probe_check_traces i comp (probe : LangfuseInstance → M (St W) probeResult) t
    (f : bool → LangfuseInstance → LangfuseInstance) :
  emits_ret reads_secrets (λ _, True) (probe i) → (∀ b, mirror (f b)) →
  traces (λ i' cs, ∃ b, verdicts cs = [(comp, b)] ∧ reports i i' t (verdict_status b) ∧ bare i' = f b (bare i))
    (checkAndApply (λ i, res ← probed i comp probe;
                         mret (f (Connected res) i, conditionFromProbe t res (generation i))) i).
Proof.
  intros Hp Hf. unfold checkAndApply.
  apply traces_bind with (λ (p : LangfuseInstance * Condition) cs, ∃ b, verdicts cs = [(comp, b)] ∧
    p.1 = f b i ∧ cond_Type p.2 = t ∧ cond_Status p.2 = verdict_status b).
  { eapply traces_bind; [by apply probed_traces|]. intros res cs Hcs.
    apply traces_mret. exists (Connected res). by rewrite app_nil_r. }
  intros [i1 c] cs (b & Hcs & Hi & Ht & Hs). cbn in Hi, Ht, Hs. subst i1.
  eapply traces_mono; [apply applyCondition_traces|]. cbn beta. intros i' cs' [[Hr Hb] Hcs'].
  exists b. rewrite verdicts_app, Hcs, Hcs'. split; [done|]. rewrite Ht, Hs in Hr.
  split; [by eapply reports_mirror|]. rewrite Hb. apply Hf.
Qed.

(** The pod issues to report of a Deployment, given how it was read: those of its pods,
    which are listed only when it is not ready. *)
Definition issues_found (i : LangfuseInstance) (comp : string) (r : result Deployment) (cs : list Call)
    (issues : list PodIssue) : Prop :=
  match r with
  | Ok d => if deploymentReady d then issues = []
            else ∃ pods, CListPods (om_Namespace (Instance_ObjectMeta i)) (SelectorLabels i comp) pods ∈ cs ∧
                   issues = match pods with Ok pods => reportIssues pods | Err _ => [] end
  | Err _ => issues = []
  end.

Lemma issues_found_more i comp r cs cs' issues :
  cs ⊆ cs' → issues_found i comp r cs issues → issues_found i comp r cs' issues.
Proof.
  intros Hsub. destruct r as [d|]; [|done]. cbn. destruct (deploymentReady d); [done|].
  intros (pods & Hp & ->). exists pods. auto.
Qed.

Lemma issues_found_meta i i' comp r cs issues :
  Instance_ObjectMeta i' = Instance_ObjectMeta i → issues_found i' comp r cs issues → issues_found i comp r cs issues.
Proof. intros E. unfold issues_found, SelectorLabels. by rewrite E. Qed.

Lemma checkComponentDeployment_traces i comp name t :
  traces (λ p cs, verdicts cs = [] ∧ cond_Type p.1 = t ∧
            ∃ r, CGetDeployment (in_ns i name) r ∈ cs ∧ cond_Status p.1 = deployment_status r ∧
                 issues_found i comp r cs p.2)
    (checkComponentDeployment i comp name t).
Proof.
  unfold checkComponentDeployment. cbv zeta. apply traces_call_bind. intros r.
  assert (∀ (p : Condition * list PodIssue) cs, cond_Type p.1 = t → cond_Status p.1 = deployment_status r → verdicts cs = [] →
    issues_found i comp r cs p.2 →
    verdicts (CGetDeployment (in_ns i name) r :: cs) = [] ∧ cond_Type p.1 = t ∧
    ∃ r0, CGetDeployment (in_ns i name) r0 ∈ CGetDeployment (in_ns i name) r :: cs ∧
          cond_Status p.1 = deployment_status r0 ∧ issues_found i comp r0 (CGetDeployment (in_ns i name) r :: cs) p.2) as Hok.
  { intros p cs Ht Hs Hcs Hl. split; [done|]. split; [done|]. exists r. split; [by left|]. split; [done|].
    eapply issues_found_more, Hl. set_solver. }
  destruct r as [d|e].
  - unfold deployment_status in Hok. destruct (deploymentReady d) eqn:Ed.
    { apply traces_mret. apply Hok; try done. cbn. by rewrite Ed. }
    unfold collectPodIssues.
    apply traces_bind with (λ res cs, ∃ pods, cs = [CListPods (om_Namespace (Instance_ObjectMeta i)) (SelectorLabels i comp) pods] ∧
      match pods with Ok l => res = Ok (reportIssues l) | Err _ => ∃ e, res = Err e end).
    { apply traces_call_bind. intros [pods|e]; apply traces_mret; [exists (Ok pods)|exists (Err e)]; split; eauto. }
    intros res cs (pods & -> & Hres).
    assert (∀ issues, issues = match pods with Ok l => reportIssues l | Err _ => [] end → issues_found i comp (Ok d)
              [CListPods (om_Namespace (Instance_ObjectMeta i)) (SelectorLabels i comp) pods] issues) as Hl
      by (intros issues ->; cbn; rewrite Ed; exists pods; split; [by left|done]).
    destruct pods as [l|]; [subst res|destruct Hres as [? ->]]; apply traces_mret.
    + destruct (summarizePodIssues _ _ _) as [reason message]. apply Hok; try done. by apply Hl.
    + apply Hok; try done. by apply Hl.
  - apply traces_mret. apply Hok; by destruct (IsNotFound e).
Qed.

Lemma deployment_check_traces i comp name t (f : list PodIssue → LangfuseInstance → LangfuseInstance) :
  (∀ l, mirror (f l)) →
  traces (λ i' cs, verdicts cs = [] ∧
            ∃ r l, CGetDeployment (in_ns i name) r ∈ cs ∧ issues_found i comp r cs l ∧
                   reports i i' t (deployment_status r) ∧ bare i' = f l (bare i))
    (checkAndApply (λ i, '(c, issues) ← checkComponentDeployment i comp name t; mret (f issues i, c)) i).
Proof.
  intros Hf. unfold checkAndApply.
  apply traces_bind with (λ (p : LangfuseInstance * Condition) cs, verdicts cs = [] ∧
    cond_Type p.2 = t ∧ ∃ r l, p.1 = f l i ∧
      CGetDeployment (in_ns i name) r ∈ cs ∧ issues_found i comp r cs l ∧ cond_Status p.2 = deployment_status r).
  { eapply traces_bind; [apply checkComponentDeployment_traces|]. intros [c issues] cs (Hcs & Ht & r & Hr & Hs & Hl).
    apply traces_mret. rewrite app_nil_r. split_and!; [done|done|by exists r, issues]. }
  intros [i1 c] cs (Hcs & Ht & r & l & Hi & Hr & Hl & Hs). cbn in Hi, Ht, Hs. subst i1.
  eapply traces_mono; [apply applyCondition_traces|]. cbn beta. intros i' cs' [[Hrep Hb] Hcs'].
  rewrite verdicts_app, Hcs, Hcs'. split; [done|]. exists r, l. split; [apply elem_of_app; by left|].
  rewrite Ht, Hs in Hrep. split_and!; [|by eapply reports_mirror|rewrite Hb; apply Hf].
  eapply issues_found_more, Hl. set_solver.
Qed.

(** The conditions this controller publishes. *)
Definition health_conditions : list string := dependencyConditions ++ [conditionWebReady; conditionWorkerReady].

(** Whether blob storage is connected and who provides it, if it is configured. *)
Definition blob_reported (bs : option BlobStorageSpec) (b : bool) (i : LangfuseInstance) : LangfuseInstance :=
  match bs with Some bs => set_blob_connected b (BlobStorage_Provider bs) i | None => i end.

(** The published instance [i'] says what the calls [cs] found of [i]: but for the
    conditions it is [i] with the flags, the provider and the issues set. *)
Record health_report (i i' : LangfuseInstance) (cs : list Call) (db ch rd bl : bool) : Prop := {
  hr_spec : Instance_Spec i' = Instance_Spec i;
  hr_migration : Status_Migration (Instance_Status i') = Status_Migration (Instance_Status i);
  hr_others t : t ∉ health_conditions → find_condition i' t = find_condition i t;
  hr_verdicts : verdicts cs = [("database", db); ("clickhouse", ch); ("redis", rd)] ++
                  match Spec_BlobStorage (Instance_Spec i) with Some _ => [("blobstorage", bl)] | None => [] end;
  hr_unconfigured : Spec_BlobStorage (Instance_Spec i) = None → bl = true;
  hr_dependencies : dependencyHealth i' = (negb (db && ch && rd && bl), db && ch && rd && bl);
  hr_workloads : ∃ rw rk web worker,
    CGetDeployment (in_ns i (WebName i)) rw ∈ cs ∧ CGetDeployment (in_ns i (WorkerName i)) rk ∈ cs ∧
    status_of i' conditionWebReady = Some (deployment_status rw) ∧
    status_of i' conditionWorkerReady = Some (deployment_status rk) ∧
    issues_found i componentWeb rw cs web ∧ issues_found i componentWorker rk cs worker ∧
    bare i' = set_worker_issues worker (set_web_issues web
      (blob_reported (Spec_BlobStorage (Instance_Spec i)) bl (set_redis_connected rd
        (set_clickhouse_connected ch (set_database_connected db (bare i))))))
}.

Lemma status_others i i' t s t' : reports i i' t s → t' ≠ t → status_of i' t' = status_of i t'.
Proof. intros Hr Ht. unfold status_of. by rewrite (reports_others _ _ _ _ Hr). Qed.

(** The verdict on blob storage, healthy when there is none to check. *)
Lemma blob_check_traces i :
  traces (λ i' cs, ∃ b, verdicts cs = match Spec_BlobStorage (Instance_Spec i) with
                                      | Some _ => [("blobstorage", b)] | None => [] end ∧
            (Spec_BlobStorage (Instance_Spec i) = None → b = true) ∧
            reports i i' conditionBlobStorageReady (verdict_status b) ∧
            bare i' = blob_reported (Spec_BlobStorage (Instance_Spec i)) b (bare i))
    (checkAndApply checkBlobStorage i).
Proof.
  destruct (Spec_BlobStorage (Instance_Spec i)) as [bs|] eqn:Eb.
  - eapply traces_mono.
    + pose proof (probe_check_traces i "blobstorage" probeBlobStorage conditionBlobStorageReady
        (λ b, set_blob_connected b (BlobStorage_Provider bs)) (probeBlobStorage_reads i) (λ b i, conj eq_refl (conj eq_refl (conj eq_refl (conj eq_refl eq_refl))))) as Ht.
      unfold checkAndApply, checkBlobStorage in *. rewrite Eb. exact Ht.
    + cbn. intros i' cs (b & Hv & Hr). by exists b.
  - unfold checkAndApply, checkBlobStorage. rewrite Eb.
    apply traces_bind with (λ (p : LangfuseInstance * Condition) cs, cs = [] ∧ p.1 = i ∧
      cond_Type p.2 = conditionBlobStorageReady ∧ cond_Status p.2 = ConditionTrue); [by apply traces_mret|].
    intros [i1 c] cs (-> & Hi & Ht & Hs). cbn in Hi, Ht, Hs. subst i1.
    eapply traces_mono; [apply applyCondition_traces|]. cbn beta. intros i' cs [[Hr Hb] Hcs].
    exists true. cbn [app]. rewrite Hcs. rewrite Ht, Hs in Hr. done.
Qed.

Lemma dependencyHealth_verdicts i db ch rd bl :
  status_of i conditionDatabaseReady = Some (verdict_status db) →
  status_of i conditionClickHouseReady = Some (verdict_status ch) →
  status_of i conditionRedisReady = Some (verdict_status rd) →
  status_of i conditionBlobStorageReady = Some (verdict_status bl) →
  dependencyHealth i = (negb (db && ch && rd && bl), db && ch && rd && bl).
Proof.
  unfold status_of, dependencyHealth, dependencyConditions. intros H1 H2 H3 H4. cbn [dependencyHealth_loop].
  destruct (find_condition i conditionDatabaseReady); [|done].
  destruct (find_condition i conditionClickHouseReady); [|done].
  destruct (find_condition i conditionRedisReady); [|done].
  destruct (find_condition i conditionBlobStorageReady); [|done].
  cbn in *. simplify_eq. rewrite H1, H2, H3, H4. by destruct db, ch, rd, bl.
Qed.

Lemma inspect_traces i :
  traces (λ i' cs, ∃ db ch rd bl, health_report i i' cs db ch rd bl) (inspect i).
Proof.
  unfold inspect.
  assert (∀ f : bool → LangfuseInstance → LangfuseInstance,
    (f = set_database_connected ∨ f = set_clickhouse_connected ∨ f = set_redis_connected) → ∀ b, mirror (f b)) as Hm.
  { by intros f [->|[->| ->]] b j. }
  eapply traces_bind; [apply (probe_check_traces i "database" probeDatabase conditionDatabaseReady set_database_connected);
    [apply probeDatabase_reads|auto]|]. intros i1 cs1 (db & V1 & R1 & B1).
  eapply traces_bind; [apply (probe_check_traces i1 "clickhouse" probeClickHouse conditionClickHouseReady set_clickhouse_connected);
    [apply probeClickHouse_reads|auto]|]. intros i2 cs2 (ch & V2 & R2 & B2).
  eapply traces_bind; [apply (probe_check_traces i2 "redis" probeRedis conditionRedisReady set_redis_connected);
    [apply probeRedis_reads|auto]|]. intros i3 cs3 (rd & V3 & R3 & B3).
  eapply traces_bind; [apply blob_check_traces|]. intros i4 cs4 (bl & V4 & U4 & R4 & B4).
  eapply traces_bind; [apply (deployment_check_traces i4 componentWeb (WebName i4) conditionWebReady set_web_issues); by intros l j|].
  intros i5 cs5 (V5 & rw & lw & G5 & I5 & R5 & B5).
  eapply traces_mono; [apply (deployment_check_traces i5 componentWorker (WorkerName i5) conditionWorkerReady set_worker_issues); by intros l j|].
  cbn beta. intros i6 cs6 (V6 & rk & lk & G6 & I6 & R6 & B6).
  assert (Instance_Spec i3 = Instance_Spec i ∧ Instance_ObjectMeta i4 = Instance_ObjectMeta i ∧
          Instance_ObjectMeta i5 = Instance_ObjectMeta i) as (Es & Em4 & Em5).
  { destruct R1, R2, R3, R4, R5. split_and!; congruence. }
  rewrite Es in V4, U4, B4. exists db, ch, rd, bl. split.
  1-2: destruct R1, R2, R3, R4, R5, R6; congruence.
  - intros t Ht. unfold health_conditions, dependencyConditions in Ht.
    rewrite (reports_others _ _ _ _ R6), (reports_others _ _ _ _ R5), (reports_others _ _ _ _ R4),
      (reports_others _ _ _ _ R3), (reports_others _ _ _ _ R2), (reports_others _ _ _ _ R1);
      first [done | intros ->; set_solver].
  - rewrite !verdicts_app, V1, V2, V3, V4, V5, V6, !app_nil_r. done.
  - exact U4.
  - apply dependencyHealth_verdicts.
    + rewrite (status_others _ _ _ _ _ R6), (status_others _ _ _ _ _ R5), (status_others _ _ _ _ _ R4),
        (status_others _ _ _ _ _ R3), (status_others _ _ _ _ _ R2) by done. apply R1.
    + rewrite (status_others _ _ _ _ _ R6), (status_others _ _ _ _ _ R5), (status_others _ _ _ _ _ R4),
        (status_others _ _ _ _ _ R3) by done. apply R2.
    + rewrite (status_others _ _ _ _ _ R6), (status_others _ _ _ _ _ R5), (status_others _ _ _ _ _ R4) by done. apply R3.
    + rewrite (status_others _ _ _ _ _ R6), (status_others _ _ _ _ _ R5) by done. apply R4.
  - exists rw, rk, lw, lk. unfold in_ns, WebName, WorkerName in *. rewrite Em4 in G5. rewrite Em5 in G6.
    split_and!; [set_solver|set_solver|rewrite (status_others _ _ _ _ _ R6) by done; apply R5|apply R6| | |congruence].
    + eapply issues_found_more, issues_found_meta, I5; [set_solver|done].
    + eapply issues_found_more, issues_found_meta, I6; [set_solver|done].
Qed.

(** The checks write nothing. *)
Definition no_status_write (c : Call) : Prop := match c with CUpdateStatus _ _ => False | _ => True end.

Lemma check_emits (check : LangfuseInstance → M (St W) (LangfuseInstance * Condition)) i :
  emits_ret no_status_write (λ _, True) (check i) → emits_ret no_status_write (λ _, True) (checkAndApply check i).
Proof.
  intros Hc. unfold checkAndApply, applyCondition. eapply emits_ret_bind; [exact Hc|]. intros [i1 c] _.
  apply emits_ret_bind with (λ _, True); [|intros; by apply emits_ret_mret].
  destruct (find_condition _ _); [|by apply emits_ret_mret].
  destruct (conditionChanged _ _); [by apply emits_ret_call|by apply emits_ret_mret].
Qed.

Lemma probed_emits i comp (probe : LangfuseInstance → M (St W) probeResult) :
  emits_ret reads_secrets (λ _, True) (probe i) → emits_ret no_status_write (λ _, True) (probed i comp probe).
Proof.
  intros Hp. unfold probed. apply emits_ret_bind with (λ _, True).
  - eapply emits_ret_mono; [exact Hp| |done]. by intros [].
  - intros res _. apply emits_traces, traces_note_bind, traces_mret. split; [done|]. by repeat constructor.
Qed.

Lemma deployment_emits i comp name t :
  emits_ret no_status_write (λ _, True) (checkComponentDeployment i comp name t).
Proof.
  unfold checkComponentDeployment, collectPodIssues. cbv zeta.
  apply emits_ret_bind with (λ _, True); [by apply emits_ret_call|]. intros [d|e] _; [|by apply emits_ret_mret].
  destruct (deploymentReady d); [by apply emits_ret_mret|].
  apply emits_ret_bind with (λ _, True); [|intros; by apply emits_ret_mret].
  apply emits_ret_bind with (λ _, True); [by apply emits_ret_call|]. intros [|] _; by apply emits_ret_mret.
Qed.

Lemma inspect_emits i : emits_ret no_status_write (λ _, True) (inspect i).
Proof.
  unfold inspect.
  repeat (apply emits_ret_bind with (λ _, True); [apply check_emits|intros ? _]); [..|apply check_emits].
  1-3: (apply emits_ret_bind with (λ _, True); [apply probed_emits; apply PL|intros; by apply emits_ret_mret]).
  - unfold checkBlobStorage. destruct (Spec_BlobStorage _); [|by apply emits_ret_mret].
    apply emits_ret_bind with (λ _, True); [apply probed_emits; apply PL|intros; by apply emits_ret_mret].
  - apply emits_ret_bind with (λ _, True); [apply deployment_emits|intros [? ?] _; by apply emits_ret_mret].
  - apply emits_ret_bind with (λ _, True); [apply deployment_emits|intros [? ?] _; by apply emits_ret_mret].
Qed.

End properties.

(** ** Witnesses *)

(** One pass while Redis is down and neither Deployment exists. *)
Definition ex_health : Outcome * FakeCluster * list Call :=
  run (Reconcile (API := list_conditions) (PROBES := fixed_probes true false true) ex_key)
    (ex_cluster (ex_instance "3.1" "pg" "db") None).

Definition ex_published : LangfuseInstance :=
  default (ex_instance "" "" "")
    (head (omap (λ c, match c with CUpdateStatus i None => Some i | _ => None end) ex_health.2)).

