(* ===== verification/Identity.v ===== *)
(** * Migration identities ([internal/controller/migration_controller.go])

    A migration identity is the text by which the operator remembers what the
    last migration ran against: the version, the datastore references, the
    clustering mode and the ClickHouse database.  This file holds its printer,
    its parsers and the comparisons the migration gate and the workload freeze
    are made of. *)

From Stdlib Require Import Ascii.
From S2P Require Import Prelude GoStd KubeTypes ApiTypes Kube Examples Version Config.

Open Scope string_scope.
Open Scope list_scope.

Definition migrationIdentityAnnotation : string := "langfuse.palena.ai/migration-identity".

(** From [clickhouse_client.go]. *)
Definition defaultClickHouseDatabase : string := "default".

Definition clickHouseDatabase (i : LangfuseInstance) : string :=
  match Spec_ClickHouse (Instance_Spec i) with
  | Some ch => if nonempty_str (ClickHouse_Database ch) then ClickHouse_Database ch
               else defaultClickHouseDatabase
  | None => defaultClickHouseDatabase
  end.

Definition postgresURLKey (ref : SecretKeysRef) : string :=
  if nonempty_str (key_of ref "url") then key_of ref "url" else "database_url".

Definition clickHouseURLKey (ref : SecretKeysRef) : string :=
  if nonempty_str (key_of ref "url") then key_of ref "url" else "url".

Definition postgresRefName (i : LangfuseInstance) : string :=
  match Spec_Database (Instance_Spec i) with
  | None => ""
  | Some db =>
      match Database_CloudNativePG db, Database_External db with
      | Some cnpg, _ => "cnpg/" +:+ ObjectReference_Name (CloudNativePG_ClusterRef cnpg)
      | None, Some ext =>
          let ref := ExternalDatabase_SecretRef ext in
          "secret/" +:+ SecretKeysRef_Name ref +:+ "#url=" +:+ postgresURLKey ref +:+
          ",directUrl=" +:+ key_of ref "directUrl"
      | None, None => ""
      end
  end.

Definition clickHouseRefName (i : LangfuseInstance) : string :=
  match Spec_ClickHouse (Instance_Spec i) with
  | None => ""
  | Some ch =>
      match ClickHouse_Managed ch, ClickHouse_External ch with
      | Some _, _ => "managed"
      | None, Some ext =>
          let ref := ExternalClickHouse_SecretRef ext in
          "secret/" +:+ SecretKeysRef_Name ref +:+ "#url=" +:+ clickHouseURLKey ref +:+
          ",migrationUrl=" +:+ key_of ref "migrationUrl"
      | None, None => ""
      end
  end.

Record migrationTarget := mkTarget {
  version : string;
  postgresRef : string;
  clickHouseRef : string;
  clickHouseDB : string;
  clickHouseClust : bool
}.

Definition migrationIdentityClusterKey : string := "clickhouse-cluster=".
Definition migrationIdentityPostgresRefKey : string := "postgres-ref=".
Definition migrationIdentityClickHouseRefKey : string := "clickhouse-ref=".
Definition migrationIdentityDatabaseKey : string := "clickhouse-db=".

Definition buildMigrationIdentity (t : migrationTarget) : string :=
  NormalizeVersion (version t) +:+ "|" +:+
  migrationIdentityPostgresRefKey +:+ postgresRef t +:+ "|" +:+
  migrationIdentityClickHouseRefKey +:+ clickHouseRef t +:+ "|" +:+
  migrationIdentityClusterKey +:+ FormatBool (clickHouseClust t) +:+ "|" +:+
  migrationIdentityDatabaseKey +:+ clickHouseDB t.

Definition instance_target (i : LangfuseInstance) : migrationTarget :=
  mkTarget (Image_Tag (Spec_Image (Instance_Spec i))) (postgresRefName i) (clickHouseRefName i)
    (clickHouseDatabase i) (ClusterEnabled (Spec_ClickHouse (Instance_Spec i))).

Definition migrationIdentity (i : LangfuseInstance) : string :=
  buildMigrationIdentity (instance_target i).

(** ** Parsing *)

Definition identityVersion (identity : string) : string := (Cut identity "|").1.1.

Fixpoint first_component (parts : list string) (key : string) : option string :=
  match parts with
  | [] => None
  | part :: parts =>
      match CutPrefix part key with
      | Some value => Some value
      | None => first_component parts key
      end
  end.

Definition identityComponent (identity key : string) : option string :=
  first_component (Split "|"%char identity) key.

Definition identityClusterMode (identity : string) : option string :=
  identityComponent identity migrationIdentityClusterKey.

Definition identityLookup (key : string) : string → option string :=
  λ identity, identityComponent identity key.

Definition identityDatabase (identity : string) : option string :=
  snd <$> cut identity ("|" +:+ migrationIdentityDatabaseKey).

(** A mapping is cut at its first equals sign. *)
Definition add_mapping (keys : gmap string string) (mapping : string) : gmap string string :=
  let '(key, value, _) := Cut mapping "=" in <[key := value]> keys.

Definition splitRef (ref : string) : string * gmap string string :=
  match cut ref "#" with
  | None => (ref, ∅)
  | Some (name, mappings) => (name, foldl add_mapping ∅ (Split ","%char mappings))
  end.

(** ** Comparison *)

Definition refsAgree (applied desired : string) : bool :=
  let '(appliedName, appliedKeys) := splitRef applied in
  let '(desiredName, desiredKeys) := splitRef desired in
  if negb (bool_decide (appliedName = desiredName)) then false
  else bool_decide (map_Forall (λ key was, desiredKeys !! key = Some was) appliedKeys).

Definition str_equal (was want : string) : bool := bool_decide (was = want).

(** One comparison of [migrationUpToDate]: a component the recorded identity
    does not carry is skipped, one the desired identity does not carry reads as
    the empty string. *)
Definition component_agrees (agree : string → string → bool) (lookup : string → option string)
    (applied desired : string) : bool :=
  match lookup applied with
  | None => true
  | Some was => agree was (default "" (lookup desired))
  end.

Definition migrationUpToDate (applied desired : string) : bool :=
  if bool_decide (applied = "") then false
  else if negb (bool_decide (identityVersion applied = identityVersion desired)) then false
  else if negb (forallb (λ key, component_agrees refsAgree (identityLookup key) applied desired)
                 [migrationIdentityPostgresRefKey; migrationIdentityClickHouseRefKey]) then false
  else if negb (component_agrees str_equal identityClusterMode applied desired) then false
  else component_agrees str_equal identityDatabase applied desired.

(** The comparisons of [retargetedComponents]: the field, how to find it in an
    identity, and what counts as the same value. *)
Definition retarget_checks : list (string * (string → option string) * (string → string → bool)) :=
  [ ("spec.database", identityLookup migrationIdentityPostgresRefKey, refsAgree);
    ("spec.clickhouse (connection)", identityLookup migrationIdentityClickHouseRefKey, refsAgree);
    ("spec.clickhouse.cluster.enabled", identityLookup migrationIdentityClusterKey, str_equal);
    ("spec.clickhouse.database", identityDatabase, str_equal) ].

Definition retarget_check (applied desired : string)
    (c : string * (string → option string) * (string → string → bool)) : option string :=
  let '(field, lookup, agree) := c in
  match lookup applied with
  | None => None
  | Some was =>
      let want := default "" (lookup desired) in
      if agree was want then None
      else Some (field +:+ " " +:+ quote was +:+ " -> " +:+ quote want)
  end.

Definition retargetedComponents (applied desired : string) : list string :=
  if bool_decide (applied = "") then []
  else omap (retarget_check applied desired) retarget_checks.

(** ** What the status records *)

Definition recordedIdentity (i : LangfuseInstance) : string :=
  match Status_Migration (Instance_Status i) with
  | Some m => MigrationStatus_AppliedIdentity m
  | None => ""
  end.

Definition appliedMigrationIdentity (i : LangfuseInstance) : string :=
  if nonempty_str (recordedIdentity i) then recordedIdentity i
  else match Status_Database (Instance_Status i) with
  | Some db =>
      if nonempty_str (DatabaseStatus_MigrationVersion db) then
        NormalizeVersion (DatabaseStatus_MigrationVersion db) +:+ "|" +:+
        migrationIdentityClusterKey +:+ FormatBool false +:+ "|" +:+
        migrationIdentityDatabaseKey +:+ defaultClickHouseDatabase
      else ""
  | None => ""
  end.

Definition legacyBaselineIdentity (i : LangfuseInstance) (desired : string) : option string :=
  if nonempty_str (recordedIdentity i) then None
  else
    let legacy := appliedMigrationIdentity i in
    if bool_decide (legacy = "") then None
    else if negb (migrationUpToDate legacy desired) then None
    else Some desired.

Definition missingClickHouseMigrationKeys (i : LangfuseInstance) : list string :=
  match Spec_ClickHouse (Instance_Spec i) ≫= ClickHouse_External with
  | None => []
  | Some ext =>
      filter (λ required, key_of (ExternalClickHouse_SecretRef ext) required = "")
        ["migrationUrl"; "username"; "password"]
  end.

(** ** Properties *)

Lemma bool_decide_lr (P : Prop) `{Decision P} b : (b = true ↔ P) → bool_decide P = b.
Proof. destruct b; [rewrite bool_decide_eq_true|rewrite bool_decide_eq_false]; naive_solver. Qed.

Lemma str_equal_true a b : str_equal a b = true ↔ a = b.
Proof. apply bool_decide_eq_true. Qed.

Lemma has_char_NormalizeVersion c s :
  has_char c s = false → has_char c (NormalizeVersion s) = false.
Proof.
  unfold NormalizeVersion, TrimPrefix. destruct (CutPrefix s "v") as [r|] eqn:E; [|done].
  apply CutPrefix_Some in E as ->. cbn [default]. rewrite has_char_app, orb_false_iff. tauto.
Qed.

(** A prefix that contains [c] is no prefix of a text that does not. *)
Lemma CutPrefix_nochar c s p :
  has_char c s = false → has_char c p = true → CutPrefix s p = None.
Proof.
  intros Hs Hp. destruct (CutPrefix s p) as [r|] eqn:E; [|done].
  apply CutPrefix_Some in E as ->. rewrite has_char_app, orb_false_iff in Hs. destruct Hs. congruence.
Qed.

(** *** Printing and parsing *)

(** Targets whose parts cannot be confused with the separators: an image tag
    has neither a bar nor an equals sign, an object reference has no bar.
    Nothing is asked of the database name. *)
Record wf_target (t : migrationTarget) : Prop := {
  wf_version_bar : has_char "|"%char (version t) = false;
  wf_version_eq : has_char "="%char (version t) = false;
  wf_postgres : has_char "|"%char (postgresRef t) = false;
  wf_clickhouse : has_char "|"%char (clickHouseRef t) = false
}.

Definition identity_parts (t : migrationTarget) : list string :=
  [ NormalizeVersion (version t);
    migrationIdentityPostgresRefKey +:+ postgresRef t;
    migrationIdentityClickHouseRefKey +:+ clickHouseRef t;
    migrationIdentityClusterKey +:+ FormatBool (clickHouseClust t) ].

Lemma Split_identity t :
  wf_target t →
  Split "|"%char (buildMigrationIdentity t) =
  identity_parts t ++ Split "|"%char (migrationIdentityDatabaseKey +:+ clickHouseDB t).
Proof.
  intros [Hv _ Hp Hc]. unfold buildMigrationIdentity.
  assert (∀ a b, has_char "|"%char a = false → Split "|"%char (a +:+ "|" +:+ b) = a :: Split "|"%char b)
    as Hs by (intros; by apply Split_app).
  rewrite Hs by by apply has_char_NormalizeVersion.
  rewrite <- (str_app_assoc migrationIdentityPostgresRefKey), Hs by done.
  rewrite <- (str_app_assoc migrationIdentityClickHouseRefKey), Hs by done.
  rewrite <- (str_app_assoc migrationIdentityClusterKey), Hs by by destruct (clickHouseClust t).
  done.
Qed.

Lemma identityVersion_build t :
  wf_target t → identityVersion (buildMigrationIdentity t) = NormalizeVersion (version t).
Proof.
  intros [Hv _ _ _]. unfold identityVersion, Cut, buildMigrationIdentity.
  match goal with |- context [cut (?a +:+ "|" +:+ ?b) _] =>
    change (cut (a +:+ "|" +:+ b) "|") with (cut (a +:+ String "|" "" +:+ b) (String "|" "")) end.
  rewrite cut_app_first; [done|]. by apply has_char_NormalizeVersion.
Qed.

Lemma identityComponent_build t :
  wf_target t →
  identityComponent (buildMigrationIdentity t) migrationIdentityPostgresRefKey = Some (postgresRef t) ∧
  identityComponent (buildMigrationIdentity t) migrationIdentityClickHouseRefKey = Some (clickHouseRef t) ∧
  identityComponent (buildMigrationIdentity t) migrationIdentityClusterKey =
    Some (FormatBool (clickHouseClust t)).
Proof.
  intros Hw. unfold identityComponent. rewrite Split_identity by done.
  assert (has_char "="%char (NormalizeVersion (version t)) = false) as He
    by apply has_char_NormalizeVersion, Hw.
  unfold identity_parts. cbn [first_component app].
  rewrite !(CutPrefix_nochar "="%char (NormalizeVersion _)) by done.
  rewrite !CutPrefix_app. done.
Qed.

Lemma identityDatabase_build t :
  wf_target t → identityDatabase (buildMigrationIdentity t) = Some (clickHouseDB t).
Proof.
  intros [Hv _ Hp Hc]. unfold identityDatabase, buildMigrationIdentity.
  set (sep := migrationIdentityDatabaseKey).
  change ("|" +:+ sep) with (String "|" sep).
  assert (∀ a b, has_char "|"%char a = false → CutPrefix b sep = None →
    snd <$> cut (a +:+ "|" +:+ b) (String "|" sep) = snd <$> cut b (String "|" sep)) as Hs.
  { intros a b Ha Hb. rewrite cut_skip by done. change ("|" +:+ b) with (String "|" b).
    rewrite cut_step by done. by destruct (cut b _) as [[??]|]. }
  rewrite Hs; [|by apply has_char_NormalizeVersion|done].
  rewrite <- (str_app_assoc migrationIdentityPostgresRefKey), Hs by done.
  rewrite <- (str_app_assoc migrationIdentityClickHouseRefKey), Hs by done.
  rewrite <- (str_app_assoc migrationIdentityClusterKey).
  change (?a +:+ "|" +:+ sep +:+ ?d) with (a +:+ String "|" sep +:+ d).
  rewrite cut_app_first; [done|]. by destruct (clickHouseClust t).
Qed.

(** Every component of a recorded identity can be read back, whatever the
    database name contains: printing a target and parsing the text returns the
    normalised version, both references, the clustering mode and the database. *)
Theorem identity_roundtrip t :
  wf_target t →
  let identity := buildMigrationIdentity t in
  identityVersion identity = NormalizeVersion (version t) ∧
  identityComponent identity migrationIdentityPostgresRefKey = Some (postgresRef t) ∧
  identityComponent identity migrationIdentityClickHouseRefKey = Some (clickHouseRef t) ∧
  identityClusterMode identity = Some (FormatBool (clickHouseClust t)) ∧
  identityDatabase identity = Some (clickHouseDB t).
Proof.
  intros Hw. destruct (identityComponent_build t Hw) as (?&?&?).
  split; [by apply identityVersion_build|]. repeat split; try done. by apply identityDatabase_build.
Qed.

Definition example_target : migrationTarget :=
  mkTarget "v3.112.0" "secret/pg#url=database_url,directUrl=" "managed" "a|clickhouse-db=b" true.

Lemma identity_roundtrip_witness :
  wf_target example_target ∧
  identityDatabase (buildMigrationIdentity example_target) = Some "a|clickhouse-db=b".
Proof.
  split; [by constructor|].
  apply (identity_roundtrip example_target). by constructor.
Defined.

(** *** The gate and the retarget check *)

Lemma component_agrees_check agree lookup applied desired field :
  component_agrees agree lookup applied desired = true ↔
  retarget_check applied desired (field, lookup, agree) = None.
Proof.
  unfold component_agrees, retarget_check. destruct (lookup applied); [|done].
  by destruct (agree _ _).
Qed.

Lemma retargetedComponents_nil applied desired :
  applied ≠ "" →
  retargetedComponents applied desired = [] ↔
  Forall (λ c, retarget_check applied desired c = None) retarget_checks.
Proof.
  intros Ha. unfold retargetedComponents. rewrite bool_decide_false by done.
  generalize retarget_checks. intros l. induction l as [|c l IH]; cbn; [by rewrite Forall_nil|].
  rewrite Forall_cons. destruct (retarget_check _ _ c); naive_solver.
Qed.

Lemma migrationUpToDate_components applied desired :
  migrationUpToDate applied desired = true ↔
  applied ≠ "" ∧ identityVersion applied = identityVersion desired ∧
  retargetedComponents applied desired = [].
Proof.
  unfold migrationUpToDate. case_bool_decide as Ha; [naive_solver|].
  case_bool_decide as Hv; cbn [negb]; [|naive_solver].
  rewrite retargetedComponents_nil by done. unfold retarget_checks.
  rewrite !Forall_cons, Forall_nil, <- !component_agrees_check.
  unfold identityClusterMode. cbn [forallb]. fold (identityLookup migrationIdentityClusterKey).
  destruct (component_agrees refsAgree (identityLookup migrationIdentityPostgresRefKey) _ _),
    (component_agrees refsAgree (identityLookup migrationIdentityClickHouseRefKey) _ _); cbn;
    try (intuition discriminate).
  destruct (component_agrees str_equal (identityLookup migrationIdentityClusterKey) _ _); cbn;
    intuition discriminate.
Qed.

(** What separates an upgrade from a move: a recorded identity covers the
    desired one exactly when something was recorded, the version is the same
    and no component of the datastore target changed.  So once the gate is open
    on a recorded identity, either the refusal to retarget applies or the
    version alone differs. *)
Theorem migrationUpToDate_iff applied desired :
  (migrationUpToDate applied desired = true ↔
   applied ≠ "" ∧ identityVersion applied = identityVersion desired ∧
   retargetedComponents applied desired = []) ∧
  (migrationUpToDate applied desired = false → retargetedComponents applied desired = [] →
   applied = "" ∨ identityVersion applied ≠ identityVersion desired).
Proof.
  pose proof (migrationUpToDate_components applied desired) as Hiff. split; [done|].
  intros Hu Hr. destruct (decide (applied = "")); [by left|right]. intros Hv.
  rewrite (proj2 Hiff) in Hu by done. done.
Qed.

Lemma migrationUpToDate_iff_witness :
  identityVersion "3.1|clickhouse-cluster=false" ≠ identityVersion "3.2|clickhouse-cluster=false".
Proof.
  destruct (proj2 (migrationUpToDate_iff "3.1|clickhouse-cluster=false" "3.2|clickhouse-cluster=false"))
    as [H|H]; [reflexivity|reflexivity|discriminate H|exact H].
Defined.

(** *** References *)

(** Agreement is inclusion of the recorded endpoint keys: a key the recording
    does not carry is not compared. *)
Lemma refsAgree_spec applied desired :
  refsAgree applied desired = true ↔
  (splitRef applied).1 = (splitRef desired).1 ∧ (splitRef applied).2 ⊆ (splitRef desired).2.
Proof.
  unfold refsAgree. destruct (splitRef applied) as [an ak], (splitRef desired) as [dn dk]. cbn.
  case_bool_decide as E; cbn [negb]; [|naive_solver].
  rewrite bool_decide_eq_true, map_subseteq_spec. unfold map_Forall. naive_solver.
Qed.

Lemma refsAgree_refl r : refsAgree r r = true.
Proof. by apply refsAgree_spec. Qed.

(** Agreement is transitive: a chain of recordings, each covering the next,
    never lets a move through. *)
Lemma refsAgree_trans a b c : refsAgree a b = true → refsAgree b c = true → refsAgree a c = true.
Proof. rewrite !refsAgree_spec. intros [-> ?] [-> ?]. split; [done|]. by etrans. Qed.

Definition secret_ref (n k1 u k2 d : string) : string :=
  "secret/" +:+ n +:+ "#" +:+ k1 +:+ "=" +:+ u +:+ "," +:+ k2 +:+ "=" +:+ d.

Lemma Cut_char c a b : has_char c a = false → Cut (a +:+ String c b) (String c "") = (a, b, true).
Proof.
  intros Ha. unfold Cut. change (String c b) with (String c "" +:+ b). by rewrite cut_app_first.
Qed.

Lemma add_mapping_eq m k v :
  has_char "="%char k = false → add_mapping m (k +:+ "=" +:+ v) = <[k := v]> m.
Proof. intros Hk. unfold add_mapping. change ("=" +:+ v) with (String "=" v). by rewrite Cut_char. Qed.

Lemma splitRef_secret n k1 u k2 d :
  has_char "#"%char n = false → has_char ","%char u = false → has_char ","%char d = false →
  has_char ","%char k1 = false → has_char "="%char k1 = false →
  has_char ","%char k2 = false → has_char "="%char k2 = false →
  splitRef (secret_ref n k1 u k2 d) = ("secret/" +:+ n, <[k2 := d]> (<[k1 := u]> ∅)).
Proof.
  intros Hn Hu Hd Hk1 He1 Hk2 He2. unfold splitRef, secret_ref.
  rewrite <- (str_app_assoc "secret/").
  change (?a +:+ "#" +:+ ?b) with (a +:+ String "#" "" +:+ b).
  rewrite cut_app_first by done. f_equal.
  replace (k1 +:+ "=" +:+ u +:+ "," +:+ k2 +:+ "=" +:+ d)
    with ((k1 +:+ "=" +:+ u) +:+ String "," (k2 +:+ "=" +:+ d)) by by rewrite !str_app_assoc.
  rewrite Split_app by (rewrite !has_char_app, Hk1; cbn; by rewrite Hu).
  rewrite Split_nochar by (rewrite !has_char_app, Hk2; cbn; by rewrite Hd).
  cbn [foldl]. by rewrite !add_mapping_eq.
Qed.

(** *** Exactness on instances *)

(** The texts a reference is made of, free of the three separators: the object
    names and keys of Kubernetes are. *)
Definition plain (s : string) : Prop :=
  has_char "|"%char s = false ∧ has_char "#"%char s = false ∧ has_char ","%char s = false.

#[global] Instance plain_dec s : Decision (plain s).
Proof. unfold plain. apply _. Defined.

Definition plain_ref (ref : SecretKeysRef) : Prop :=
  plain (SecretKeysRef_Name ref) ∧ map_Forall (λ _ v, plain v) (SecretKeysRef_Keys ref).

Record wf_instance (i : LangfuseInstance) : Prop := {
  wfi_tag_bar : has_char "|"%char (Image_Tag (Spec_Image (Instance_Spec i))) = false;
  wfi_tag_eq : has_char "="%char (Image_Tag (Spec_Image (Instance_Spec i))) = false;
  wfi_cnpg db c :
    Spec_Database (Instance_Spec i) = Some db → Database_CloudNativePG db = Some c →
    plain (ObjectReference_Name (CloudNativePG_ClusterRef c));
  wfi_postgres db e :
    Spec_Database (Instance_Spec i) = Some db → Database_External db = Some e →
    plain_ref (ExternalDatabase_SecretRef e);
  wfi_clickhouse ch e :
    Spec_ClickHouse (Instance_Spec i) = Some ch → ClickHouse_External ch = Some e →
    plain_ref (ExternalClickHouse_SecretRef e)
}.

Lemma plain_app a b : plain a → plain b → plain (a +:+ b).
Proof. unfold plain. rewrite !has_char_app. intros (->&->&->) (->&->&->). done. Qed.

Lemma plain_key ref k : plain_ref ref → plain (key_of ref k).
Proof.
  intros [_ Hk]. unfold key_of. destruct (SecretKeysRef_Keys ref !! k) eqn:E; [|done].
  by eapply Hk.
Qed.

(** The references the operator renders: a text without keys, or a Secret with
    its two endpoint keys. *)
Inductive rendered_ref (k1 k2 : string) : string → Prop :=
  | rendered_plain s :
      plain s → CutPrefix s "secret/" = None → rendered_ref k1 k2 s
  | rendered_secret n u d :
      plain n → plain u → plain d → rendered_ref k1 k2 (secret_ref n k1 u k2 d).

Lemma splitRef_plain s : plain s → splitRef s = (s, ∅).
Proof. intros (_ & Hs & _). unfold splitRef. by rewrite cut_None_nochar. Qed.

Section exact.
Context (k1 k2 : string) (Hk1 : has_char ","%char k1 = false) (Hk2 : has_char ","%char k2 = false)
  (He1 : has_char "="%char k1 = false) (He2 : has_char "="%char k2 = false)
  (Hb1 : has_char "|"%char k1 = false) (Hb2 : has_char "|"%char k2 = false) (Hne : k1 ≠ k2).

Lemma refsAgree_rendered a b :
  rendered_ref k1 k2 a → rendered_ref k1 k2 b → refsAgree a b = true ↔ a = b.
Proof.
  intros Ha Hb. split; [|intros ->; apply refsAgree_refl]. rewrite refsAgree_spec.
  destruct Ha as [a Pa Sa|n u d Hn Hu Hd], Hb as [b Pb Sb|n' u' d' Hn' Hu' Hd'].
  - rewrite !splitRef_plain by done. naive_solver.
  - destruct Hn' as (?&?&?), Hu' as (?&?&?), Hd' as (?&?&?).
    rewrite (splitRef_plain a), splitRef_secret by done. cbn [fst]. intros [-> _].
    by rewrite CutPrefix_app in Sa.
  - destruct Hn as (?&?&?), Hu as (?&?&?), Hd as (?&?&?).
    rewrite (splitRef_plain b), splitRef_secret by done. cbn [fst]. intros [<- _].
    by rewrite CutPrefix_app in Sb.
  - destruct Hn as (?&?&?), Hu as (?&?&?), Hd as (?&?&?).
    destruct Hn' as (?&?&?), Hu' as (?&?&?), Hd' as (?&?&?).
    rewrite !splitRef_secret by done. cbn [fst snd]. intros [En Hs].
    apply (f_equal (λ s, CutPrefix s "secret/")) in En. rewrite !CutPrefix_app in En.
    rewrite map_subseteq_spec in Hs. injection En as ->.
    pose proof (Hs k1 u) as E1. pose proof (Hs k2 d) as E2.
    rewrite !lookup_insert_eq in E2. rewrite !lookup_insert_ne, !lookup_insert_eq in E1 by done.
    specialize (E1 eq_refl). specialize (E2 eq_refl).
    rewrite lookup_insert_ne, lookup_insert_eq in E1 by done. congruence.
Qed.

Lemma rendered_bar a : rendered_ref k1 k2 a → has_char "|"%char a = false.
Proof.
  destruct 1 as [s [? _]|n u d [Hn _] [Hu _] [Hd _]]; [done|].
  unfold secret_ref. rewrite !has_char_app, Hn, Hu, Hd, Hb1, Hb2. done.
Qed.
End exact.

Lemma rendered_postgres i : wf_instance i → rendered_ref "url" "directUrl" (postgresRefName i).
Proof.
  intros Hw. unfold postgresRefName. destruct (Spec_Database (Instance_Spec i)) as [db|] eqn:Ed;
    [|by constructor].
  destruct (Database_CloudNativePG db) as [c|] eqn:Ec.
  { constructor; [|done]. apply plain_app; [done|]. by eapply wfi_cnpg. }
  destruct (Database_External db) as [e|] eqn:Ee; [|by constructor].
  pose proof (wfi_postgres i Hw db e Ed Ee) as [Hn Hk].
  apply (rendered_secret "url" "directUrl"); [done| |by apply plain_key].
  unfold postgresURLKey. destruct (nonempty_str _); [by apply plain_key|done].
Qed.

Lemma rendered_clickhouse i : wf_instance i → rendered_ref "url" "migrationUrl" (clickHouseRefName i).
Proof.
  intros Hw. unfold clickHouseRefName. destruct (Spec_ClickHouse (Instance_Spec i)) as [ch|] eqn:Ed;
    [|by constructor].
  destruct (ClickHouse_Managed ch) as [c|] eqn:Ec; [by constructor|].
  destruct (ClickHouse_External ch) as [e|] eqn:Ee; [|by constructor].
  pose proof (wfi_clickhouse i Hw ch e Ed Ee) as [Hn Hk].
  apply (rendered_secret "url" "migrationUrl"); [done| |by apply plain_key].
  unfold clickHouseURLKey. destruct (nonempty_str _); [by apply plain_key|done].
Qed.

Lemma wf_instance_target i : wf_instance i → wf_target (instance_target i).
Proof.
  intros Hw. split; cbn; [apply Hw..| |].
  - eapply rendered_bar; [..|by apply rendered_postgres]; done.
  - eapply rendered_bar; [..|by apply rendered_clickhouse]; done.
Qed.

Lemma postgres_agree i j :
  wf_instance i → wf_instance j →
  refsAgree (postgresRefName i) (postgresRefName j) = true ↔ postgresRefName i = postgresRefName j.
Proof. intros Hi Hj. by apply (refsAgree_rendered "url" "directUrl"); try apply rendered_postgres. Qed.

Lemma clickhouse_agree i j :
  wf_instance i → wf_instance j →
  refsAgree (clickHouseRefName i) (clickHouseRefName j) = true ↔ clickHouseRefName i = clickHouseRefName j.
Proof. intros Hi Hj. by apply (refsAgree_rendered "url" "migrationUrl"); try apply rendered_clickhouse. Qed.

Lemma build_nonempty t : buildMigrationIdentity t ≠ "".
Proof.
  intros E. apply (f_equal String.length) in E. unfold buildMigrationIdentity in E.
  rewrite !str_length_app in E. cbn in E. lia.
Qed.

Lemma component_agrees_some agree lookup applied desired was want :
  lookup applied = Some was → lookup desired = Some want →
  component_agrees agree lookup applied desired = agree was want.
Proof. unfold component_agrees. by intros -> ->. Qed.

(** The same datastore target. *)
Definition same_target (i j : LangfuseInstance) : Prop :=
  postgresRefName i = postgresRefName j ∧ clickHouseRefName i = clickHouseRefName j ∧
  ClusterEnabled (Spec_ClickHouse (Instance_Spec i)) = ClusterEnabled (Spec_ClickHouse (Instance_Spec j)) ∧
  clickHouseDatabase i = clickHouseDatabase j.

Lemma FormatBool_inj a b : FormatBool a = FormatBool b → a = b.
Proof. by destruct a, b. Qed.

(** C33: the refusal to retarget is exact.  Take the identity recorded for one
    spec and the one desired for another: no component is reported as changed
    exactly when both specs name the same PostgreSQL reference and endpoint
    keys, the same ClickHouse reference and endpoint keys, the same clustering
    mode and the same database. *)
Theorem retargetedComponents_exact i j :
  wf_instance i → wf_instance j →
  retargetedComponents (migrationIdentity i) (migrationIdentity j) = [] ↔ same_target i j.
Proof.
  intros Hi Hj. pose proof (wf_instance_target i Hi) as Ti. pose proof (wf_instance_target j Hj) as Tj.
  destruct (identityComponent_build _ Ti) as (Pi & Ci & Ki), (identityComponent_build _ Tj) as (Pj & Cj & Kj).
  unfold migrationIdentity. rewrite retargetedComponents_nil by apply build_nonempty.
  unfold retarget_checks, same_target. rewrite !Forall_cons, Forall_nil, <- !component_agrees_check.
  rewrite (component_agrees_some refsAgree (identityLookup migrationIdentityPostgresRefKey) _ _ _ _ Pi Pj).
  rewrite (component_agrees_some refsAgree (identityLookup migrationIdentityClickHouseRefKey) _ _ _ _ Ci Cj).
  rewrite (component_agrees_some str_equal (identityLookup migrationIdentityClusterKey) _ _ _ _ Ki Kj).
  rewrite (component_agrees_some str_equal identityDatabase _ _ _ _
             (identityDatabase_build _ Ti) (identityDatabase_build _ Tj)).
  cbn [instance_target postgresRef clickHouseRef clickHouseClust clickHouseDB].
  rewrite postgres_agree, clickhouse_agree, !str_equal_true by done.
  split; [|intros (->&->&->&->); done].
  intros (?&?&?%FormatBool_inj&?&_). done.
Qed.

Lemma ex_wf_instance tag secret database :
  has_char "|"%char tag = false → has_char "="%char tag = false → plain secret →
  wf_instance (ex_instance tag secret database).
Proof.
  intros. split; cbn; try done; intros ? e [= <-] [= <-]; cbn; split; cbn; try done;
    apply (bool_decide_unpack (map_Forall (λ _ v, plain v) _)); by vm_compute.
Qed.

Lemma retargetedComponents_exact_witness :
  wf_instance (ex_instance "3.1" "pg" "db") ∧
  retargetedComponents (migrationIdentity (ex_instance "3.1" "pg" "db"))
    (migrationIdentity (ex_instance "v3.2" "pg" "db")) = [].
Proof.
  split; [by apply ex_wf_instance|].
  apply (retargetedComponents_exact (ex_instance "3.1" "pg" "db") (ex_instance "v3.2" "pg" "db"));
    [by apply ex_wf_instance..|by repeat split].
Defined.

(** On the identities the operator itself writes, the component-wise gate is
    equality of the texts, so no difference of target or version slips through
    and nothing migrates twice: a spec is up to date with itself. *)
Theorem migrationUpToDate_exact i j :
  wf_instance i → wf_instance j →
  migrationUpToDate (migrationIdentity i) (migrationIdentity j) = true ↔
  migrationIdentity i = migrationIdentity j.
Proof.
  intros Hi Hj. pose proof (wf_instance_target i Hi) as Ti. pose proof (wf_instance_target j Hj) as Tj.
  rewrite migrationUpToDate_components. split.
  - intros (_ & Hv & Hr). unfold migrationIdentity in Hv. rewrite !identityVersion_build in Hv by done.
    apply retargetedComponents_exact in Hr as (Hp & Hc & Hk & Hd); [|done..].
    unfold migrationIdentity, buildMigrationIdentity. rewrite Hv. cbn. by rewrite Hp, Hc, Hk, Hd.
  - intros E. split_and!; [apply build_nonempty|by rewrite E|]. rewrite E.
    by apply retargetedComponents_exact.
Qed.

Lemma migrationUpToDate_exact_witness :
  migrationUpToDate (migrationIdentity (ex_instance "3.1" "pg" "db"))
    (migrationIdentity (ex_instance "v3.1" "pg" "db")) = true.
Proof.
  apply (migrationUpToDate_exact (ex_instance "3.1" "pg" "db") (ex_instance "v3.1" "pg" "db"));
    [by apply ex_wf_instance..|reflexivity].
Defined.

Lemma component_agrees_refl agree lookup identity :
  (∀ s, agree s s = true) → component_agrees agree lookup identity identity = true.
Proof. intros Ha. unfold component_agrees. by destruct (lookup identity). Qed.

Lemma migrationUpToDate_refl identity : identity ≠ "" → migrationUpToDate identity identity = true.
Proof.
  intros Hn. apply migrationUpToDate_components. split_and!; [done..|].
  apply retargetedComponents_nil; [done|]. unfold retarget_checks.
  rewrite !Forall_cons, Forall_nil, <- !component_agrees_check.
  assert (∀ s, str_equal s s = true) by (intros; by apply str_equal_true).
  split_and!; auto using component_agrees_refl, refsAgree_refl.
Qed.

(** *** Baselines *)

Definition with_applied (identity : string) (i : LangfuseInstance) : LangfuseInstance :=
  set_Instance_Status (set_Status_Migration
    (Some (set_MigrationStatus_AppliedIdentity identity
             (default zero_MigrationStatus (Status_Migration (Instance_Status i)))))
    (Instance_Status i)) i.

Lemma applied_with_applied identity i :
  identity ≠ "" → appliedMigrationIdentity (with_applied identity i) = identity.
Proof.
  intros Hn. unfold appliedMigrationIdentity, recordedIdentity, with_applied. cbn. by destruct identity.
Qed.

(** A baseline never launders a move: it is recorded only for an instance
    that migrated before identities were recorded, whose version and recorded
    components still match the spec; the text recorded is the desired identity,
    after which the instance is up to date and no second baseline is written. *)
Theorem legacyBaselineIdentity_safe i baseline :
  legacyBaselineIdentity i (migrationIdentity i) = Some baseline →
  baseline = migrationIdentity i ∧
  recordedIdentity i = "" ∧
  appliedMigrationIdentity i ≠ "" ∧
  retargetedComponents (appliedMigrationIdentity i) (migrationIdentity i) = [] ∧
  (let i' := with_applied baseline i in
   migrationUpToDate (appliedMigrationIdentity i') (migrationIdentity i') = true ∧
   legacyBaselineIdentity i' (migrationIdentity i') = None).
Proof.
  unfold legacyBaselineIdentity at 1. destruct (recordedIdentity i) as [|c r] eqn:Er; [|done]. cbn [nonempty_str].
  case_bool_decide as Hl; [done|]. destruct (migrationUpToDate _ _) eqn:Hu; [|done].
  intros [= <-]. apply migrationUpToDate_components in Hu as (_ & Hv & Hr).
  do 4 (split; [done|]). cbn zeta.
  change (migrationIdentity (with_applied ?b i)) with (migrationIdentity i).
  rewrite applied_with_applied by apply build_nonempty. split.
  - apply migrationUpToDate_refl, build_nonempty.
  - unfold legacyBaselineIdentity, recordedIdentity, with_applied. cbn.
    pose proof (build_nonempty (instance_target i)) as Hb. unfold migrationIdentity.
    by destruct (buildMigrationIdentity _).
Qed.

Lemma legacyBaselineIdentity_safe_witness :
  legacyBaselineIdentity (ex_legacy "3.1") (migrationIdentity (ex_legacy "3.1")) =
    Some (migrationIdentity (ex_legacy "3.1")) ∧
  recordedIdentity (ex_legacy "3.1") = "".
Proof.
  split; [by vm_compute|].
  apply (legacyBaselineIdentity_safe (ex_legacy "3.1") (migrationIdentity (ex_legacy "3.1"))).
  by vm_compute.
Defined.
