(* ===== verification/Instance.v ===== *)
(** * The instance controller ([internal/controller/langfuseinstance_controller.go])

    One pass of [LangfuseInstanceReconciler.Reconcile]: it builds every child
    object of the instance, applies them in a fixed order, and publishes phase and
    component status.  What a pass should apply is the list [desired_objects]; the
    theorems relate the calls of a pass to it. *)

From S2P Require Import Prelude GoStd KubeTypes ApiTypes Kube Examples Status Config.
From S2P Require Import Resources Stores Networking Scaling PodIssues Phase Identity.

Open Scope string_scope.
Open Scope list_scope.
Open Scope Z_scope.

Definition fieldOwnerInstance : string := "langfuse-operator".

(** ** Steps that may fail

    A step of the pass goes through, returns an error, or panics (a builder met a
    malformed quantity). *)

Inductive Step := Next | Stop (e : GoError) | Panicked.

Definition wrapStep (what : string) (s : Step) : Step :=
  match s with Stop e => Stop (wrapError what e) | _ => s end.

Section steps.
Context {W : Type}.

(** [m], then [k] unless [m] stopped the pass. *)
Definition andThen (m k : M (St W) Step) : M (St W) Step :=
  r ← m; match r with Next => k | _ => mret r end.

(** [fmt.Errorf("what: %w", err)] on the error of [m]. *)
Definition naming (what : string) (m : M (St W) Step) : M (St W) Step :=
  r ← m; mret (wrapStep what r).

Definition skip_step : M (St W) Step := mret Next.
End steps.

Notation "m ;? k" := (andThen m k) (at level 100, k at level 200, right associativity) : go_scope.

(** [apiutil.GVKForObject]: the scheme knows the type of the object or not. *)
Class Scheme := { GVKForObject : Object → option GoError }.
Definition full_scheme : Scheme := {| GVKForObject _ := None |}.

(** ** Conditions *)

Definition boolToConditionStatus (b : bool) : ConditionStatus :=
  if b then ConditionTrue else ConditionFalse.

Definition phaseToReason (phase : string) : string :=
  if String.eqb phase phaseRunning then "AllComponentsReady"
  else if String.eqb phase phasePending then "ComponentsStarting"
  else if String.eqb phase phaseMigrating then "MigrationInProgress"
  else if String.eqb phase phaseDegraded then "ComponentDegraded"
  else if String.eqb phase phaseError then "ReconcileError"
  else "Unknown".

Section conditions.
Context `{API : ConditionAPI}.

Definition set_condition (t : string) (s : ConditionStatus) (reason message : string)
    (i : LangfuseInstance) : LangfuseInstance :=
  set_Instance_Status (set_Status_Conditions
    (SetStatusCondition (Status_Conditions (Instance_Status i))
       (condition t s reason message (om_Generation (Instance_ObjectMeta i))))
    (Instance_Status i)) i.

Definition remove_condition (t : string) (i : LangfuseInstance) : LangfuseInstance :=
  set_Instance_Status (set_Status_Conditions
    (RemoveStatusCondition (Status_Conditions (Instance_Status i)) t) (Instance_Status i)) i.

(** The deprecated fields a spec uses, as the condition names them. *)
Definition deprecatedFields (i : LangfuseInstance) : list string :=
  (match Spec_ClickHouse (Instance_Spec i) ≫= ClickHouse_Managed with
   | Some _ => ["spec.clickhouse.managed (single-node, no replication or backups, " +:+
                "unsuitable for production — use external: ClickHouse Cloud or the Altinity operator)"]
   | None => [] end) ++
  (match Spec_Redis (Instance_Spec i) ≫= Redis_Managed with
   | Some _ => ["spec.redis.managed (single-node, no replication or backups, " +:+
                "unsuitable for production — use external: a managed Redis service or a Redis operator)"]
   | None => [] end) ++
  (match Spec_Observability (Instance_Spec i) ≫= Observability_ServiceMonitor with
   | Some _ => ["spec.observability.serviceMonitor (ignored: Langfuse serves no " +:+
                "Prometheus endpoint, so the ServiceMonitor only ever pointed Prometheus at a JSON health " +:+
                "route and reported the target down — use spec.observability.otel)"]
   | None => [] end).

Definition setDeprecationCondition (i : LangfuseInstance) : LangfuseInstance :=
  match deprecatedFields i with
  | [] => remove_condition conditionTypeDeprecated i
  | (_ :: _) as deprecated =>
      set_condition conditionTypeDeprecated ConditionTrue "ManagedDatastoresDeprecated"
        ("Deprecated fields in use, removal in 0.11.0: " +:+ Join deprecated "; ") i
  end.
End conditions.

(** ** The controller *)

Section controller.
Context {W : Type} `{KubeClient W} `{ApplyClient W} `{API : ConditionAPI} `{OWN : OwnerAPI}.
Context `{SCH : Scheme} `{QUANT : QuantityParser}.

Definition apply (i : LangfuseInstance) (desired : Object) : M (St W) Step :=
  match SetControllerReference (Instance_ObjectMeta i) (obj_Meta desired) with
  | Err e => mret (Stop (wrapError "setting owner reference" e))
  | Ok m =>
      let desired := set_obj_Meta m desired in
      match GVKForObject desired with
      | Some e => mret (Stop (wrapError ("resolving GVK for " +:+ obj_Type desired) e))
      | None =>
          e ← Apply desired fieldOwnerInstance;
          mret match e with
               | Some e => Stop (wrapError ("applying " +:+ obj_Kind desired +:+ " " +:+ om_Name m) e)
               | None => Next
               end
      end
  end.

(** Applies what a builder returns, unless the builder panics. *)
Definition applyBuilt (i : LangfuseInstance) (o : option Object) : M (St W) Step :=
  match o with Some o => apply i o | None => mret Panicked end.

Local Open Scope go_scope.

Definition reconcileClickHouse (i : LangfuseInstance) (managed : ManagedClickHouseSpec) : M (St W) Step :=
  naming "clickhouse configmap" (apply i (OConfigMap (BuildClickHouseConfigMap i))) ;?
  naming "clickhouse service" (apply i (OService (BuildClickHouseService i))) ;?
  naming "clickhouse statefulset"
    (applyBuilt i (OStatefulSet <$> BuildClickHouseStatefulSet i managed)).

Definition reconcileRedis (i : LangfuseInstance) : M (St W) Step :=
  naming "redis service" (apply i (OService (BuildRedisService i))) ;?
  naming "redis statefulset" (applyBuilt i (OStatefulSet <$> BuildRedisStatefulSet i)).

Definition networkPolicyDisabled (i : LangfuseInstance) : bool :=
  match (Spec_Security (Instance_Spec i) ≫= Security_NetworkPolicy) ≫= NetworkPolicy_Enabled with
  | Some enabled => negb enabled
  | None => false
  end.

Definition reconcileNetworkPolicies (i : LangfuseInstance) : M (St W) Step :=
  if networkPolicyDisabled i then skip_step
  else
    naming "web network policy" (apply i (ONetworkPolicy (BuildWebNetworkPolicy i))) ;?
    naming "worker network policy" (apply i (ONetworkPolicy (BuildWorkerNetworkPolicy i))).

Definition reconcileNetworking (i : LangfuseInstance) : M (St W) Step :=
  let spec := Instance_Spec i in
  naming "reconciling network policies" (reconcileNetworkPolicies i) ;?
  match Spec_Ingress spec with
  | Some s => if Ingress_Enabled s
              then naming "reconciling ingress" (apply i (OIngress (BuildIngress i s))) else skip_step
  | None => skip_step
  end ;?
  match Spec_Route spec with
  | Some s => if Route_Enabled s
              then naming "reconciling route" (apply i (OUnstructured (BuildRoute i s))) else skip_step
  | None => skip_step
  end ;?
  match Spec_GatewayAPI spec with
  | Some s => if GatewayAPI_Enabled s
              then naming "reconciling httproute" (apply i (OUnstructured (BuildHTTPRoute i s))) else skip_step
  | None => skip_step
  end.

Definition autoscaled (a : option AutoscalingSpec) : bool :=
  match a with Some a => Autoscaling_Enabled a | None => false end.
Definition budgeted (p : option PDBSpec) : bool :=
  match p with Some p => PDB_Enabled p | None => false end.

Definition reconcileHPAs (i : LangfuseInstance) : M (St W) Step :=
  let spec := Instance_Spec i in
  (if autoscaled (Web_Autoscaling (Spec_Web spec))
   then naming "web HPA" (apply i (OHPA (BuildWebHPA i))) else skip_step) ;?
  (if autoscaled (Worker_Autoscaling (Spec_Worker spec))
   then naming "worker HPA" (apply i (OHPA (BuildWorkerHPA i))) else skip_step).

Definition reconcilePDBs (i : LangfuseInstance) : M (St W) Step :=
  let spec := Instance_Spec i in
  (if budgeted (Web_PodDisruptionBudget (Spec_Web spec))
   then naming "web PDB" (apply i (OPDB (BuildWebPDB i))) else skip_step) ;?
  (if budgeted (Worker_PodDisruptionBudget (Spec_Worker spec))
   then naming "worker PDB" (apply i (OPDB (BuildWorkerPDB i))) else skip_step).

Definition removeRetiredServiceMonitor (i : LangfuseInstance) : M (St W) Step :=
  e ← Delete_ServiceMonitor (in_ns i (ServiceMonitorName i));
  mret match e with
       | None => Next
       | Some e => if IsNotFound e || IsNoMatchError e then Next else Stop e
       end.

Definition reconcilePlatform (i : LangfuseInstance) : M (St W) Step :=
  naming "reconciling HPAs" (reconcileHPAs i) ;?
  naming "reconciling PDBs" (reconcilePDBs i) ;?
  match Spec_Observability (Instance_Spec i) ≫= Observability_ServiceMonitor with
  | Some _ => naming "removing retired servicemonitor" (removeRetiredServiceMonitor i)
  | None => skip_step
  end.

(** Everything between the configuration and the status. *)
Definition reconcileChildren (i : LangfuseInstance) (config : Config) : M (St W) Step :=
  match Spec_ClickHouse (Instance_Spec i) ≫= ClickHouse_Managed with
  | Some managed => naming "reconciling clickhouse" (reconcileClickHouse i managed)
  | None => skip_step
  end ;?
  match Spec_Redis (Instance_Spec i) ≫= Redis_Managed with
  | Some _ => naming "reconciling redis" (reconcileRedis i)
  | None => skip_step
  end ;?
  naming "reconciling web deployment" (apply i (ODeployment (BuildWebDeployment i config))) ;?
  naming "reconciling web service" (apply i (OService (BuildWebService i))) ;?
  naming "reconciling worker deployment" (apply i (ODeployment (BuildWorkerDeployment i config))) ;?
  reconcileNetworking i ;?
  reconcilePlatform i.

(** ** The status *)

Definition podIssuesFor (i : LangfuseInstance) (component : string) (deploy : Deployment)
    : M (St W) (list PodIssue) :=
  if (dep_StatusReadyReplicas deploy >? 0) &&
     (dep_StatusReadyReplicas deploy >=? dep_StatusReplicas deploy)
  then mret []
  else
    r ← collectPodIssues (om_Namespace (Instance_ObjectMeta i)) (SelectorLabels i component);
    mret match r with Ok issues => issues | Err _ => [] end.

Definition webStatus (i : LangfuseInstance) (deploy : Deployment) (issues : list PodIssue)
    : LangfuseInstance :=
  set_Instance_Status (set_Status_Web
    (Some (mkComponentStatus (dep_StatusReplicas deploy) (dep_StatusReadyReplicas deploy)
             ("http://" +:+ WebServiceName i +:+ "." +:+ om_Namespace (Instance_ObjectMeta i) +:+ ".svc:3000")
             issues)) (Instance_Status i)) i.

(** Written in place: the circuit breaker's fields stay. *)
Definition workerStatus (i : LangfuseInstance) (deploy : Deployment) (issues : list PodIssue)
    : LangfuseInstance :=
  let w := default zero_WorkerComponentStatus (Status_Worker (Instance_Status i)) in
  let c := WorkerStatus_ComponentStatus w in
  set_Instance_Status (set_Status_Worker
    (Some (set_WorkerStatus_ComponentStatus
             (set_Component_Issues issues (set_Component_ReadyReplicas (dep_StatusReadyReplicas deploy)
                (set_Component_Replicas (dep_StatusReplicas deploy) c))) w)) (Instance_Status i)) i.

(** Reads one Deployment and records it; an absent one changes nothing. *)
Definition observe (i : LangfuseInstance) (name component what : string)
    (record : LangfuseInstance → Deployment → list PodIssue → LangfuseInstance)
    : M (St W) (result LangfuseInstance) :=
  r ← Get_Deployment (in_ns i name);
  match r with
  | Err e => mret (if IsNotFound e then Ok i else Err (wrapError what e))
  | Ok deploy =>
      issues ← podIssuesFor i component deploy;
      mret (Ok (record i deploy issues))
  end.

(** The fields derived from what was observed. *)
Definition derivedStatus (i : LangfuseInstance) (workloadApplied : bool) : LangfuseInstance :=
  let '(phase, ready) := derivePhase i in
  let i := set_Instance_Status (set_Status_Ready ready (set_Status_Phase phase (Instance_Status i))) i in
  let i := if workloadApplied
           then set_Instance_Status (set_Status_PublicUrl (Auth_NextAuthUrl (Spec_Auth (Instance_Spec i)))
                  (set_Status_Version (Image_Tag (Spec_Image (Instance_Spec i))) (Instance_Status i))) i
           else i in
  set_condition conditionTypeReady (boolToConditionStatus ready) (phaseToReason phase)
    ("Phase: " +:+ phase) i.

Definition updateStatus (instance original : LangfuseInstance) (workloadApplied : bool)
    : M (St W) (option GoError) :=
  r ← observe instance (WebName instance) componentWeb "getting web deployment status" webStatus;
  match r with
  | Err e => mret (Some e)
  | Ok instance =>
      r ← observe instance (WorkerName instance) componentWorker "getting worker deployment status"
            workerStatus;
      match r with
      | Err e => mret (Some e)
      | Ok instance => updateInstanceStatus (derivedStatus instance workloadApplied) original
      end
  end.

(** ** The pass *)

Definition frozenMessage (changed : list string) : string :=
  "Not reconciling workloads: " +:+ Join changed " and " +:+ " changed after migrations ran. " +:+
  "Revert the change, or create a separate LangfuseInstance for the new target".

Definition freeze (changed : list string) (i : LangfuseInstance) : LangfuseInstance :=
  set_condition conditionTypeDatastoreTarget ConditionFalse "TargetChangedAfterMigration"
    (frozenMessage changed) i.

Definition configError (e : GoError) (i : LangfuseInstance) : LangfuseInstance :=
  set_condition conditionTypeReady ConditionFalse "ConfigError" (err_msg e) i.

Definition withInitialPhase (i : LangfuseInstance) : LangfuseInstance :=
  if nonempty_str (Status_Phase (Instance_Status i)) then i
  else set_Instance_Status (set_Status_Phase phasePending (Instance_Status i)) i.

(** controller-runtime recovers a panic and reports it as the error of the pass. *)
Definition recovered : Outcome := failed (newError "panic: cannot parse quantity [recovered]").

Definition reconcileInstance (original : LangfuseInstance) : M (St W) Outcome :=
  let instance := withInitialPhase original in
  match retargetedComponents (appliedMigrationIdentity instance) (migrationIdentity instance) with
  | (_ :: _) as changed =>
      e ← updateStatus (freeze changed instance) original false;
      mret (requeueIf (noteStatusWriteFailure e), None)
  | [] =>
      let instance := remove_condition conditionTypeDatastoreTarget instance in
      match BuildConfig instance with
      | Err e =>
          _ ← updateInstanceStatus (configError e instance) original;
          mret (failed (wrapError "building config" e))
      | Ok config =>
          let instance := setDeprecationCondition instance in
          r ← reconcileChildren instance config;
          match r with
          | Stop e => mret (failed e)
          | Panicked => mret recovered
          | Next =>
              e ← updateStatus instance original true;
              mret match e with
                   | Some e => failed (wrapError "updating status" e)
                   | None => done_now
                   end
          end
      end
  end.

Definition Reconcile (req : NamespacedName) : M (St W) Outcome :=
  r ← Get_Instance req;
  match r with
  | Err e => if IsNotFound e then mret done_now
             else mret (failed (wrapError "fetching LangfuseInstance" e))
  | Ok instance =>
      match om_DeletionTimestamp (Instance_ObjectMeta instance) with
      | Some _ => mret done_now
      | None => reconcileInstance instance
      end
  end.
End controller.

(** ** What a pass should do *)

(** A change to the cluster the spec asks for; [None] stands for a builder that panics. *)
Inductive Change :=
  | ApplyObject (o : option Object)
  | RemoveServiceMonitor.

Section desired.
Context `{QUANT : QuantityParser}.

Definition when {A} (b : bool) (l : list A) : list A := if b then l else [].
Definition from_option_list {A B} (f : A → list B) (o : option A) : list B :=
  match o with Some a => f a | None => [] end.

Definition clickhouse_objects (i : LangfuseInstance) (managed : ManagedClickHouseSpec) : list (option Object) :=
  [Some (OConfigMap (BuildClickHouseConfigMap i)); Some (OService (BuildClickHouseService i));
   OStatefulSet <$> BuildClickHouseStatefulSet i managed].

Definition redis_objects (i : LangfuseInstance) : list (option Object) :=
  [Some (OService (BuildRedisService i)); OStatefulSet <$> BuildRedisStatefulSet i].

Definition workload_objects (i : LangfuseInstance) (config : Config) : list (option Object) :=
  [Some (ODeployment (BuildWebDeployment i config)); Some (OService (BuildWebService i));
   Some (ODeployment (BuildWorkerDeployment i config))].

Definition networking_objects (i : LangfuseInstance) : list (option Object) :=
  let spec := Instance_Spec i in
  when (negb (networkPolicyDisabled i))
    [Some (ONetworkPolicy (BuildWebNetworkPolicy i)); Some (ONetworkPolicy (BuildWorkerNetworkPolicy i))] ++
  from_option_list (λ s, when (Ingress_Enabled s) [Some (OIngress (BuildIngress i s))]) (Spec_Ingress spec) ++
  from_option_list (λ s, when (Route_Enabled s) [Some (OUnstructured (BuildRoute i s))]) (Spec_Route spec) ++
  from_option_list (λ s, when (GatewayAPI_Enabled s) [Some (OUnstructured (BuildHTTPRoute i s))])
    (Spec_GatewayAPI spec).

Definition scaling_objects (i : LangfuseInstance) : list (option Object) :=
  let spec := Instance_Spec i in
  when (autoscaled (Web_Autoscaling (Spec_Web spec))) [Some (OHPA (BuildWebHPA i))] ++
  when (autoscaled (Worker_Autoscaling (Spec_Worker spec))) [Some (OHPA (BuildWorkerHPA i))] ++
  when (budgeted (Web_PodDisruptionBudget (Spec_Web spec))) [Some (OPDB (BuildWebPDB i))] ++
  when (budgeted (Worker_PodDisruptionBudget (Spec_Worker spec))) [Some (OPDB (BuildWorkerPDB i))].

(** The objects of an instance, in the order they are applied. *)
Definition desired_objects (i : LangfuseInstance) (config : Config) : list (option Object) :=
  from_option_list (clickhouse_objects i) (Spec_ClickHouse (Instance_Spec i) ≫= ClickHouse_Managed) ++
  from_option_list (λ _, redis_objects i) (Spec_Redis (Instance_Spec i) ≫= Redis_Managed) ++
  workload_objects i config ++ networking_objects i ++ scaling_objects i.

Definition desired_changes (i : LangfuseInstance) (config : Config) : list Change :=
  (ApplyObject <$> desired_objects i config) ++
  from_option_list (λ _, [RemoveServiceMonitor])
    (Spec_Observability (Instance_Spec i) ≫= Observability_ServiceMonitor).
End desired.

(** [o'] is [o] owned by the instance. *)
Definition owned `{OwnerAPI} (i : LangfuseInstance) (o o' : Object) : Prop :=
  ∃ m, SetControllerReference (Instance_ObjectMeta i) (obj_Meta o) = Ok m ∧ o' = set_obj_Meta m o.

(** The calls that make the changes [l] in order, up to the first failure. *)
Inductive applied `{OwnerAPI} (i : LangfuseInstance) : list Change → bool → list Call → Prop :=
  | applied_nil : applied i [] true []
  | applied_panic l : applied i (ApplyObject None :: l) false []
  | applied_unowned o l : applied i (ApplyObject (Some o) :: l) false []
  | applied_error o o' l e :
      owned i o o' →
      applied i (ApplyObject (Some o) :: l) false [CApply o' fieldOwnerInstance (Some e)]
  | applied_ok o o' l ok cs :
      owned i o o' → applied i l ok cs →
      applied i (ApplyObject (Some o) :: l) ok (CApply o' fieldOwnerInstance None :: cs)
  | removed_error l e :
      applied i (RemoveServiceMonitor :: l) false
        [CDeleteServiceMonitor (in_ns i (ServiceMonitorName i)) (Some e)]
  | removed_ok l e ok cs :
      (∀ e', e = Some e' → IsNotFound e' || IsNoMatchError e' = true) → applied i l ok cs →
      applied i (RemoveServiceMonitor :: l) ok
        (CDeleteServiceMonitor (in_ns i (ServiceMonitorName i)) e :: cs).

Definition step_ok (s : Step) : bool := match s with Next => true | _ => false end.

Section applied.
Context `{OWN : OwnerAPI}.

Lemma applied_app_ok i l1 l2 ok cs1 cs2 :
  applied i l1 true cs1 → applied i l2 ok cs2 → applied i (l1 ++ l2) ok (cs1 ++ cs2).
Proof.
  remember true as b eqn:Hb. intros H1 H2. induction H1; cbn; try done; constructor; auto.
Qed.

Lemma applied_app_fail i l1 l2 cs : applied i l1 false cs → applied i (l1 ++ l2) false cs.
Proof. remember false as b eqn:Hb. induction 1; cbn; try done; by (constructor; auto). Qed.

(** All changes went through: the objects applied are those asked for, owned. *)
Definition applied_object (c : Call) : option Object :=
  match c with CApply o _ None => Some o | _ => None end.

Lemma applied_all i objs l cs :
  applied i ((ApplyObject <$> objs) ++ l) true cs →
  ∃ cs1 cs2, cs = cs1 ++ cs2 ∧ applied i l true cs2 ∧
    Forall2 (λ o c, ∃ o0 o', o = Some o0 ∧ owned i o0 o' ∧ c = CApply o' fieldOwnerInstance None) objs cs1.
Proof.
  revert cs. induction objs as [|o objs IH]; cbn; intros cs Hc.
  { exists [], cs. auto. }
  inversion Hc; subst. destruct (IH _ ltac:(eassumption)) as (cs1 & cs2 & -> & ? & ?).
  eexists (_ :: cs1), cs2. split_and!; [done|done|]. constructor; [eauto|done].
Qed.

(** Every call of a pass over the children is one of these. *)
Lemma applied_calls i l ok cs c :
  applied i l ok cs → c ∈ cs →
  (∃ o o' e, ApplyObject (Some o) ∈ l ∧ owned i o o' ∧ c = CApply o' fieldOwnerInstance e) ∨
  (∃ e, RemoveServiceMonitor ∈ l ∧ c = CDeleteServiceMonitor (in_ns i (ServiceMonitorName i)) e).
Proof.
  induction 1 as [|l|o l|o o' l e Ho|o o' l ok cs Ho Hl IH|l e|l e ok cs He Hl IH]; intros Hc.
  - by apply elem_of_nil in Hc.
  - by apply elem_of_nil in Hc.
  - by apply elem_of_nil in Hc.
  - apply list_elem_of_singleton in Hc as ->. left. exists o, o', (Some e). split_and!; [by left|done..].
  - apply elem_of_cons in Hc as [->|Hc].
    + left. exists o, o', None. split_and!; [by left|done..].
    + destruct (IH Hc) as [(o1 & o2 & e & ? & ? & ?)|(e & ? & ?)]; [left|right]; eauto 9 using list_elem_of_further.
  - apply list_elem_of_singleton in Hc as ->. right. exists (Some e). split; [by left|done].
  - apply elem_of_cons in Hc as [->|Hc].
    + right. exists e. split; [by left|done].
    + destruct (IH Hc) as [(o1 & o2 & e' & ? & ? & ?)|(e' & ? & ?)]; [left|right]; eauto 9 using list_elem_of_further.
Qed.
End applied.

(** ** The calls of each part *)

Section traces.
Context {W : Type} `{KubeClient W} `{ApplyClient W} `{API : ConditionAPI} `{OWN : OwnerAPI}.
Context `{SCH : Scheme} `{QUANT : QuantityParser}.

Definition applying (i : LangfuseInstance) (l : list Change) (m : M (St W) Step) : Prop :=
  traces (λ s cs, applied i l (step_ok s) cs) m.

Lemma applying_skip i : applying i [] skip_step.
Proof. apply traces_mret. constructor. Qed.

Lemma applying_apply i o : applying i [ApplyObject (Some o)] (apply i o).
Proof.
  unfold applying, apply. destruct (SetControllerReference _ _) as [m|e] eqn:Em;
    [|apply traces_mret; constructor].
  destruct (GVKForObject _); [apply traces_mret; constructor|].
  assert (owned i o (set_obj_Meta m o)) by (exists m; done).
  apply traces_call_bind. intros [e|]; apply traces_mret; by repeat constructor.
Qed.

Lemma applying_built i o : applying i [ApplyObject o] (applyBuilt i o).
Proof. destruct o; [apply applying_apply|apply traces_mret; constructor]. Qed.

Lemma applying_naming i l what m : applying i l m → applying i l (naming what m).
Proof.
  intros Hm. unfold applying, naming. eapply traces_bind; [exact Hm|]. intros s cs Hs.
  apply traces_mret. rewrite app_nil_r. by destruct s.
Qed.

Lemma applying_andThen i l1 l2 m k :
  applying i l1 m → applying i l2 k → applying i (l1 ++ l2) (andThen m k).
Proof.
  intros Hm Hk. unfold applying, andThen. eapply traces_bind; [exact Hm|]. intros s cs Hs.
  destruct s; cbn in Hs.
  - eapply traces_mono; [exact Hk|]. intros s' cs' Hs'. by apply applied_app_ok.
  - apply traces_mret. rewrite app_nil_r. by apply applied_app_fail.
  - apply traces_mret. rewrite app_nil_r. by apply applied_app_fail.
Qed.

Lemma applying_when i b l m : applying i l m → applying i (when b l) (if b then m else skip_step).
Proof. intros Hm. destruct b; [exact Hm|apply applying_skip]. Qed.

Lemma applying_option {A} i (f : A → list Change) (o : option A) (m : A → M (St W) Step) :
  (∀ a, applying i (f a) (m a)) →
  applying i (from_option_list f o) (match o with Some a => m a | None => skip_step end).
Proof. intros Hm. destruct o; [apply Hm|apply applying_skip]. Qed.

Lemma applying_remove i : applying i [RemoveServiceMonitor] (removeRetiredServiceMonitor i).
Proof.
  unfold applying, removeRetiredServiceMonitor. apply traces_call_bind. intros [e|]; apply traces_mret.
  - destruct (IsNotFound e || IsNoMatchError e) eqn:E; [|constructor].
    apply removed_ok; [by intros e' [= <-]|constructor].
  - apply removed_ok; [done|constructor].
Qed.

Lemma fmap_when {A B} (f : A → B) b l : f <$> when b l = when b (f <$> l).
Proof. by destruct b. Qed.
Lemma fmap_from_option_list {A B C} (f : B → C) (g : A → list B) o :
  f <$> from_option_list g o = from_option_list (λ a, f <$> g a) o.
Proof. by destruct o. Qed.

Lemma applying_eq i l l' m : applying i l m → l = l' → applying i l' m.
Proof. by intros ? <-. Qed.
End traces.

(** Follows the text of a step; the changes are collected on the way. *)
Ltac applying_step :=
  match goal with
  | |- applying _ _ (andThen _ _) => eapply applying_andThen
  | |- applying _ _ (naming _ _) => eapply applying_naming
  | |- applying _ _ (apply _ _) => apply applying_apply
  | |- applying _ _ (applyBuilt _ _) => apply applying_built
  | |- applying _ _ (removeRetiredServiceMonitor _) => apply applying_remove
  | |- applying _ _ skip_step => apply applying_skip
  | |- applying _ _ (if _ then _ else skip_step) => eapply applying_when
  | |- applying _ _ (match _ with Some _ => _ | None => skip_step end) => eapply applying_option; intros ?
  end.
Ltac applying_by_steps := eapply applying_eq; [repeat applying_step|try done].

Section parts.
Context {W : Type} `{KubeClient W} `{ApplyClient W} `{API : ConditionAPI} `{OWN : OwnerAPI}.
Context `{SCH : Scheme} `{QUANT : QuantityParser}.

Lemma applying_clickhouse i managed :
  applying i (ApplyObject <$> clickhouse_objects i managed) (reconcileClickHouse i managed).
Proof. unfold reconcileClickHouse. applying_by_steps. Qed.

Lemma applying_redis i : applying i (ApplyObject <$> redis_objects i) (reconcileRedis i).
Proof. unfold reconcileRedis. applying_by_steps. Qed.

Lemma applying_networking i :
  applying i (ApplyObject <$> networking_objects i) (reconcileNetworking i).
Proof.
  unfold reconcileNetworking, reconcileNetworkPolicies, networking_objects. cbv zeta.
  destruct (networkPolicyDisabled i); applying_by_steps;
    by destruct (Spec_Ingress _) as [[[]]|], (Spec_Route _) as [[[]]|], (Spec_GatewayAPI _) as [[[]]|].
Qed.

Lemma applying_platform i :
  applying i ((ApplyObject <$> scaling_objects i) ++
              from_option_list (λ _, [RemoveServiceMonitor])
                (Spec_Observability (Instance_Spec i) ≫= Observability_ServiceMonitor))
    (reconcilePlatform i).
Proof.
  unfold reconcilePlatform, reconcileHPAs, reconcilePDBs, scaling_objects. cbv zeta.
  applying_by_steps. by rewrite !fmap_app, !fmap_when, <- !app_assoc.
Qed.

Lemma applying_children i config : applying i (desired_changes i config) (reconcileChildren i config).
Proof.
  unfold reconcileChildren, desired_changes, desired_objects, workload_objects.
  eapply applying_eq.
  { repeat (applying_step || (eapply applying_clickhouse || eapply applying_redis)).
    - apply applying_networking.
    - apply applying_platform. }
  rewrite !fmap_app, !fmap_from_option_list. cbn [fmap list_fmap]. by rewrite <- !app_assoc.
Qed.
End parts.

(** What a look at one Deployment records, by what it found. *)
Inductive observed (i : LangfuseInstance) (name component : string)
    (record : LangfuseInstance → Deployment → list PodIssue → LangfuseInstance)
    : LangfuseInstance → list Call → Prop :=
  | observed_absent e :
      err_kind e = KindNotFound →
      observed i name component record i [CGetDeployment (in_ns i name) (Err e)]
  | observed_ready d :
      0 < dep_StatusReadyReplicas d → dep_StatusReplicas d ≤ dep_StatusReadyReplicas d →
      observed i name component record (record i d []) [CGetDeployment (in_ns i name) (Ok d)]
  | observed_unready d r :
      ¬ (0 < dep_StatusReadyReplicas d ∧ dep_StatusReplicas d ≤ dep_StatusReadyReplicas d) →
      observed i name component record
        (record i d (match r with Ok pods => reportIssues pods | Err _ => [] end))
        [CGetDeployment (in_ns i name) (Ok d);
         CListPods (om_Namespace (Instance_ObjectMeta i)) (SelectorLabels i component) r].

Definition observed_web (i i' : LangfuseInstance) (cs : list Call) : Prop :=
  observed i (WebName i) componentWeb webStatus i' cs.
Definition observed_worker (i i' : LangfuseInstance) (cs : list Call) : Prop :=
  observed i (WorkerName i) componentWorker workerStatus i' cs.

Definition is_look (c : Call) : Prop :=
  match c with CGetDeployment _ _ | CListPods _ _ _ => True | _ => False end.

(** The calls of a status update: two looks, and a write when something changed. *)
Inductive status_calls `{ConditionAPI} (i original : LangfuseInstance) (workloadApplied : bool)
    : option GoError → list Call → Prop :=
  | status_unread e cs : Forall is_look cs →
      status_calls i original workloadApplied (Some e) cs
  | status_derived i1 i2 cs1 cs2 r ws :
      observed_web i i1 cs1 → observed_worker i1 i2 cs2 →
      status_write (derivedStatus i2 workloadApplied) original r ws →
      status_calls i original workloadApplied r (cs1 ++ cs2 ++ ws).

(** An instance whose spec points elsewhere than its schema. *)
Definition moved (i : LangfuseInstance) : list string :=
  retargetedComponents (appliedMigrationIdentity i) (migrationIdentity i).

(** The instance the children are built from. *)
Definition prepared `{ConditionAPI} (i : LangfuseInstance) : LangfuseInstance :=
  setDeprecationCondition (remove_condition conditionTypeDatastoreTarget (withInitialPhase i)).

(** The calls of a pass over the instance [i], after it was read, with its outcome. *)
Inductive pass_calls `{ConditionAPI} `{OwnerAPI} `{QuantityParser} (i : LangfuseInstance)
    : Outcome → list Call → Prop :=
  | pass_frozen r cs :
      moved i ≠ [] → status_calls (freeze (moved i) (withInitialPhase i)) i false r cs →
      pass_calls i (requeueIf (noteStatusWriteFailure r), None) cs
  | pass_misconfigured e r cs :
      moved i = [] → BuildConfig i = Err e →
      status_write (configError e (remove_condition conditionTypeDatastoreTarget (withInitialPhase i))) i r cs →
      pass_calls i (failed (wrapError "building config" e)) cs
  | pass_stopped config e cs :
      moved i = [] → BuildConfig i = Ok config →
      applied (prepared i) (desired_changes (prepared i) config) false cs →
      pass_calls i (failed e) cs
  | pass_completed config r cs1 cs2 :
      moved i = [] → BuildConfig i = Ok config →
      applied (prepared i) (desired_changes (prepared i) config) true cs1 →
      status_calls (prepared i) i true r cs2 →
      pass_calls i (match r with Some e => failed (wrapError "updating status" e) | None => done_now end)
        (cs1 ++ cs2).

Section pass.
Context {W : Type} `{KubeClient W} `{ApplyClient W} `{API : ConditionAPI} `{OWN : OwnerAPI}.
Context `{SCH : Scheme} `{QUANT : QuantityParser}.

Lemma observe_traces i name component what record :
  traces (λ r cs, match r with
                  | Ok i' => observed i name component record i' cs
                  | Err e => Forall is_look cs ∧
                             ∃ e0, e = wrapError what e0 ∧ cs = [CGetDeployment (in_ns i name) (Err e0)]
                  end) (observe i name component what record).
Proof.
  unfold observe. apply traces_call_bind. intros [d|e].
  - unfold podIssuesFor. destruct (_ && _) eqn:Er.
    + cbn [mbind M_bind]. apply andb_true_iff in Er as [E1 E2].
      apply (traces_bind (λ l cs, l = [] ∧ cs = [])); [by apply traces_mret|].
      intros l cs [-> ->]. apply traces_mret. constructor; lia.
    + unfold collectPodIssues.
      apply (traces_bind (λ l cs, ∃ r, l = match r with Ok pods => reportIssues pods | Err _ => [] end ∧
        cs = [CListPods (om_Namespace (Instance_ObjectMeta i)) (SelectorLabels i component) r])).
      * eapply traces_bind with (T1 := λ x cs, ∃ r, x = match r with Ok pods => Ok (reportIssues pods)
                                        | Err e => Err (wrapError "listing pods" e) end ∧
          cs = [CListPods (om_Namespace (Instance_ObjectMeta i)) (SelectorLabels i component) r]).
        -- apply traces_call_bind. intros r; destruct r eqn:E; apply traces_mret; exists r; by subst.
        -- intros x cs (r & -> & ->). apply traces_mret. exists r. by destruct r.
      * intros l cs (r & -> & ->). apply traces_mret. cbn. apply observed_unready.
        apply andb_false_iff in Er. lia.
  - apply traces_mret. unfold IsNotFound. case_bool_decide; [by apply observed_absent|].
    split; [by repeat constructor|]. eauto.
Qed.

Lemma observed_look i name component record i' cs :
  observed i name component record i' cs → Forall is_look cs.
Proof. destruct 1; by repeat constructor. Qed.

Lemma updateStatus_traces i original b :
  traces (status_calls i original b) (updateStatus i original b).
Proof.
  unfold updateStatus. eapply traces_bind; [apply observe_traces|]. intros [i1|e] cs1 H1; cbn in H1.
  2: { apply traces_mret. rewrite app_nil_r. apply status_unread. by destruct H1. }
  eapply traces_bind; [apply observe_traces|]. intros [i2|e] cs2 H2; cbn in H2.
  2: { apply traces_mret. rewrite app_nil_r. apply status_unread, Forall_app.
       split; [by eapply observed_look|by destruct H2]. }
  eapply traces_mono; [apply updateInstanceStatus_traces|]. intros r ws Hw. by apply (status_derived _ _ _ i1 i2).
Qed.

(** The gates read what the initial phase and the removed condition leave alone. *)
Lemma moved_prepared i : moved (withInitialPhase i) = moved i.
Proof. unfold withInitialPhase. by destruct (nonempty_str _). Qed.

Lemma BuildConfig_prepared i :
  BuildConfig (remove_condition conditionTypeDatastoreTarget (withInitialPhase i)) = BuildConfig i.
Proof. unfold withInitialPhase. by destruct (nonempty_str _), i. Qed.

Lemma live_pass_traces i : traces (pass_calls i) (reconcileInstance i).
Proof.
  unfold reconcileInstance. cbv zeta. fold (moved (withInitialPhase i)). rewrite moved_prepared.
  destruct (moved i) as [|c l] eqn:Em.
  - rewrite BuildConfig_prepared. destruct (BuildConfig i) as [config|e] eqn:Ec.
    + fold (prepared i). eapply traces_bind; [apply applying_children|]. intros s cs Hs.
      destruct s; cbn in Hs.
      * eapply traces_bind; [apply updateStatus_traces|]. intros r cs' Hr. apply traces_mret.
        rewrite app_nil_r. by eapply pass_completed.
      * apply traces_mret. rewrite app_nil_r. by eapply pass_stopped.
      * apply traces_mret. rewrite app_nil_r. by eapply pass_stopped.
    + eapply traces_bind; [apply updateInstanceStatus_traces|]. intros r cs Hr. apply traces_mret.
      rewrite app_nil_r. by eapply pass_misconfigured.
  - eapply traces_bind; [apply updateStatus_traces|]. intros r cs Hr. apply traces_mret.
    rewrite app_nil_r. apply pass_frozen; by rewrite Em.
Qed.

(** A whole pass: nothing for an instance that is gone or being deleted. *)
Definition live (i : LangfuseInstance) : Prop := om_DeletionTimestamp (Instance_ObjectMeta i) = None.

Definition whole_pass (req : NamespacedName) (out : Outcome) (cs : list Call) : Prop :=
  ∃ g rest, cs = CGetInstance req g :: rest ∧
    match g with
    | Ok i => (¬ live i ∧ rest = []) ∨ (live i ∧ pass_calls i out rest)
    | Err e => rest = [] ∧ (IsNotFound e = false → is_Some out.2)
    end.

Lemma instance_pass_traces req : traces (whole_pass req) (Reconcile req).
Proof.
  unfold Reconcile. apply traces_call_bind. intros [i|e].
  2: { destruct (IsNotFound e) eqn:En; apply traces_mret; exists (Err e), []; rewrite En; by eauto. }
  destruct (om_DeletionTimestamp _) eqn:Ed.
  - apply traces_mret. exists (Ok i), []. split; [done|]. left. unfold live. by rewrite Ed.
  - eapply traces_mono; [apply live_pass_traces|]. intros out cs Hc. exists (Ok i), cs. auto.
Qed.
End pass.

(** ** Properties *)

(** *** The children *)

Section children.
Context `{API : ConditionAPI} `{OWN : OwnerAPI} `{QUANT : QuantityParser}.

(** Preparing the instance changes conditions and an empty phase only. *)
Lemma prepared_keeps i :
  Instance_ObjectMeta (prepared i) = Instance_ObjectMeta i ∧
  Instance_Spec (prepared i) = Instance_Spec i ∧
  Status_Web (Instance_Status (prepared i)) = Status_Web (Instance_Status i) ∧
  Status_Worker (Instance_Status (prepared i)) = Status_Worker (Instance_Status i) ∧
  Status_Migration (Instance_Status (prepared i)) = Status_Migration (Instance_Status i).
Proof.
  unfold prepared, setDeprecationCondition, withInitialPhase.
  destruct (nonempty_str _); destruct (deprecatedFields _); done.
Qed.

Lemma desired_prepared i config :
  desired_changes (prepared i) config = desired_changes i config ∧
  desired_objects (prepared i) config = desired_objects i config.
Proof.
  destruct (prepared_keeps i) as (Hm & Hs & _ & Hw & _). revert Hm Hs Hw.
  generalize (prepared i). intros [m sp st] Hm Hs Hw; destruct i as [m' sp' st']; cbn in *; subst.
  assert (∀ cfg, BuildWorkerDeployment (mkLangfuseInstance m' sp' st) cfg =
                 BuildWorkerDeployment (mkLangfuseInstance m' sp' st') cfg) as E.
  { intros cfg. unfold BuildWorkerDeployment, circuitBreakerHoldsWorker. cbn. by rewrite Hw. }
  unfold desired_changes, desired_objects, workload_objects. rewrite E. done.
Qed.

Lemma owned_prepared i o o' : owned (prepared i) o o' ↔ owned i o o'.
Proof. unfold owned. by rewrite (proj1 (prepared_keeps i)). Qed.

(** The objects a trace applied with success, in order. *)
Definition applied_objects (cs : list Call) : list Object := omap applied_object cs.

(** All objects the spec asks for were applied, in order, owned by the instance. *)
Definition all_applied (i : LangfuseInstance) (config : Config) (cs : list Call) : Prop :=
  ∃ objs, desired_objects i config = Some <$> objs ∧ Forall2 (owned i) objs (applied_objects cs).

Lemma status_calls_no_apply i original b r cs : status_calls i original b r cs → applied_objects cs = [].
Proof.
  assert (∀ l, Forall is_look l → applied_objects l = []) as Hl.
  { induction 1 as [|c l Hc]; [done|]. unfold applied_objects. by destruct c. }
  destruct 1 as [e cs Hf|i1 i2 cs1 cs2 r ws H1 H2 Hw]; [by apply Hl|].
  unfold applied_objects. rewrite !omap_app. fold (applied_objects cs1) (applied_objects cs2).
  rewrite !Hl by (by eapply observed_look). by destruct Hw as [(_ & _ & ->)|(_ & e & _ & ->)].
Qed.

Lemma applied_all_objects i config cs :
  applied i (desired_changes i config) true cs → all_applied i config cs.
Proof.
  intros Ha. apply applied_all in Ha as (cs1 & cs2 & -> & H2 & HF).
  assert (applied_objects cs2 = []) as E2.
  { unfold from_option_list in H2. destruct (_ ≫= _) in H2; inversion H2; subst; [|done].
    match goal with Hn : applied _ [] _ _ |- _ => by inversion Hn end. }
  unfold all_applied, applied_objects. rewrite omap_app. fold (applied_objects cs2). rewrite E2, app_nil_r.
  clear H2 E2. induction HF as [|o c objs cs (o0 & o' & -> & Ho & ->) HF IH]; [by exists []|].
  destruct IH as (objs' & -> & HF'). exists (o0 :: objs'). split; [done|]. by constructor.
Qed.

Lemma all_applied_app i config cs1 cs2 :
  all_applied i config cs1 → applied_objects cs2 = [] → all_applied i config (cs1 ++ cs2).
Proof.
  intros (objs & E & HF) E2. exists objs. split; [done|]. unfold applied_objects in *.
  by rewrite omap_app, E2, app_nil_r.
Qed.
End children.

Section apply_theorems.
Context {W : Type} `{KubeClient W} `{ApplyClient W} `{API : ConditionAPI} `{OWN : OwnerAPI}.
Context `{SCH : Scheme} `{QUANT : QuantityParser}.

Lemma status_calls_look i original b r cs c :
  status_calls i original b r cs → c ∈ cs → is_look c ∨ ∃ i' e, c = CUpdateStatus i' e.
Proof.
  destruct 1 as [e cs Hf|i1 i2 cs1 cs2 r ws H1 H2 Hw]; rewrite ?elem_of_app; intros Hc.
  - left. rewrite Forall_forall in Hf. auto.
  - apply observed_look in H1, H2. rewrite Forall_forall in H1, H2.
    destruct Hc as [Hc|[Hc|Hc]]; [left; auto..|]. destruct (status_write_elem _ _ _ _ _ Hw Hc). eauto.
Qed.

(** The call of an apply in a pass, traced back to its builder. *)
Lemma applied_in_pass i out cs o owner e :
  pass_calls i out cs → CApply o owner e ∈ cs →
  moved i = [] ∧ owner = fieldOwnerInstance ∧
  ∃ config o0, BuildConfig i = Ok config ∧ Some o0 ∈ desired_objects i config ∧ owned i o0 o.
Proof.
  assert (∀ config ok cs, applied (prepared i) (desired_changes (prepared i) config) ok cs →
            CApply o owner e ∈ cs → owner = fieldOwnerInstance ∧
            ∃ o0, Some o0 ∈ desired_objects i config ∧ owned i o0 o) as Happ.
  { intros config ok cs1 Ha Hin. destruct (applied_calls _ _ _ _ _ Ha Hin) as
      [(o0 & o' & e' & Hd & Ho & [= -> -> ->])|(? & _ & ?)]; [|done].
    split; [done|]. exists o0. rewrite owned_prepared in Ho. split; [|done].
    rewrite (proj1 (desired_prepared i config)) in Hd. unfold desired_changes in Hd.
    apply elem_of_app in Hd as [Hd|Hd].
    - apply list_elem_of_fmap in Hd as (x & [= <-] & Hx). done.
    - unfold from_option_list in Hd. destruct (_ ≫= _) in Hd; set_solver. }
  intros Hp Hin. destruct Hp as [r cs Hm Hs|e' r cs Hm Hc Hw|config e' cs Hm Hc Ha|config r cs1 cs2 Hm Hc Ha Hs].
  - destruct (status_calls_look _ _ _ _ _ _ Hs Hin) as [[]|(? & ? & ?)]; done.
  - by destruct (status_write_elem _ _ _ _ _ Hw Hin).
  - destruct (Happ _ _ _ Ha Hin) as (-> & o0 & ? & ?). eauto 8.
  - apply elem_of_app in Hin as [Hin|Hin].
    + destruct (Happ _ _ _ Ha Hin) as (-> & o0 & ? & ?). eauto 8.
    + destruct (status_calls_look _ _ _ _ _ _ Hs Hin) as [[]|(? & ? & ?)]; done.
Qed.

(** C10: children are applied with cause only.  Whatever the API server answers,
    every object a pass applies is one the spec of the instance read in that pass
    asks for, owned by that instance and applied under the controller's own field
    owner; and nothing is applied for an instance that is being deleted, that points
    to another datastore than the one migrated, or whose configuration is refused. *)
Theorem children_applied_with_cause req w out w' tr o owner e :
  run (Reconcile req) w = (out, w', tr) → CApply o owner e ∈ tr →
  ∃ i config o0, CGetInstance req (Ok i) ∈ tr ∧ live i ∧ moved i = [] ∧
    BuildConfig i = Ok config ∧ Some o0 ∈ desired_objects i config ∧
    owned i o0 o ∧ owner = fieldOwnerInstance.
Proof.
  intros Hrun Hin.
  destruct (traces_run _ _ _ _ _ _ (instance_pass_traces req) Hrun) as (g & rest & -> & Hg).
  apply elem_of_cons in Hin as [|Hin]; [done|]. destruct g as [i|]; [|destruct Hg as [-> _]; set_solver].
  destruct Hg as [[_ ->]|[Hl Hp]]; [set_solver|].
  destruct (applied_in_pass _ _ _ _ _ _ Hp Hin) as (? & ? & config & o0 & ? & ? & ?).
  exists i, config, o0. split; [by left|done].
Qed.

(** The completed pass applied everything. *)
Lemma completed_all_applied i config cs :
  applied (prepared i) (desired_changes (prepared i) config) true cs → all_applied i config cs.
Proof.
  intros Ha. destruct (applied_all_objects _ _ _ Ha) as (objs & E & HF). exists objs.
  rewrite (proj2 (desired_prepared i config)) in E. split; [done|].
  eapply Forall2_impl; [exact HF|]. intros x y. by rewrite owned_prepared.
Qed.

(** C11: what success means.  A pass that reports success either found no instance to
    work on, absent or being deleted, and made no further call; or found one whose
    datastores were moved, and applied nothing; or has applied all the objects the spec
    asks for, in the order of [desired_objects], each owned by the instance: no error
    was swallowed, no builder panicked and no configuration was refused. *)
Theorem successful_pass_applies_all req w out w' tr :
  run (Reconcile req) w = (out, w', tr) → out.2 = None →
  ∃ g, head tr = Some (CGetInstance req g) ∧
    match g with
    | Err e => IsNotFound e = true ∧ tr = [CGetInstance req g]
    | Ok i =>
        (¬ live i ∧ tr = [CGetInstance req g]) ∨
        (live i ∧ moved i ≠ [] ∧ applied_objects tr = []) ∨
        (live i ∧ moved i = [] ∧ ∃ config, BuildConfig i = Ok config ∧ all_applied i config tr)
    end.
Proof.
  intros Hrun Hout.
  destruct (traces_run _ _ _ _ _ _ (instance_pass_traces req) Hrun) as (g & rest & -> & Hg).
  exists g. split; [done|]. destruct g as [i|e].
  2: { destruct Hg as [-> He]. destruct (IsNotFound e); [done|]. rewrite Hout in He. by destruct (He eq_refl). }
  destruct Hg as [[? ->]|[Hl Hp]]; [by left|right].
  inversion Hp as [r cs Hm Hs|e' r cs Hm Hc Hw|config e' cs Hm Hc Ha|config r cs1 cs2 Hm Hc Ha Hs]; subst; try done.
  - left. split_and!; [done..|]. exact (status_calls_no_apply _ _ _ _ _ Hs).
  - right. split_and!; [done..|]. exists config. split; [done|].
    pose proof (completed_all_applied _ _ _ Ha) as Hall.
    pose proof (status_calls_no_apply _ _ _ _ _ Hs) as E2. destruct (all_applied_app _ _ _ _ Hall E2) as (objs & ? & ?).
    by exists objs.
Qed.
End apply_theorems.

(** *** The status *)

Section status_facts.
Context `{API : ConditionAPI} {AL : ConditionLaws API}.

Lemma find_instance_condition t s reason message i t' :
  find_condition (set_condition t s reason message i) t' =
  if decide (t' = t) then Some (condition t s reason message (om_Generation (Instance_ObjectMeta i)))
  else find_condition i t'.
Proof.
  unfold find_condition, set_condition. cbn. case_decide as E.
  - subst. apply (find_set_eq _ (condition t s reason message _)).
  - by apply (find_set_ne _ (condition t s reason message _)).
Qed.

Lemma find_remove_condition t i t' :
  find_condition (remove_condition t i) t' = if decide (t' = t) then None else find_condition i t'.
Proof.
  unfold find_condition, remove_condition. cbn. case_decide as E; [subst; apply find_remove_eq|by apply find_remove_ne].
Qed.

(** The Ready condition is not among those the phase depends on. *)
Lemma derivePhase_ready_condition s reason message i :
  derivePhase (set_condition conditionTypeReady s reason message i) = derivePhase i.
Proof.
  apply derivePhase_ext; try done. intros t Ht. rewrite find_instance_condition, decide_False; [done|].
  intros ->. revert Ht. by apply (bool_decide_unpack (_ ∉ _)); vm_compute.
Qed.

Lemma derivedStatus_spec i b :
  let i' := derivedStatus i b in
  derivePhase i' = (Status_Phase (Instance_Status i'), Status_Ready (Instance_Status i')) ∧
  derivePhase i' = derivePhase i ∧
  find_condition i' conditionTypeReady =
    Some (condition conditionTypeReady (boolToConditionStatus (Status_Ready (Instance_Status i')))
            (phaseToReason (Status_Phase (Instance_Status i')))
            ("Phase: " +:+ Status_Phase (Instance_Status i')) (om_Generation (Instance_ObjectMeta i))) ∧
  Instance_Spec i' = Instance_Spec i ∧ Instance_ObjectMeta i' = Instance_ObjectMeta i ∧
  Status_Worker (Instance_Status i') = Status_Worker (Instance_Status i) ∧
  (Status_Version (Instance_Status i'), Status_PublicUrl (Instance_Status i')) =
    if b then (Image_Tag (Spec_Image (Instance_Spec i)), Auth_NextAuthUrl (Spec_Auth (Instance_Spec i)))
    else (Status_Version (Instance_Status i), Status_PublicUrl (Instance_Status i)).
Proof.
  cbv zeta. unfold derivedStatus. destruct (derivePhase i) as [p r] eqn:E. rewrite derivePhase_ready_condition.
  rewrite find_instance_condition, decide_True by done.
  assert (∀ j, Status_Web (Instance_Status j) = Status_Web (Instance_Status i) →
               Status_Worker (Instance_Status j) = Status_Worker (Instance_Status i) →
               Status_Migration (Instance_Status j) = Status_Migration (Instance_Status i) →
               Status_Conditions (Instance_Status j) = Status_Conditions (Instance_Status i) →
               derivePhase j = (p, r)) as Hext.
  { intros j ??? Hc. rewrite <- E. apply derivePhase_ext; try done. intros t _. unfold find_condition. by rewrite Hc. }
  destruct b; (rewrite Hext; [|done..]); by split_and!.
Qed.
End status_facts.

(** The breaker's own fields. *)
Definition breaker_fields (i : LangfuseInstance) : bool * string :=
  let w := default zero_WorkerComponentStatus (Status_Worker (Instance_Status i)) in
  (WorkerStatus_CircuitBreakerActive w, WorkerStatus_CircuitBreakerReason w).

(** What a look leaves alone. *)
Definition looks_alike (i i' : LangfuseInstance) : Prop :=
  Instance_ObjectMeta i' = Instance_ObjectMeta i ∧ Instance_Spec i' = Instance_Spec i ∧
  Status_Conditions (Instance_Status i') = Status_Conditions (Instance_Status i) ∧
  Status_Version (Instance_Status i') = Status_Version (Instance_Status i) ∧
  Status_PublicUrl (Instance_Status i') = Status_PublicUrl (Instance_Status i) ∧
  Status_Migration (Instance_Status i') = Status_Migration (Instance_Status i) ∧
  breaker_fields i' = breaker_fields i.

Lemma observed_web_alike i i' cs : observed_web i i' cs → looks_alike i i'.
Proof. by destruct 1. Qed.

Lemma observed_worker_alike i i' cs : observed_worker i i' cs → looks_alike i i'.
Proof.
  destruct 1; unfold looks_alike; split_and!; try done;
    unfold breaker_fields, workerStatus; cbn; by destruct (Status_Worker _).
Qed.

Lemma looks_alike_trans i j k : looks_alike i j → looks_alike j k → looks_alike i k.
Proof. unfold looks_alike. intuition congruence. Qed.

Lemma WebName_ne_WorkerName i : WebName i ≠ WorkerName i.
Proof. unfold WebName, WorkerName. induction (om_Name _); cbn; congruence. Qed.

(** The replica counts of a component status are those of the Deployment. *)
Definition counts (c : option ComponentStatus) (d : Deployment) : Prop :=
  ∃ s, c = Some s ∧ Component_Replicas s = dep_StatusReplicas d ∧
       Component_ReadyReplicas s = dep_StatusReadyReplicas d.

Definition web_component (i : LangfuseInstance) : option ComponentStatus := Status_Web (Instance_Status i).
Definition worker_component (i : LangfuseInstance) : option ComponentStatus :=
  WorkerStatus_ComponentStatus <$> Status_Worker (Instance_Status i).

Lemma observed_web_counts i i' cs k d :
  observed_web i i' cs → CGetDeployment k (Ok d) ∈ cs →
  k = in_ns i (WebName i) ∧ counts (web_component i') d.
Proof.
  destruct 1 as [e He|d' H1 H2|d' r Hn]; intros Hin; rewrite ?elem_of_cons, ?elem_of_nil in Hin;
    [by destruct Hin|destruct Hin as [[= -> ->]|[]]|destruct Hin as [[= -> ->]|[|[]]]; [|done]];
    (split; [done|eexists; done]).
Qed.

Lemma observed_worker_counts i i' cs k d :
  observed_worker i i' cs → CGetDeployment k (Ok d) ∈ cs →
  k = in_ns i (WorkerName i) ∧ counts (worker_component i') d.
Proof.
  destruct 1 as [e He|d' H1 H2|d' r Hn]; intros Hin; rewrite ?elem_of_cons, ?elem_of_nil in Hin;
    [by destruct Hin|destruct Hin as [[= -> ->]|[]]|destruct Hin as [[= -> ->]|[|[]]]; [|done]];
    (split; [done|eexists; done]).
Qed.

Lemma observed_worker_web i i' cs : observed_worker i i' cs → web_component i' = web_component i.
Proof. by destruct 1. Qed.

Section status_theorems.
Context {W : Type} `{KubeClient W} `{ApplyClient W} `{API : ConditionAPI} `{OWN : OwnerAPI}.
Context `{SCH : Scheme} `{QUANT : QuantityParser} {AL : ConditionLaws API}.

(** A status write of [status_calls], with what it was derived from. *)
Lemma status_calls_write i original b r cs i' e :
  status_calls i original b r cs → CUpdateStatus i' e ∈ cs →
  ∃ i2, i' = derivedStatus i2 b ∧ looks_alike i i2 ∧
    (∀ d, CGetDeployment (in_ns i (WebName i)) (Ok d) ∈ cs → counts (web_component i') d) ∧
    (∀ d, CGetDeployment (in_ns i (WorkerName i)) (Ok d) ∈ cs → counts (worker_component i') d).
Proof.
  destruct 1 as [e' cs Hf|i1 i2 cs1 cs2 r ws H1 H2 Hw]; intros Hin.
  { rewrite Forall_forall in Hf. by apply Hf in Hin. }
  assert (i' = derivedStatus i2 b) as ->.
  { pose proof (observed_look _ _ _ _ _ _ H1) as L1. pose proof (observed_look _ _ _ _ _ _ H2) as L2.
    rewrite Forall_forall in L1, L2. rewrite !elem_of_app in Hin.
    destruct Hin as [Hin|[Hin|Hin]]; [by apply L1 in Hin|by apply L2 in Hin|].
    by destruct (status_write_elem _ _ _ _ _ Hw Hin) as [? [= -> _]]. }
  exists i2. split; [done|]. pose proof (observed_web_alike _ _ _ H1) as A1.
  pose proof (observed_worker_alike _ _ _ H2) as A2. split; [by eapply looks_alike_trans|].
  assert (∀ k d, CGetDeployment k (Ok d) ∈ cs1 ++ cs2 ++ ws → CGetDeployment k (Ok d) ∈ cs1 ∨ CGetDeployment k (Ok d) ∈ cs2) as Hin2.
  { intros k d. rewrite !elem_of_app. intros [?|[?|Hk]]; [auto..|]. by destruct (status_write_elem _ _ _ _ _ Hw Hk). }
  destruct A1 as (Em & _). assert (∀ n, in_ns i1 n = in_ns i n) as En by (intros n; unfold in_ns; by rewrite Em).
  assert (WorkerName i1 = WorkerName i) as Ew by (unfold WorkerName; by rewrite Em).
  assert (web_component (derivedStatus i2 b) = web_component i2 ∧
          worker_component (derivedStatus i2 b) = worker_component i2) as [-> ->].
  { unfold derivedStatus. destruct (derivePhase i2), b; done. }
  split; intros d Hd; apply Hin2 in Hd as [Hd|Hd].
  - apply (observed_web_counts _ _ _ _ _ H1) in Hd as [_ Hd]. by rewrite (observed_worker_web _ _ _ H2).
  - apply (observed_worker_counts _ _ _ _ _ H2) in Hd as [Hd _]. rewrite En, Ew in Hd.
    injection Hd as Hd. by destruct (WebName_ne_WorkerName i).
  - apply (observed_web_counts _ _ _ _ _ H1) in Hd as [Hd _]. injection Hd as Hd. symmetry in Hd. by destruct (WebName_ne_WorkerName i).
  - by apply (observed_worker_counts _ _ _ _ _ H2) in Hd as [_ Hd].
Qed.

(** The Ready condition says what the status says. *)
Definition ready_agrees (i : LangfuseInstance) : Prop :=
  ∃ c, find_condition i conditionTypeReady = Some c ∧
       cond_Status c = boolToConditionStatus (Status_Ready (Instance_Status i)) ∧
       cond_Reason c = phaseToReason (Status_Phase (Instance_Status i)).

Definition published_version (i : LangfuseInstance) : string * string :=
  (Status_Version (Instance_Status i), Status_PublicUrl (Instance_Status i)).
Definition spec_version (i : LangfuseInstance) : string * string :=
  (Image_Tag (Spec_Image (Instance_Spec i)), Auth_NextAuthUrl (Spec_Auth (Instance_Spec i))).

(** A status derived from what was observed. *)
Definition honest (i' : LangfuseInstance) : Prop :=
  derivePhase i' = (Status_Phase (Instance_Status i'), Status_Ready (Instance_Status i')) ∧ ready_agrees i'.

Lemma derived_honest i2 b : honest (derivedStatus i2 b).
Proof.
  destruct (derivedStatus_spec i2 b) as (Hd & _ & Hc & _). split; [exact Hd|]. eexists. split; [exact Hc|done].
Qed.

Lemma withInitialPhase_keeps i :
  Instance_ObjectMeta (withInitialPhase i) = Instance_ObjectMeta i ∧
  Instance_Spec (withInitialPhase i) = Instance_Spec i ∧
  Status_Ready (Instance_Status (withInitialPhase i)) = Status_Ready (Instance_Status i) ∧
  published_version (withInitialPhase i) = published_version i ∧
  breaker_fields (withInitialPhase i) = breaker_fields i.
Proof. unfold withInitialPhase. by destruct (nonempty_str _). Qed.

(** A frozen instance is in phase Error. *)
Lemma frozen_phase i i2 changed :
  looks_alike (freeze changed i) i2 → derivePhase i2 = (phaseError, false).
Proof.
  intros (_ & _ & Hc & _). apply derivePhase_refines, spec_error. left. unfold datastoreTargetChanged.
  assert (find_condition i2 conditionTypeDatastoreTarget =
          find_condition (freeze changed i) conditionTypeDatastoreTarget) as ->
    by (unfold find_condition; by rewrite Hc).
  unfold freeze. by rewrite find_instance_condition, decide_True.
Qed.

Lemma prepared_version i :
  published_version (prepared i) = published_version i ∧ breaker_fields (prepared i) = breaker_fields i.
Proof.
  unfold prepared, setDeprecationCondition, withInitialPhase.
  destruct (nonempty_str _), (deprecatedFields _); done.
Qed.

Lemma applied_no_looks i l ok cs k d : applied i l ok cs → CGetDeployment k (Ok d) ∉ cs.
Proof. intros Ha Hin. by destruct (applied_calls _ _ _ _ _ Ha Hin) as [(? & ? & ? & ? & ? & ?)|(? & ? & ?)]. Qed.

Lemma applied_no_status i l ok cs i' e : applied i l ok cs → CUpdateStatus i' e ∉ cs.
Proof. intros Ha Hin. by destruct (applied_calls _ _ _ _ _ Ha Hin) as [(? & ? & ? & ? & ? & ?)|(? & ? & ?)]. Qed.

(** What a pass publishes about [i], having made the calls [cs]. *)
Definition published (i i' : LangfuseInstance) (cs : list Call) : Prop :=
  honest i' ∧
  (∀ d, CGetDeployment (in_ns i (WebName i)) (Ok d) ∈ cs → counts (web_component i') d) ∧
  (∀ d, CGetDeployment (in_ns i (WorkerName i)) (Ok d) ∈ cs → counts (worker_component i') d) ∧
  ((moved i ≠ [] ∧ derivePhase i' = (phaseError, false) ∧ published_version i' = published_version i) ∨
   (moved i = [] ∧ published_version i' = spec_version i ∧
    ∃ config, BuildConfig i = Ok config ∧ all_applied i config cs)).

(** A refused configuration: the Ready condition says why and the condition about moved
    datastores goes; everything else is as it was read, the phase Pending if there was
    none, so readiness and phase are those of an earlier pass. *)
Definition refused (i i' : LangfuseInstance) (ce : GoError) : Prop :=
  find_condition i' conditionTypeReady =
    Some (condition conditionTypeReady ConditionFalse "ConfigError" (err_msg ce) (om_Generation (Instance_ObjectMeta i))) ∧
  find_condition i' conditionTypeDatastoreTarget = None ∧
  (∀ t, t ≠ conditionTypeReady → t ≠ conditionTypeDatastoreTarget → find_condition i' t = find_condition i t) ∧
  set_Status_Conditions [] (Instance_Status i') = set_Status_Conditions [] (Instance_Status (withInitialPhase i)).

Lemma configError_refused i ce :
  refused i (configError ce (remove_condition conditionTypeDatastoreTarget (withInitialPhase i))) ce.
Proof.
  assert (∀ t, find_condition (withInitialPhase i) t = find_condition i t) as Hw
    by (intros t; unfold withInitialPhase; by destruct (nonempty_str _)).
  destruct (withInitialPhase_keeps i) as [Hm _].
  unfold refused, configError. split_and!; [| |intros t H1 H2|done];
    rewrite find_instance_condition, ?find_remove_condition, ?decide_True, ?decide_False by done.
  - cbn. by rewrite Hm.
  - by rewrite decide_True.
  - done || by rewrite decide_False, Hw.
Qed.

Lemma pass_publishes i out cs i' e :
  pass_calls i out cs → CUpdateStatus i' e ∈ cs →
  Instance_Spec i' = Instance_Spec i ∧ breaker_fields i' = breaker_fields i ∧
  ((∃ ce, moved i = [] ∧ BuildConfig i = Err ce ∧ refused i i' ce) ∨ published i i' cs).
Proof.
  destruct (withInitialPhase_keeps i) as (Wm & Ws & _ & Wv & Wb).
  destruct (prepared_keeps i) as (Pm & Ps & _). destruct (prepared_version i) as [Pv Pb].
  intros Hp Hin. destruct Hp as [r cs Hm Hs|ce r cs Hm Hc Hw|config ce cs Hm Hc Ha|config r cs1 cs2 Hm Hc Ha Hs].
  - destruct (status_calls_write _ _ _ _ _ _ _ Hs Hin) as (i2 & -> & Hl & C1 & C2).
    pose proof (frozen_phase _ _ _ Hl) as Hf. destruct Hl as (Em & Es & _ & Ev & Eu & _ & Eb).
    destruct (derivedStatus_spec i2 false) as (D1 & D2 & _ & D3 & D4 & D5 & D6).
    assert (in_ns (freeze (moved i) (withInitialPhase i)) (WebName (freeze (moved i) (withInitialPhase i))) =
              in_ns i (WebName i)) as En by (unfold in_ns, WebName, freeze, set_condition; cbn; by rewrite Wm).
    assert (in_ns (freeze (moved i) (withInitialPhase i)) (WorkerName (freeze (moved i) (withInitialPhase i))) =
              in_ns i (WorkerName i)) as En' by (unfold in_ns, WorkerName, freeze, set_condition; cbn; by rewrite Wm).
    rewrite En in C1. rewrite En' in C2.
    split_and!; [by rewrite D3, Es|unfold breaker_fields; rewrite D5; fold (breaker_fields i2); by rewrite Eb|].
    right. split_and!; [apply derived_honest|done..|]. left. split_and!; [done|by rewrite D2|].
    unfold published_version at 1. rewrite D6, Ev, Eu. exact Wv.
  - destruct (status_write_elem _ _ _ _ _ Hw Hin) as [? [= -> _]].
    split_and!; [done|exact Wb|]. left. exists ce. split_and!; [done..|apply configError_refused].
  - by destruct (applied_no_status _ _ _ _ i' e Ha).
  - apply elem_of_app in Hin as [Hin|Hin]; [by destruct (applied_no_status _ _ _ _ i' e Ha)|].
    destruct (status_calls_write _ _ _ _ _ _ _ Hs Hin) as (i2 & -> & Hl & C1 & C2).
    destruct Hl as (Em & Es & _ & Ev & Eu & _ & Eb).
    destruct (derivedStatus_spec i2 true) as (D1 & D2 & _ & D3 & D4 & D5 & D6).
    assert (in_ns (prepared i) (WebName (prepared i)) = in_ns i (WebName i)) as En by (unfold in_ns, WebName; by rewrite Pm).
    assert (in_ns (prepared i) (WorkerName (prepared i)) = in_ns i (WorkerName i)) as En' by (unfold in_ns, WorkerName; by rewrite Pm).
    rewrite En in C1. rewrite En' in C2.
    split_and!; [by rewrite D3, Es|unfold breaker_fields; rewrite D5; fold (breaker_fields i2); by rewrite Eb|].
    right. split_and!; [apply derived_honest| | |].
    + intros d [Hd|Hd]%elem_of_app; [by destruct (applied_no_looks _ _ _ _ _ d Ha Hd)|auto].
    + intros d [Hd|Hd]%elem_of_app; [by destruct (applied_no_looks _ _ _ _ _ d Ha Hd)|auto].
    + right. split_and!; [done|unfold published_version; rewrite D6; unfold spec_version; by rewrite Es, Ps|].
      exists config. split; [done|]. apply all_applied_app; [by apply completed_all_applied|].
      by eapply status_calls_no_apply.
Qed.

(** C12: what the instance controller publishes is what it did and saw, or that it could
    do nothing.  Whatever the API server answers, a status it writes keeps the spec and
    the circuit breaker's fields.  Unless the configuration is refused, its phase and
    readiness are those [derivePhase] computes from that very status, its Ready
    condition says the same, its replica counts are those of the Deployments read in
    the pass, and version and URL are the spec's only after all objects of the spec were
    applied: a moved instance is published in phase Error with the version it had.  When
    the configuration is refused the Ready condition is False and says why, and
    readiness, phase, counts, version and URL are left as an earlier pass published
    them. *)
Theorem instance_status_honest req w out w' tr i' e :
  run (Reconcile req) w = (out, w', tr) → CUpdateStatus i' e ∈ tr →
  ∃ i, CGetInstance req (Ok i) ∈ tr ∧ live i ∧
    Instance_Spec i' = Instance_Spec i ∧ breaker_fields i' = breaker_fields i ∧
    ((∃ ce, moved i = [] ∧ BuildConfig i = Err ce ∧ refused i i' ce) ∨ published i i' (tail tr)).
Proof.
  intros Hrun Hin.
  destruct (traces_run _ _ _ _ _ _ (instance_pass_traces req) Hrun) as (g & rest & -> & Hg).
  apply elem_of_cons in Hin as [|Hin]; [done|]. destruct g as [i|]; [|destruct Hg as [-> _]; set_solver].
  destruct Hg as [[_ ->]|[Hl Hp]]; [set_solver|].
  destruct (pass_publishes _ _ _ _ _ Hp Hin) as (? & ? & ?). exists i. split; [by left|done].
Qed.

(** A refused configuration leaves readiness behind.  The pass reports the
    error and publishes a Ready condition that is False, but the flag
    [status.ready], which the other controllers read, and a phase already set stay
    what they were: an instance that was ready stays ready. *)
Theorem config_error_keeps_ready i ce w out w' tr i' e :
  moved i = [] → BuildConfig i = Err ce →
  run (reconcileInstance i) w = (out, w', tr) → CUpdateStatus i' e ∈ tr →
  out.2 = Some (wrapError "building config" ce) ∧
  (∃ c, find_condition i' conditionTypeReady = Some c ∧ cond_Status c = ConditionFalse ∧
        cond_Reason c = "ConfigError" ∧ cond_Message c = err_msg ce) ∧
  Status_Ready (Instance_Status i') = Status_Ready (Instance_Status i) ∧
  (Status_Phase (Instance_Status i) ≠ "" →
   Status_Phase (Instance_Status i') = Status_Phase (Instance_Status i)).
Proof.
  intros Hm Hc Hrun Hin. pose proof (traces_run _ _ _ _ _ _ (live_pass_traces i) Hrun) as Hp.
  inversion Hp as [r cs Hm' Hs|ce' r cs Hm' Hc' Hw|config e' cs Hm' Hc' Ha|config r cs1 cs2 Hm' Hc' Ha Hs];
    subst; try congruence.
  rewrite Hc in Hc'. injection Hc' as <-. destruct (status_write_elem _ _ _ _ _ Hw Hin) as [? [= -> _]].
  destruct (withInitialPhase_keeps i) as (_ & _ & Hr & _).
  split_and!; [done| |exact Hr|].
  - unfold configError. rewrite find_instance_condition, decide_True by done. by eexists.
  - intros Hn. unfold configError, set_condition, remove_condition, withInitialPhase. cbn.
    by destruct (Status_Phase (Instance_Status i)) eqn:E; [|cbn; rewrite E].
Qed.
End status_theorems.

(** ** Witnesses, on a concrete cluster *)

(** Both stores managed, an ingress, autoscaled web pods, a retired ServiceMonitor. *)
Definition ex_full_spec : LangfuseInstanceSpec :=
  mkLangfuseInstanceSpec (ex_image "3.1")
    (mkWebSpec None (Some (mkAutoscalingSpec true None 4 None [])) None (Some (mkPDBSpec true None)) None
       [] [] [] ∅ [] None)
    zero_WorkerSpec zero_AuthSpec None None None (Some (ex_database "pg"))
    (Some (mkClickHouseSpec (Some (mkManagedClickHouseSpec None None "20Gi" "" None None)) None None None None None "default"))
    (Some (mkRedisSpec (Some (mkManagedRedisSpec None "")) None)) None None
    (Some (mkIngressSpec true "nginx" "langfuse.example.com" ∅ None)) None None None
    (Some (mkObservabilitySpec (Some (mkServiceMonitorSpec true "" ∅)) None)) None None.

Definition ex_full : LangfuseInstance := mkLangfuseInstance (ex_meta "lf") ex_full_spec zero_LangfuseInstanceStatus.

Definition ex_instance_pass (i : LangfuseInstance) : Outcome * FakeCluster * list Call :=
  run (Reconcile (API := list_conditions) (OWN := list_owner) (SCH := full_scheme)
         (QUANT := simple_quantities) ex_key) (ex_cluster i None).

(** The status a pass published. *)
Definition published_status (tr : list Call) : LangfuseInstance :=
  default ex_full (head (omap (λ c, match c with CUpdateStatus i _ => Some i | _ => None end) tr)).

Definition is_apply (c : Call) : bool := match c with CApply _ _ _ => true | _ => false end.

Lemma is_apply_elem tr : existsb is_apply tr = true → ∃ o owner e, CApply o owner e ∈ tr.
Proof. intros ([] & Hin%list_elem_of_In & Hc)%existsb_exists; try done. eauto. Qed.

Lemma children_applied_with_cause_witness :
  length (applied_objects (ex_instance_pass ex_full).2) = 13%nat ∧
  ∃ i config o0, live i ∧ BuildConfig i = Ok config ∧
    Some o0 ∈ desired_objects (QUANT := simple_quantities) i config.
Proof.
  split; [by vm_compute|].
  destruct (is_apply_elem (ex_instance_pass ex_full).2) as (o & owner & e & Hin); [by vm_compute|].
  destruct (children_applied_with_cause _ _ _ _ _ _ _ _ (triple_eta (ex_instance_pass ex_full)) Hin)
    as (i & config & o0 & _ & Hl & _ & Hc & Hd & _).
  by exists i, config, o0.
Defined.

Lemma successful_pass_applies_all_witness :
  ∃ config, BuildConfig ex_full = Ok config ∧
    all_applied (OWN := list_owner) (QUANT := simple_quantities) ex_full config (ex_instance_pass ex_full).2.
Proof.
  destruct (successful_pass_applies_all _ _ _ _ _ (triple_eta (ex_instance_pass ex_full))) as (g & Hg & Hcase);
    [by vm_compute|].
  assert (head (ex_instance_pass ex_full).2 = Some (CGetInstance ex_key (Ok ex_full))) as E by by vm_compute.
  rewrite E in Hg. injection Hg as <-. cbn match in Hcase.
  destruct Hcase as [[Hl _]|[(_ & Hm & _)|(_ & _ & Hall)]]; [by destruct Hl|by destruct Hm; vm_compute|exact Hall].
Defined.

Definition ex_published : LangfuseInstance := published_status (ex_instance_pass ex_full).2.

Lemma writes_status tr i' :
  head (omap (λ c, match c with CUpdateStatus i None => Some i | _ => None end) tr) = Some i' →
  CUpdateStatus i' None ∈ tr.
Proof.
  intros Hh. assert (i' ∈ omap (λ c, match c with CUpdateStatus i None => Some i | _ => None end) tr) as Hin.
  { destruct (omap _ tr); [done|]. injection Hh as ->. by left. }
  apply list_elem_of_omap in Hin as ([] & Hc & Hi); try done. destruct e; [done|]. by injection Hi as ->.
Qed.

Lemma instance_status_honest_witness :
  CUpdateStatus ex_published None ∈ (ex_instance_pass ex_full).2 ∧
  ∃ i, live i ∧ Instance_Spec ex_published = Instance_Spec i ∧ breaker_fields ex_published = breaker_fields i.
Proof.
  assert (CUpdateStatus ex_published None ∈ (ex_instance_pass ex_full).2) as Hin
    by (apply writes_status; by vm_compute).
  split; [done|].
  destruct (instance_status_honest (AL := list_conditions_laws) _ _ _ _ _ _ _
    (triple_eta (ex_instance_pass ex_full)) Hin) as (i & _ & Hl & Hs & Hb & _).
  exact (ex_intro _ i (conj Hl (conj Hs Hb))).
Defined.

(** A ready instance whose spec is edited to the unsupported managed database. *)
Definition ex_refused : LangfuseInstance :=
  mkLangfuseInstance (ex_meta "lf")
    (mkLangfuseInstanceSpec (ex_image "3.1") zero_WebSpec zero_WorkerSpec zero_AuthSpec None None None
       (Some (mkDatabaseSpec None (Some (mkManagedDatabaseSpec None "" "" None)) None None))
       None None None None None None None None None None None)
    (set_Status_Ready true (set_Status_Phase phaseRunning zero_LangfuseInstanceStatus)).

Definition ex_reconcile (i : LangfuseInstance) (w : FakeCluster) : Outcome * FakeCluster * list Call :=
  run (reconcileInstance (API := list_conditions) (OWN := list_owner) (SCH := full_scheme)
         (QUANT := simple_quantities) i) w.

Lemma ex_reconcile_run i w :
  run (reconcileInstance (API := list_conditions) (OWN := list_owner) (SCH := full_scheme)
         (QUANT := simple_quantities) i) w =
  ((ex_reconcile i w).1.1, (ex_reconcile i w).1.2, (ex_reconcile i w).2).
Proof. apply triple_eta. Qed.

Lemma config_error_keeps_ready_witness :
  let run := ex_reconcile ex_refused empty_cluster in
  let i' := published_status run.2 in
  is_Some run.1.1.2 ∧ Status_Ready (Instance_Status i') = true ∧
  Status_Phase (Instance_Status i') = phaseRunning.
Proof.
  cbv zeta. destruct (BuildConfig ex_refused) as [|ce] eqn:Ec; [by vm_compute in Ec|].
  assert (moved ex_refused = []) as Hm by by vm_compute.
  destruct (config_error_keeps_ready (AL := list_conditions_laws) ex_refused ce empty_cluster _ _ _
    (published_status (ex_reconcile ex_refused empty_cluster).2) None Hm Ec
    (ex_reconcile_run ex_refused empty_cluster)) as (Ho & _ & Hr & Hp).
  - apply writes_status. by vm_compute.
  - rewrite Ho, Hr, Hp by done. split_and!; [by eexists|done..].
Defined.
