(* ===== verification/Migration.v ===== *)
(** * The migration controller ([internal/controller/migration_controller.go])

    One pass of [MigrationController.Reconcile], call by call, and what it
    guarantees about the migration Job and about the record of what was
    migrated, whatever the API server answers. *)

From S2P Require Import Prelude GoStd KubeTypes ApiTypes Kube Examples Status Version Config.
From S2P Require Import Resources PodIssues Phase Identity.

Open Scope string_scope.
Open Scope list_scope.

Section controller.
Context {W : Type} `{KubeClient W} `{API : ConditionAPI} `{OWN : OwnerAPI}.

(** [meta.SetStatusCondition] on the MigrationsComplete condition. *)
Definition set_migrations_complete (status : ConditionStatus) (reason message : string)
    (i : LangfuseInstance) : LangfuseInstance :=
  set_Instance_Status (set_Status_Conditions
    (SetStatusCondition (Status_Conditions (Instance_Status i))
       (condition conditionMigrationsComplete status reason message
          (om_Generation (Instance_ObjectMeta i))))
    (Instance_Status i)) i.

(** [client.IgnoreNotFound]. *)
Definition IgnoreNotFound (e : GoError) : option GoError := if IsNotFound e then None else Some e.

Definition runOnDeployDisabled (i : LangfuseInstance) : bool :=
  match (Spec_Database (Instance_Spec i) ≫= Database_Migration) ≫= Migration_RunOnDeploy with
  | Some runOnDeploy => negb runOnDeploy
  | None => false
  end.

Definition retargetMessage (changed : list string) : string :=
  Join changed " and " +:+ " changed after migrations already ran. The ClickHouse target is " +:+
  "fixed once its schema exists: another database would leave the existing data behind, " +:+
  "and a table's engine cannot be changed after CREATE. Revert the change, or create a " +:+
  "separate LangfuseInstance for the new target and cut over once it has migrated".

Definition missingKeysMessage (missing : list string) : string :=
  "spec.clickhouse.external.secretRef.keys is missing " +:+ Join missing ", " +:+
  ", which the ClickHouse migration step requires".

(** Both refusals: publish the reason, create nothing, repeat the pass only
    when the status write lost a race. *)
Definition refuse (instance original : LangfuseInstance) (message : string) : M (St W) Outcome :=
  let instance := set_migrations_complete ConditionFalse reasonMigrationFailed message instance in
  e ← updateInstanceStatus instance original;
  mret (requeueIf (noteStatusWriteFailure e), None).

Definition job_with_identity (identity : string) (j : JobObject) : JobObject :=
  let m := jobo_Meta j in
  mkJobObject
    (mkObjectMeta (om_Name m) (om_Namespace m) (om_Labels m)
       (<[migrationIdentityAnnotation := identity]> (om_Annotations m)) (om_OwnerReferences m)
       (om_Generation m) (om_DeletionTimestamp m) (om_Finalizers m))
    (jobo_BackoffLimit j) (jobo_TTLSecondsAfterFinished j) (jobo_Template j).

Definition job_with_meta (m : ObjectMeta) (j : JobObject) : JobObject :=
  mkJobObject m (jobo_BackoffLimit j) (jobo_TTLSecondsAfterFinished j) (jobo_Template j).

Definition desiredTag (i : LangfuseInstance) : string := Image_Tag (Spec_Image (Instance_Spec i)).

(** No Job exists: create one. *)
Definition startMigration (instance original : LangfuseInstance) (config : Config) : M (St W) Outcome :=
  let jobName := MigrationJobName instance in
  let job := job_with_identity (migrationIdentity instance) (BuildMigrationJob instance config) in
  match SetControllerReference (Instance_ObjectMeta instance) (jobo_Meta job) with
  | Err e => mret (failed (wrapError "setting owner reference on migration job" e))
  | Ok m =>
      let job := job_with_meta m job in
      let instance := set_migrations_complete ConditionFalse reasonMigrationStarted
        ("Running migrations for version " +:+ desiredTag instance) instance in
      _ ← updateInstanceStatus instance original;
      e ← Create_Job job;
      match e with
      | Some e => mret (failed (wrapError "creating migration job" e))
      | None =>
          Event EventNormal "MigrationStarted"
            ("Started migration job " +:+ jobName +:+ " for version " +:+ desiredTag instance) ≫= λ _,
          mret (done_after (10 * Second))
      end
  end.

(** The existing Job migrates another target. *)
Definition replaceStaleJob (existingJob : Job) : M (St W) Outcome :=
  match om_DeletionTimestamp (job_Meta existingJob) with
  | Some _ => mret (done_after (5 * Second))
  | None =>
      e ← Delete_Job (om_key (job_Meta existingJob)) PropagationForeground;
      match e with
      | Some e => if negb (IsNotFound e)
                  then mret (failed (wrapError "deleting stale migration job" e))
                  else mret (done_after (5 * Second))
      | None => mret (done_after (5 * Second))
      end
  end.

(** The status of an instance whose Job succeeded. *)
Definition migrated (instance : LangfuseInstance) : LangfuseInstance :=
  let desired := migrationIdentity instance in
  let instance := set_migrations_complete ConditionTrue reasonMigrationSucceeded
    ("Migrations completed for version " +:+ desiredTag instance) instance in
  let db := default zero_DatabaseStatus (Status_Database (Instance_Status instance)) in
  let instance := set_Instance_Status (set_Status_Database
    (Some (set_DatabaseStatus_MigrationVersion (NormalizeVersion (desiredTag instance)) db))
    (Instance_Status instance)) instance in
  with_applied desired instance.

Definition recordSuccess (instance original : LangfuseInstance) : M (St W) Outcome :=
  e ← updateInstanceStatus (migrated instance) original;
  Event EventNormal "MigrationCompleted"
    ("Migration job " +:+ MigrationJobName instance +:+ " completed successfully") ≫= λ _,
  mret (requeueIf (noteStatusWriteFailure e), None).

Definition migrationPodIssues (instance : LangfuseInstance) : M (St W) (list PodIssue) :=
  r ← collectPodIssues (om_Namespace (Instance_ObjectMeta instance))
        (SelectorLabels instance componentMigration);
  mret match r with Ok issues => issues | Err _ => [] end.

(** The diagnosis of a Job that has not succeeded, written in place: the
    applied identity stays what it was. *)
Definition with_progress (jobName : string) (failedPods : Z) (issues : list PodIssue)
    (i : LangfuseInstance) : LangfuseInstance :=
  let m := default zero_MigrationStatus (Status_Migration (Instance_Status i)) in
  set_Instance_Status (set_Status_Migration
    (Some (set_MigrationStatus_Issues issues (set_MigrationStatus_Failed failedPods
             (set_MigrationStatus_JobName jobName m))))
    (Instance_Status i)) i.

Definition jobExhausted (job : Job) : bool :=
  let f := job_Failed (job_Status job) in
  (f >? 0)%Z && (f >=? default 3 (job_BackoffLimit job))%Z.

Definition reportProgress (instance original : LangfuseInstance) (existingJob : Job) : M (St W) Outcome :=
  let jobName := MigrationJobName instance in
  let failures := job_Failed (job_Status existingJob) in
  issues ← migrationPodIssues instance;
  let instance := with_progress jobName failures issues instance in
  if jobExhausted existingJob then
    let summary := "Migration job failed after " +:+ itoa failures +:+ " attempts" in
    let '(_, message) := summarizePodIssues issues reasonMigrationFailed summary in
    let instance := set_migrations_complete ConditionFalse reasonMigrationFailed message instance in
    e ← updateInstanceStatus instance original;
    Event EventWarning "MigrationFailed"
      ("Migration job " +:+ jobName +:+ " failed after " +:+ itoa failures +:+ " attempts: " +:+ message)
      ≫= λ _,
    mret (requeueIf (noteStatusWriteFailure e), None)
  else
    let instance :=
      match issues with
      | [] => instance
      | _ =>
          let '(_, message) := summarizePodIssues issues reasonMigrationInProgress
                                 "Migration job in progress" in
          set_migrations_complete ConditionFalse reasonMigrationInProgress message instance
      end in
    _ ← updateInstanceStatus instance original;
    mret (done_after (10 * Second)).

Definition cleanupCompletedJobs (instance : LangfuseInstance) : M (St W) Outcome :=
  r ← Get_Job (mkKey (om_Namespace (Instance_ObjectMeta instance)) (MigrationJobName instance));
  match r with
  | Err e => if IsNotFound e then mret done_now
             else mret (failed (wrapError "checking migration job" e))
  | Ok existingJob =>
      match job_CompletionTime (job_Status existingJob) with
      | Some completed =>
          if (job_Succeeded (job_Status existingJob) >? 0)%Z then
            now ← Now;
            if (now - completed >? Hour)%Z then
              e ← Delete_Job (om_key (job_Meta existingJob)) PropagationBackground;
              match e with
              | Some e => if negb (IsNotFound e)
                          then mret (failed (wrapError "cleaning up migration job" e))
                          else mret done_now
              | None => mret done_now
              end
            else mret done_now
          else mret done_now
      | None => mret done_now
      end
  end.

(** From the lookup of the Job on. *)
Definition reconcileJob (instance original : LangfuseInstance) (config : Config) : M (St W) Outcome :=
  r ← Get_Job (mkKey (om_Namespace (Instance_ObjectMeta instance)) (MigrationJobName instance));
  match r with
  | Err e => if IsNotFound e then startMigration instance original config
             else mret (failed (wrapError "getting migration job" e))
  | Ok existingJob =>
      let jobIdentity := default "" (om_Annotations (job_Meta existingJob) !! migrationIdentityAnnotation) in
      if negb (bool_decide (jobIdentity = migrationIdentity instance)) then replaceStaleJob existingJob
      else if (job_Succeeded (job_Status existingJob) >? 0)%Z then recordSuccess instance original
      else reportProgress instance original existingJob
  end.

(** The gates a pass goes through before it looks for the Job. *)
Definition reconcileInstance (instance : LangfuseInstance) : M (St W) Outcome :=
  let original := instance in
  let desiredIdentity := migrationIdentity instance in
  match legacyBaselineIdentity instance desiredIdentity with
  | Some baseline =>
      e ← updateInstanceStatus (with_applied baseline instance) original;
      match e with
      | Some e => mret (statusWriteFailed e "recording migration baseline")
      | None => mret done_now
      end
  | None =>
  if runOnDeployDisabled instance then mret done_now
  else if migrationUpToDate (appliedMigrationIdentity instance) desiredIdentity
  then cleanupCompletedJobs instance
  else match retargetedComponents (appliedMigrationIdentity instance) desiredIdentity with
  | (_ :: _) as changed => refuse instance original (retargetMessage changed)
  | [] =>
  match missingClickHouseMigrationKeys instance with
  | (_ :: _) as missing => refuse instance original (missingKeysMessage missing)
  | [] =>
  match BuildConfig instance with
  | Err e => mret (failed (wrapError "building config for migration" e))
  | Ok config => reconcileJob instance original config
  end end end end.

Definition Reconcile (req : NamespacedName) : M (St W) Outcome :=
  r ← Get_Instance req;
  match r with
  | Err e => mret (zero_Result, IgnoreNotFound e)
  | Ok instance =>
      match om_DeletionTimestamp (Instance_ObjectMeta instance) with
      | Some _ => mret done_now
      | None => reconcileInstance instance
      end
  end.
End controller.

(** ** The calls a pass may make *)

Definition jobIdentity (job : Job) : string :=
  default "" (om_Annotations (job_Meta job) !! migrationIdentityAnnotation).

Definition job_key (i : LangfuseInstance) : NamespacedName :=
  mkKey (om_Namespace (Instance_ObjectMeta i)) (MigrationJobName i).

(** Once the Job was looked up with answer [r]. *)
Definition job_call (i : LangfuseInstance) (r : result Job) (c : Call) : Prop :=
  match c with
  | CCreateJob j _ =>
      (∃ e, r = Err e ∧ err_kind e = KindNotFound) ∧
      om_key (jobo_Meta j) = job_key i ∧
      om_Annotations (jobo_Meta j) !! migrationIdentityAnnotation = Some (migrationIdentity i)
  | CDeleteJob k p _ =>
      p = PropagationForeground ∧
      ∃ job, r = Ok job ∧ k = om_key (job_Meta job) ∧ jobIdentity job ≠ migrationIdentity i ∧
             om_DeletionTimestamp (job_Meta job) = None
  | CUpdateStatus i' _ =>
      Instance_Spec i' = Instance_Spec i ∧
      (recordedIdentity i' = recordedIdentity i ∨
       recordedIdentity i' = migrationIdentity i ∧
       ∃ job, r = Ok job ∧ jobIdentity job = migrationIdentity i ∧ 0 < job_Succeeded (job_Status job))
  | CListPods _ _ _ | CEvent _ _ _ => True
  | _ => False
  end.

(** When nothing is left to migrate: one look at the Job, and the removal of
    one that succeeded more than an hour before. *)
Definition cleanup_call (i : LangfuseInstance) (c : Call) : Prop :=
  match c with
  | CGetJob k _ => k = job_key i
  | CDeleteJob _ p _ => p = PropagationBackground
  | _ => False
  end.

(** What holds when a pass gets as far as the Job. *)
Record gate_open (i : LangfuseInstance) : Prop := {
  open_live : om_DeletionTimestamp (Instance_ObjectMeta i) = None;
  open_enabled : runOnDeployDisabled i = false;
  open_stale : migrationUpToDate (appliedMigrationIdentity i) (migrationIdentity i) = false;
  open_target : retargetedComponents (appliedMigrationIdentity i) (migrationIdentity i) = [];
  open_keys : missingClickHouseMigrationKeys i = [];
  open_config : is_ok (BuildConfig i) = true
}.

Definition refused `{ConditionAPI} (message : string) (i : LangfuseInstance) : LangfuseInstance :=
  set_migrations_complete ConditionFalse reasonMigrationFailed message i.

Definition switched_off (i : LangfuseInstance) : Prop :=
  om_DeletionTimestamp (Instance_ObjectMeta i) ≠ None ∨ runOnDeployDisabled i = true.

Definition must_refuse (i : LangfuseInstance) : Prop :=
  retargetedComponents (appliedMigrationIdentity i) (migrationIdentity i) ≠ [] ∨
  missingClickHouseMigrationKeys i ≠ [].

(** The calls of one pass over the instance [i], after it was read. *)
Inductive pass_calls `{ConditionAPI} (i : LangfuseInstance) : list Call → Prop :=
  | calls_off : switched_off i → pass_calls i []
  | calls_baseline baseline r cs :
      legacyBaselineIdentity i (migrationIdentity i) = Some baseline →
      status_write (with_applied baseline i) i r cs → pass_calls i cs
  | calls_cleanup cs :
      migrationUpToDate (appliedMigrationIdentity i) (migrationIdentity i) = true →
      Forall (cleanup_call i) cs → pass_calls i cs
  | calls_refused message r cs :
      must_refuse i → status_write (refused message i) i r cs → pass_calls i cs
  | calls_misconfigured : ¬ must_refuse i → is_ok (BuildConfig i) = false → pass_calls i []
  | calls_job r cs :
      gate_open i → Forall (job_call i r) cs → pass_calls i (CGetJob (job_key i) r :: cs).

(** ** Trace lemmas of the parts *)

Section traces.
Context {W : Type} `{KubeClient W} `{API : ConditionAPI} `{OWN : OwnerAPI} {OL : OwnerLaws OWN}.

Lemma refuse_traces i message :
  must_refuse i → traces (λ _ cs, pass_calls i cs) (refuse i i message).
Proof.
  intros Hm. unfold refuse. eapply traces_bind; [apply updateInstanceStatus_traces|].
  intros e cs Hw. apply traces_mret. rewrite app_nil_r. by eapply calls_refused.
Qed.

Lemma cleanup_emits i : emits_ret (cleanup_call i) (λ _, True) (cleanupCompletedJobs i).
Proof.
  unfold cleanupCompletedJobs. apply emits_ret_bind with (λ _, True); [by apply emits_ret_call|].
  intros r _. repeat first
    [ emits_step | done
    | apply emits_ret_bind with (λ _, True); [first [apply emits_ret_silent|by apply emits_ret_call]|intros ? _] ].
Qed.

Lemma start_emits i config r e :
  r = Err e → err_kind e = KindNotFound →
  emits_ret (job_call i r) (λ _, True) (startMigration i i config).
Proof.
  intros -> He. unfold startMigration. destruct (SetControllerReference _ _) as [m|] eqn:Em;
    [|by apply emits_ret_mret].
  apply owner_keeps in Em. cbv zeta.
  eapply emits_ret_bind; [apply updateInstanceStatus_emits|]; intros.
  { cbn. auto. }
  apply emits_ret_bind with (λ _, True); [apply emits_ret_call|].
  - intros x. split; [done|]. cbn. split_and!; [by eauto|rewrite Em; done|].
    rewrite Em. cbn. by rewrite lookup_insert_eq.
  - intros [?|] _; [by apply emits_ret_mret|].
    apply emits_ret_bind with (λ _, True); [by apply emits_ret_call|]. intros. by apply emits_ret_mret.
Qed.

Lemma stale_emits i job :
  jobIdentity job ≠ migrationIdentity i →
  emits_ret (job_call i (Ok job)) (λ _, True) (replaceStaleJob job).
Proof.
  intros Hj. unfold replaceStaleJob.
  destruct (om_DeletionTimestamp (job_Meta job)) eqn:Ed; [by apply emits_ret_mret|].
  apply emits_ret_bind with (λ _, True).
  - apply emits_ret_call. intros x. split; [done|]. cbn. eauto 10.
  - intros [?|] _; repeat emits_step; done.
Qed.

Lemma success_emits i job :
  jobIdentity job = migrationIdentity i → 0 < job_Succeeded (job_Status job) →
  emits_ret (job_call i (Ok job)) (λ _, True) (recordSuccess i i).
Proof.
  intros Hj Hs. unfold recordSuccess.
  eapply emits_ret_bind; [apply updateInstanceStatus_emits|]; intros.
  - cbn. split; [done|]. right. eauto.
  - apply emits_ret_bind with (λ _, True); [by apply emits_ret_call|]. intros. by apply emits_ret_mret.
Qed.

Lemma recordedIdentity_with_progress n f l i :
  recordedIdentity (with_progress n f l i) = recordedIdentity i.
Proof. unfold recordedIdentity, with_progress. cbn. by destruct (Status_Migration _). Qed.

Lemma progress_emits i job :
  emits_ret (job_call i (Ok job)) (λ _, True) (reportProgress i i job).
Proof.
  unfold reportProgress, migrationPodIssues, collectPodIssues.
  apply emits_ret_bind with (λ _, True).
  { apply emits_ret_bind with (λ _, True).
    - apply emits_ret_bind with (λ _, True); [by apply emits_ret_call|].
      intros [?|?] _; by apply emits_ret_mret.
    - intros. by apply emits_ret_mret. }
  intros issues _.
  pose proof (recordedIdentity_with_progress (MigrationJobName i) (job_Failed (job_Status job)) issues i) as HP.
  destruct (jobExhausted job).
  - destruct (summarizePodIssues _ _ _) as [? message].
    eapply emits_ret_bind; [apply updateInstanceStatus_emits|]; intros.
    { cbn. split; [done|]. by left. }
    apply emits_ret_bind with (λ _, True); [by apply emits_ret_call|]. intros. by apply emits_ret_mret.
  - eapply emits_ret_bind; [apply updateInstanceStatus_emits|]; intros; [|by apply emits_ret_mret].
    destruct issues; [cbn; auto|]. destruct (summarizePodIssues _ _ _) as [? message]. cbn. auto.
Qed.

Lemma job_traces i config :
  traces (λ _ cs, ∃ r rest, cs = CGetJob (job_key i) r :: rest ∧ Forall (job_call i r) rest)
    (reconcileJob i i config).
Proof.
  unfold reconcileJob. apply traces_call_bind. intros r.
  assert (∀ m : M (St W) Outcome, emits_ret (job_call i r) (λ _, True) m →
    traces (λ _ cs, ∃ r' rest, CGetJob (job_key i) r :: cs = CGetJob (job_key i) r' :: rest ∧
                    Forall (job_call i r') rest) m) as Hlift.
  { intros m Hm. eapply traces_mono; [by apply emits_traces|]. cbn. intros ? cs [_ HF]. eauto. }
  destruct r as [job|e]; [|destruct (IsNotFound e) eqn:En].
  - fold (jobIdentity job). case_bool_decide as Ej; cbn [negb].
    + destruct (_ >? 0) eqn:Es; apply Hlift.
      * apply success_emits; [done|lia].
      * apply progress_emits.
    + by apply Hlift, stale_emits.
  - apply Hlift. eapply start_emits; [done|]. unfold IsNotFound in En. by to_prop.
  - apply Hlift. by apply emits_ret_mret.
Qed.

Lemma baseline_traces i baseline :
  legacyBaselineIdentity i (migrationIdentity i) = Some baseline →
  traces (λ _ cs, pass_calls i cs)
    (e ← updateInstanceStatus (with_applied baseline i) i;
     match e with
     | Some e => mret (statusWriteFailed e "recording migration baseline")
     | None => mret done_now
     end).
Proof.
  intros Hb. eapply traces_bind; [apply updateInstanceStatus_traces|].
  intros e cs Hw. destruct e; apply traces_mret; rewrite app_nil_r; by eapply calls_baseline.
Qed.

Lemma reconcileInstance_traces i :
  om_DeletionTimestamp (Instance_ObjectMeta i) = None →
  traces (λ _ cs, pass_calls i cs) (reconcileInstance i).
Proof.
  intros Hd. unfold reconcileInstance. cbv zeta.
  destruct (legacyBaselineIdentity _ _) as [baseline|] eqn:Eb; [by apply baseline_traces|].
  destruct (runOnDeployDisabled i) eqn:Er; [apply traces_mret, calls_off; by right|].
  destruct (migrationUpToDate _ _) eqn:Eu.
  { eapply traces_mono; [apply emits_traces, cleanup_emits|]. intros ? cs [_ ?]. by apply calls_cleanup. }
  destruct (retargetedComponents _ _) eqn:Et; [|apply refuse_traces; left; by rewrite Et].
  destruct (missingClickHouseMigrationKeys i) eqn:Em; [|apply refuse_traces; right; by rewrite Em].
  destruct (BuildConfig i) as [config|] eqn:Ec.
  - eapply traces_mono; [apply job_traces|]. intros ? cs (r & rest & -> & HF).
    constructor; [|done]. split; try done. by rewrite Ec.
  - apply traces_mret, calls_misconfigured; [|by rewrite Ec]. unfold must_refuse. rewrite Et, Em. tauto.
Qed.

Lemma migration_pass_traces req :
  traces (λ _ cs, ∃ r rest, cs = CGetInstance req r :: rest ∧
            match r with Ok i => pass_calls i rest | Err _ => rest = [] end) (Reconcile req).
Proof.
  unfold Reconcile. apply traces_call_bind. intros [i|e].
  - destruct (om_DeletionTimestamp _) eqn:Ed.
    + apply traces_mret. exists (Ok i), []. split; [done|]. apply calls_off. left. by rewrite Ed.
    + eapply traces_mono; [by apply reconcileInstance_traces|]. cbn. eauto.
  - apply traces_mret. by exists (Err e), [].
Qed.

(** A run that made a call beyond the first read an instance. *)
Lemma Reconcile_run req w out w' tr :
  run (Reconcile req) w = (out, w', tr) →
  ∃ r rest, tr = CGetInstance req r :: rest ∧
    match r with Ok i => pass_calls i rest | Err _ => rest = [] end.
Proof. apply (traces_run _ _ _ _ _ _ (migration_pass_traces req)). Qed.
End traces.

(** ** Properties *)

Section properties.
Context {W : Type} `{KubeClient W} `{API : ConditionAPI} `{OWN : OwnerAPI} {OL : OwnerLaws OWN}.

(** C1: a migration Job is created only when one is due.  Whatever the API
    server answers, a pass that creates a Job read an instance that is not being
    deleted, migrates on deploy, is not up to date, was not pointed at another
    datastore and maps every key the migration needs; it has just been told that
    no Job of that name exists; and the Job carries the identity it migrates. *)
Theorem migration_job_created_only_when_due req w out w' tr j e :
  run (Reconcile req) w = (out, w', tr) → CCreateJob j e ∈ tr →
  ∃ i nf, CGetInstance req (Ok i) ∈ tr ∧ gate_open i ∧
    CGetJob (job_key i) (Err nf) ∈ tr ∧ err_kind nf = KindNotFound ∧
    om_key (jobo_Meta j) = job_key i ∧
    om_Annotations (jobo_Meta j) !! migrationIdentityAnnotation = Some (migrationIdentity i).
Proof.
  intros (r & rest & -> & Hr)%Reconcile_run Hc. apply elem_of_cons in Hc as [|Hc]; [done|].
  destruct r as [i|]; [|subst; set_solver].
  destruct Hr as [_|b ?? _ Hw|cs _ HF|??? _ Hw|_ _|r cs Ho HF].
  1, 5: set_solver.
  1, 3: by destruct (status_write_elem _ _ _ _ _ Hw Hc).
  - rewrite Forall_forall in HF. by apply HF in Hc.
  - apply elem_of_cons in Hc as [|Hc]; [done|]. rewrite Forall_forall in HF.
    apply HF in Hc as ((nf & -> & Hn) & Hk & Ha). exists i, nf.
    split_and!; try done; set_solver.
Qed.

(** C2: a target is recorded as migrated only with cause.  A status write that
    changes the applied identity records the identity of the spec it read, and
    either establishes the baseline of an instance that migrated before
    identities were recorded, or follows a look at a Job annotated with that very
    identity which has succeeded: the success of a Job for another version or
    datastore is never credited. *)
Theorem applied_identity_recorded_with_cause req w out w' tr i' e :
  run (Reconcile req) w = (out, w', tr) → CUpdateStatus i' e ∈ tr →
  ∃ i, CGetInstance req (Ok i) ∈ tr ∧
    (recordedIdentity i' = recordedIdentity i ∨
     recordedIdentity i' = migrationIdentity i ∧
     (legacyBaselineIdentity i (migrationIdentity i) = Some (recordedIdentity i') ∨
      ∃ job, CGetJob (job_key i) (Ok job) ∈ tr ∧ jobIdentity job = migrationIdentity i ∧
             0 < job_Succeeded (job_Status job))).
Proof.
  intros (r & rest & -> & Hr)%Reconcile_run Hc. apply elem_of_cons in Hc as [|Hc]; [done|].
  destruct r as [i|]; [|subst; set_solver]. exists i. split; [set_solver|].
  destruct Hr as [_|b ?? Hb Hw|cs _ HF|??? _ Hw|_ _|r cs Ho HF].
  1, 5: set_solver.
  - destruct (status_write_elem _ _ _ _ _ Hw Hc) as [e' [= -> _]]. right.
    pose proof Hb as Hb'. unfold legacyBaselineIdentity in Hb'. repeat case_match; try done.
    injection Hb' as <-. split; [done|]. by left.
  - rewrite Forall_forall in HF. by apply HF in Hc.
  - destruct (status_write_elem _ _ _ _ _ Hw Hc) as [e' [= -> _]]. by left.
  - apply elem_of_cons in Hc as [|Hc]; [done|]. rewrite Forall_forall in HF.
    apply HF in Hc as (_ & [?|(? & job & -> & ? & ?)]); [by left|]. right. split; [done|]. right.
    exists job. split_and!; [set_solver|done..].
Qed.

(** C3: Jobs are deleted in two situations only, each with its propagation.  A
    foreground deletion replaces the Job just read, which migrates another
    identity and is not terminating yet, so a drain that has begun is waited for
    and never repeated; a background deletion cleans up after an instance that
    has nothing left to migrate.  A Job for the current target is never
    deleted while migration is still due. *)
Theorem migration_job_deleted_safely req w out w' tr k p e :
  run (Reconcile req) w = (out, w', tr) → CDeleteJob k p e ∈ tr →
  ∃ i, CGetInstance req (Ok i) ∈ tr ∧
    match p with
    | PropagationForeground =>
        gate_open i ∧
        ∃ job, CGetJob (job_key i) (Ok job) ∈ tr ∧ k = om_key (job_Meta job) ∧
          jobIdentity job ≠ migrationIdentity i ∧ om_DeletionTimestamp (job_Meta job) = None
    | PropagationBackground =>
        migrationUpToDate (appliedMigrationIdentity i) (migrationIdentity i) = true
    end.
Proof.
  intros (r & rest & -> & Hr)%Reconcile_run Hc. apply elem_of_cons in Hc as [|Hc]; [done|].
  destruct r as [i|]; [|subst; set_solver]. exists i. split; [set_solver|].
  destruct Hr as [_|b ?? _ Hw|cs Hu HF|??? _ Hw|_ _|r cs Ho HF].
  1, 5: set_solver.
  1, 3: by destruct (status_write_elem _ _ _ _ _ Hw Hc).
  - rewrite Forall_forall in HF. apply HF in Hc as ->. done.
  - apply elem_of_cons in Hc as [|Hc]; [done|]. rewrite Forall_forall in HF.
    apply HF in Hc as (-> & job & -> & ? & ? & ?). split; [done|]. exists job.
    split_and!; [set_solver|done..].
Qed.

(** *** Refusals *)

Lemma set_migrations_complete_find status reason message i `{!ConditionLaws API} :
  find_condition (set_migrations_complete status reason message i) conditionMigrationsComplete =
  Some (condition conditionMigrationsComplete status reason message (om_Generation (Instance_ObjectMeta i))).
Proof. apply (find_set_eq _ (condition conditionMigrationsComplete _ _ _ _)). Qed.

Lemma refused_phase message i `{!ConditionLaws API} : derivePhase (refused message i) = (phaseError, false).
Proof.
  apply derivePhase_refines, spec_error. right. left.
  unfold migrationFailed, refused. by rewrite set_migrations_complete_find.
Qed.

Lemma retargeted_not_current applied desired :
  retargetedComponents applied desired ≠ [] → migrationUpToDate applied desired = false.
Proof.
  intros Hr. destruct (migrationUpToDate _ _) eqn:E; [|done].
  apply migrationUpToDate_components in E as (_ & _ & ?). done.
Qed.

(** An instance whose spec was pointed at another datastore after it
    migrated is refused without touching a Job: the pass makes no call but the
    status write (none when the status already says so), what it publishes is
    phase Error with the applied identity it had, and no migration is started,
    deleted or recorded. *)
Theorem retarget_refused req w out w' tr i `{!ConditionLaws API} :
  run (Reconcile req) w = (out, w', tr) → CGetInstance req (Ok i) ∈ tr → ¬ switched_off i →
  retargetedComponents (appliedMigrationIdentity i) (migrationIdentity i) ≠ [] →
  ∃ message r cs, tr = CGetInstance req (Ok i) :: cs ∧ status_write (refused message i) i r cs ∧
    derivePhase (refused message i) = (phaseError, false) ∧
    recordedIdentity (refused message i) = recordedIdentity i.
Proof.
  intros (r & rest & -> & Hr)%Reconcile_run Hc Hon Ht.
  pose proof (retargeted_not_current _ _ Ht) as Hu.
  assert (r = Ok i ∧ ∃ message r0, status_write (refused message i) i r0 rest) as [-> (message & r0 & Hw)].
  2: { exists message, r0, rest. pose proof (refused_phase message i). done. }
  assert (CGetInstance req (Ok i) ∉ rest → r = Ok i) as Hhead.
  { intros Hni. apply elem_of_cons in Hc as [[= <-]|]; done. }
  assert (r = Ok i) as ->.
  { destruct r as [i0|]; [|subst; set_solver]. apply Hhead. intros Hin.
    destruct Hr as [_|b ?? _ Hw|cs _ HF|??? _ Hw|_ _|r cs Ho HF]; try set_solver.
    1, 3: by destruct (status_write_elem _ _ _ _ _ Hw Hin).
    - rewrite Forall_forall in HF. by apply HF in Hin.
    - apply elem_of_cons in Hin as [|Hin]; [done|]. rewrite Forall_forall in HF. by apply HF in Hin. }
  split; [done|]. destruct Hr as [Hs|b ?? Hb Hw|cs Hu' HF|message r cs _ Hw|Hm _|r cs Ho HF].
  - done.
  - unfold legacyBaselineIdentity in Hb. destruct (nonempty_str _); [done|].
    case_bool_decide; [done|]. by rewrite Hu in Hb.
  - congruence.
  - eauto.
  - exfalso. apply Hm. by left.
  - by destruct Ho.
Qed.

(** *** Success *)

(** Recording a success settles the instance: the applied identity becomes
    the one of the spec, the gate closes (the next pass only looks for an old Job
    to clean up, no baseline is due), the migration conditions no longer hold the
    phase back, and everything else of the spec is as it was. *)
Theorem migrated_settles i `{!ConditionLaws API} :
  let i' := migrated i in
  Instance_Spec i' = Instance_Spec i ∧
  recordedIdentity i' = migrationIdentity i' ∧
  migrationUpToDate (appliedMigrationIdentity i') (migrationIdentity i') = true ∧
  legacyBaselineIdentity i' (migrationIdentity i') = None ∧
  migrationRunning i' = false ∧ migrationFailed i' = false ∧
  DatabaseStatus_MigrationVersion <$> Status_Database (Instance_Status i') =
    Some (NormalizeVersion (desiredTag i)).
Proof.
  cbv zeta. change (migrationIdentity (migrated i)) with (migrationIdentity i).
  pose proof (set_migrations_complete_find ConditionTrue reasonMigrationSucceeded
    ("Migrations completed for version " +:+ desiredTag i) i) as Hf.
  change (find_condition (set_migrations_complete _ _ _ i) conditionMigrationsComplete)
    with (find_condition (migrated i) conditionMigrationsComplete) in Hf.
  assert (recordedIdentity (migrated i) = migrationIdentity i) as Hr by done.
  pose proof (build_nonempty (instance_target i)) as Hn. fold (migrationIdentity i) in Hn.
  assert (appliedMigrationIdentity (migrated i) = migrationIdentity i) as Ha.
  { unfold migrated. cbv zeta. by rewrite applied_with_applied. }
  split_and!; try done.
  - rewrite Ha. by apply migrationUpToDate_refl.
  - unfold legacyBaselineIdentity. rewrite Hr. by destruct (migrationIdentity i).
  - unfold migrationRunning. by rewrite Hf.
  - unfold migrationFailed. by rewrite Hf.
Qed.

(** A pass over an instance whose recorded identity covers its spec writes no
    status at all. *)
Lemma covered_pass_emits i :
  nonempty_str (recordedIdentity i) = true →
  migrationUpToDate (recordedIdentity i) (migrationIdentity i) = true →
  emits_ret (cleanup_call i) (λ _, True) (reconcileInstance i).
Proof.
  intros Hr Hu. unfold reconcileInstance, legacyBaselineIdentity, appliedMigrationIdentity. rewrite Hr. cbv zeta.
  destruct (runOnDeployDisabled i); [by apply emits_ret_mret|]. rewrite Hu. apply cleanup_emits.
Qed.

Lemma covered_pass_run i w out w' tr :
  nonempty_str (recordedIdentity i) = true →
  migrationUpToDate (recordedIdentity i) (migrationIdentity i) = true →
  run (reconcileInstance i) w = (out, w', tr) → Forall (cleanup_call i) tr.
Proof.
  intros Hr Hu Hrun. pose proof (covered_pass_emits i Hr Hu) as He.
  apply emits_traces in He. apply (traces_run _ _ _ _ _ _ He Hrun).
Qed.

(** What a pass over a retargeted instance publishes. *)
Lemma retargeted_publishes j w out w' tr j' e :
  nonempty_str (recordedIdentity j) = true →
  retargetedComponents (recordedIdentity j) (migrationIdentity j) ≠ [] →
  run (reconcileInstance j) w = (out, w', tr) → CUpdateStatus j' e ∈ tr → ∃ message, j' = refused message j.
Proof.
  intros Hr Ht Hrun Hin. pose proof (retargeted_not_current _ _ Ht) as Hu.
  unfold reconcileInstance, legacyBaselineIdentity, appliedMigrationIdentity in Hrun. rewrite Hr, Hu in Hrun.
  destruct (runOnDeployDisabled j).
  { unfold run in Hrun. cbn in Hrun. simplify_eq. by apply elem_of_nil in Hin. }
  destruct (retargetedComponents _ _) as [|c cs] eqn:Ec; [done|]. unfold refuse in Hrun. cbv zeta in Hrun.
  exists (retargetMessage (c :: cs)).
  eapply traces_run in Hrun; [|apply traces_fmap, updateInstanceStatus_traces].
  destruct Hrun as (r & _ & Hw). destruct (status_write_elem _ _ _ _ _ Hw Hin) as [? [= ->]]. done.
Qed.

(** A refusal outlives the edit that caused it.  Let an instance be migrated,
    edit it to point at another datastore, let a pass publish the refusal, and undo
    the edit as its message asks: from then on every pass over the instance only
    looks for an old Job and writes no status, so the refusal stays published and
    the phase stays Error. *)
Theorem refusal_outlives_revert i j w0 out0 w0' tr0 j' w out w' tr `{!ConditionLaws API} :
  nonempty_str (recordedIdentity i) = true →
  migrationUpToDate (recordedIdentity i) (migrationIdentity i) = true →
  Instance_Status j = Instance_Status i →
  retargetedComponents (recordedIdentity j) (migrationIdentity j) ≠ [] →
  run (reconcileInstance j) w0 = (out0, w0', tr0) → CUpdateStatus j' None ∈ tr0 →
  let reverted := set_Instance_Status (Instance_Status j') i in
  run (reconcileInstance reverted) w = (out, w', tr) →
  Forall (cleanup_call reverted) tr ∧ derivePhase reverted = (phaseError, false).
Proof.
  intros Hr Hu Hs Ht Hrun0 Hin reverted Hrun.
  assert (recordedIdentity j = recordedIdentity i) as Hrj by (unfold recordedIdentity; by rewrite Hs).
  rewrite <- Hrj in Hr. destruct (retargeted_publishes j w0 out0 w0' tr0 j' None Hr Ht Hrun0 Hin) as [m ->].
  assert (recordedIdentity reverted = recordedIdentity j) as Hrr by done.
  split.
  - eapply covered_pass_run; [by rewrite Hrr| |exact Hrun]. rewrite Hrr, Hrj. exact Hu.
  - apply derivePhase_refines, spec_error. right. left. unfold migrationFailed.
    change (find_condition reverted conditionMigrationsComplete)
      with (find_condition (refused m j) conditionMigrationsComplete).
    unfold refused. by rewrite set_migrations_complete_find.
Qed.

(** A success does not clear the diagnosis of the attempts before it.  When
    the last diagnosis of the migration's pods held a fatal issue, the status
    recorded on success still holds it: the phase is Error although the migration
    is done, and no later pass writes the status. *)
Theorem success_keeps_fatal_issue i m w out w' tr `{!ConditionLaws API} :
  Status_Migration (Instance_Status i) = Some m → hasFatalIssue (MigrationStatus_Issues m) = true →
  run (reconcileInstance (migrated i)) w = (out, w', tr) →
  derivePhase (migrated i) = (phaseError, false) ∧ migrationFailed (migrated i) = false ∧
  Forall (cleanup_call (migrated i)) tr.
Proof.
  intros Hm Hf Hrun.
  pose proof (set_migrations_complete_find ConditionTrue reasonMigrationSucceeded
    ("Migrations completed for version " +:+ desiredTag i) i) as Hc.
  change (find_condition (set_migrations_complete _ _ _ i) conditionMigrationsComplete)
    with (find_condition (migrated i) conditionMigrationsComplete) in Hc.
  split_and!.
  - apply derivePhase_refines, spec_error. right. right.
    assert (Status_Migration (Instance_Status (migrated i)) =
              Some (set_MigrationStatus_AppliedIdentity (migrationIdentity i) m)) as Hm'.
    { unfold migrated, with_applied. cbv zeta. cbn. by rewrite Hm. }
    unfold instanceHasFatalPodIssue. cbv zeta. rewrite Hm'. change (MigrationStatus_Issues (_ _ m)) with (MigrationStatus_Issues m).
    rewrite Hf. by repeat case_match.
  - unfold migrationFailed. by rewrite Hc.
  - assert (recordedIdentity (migrated i) = migrationIdentity i) as Hr by done.
    pose proof (build_nonempty (instance_target i)) as Hn. fold (migrationIdentity i) in Hn.
    eapply covered_pass_run; [| |exact Hrun]; rewrite Hr; [by destruct (migrationIdentity i)|].
    change (migrationIdentity (migrated i)) with (migrationIdentity i). by apply migrationUpToDate_refl.
Qed.

Lemma recordSuccess_traces i :
  traces (λ out cs, ∃ r ws, cs = ws ++ [CEvent EventNormal "MigrationCompleted"
              ("Migration job " +:+ MigrationJobName i +:+ " completed successfully")] ∧
            status_write (migrated i) i r ws ∧ out = (requeueIf (noteStatusWriteFailure r), None))
    (recordSuccess i i).
Proof.
  unfold recordSuccess. eapply traces_bind; [apply updateInstanceStatus_traces|].
  intros e cs Hw. apply traces_call_bind. intros ?. apply traces_mret. eauto.
Qed.

(** What becomes of the record of a success, by the answer to the status
    write: when the write lost a race the pass is repeated a second later; any
    other failure is reported nowhere in the outcome and nothing repeats the
    pass, so the record is lost until another event arrives. *)
Theorem success_record_outcome i w out w' tr :
  run (recordSuccess i i) w = (out, w', tr) →
  out.2 = None ∧
  (∀ i' e, CUpdateStatus i' (Some e) ∈ tr →
     i' = migrated i ∧ out.1 = if IsConflict e then mkResult Second else zero_Result) ∧
  ((∀ i' e, CUpdateStatus i' e ∈ tr → e = None) → out.1 = zero_Result).
Proof.
  intros Hrun. destruct (traces_run _ _ _ _ _ _ (recordSuccess_traces i) Hrun) as (r & ws & -> & Hw & ->).
  cbn.
  destruct Hw as [(_ & -> & ->)|(_ & e & -> & ->)]; cbn; (split; [done|split]).
  - intros ?? Hc. by apply list_elem_of_singleton in Hc.
  - done.
  - intros i' e' Hc. apply elem_of_cons in Hc as [[= -> <-]|Hc%list_elem_of_singleton]; [|done].
    split; [done|]. cbn. unfold IsConflict. cbn. by case_bool_decide.
  - intros He. by rewrite (He (migrated i) e) by set_solver.
Qed.
End properties.

(** ** Witnesses, on a concrete cluster *)

Definition ex_pass (i : LangfuseInstance) (job : option Job) : Outcome * FakeCluster * list Call :=
  run (Reconcile (API := list_conditions) (OWN := list_owner) ex_key) (ex_cluster i job).

Lemma ex_pass_eq i job :
  run (Reconcile (API := list_conditions) (OWN := list_owner) ex_key) (ex_cluster i job) =
  ((ex_pass i job).1.1, (ex_pass i job).1.2, (ex_pass i job).2).
Proof. apply triple_eta. Qed.

Definition ex_fresh : LangfuseInstance := ex_instance "3.1" "pg" "db".

Definition creates_job (c : Call) : bool := match c with CCreateJob _ _ => true | _ => false end.

Lemma creates_job_elem tr : existsb creates_job tr = true → ∃ j e, CCreateJob j e ∈ tr.
Proof. intros ([] & Hin%list_elem_of_In & Hc)%existsb_exists; try done. eauto. Qed.

Lemma migration_job_created_only_when_due_witness :
  ∃ i j, gate_open i ∧
    om_Annotations (jobo_Meta j) !! migrationIdentityAnnotation = Some (migrationIdentity i).
Proof.
  destruct (creates_job_elem (ex_pass ex_fresh None).2) as (j & e & Hin); [by vm_compute|].
  destruct (migration_job_created_only_when_due (OL := list_owner_laws) _ _ _ _ _ _ _
    (ex_pass_eq ex_fresh None) Hin) as (i & _ & _ & Ho & _ & _ & _ & Ha).
  by exists i, j.
Defined.

Definition ex_done : Job := ex_job migrationIdentityAnnotation (migrationIdentity ex_fresh) 1.

Lemma applied_identity_recorded_with_cause_witness :
  CUpdateStatus (migrated (API := list_conditions) ex_fresh) None ∈ (ex_pass ex_fresh (Some ex_done)).2 ∧
  ∃ i, CGetInstance ex_key (Ok i) ∈ (ex_pass ex_fresh (Some ex_done)).2.
Proof.
  assert (CUpdateStatus (migrated (API := list_conditions) ex_fresh) None
            ∈ (ex_pass ex_fresh (Some ex_done)).2) as Hin.
  { apply (list_elem_of_lookup_2 _ 2). by vm_compute. }
  split; [done|].
  destruct (applied_identity_recorded_with_cause (OL := list_owner_laws) _ _ _ _ _ _ _
    (ex_pass_eq ex_fresh (Some ex_done)) Hin) as (i & Hi & _).
  by exists i.
Defined.

Definition ex_stale : Job := ex_job migrationIdentityAnnotation "3.0|clickhouse-cluster=false" 1.

Lemma migration_job_deleted_safely_witness :
  CDeleteJob ex_job_key PropagationForeground None ∈ (ex_pass ex_fresh (Some ex_stale)).2 ∧
  ∃ i, gate_open i.
Proof.
  assert (CDeleteJob ex_job_key PropagationForeground None ∈ (ex_pass ex_fresh (Some ex_stale)).2) as Hin.
  { apply (list_elem_of_lookup_2 _ 2). by vm_compute. }
  split; [done|].
  destruct (migration_job_deleted_safely (OL := list_owner_laws) _ _ _ _ _ _ _ _
    (ex_pass_eq ex_fresh (Some ex_stale)) Hin) as (i & _ & Ho & _).
  by exists i.
Defined.

(** Migrated against another database, then edited. *)
Definition ex_moved : LangfuseInstance :=
  ex_applied (migrationIdentity (ex_instance "3.1" "pg" "other")) ex_fresh.

Lemma retarget_refused_witness :
  retargetedComponents (appliedMigrationIdentity ex_moved) (migrationIdentity ex_moved) ≠ [] ∧
  ∃ message, derivePhase (API := list_conditions) (refused (H := list_conditions) message ex_moved) = (phaseError, false).
Proof.
  assert (retargetedComponents (appliedMigrationIdentity ex_moved) (migrationIdentity ex_moved) ≠ []) as Hr
    by by vm_compute.
  split; [done|].
  destruct (retarget_refused (OL := list_owner_laws) (ConditionLaws0 := list_conditions_laws)
    _ _ _ _ _ ex_moved (ex_pass_eq ex_moved None)) as (message & _ & _ & _ & _ & Hp & _).
  - apply (list_elem_of_lookup_2 _ 0). by vm_compute.
  - intros [Hd|Hd]; by vm_compute in Hd.
  - done.
  - by exists message.
Defined.

Lemma migrated_settles_witness :
  migrationUpToDate (appliedMigrationIdentity (migrated (API := list_conditions) ex_fresh))
    (migrationIdentity (migrated (API := list_conditions) ex_fresh)) = true.
Proof. apply (migrated_settles ex_fresh (ConditionLaws0 := list_conditions_laws)). Defined.

Definition ex_conflicted : FakeCluster :=
  mkFake ∅ ∅ ∅ ∅ [] (Some (mkErr KindConflict "the object has been modified")) None 0.

Lemma success_record_outcome_witness :
  (run (recordSuccess (API := list_conditions) ex_fresh ex_fresh) ex_conflicted).1.1.1 = mkResult Second.
Proof.
  destruct (success_record_outcome (OWN := list_owner) (OL := list_owner_laws) ex_fresh ex_conflicted _ _ _
    (triple_eta (run (recordSuccess (API := list_conditions) ex_fresh ex_fresh) ex_conflicted)))
    as (_ & Hc & _).
  destruct (Hc (migrated (API := list_conditions) ex_fresh)
              (mkErr KindConflict "the object has been modified")) as [_ ->]; [|done].
  apply (list_elem_of_lookup_2 _ 0). by vm_compute.
Defined.

(** Migrated, edited to another database, refused, and edited back. *)
Definition ex_settled : LangfuseInstance := ex_applied (migrationIdentity ex_fresh) ex_fresh.
Definition ex_edited : LangfuseInstance :=
  set_Instance_Status (Instance_Status ex_settled) (ex_instance "3.1" "pg" "other").

Definition ex_gate (i : LangfuseInstance) : Outcome * FakeCluster * list Call :=
  run (reconcileInstance (API := list_conditions) (OWN := list_owner) i) (ex_cluster i None).

Definition ex_refusal : LangfuseInstance :=
  default ex_fresh (head (omap (λ c, match c with CUpdateStatus i None => Some i | _ => None end) (ex_gate ex_edited).2)).

Lemma refusal_outlives_revert_witness :
  derivePhase (API := list_conditions) (set_Instance_Status (Instance_Status ex_refusal) ex_settled) =
    (phaseError, false).
Proof.
  destruct (refusal_outlives_revert (OWN := list_owner) ex_settled ex_edited _ _ _ _ ex_refusal _ _ _ _
    (ConditionLaws0 := list_conditions_laws)
    eq_refl eq_refl eq_refl ltac:(by vm_compute) (triple_eta (ex_gate ex_edited))
    ltac:(apply (list_elem_of_lookup_2 _ 0); by vm_compute)
    (triple_eta (ex_gate (set_Instance_Status (Instance_Status ex_refusal) ex_settled)))) as [_ Hp].
  exact Hp.
Defined.

Definition ex_unpullable : MigrationStatus :=
  set_MigrationStatus_Issues [mkPodIssue "lf-migrate-x" "langfuse-migrate" "ImagePullBackOff" "" 0 true]
    zero_MigrationStatus.

Definition ex_recovered : LangfuseInstance :=
  set_Instance_Status (set_Status_Migration (Some ex_unpullable) (Instance_Status ex_fresh)) ex_fresh.

Lemma success_keeps_fatal_issue_witness :
  derivePhase (API := list_conditions) (migrated (API := list_conditions) ex_recovered) = (phaseError, false).
Proof.
  destruct (success_keeps_fatal_issue (OWN := list_owner) ex_recovered ex_unpullable _ _ _ _
    (ConditionLaws0 := list_conditions_laws) eq_refl eq_refl
    (triple_eta (ex_gate (migrated (API := list_conditions) ex_recovered)))) as [Hp _].
  exact Hp.
Defined.
