(* ===== verification/CircuitBreaker.v ===== *)
(** * The circuit breaker ([internal/controller/circuit_breaker.go])

    Counts consecutive failures of each dependency in the memory of the operator
    process, scales the worker to zero when a threshold is reached and restores
    it on recovery.  The memory outlives a pass and dies with the process: it is
    an explicit argument and result of [Reconcile]. *)

From S2P Require Import Prelude GoStd KubeTypes ApiTypes Kube Examples Interfaces Status.
From S2P Require Import Config Resources PodIssues Phase.

Open Scope string_scope.
Open Scope list_scope.
Open Scope Z_scope.

Definition defaultProbeIntervalSeconds : Z := 15.
Definition defaultFailureThreshold : Z := 3.

(** [boolToConditionStatus] of [langfuseinstance_controller.go]. *)
Definition boolToConditionStatus (b : bool) : ConditionStatus :=
  if b then ConditionTrue else ConditionFalse.

(** The in-memory state, keyed by instance and then by component. *)
Record Memory := mkMemory {
  failureCounts : gmap string (gmap string Z);
  savedReplicas : gmap string (gmap string Z)
}.

Definition empty_memory : Memory := mkMemory ∅ ∅.

Definition lookup2 (m : gmap string (gmap string Z)) (k c : string) : option Z := m !! k ≫= λ cs, cs !! c.
Definition insert2 (m : gmap string (gmap string Z)) (k c : string) (v : Z) :=
  <[k := <[c := v]> (default ∅ (m !! k))]> m.
Definition delete2 (m : gmap string (gmap string Z)) (k c : string) := alter (delete c) k m.

(** Reading an absent counter gives zero. *)
Definition failures (mem : Memory) (k c : string) : Z := default 0 (lookup2 (failureCounts mem) k c).

Definition set_failures (k c : string) (v : Z) (mem : Memory) : Memory :=
  mkMemory (insert2 (failureCounts mem) k c v) (savedReplicas mem).
Definition save_replicas (k c : string) (v : Z) (mem : Memory) : Memory :=
  mkMemory (failureCounts mem) (insert2 (savedReplicas mem) k c v).
Definition drop_saved (k c : string) (mem : Memory) : Memory :=
  mkMemory (failureCounts mem) (delete2 (savedReplicas mem) k c).
Definition forget (k : string) (mem : Memory) : Memory :=
  mkMemory (delete k (failureCounts mem)) (delete k (savedReplicas mem)).

(** The maps of an instance exist from its first pass on. *)
Definition init_memory (k : string) (mem : Memory) : Memory :=
  let init (m : gmap string (gmap string Z)) := match m !! k with Some _ => m | None => <[k := ∅]> m end in
  mkMemory (init (failureCounts mem)) (init (savedReplicas mem)).

Definition isCircuitBreakerActive (i : LangfuseInstance) : bool := circuitBreakerHoldsWorker i.

Definition circuitBreakerReason (i : LangfuseInstance) : string :=
  if isCircuitBreakerActive i then "CircuitOpen" else "AllDependenciesHealthy".

Definition circuitBreakerMessage (i : LangfuseInstance) : string :=
  match Status_Worker (Instance_Status i) with
  | Some w =>
      if WorkerStatus_CircuitBreakerActive w
      then "Circuit breaker active: " +:+ WorkerStatus_CircuitBreakerReason w
      else "All dependency circuit breakers are closed"
  | None => "All dependency circuit breakers are closed"
  end.

(** The worker's breaker status, created when absent. *)
Definition set_breaker (active : bool) (reason : string) (i : LangfuseInstance) : LangfuseInstance :=
  let w := default zero_WorkerComponentStatus (Status_Worker (Instance_Status i)) in
  set_Instance_Status (set_Status_Worker
    (Some (set_WorkerStatus_CircuitBreakerReason reason
             (set_WorkerStatus_CircuitBreakerActive active w)))
    (Instance_Status i)) i.

Definition breaker_interval (spec : ComponentCircuitBreakerSpec) : Z :=
  if (Breaker_ProbeIntervalSeconds spec <=? 0)%Z then defaultProbeIntervalSeconds * Second
  else Breaker_ProbeIntervalSeconds spec * Second.

Definition breaker_threshold (spec : ComponentCircuitBreakerSpec) : Z :=
  if (Breaker_FailureThreshold spec <=? 0)%Z then defaultFailureThreshold
  else Breaker_FailureThreshold spec.

Section controller.
Context {W : Type} `{KubeClient W} `{API : ConditionAPI} `{PROBES : DependencyProbes W}.

(** What a breaker action leaves: the memory, the instance in hand and an error,
    which the caller only logs. *)
Definition Acted : Type := Memory * LangfuseInstance * option GoError.

Definition openCircuitBreaker (mem : Memory) (instance : LangfuseInstance) (instanceKey component : string)
    (spec : ComponentCircuitBreakerSpec) : M (St W) Acted :=
  if negb (bool_decide (Breaker_Action spec = "scaleWorkerToZero")) then
    (if bool_decide (Breaker_Action spec = "emitCriticalEvent")
     then Event EventWarning "CircuitBreakerOpen"
            ("Circuit breaker opened for " +:+ component +:+ ": dependency unhealthy")
     else mret tt) ≫= λ _,
    mret (mem, instance, None)
  else
    let workerKey := in_ns instance (WorkerName instance) in
    r ← Get_Deployment workerKey;
    match r with
    | Err e => mret (mem, instance,
                 if IsNotFound e then None else Some (wrapError "getting worker deployment" e))
    | Ok workerDeploy =>
        let currentReplicas := default 1 (dep_Replicas workerDeploy) in
        let alreadyTripped := isCircuitBreakerActive instance in
        if alreadyTripped && (currentReplicas =? 0)%Z then mret (mem, instance, None)
        else
          let mem := if negb alreadyTripped
                     then save_replicas instanceKey component currentReplicas mem else mem in
          e ← Patch_Replicas workerKey 0;
          match e with
          | Some e => mret (mem, instance, Some (wrapError "scaling worker to zero" e))
          | None =>
              let instance := set_breaker true (component +:+ " dependency unhealthy") instance in
              (if negb alreadyTripped
               then Event EventWarning "CircuitBreakerOpen"
                      ("Scaled worker to 0: " +:+ component +:+ " dependency unhealthy (failures=" +:+
                       itoa (failures mem instanceKey component) +:+ ")")
               else mret tt) ≫= λ _,
              mret (mem, instance, None)
          end
    end.

Definition recoverCircuitBreaker (mem : Memory) (instance : LangfuseInstance)
    (instanceKey component : string) (spec : ComponentCircuitBreakerSpec) : M (St W) Acted :=
  if negb (bool_decide (Breaker_Action spec = "scaleWorkerToZero")) ||
     negb (bool_decide (Breaker_RecoveryAction spec = "restoreScale")) then
    (if bool_decide (Breaker_Action spec = "emitCriticalEvent")
     then Event EventNormal "CircuitBreakerClosed"
            ("Circuit breaker closed for " +:+ component +:+ ": dependency recovered")
     else mret tt) ≫= λ _,
    mret (mem, instance, None)
  else
    let saved := match lookup2 (savedReplicas mem) instanceKey component with
                 | Some n => if (n =? 0)%Z then 1 else n
                 | None => 1
                 end in
    let workerKey := in_ns instance (WorkerName instance) in
    r ← Get_Deployment workerKey;
    match r with
    | Err e => mret (mem, instance,
                 if IsNotFound e then None
                 else Some (wrapError "getting worker deployment for recovery" e))
    | Ok _ =>
        e ← Patch_Replicas workerKey saved;
        match e with
        | Some e => mret (mem, instance, Some (wrapError "restoring worker replicas" e))
        | None =>
            let instance := set_breaker false "" instance in
            let mem := drop_saved instanceKey component mem in
            Event EventNormal "CircuitBreakerClosed"
              ("Restored worker to " +:+ itoa saved +:+ " replicas: " +:+ component +:+
               " dependency recovered") ≫= λ _,
            mret (mem, instance, None)
        end
    end.

(** From the verdict of the probe on; errors of the actions are only logged. *)
Definition applyVerdict (mem : Memory) (instance : LangfuseInstance) (instanceKey component : string)
    (spec : ComponentCircuitBreakerSpec) (probeSuccess : bool) : M (St W) (Memory * LangfuseInstance) :=
  let threshold := breaker_threshold spec in
  if probeSuccess then
    let previousFailures := failures mem instanceKey component in
    let mem := set_failures instanceKey component 0 mem in
    if (previousFailures >=? threshold)%Z then
      '(mem, instance, _) ← recoverCircuitBreaker mem instance instanceKey component spec;
      mret (mem, instance)
    else mret (mem, instance)
  else
    let count := int64 (failures mem instanceKey component + 1) in
    let mem := set_failures instanceKey component count mem in
    if (count >=? threshold)%Z then
      '(mem, instance, _) ← openCircuitBreaker mem instance instanceKey component spec;
      mret (mem, instance)
    else mret (mem, instance).

Record componentCheck := mkCheck {
  check_name : string;
  check_spec : option ComponentCircuitBreakerSpec;
  check_probe : LangfuseInstance → M (St W) probeResult
}.

(** The loop's variables. *)
Definition LoopState : Type := Memory * LangfuseInstance * Z.

Definition checkComponent (instanceKey : string) (s : LoopState) (comp : componentCheck)
    : M (St W) LoopState :=
  let '(mem, instance, shortestInterval) := s in
  match check_spec comp with
  | None => mret s
  | Some spec =>
      let probeInterval := breaker_interval spec in
      let shortestInterval := if (probeInterval <? shortestInterval)%Z then probeInterval
                              else shortestInterval in
      result ← check_probe comp instance;
      note (CProbed instanceKey (check_name comp) (Connected result)) ≫= λ _,
      '(mem, instance) ← applyVerdict mem instance instanceKey (check_name comp) spec (Connected result);
      mret (mem, instance, shortestInterval)
  end.

Definition components (cb : CircuitBreakerSpec) : list componentCheck :=
  [ mkCheck "clickhouse" (CircuitBreaker_ClickHouse cb) probeClickHouse;
    mkCheck "redis" (CircuitBreaker_Redis cb) probeRedis;
    mkCheck "database" (CircuitBreaker_Database cb) probeDatabase ].

Definition breakerEnabled (i : LangfuseInstance) : option CircuitBreakerSpec :=
  match Spec_CircuitBreaker (Instance_Spec i) with
  | Some cb => match CircuitBreaker_Enabled cb with
               | Some false => None
               | _ => Some cb
               end
  | None => None
  end.

Definition set_breaker_condition (i : LangfuseInstance) : LangfuseInstance :=
  set_Instance_Status (set_Status_Conditions
    (SetStatusCondition (Status_Conditions (Instance_Status i))
       (condition "CircuitBreakerHealthy" (boolToConditionStatus (negb (isCircuitBreakerActive i)))
          (circuitBreakerReason i) (circuitBreakerMessage i) (om_Generation (Instance_ObjectMeta i))))
    (Instance_Status i)) i.

(** A pass over an instance that is not being deleted. *)
Definition superviseInstance (mem : Memory) (instanceKey : string) (instance : LangfuseInstance)
    : M (St W) (Outcome * Memory) :=
  let original := instance in
  match breakerEnabled instance with
  | None => mret (done_now, mem)
  | Some cb =>
      '(mem, instance, shortestInterval) ←
        mfold (checkComponent instanceKey)
          (components cb) (init_memory instanceKey mem, instance, defaultProbeIntervalSeconds * Second);
      e ← updateInstanceStatus (set_breaker_condition instance) original;
      match e with
      | Some e => mret (statusWriteFailed e "updating circuit breaker status", mem)
      | None => mret (done_after shortestInterval, mem)
      end
  end.

Definition Reconcile (mem : Memory) (req : NamespacedName) : M (St W) (Outcome * Memory) :=
  r ← Get_Instance req;
  match r with
  | Err e =>
      if IsNotFound e then mret (done_now, forget (key_String req) mem)
      else mret (failed (wrapError "fetching LangfuseInstance" e), mem)
  | Ok instance =>
      match om_DeletionTimestamp (Instance_ObjectMeta instance) with
      | Some _ => mret (done_now, forget (key_String req) mem)
      | None => superviseInstance mem (key_String req) instance
      end
  end.
End controller.

(** ** The memory *)

Lemma lookup2_insert2 m k c v k' c' :
  lookup2 (insert2 m k c v) k' c' = if decide (k' = k ∧ c' = c) then Some v else lookup2 m k' c'.
Proof.
  unfold lookup2, insert2. destruct (decide (k' = k)) as [->|Hk].
  - rewrite lookup_insert_eq. cbn. destruct (decide (c' = c)) as [->|Hc].
    + by rewrite lookup_insert_eq, decide_True.
    + rewrite lookup_insert_ne, decide_False by naive_solver. by destruct (m !! k).
  - by rewrite lookup_insert_ne, decide_False by naive_solver.
Qed.

Lemma failures_set k c v mem k' c' :
  failures (set_failures k c v mem) k' c' = if decide (k' = k ∧ c' = c) then v else failures mem k' c'.
Proof. unfold failures. cbn. rewrite lookup2_insert2. by case_decide. Qed.

Lemma failures_init k mem k' c' : failures (init_memory k mem) k' c' = failures mem k' c'.
Proof.
  unfold failures, init_memory, lookup2. cbn. destruct (failureCounts mem !! k) eqn:E; [done|].
  destruct (decide (k' = k)) as [->|]; [by rewrite lookup_insert_eq, E|by rewrite lookup_insert_ne].
Qed.

Lemma failures_forget k mem k' c' :
  failures (forget k mem) k' c' = if decide (k' = k) then 0 else failures mem k' c'.
Proof.
  unfold failures, forget, lookup2. cbn. case_decide; subst.
  - by rewrite lookup_delete_eq.
  - by rewrite lookup_delete_ne.
Qed.

(** ** Consecutive failures, as a history of calls shows them *)

(** The instance read is gone, or going. *)
Definition gone (r : result LangfuseInstance) : bool :=
  match r with
  | Err e => IsNotFound e
  | Ok i => match om_DeletionTimestamp (Instance_ObjectMeta i) with Some _ => true | None => false end
  end.

(** One call's effect on the streak of failures of component [c] of instance [k]. *)
Definition streak_step (k c : string) (n : Z) (cl : Call) : Z :=
  match cl with
  | CProbed k' c' healthy =>
      if decide (k' = k ∧ c' = c) then if healthy : bool then 0 else n + 1 else n
  | CGetInstance req r => if decide (key_String req = k) then if gone r then 0 else n else n
  | _ => n
  end.

(** The unhealthy verdicts since the last healthy one, or since the instance
    was last seen gone. *)
Definition streak (k c : string) (n : Z) (h : list Call) : Z := foldl (streak_step k c) n h.

Lemma streak_app k c n h1 h2 : streak k c n (h1 ++ h2) = streak k c (streak k c n h1) h2.
Proof. apply foldl_app. Qed.

Lemma streak_bound k c n h : (0 ≤ n → 0 ≤ streak k c n h ≤ n + Z.of_nat (length h))%Z.
Proof.
  unfold streak. revert n. induction h as [|cl h IH]; intros n Hn; cbn [foldl length]; [lia|].
  assert (0 ≤ streak_step k c n cl ≤ n + 1)%Z as Hs.
  { unfold streak_step. destruct cl; repeat case_decide; repeat case_match; lia. }
  specialize (IH (streak_step k c n cl)). lia.
Qed.

(** Calls the streaks do not depend on. *)
Definition streak_free (cl : Call) : Prop :=
  match cl with CProbed _ _ _ | CGetInstance _ _ => False | _ => True end.

Lemma streak_skip k c n h : Forall streak_free h → streak k c n h = n.
Proof. unfold streak. induction 1 as [|cl h Hc _ IH]; cbn; [done|]. by destruct cl. Qed.

(** ** Traces of the parts *)

Section traces.
Context {W : Type} `{KubeClient W} `{API : ConditionAPI} `{PROBES : DependencyProbes W} {PL : ProbeLaws PROBES}.

(** The calls of an action on the worker, with the replica count it may set. *)
Definition action_call (i : LangfuseInstance) (allowed : Z → Prop) (c : Call) : Prop :=
  match c with
  | CPatchReplicas k n _ => k = in_ns i (WorkerName i) ∧ allowed n
  | CGetDeployment _ _ | CEvent _ _ _ => True
  | _ => False
  end.

Lemma action_streak_free i allowed c : action_call i allowed c → streak_free c.
Proof. by destruct c. Qed.

(** An action keeps the failure counts and changes the instance in its worker
    status only. *)
Definition keeps (mem : Memory) (i : LangfuseInstance) (a : Memory * LangfuseInstance) : Prop :=
  (∀ k c, failures a.1 k c = failures mem k c) ∧
  Instance_Spec a.2 = Instance_Spec i ∧ Instance_ObjectMeta a.2 = Instance_ObjectMeta i.

Definition opens (spec : ComponentCircuitBreakerSpec) (n : Z) : Prop :=
  n = 0 ∧ Breaker_Action spec = "scaleWorkerToZero".

Definition restores (spec : ComponentCircuitBreakerSpec) (n : Z) : Prop :=
  n ≠ 0 ∧ Breaker_Action spec = "scaleWorkerToZero" ∧ Breaker_RecoveryAction spec = "restoreScale".

Lemma open_emits mem i key comp spec :
  emits_ret (action_call i (opens spec)) (λ a, keeps mem i a.1) (openCircuitBreaker mem i key comp spec).
Proof.
  unfold openCircuitBreaker. case_bool_decide as Ha; cbn [negb].
  - apply emits_ret_bind with (λ _, True); [by apply emits_ret_call|].
    intros [d|e] _; [|by apply emits_ret_mret]. cbv zeta.
    destruct (_ && _); [by apply emits_ret_mret|].
    apply emits_ret_bind with (λ _, True); [by apply emits_ret_call|].
    intros [e|] _; [apply emits_ret_mret; by destruct (isCircuitBreakerActive i)|].
    apply emits_ret_bind with (λ _, True).
    + destruct (isCircuitBreakerActive i); [by apply emits_ret_mret|by apply emits_ret_call].
    + intros _ _. apply emits_ret_mret. by destruct (isCircuitBreakerActive i).
  - apply emits_ret_bind with (λ _, True); [|intros; by apply emits_ret_mret].
    destruct (bool_decide (_ = "emitCriticalEvent")); [by apply emits_ret_call|by apply emits_ret_mret].
Qed.

Lemma recover_emits mem i key comp spec :
  emits_ret (action_call i (restores spec)) (λ a, keeps mem i a.1)
    (recoverCircuitBreaker mem i key comp spec).
Proof.
  unfold recoverCircuitBreaker. destruct (negb _ || negb _) eqn:Ha.
  - apply emits_ret_bind with (λ _, True); [|intros; by apply emits_ret_mret].
    destruct (bool_decide (_ = "emitCriticalEvent")); [by apply emits_ret_call|by apply emits_ret_mret].
  - to_prop. cbv zeta. apply emits_ret_bind with (λ _, True); [by apply emits_ret_call|].
    intros [d|e] _; [|by apply emits_ret_mret].
    apply emits_ret_bind with (λ _, True).
    + apply emits_ret_call. intros ?. split; [done|]. split; [done|]. split; [|done].
      destruct (lookup2 _ _ _) as [n|]; [|done]. destruct (Z.eqb_spec n 0); lia.
    + intros [e|] _; [by apply emits_ret_mret|].
      apply emits_ret_bind with (λ _, True); [by apply emits_ret_call|]. intros. by apply emits_ret_mret.
Qed.

Definition verdict_failures (mem : Memory) (key comp : string) (healthy : bool) : Z :=
  if healthy then 0 else int64 (failures mem key comp + 1).

(** The replica counts a verdict may lead to: zero when the failures reach the
    threshold, a restored count when a streak at the threshold ends. *)
Definition verdict_allows (mem : Memory) (key comp : string) (spec : ComponentCircuitBreakerSpec)
    (healthy : bool) (n : Z) : Prop :=
  if healthy then restores spec n ∧ breaker_threshold spec ≤ failures mem key comp
  else opens spec n ∧ breaker_threshold spec ≤ verdict_failures mem key comp false.

Definition verdict_keeps (mem : Memory) (i : LangfuseInstance) (key comp : string) (healthy : bool)
    (a : Memory * LangfuseInstance) : Prop :=
  (∀ k c, failures a.1 k c =
     if decide (k = key ∧ c = comp) then verdict_failures mem key comp healthy else failures mem k c) ∧
  Instance_Spec a.2 = Instance_Spec i ∧ Instance_ObjectMeta a.2 = Instance_ObjectMeta i.

Lemma applyVerdict_emits mem i key comp spec healthy :
  emits_ret (action_call i (verdict_allows mem key comp spec healthy))
    (verdict_keeps mem i key comp healthy) (applyVerdict mem i key comp spec healthy).
Proof.
  unfold applyVerdict. cbv zeta.
  assert (∀ mem' i', (∀ k c, failures mem' k c = failures (set_failures key comp
            (verdict_failures mem key comp healthy) mem) k c) →
            Instance_Spec i' = Instance_Spec i → Instance_ObjectMeta i' = Instance_ObjectMeta i →
            verdict_keeps mem i key comp healthy (mem', i')) as Hkeep.
  { intros mem' i' Hf Hs Hm. split; [|done]. intros k c. cbn. by rewrite Hf, failures_set. }
  destruct healthy; (match goal with |- context [(?a >=? ?b)%Z] => destruct (Z.geb_spec a b) end).
  2, 4: apply emits_ret_mret; by apply Hkeep.
  - eapply emits_ret_bind.
    + eapply emits_ret_mono; [apply recover_emits| |intros a Ha; exact Ha].
      intros [] Hc; try done. destruct Hc. split; [done|]. split; [done|]. cbn. lia.
    + intros [[mem' i'] e] (Hf & Hs & Hm). apply emits_ret_mret. by apply Hkeep.
  - eapply emits_ret_bind.
    + eapply emits_ret_mono; [apply open_emits| |intros a Ha; exact Ha].
      intros [] Hc; try done. destruct Hc. split; [done|]. split; [done|]. cbn. lia.
    + intros [[mem' i'] e] (Hf & Hs & Hm). apply emits_ret_mret. by apply Hkeep.
Qed.

(** The calls of one component's check: the reads of its probe, the verdict,
    the action. *)
Definition check_calls (key : string) (mem : Memory) (i : LangfuseInstance) (comp : componentCheck (W := W))
    (mem' : Memory) (cs : list Call) : Prop :=
  match check_spec comp with
  | None => cs = [] ∧ mem' = mem
  | Some spec =>
      ∃ healthy reads acts,
        cs = reads ++ CProbed key (check_name comp) healthy :: acts ∧
        Forall reads_secrets reads ∧
        Forall (action_call i (verdict_allows mem key (check_name comp) spec healthy)) acts ∧
        ∀ k c, failures mem' k c =
          if decide (k = key ∧ c = check_name comp)
          then verdict_failures mem key (check_name comp) healthy else failures mem k c
  end.

Lemma checkComponent_traces key mem i d comp :
  emits_ret reads_secrets (λ _, True) (check_probe comp i) →
  traces (λ s cs, check_calls key mem i comp s.1.1 cs ∧
            Instance_Spec s.1.2 = Instance_Spec i ∧ Instance_ObjectMeta s.1.2 = Instance_ObjectMeta i)
    (checkComponent key (mem, i, d) comp).
Proof.
  intros Hp. unfold checkComponent, check_calls. destruct (check_spec comp) as [spec|].
  2: { by apply traces_mret. }
  eapply traces_bind; [by apply emits_traces|]. intros result reads [_ Hreads].
  apply traces_note_bind. eapply traces_bind; [apply emits_traces, applyVerdict_emits|].
  intros [mem' i'] acts [(Hf & Hs & Hm) Hacts]. apply traces_mret. cbn in *.
  split; [|done]. exists (Connected result), reads, acts. by rewrite app_nil_r.
Qed.
End traces.

Lemma int64_succ z : int64 (int64 z + 1) = int64 (z + 1).
Proof.
  unfold int64, wrapS. f_equal. replace ((z + 2 ^ (64 - 1)) mod 2 ^ 64 - 2 ^ (64 - 1) + 1 + 2 ^ (64 - 1))
    with ((z + 2 ^ (64 - 1)) mod 2 ^ 64 + 1) by lia.
  rewrite Zplus_mod_idemp_l. f_equal. lia.
Qed.

(** The counters are the streaks the history shows, in 64 bits. *)
Definition counts_streaks (mem : Memory) (h : list Call) : Prop :=
  ∀ k c, failures mem k c = int64 (streak k c 0 h).

(** Why a call of a pass may set the worker's replicas to [n]: the most recent
    verdict is unhealthy and completes a streak at the threshold, or healthy and
    ends one. *)
Definition patch_cause (key : string) (i : LangfuseInstance)
    (specs : list (string * option ComponentCircuitBreakerSpec)) (h : list Call) (k : NamespacedName)
    (n : Z) (before : list Call) : Prop :=
  ∃ name spec pre healthy mid,
    before = pre ++ CProbed key name healthy :: mid ∧ Forall streak_free mid ∧
    (name, Some spec) ∈ specs ∧ k = in_ns i (WorkerName i) ∧
    if healthy then restores spec n ∧ breaker_threshold spec ≤ int64 (streak key name 0 (h ++ pre))
    else opens spec n ∧
         breaker_threshold spec ≤ int64 (streak key name 0 (h ++ pre ++ [CProbed key name false])).

Definition patches_justified (key : string) (i : LangfuseInstance)
    (specs : list (string * option ComponentCircuitBreakerSpec)) (h cs : list Call) : Prop :=
  ∀ k n e before after, cs = before ++ CPatchReplicas k n e :: after →
    patch_cause key i specs h k n before.

Lemma streak_reads k c n h cs :
  Forall reads_secrets cs → streak k c n (h ++ cs) = streak k c n h.
Proof.
  intros Hr. rewrite streak_app. apply streak_skip. eapply Forall_impl; [exact Hr|]. by intros [].
Qed.

Lemma check_calls_counts {W} key mem i (comp : componentCheck (W := W)) mem' cs h :
  counts_streaks mem h → check_calls key mem i comp mem' cs → counts_streaks mem' (h ++ cs).
Proof.
  intros Hc. unfold check_calls. destruct (check_spec comp) as [spec|].
  2: { intros [-> ->]. by rewrite app_nil_r. }
  intros (healthy & reads & acts & -> & Hr & Ha & Hf) k c.
  rewrite Hf, app_assoc, streak_app, streak_reads by done.
  cbn [streak foldl]. fold (streak k c (streak_step k c (streak k c 0 h)
    (CProbed key (check_name comp) healthy)) acts).
  rewrite streak_skip by (eapply Forall_impl; [exact Ha|apply action_streak_free]).
  cbn [streak_step]. rewrite (decide_ext (k = key ∧ c = check_name comp) (key = k ∧ check_name comp = c))
    by naive_solver.
  case_decide as E; [|apply Hc]. destruct E as [-> ->]. destruct healthy; [done|].
  cbn [verdict_failures]. by rewrite (Hc k c), int64_succ.
Qed.

(** An element of an appended list lies in one of the two parts. *)
Lemma app_split_cons {A} (a b : list A) before x after :
  a ++ b = before ++ x :: after →
  (∃ rest, a = before ++ x :: rest) ∨ (∃ mid, before = a ++ mid ∧ b = mid ++ x :: after).
Proof.
  revert before. induction a as [|y a IH]; intros before; cbn; [right; by exists before|].
  destruct before as [|z before]; cbn; intros [= -> E]; [left; by eexists|].
  destruct (IH before E) as [[rest ->]|(mid & -> & ->)]; [left; by exists rest|right; by exists mid].
Qed.

Lemma check_calls_patch {W} key mem i i' (comp : componentCheck (W := W)) mem' cs h specs k n e before after :
  counts_streaks mem h → check_calls key mem i' comp mem' cs →
  Instance_ObjectMeta i' = Instance_ObjectMeta i → (check_name comp, check_spec comp) ∈ specs →
  cs = before ++ CPatchReplicas k n e :: after → patch_cause key i specs h k n before.
Proof.
  intros Hc Hcs Hm Hin ->. unfold check_calls in Hcs. destruct (check_spec comp) as [spec|].
  2: { by destruct Hcs as [[_ ?]%app_eq_nil _]. }
  destruct Hcs as (healthy & reads & acts & E & Hr & Ha & _). symmetry in E.
  apply app_split_cons in E as [[rest ->]|(mid & -> & E)].
  { apply Forall_app in Hr as [_ [[] _]%Forall_cons]. }
  destruct mid as [|? mid]; cbn in E; [done|]. injection E as <- ->.
  apply Forall_app in Ha as [Ha [[Hk Hn] _]%Forall_cons].
  exists (check_name comp), spec, reads, healthy, mid. split_and!; [done| |done| |].
  - eapply Forall_impl; [exact Ha|apply action_streak_free].
  - rewrite Hk. unfold in_ns, WorkerName. by rewrite Hm.
  - destruct healthy; cbn in Hn; destruct Hn as [Ho Ht]; (split; [done|]).
    + by rewrite streak_reads, <- Hc.
    + rewrite (Hc key (check_name comp)), int64_succ in Ht.
      rewrite app_assoc, streak_app, streak_reads by done. cbn. by rewrite decide_True.
Qed.

Lemma patch_cause_app key i specs h pre k n before :
  patch_cause key i specs (h ++ pre) k n before → patch_cause key i specs h k n (pre ++ before).
Proof.
  intros (name & spec & p & healthy & mid & -> & Hm & Hin & Hk & Hc).
  exists name, spec, (pre ++ p), healthy, mid. split_and!; [by rewrite app_assoc|done..|].
  destruct healthy; rewrite <- app_assoc in Hc; [done|]. by rewrite <- app_assoc.
Qed.

(** ** Traces of a pass *)

Section pass.
Context {W : Type} `{KubeClient W} `{API : ConditionAPI} `{PROBES : DependencyProbes W} {PL : ProbeLaws PROBES}.

Definition breaker_specs (i : LangfuseInstance) : list (string * option ComponentCircuitBreakerSpec) :=
  match breakerEnabled i with
  | Some cb => [("clickhouse", CircuitBreaker_ClickHouse cb); ("redis", CircuitBreaker_Redis cb);
                ("database", CircuitBreaker_Database cb)]
  | None => []
  end.

Lemma loop_traces key i cb mem d h :
  breakerEnabled i = Some cb → counts_streaks mem h →
  traces (λ s cs, counts_streaks s.1.1 (h ++ cs) ∧ Instance_ObjectMeta s.1.2 = Instance_ObjectMeta i ∧
                  patches_justified key i (breaker_specs i) h cs)
    (mfold (checkComponent key) (components cb) (mem, i, d)).
Proof.
  intros He Hc. apply traces_mfold.
  - rewrite app_nil_r. split_and!; [done..|]. intros ????? E. by destruct before.
  - intros [[mem1 i1] d1] cs comp Hin (Hc1 & Hm1 & Hj1). cbn in Hc1, Hm1.
    assert (emits_ret reads_secrets (λ _, True) (check_probe comp i1) ∧
            (check_name comp, check_spec comp) ∈ breaker_specs i) as [Hp Hs].
    { unfold breaker_specs. rewrite He. unfold components in Hin.
      repeat (apply elem_of_cons in Hin as [->|Hin]; [split; [apply PL|set_solver]|]). set_solver. }
    eapply traces_mono; [by apply checkComponent_traces|]. cbn. intros [[mem2 i2] d2] cs2 (Hcs & _ & Hm2).
    cbn in *. pose proof (check_calls_counts _ _ _ _ _ _ _ Hc1 Hcs) as Hc2. rewrite <- app_assoc in Hc2.
    split_and!; [done|congruence|]. intros k n e before after E.
    apply app_split_cons in E as [[rest ->]|(mid & -> & E)]; [by eapply Hj1|].
    apply patch_cause_app. by eapply check_calls_patch.
Qed.

Lemma counts_streaks_free mem h cs :
  counts_streaks mem h → Forall streak_free cs → counts_streaks mem (h ++ cs).
Proof. intros Hc Hf k c. rewrite streak_app, streak_skip by done. apply Hc. Qed.

Lemma patches_justified_free key i specs h cs cs' :
  patches_justified key i specs h cs → (∀ k n e, CPatchReplicas k n e ∉ cs') →
  patches_justified key i specs h (cs ++ cs').
Proof.
  intros Hj Hno k n e before after E. apply app_split_cons in E as [[rest ->]|(mid & -> & ->)].
  - by eapply Hj.
  - exfalso. apply (Hno k n e). set_solver.
Qed.

Lemma supervise_traces key i mem h :
  counts_streaks mem h →
  traces (λ r cs, counts_streaks r.2 (h ++ cs) ∧ patches_justified key i (breaker_specs i) h cs)
    (superviseInstance mem key i).
Proof.
  intros Hc. unfold superviseInstance. cbv zeta. destruct (breakerEnabled i) as [cb|] eqn:He.
  2: { apply traces_mret. rewrite app_nil_r. split; [done|]. intros ????? E. by destruct before. }
  eapply traces_bind.
  { apply loop_traces with (h := h); [done|]. intros k c. rewrite failures_init. apply Hc. }
  intros [[mem1 i1] d1] cs (Hc1 & _ & Hj). cbn in Hc1.
  eapply traces_bind; [apply updateInstanceStatus_traces|]. intros e ws Hw.
  assert (Forall streak_free ws ∧ ∀ k n e', CPatchReplicas k n e' ∉ ws) as [Hf Hno].
  { destruct Hw as [(_ & _ & ->)|(_ & e' & _ & ->)]; split; intros; try set_solver; by repeat constructor. }
  destruct e; apply traces_mret; rewrite app_nil_r, app_assoc;
    (split; [by apply counts_streaks_free|by apply patches_justified_free]).
Qed.

(** What a pass from a memory that matches the history [h] does. *)
Lemma breaker_pass_traces mem req h :
  counts_streaks mem h →
  traces (λ r cs, counts_streaks r.2 (h ++ cs) ∧
            ∃ g rest, cs = CGetInstance req g :: rest ∧
              match g with
              | Ok i => patches_justified (key_String req) i (breaker_specs i) (h ++ [CGetInstance req g]) rest
              | Err _ => rest = []
              end) (Reconcile mem req).
Proof.
  intros Hc. unfold Reconcile. apply traces_call_bind. intros g.
  assert (∀ mem', (∀ k c, failures mem' k c =
            if decide (k = key_String req) then if gone g then 0 else failures mem k c else failures mem k c) →
          counts_streaks mem' (h ++ [CGetInstance req g])) as Hstep.
  { intros mem' Hf k c. rewrite Hf, streak_app. cbn.
    rewrite (decide_ext (key_String req = k) (k = key_String req)) by naive_solver.
    repeat case_decide; repeat case_match; try done; apply Hc. }
  assert (gone g = true → counts_streaks (forget (key_String req) mem) (h ++ [CGetInstance req g])) as Hgone.
  { intros Hg. apply Hstep. intros k c. rewrite failures_forget, Hg. done. }
  assert (gone g = false → counts_streaks mem (h ++ [CGetInstance req g])) as Hlive.
  { intros Hg. apply Hstep. intros k c. rewrite Hg. by case_decide. }
  destruct g as [i|e]; cbn [gone] in *.
  - destruct (om_DeletionTimestamp _).
    + apply traces_mret. split; [by apply Hgone|]. exists (Ok i), []. split; [done|].
      intros ????? E. by destruct before.
    + eapply traces_mono; [by apply supervise_traces, Hlive|]. cbn. intros [out mem'] cs [Hc' Hj].
      rewrite <- app_assoc in Hc'. split; [done|]. by exists (Ok i), cs.
  - destruct (IsNotFound e); apply traces_mret; (split; [auto|by exists (Err e), []]).
Qed.
End pass.

(** ** Properties *)

Section properties.
Context {W : Type} `{KubeClient W} `{API : ConditionAPI} `{PROBES : DependencyProbes W} {PL : ProbeLaws PROBES}.

(** Memories the operator can be in, with the calls made since it started: any
    passes, over any instances, against any answers. *)
Inductive reachable : Memory → list Call → Prop :=
  | reach_start : reachable empty_memory []
  | reach_pass mem h req w out mem' w' tr :
      reachable mem h → run (Reconcile mem req) w = (out, mem', w', tr) → reachable mem' (h ++ tr).

Lemma reachable_counts mem h : reachable mem h → counts_streaks mem h.
Proof.
  induction 1 as [|mem h req w out mem' w' tr _ IH Hr]; [done|].
  by apply (traces_run _ _ _ _ _ _ (breaker_pass_traces mem req h IH) Hr).
Qed.

Lemma streak_exact k c h :
  Z.of_nat (length h) < 2 ^ 63 → int64 (streak k c 0 h) = streak k c 0 h.
Proof. intros Hl. apply int64_id. pose proof (streak_bound k c 0 h ltac:(lia)). unfold in_int64. lia. Qed.

(** C8: the failure counter of a dependency is the number of consecutive
    unhealthy probes of it since the last healthy one, or since the operator last
    saw the instance gone, whatever other instances and components were checked in
    between. *)
Theorem failure_count_is_streak mem h k c :
  reachable mem h → Z.of_nat (length h) < 2 ^ 63 → failures mem k c = streak k c 0 h.
Proof. intros Hr Hl. rewrite (reachable_counts mem h Hr k c). by apply streak_exact. Qed.

(** C7: the breaker moves the worker's replicas with cause only.  In any pass the
    operator can make, a patch concerns the worker Deployment of the instance
    that was read and follows a verdict on a dependency with a configured breaker:
    either it sets zero, the verdict was unhealthy and completed a streak of at
    least the threshold, or it sets a non-zero count, the verdict was healthy and
    ended such a streak.  A single failed probe never stops the worker unless the
    threshold says so. *)
Theorem worker_scaled_with_cause mem h req w out w' tr k n e :
  reachable mem h → run (Reconcile mem req) w = (out, w', tr) →
  Z.of_nat (length h) + Z.of_nat (length tr) < 2 ^ 63 →
  CPatchReplicas k n e ∈ tr →
  ∃ i name spec pre healthy post,
    tr = pre ++ CProbed (key_String req) name healthy :: post ∧ CPatchReplicas k n e ∈ post ∧
    CGetInstance req (Ok i) ∈ pre ∧
    (name, Some spec) ∈ breaker_specs i ∧ Breaker_Action spec = "scaleWorkerToZero" ∧
    k = in_ns i (WorkerName i) ∧
    if healthy then n ≠ 0 ∧ Breaker_RecoveryAction spec = "restoreScale" ∧
                    breaker_threshold spec ≤ streak (key_String req) name 0 (h ++ pre)
    else n = 0 ∧ breaker_threshold spec ≤ streak (key_String req) name 0 (h ++ pre) + 1.
Proof.
  intros Hreach Hrun Hl Hin.
  destruct (traces_run _ _ _ _ _ _ (breaker_pass_traces mem req h (reachable_counts _ _ Hreach)) Hrun)
    as (_ & g & rest & -> & Hg).
  apply elem_of_cons in Hin as [|Hin]; [done|].
  destruct g as [i|]; [|subst; set_solver].
  apply list_elem_of_split in Hin as (before & after & ->).
  destruct (Hg k n e before after eq_refl) as (name & spec & pre & healthy & mid & -> & _ & Hs & Hk & Hc).
  exists i, name, spec, (CGetInstance req (Ok i) :: pre), healthy, (mid ++ CPatchReplicas k n e :: after).
  cbn [length] in Hl. rewrite !length_app in Hl. cbn in Hl.
  split_and!; [cbn; by rewrite <- app_assoc|set_solver|set_solver|done| |done|].
  - destruct healthy; [by destruct Hc as [(_ & ? & _) _]|by destruct Hc as [[_ ?] _]].
  - destruct healthy.
    + destruct Hc as [(Hn & _ & Hr) Ht]. rewrite <- app_assoc in Ht. cbn in Ht.
      rewrite streak_exact in Ht by (rewrite length_app; cbn; lia). done.
    + destruct Hc as [(Hn & _) Ht]. rewrite streak_exact in Ht by (rewrite !length_app in *; cbn; lia).
      rewrite <- app_assoc in Ht. cbn in Ht.
      rewrite (app_assoc h (_ :: pre) [_]) in Ht || rewrite app_comm_cons, app_assoc in Ht.
      rewrite streak_app in Ht. cbn in Ht. by rewrite decide_True in Ht.
Qed.
End properties.

(** ** Opening and recovering, on a cluster *)

Section cluster.
Context (mem : Memory) (i : LangfuseInstance) (key comp : string) (spec : ComponentCircuitBreakerSpec).
Context (Haction : Breaker_Action spec = "scaleWorkerToZero").

Definition worker_key : NamespacedName := in_ns i (WorkerName i).

(** Sets the replicas of the worker Deployment, as any actor may. *)
Definition scale_worker (n : Z) (w : FakeCluster) : FakeCluster :=
  set_deployments (alter (dep_with_replicas n) worker_key) w.

(** The opening transition. *)
Lemma open_transition w d :
  fk_write_error w = None → fk_deployments w !! worker_key = Some d →
  isCircuitBreakerActive i = false →
  (run (openCircuitBreaker mem i key comp spec) w).1 =
  ((save_replicas key comp (default 1 (dep_Replicas d)) mem,
    set_breaker true (comp +:+ " dependency unhealthy") i, None), scale_worker 0 w).
Proof.
  intros Hw Hd Ha. unfold openCircuitBreaker. rewrite bool_decide_true by done. cbn [negb]. cbv zeta.
  fold worker_key. unfold run. rewrite (fake_Get_Deployment _ _ d), Ha by done. cbn [andb negb].
  rewrite fake_Patch_Replicas by done. cbn [st_world]. by rewrite fake_Event.
Qed.

(** A re-assertion: the flag is set, yet the worker runs. *)
Lemma open_reasserts w d n :
  fk_write_error w = None → fk_deployments w !! worker_key = Some d → dep_Replicas d = Some n → n ≠ 0 →
  isCircuitBreakerActive i = true →
  (run (openCircuitBreaker mem i key comp spec) w).1 =
  ((mem, set_breaker true (comp +:+ " dependency unhealthy") i, None), scale_worker 0 w).
Proof.
  intros Hw Hd Hn Hz Ha. unfold openCircuitBreaker. rewrite bool_decide_true by done. cbn [negb].
  cbv zeta. fold worker_key. unfold run. rewrite (fake_Get_Deployment _ _ d), Ha, Hn by done.
  cbn [from_option id andb negb]. destruct (Z.eqb_spec n 0); [done|]. cbn [negb].
  by rewrite fake_Patch_Replicas by done.
Qed.

Lemma recover_restores w d n :
  Breaker_RecoveryAction spec = "restoreScale" →
  fk_write_error w = None → fk_deployments w !! worker_key = Some d →
  lookup2 (savedReplicas mem) key comp = Some n → n ≠ 0 →
  (run (recoverCircuitBreaker mem i key comp spec) w).1 =
  ((drop_saved key comp mem, set_breaker false "" i, None), scale_worker n w).
Proof.
  intros Hr Hw Hd Hs Hz. unfold recoverCircuitBreaker. rewrite !bool_decide_true by done. cbn [negb orb].
  rewrite Hs. destruct (Z.eqb_spec n 0); [done|]. cbv zeta. fold worker_key. unfold run.
  rewrite (fake_Get_Deployment _ _ d) by done. rewrite fake_Patch_Replicas by done. by rewrite fake_Event.
Qed.
End cluster.

Lemma scale_worker_write_error i n w : fk_write_error (scale_worker i n w) = fk_write_error w.
Proof. done. Qed.

Lemma scale_worker_lookup i n w d :
  fk_deployments w !! worker_key i = Some d →
  fk_deployments (scale_worker i n w) !! worker_key i = Some (dep_with_replicas n d).
Proof. intros Hd. cbn. by rewrite lookup_alter_eq, Hd. Qed.

Lemma worker_key_set_breaker i a r : worker_key (set_breaker a r i) = worker_key i.
Proof. done. Qed.

Lemma active_set_breaker i a r : isCircuitBreakerActive (set_breaker a r i) = a.
Proof. done. Qed.


(** ** What the breaker does not do *)

Lemma breaker_threshold_pos spec : 0 < breaker_threshold spec.
Proof. unfold breaker_threshold, defaultFailureThreshold. destruct (Z.leb_spec (Breaker_FailureThreshold spec) 0); lia. Qed.

(** No streak at a threshold is on record for the instance: in particular after
    a restart of the operator, and after a healthy probe whose recovery failed. *)
Definition no_open_streak (mem : Memory) (key : string) (i : LangfuseInstance) : Prop :=
  ∀ name spec, (name, Some spec) ∈ breaker_specs i → failures mem key name < breaker_threshold spec.

Lemma empty_memory_no_streak key i : no_open_streak empty_memory key i.
Proof. intros name spec _. apply (breaker_threshold_pos spec). Qed.

Section stuck.
Context {W : Type} `{KubeClient W} `{API : ConditionAPI}.
#[local] Instance all_up : DependencyProbes W := fixed_probes true true true.

Definition is_probe (c : Call) : Prop := match c with CProbed _ _ _ => True | _ => False end.

Lemma loop_all_healthy key i cb mem d :
  breakerEnabled i = Some cb → no_open_streak mem key i →
  traces (λ s cs, s.1.2 = i ∧ no_open_streak s.1.1 key i ∧ Forall is_probe cs)
    (mfold (checkComponent key) (components cb) (mem, i, d)).
Proof.
  intros He Hn. apply traces_mfold; [by split_and!|].
  intros [[mem1 i1] d1] cs comp Hin (Hi & Hn1 & Hcs). cbn in Hi, Hn1. subst i1.
  assert (check_probe comp i = fixed_probe true ∧ (check_name comp, check_spec comp) ∈ breaker_specs i)
    as [Hp Hs].
  { unfold breaker_specs. rewrite He. unfold components in Hin.
    repeat (apply elem_of_cons in Hin as [->|Hin]; [split; [done|set_solver]|]). set_solver. }
  unfold checkComponent. destruct (check_spec comp) as [spec|]; [|apply traces_mret; by rewrite app_nil_r].
  rewrite Hp. change (fixed_probe true ≫= ?f) with (f (mkProbe true "Connected" "")). cbv zeta.
  apply traces_note_bind. unfold applyVerdict. cbn [Connected]. cbv zeta.
  pose proof (Hn1 _ _ Hs) as Hlt. destruct (Z.geb_spec (failures mem1 key (check_name comp)) (breaker_threshold spec)).
  { lia. }
  change (mret ?a ≫= ?f) with (f a). apply traces_mret. cbn. split_and!; [done| |].
  - intros name spec' Hin'. rewrite failures_set. case_decide; [apply breaker_threshold_pos|by apply Hn1].
  - apply Forall_app. split; [done|]. by repeat constructor.
Qed.

(** An open breaker without a streak on record never closes.  When the
    counters were lost with the operator process, or were reset by a recovery
    whose patch failed, a pass that finds every dependency healthy makes no
    attempt to restore the worker and publishes the instance with the breaker
    still active; the next pass starts from the same situation. *)
Theorem breaker_stuck_open mem key i w out mem' w' tr :
  is_Some (breakerEnabled i) → no_open_streak mem key i → isCircuitBreakerActive i = true →
  run (superviseInstance mem key i) w = (out, mem', w', tr) →
  no_open_streak mem' key i ∧
  ∀ c, c ∈ tr → match c with
                | CProbed _ _ healthy => True
                | CUpdateStatus i' _ => isCircuitBreakerActive i' = true
                | _ => False
                end.
Proof.
  intros [cb He] Hn Ha Hrun.
  assert (no_open_streak (init_memory key mem) key i) as Hn0.
  { intros name spec Hin. rewrite failures_init. by apply Hn. }
  eapply (traces_run (λ r cs, no_open_streak r.2 key i ∧ ∀ c, c ∈ cs →
    match c with CProbed _ _ _ => True | CUpdateStatus i' _ => isCircuitBreakerActive i' = true
               | _ => False end)) in Hrun; [done|].
  unfold superviseInstance. cbv zeta. rewrite He.
  eapply traces_bind; [by apply loop_all_healthy|]. intros [[mem1 i1] d1] cs (Hi & Hn1 & Hcs).
  cbn in Hi, Hn1. subst i1. rewrite Forall_forall in Hcs.
  eapply traces_bind; [apply updateInstanceStatus_traces|]. intros e ws Hw.
  destruct e; apply traces_mret; rewrite app_nil_r; (split; [done|]);
    intros c [Hc|Hc]%elem_of_app;
    (destruct (status_write_elem _ _ _ _ _ Hw Hc) as [? ->] || (apply Hcs in Hc; by destruct c)); exact Ha.
Qed.
End stuck.

(** *** Two dependencies, one restore point *)

(** The memory, instance and cluster after a verdict, on the fake cluster. *)
Definition verdict_on (i : LangfuseInstance) (mem : Memory) (key comp : string)
    (spec : ComponentCircuitBreakerSpec) (healthy : bool) (w : FakeCluster)
    : Memory * LangfuseInstance * FakeCluster :=
  (run (applyVerdict mem i key comp spec healthy) w).1.

Lemma run_drop_error {A B E} (m : M (St FakeCluster) (A * B * E)) w a b e w' :
  (run m w).1 = ((a, b, e), w') → (run ('(a, b, _) ← m; mret (a, b)) w).1 = ((a, b), w').
Proof.
  unfold run, mbind, M_bind. destruct (m (mkSt w [])) as [[[??]?] s']. cbn. by intros [= -> -> -> ->].
Qed.

Lemma verdict_recovers i mem key comp spec w d saved :
  Breaker_Action spec = "scaleWorkerToZero" → Breaker_RecoveryAction spec = "restoreScale" →
  fk_write_error w = None → fk_deployments w !! worker_key i = Some d →
  breaker_threshold spec ≤ failures mem key comp →
  saved = match lookup2 (savedReplicas mem) key comp with
          | Some n => if n =? 0 then 1 else n | None => 1 end →
  verdict_on i mem key comp spec true w =
  (drop_saved key comp (set_failures key comp 0 mem), set_breaker false "" i, scale_worker i saved w).
Proof.
  intros Ha Hr Hw Hd Ht ->. unfold verdict_on, applyVerdict. cbv zeta.
  destruct (Z.geb_spec (failures mem key comp) (breaker_threshold spec)); [|lia].
  eapply run_drop_error. unfold recoverCircuitBreaker. rewrite !bool_decide_true by done. cbn [negb orb].
  cbv zeta. fold (worker_key i). unfold run.
  rewrite (fake_Get_Deployment _ _ d) by done. rewrite fake_Patch_Replicas by done. by rewrite fake_Event.
Qed.

Lemma verdict_opens i mem key comp spec w d :
  Breaker_Action spec = "scaleWorkerToZero" → fk_write_error w = None →
  fk_deployments w !! worker_key i = Some d → isCircuitBreakerActive i = false →
  breaker_threshold spec ≤ int64 (failures mem key comp + 1) →
  verdict_on i mem key comp spec false w =
  (save_replicas key comp (default 1 (dep_Replicas d))
     (set_failures key comp (int64 (failures mem key comp + 1)) mem),
   set_breaker true (comp +:+ " dependency unhealthy") i, scale_worker i 0 w).
Proof.
  intros Ha Hw Hd Hi Ht. unfold verdict_on, applyVerdict. cbv zeta.
  destruct (Z.geb_spec (int64 (failures mem key comp + 1)) (breaker_threshold spec)); [|lia].
  eapply run_drop_error. by apply open_transition.
Qed.

(** When two dependencies fail together the restore point is lost.  The
    breaker was opened by ClickHouse with [n] replicas on record; Redis, whose
    streak also reached the threshold, recovers first.  Its recovery scales the
    worker to one and clears the flag while ClickHouse is still counted as down;
    the next ClickHouse failure opens again and overwrites the record with one;
    when ClickHouse recovers the worker comes back with one replica, whatever [n]
    was. *)
Theorem restore_point_lost mem i key spec w d n :
  Breaker_Action spec = "scaleWorkerToZero" → Breaker_RecoveryAction spec = "restoreScale" →
  fk_write_error w = None → fk_deployments w !! worker_key i = Some d → dep_Replicas d = Some 0 →
  isCircuitBreakerActive i = true →
  lookup2 (savedReplicas mem) key "clickhouse" = Some n →
  lookup2 (savedReplicas mem) key "redis" = None →
  breaker_threshold spec ≤ failures mem key "redis" →
  breaker_threshold spec ≤ failures mem key "clickhouse" < 2 ^ 63 - 1 →
  let '(mem1, i1, w1) := verdict_on i mem key "redis" spec true w in
  let '(mem2, i2, w2) := verdict_on i1 mem1 key "clickhouse" spec false w1 in
  let '(mem3, i3, w3) := verdict_on i2 mem2 key "clickhouse" spec true w2 in
  (isCircuitBreakerActive i1 = false ∧ breaker_threshold spec ≤ failures mem1 key "clickhouse" ∧
   dep_Replicas <$> fk_deployments w1 !! worker_key i = Some (Some 1)) ∧
  lookup2 (savedReplicas mem2) key "clickhouse" = Some 1 ∧
  dep_Replicas <$> fk_deployments w3 !! worker_key i = Some (Some 1).
Proof.
  intros Ha Hr Hw Hd Hz Hi Hs Hsr Ht [Htc Hub].
  rewrite (verdict_recovers i mem key "redis" spec w d 1) by (done || by rewrite Hsr).
  set (mem1 := drop_saved _ _ _). set (i1 := set_breaker _ _ _). set (w1 := scale_worker _ _ _).
  assert (failures mem1 key "clickhouse" = failures mem key "clickhouse") as Hf1.
  { unfold mem1. change (failures (drop_saved ?k ?c ?m)) with (failures m).
    rewrite failures_set, decide_False; [done|]. by intros [_ ?]. }
  pose proof (scale_worker_lookup i 1 w d Hd) as Hd1.
  pose proof (breaker_threshold_pos spec).
  assert (int64 (failures mem1 key "clickhouse" + 1) = failures mem key "clickhouse" + 1) as Hc.
  { rewrite Hf1. apply int64_id. unfold in_int64. lia. }
  rewrite (verdict_opens i1 mem1 key "clickhouse" spec w1 _ Ha Hw Hd1) by (done || lia).
  set (mem2 := save_replicas _ _ _ _). set (i2 := set_breaker _ _ _). set (w2 := scale_worker i1 0 w1).
  pose proof (scale_worker_lookup i1 0 w1 _ Hd1) as Hd2.
  assert (lookup2 (savedReplicas mem2) key "clickhouse" = Some 1) as Hs2.
  { unfold mem2, save_replicas. cbn [savedReplicas]. by rewrite lookup2_insert2, decide_True. }
  rewrite (verdict_recovers i2 mem2 key "clickhouse" spec w2 _ 1 Ha Hr Hw Hd2); [| |by rewrite Hs2].
  2: { unfold mem2. change (failures (save_replicas ?k ?c ?v ?m)) with (failures m).
       rewrite failures_set, decide_True by done. lia. }
  split_and!; [done|by rewrite Hf1| |done|].
  - exact (f_equal (fmap dep_Replicas) Hd1).
  - exact (f_equal (fmap dep_Replicas) (scale_worker_lookup i2 1 w2 _ Hd2)).
Qed.

(** ** Witnesses, on a concrete cluster *)

Definition ex_breaker : ComponentCircuitBreakerSpec :=
  mkComponentCircuitBreakerSpec "scaleWorkerToZero" 10 1 "restoreScale".

Definition ex_guarded : LangfuseInstance :=
  mkLangfuseInstance (ex_meta "lf")
    (ex_spec "3.1" "pg" "db" (Some (mkCircuitBreakerSpec None (Some ex_breaker) (Some ex_breaker) None)))
    zero_LangfuseInstanceStatus.

Definition ex_worker (n : Z) : Deployment := mkDeployment (ex_meta "lf-worker") (Some n) ∅ n n.

Definition ex_guarded_cluster (n : Z) : FakeCluster :=
  mkFake {[ ex_key := ex_guarded ]} {[ mkKey "prod" "lf-worker" := ex_worker n ]} ∅ ∅ [] None None 0.

(** One pass of a fresh operator while ClickHouse is down. *)
Definition ex_outage : Outcome * Memory * FakeCluster * list Call :=
  run (Reconcile (API := list_conditions) (PROBES := fixed_probes false true true) empty_memory ex_key)
    (ex_guarded_cluster 4).

Lemma ex_outage_eq :
  run (Reconcile (API := list_conditions) (PROBES := fixed_probes false true true) empty_memory ex_key)
    (ex_guarded_cluster 4) = (ex_outage.1.1.1, ex_outage.1.1.2, ex_outage.1.2, ex_outage.2).
Proof. apply quad_eta. Qed.

Lemma failure_count_is_streak_witness : failures ex_outage.1.1.2 "prod/lf" "clickhouse" = 1.
Proof.
  rewrite (failure_count_is_streak (API := list_conditions) (PL := fixed_probes_laws false true true)
             ex_outage.1.1.2 ([] ++ ex_outage.2) "prod/lf" "clickhouse").
  - by vm_compute.
  - eapply reach_pass; [constructor|exact ex_outage_eq].
  - by vm_compute.
Defined.

Lemma worker_scaled_with_cause_witness :
  CPatchReplicas (mkKey "prod" "lf-worker") 0 None ∈ ex_outage.2 ∧
  ∃ i name spec, (name, Some spec) ∈ breaker_specs i ∧ Breaker_Action spec = "scaleWorkerToZero".
Proof.
  assert (CPatchReplicas (mkKey "prod" "lf-worker") 0 None ∈ ex_outage.2) as Hin.
  { apply (list_elem_of_lookup_2 _ 3). by vm_compute. }
  split; [done|].
  destruct (worker_scaled_with_cause (API := list_conditions) (PL := fixed_probes_laws false true true) empty_memory [] _ _ _ _ _
    (mkKey "prod" "lf-worker") 0 None
    (reach_start (API := list_conditions) (PROBES := fixed_probes false true true)) ex_outage_eq) as (i & name & spec & _ & _ & _ & _ & _ & _ & Hs & Ha & _);
    [by vm_compute|exact Hin|].
  by exists i, name, spec.
Defined.


Definition ex_tripped : LangfuseInstance := set_breaker true "clickhouse dependency unhealthy" ex_guarded.

Lemma breaker_stuck_open_witness :
  isCircuitBreakerActive ex_tripped = true ∧
  no_open_streak (run (superviseInstance (API := list_conditions)
    (PROBES := fixed_probes true true true) empty_memory "prod/lf" ex_tripped) (ex_guarded_cluster 0)).1.1.2
    "prod/lf" ex_tripped.
Proof.
  split; [by vm_compute|].
  eapply (breaker_stuck_open empty_memory "prod/lf" ex_tripped (ex_guarded_cluster 0)).
  - by eexists.
  - apply empty_memory_no_streak.
  - by vm_compute.
  - apply quad_eta.
Defined.

(** Both dependencies at the threshold, ClickHouse with four replicas on record. *)
Definition ex_double_outage : Memory :=
  mkMemory {[ "prod/lf" := {[ "clickhouse" := 1; "redis" := 1 ]} ]} {[ "prod/lf" := {[ "clickhouse" := 4 ]} ]}.

Lemma restore_point_lost_witness :
  lookup2 (savedReplicas ex_double_outage) "prod/lf" "clickhouse" = Some 4 ∧
  let '(mem1, i1, w1) := verdict_on ex_tripped ex_double_outage "prod/lf" "redis" ex_breaker true
                           (ex_guarded_cluster 0) in
  isCircuitBreakerActive i1 = false.
Proof.
  split; [by vm_compute|].
  pose proof (restore_point_lost ex_double_outage ex_tripped "prod/lf" ex_breaker (ex_guarded_cluster 0)
    (ex_worker 0) 4) as Hr.
  do 10 (specialize (Hr ltac:(by vm_compute))).
  destruct (verdict_on _ _ _ "redis" _ _ _) as [[m1 i1] w1].
  destruct (verdict_on _ m1 _ _ _ _ _) as [[m2 i2] w2].
  destruct (verdict_on _ m2 _ _ _ _ _) as [[m3 i3] w3]. apply Hr.
Defined.
