(* ===== verification/Secrets.v ===== *)
(** * The secret controller ([internal/controller/secret_controller.go])

    Generates the instance's own Secret, and restarts the workloads when a
    referenced Secret changes by stamping a hash on their pod templates. *)

From stdpp Require Import sorting.
From S2P Require Import Prelude GoStd KubeTypes ApiTypes Kube Examples Status Config Resources.

Open Scope string_scope.
Open Scope list_scope.
Open Scope Z_scope.

Definition secretHashAnnotation : string := "langfuse.palena.ai/secret-hash".
Definition generatedSecretSuffix : string := "-generated-secrets".
Definition fieldOwnerSecrets : string := "langfuse-operator-secrets".
Definition alphanumericCharset : string :=
  "abcdefghijklmnopqrstuvwxyzABCDEFGHIJKLMNOPQRSTUVWXYZ0123456789".

(** [crypto/rand.Read] for the bytes asked for: a source outside the program. *)
Class Entropy (W : Type) := {
  rand_Read : nat → W → result (list Byte.byte) * W
}.

(** It fills the buffer it is given. *)
Class EntropyLaws {W} (E : Entropy W) : Prop := {
  rand_Read_length n w bs w' : rand_Read n w = (Ok bs, w') → length bs = n
}.

Definition zero_entropy {W} : Entropy W := {| rand_Read n w := (Ok (repeat Byte.x07 n), w) |}.

Lemma zero_entropy_laws {W} : EntropyLaws (zero_entropy (W := W)).
Proof. split. cbn. intros n w bs w' [= <- <-]. apply repeat_length. Qed.

(** The hash function ([crypto/sha256]): any function on texts. *)
Class Hasher := { sha256 : string → string }.

Definition byte_ascii (b : Byte.byte) : Ascii.ascii := Ascii.ascii_of_byte b.
Definition byte_val (b : Byte.byte) : nat := Ascii.nat_of_ascii (byte_ascii b).
Definition bytes_string (bs : list Byte.byte) : string := String.string_of_list_byte bs.

Definition charset_at (n : nat) : Ascii.ascii := default Ascii.zero (String.get n alphanumericCharset).

(** The character a random byte selects. *)
Definition alphanumeric (b : Byte.byte) : Ascii.ascii :=
  charset_at (byte_val b mod String.length alphanumericCharset).

Definition autoGenerateEnabled (i : LangfuseInstance) : bool :=
  match Spec_Secrets (Instance_Spec i) with
  | None => true
  | Some s =>
      match SecretManagement_AutoGenerate s with
      | None => true
      | Some a => default true (AutoGenerate_Enabled a)
      end
  end.

Definition opt_ref (r : option SecretKeyRef) : list string :=
  match r with Some ref => [SecretKeyRef_Name ref] | None => [] end.
Definition opt_keys_ref (r : option SecretKeysRef) : list string :=
  match r with Some ref => [SecretKeysRef_Name ref] | None => [] end.

(** The names in the order the code adds them. *)
Definition referencedNames (i : LangfuseInstance) : list string :=
  let spec := Instance_Spec i in
  let auth := Spec_Auth spec in
  [om_Name (Instance_ObjectMeta i) +:+ generatedSecretSuffix] ++
  opt_ref (Auth_NextAuthSecret auth ≫= SecretValue_SecretRef) ++
  opt_ref (Auth_Salt auth ≫= SecretValue_SecretRef) ++
  match Auth_OIDC auth with
  | Some oidc => opt_ref (OIDC_ClientId oidc) ++ opt_ref (OIDC_ClientSecret oidc)
  | None => [] end ++
  match Auth_InitUser auth with Some u => opt_ref (InitUser_Password u) | None => [] end ++
  opt_keys_ref (ExternalDatabase_SecretRef <$> (Spec_Database spec ≫= Database_External)) ++
  opt_keys_ref (ExternalClickHouse_SecretRef <$> (Spec_ClickHouse spec ≫= ClickHouse_External)) ++
  opt_keys_ref (((Spec_ClickHouse spec ≫= ClickHouse_Managed) ≫= ManagedClickHouse_Auth)
                  ≫= ClickHouseAuth_SecretRef) ++
  opt_keys_ref (ExternalRedis_SecretRef <$> (Spec_Redis spec ≫= Redis_External)) ++
  opt_keys_ref (S3Credentials_SecretRef <$> ((Spec_BlobStorage spec ≫= BlobStorage_S3) ≫= S3_Credentials)) ++
  opt_keys_ref (AzureCredentials_SecretRef <$>
                  ((Spec_BlobStorage spec ≫= BlobStorage_Azure) ≫= AzureBlob_Credentials)) ++
  opt_keys_ref (GCSCredentials_SecretRef <$>
                  ((Spec_BlobStorage spec ≫= BlobStorage_GCS) ≫= GCS_Credentials)) ++
  opt_ref (Spec_LLM spec ≫= LLM_APIKey).

(** The set [seen], then its names in order. *)
Definition seen_names (i : LangfuseInstance) : gmap string unit :=
  foldl (λ seen name, <[name := tt]> seen) ∅ (referencedNames i).

Definition collectReferencedSecretNames `{MapOrder} (i : LangfuseInstance) : list string :=
  sort_Strings (range_keys (seen_names i)).

(** What the hasher is fed for one Secret. *)
Definition secretBytes `{MapOrder} (data : gmap string string) : string :=
  Join ((λ k, k +:+ default "" (data !! k)) <$> sort_Strings (range_keys data)) "".

Section controller.
Context {W : Type} `{KubeClient W} `{OWN : OwnerAPI} `{ORD : MapOrder} `{ENT : Entropy W} `{HASH : Hasher}.

Definition generateSecureRandom (length : nat) : M (St W) (result string) :=
  r ← silent (rand_Read length);
  mret match r with
       | Ok bytes => Ok (hex_EncodeToString (bytes_string bytes))
       | Err e => Err (wrapError "generating random bytes" e)
       end.

(** One byte is read per character. *)
Fixpoint generateAlphanumeric (length : nat) : M (St W) (result string) :=
  match length with
  | O => mret (Ok "")
  | S n =>
      r ← silent (rand_Read 1);
      match r with
      | Err e => mret (Err (wrapError "generating random byte" e))
      | Ok bs =>
          rest ← generateAlphanumeric n;
          mret (try s := rest in Ok (String (alphanumeric (default Byte.x00 (head bs))) s))%go
      end
  end.

Definition generatedSecretKeys : list (string * M (St W) (result string)) :=
  [ ("nextauth-secret", generateSecureRandom 32);
    ("salt", generateSecureRandom 16);
    ("clickhouse-username", mret (Ok "default"));
    ("clickhouse-password", generateAlphanumeric 24);
    ("redis-password", generateAlphanumeric 24);
    ("admin-api-key", generateSecureRandom 32) ].

(** Generates the keys the data lacks, in order; the keys added, or the first error. *)
Fixpoint fillKeys (keys : list (string * M (St W) (result string))) (data : gmap string string)
    (added : list string) : M (St W) (result (gmap string string * list string)) :=
  match keys with
  | [] => mret (Ok (data, added))
  | (key, gen) :: keys =>
      match data !! key with
      | Some _ => fillKeys keys data added
      | None =>
          r ← gen;
          match r with
          | Err e => mret (Err (wrapError ("generating " +:+ key) e))
          | Ok v => fillKeys keys (<[key := v]> data) (added ++ [key])
          end
      end
  end.

Definition ensureGeneratedSecret (instance : LangfuseInstance) (secretName : string)
    : M (St W) (option GoError) :=
  r ← Get_Secret (in_ns instance secretName);
  match r with
  | Ok existing =>
      r ← fillKeys generatedSecretKeys (sec_Data existing) [];
      match r with
      | Err e => mret (Some e)
      | Ok (_, []) => mret None
      | Ok (data, added) =>
          e ← Update_Secret (mkSecret (sec_Meta existing) data);
          mret (wrapError ("backfilling generated secret keys [" +:+ Join added " " +:+ "]") <$> e)
      end
  | Err e =>
      if negb (IsNotFound e) then mret (Some (wrapError "checking for existing secret" e))
      else
        r ← fillKeys generatedSecretKeys ∅ [];
        match r with
        | Err e => mret (Some e)
        | Ok (data, _) =>
            let meta := mkObjectMeta secretName (om_Namespace (Instance_ObjectMeta instance))
                          (CommonLabels instance "secrets") ∅ [] 0 None [] in
            match SetControllerReference (Instance_ObjectMeta instance) meta with
            | Err e => mret (Some (wrapError "setting owner reference" e))
            | Ok meta =>
                e ← Create_Secret (mkSecret meta data);
                mret (wrapError "creating generated secret" <$> e)
            end
        end
  end.

(** The bytes of all the Secrets that exist, in the order of their names. *)
Fixpoint hashInput (instance : LangfuseInstance) (names : list string) (acc : string)
    : M (St W) (result string) :=
  match names with
  | [] => mret (Ok acc)
  | name :: names =>
      r ← Get_Secret (in_ns instance name);
      match r with
      | Err e => if IsNotFound e then hashInput instance names acc
                 else mret (Err (wrapError ("fetching secret " +:+ name) e))
      | Ok secret => hashInput instance names (acc +:+ secretBytes (sec_Data secret))
      end
  end.

Definition computeSecretHashes (instance : LangfuseInstance) : M (St W) (result (string * string)) :=
  r ← hashInput instance (collectReferencedSecretNames instance) "";
  mret (try input := r in
        let compositeHash := hex_EncodeToString (sha256 input) in
        Ok (compositeHash, compositeHash))%go.

Definition patchDeploymentSecretHash (instance : LangfuseInstance) (deployName newHash : string)
    : M (St W) (result bool) :=
  r ← Get_Deployment (in_ns instance deployName);
  match r with
  | Err e => if IsNotFound e then mret (Ok false)
             else mret (Err (wrapError ("getting deployment " +:+ deployName) e))
  | Ok deploy =>
      let currentHash := default "" (dep_TemplateAnnotations deploy !! secretHashAnnotation) in
      if bool_decide (currentHash = newHash) then mret (Ok false)
      else
        e ← Patch_TemplateAnnotation (om_key (dep_Meta deploy)) secretHashAnnotation newHash
              fieldOwnerSecrets;
        mret match e with
             | Some e => Err (wrapError ("patching deployment " +:+ deployName) e)
             | None => Ok true
             end
  end.

(** The Secrets status, created when absent. *)
Definition set_secrets_status (f : SecretsStatus → SecretsStatus) (i : LangfuseInstance) : LangfuseInstance :=
  set_Instance_Status (set_Status_Secrets
    (Some (f (default zero_SecretsStatus (Status_Secrets (Instance_Status i))))) (Instance_Status i)) i.

(** Rotation detection: was any Deployment patched? *)
Definition detectRotation (instance : LangfuseInstance) : M (St W) bool :=
  r ← computeSecretHashes instance;
  match r with
  | Err _ => mret false
  | Ok (webHash, workerHash) =>
      let targets : gmap string string :=
        <[WorkerName instance := workerHash]> (<[WebName instance := webHash]> ∅) in
      mfold (λ rotated name,
               r ← patchDeploymentSecretHash instance name (default "" (targets !! name));
               mret match r with
                    | Err _ => rotated
                    | Ok patched => rotated || patched
                    end)
            (range_keys targets) false
  end.

(** After the generated Secret was seen to. *)
Definition reconcileHashes (instance original : LangfuseInstance) : M (St W) Outcome :=
  rotated ← detectRotation instance;
  now ← (if rotated : bool then (t ← Now; mret (Some t)) else mret None);
  let instance :=
    match now with
    | Some t => set_secrets_status (set_SecretsStatus_LastRotationCheck (Some t)) instance
    | None => instance
    end in
  e ← updateInstanceStatus instance original;
  mret match e with
       | Some e => statusWriteFailed e "updating secret status"
       | None => done_now
       end.

Definition Reconcile (req : NamespacedName) : M (St W) Outcome :=
  r ← Get_Instance req;
  match r with
  | Err e => if IsNotFound e then mret done_now
             else mret (failed (wrapError "fetching LangfuseInstance" e))
  | Ok instance =>
      match om_DeletionTimestamp (Instance_ObjectMeta instance) with
      | Some _ => mret done_now
      | None =>
          if autoGenerateEnabled instance then
            let secretName := om_Name (Instance_ObjectMeta instance) +:+ generatedSecretSuffix in
            e ← ensureGeneratedSecret instance secretName;
            match e with
            | Some e => mret (failed (wrapError "ensuring generated secret" e))
            | None =>
                reconcileHashes (set_secrets_status (λ s, set_SecretsStatus_ManagedSecretName secretName
                                   (set_SecretsStatus_AutoGenerated true s)) instance) instance
            end
          else reconcileHashes instance instance
      end
  end.

Definition findInstancesForSecret (secretKey : NamespacedName) : M (St W) (list NamespacedName) :=
  r ← List_Instances (key_Namespace secretKey);
  mret match r with
       | Err _ => []
       | Ok items =>
           omap (λ i, if bool_decide (key_Name secretKey ∈ collectReferencedSecretNames i)
                      then Some (om_key (Instance_ObjectMeta i)) else None) items
       end.
End controller.

(** ** Properties *)

(** *** Names and bytes, whatever the iteration order *)

Lemma foldl_insert_lookup (l : list string) (m : gmap string unit) k :
  is_Some (foldl (λ seen name, <[name := tt]> seen) m l !! k) ↔ k ∈ l ∨ is_Some (m !! k).
Proof.
  revert m. induction l as [|x l IH]; intros m; cbn; [set_solver|].
  rewrite IH, elem_of_cons, lookup_insert_is_Some. destruct (decide (x = k)); naive_solver.
Qed.

Section order.
Context {MO : MapOrder} `{!MapOrderLaws MO}.

Lemma elem_of_sort_Strings x l : x ∈ sort_Strings l ↔ x ∈ l.
Proof. unfold sort_Strings. by rewrite SliceStable_Permutation. Qed.

(** The names the secret controller watches and hashes are those the spec
    references, each once, in increasing order. *)
Theorem collectReferencedSecretNames_spec i :
  NoDup (collectReferencedSecretNames i) ∧
  StronglySorted (not_after str_lt) (collectReferencedSecretNames i) ∧
  ∀ name, name ∈ collectReferencedSecretNames i ↔ name ∈ referencedNames i.
Proof.
  unfold collectReferencedSecretNames. split_and!.
  - unfold sort_Strings. rewrite SliceStable_Permutation. apply NoDup_range_keys.
  - apply sort_Strings_sorted.
  - intros name. rewrite elem_of_sort_Strings, elem_of_range_keys. unfold seen_names.
    rewrite foldl_insert_lookup. rewrite lookup_empty. split; [intros [?|[??]]; done|auto].
Qed.
End order.

Lemma range_keys_orders (O1 O2 : MapOrder) `{!MapOrderLaws O1} `{!MapOrderLaws O2} {V} (m : gmap string V) :
  sort_Strings (range_keys (MapOrder := O1) m) = sort_Strings (range_keys (MapOrder := O2) m).
Proof. apply sort_Strings_Permutation. by rewrite !range_keys_perm. Qed.

Lemma secretBytes_orders (O1 O2 : MapOrder) `{!MapOrderLaws O1} `{!MapOrderLaws O2} data :
  secretBytes (H := O1) data = secretBytes (H := O2) data.
Proof. unfold secretBytes. by rewrite (range_keys_orders O1 O2). Qed.

Section hash.
Context {W : Type} `{KubeClient W} `{HASH : Hasher}.

Lemma hashInput_orders (O1 O2 : MapOrder) `{!MapOrderLaws O1} `{!MapOrderLaws O2} i names acc s :
  hashInput (ORD := O1) i names acc s = hashInput (ORD := O2) i names acc s.
Proof.
  revert acc s. induction names as [|name names IH]; intros acc s; cbn [hashInput]; [done|].
  unfold mbind, M_bind, Get_Secret, call. destruct (kc_get_secret _ _) as [[secret|e] w].
  - by rewrite IH, (secretBytes_orders O1 O2).
  - destruct (IsNotFound e); [apply IH|done].
Qed.

(** The composite hash does not depend on Go's random map iteration: any two
    passes that see the same Secrets feed the hasher the same bytes in the same
    order, so an unchanged cluster never triggers a rolling restart. *)
Theorem computeSecretHashes_deterministic (O1 O2 : MapOrder) `{!MapOrderLaws O1} `{!MapOrderLaws O2} i s :
  computeSecretHashes (ORD := O1) i s = computeSecretHashes (ORD := O2) i s.
Proof.
  unfold computeSecretHashes, mbind, M_bind.
  replace (collectReferencedSecretNames (H := O1) i) with (collectReferencedSecretNames (H := O2) i)
    by apply (range_keys_orders O2 O1).
  by rewrite (hashInput_orders O1 O2).
Qed.
End hash.

(** Nothing separates a key from its value: bytes moved from one to the other
    go unnoticed, under any hash function. *)
Lemma secretBytes_undelimited `{!MapOrderLaws MO} k v1 v2 :
  secretBytes {[ k := v1 +:+ v2 ]} = secretBytes {[ k +:+ v1 := v2 ]}.
Proof.
  assert (∀ k v, secretBytes {[ k := v ]} = k +:+ v) as Hs.
  { intros k' v'. unfold secretBytes.
    rewrite (sort_Strings_Permutation (range_keys {[k' := v']}) [k']).
    2: { rewrite range_keys_perm. by rewrite map_to_list_singleton. }
    cbn. by rewrite lookup_singleton_eq. }
  rewrite !Hs. by rewrite str_app_assoc.
Qed.

Definition reversed_order : MapOrder := {| range_keys V m := reverse (map_to_list m).*1 |}.

Lemma reversed_order_laws : MapOrderLaws reversed_order.
Proof. split. intros V m. cbn. apply reverse_Permutation. Qed.

(** *** Random texts *)

Definition is_alphanumeric (c : Ascii.ascii) : bool :=
  let n := Ascii.nat_of_ascii c in
  ((48 <=? n) && (n <=? 57) || (65 <=? n) && (n <=? 90) || (97 <=? n) && (n <=? 122))%nat.

Fixpoint str_forall (p : Ascii.ascii → bool) (s : string) : bool :=
  match s with "" => true | String c s' => p c && str_forall p s' end.

Lemma alphanumeric_ok b : is_alphanumeric (alphanumeric b) = true.
Proof. by destruct b; vm_compute. Qed.

Lemma hex_byte_ok b :
  str_forall is_alphanumeric (hex_byte (byte_ascii b)) = true ∧ String.length (hex_byte (byte_ascii b)) = 2%nat.
Proof. by destruct b; vm_compute. Qed.

Lemma str_forall_app p a b : str_forall p (a +:+ b) = str_forall p a && str_forall p b.
Proof. induction a; cbn; [done|]. by rewrite IHa, andb_assoc. Qed.

Lemma hex_bytes_ok bs :
  str_forall is_alphanumeric (hex_EncodeToString (bytes_string bs)) = true ∧
  String.length (hex_EncodeToString (bytes_string bs)) = (2 * length bs)%nat.
Proof.
  induction bs as [|b bs [IH1 IH2]]; [done|].
  change (bytes_string (b :: bs)) with (String (byte_ascii b) (bytes_string bs)).
  cbn [hex_EncodeToString length]. destruct (hex_byte_ok b) as [H1 H2].
  rewrite str_forall_app, str_length_app, H1, H2, IH1, IH2. split; [done|lia].
Qed.

Section random.
Context {W : Type} `{ENT : Entropy W}.

(** A result is a text of [n] letters and digits, or an error. *)
Definition random_text (n : nat) (r : result string) : Prop :=
  match r with
  | Ok s => String.length s = n ∧ str_forall is_alphanumeric s = true
  | Err _ => True
  end.

Lemma generateAlphanumeric_wp n (R : St W → St W → Prop) `{!PreOrder R} s :
  (∀ k s, wp (silent (rand_Read k)) (λ _ s', R s s') s) →
  wp (generateAlphanumeric n) (λ r s', R s s' ∧ random_text n r) s.
Proof.
  intros HR. revert s. induction n as [|n IH]; intros s; cbn [generateAlphanumeric].
  { by apply wp_ret. }
  apply wp_bind. eapply wp_mono; [apply HR|]. intros [bs|e] s1 H1; [|by apply wp_ret].
  apply wp_bind. eapply wp_mono; [apply IH|]. intros r s2 [H2 Hr]. apply wp_ret.
  split; [by etrans|]. destruct r as [t|]; [|done]. destruct Hr as [<- Ht].
  cbn [random_text result_bind String.length str_forall]. split; [done|].
  by rewrite alphanumeric_ok.
Qed.

Lemma generateSecureRandom_wp n (R : St W → St W → Prop) `{!PreOrder R} `{!EntropyLaws ENT} s :
  (∀ k s, wp (silent (rand_Read k)) (λ _ s', R s s') s) →
  wp (generateSecureRandom n) (λ r s', R s s' ∧ random_text (2 * n) r) s.
Proof.
  intros HR. unfold generateSecureRandom. apply wp_bind.
  assert (wp (silent (rand_Read n)) (λ r s', match r with Ok bs => length bs = n | _ => True end) s) as Hl.
  { unfold wp, silent. destruct (rand_Read n (st_world s)) as [[bs|e] w] eqn:E; [|done].
    by eapply rand_Read_length. }
  eapply wp_mono; [apply (wp_and _ _ _ _ (HR n s) Hl)|].
  intros [bs|e] s1 [H1 H2]; apply wp_ret; (split; [done|]); [|done].
  destruct (hex_bytes_ok bs) as [Ha Hn]. cbn. by rewrite Hn, H2.
Qed.
End random.

(** *** Filling in missing keys *)

(** The keys the operator owns in the generated Secret. *)
Definition generated_names : list string :=
  ["nextauth-secret"; "salt"; "clickhouse-username"; "clickhouse-password"; "redis-password";
   "admin-api-key"].

Section fill.
Context {W : Type} `{KubeClient W} `{ENT : Entropy W}.

(** What [fillKeys] makes of the data: nothing present changes, the keys asked
    for are there, and something is reported as added exactly when the data grew. *)
Definition filled (names : list string) (data : gmap string string) (added : list string)
    (r : result (gmap string string * list string)) : Prop :=
  match r with
  | Err _ => True
  | Ok (data', added') =>
      data ⊆ data' ∧ dom data' = dom data ∪ list_to_set names ∧
      ∃ new, added' = added ++ new ∧ (new = [] ↔ data' = data)
  end.

Lemma fillKeys_wp (R : St W → St W → Prop) `{!PreOrder R} keys data added s :
  (∀ kg s, kg ∈ keys → wp kg.2 (λ _ s', R s s') s) →
  wp (fillKeys keys data added) (λ r s', R s s' ∧ filled keys.*1 data added r) s.
Proof.
  revert data added s. induction keys as [|[key gen] keys IH]; intros data added s Hg; cbn [fillKeys].
  { apply wp_ret. split; [done|]. cbn. split_and!; [done|set_solver|]. exists []. by rewrite app_nil_r. }
  assert (∀ kg s, kg ∈ keys → wp kg.2 (λ _ s', R s s') s) as Hg' by (intros; apply Hg; set_solver).
  destruct (data !! key) as [v|] eqn:Ek.
  - eapply wp_mono; [by apply IH|]. cbn. intros r s' [HR Hf]. split; [done|].
    destruct r as [[d a]|]; [|done]. destruct Hf as (Hs & Hd & Hn). split_and!; [done| |done].
    rewrite Hd. apply elem_of_dom_2 in Ek. set_solver.
  - apply wp_bind. eapply wp_mono; [apply (Hg (key, gen)); set_solver|]. cbn.
    intros [v|e] s1 H1; [|by apply wp_ret].
    eapply wp_mono; [by apply IH|]. cbn. intros r s2 [H2 Hf]. split; [by etrans|].
    destruct r as [[d a]|]; [|done]. destruct Hf as (Hs & Hd & new & -> & Hn).
    assert (data ⊆ <[key := v]> data) as Hsub by by apply insert_subseteq.
    assert (d !! key = Some v) as Hk.
    { eapply lookup_weaken; [|exact Hs]. by rewrite lookup_insert_eq. }
    split_and!; [by etrans|rewrite Hd, dom_insert_L; set_solver|].
    exists ([key] ++ new). rewrite app_assoc. split; [done|]. split; [done|]. intros ->. congruence.
Qed.

(** A complete Secret is left alone, without reading any randomness. *)
Lemma fillKeys_complete keys data added :
  Forall (λ key, is_Some (data !! key)) keys.*1 → fillKeys (W := W) keys data added = mret (Ok (data, added)).
Proof.
  induction keys as [|[key gen] keys IH]; cbn [fillKeys fmap list_fmap]; [done|].
  intros [[v Hv] Hk]%Forall_cons. cbn in Hv. rewrite Hv. by apply IH.
Qed.

Lemma generatedSecretKeys_names : (generatedSecretKeys (W := W)).*1 = generated_names.
Proof. done. Qed.

Lemma generatedSecretKeys_wp (R : St W → St W → Prop) `{!PreOrder R} kg s :
  (∀ k s, wp (silent (rand_Read k)) (λ _ s', R s s') s) →
  kg ∈ generatedSecretKeys → wp kg.2 (λ _ s', R s s') s.
Proof.
  intros HR Hin.
  assert (∀ n s, wp (generateSecureRandom n) (λ _ s', R s s') s) as Hhex.
  { intros n s'. unfold generateSecureRandom. apply wp_bind. eapply wp_mono; [apply HR|].
    intros. by apply wp_ret. }
  assert (∀ n s, wp (generateAlphanumeric n) (λ _ s', R s s') s) as Han.
  { intros n s'. eapply wp_mono; [by apply generateAlphanumeric_wp|]. by intros ?? [? _]. }
  unfold generatedSecretKeys in Hin.
  repeat (apply elem_of_cons in Hin as [->|Hin]; [first [apply Hhex|apply Han|by apply wp_ret]|]).
  set_solver.
Qed.
End fill.

(** *** The generated Secret *)

Section generated.
Context {W : Type} `{KubeClient W} `{OWN : OwnerAPI} {OL : OwnerLaws OWN} `{ENT : Entropy W}.

Definition same_trace (s s' : St W) : Prop := st_trace s' = st_trace s.

#[local] Instance same_trace_preorder : PreOrder same_trace.
Proof. split; [done|]. unfold same_trace. intros ???. congruence. Qed.

Lemma fill_generated_traces data :
  traces (λ r cs, cs = [] ∧ filled generated_names data [] r) (fillKeys generatedSecretKeys data []).
Proof.
  intros s. eapply wp_mono.
  - apply (fillKeys_wp same_trace). intros kg s' Hin. apply generatedSecretKeys_wp; [apply _| |done].
    intros k s0. by apply wp_silent.
  - cbn beta. intros r s' [Ht Hf]. exists []. rewrite app_nil_r. done.
Qed.

(** The calls and the outcome of [ensureGeneratedSecret], by what it read. *)
Definition ensured (i : LangfuseInstance) (name : string) (e : option GoError) (cs : list Call) : Prop :=
  ∃ r rest, cs = CGetSecret (in_ns i name) r :: rest ∧
  match r with
  | Ok old =>
      (rest = [] ∧ (e = None → Forall (λ k, is_Some (sec_Data old !! k)) generated_names)) ∨
      (∃ s ue, rest = [CUpdateSecret s ue] ∧ (e = None ↔ ue = None) ∧ sec_Meta s = sec_Meta old ∧
        sec_Data old ⊆ sec_Data s ∧ sec_Data old ≠ sec_Data s ∧
        dom (sec_Data s) = dom (sec_Data old) ∪ list_to_set generated_names)
  | Err re =>
      (rest = [] ∧ e ≠ None) ∨
      (err_kind re = KindNotFound ∧
       ∃ s ue, rest = [CCreateSecret s ue] ∧ (e = None ↔ ue = None) ∧
         om_key (sec_Meta s) = in_ns i name ∧ om_Labels (sec_Meta s) = CommonLabels i "secrets" ∧
         dom (sec_Data s) = list_to_set generated_names)
  end.

Lemma dom_complete (data : gmap string string) names :
  dom data = dom data ∪ list_to_set names → Forall (λ k, is_Some (data !! k)) names.
Proof. intros Hd. apply Forall_forall. intros k Hk. apply elem_of_dom. rewrite Hd. set_solver. Qed.

Lemma ensureGeneratedSecret_traces i name : traces (ensured i name) (ensureGeneratedSecret i name).
Proof.
  unfold ensureGeneratedSecret. apply traces_call_bind. intros [old|re].
  - eapply traces_bind; [apply fill_generated_traces|]. intros r cs [-> Hf]. cbn [app].
    destruct r as [[data [|a added]]|e].
    + apply traces_mret. exists (Ok old), []. split; [done|]. left. split; [done|]. intros _.
      destruct Hf as (_ & Hd & new & En & Hn). cbn in En. subst new. rewrite (proj1 Hn eq_refl) in Hd.
      by apply dom_complete.
    + destruct Hf as (Hs & Hd & new & En & Hn). cbn in En. apply traces_call_bind. intros ue. apply traces_mret.
      exists (Ok old), [CUpdateSecret (mkSecret (sec_Meta old) data) ue]. split; [done|]. right.
      exists (mkSecret (sec_Meta old) data), ue. cbn. split; [done|]. split; [by destruct ue|].
      do 2 (split; [done|]). split; [|done].
      intros Heq. by rewrite (proj2 Hn (eq_sym Heq)) in En.
    + apply traces_mret. exists (Ok old), []. split; [done|]. by left.
  - unfold IsNotFound. case_bool_decide as Hnf; cbn [negb].
    2: { apply traces_mret. exists (Err re), []. split; [done|]. by left. }
    eapply traces_bind; [apply fill_generated_traces|]. intros r cs [-> Hf]. cbn [app].
    destruct r as [[data added]|e].
    2: { apply traces_mret. exists (Err re), []. split; [done|]. by left. }
    cbv zeta. destruct (SetControllerReference _ _) as [m|e] eqn:Em.
    2: { apply traces_mret. exists (Err re), []. split; [done|]. by left. }
    apply owner_keeps in Em. destruct Hf as (_ & Hd & _). apply traces_call_bind. intros ue. apply traces_mret.
    exists (Err re), [CCreateSecret (mkSecret m data) ue]. split; [done|]. right. split; [done|].
    exists (mkSecret m data), ue. cbn. split; [done|]. split; [by destruct ue|].
    rewrite Em. do 2 (split; [done|]). cbn.
    rewrite Hd, dom_empty_L. set_solver.
Qed.

(** C34: a generated credential is never replaced.  Whatever the API server
    answers, the only writes are the creation of the Secret with all six keys after
    it was found absent, and an update that keeps every key and value of the Secret
    just read, adds nothing but missing keys of the operator, and is not made when
    there is nothing to add; success means that the Secret is complete. *)
Theorem generated_secret_never_overwritten i name w e w' tr :
  run (ensureGeneratedSecret i name) w = (e, w', tr) → ensured i name e tr.
Proof. apply (traces_run _ _ _ _ _ _ (ensureGeneratedSecret_traces i name)). Qed.
End generated.

Section idempotent.
Context `{OWN : OwnerAPI} {OL : OwnerLaws OWN} `{ENT : Entropy FakeCluster}.
Context (Hpure : ∀ n w, (rand_Read n w).2 = w).

Definition same_world (s s' : St FakeCluster) : Prop := st_world s' = st_world s.

#[local] Instance same_world_preorder : PreOrder same_world.
Proof. split; [done|]. unfold same_world. intros ???. congruence. Qed.

(** The Secret of that name is stored and has every key. *)
Definition complete_in (w : FakeCluster) (k : NamespacedName) : Prop :=
  ∃ s, fk_secrets w !! k = Some s ∧ Forall (λ key, is_Some (sec_Data s !! key)) generated_names.

Lemma fill_generated_world data s :
  wp (fillKeys generatedSecretKeys data [])
    (λ r s', same_world s s' ∧ filled generated_names data [] r) s.
Proof.
  apply (fillKeys_wp same_world). intros kg s' Hin. apply generatedSecretKeys_wp; [apply _| |done].
  intros k s0. unfold wp, silent, same_world. pose proof (Hpure k (st_world s0)).
  by destruct (rand_Read k (st_world s0)).
Qed.

Lemma ensureGeneratedSecret_completes i name w s :
  (∀ k v, fk_secrets w !! k = Some v → om_key (sec_Meta v) = k) → st_world s = w →
  wp (ensureGeneratedSecret i name) (λ e s', e = None → complete_in (st_world s') (in_ns i name)) s.
Proof.
  intros Hkeys Hs. unfold ensureGeneratedSecret. apply wp_bind, wp_call_run. cbn [kc_get_secret fake_client].
  rewrite Hs. unfold fake_get at 1. cbn [fst snd]. destruct (fk_secrets w !! in_ns i name) as [old|] eqn:Eo.
  - apply wp_bind. eapply wp_mono; [apply fill_generated_world|]. intros r s1 [Hw Hf].
    unfold same_world in Hw. cbn in Hw. destruct r as [[data [|a added]]|]; [| |by apply wp_ret].
    + apply wp_ret. intros _. exists old. rewrite Hw. split; [done|].
      destruct Hf as (_ & Hd & new & En & Hn). cbn in En. subst new. rewrite (proj1 Hn eq_refl) in Hd.
      by apply dom_complete.
    + destruct Hf as (_ & Hd & _). apply wp_bind, wp_call_run. apply wp_ret.
      cbn [kc_update_secret fake_client]. unfold fake_write. rewrite Hw.
      destruct (fk_write_error w); cbn; [done|]. intros _. exists (mkSecret (sec_Meta old) data).
      cbn. rewrite (Hkeys _ _ Eo), lookup_insert_eq. split; [done|].
      apply Forall_forall. intros k Hk. apply elem_of_dom. rewrite Hd. set_solver.
  - cbn [IsNotFound not_found err_kind]. unfold IsNotFound. rewrite bool_decide_true by done. cbn [negb].
    apply wp_bind. eapply wp_mono; [apply fill_generated_world|]. intros r s1 [Hw Hf].
    unfold same_world in Hw. cbn in Hw. destruct r as [[data added]|]; [|by apply wp_ret].
    destruct Hf as (_ & Hd & _). cbv zeta. destruct (SetControllerReference _ _) as [m|] eqn:Em; [|by apply wp_ret].
    apply owner_keeps in Em. apply wp_bind, wp_call_run. apply wp_ret.
    cbn [kc_create_secret fake_client]. unfold fake_write. rewrite Hw.
    destruct (fk_write_error w); cbn; [done|]. intros _. exists (mkSecret m data). cbn.
    rewrite Em. change (om_key _) with (in_ns i name). rewrite lookup_insert_eq. split; [done|].
    apply Forall_forall. intros k Hk. apply elem_of_dom. rewrite Hd. set_solver.
Qed.

(** Ensuring the generated Secret twice is ensuring it once: after a pass
    that succeeded, the next one reads the Secret, finds nothing to add and
    writes nothing. *)
Theorem generated_secret_idempotent i name w w1 tr1 :
  (∀ k v, fk_secrets w !! k = Some v → om_key (sec_Meta v) = k) →
  run (ensureGeneratedSecret i name) w = (None, w1, tr1) →
  ∃ s, run (ensureGeneratedSecret i name) w1 = (None, w1, [CGetSecret (in_ns i name) (Ok s)]).
Proof.
  intros Hkeys Hrun.
  pose proof (ensureGeneratedSecret_completes i name w (mkSt w []) Hkeys eq_refl) as Hwp.
  unfold run in Hrun. destruct (ensureGeneratedSecret i name (mkSt w [])) as [e s1] eqn:E. simplify_eq.
  pose proof (wp_run _ _ _ _ _ Hwp E eq_refl) as (s & Hs & Hc). exists s.
  unfold run, ensureGeneratedSecret. rewrite (fake_Get_Secret _ _ s) by done. cbn [st_trace st_world app].
  rewrite fillKeys_complete by by rewrite generatedSecretKeys_names. done.
Qed.
End idempotent.

(** *** Rotation *)

Section rotation.
Context {W : Type} `{KubeClient W} `{ORD : MapOrder} {OO : MapOrderLaws ORD} `{HASH : Hasher}.

(** Every restart in [cs] changes the hash of a workload of [i] just read. *)
Definition restarts_justified (i : LangfuseInstance) (cs : list Call) : Prop :=
  ∀ k key v owner e, CPatchTemplateAnnotation k key v owner e ∈ cs →
    key = secretHashAnnotation ∧ owner = fieldOwnerSecrets ∧
    ∃ n d, n ∈ [WebName i; WorkerName i] ∧ CGetDeployment (in_ns i n) (Ok d) ∈ cs ∧
      k = om_key (dep_Meta d) ∧ default "" (dep_TemplateAnnotations d !! secretHashAnnotation) ≠ v.

Definition restarted (cs : list Call) : Prop :=
  ∃ k v, CPatchTemplateAnnotation k secretHashAnnotation v fieldOwnerSecrets None ∈ cs.

(** The calls of rotation detection. *)
Definition rotation_call (c : Call) : Prop :=
  match c with
  | CGetSecret _ _ | CGetDeployment _ _ | CPatchTemplateAnnotation _ _ _ _ _ => True
  | _ => False
  end.

(** What rotation detection may have done when it reports [rotated]. *)
Definition rotation (i : LangfuseInstance) (rotated : bool) (cs : list Call) : Prop :=
  Forall rotation_call cs ∧ restarts_justified i cs ∧ (rotated = true → restarted cs).

Lemma restarted_app a b : restarted a ∨ restarted b → restarted (a ++ b).
Proof. intros [(k & v & Hin)|(k & v & Hin)]; exists k, v; apply elem_of_app; auto. Qed.

Lemma restarts_justified_app i a b :
  restarts_justified i a → restarts_justified i b → restarts_justified i (a ++ b).
Proof.
  intros Ha Hb k key v owner e [Hin|Hin]%elem_of_app.
  - destruct (Ha _ _ _ _ _ Hin) as (?&?&n&d&?&?&?&?). split_and!; [done..|]. exists n, d.
    split_and!; [done|apply elem_of_app; by left|done..].
  - destruct (Hb _ _ _ _ _ Hin) as (?&?&n&d&?&?&?&?). split_and!; [done..|]. exists n, d.
    split_and!; [done|apply elem_of_app; by right|done..].
Qed.

Lemma rotation_app i r1 r2 a b : rotation i r1 a → rotation i r2 b → rotation i (r1 || r2) (a ++ b).
Proof.
  intros (Fa & Ja & Ra) (Fb & Jb & Rb). split_and!; [by apply Forall_app|by apply restarts_justified_app|].
  intros [->| ->]%orb_true_iff; apply restarted_app; auto.
Qed.

Definition no_write (c : Call) : Prop :=
  match c with CGetSecret _ _ | CGetDeployment _ _ => True | _ => False end.

Lemma no_write_rotation i cs : Forall no_write cs → rotation i false cs.
Proof.
  intros Hf. split_and!; [|intros ????? Hin|done].
  - eapply Forall_impl; [exact Hf|]. by intros [].
  - rewrite Forall_forall in Hf. by apply Hf in Hin.
Qed.

Lemma patch_traces i n h :
  n ∈ [WebName i; WorkerName i] →
  traces (λ r cs, rotation i (match r with Ok patched => patched | Err _ => false end) cs) (patchDeploymentSecretHash i n h).
Proof.
  intros Hn. unfold patchDeploymentSecretHash. apply traces_call_bind. intros [d|e].
  2: { destruct (IsNotFound e); apply traces_mret; apply no_write_rotation; by repeat constructor. }
  case_bool_decide as Eh.
  { apply traces_mret, no_write_rotation. by repeat constructor. }
  apply traces_call_bind. intros e. apply traces_mret. split_and!; [by repeat constructor| |].
  - intros k key v owner e' Hin. apply elem_of_cons in Hin as [|Hin%list_elem_of_singleton]; [done|].
    injection Hin as -> -> -> -> _. split_and!; [done..|]. exists n, d. split_and!; [done|by left|done..].
  - destruct e; [done|]. intros _. exists (om_key (dep_Meta d)), h. right. by left.
Qed.

Lemma hashInput_emits i names acc : emits_ret no_write (λ _, True) (hashInput i names acc).
Proof.
  revert acc. induction names as [|name names IH]; intros acc; cbn [hashInput]; [by apply emits_ret_mret|].
  apply emits_ret_bind with (λ _, True); [by apply emits_ret_call|].
  intros [s|e] _; [apply IH|]. destruct (IsNotFound e); [apply IH|by apply emits_ret_mret].
Qed.

Lemma computeSecretHashes_traces i : traces (λ _ cs, rotation i false cs) (computeSecretHashes i).
Proof.
  unfold computeSecretHashes. eapply traces_bind; [apply emits_traces, hashInput_emits|].
  intros r cs [_ Hf]. apply traces_mret. rewrite app_nil_r. by apply no_write_rotation.
Qed.

Lemma detectRotation_traces i : traces (rotation i) (detectRotation i).
Proof.
  unfold detectRotation. eapply traces_bind; [apply computeSecretHashes_traces|].
  intros [[webHash workerHash]|e] cs0 H0; [|apply traces_mret; by rewrite app_nil_r].
  cbv zeta. set (targets := <[_ := _]> (<[_ := _]> ∅)).
  eapply traces_mono; [|intros rotated cs Hr; exact (rotation_app i false rotated _ _ H0 Hr)].
  apply traces_mfold; [by apply no_write_rotation|].
  intros rotated cs n Hn Hr.
  assert (n ∈ [WebName i; WorkerName i]) as Hn'.
  { apply elem_of_range_keys in Hn. unfold targets in Hn. rewrite !lookup_insert_is_Some in Hn.
    rewrite !elem_of_cons. destruct Hn as [->|[_ [->|[_ [? Hn]]]]]; [auto..|done]. }
  eapply traces_bind; [by apply patch_traces|]. intros r cs1 Hr1. apply traces_mret. rewrite app_nil_r.
  pose proof (rotation_app i _ _ _ _ Hr Hr1) as Hr2.
  destruct r as [[]|]; [exact Hr2|exact Hr2|]. by rewrite orb_false_r in Hr2.
Qed.

Definition lastRotation (i : LangfuseInstance) : option Z :=
  Status_Secrets (Instance_Status i) ≫= SecretsStatus_LastRotationCheck.

(** Restarts, then one status write in which the rotation time moves only after
    a restart. *)
Definition hash_calls (i : LangfuseInstance) (cs : list Call) : Prop :=
  restarts_justified i cs ∧
  ∀ i' e, CUpdateStatus i' e ∈ cs → lastRotation i' = lastRotation i ∨ restarted cs.

Lemma hash_calls_write i original r cs ws i' rotated :
  rotation i rotated cs → status_write i' original r ws →
  (rotated = true ∨ lastRotation i' = lastRotation i) → hash_calls i (cs ++ ws).
Proof.
  intros (Hf & Hj & Hr) Hw Hcase. split.
  - apply restarts_justified_app; [done|]. intros ????? Hin.
    by destruct (status_write_elem _ _ _ _ _ Hw Hin).
  - intros i2 e [Hin|Hin]%elem_of_app.
    + rewrite Forall_forall in Hf. by apply Hf in Hin.
    + destruct (status_write_elem _ _ _ _ _ Hw Hin) as [? [= -> _]].
      destruct Hcase as [Hrot|]; [|by left]. right. apply restarted_app. left. auto.
Qed.

Lemma reconcileHashes_traces i original :
  traces (λ _ cs, hash_calls i cs) (reconcileHashes i original).
Proof.
  unfold reconcileHashes. eapply traces_bind; [apply detectRotation_traces|]. intros rotated cs Hr.
  eapply traces_bind with (T1 := λ now cs', cs' = [] ∧ (is_Some now → rotated = true)).
  { destruct rotated.
    - apply traces_silent_bind. intros t. by apply traces_mret.
    - apply traces_mret. split; [done|]. by intros [? ?]. }
  intros now cs' [-> Hnow]. cbn [app]. cbv zeta.
  eapply traces_bind; [apply updateInstanceStatus_traces|]. intros e ws Hw. apply traces_mret.
  rewrite app_nil_r. eapply hash_calls_write; [done|done|]. destruct now; [left; by apply Hnow|by right].
Qed.
End rotation.

Section pass.
Context {W : Type} `{KubeClient W} `{OWN : OwnerAPI} {OL : OwnerLaws OWN} `{ORD : MapOrder} {OO : MapOrderLaws ORD}.
Context `{ENT : Entropy W} `{HASH : Hasher}.

Definition ensure_call (c : Call) : Prop :=
  match c with CGetSecret _ _ | CUpdateSecret _ _ | CCreateSecret _ _ => True | _ => False end.

Lemma ensured_calls i name e cs : ensured i name e cs → Forall ensure_call cs.
Proof.
  intros (r & rest & -> & Hr). constructor; [done|].
  destruct r; destruct Hr as [[-> _]|Hr]; try by constructor.
  - destruct Hr as (s & ue & -> & _). by repeat constructor.
  - destruct Hr as (_ & s & ue & -> & _). by repeat constructor.
Qed.

Lemma ensure_then_hash i cs cs' : Forall ensure_call cs → hash_calls i cs' → hash_calls i (cs ++ cs').
Proof.
  intros Hf [Hj Hu]. rewrite Forall_forall in Hf. split.
  - apply restarts_justified_app; [|done]. intros ????? Hin. by apply Hf in Hin.
  - intros i' e [Hin|Hin]%elem_of_app; [by apply Hf in Hin|].
    destruct (Hu i' e Hin); [by left|right]. apply restarted_app. by right.
Qed.

Lemma no_hash_calls i cs : Forall ensure_call cs → hash_calls i cs.
Proof.
  intros Hf. rewrite <- (app_nil_r cs). apply ensure_then_hash; [done|].
  split; [|set_solver]. intros ????? Hin. set_solver.
Qed.

Lemma hash_calls_keeps i f cs :
  (∀ s, SecretsStatus_LastRotationCheck (f s) = SecretsStatus_LastRotationCheck s) →
  hash_calls (set_secrets_status f i) cs → hash_calls i cs.
Proof.
  intros Hf [Hj Hu]. split; [exact Hj|]. intros i' e Hin. destruct (Hu i' e Hin) as [Hl|]; [left|by right].
  rewrite Hl. unfold lastRotation, set_secrets_status. cbn. rewrite Hf. by destruct (Status_Secrets _).
Qed.

Lemma secret_pass_traces req :
  traces (λ _ cs, ∃ g rest, cs = CGetInstance req g :: rest ∧
            match g with Ok i => hash_calls i rest | Err _ => rest = [] end) (Reconcile req).
Proof.
  unfold Reconcile. apply traces_call_bind. intros [i|e].
  2: { destruct (IsNotFound e); apply traces_mret; by exists (Err e), []. }
  assert (∀ m : M (St W) Outcome, traces (λ _ cs, hash_calls i cs) m →
    traces (λ _ cs, ∃ g rest, CGetInstance req (Ok i) :: cs = CGetInstance req g :: rest ∧
      match g with Ok i => hash_calls i rest | Err _ => rest = [] end) m) as Hlift.
  { intros m Hm. eapply traces_mono; [exact Hm|]. intros ? cs Hc. by exists (Ok i), cs. }
  destruct (om_DeletionTimestamp _); [apply Hlift, traces_mret, no_hash_calls; by constructor|].
  destruct (autoGenerateEnabled i); apply Hlift; [|apply reconcileHashes_traces]. cbv zeta.
  eapply traces_bind; [apply ensureGeneratedSecret_traces|]. intros e cs He%ensured_calls.
  destruct e as [e|]; [apply traces_mret; rewrite app_nil_r; by apply no_hash_calls|].
  eapply traces_mono; [apply reconcileHashes_traces|]. intros out cs' Hh. apply ensure_then_hash; [done|].
  eapply hash_calls_keeps; [|exact Hh]. done.
Qed.

(** C35: workloads restart with cause only.  In any pass, a pod template is
    stamped for the web or the worker Deployment of the instance read, under the
    secret-hash annotation and the controller's own field owner, and only when the
    hash it carries differs from the one stamped; and the recorded rotation time
    moves only in a pass that did restart a workload. *)
Theorem rotation_with_cause req w out w' tr :
  run (Reconcile req) w = (out, w', tr) →
  (∀ k key v owner e, CPatchTemplateAnnotation k key v owner e ∈ tr →
     ∃ i n d, CGetInstance req (Ok i) ∈ tr ∧ n ∈ [WebName i; WorkerName i] ∧
       CGetDeployment (in_ns i n) (Ok d) ∈ tr ∧ k = om_key (dep_Meta d) ∧
       key = secretHashAnnotation ∧ owner = fieldOwnerSecrets ∧
       default "" (dep_TemplateAnnotations d !! secretHashAnnotation) ≠ v) ∧
  (∀ i' e, CUpdateStatus i' e ∈ tr →
     ∃ i, CGetInstance req (Ok i) ∈ tr ∧ (lastRotation i' = lastRotation i ∨ restarted tr)).
Proof.
  intros Hrun. destruct (traces_run _ _ _ _ _ _ (secret_pass_traces req) Hrun) as (g & rest & -> & Hg).
  destruct g as [i|e]; [|subst; split; intros; set_solver]. destruct Hg as [Hj Hu]. split.
  - intros k key v owner e [|Hin]%elem_of_cons; [done|].
    destruct (Hj k key v owner e Hin) as (-> & -> & n & d & Hn & Hd & -> & Hv).
    exists i, n, d. split_and!; try done; [by left|by right].
  - intros i' e [|Hin]%elem_of_cons; [done|]. exists i. split; [by left|].
    destruct (Hu i' e Hin) as [|(k & v & Hr)]; [by left|right]. exists k, v. by right.
Qed.

(** A Secret event wakes exactly the instances of its namespace, among those
    the API server lists, that reference the Secret. *)
Theorem findInstancesForSecret_spec secretKey w keys w' tr :
  run (findInstancesForSecret secretKey) w = (keys, w', tr) →
  ∃ r, tr = [CListInstances (key_Namespace secretKey) r] ∧
    match r with
    | Err _ => keys = []
    | Ok items => ∀ k, k ∈ keys ↔
        ∃ i, i ∈ items ∧ k = om_key (Instance_ObjectMeta i) ∧ key_Name secretKey ∈ referencedNames i
    end.
Proof.
  intros Hrun.
  assert (traces (λ keys cs, ∃ r, cs = [CListInstances (key_Namespace secretKey) r] ∧
    keys = match r with
           | Err _ => []
           | Ok items => omap (λ i, if bool_decide (key_Name secretKey ∈ collectReferencedSecretNames i)
                                    then Some (om_key (Instance_ObjectMeta i)) else None) items
           end) (findInstancesForSecret secretKey)) as Ht.
  { unfold findInstancesForSecret. apply traces_call_bind. intros r. apply traces_mret. by exists r. }
  destruct (traces_run _ _ _ _ _ _ Ht Hrun) as (r & -> & ->). exists r. split; [done|].
  destruct r as [items|]; [|done]. intros k. rewrite list_elem_of_omap.
  assert (∀ i, key_Name secretKey ∈ collectReferencedSecretNames i ↔ key_Name secretKey ∈ referencedNames i) as Hiff.
  { intros i. unfold collectReferencedSecretNames. rewrite elem_of_sort_Strings, elem_of_range_keys.
    unfold seen_names. rewrite foldl_insert_lookup, lookup_empty. split; [intros [?|[??]]; done|auto]. }
  split.
  - intros (i & Hi & Hk). case_bool_decide as Hr; [|done]. injection Hk as <-. exists i. by rewrite <- Hiff.
  - intros (i & Hi & -> & Hr). exists i. split; [done|]. rewrite bool_decide_true; [done|]. by apply Hiff.
Qed.
End pass.

(** *** What the controller does not watch *)

(** The Secrets the environment of a container reads. *)
Definition env_secrets (es : list EnvVar) : list string :=
  omap (λ e, match env_ValueFrom e with
             | Some (SecretKeyRefSource sel) => Some (sks_Name sel)
             | _ => None
             end) es.

Definition ex_unwatched : LangfuseInstance :=
  mkLangfuseInstance (ex_meta "lf")
    (mkLangfuseInstanceSpec (ex_image "3.1") zero_WebSpec zero_WorkerSpec
       (mkAuthSpec None "" None None None None (Some (mkSecretValue (Some (mkSecretKeyRef "admin" "key")))))
       None (Some (mkSecretValue (Some (mkSecretKeyRef "license" "key")))) None
       (Some (mkDatabaseSpec (Some (mkCloudNativePGSpec (mkObjectReference "pg" "") "langfuse")) None None None))
       None None None None None None None None None None None)
    zero_LangfuseInstanceStatus.

(** Three Secrets the workloads read and rotation detection never sees: the
    admin API key, the licence key and the credentials of a CloudNativePG cluster. *)
Lemma secrets_not_watched :
  match BuildConfig ex_unwatched with
  | Ok cfg => Forall (λ name, name ∈ env_secrets (CommonEnv cfg ++ WebEnv cfg ++ WorkerEnv cfg) ∧
                              name ∉ referencedNames ex_unwatched) ["admin"; "license"; "pg-app"]
  | Err _ => False
  end.
Proof. by apply (bool_decide_unpack (Forall _ _)); vm_compute. Qed.

(** ** Witnesses *)

Definition id_hash : Hasher := {| sha256 s := s |}.

Lemma collectReferencedSecretNames_spec_witness :
  "pg" ∈ collectReferencedSecretNames (H := reversed_order) (ex_instance "3.1" "pg" "db").
Proof.
  apply (collectReferencedSecretNames_spec (MO := reversed_order) (MapOrderLaws0 := reversed_order_laws)
    (ex_instance "3.1" "pg" "db")).
  by apply (bool_decide_unpack _); vm_compute.
Defined.

Definition ex_secret (name : string) (data : gmap string string) : Secret := mkSecret (ex_meta name) data.

Definition ex_secrets_cluster : FakeCluster :=
  mkFake {[ ex_key := ex_instance "3.1" "pg" "db" ]}
    {[ mkKey "prod" "lf-web" := mkDeployment (ex_meta "lf-web") (Some 1) ∅ 1 1 ]} ∅
    {[ mkKey "prod" "pg" := ex_secret "pg" {[ "database_url" := "postgres://db" ]} ]} [] None None 7.

Lemma computeSecretHashes_deterministic_witness :
  (run (computeSecretHashes (ORD := list_order) (HASH := id_hash) (ex_instance "3.1" "pg" "db"))
     ex_secrets_cluster).1.1 =
  (run (computeSecretHashes (ORD := reversed_order) (HASH := id_hash) (ex_instance "3.1" "pg" "db"))
     ex_secrets_cluster).1.1.
Proof.
  unfold run.
  rewrite (computeSecretHashes_deterministic (HASH := id_hash) list_order reversed_order
    (MapOrderLaws0 := list_order_laws) (MapOrderLaws1 := reversed_order_laws)).
  reflexivity.
Defined.

Definition ex_ensure (w : FakeCluster) : option GoError * FakeCluster * list Call :=
  run (ensureGeneratedSecret (OWN := list_owner) (ENT := zero_entropy) (ex_instance "3.1" "pg" "db")
         "lf-generated-secrets") w.

Lemma generated_secret_never_overwritten_witness :
  ensured (ex_instance "3.1" "pg" "db") "lf-generated-secrets" None (ex_ensure ex_secrets_cluster).2.
Proof.
  apply (generated_secret_never_overwritten (OL := list_owner_laws) (ENT := zero_entropy)
    (ex_instance "3.1" "pg" "db") "lf-generated-secrets" ex_secrets_cluster None
    (ex_ensure ex_secrets_cluster).1.2 (ex_ensure ex_secrets_cluster).2).
  apply triple_fst. by vm_compute.
Defined.

Lemma generated_secret_idempotent_witness :
  (ex_ensure (ex_ensure ex_secrets_cluster).1.2).1.1 = None.
Proof.
  destruct (generated_secret_idempotent (OWN := list_owner) (OL := list_owner_laws) (ENT := zero_entropy)
    (λ n w, eq_refl) (ex_instance "3.1" "pg" "db") "lf-generated-secrets" ex_secrets_cluster
    (ex_ensure ex_secrets_cluster).1.2 (ex_ensure ex_secrets_cluster).2) as [s Hs].
  - intros k v. cbn. rewrite lookup_singleton_Some. by intros [<- <-].
  - apply triple_fst. by vm_compute.
  - unfold ex_ensure at 1. by rewrite Hs.
Defined.

Definition ex_secret_pass : Outcome * FakeCluster * list Call :=
  run (Reconcile (OWN := list_owner) (ORD := list_order) (ENT := zero_entropy) (HASH := id_hash) ex_key)
    ex_secrets_cluster.

Definition restarts (c : Call) : bool :=
  match c with CPatchTemplateAnnotation _ _ _ _ _ => true | _ => false end.

Lemma rotation_with_cause_witness :
  existsb restarts ex_secret_pass.2 = true ∧
  ∀ k key v owner e, CPatchTemplateAnnotation k key v owner e ∈ ex_secret_pass.2 → key = secretHashAnnotation.
Proof.
  split; [by vm_compute|]. intros k key v owner e Hin.
  destruct (proj1 (rotation_with_cause (OL := list_owner_laws) (OO := list_order_laws) (ENT := zero_entropy)
    (HASH := id_hash) ex_key ex_secrets_cluster _ _ _ (triple_eta ex_secret_pass)) _ _ _ _ _ Hin)
    as (i & n & d & _ & _ & _ & _ & Hk & _).
  exact Hk.
Defined.

Lemma findInstancesForSecret_spec_witness :
  (run (findInstancesForSecret (ORD := list_order) (mkKey "prod" "pg")) ex_secrets_cluster).1.1 = [ex_key] ∧
  (run (findInstancesForSecret (ORD := list_order) (mkKey "prod" "pg")) ex_secrets_cluster).2 ≠ [].
Proof.
  split; [by vm_compute|].
  destruct (findInstancesForSecret_spec (OO := list_order_laws) (mkKey "prod" "pg") ex_secrets_cluster _ _ _
    (triple_eta (run (findInstancesForSecret (ORD := list_order) (mkKey "prod" "pg")) ex_secrets_cluster)))
    as (r & Hr & _).
  by rewrite Hr.
Defined.
