(* ===== verification/ClickHouse.v ===== *)
(** * The ClickHouse client ([internal/controller/clickhouse_client.go])

    Endpoint, credentials and trust of the operator's own ClickHouse connection,
    with the Secret lookups of [health_probes.go] they rest on, and the execution
    of statements over HTTP.  The network is a parameter. *)

From Stdlib Require Import Ascii.
From S2P Require Import Prelude GoStd GoNet KubeTypes ApiTypes Kube PodIssues Identity Config.

Open Scope string_scope.
Open Scope list_scope.
Open Scope Z_scope.

(** ** The connection *)

(** [x509.CertPool.AppendCertsFromPEM]: does the text hold a certificate? *)
Class PEMParser := { AppendCertsFromPEM : string → bool }.

Record clickHouseClient := mkClient {
  ch_endpoint : string;
  ch_user : string;
  ch_password : string;
  ch_database : string;
  ch_trustedCA : option string
}.

Definition maxBodyBytes : nat := Z.to_nat (64 * 1024).

(** The bytes [io.LimitReader] lets through. *)
Definition limit_body (body : string) : string := take_str maxBodyBytes body.

(** The outcome of [exec], from the answer; an error past the limit is not met. *)
Definition exec_result (a : HTTPAnswer) : result string :=
  match a with
  | BadRequest e => Err (wrapError "building request" e)
  | NoResponse e => Err (wrapError "clickhouse request failed" e)
  | Response status body broken =>
      match (if (len body <? 64 * 1024) then broken else None) with
      | Some e => Err (wrapError "reading clickhouse response" e)
      | None =>
          if (status <? 200) || (status >=? 300) then
            Err (newError ("clickhouse returned HTTP " +:+ itoa status +:+ ": " +:+
                           truncate (TrimSpace (limit_body body)) 512))
          else Ok (limit_body body)
      end
  end.

Definition exec_request (q : clickHouseClient) (statement : string) : HTTPRequest :=
  let header name v := if nonempty_str v then [(name, v)] else [] in
  mkRequest "POST" (ch_endpoint q)
    ([("Content-Type", "text/plain")] ++ header "X-ClickHouse-User" (ch_user q) ++
     header "X-ClickHouse-Key" (ch_password q) ++ header "X-ClickHouse-Database" (ch_database q))
    statement (ch_trustedCA q).

(** The non-empty lines of a response. *)
Definition response_rows (body : string) : list string :=
  filter (λ line, nonempty_str line = true) (TrimSpace <$> Split (ascii_of_nat 10) body).

Section client.
Context {W : Type} `{KubeClient W} `{HTTP : HTTPTransport W} `{PEM : PEMParser}.

(** [readSecretValue] of [health_probes.go]. *)
Definition readSecretValue (namespace name key : string) : M (St W) (result string) :=
  r ← Get_Secret (mkKey namespace name);
  mret match r with
       | Err e =>
           if IsNotFound e then Err (newError ("secret " +:+ namespace +:+ "/" +:+ name +:+ " not found"))
           else Err (wrapError ("get secret " +:+ namespace +:+ "/" +:+ name) e)
       | Ok secret =>
           match sec_Data secret !! key with
           | None => Err (newError ("secret " +:+ namespace +:+ "/" +:+ name +:+ " has no key " +:+ quote key))
           | Some v => Ok (TrimSpace v)
           end
       end.

(** [resolveClickHouseURL] of [health_probes.go]. *)
Definition resolveClickHouseURL (i : LangfuseInstance) : M (St W) (result string) :=
  let name := om_Name (Instance_ObjectMeta i) in
  let namespace := om_Namespace (Instance_ObjectMeta i) in
  match Spec_ClickHouse (Instance_Spec i) with
  | None => mret (Err (newError "no clickhouse configured"))
  | Some ch =>
      match ClickHouse_Managed ch, ClickHouse_External ch with
      | Some _, _ => mret (Ok ("http://" +:+ name +:+ "-clickhouse." +:+ namespace +:+ ".svc:8123"))
      | None, Some ext =>
          let key := or_default (key_of (ExternalClickHouse_SecretRef ext) "url") "url" in
          r ← readSecretValue namespace (SecretKeysRef_Name (ExternalClickHouse_SecretRef ext)) key;
          mret (try raw := r in Ok (TrimRight raw "/"))%go
      | None, None => mret (Err (newError "no clickhouse mode set"))
      end
  end.

(** The value of an optional key: a failed lookup reads as empty. *)
Definition optionalSecretValue (namespace : string) (ref : SecretKeysRef) (key : string)
    : M (St W) string :=
  if nonempty_str (key_of ref key) then
    r ← readSecretValue namespace (SecretKeysRef_Name ref) (key_of ref key);
    mret match r with Ok v => v | Err _ => "" end
  else mret "".

(** Secret and keys of a managed server's credentials. *)
Definition managedCredentials (i : LangfuseInstance) (managed : ManagedClickHouseSpec)
    : string * string * string :=
  match ManagedClickHouse_Auth managed ≫= ClickHouseAuth_SecretRef with
  | Some ref => (SecretKeysRef_Name ref,
                 or_default (key_of ref "username") "clickhouse-username",
                 or_default (key_of ref "password") "clickhouse-password")
  | None => (om_Name (Instance_ObjectMeta i) +:+ "-generated-secrets",
             "clickhouse-username", "clickhouse-password")
  end.

Definition resolveClickHouseCredentials (i : LangfuseInstance) : M (St W) (result (string * string)) :=
  let namespace := om_Namespace (Instance_ObjectMeta i) in
  match Spec_ClickHouse (Instance_Spec i) with
  | None => mret (Err (newError "no clickhouse configured"))
  | Some ch =>
      match ClickHouse_Managed ch, ClickHouse_External ch with
      | Some managed, _ =>
          let '(secretName, userKey, passKey) := managedCredentials i managed in
          user ← readSecretValue namespace secretName userKey;
          match user with
          | Err e => mret (Err e)
          | Ok user =>
              password ← readSecretValue namespace secretName passKey;
              mret (try password := password in Ok (user, password))%go
          end
      | None, Some ext =>
          user ← optionalSecretValue namespace (ExternalClickHouse_SecretRef ext) "username";
          password ← optionalSecretValue namespace (ExternalClickHouse_SecretRef ext) "password";
          mret (Ok (user, password))
      | None, None => mret (Err (newError "no clickhouse mode set"))
      end
  end.

(** The trusted CA, when one is configured. *)
Definition instanceTLSConfig (i : LangfuseInstance) : M (St W) (result (option string)) :=
  match Spec_TLS (Instance_Spec i) ≫= TLS_TrustedCASecretRef with
  | None => mret (Ok None)
  | Some ref =>
      let key := or_default (CACertSecretRef_Key ref) "ca.crt" in
      r ← readSecretValue (om_Namespace (Instance_ObjectMeta i)) (CACertSecretRef_Name ref) key;
      mret match r with
           | Err e => Err (wrapError "reading trusted CA" e)
           | Ok pem =>
               if AppendCertsFromPEM pem then Ok (Some pem)
               else Err (newError ("trusted CA secret " +:+ CACertSecretRef_Name ref +:+ " key " +:+
                                   quote key +:+ " contains no valid PEM certificate"))
           end
  end.

Definition newClickHouseClient (i : LangfuseInstance) : M (St W) (result clickHouseClient) :=
  r ← resolveClickHouseURL i;
  match r with
  | Err e => mret (Err (wrapError "resolving ClickHouse URL" e))
  | Ok endpoint =>
      r ← resolveClickHouseCredentials i;
      match r with
      | Err e => mret (Err (wrapError "resolving ClickHouse credentials" e))
      | Ok (user, password) =>
          r ← (if HasPrefix endpoint "https://" then instanceTLSConfig i else mret (Ok None));
          mret match r with
               | Err e => Err (wrapError "building ClickHouse TLS config" e)
               | Ok ca => Ok (mkClient endpoint user password (clickHouseDatabase i) ca)
               end
      end
  end.

Definition exec (q : clickHouseClient) (statement : string) : M (St W) (result string) :=
  a ← call (http_Do (exec_request q statement))
        (λ a, CStatement (ch_endpoint q) (ch_database q) statement (exec_result a));
  mret (exec_result a).

Definition queryRows (q : clickHouseClient) (statement : string) : M (St W) (result (list string)) :=
  r ← exec q statement;
  mret (try body := r in Ok (response_rows body))%go.
End client.

(** ** Properties *)

(** Calls that only read Secrets. *)
Definition secret_read (c : Call) : Prop := match c with CGetSecret _ _ => True | _ => False end.

Section properties.
Context {W : Type} `{KubeClient W} `{HTTP : HTTPTransport W} `{PEM : PEMParser}.

Lemma readSecretValue_emits ns name key :
  emits_ret secret_read (λ _, True) (readSecretValue ns name key).
Proof.
  unfold readSecretValue. apply emits_ret_bind with (λ _, True); [by apply emits_ret_call|].
  intros. by apply emits_ret_mret.
Qed.

Lemma optionalSecretValue_emits ns ref key :
  emits_ret secret_read (λ _, True) (optionalSecretValue ns ref key).
Proof.
  unfold optionalSecretValue. destruct (nonempty_str _); [|by apply emits_ret_mret].
  apply emits_ret_bind with (λ _, True); [apply readSecretValue_emits|]. intros. by apply emits_ret_mret.
Qed.

#[local] Hint Resolve readSecretValue_emits optionalSecretValue_emits : go.

Lemma resolveClickHouseURL_emits i : emits_ret secret_read (λ _, True) (resolveClickHouseURL i).
Proof.
  unfold resolveClickHouseURL. repeat first [emits_step|done].
  apply emits_ret_bind with (λ _, True); [eauto with go|]. intros. by apply emits_ret_mret.
Qed.

Lemma resolveClickHouseCredentials_emits i :
  emits_ret secret_read (λ _, True) (resolveClickHouseCredentials i).
Proof.
  unfold resolveClickHouseCredentials. cbv zeta. repeat first [emits_step|done].
  all: try (destruct (managedCredentials _ _) as [[? ?] ?]).
  all: repeat (apply emits_ret_bind with (λ _, True); [eauto with go|intros ? _]); repeat first [emits_step|done].
  all: apply emits_ret_bind with (λ _, True); [eauto with go|intros ? _]; by apply emits_ret_mret.
Qed.

Lemma instanceTLSConfig_emits i : emits_ret secret_read (λ _, True) (instanceTLSConfig i).
Proof.
  unfold instanceTLSConfig. repeat first [emits_step|done].
  apply emits_ret_bind with (λ _, True); [eauto with go|]. intros. by apply emits_ret_mret.
Qed.

(** Building a client reads Secrets and nothing else. *)
Lemma newClickHouseClient_emits i : emits_ret secret_read (λ _, True) (newClickHouseClient i).
Proof.
  unfold newClickHouseClient. apply emits_ret_bind with (λ _, True); [apply resolveClickHouseURL_emits|].
  intros [endpoint|e] _; [|by apply emits_ret_mret].
  apply emits_ret_bind with (λ _, True); [apply resolveClickHouseCredentials_emits|].
  intros [[user password]|e] _; [|by apply emits_ret_mret].
  apply emits_ret_bind with (λ _, True).
  - destruct (HasPrefix _ _); [apply instanceTLSConfig_emits|by apply emits_ret_mret].
  - intros. by apply emits_ret_mret.
Qed.

Lemma exec_traces q statement :
  traces (λ r cs, cs = [CStatement (ch_endpoint q) (ch_database q) statement r]) (exec q statement).
Proof. unfold exec. apply traces_call_bind. intros a. by apply traces_mret. Qed.

Lemma queryRows_traces q statement :
  traces (λ r cs, ∃ a, cs = [CStatement (ch_endpoint q) (ch_database q) statement a] ∧
                       r = (try body := a in Ok (response_rows body))%go) (queryRows q statement).
Proof.
  unfold queryRows. eapply traces_bind; [apply exec_traces|]. intros r cs ->. apply traces_mret.
  rewrite app_nil_r. by exists r.
Qed.
End properties.

(** A response counts as success on a 2xx status only. *)
Lemma exec_result_ok a :
  is_ok (exec_result a) = true ↔
  ∃ status body broken, a = Response status body broken ∧ 200 ≤ status < 300 ∧
    (broken = None ∨ 64 * 1024 ≤ len body).
Proof.
  destruct a as [e|e|status body broken]; cbn; try (split; [done|by intros (?&?&?&?&?)]).
  destruct (Z.ltb_spec (len body) (64 * 1024)) as [Hl|Hl].
  - destruct broken as [e|]; [split; [done|]; intros (?&?&?&[= <- <- <-]&_&[?|?]); [done|lia]|].
    destruct (Z.ltb_spec status 200), (Z.geb_spec status 300); cbn; split; try done;
      try (intros (?&?&?&[= <- <- <-]&?&_); lia). intros _. exists status, body, None. auto.
  - destruct (Z.ltb_spec status 200), (Z.geb_spec status 300); cbn; split; try done;
      try (intros (?&?&?&[= <- <- <-]&?&_); lia). intros _. exists status, body, broken. auto.
Qed.
