(* ===== verification/Probes.v ===== *)
(** * Dependency probes ([internal/controller/health_probes.go])

    Where each dependency is, from the spec and the Secrets it names, and whether
    it answers there.  The network is a parameter; the four probes are the instance
    of [Interfaces.DependencyProbes] the controllers run with. *)

From Stdlib Require Import Ascii.
From S2P Require Import Prelude GoStd GoNet KubeTypes ApiTypes Kube Examples Interfaces Config ClickHouse.

Open Scope string_scope.
Open Scope list_scope.
Open Scope Z_scope.

(** ** The network *)

(** A connection over which one request is written and one read is made. *)
Inductive Conversation :=
  | DialFailed (e : GoError)
  | WriteFailed (e : GoError)
  | ReadFailed (e : GoError)
  | Replied (bytes : string).

Class Network (W : Type) := {
  net_Dial : string → W → option GoError * W;
  net_Converse : string → string → W → Conversation * W
}.

(** ** Endpoints *)

Definition crlf : string := chr 13 +:+ chr 10.

Definition no_host : result (string * string) := Err (newError "postgres URL has no host").

Definition parsePostgresURL (raw : string) : result (string * string) :=
  let rest := TrimSpace raw in
  let rest := match cut rest "://" with Some (_, after) => after | None => rest end in
  let authority := take_until (in_cutset "/?") rest in
  let authority := match cut_last "@" authority with Some (_, after) => after | None => authority end in
  if negb (nonempty_str authority) then no_host
  else
    let '(host, port) :=
      match SplitHostPort authority with
      | Ok hp => hp
      | Err _ => (Trim authority "[]", "5432")
      end in
    if negb (nonempty_str host) then no_host
    else match Atoi port with
         | Err _ => Err (newError ("invalid port " +:+ quote port +:+ " — percent-encode '/' as %2F and '?' as %3F " +:+
                           "in the credentials; '@' and ':' need no encoding"))
         | Ok _ => Ok (host, port)
         end.

Definition clickHouseOrigin `{URLParser} (raw : string) : result string :=
  match url_Parse raw with
  | Err e => Err (wrapError "parse URL" e)
  | Ok u =>
      if negb (nonempty_str (url_Host u)) then Err (newError "no host")
      else if nonempty_str (Trim (url_Path u) "/") then
        Err (newError ("must not contain a path (got " +:+ quote (url_Path u) +:+ ") — " +:+
                       "select the database with CLICKHOUSE_DB, not a URL path"))
      else if nonempty_str (url_RawQuery u) then
        Err (newError ("must not contain a query string (got " +:+ quote (url_RawQuery u) +:+ ")"))
      else Ok (url_Scheme u +:+ "://" +:+ url_Host u)
  end.

Definition parseHTTPEndpoint `{URLParser} (raw : string) : result (string * string) :=
  match url_Parse raw with
  | Err e => Err (wrapError "parse endpoint URL" e)
  | Ok u =>
      let host := Hostname u in
      if negb (nonempty_str host) then Err (newError "endpoint URL has no host")
      else Ok (host, or_default (Port u) (if bool_decide (url_Scheme u = "https") then "443" else "80"))
  end.

Definition resolveBlobStorageEndpoint `{URLParser} (i : LangfuseInstance) : result (string * string) :=
  match Spec_BlobStorage (Instance_Spec i) with
  | None => Err (newError "no blob storage configured")
  | Some bs =>
      let provider := BlobStorage_Provider bs in
      if bool_decide (provider = "s3") then
        match BlobStorage_S3 bs with
        | None => Err (newError "s3 spec is empty")
        | Some s3 =>
            if nonempty_str (S3_Endpoint s3) then parseHTTPEndpoint (S3_Endpoint s3)
            else Ok ("s3." +:+ or_default (S3_Region s3) "us-east-1" +:+ ".amazonaws.com", "443")
        end
      else if bool_decide (provider = "azure") then
        match BlobStorage_Azure bs with
        | Some azure =>
            if nonempty_str (AzureBlob_StorageAccountName azure)
            then Ok (AzureBlob_StorageAccountName azure +:+ ".blob.core.windows.net", "443")
            else Err (newError "azure spec missing storageAccountName")
        | None => Err (newError "azure spec missing storageAccountName")
        end
      else if bool_decide (provider = "gcs") then Ok ("storage.googleapis.com", "443")
      else Err (newError ("unsupported blob storage provider " +:+ quote provider))
  end.

(** ** Probes *)

Definition unreachable (message : string) : probeResult := mkProbe false "Unreachable" message.
Definition configError (message : string) : probeResult := mkProbe false "ConfigError" message.
Definition connected (message : string) : probeResult := mkProbe true "Connected" message.

Section probes.
Context {W : Type} `{KubeClient W} `{NET : Network W} `{HTTP : HTTPTransport W} `{PEM : PEMParser} `{URLP : URLParser}.

Definition tcpProbe (host port label : string) : M (St W) probeResult :=
  e ← silent (net_Dial (JoinHostPort host port));
  mret match e with
       | Some e => unreachable (label +:+ " dial failed: " +:+ err_msg e)
       | None => connected (label +:+ " is reachable")
       end.

Definition httpProbeTLS (target label : string) (tlsConfig : option string) : M (St W) probeResult :=
  a ← silent (http_Do (mkRequest "GET" target [] "" tlsConfig));
  mret match a with
       | BadRequest e => configError ("Cannot build request: " +:+ err_msg e)
       | NoResponse e => unreachable (label +:+ " request failed: " +:+ err_msg e)
       | Response status _ _ =>
           if (status <? 200) || (status >=? 300) then unreachable (label +:+ " returned HTTP " +:+ itoa status)
           else connected (label +:+ " responded HTTP " +:+ itoa status)
       end.

Definition resolveDatabaseEndpoint (i : LangfuseInstance) : M (St W) (result (string * string)) :=
  let namespace := om_Namespace (Instance_ObjectMeta i) in
  match Spec_Database (Instance_Spec i) with
  | None => mret (Err (newError "no database configured"))
  | Some db =>
      match Database_CloudNativePG db, Database_Managed db, Database_External db with
      | Some cnpg, _, _ =>
          mret (Ok (ObjectReference_Name (CloudNativePG_ClusterRef cnpg) +:+ "-rw." +:+ namespace +:+ ".svc", "5432"))
      | None, Some _, _ =>
          raw ← readSecretValue namespace (om_Name (Instance_ObjectMeta i) +:+ "-generated-secrets") "database-url";
          mret (try raw := raw in parsePostgresURL raw)%go
      | None, None, Some ext =>
          let ref := ExternalDatabase_SecretRef ext in
          raw ← readSecretValue namespace (SecretKeysRef_Name ref) (or_default (key_of ref "url") "database_url");
          mret (try raw := raw in parsePostgresURL raw)%go
      | None, None, None => mret (Err (newError "no database mode set"))
      end
  end.

Definition probe_database (i : LangfuseInstance) : M (St W) probeResult :=
  r ← resolveDatabaseEndpoint i;
  match r with
  | Err e => mret (configError ("Cannot resolve Postgres endpoint: " +:+ err_msg e))
  | Ok (host, port) => tcpProbe host port "PostgreSQL"
  end.

Definition probe_clickhouse (i : LangfuseInstance) : M (St W) probeResult :=
  r ← resolveClickHouseURL i;
  match r with
  | Err e => mret (configError ("Cannot resolve ClickHouse URL: " +:+ err_msg e))
  | Ok endpoint =>
      match clickHouseOrigin endpoint with
      | Err e => mret (configError ("Invalid ClickHouse URL: " +:+ err_msg e))
      | Ok origin =>
          tls ← (if HasPrefix origin "https://" then instanceTLSConfig i else mret (Ok None));
          match tls with
          | Err e => mret (configError ("Cannot build ClickHouse TLS config: " +:+ err_msg e))
          | Ok ca => httpProbeTLS (origin +:+ "/ping") "ClickHouse" ca
          end
      end
  end.

Definition resolveRedisEndpoint (i : LangfuseInstance) : M (St W) (result (string * string)) :=
  let namespace := om_Namespace (Instance_ObjectMeta i) in
  match Spec_Redis (Instance_Spec i) with
  | None => mret (Err (newError "no redis configured"))
  | Some r =>
      match Redis_Managed r, Redis_External r with
      | Some _, _ => mret (Ok (om_Name (Instance_ObjectMeta i) +:+ "-redis." +:+ namespace +:+ ".svc", "6379"))
      | None, Some ext =>
          let ref := ExternalRedis_SecretRef ext in
          host ← readSecretValue namespace (SecretKeysRef_Name ref) (or_default (key_of ref "host") "host");
          match host with
          | Err e => mret (Err e)
          | Ok host =>
              port ← readSecretValue namespace (SecretKeysRef_Name ref) (or_default (key_of ref "port") "port");
              mret (Ok (host, match port with Ok port => port | Err _ => "6379" end))
          end
      | None, None => mret (Err (newError "no redis mode set"))
      end
  end.

(** What a read of sixteen bytes at most says. *)
Definition redisVerdict (c : Conversation) : probeResult :=
  match c with
  | DialFailed e => unreachable ("Redis dial failed: " +:+ err_msg e)
  | WriteFailed e => unreachable ("Redis PING write failed: " +:+ err_msg e)
  | ReadFailed e => unreachable ("Redis PING read failed: " +:+ err_msg e)
  | Replied bytes =>
      let resp := take_str 16 bytes in
      if HasPrefix resp "+PONG" || HasPrefix resp "-NOAUTH" then connected "Redis responded to PING"
      else unreachable ("Redis returned unexpected response: " +:+ quote resp)
  end.

Definition probe_redis (i : LangfuseInstance) : M (St W) probeResult :=
  r ← resolveRedisEndpoint i;
  match r with
  | Err e => mret (configError ("Cannot resolve Redis endpoint: " +:+ err_msg e))
  | Ok (host, port) =>
      c ← silent (net_Converse (JoinHostPort host port)
                    ("*1" +:+ crlf +:+ "$4" +:+ crlf +:+ "PING" +:+ crlf));
      mret (redisVerdict c)
  end.

Definition probe_blob_storage (i : LangfuseInstance) : M (St W) probeResult :=
  match resolveBlobStorageEndpoint i with
  | Err e => mret (configError ("Cannot resolve blob storage endpoint: " +:+ err_msg e))
  | Ok (host, port) => tcpProbe host port "Blob storage"
  end.

#[export] Instance network_probes : DependencyProbes W := {|
  probeClickHouse := probe_clickhouse;
  probeRedis := probe_redis;
  probeDatabase := probe_database;
  probeBlobStorage := probe_blob_storage
|}.
End probes.

(** ** The examples of the operator's tests *)

Example postgres_plain : parsePostgresURL "postgres://u:p@db:5432/x" = Ok ("db", "5432").
Proof. by vm_compute. Qed.
Example postgres_no_port : parsePostgresURL "postgresql://u:p@db.example/x" = Ok ("db.example", "5432").
Proof. by vm_compute. Qed.
Example postgres_bare_at : parsePostgresURL "postgres://u:p@ss@db:6543/x" = Ok ("db", "6543").
Proof. by vm_compute. Qed.
Example postgres_ipv6 : parsePostgresURL "postgres://u:p@[fd00::1]:5432/x" = Ok ("fd00::1", "5432").
Proof. by vm_compute. Qed.
Example postgres_ipv6_no_port : parsePostgresURL "postgres://u:p@[fd00::1]/x" = Ok ("fd00::1", "5432").
Proof. by vm_compute. Qed.
Example postgres_at_in_query : parsePostgresURL "postgres://db/x?opts=a@b" = Ok ("db", "5432").
Proof. by vm_compute. Qed.
Example postgres_slash : is_ok (parsePostgresURL "postgres://u:p/ass@db/x") = false.
Proof. by vm_compute. Qed.

(** A password whose part before the slash is a number is not rejected. *)
Example postgres_slash_misparsed : parsePostgresURL "postgres://u:12/34@db/x" = Ok ("u", "12").
Proof. by vm_compute. Qed.

(** ** Properties *)

(** *** Where a PostgreSQL URL points *)

(** No byte of [s] is in [cs]. *)
Fixpoint avoids (cs s : string) : bool :=
  match s with "" => true | String c s => negb (has_char c cs) && avoids cs s end.

Lemma avoids_app cs a b : avoids cs (a +:+ b) = avoids cs a && avoids cs b.
Proof. induction a as [|c a IH]; cbn; [done|]. by rewrite IH, andb_assoc. Qed.

Lemma avoids_char cs s c : avoids cs s = true → has_char c cs = true → has_char c s = false.
Proof.
  induction s as [|d s IH]; cbn; [done|]. intros [Hd Hs]%andb_prop Hc. destruct (ascii_dec d c) as [->|]; [|auto].
  by rewrite Hc in Hd.
Qed.

Lemma take_until_app cs a b : avoids cs a = true → take_until (in_cutset cs) (a +:+ b) = a +:+ take_until (in_cutset cs) b.
Proof.
  induction a as [|c a IH]; cbn; [done|]. intros [Hc Ha]%andb_prop. unfold in_cutset at 1.
  destruct (has_char c cs); [done|]. by rewrite IH.
Qed.

Lemma avoids_rev cs s : avoids cs (rev_str s) = avoids cs s.
Proof.
  induction s as [|c s IH]; [done|]. rewrite rev_str_cons, avoids_app, IH. cbn.
  by rewrite andb_true_r, andb_comm.
Qed.

Lemma drop_while_avoids cs s : avoids cs s = true → drop_while (in_cutset cs) s = s.
Proof. destruct s as [|c s]; cbn; [done|]. intros [Hc _]%andb_prop. unfold in_cutset. by destruct (has_char c cs). Qed.

Lemma Trim_avoids cs s : avoids cs s = true → Trim s cs = s.
Proof.
  intros Hs. unfold Trim, TrimRight, TrimLeft. rewrite (drop_while_avoids cs s) by done.
  rewrite drop_while_avoids; [apply rev_str_involutive|]. by rewrite avoids_rev.
Qed.

Lemma Trim_around cs l s r :
  has_char l cs = true → has_char r cs = true → avoids cs s = true → s ≠ "" →
  Trim (String l (s +:+ String r "")) cs = s.
Proof.
  intros Hl Hr Hs Hn. unfold Trim, TrimRight, TrimLeft. cbn [drop_while]. unfold in_cutset at 2. rewrite Hl.
  destruct s as [|c s]; [done|]. pose proof Hs as [Hc _]%andb_prop.
  change (String c s +:+ String r "") with (String c (s +:+ String r "")) at 1. cbn [drop_while].
  unfold in_cutset at 2. destruct (has_char c cs) eqn:E; [done|].
  change (String c (s +:+ String r "")) with (String c s +:+ String r "").
  rewrite rev_str_snoc. cbn [drop_while]. unfold in_cutset at 1. rewrite Hr.
  rewrite drop_while_avoids; [apply rev_str_involutive|]. by rewrite avoids_rev.
Qed.

Lemma avoids_weaken cs cs' s :
  avoids cs s = true → (∀ c, has_char c cs' = true → has_char c cs = true) → avoids cs' s = true.
Proof.
  intros Hs Hc. induction s as [|d s IH]; [done|]. cbn in *. apply andb_prop in Hs as [Hd Hs].
  rewrite IH by done. destruct (has_char d cs') eqn:E; [|done]. apply Hc in E. by rewrite E in Hd.
Qed.

(** A set of bytes included in another. *)
Ltac char_subset :=
  let c := fresh in intros c; cbn [has_char];
  repeat (destruct (ascii_dec _ c) as [<-|]; [by vm_compute|]); intros [=].

(** The authority of a host, an IPv6 literal in brackets, and a port. *)
Definition postgres_authority (host : string) (port : option string) : string :=
  match port with
  | Some port => JoinHostPort host port
  | None => if has_char colon host then "[" +:+ host +:+ "]" else host
  end.

Definition postgres_url (scheme : string) (creds : option string) (host : string) (port : option string)
    (tail : string) : string :=
  scheme +:+ "://" +:+ (match creds with Some c => c +:+ "@" | None => "" end) +:+
  postgres_authority host port +:+ tail.

Lemma authority_avoids host port :
  avoids "/?@[]" host = true → avoids "/?@[]:" (default "" port) = true →
  avoids "/?@" (postgres_authority host port) = true.
Proof.
  intros Hh Hp.
  assert (avoids "/?@" host = true) as Hh' by (eapply avoids_weaken; [exact Hh|char_subset]).
  assert (avoids "/?@" (default "" port) = true) as Hp' by (eapply avoids_weaken; [exact Hp|char_subset]).
  unfold postgres_authority, JoinHostPort. destruct port as [port|]; destruct (has_char colon host);
    rewrite ?avoids_app, ?Hh'; cbn in *; by rewrite ?avoids_app, ?Hh', ?Hp'.
Qed.

Lemma has_char_cut_last c s : has_char c s = true → ∃ a b, cut_last c s = Some (a, b).
Proof.
  induction s as [|d s IH]; [done|]. cbn. destruct (cut_last c s) as [[a b]|]; [eauto|].
  destruct (ascii_dec d c); [eauto|]. intros Hs. by destruct (IH Hs) as (? & ? & ?).
Qed.

(** The authority without a port is no host and port pair, and trims to the host. *)
Lemma bare_authority host :
  host ≠ "" → avoids "/?@[]" host = true →
  (∃ e, SplitHostPort (postgres_authority host None) = Err e) ∧ Trim (postgres_authority host None) "[]" = host.
Proof.
  intros Hn Hh. assert (avoids "[]" host = true) as Hb by (eapply avoids_weaken; [exact Hh|char_subset]).
  unfold postgres_authority. destruct (has_char colon host) eqn:E.
  - change ("[" +:+ host +:+ "]") with (String "[" (host +:+ String close_bracket "")).
    split; [|by apply Trim_around]. unfold SplitHostPort.
    destruct (has_char_cut_last colon (String "[" (host +:+ String close_bracket ""))) as (a & b & ->).
    { change (String "[" ?x) with ("[" +:+ x). rewrite !has_char_app, E. done. }
    rewrite cut_char by by eapply avoids_char. rewrite bool_decide_false by done. cbn. eauto.
  - split; [|by apply Trim_avoids]. unfold SplitHostPort. rewrite cut_last_None by done. eauto.
Qed.

(** The probe dials the server the pods connect to.  A PostgreSQL URL made of
    a scheme, credentials, a host (name, IPv4 or IPv6), a port and a path or query
    is read back as that host and port, 5432 when none is given, whatever bytes the
    credentials hold, at signs and colons included, save a slash or question mark. *)
Theorem postgres_url_roundtrip scheme creds host port tail :
  has_char colon scheme = false → avoids "/?" (default "" creds) = true →
  host ≠ "" → avoids "/?@[]" host = true → avoids "/?@[]:" (default "" port) = true →
  is_ok (Atoi (default "5432" port)) = true → take_until (in_cutset "/?") tail = "" →
  let url := postgres_url scheme creds host port tail in
  TrimSpace url = url → parsePostgresURL url = Ok (host, default "5432" port).
Proof.
  intros Hs Hc Hn Hh Hp Ha Ht url Htrim. unfold parsePostgresURL. rewrite Htrim. unfold url, postgres_url.
  change "://" with (String colon "//"). rewrite cut_app_first by done.
  pose proof (authority_avoids host port Hh Hp) as Hav.
  set (prefix := match creds with Some c => c +:+ "@" | None => "" end).
  assert (avoids "/?" (prefix +:+ postgres_authority host port) = true) as Hpre.
  { rewrite avoids_app. apply andb_true_intro. split.
    - unfold prefix. destruct creds as [c|]; [|done]. change (avoids "/?" c = true) in Hc. by rewrite avoids_app, Hc.
    - clear - Hav. induction (postgres_authority host port) as [|d s IH]; [done|]. cbn [avoids has_char] in *.
      repeat (destruct (ascii_dec _ d); [done|]). cbn [negb andb] in *. auto. }
  rewrite <- str_app_assoc, take_until_app, Ht, str_app_nil_r by done.
  assert (match cut_last "@" (prefix +:+ postgres_authority host port) with
          | Some (_, after) => after | None => prefix +:+ postgres_authority host port end =
          postgres_authority host port) as ->.
  { pose proof (avoids_char _ _ "@"%char Hav eq_refl) as Hat. unfold prefix. destruct creds as [c|].
    - rewrite str_app_assoc. change ("@" +:+ ?x) with (String "@" x). by rewrite cut_last_app.
    - change ("" +:+ ?x) with x. by rewrite cut_last_None. }
  assert (match SplitHostPort (postgres_authority host port) with
          | Ok hp => hp | Err _ => (Trim (postgres_authority host port) "[]", "5432") end =
          (host, default "5432" port)) as ->.
  { destruct port as [port|].
    - change (default _ (Some port)) with port in *. cbn [postgres_authority]. rewrite SplitHostPort_Join; [done|by eapply avoids_char..].
    - by destruct (bare_authority host Hn Hh) as [[e ->] ->]. }
  assert (nonempty_str host = true) as Hne by by destruct host.
  assert (nonempty_str (postgres_authority host port) = true) as ->.
  { unfold postgres_authority, JoinHostPort. destruct port; destruct (has_char colon host); destruct host; done. }
  cbn [negb]. rewrite Hne. cbn [negb]. by destruct (Atoi _).
Qed.

(** *** The interface *)

Section laws.
Context {W : Type} `{KubeClient W} `{NET : Network W} `{HTTP : HTTPTransport W} `{PEM : PEMParser} `{URLP : URLParser}.

Abbreviation reads m := (emits_ret reads_secrets (λ _, True) m).

Lemma reads_bind {A B} (m : M (St W) A) (f : A → M (St W) B) : reads m → (∀ a, reads (f a)) → reads (m ≫= f).
Proof. intros Hm Hf. apply emits_ret_bind with (λ _, True); auto. Qed.

Lemma reads_mret {A} (a : A) : reads (mret (M := M (St W)) a).
Proof. by apply emits_ret_mret. Qed.

Lemma reads_silent {X} (op : W → X * W) : reads (silent op).
Proof. apply emits_ret_silent. Qed.

Lemma readSecretValue_reads ns name key : reads (readSecretValue ns name key).
Proof. apply readSecretValue_emits. Qed.

Lemma resolveClickHouseURL_reads i : reads (resolveClickHouseURL i).
Proof. apply resolveClickHouseURL_emits. Qed.

Lemma instanceTLSConfig_reads i : reads (instanceTLSConfig i).
Proof. apply instanceTLSConfig_emits. Qed.

#[local] Hint Resolve reads_bind reads_mret reads_silent readSecretValue_reads resolveClickHouseURL_reads
  instanceTLSConfig_reads : go.

Lemma tcpProbe_reads host port label : reads (tcpProbe host port label).
Proof. unfold tcpProbe. auto with go. Qed.

Lemma httpProbeTLS_reads target label tls : reads (httpProbeTLS target label tls).
Proof. unfold httpProbeTLS. auto with go. Qed.

Lemma resolveDatabaseEndpoint_reads i : reads (resolveDatabaseEndpoint i).
Proof. unfold resolveDatabaseEndpoint. cbv zeta. repeat case_match; auto with go. Qed.

Lemma resolveRedisEndpoint_reads i : reads (resolveRedisEndpoint i).
Proof.
  unfold resolveRedisEndpoint. cbv zeta. repeat case_match; auto with go.
  apply reads_bind; [auto with go|]. intros [|]; auto with go.
Qed.

(** The probes the controllers run with make no call but reads of Secrets. *)
Lemma network_probes_laws : ProbeLaws network_probes.
Proof.
  split; intros i; cbn.
  - unfold probe_clickhouse. apply reads_bind; [auto with go|]. intros [endpoint|e]; [|auto with go].
    destruct (clickHouseOrigin endpoint) as [origin|]; [|auto with go].
    apply reads_bind; [destruct (HasPrefix _ _); auto with go|]. intros [ca|e]; [|auto with go].
    apply httpProbeTLS_reads.
  - unfold probe_redis. apply reads_bind; [apply resolveRedisEndpoint_reads|].
    intros [[host port]|e]; auto with go.
  - unfold probe_database. apply reads_bind; [apply resolveDatabaseEndpoint_reads|].
    intros [[host port]|e]; [apply tcpProbe_reads|auto with go].
  - unfold probe_blob_storage. destruct (resolveBlobStorageEndpoint i) as [[host port]|]; [apply tcpProbe_reads|auto with go].
Qed.
End laws.

(** ** Witnesses *)

Lemma postgres_url_roundtrip_witness :
  parsePostgresURL "postgresql://langfuse:s@cr:t@[fd00::1]:6543/langfuse?a=b@c" = Ok ("fd00::1", "6543").
Proof.
  apply (postgres_url_roundtrip "postgresql" (Some "langfuse:s@cr:t") "fd00::1" (Some "6543") "/langfuse?a=b@c");
    by vm_compute.
Defined.
