(* ===== verification/Retention.v ===== *)
(** * Retention and storage pressure ([internal/controller/retention_controller.go])

    The TTL statements for a retention spec, their application, and the disk
    usage report with its thresholds. *)

From Stdlib Require Import Ascii.
From S2P Require Import Prelude GoStd GoNet KubeTypes ApiTypes Kube Examples Status Config Identity ClickHouse.

Open Scope string_scope.
Open Scope list_scope.
Open Scope Z_scope.

Definition retentionRequeueInterval : Z := 5 * Minute.

Record tableRetentionMapping := mkMapping { Table : string; TimestampColumn : string }.

Definition langfuseClickHouseTables : list tableRetentionMapping :=
  [ mkMapping "traces" "timestamp"; mkMapping "observations" "start_time";
    mkMapping "scores" "timestamp"; mkMapping "events" "timestamp" ].

Definition langfuseClickHouseClusterName : string := "default".

(** [if t != nil && t.TTLDays > 0 { ttls[table] = t.TTLDays }]. *)
Definition add_ttl (table : string) (t : option TableRetentionSpec) (ttls : gmap string Z) : gmap string Z :=
  match t with
  | Some t => if (TableRetention_TTLDays t >? 0) then <[table := TableRetention_TTLDays t]> ttls else ttls
  | None => ttls
  end.

Definition tableTTLs (retention : RetentionSpec) : gmap string Z :=
  add_ttl "scores" (Retention_Scores retention)
    (add_ttl "observations" (Retention_Observations retention)
       (add_ttl "traces" (Retention_Traces retention) ∅)).

Definition ttl_statement (onCluster : string) (table : tableRetentionMapping) (ttlDays : Z) : string :=
  "ALTER TABLE " +:+ Table table +:+ onCluster +:+ " MODIFY TTL " +:+ TimestampColumn table +:+
  " + INTERVAL " +:+ itoa ttlDays +:+ " DAY".

Definition buildRetentionStatementsFor (retention : RetentionSpec) (onCluster : string) : list string :=
  omap (λ table, ttl_statement onCluster table <$> tableTTLs retention !! Table table)
    langfuseClickHouseTables.

Definition buildRetentionStatements (i : LangfuseInstance) (retention : RetentionSpec) : list string :=
  let onCluster := if ClusterEnabled (Spec_ClickHouse (Instance_Spec i))
                   then " ON CLUSTER " +:+ langfuseClickHouseClusterName else "" in
  buildRetentionStatementsFor retention onCluster.

(** ** Disk usage *)

Record nodeDiskUsage := mkNode { node : string; node_used : Z; node_total : Z }.
Definition zero_node : nodeDiskUsage := mkNode "" 0 0.

Record diskUsage := mkUsage {
  usage_nodes : Z;
  usage_used : Z;
  usage_total : Z;
  fullest : nodeDiskUsage;
  fullestPercent : Z
}.

(** [int32(n.used * 100 / n.total)], on [uint64]. *)
Definition node_percent (n : nodeDiskUsage) : Z := int32 (uint64 (node_used n * 100) / node_total n).

Definition add_node (usage : diskUsage) (n : nodeDiskUsage) : diskUsage :=
  let used := uint64 (usage_used usage + node_used n) in
  let total := uint64 (usage_total usage + node_total n) in
  if node_total n =? 0 then mkUsage (usage_nodes usage) used total (fullest usage) (fullestPercent usage)
  else
    let percent := node_percent n in
    if (node_total (fullest usage) =? 0) || (percent >? fullestPercent usage)
    then mkUsage (usage_nodes usage) used total n percent
    else mkUsage (usage_nodes usage) used total (fullest usage) (fullestPercent usage).

Definition summarizeDiskUsage (nodes : list nodeDiskUsage) : diskUsage :=
  foldl add_node (mkUsage (Z.of_nat (length nodes)) 0 0 zero_node 0) nodes.

(** [float64(b)] for a [uint64], and [%.1f] of an exact quotient: both round to
    nearest, ties to even. *)
Definition round_half_even (num den : Z) : Z :=
  let q := num / den in
  let r := num mod den in
  if 2 * r <? den then q
  else if den <? 2 * r then q + 1
  else if Z.even q then q else q + 1.

Definition float64 (b : Z) : Z :=
  let e := Z.max 0 (Z.log2 b - 52) in round_half_even b (2 ^ e) * 2 ^ e.

Definition format_tenths (num den : Z) : string :=
  let tenths := round_half_even (10 * num) den in
  itoa (tenths / 10) +:+ "." +:+ itoa (tenths mod 10).

(** [for n := b / unit; n >= unit && exp < 4; n /= unit]: the divisor and the
    exponent. Four rounds at most, so four units of fuel are enough. *)
Fixpoint humanize_loop (fuel : nat) (n div : Z) (exp : nat) : Z * nat :=
  match fuel with
  | O => (div, exp)
  | S fuel =>
      if (n >=? 1024) && (exp <? 4)%nat then humanize_loop fuel (n / 1024) (uint64 (div * 1024)) (S exp)
      else (div, exp)
  end.

Definition unit_letter (exp : nat) : string :=
  String (default Ascii.zero (String.get exp "KMGTP")) "".

Definition humanizeBytes (b : Z) : string :=
  if b <? 1024 then itoa b +:+ "B"
  else
    let '(div, exp) := humanize_loop 4 (b / 1024) 1024 0 in
    format_tenths (float64 b) div +:+ unit_letter exp +:+ "i".

Definition usage_summary (d : diskUsage) (warn critical : Z) : string :=
  let thresholds := "warn=" +:+ itoa warn +:+ "%, critical=" +:+ itoa critical +:+ "%" in
  if usage_nodes d <? 2 then
    "ClickHouse storage " +:+ itoa (fullestPercent d) +:+ "% used (" +:+ humanizeBytes (usage_used d) +:+
    " of " +:+ humanizeBytes (usage_total d) +:+ "; " +:+ thresholds +:+ ")"
  else
    "ClickHouse storage " +:+ itoa (fullestPercent d) +:+ "% used on " +:+ node (fullest d) +:+
    ", the fullest of " +:+ itoa (usage_nodes d) +:+ " nodes (" +:+
    humanizeBytes (node_used (fullest d)) +:+ " of " +:+ humanizeBytes (node_total (fullest d)) +:+
    "; cluster total " +:+ humanizeBytes (usage_used d) +:+ " of " +:+ humanizeBytes (usage_total d) +:+
    "; " +:+ thresholds +:+ ")".

(** One row of the usage query. *)
Definition parse_node (source row : string) : result nodeDiskUsage :=
  match Split (ascii_of_nat 9) row with
  | [name; used; total] =>
      match ParseUint (TrimSpace used) with
      | Err e => Err (wrapError "parsing used bytes" e)
      | Ok used =>
          match ParseUint (TrimSpace total) with
          | Err e => Err (wrapError "parsing total bytes" e)
          | Ok total => Ok (mkNode (TrimSpace name) used total)
          end
      end
  | _ => Err (newError ("unexpected " +:+ source +:+ " response " +:+ quote row))
  end.

Fixpoint parse_nodes (source : string) (rows : list string) : result (list nodeDiskUsage) :=
  match rows with
  | [] => Ok []
  | row :: rows =>
      (try n := parse_node source row in
       try ns := parse_nodes source rows in Ok (n :: ns))%go
  end.

Definition disk_source (i : LangfuseInstance) : string :=
  if ClusterEnabled (Spec_ClickHouse (Instance_Spec i))
  then "clusterAllReplicas('" +:+ langfuseClickHouseClusterName +:+ "', system.disks)" else "system.disks".

Definition disk_query (source : string) : string :=
  "SELECT hostName(), sum(total_space - free_space), sum(total_space) FROM " +:+ source +:+
  " GROUP BY hostName() ORDER BY hostName()".

(** ** The controller *)

Section controller.
Context {W : Type} `{KubeClient W} `{API : ConditionAPI} `{HTTP : HTTPTransport W} `{PEM : PEMParser}.

Definition set_condition (t : string) (s : ConditionStatus) (reason message : string)
    (i : LangfuseInstance) : LangfuseInstance :=
  set_Instance_Status (set_Status_Conditions
    (SetStatusCondition (Status_Conditions (Instance_Status i))
       (condition t s reason message (om_Generation (Instance_ObjectMeta i)))) (Instance_Status i)) i.

(** The ClickHouse status, created when absent. *)
Definition set_clickhouse_status (f : ClickHouseStatus → ClickHouseStatus) (i : LangfuseInstance)
    : LangfuseInstance :=
  set_Instance_Status (set_Status_ClickHouse
    (Some (f (default zero_ClickHouseStatus (Status_ClickHouse (Instance_Status i)))))
    (Instance_Status i)) i.

(** The loop of [applyRetention]: how many statements were accepted, and the
    error that stopped it. *)
Fixpoint applyStatements (ch : clickHouseClient) (statements : list string) (applied : Z)
    : M (St W) (Z * option GoError) :=
  match statements with
  | [] => mret (applied, None)
  | stmt :: statements =>
      r ← exec ch stmt;
      match r with
      | Err e => mret (applied, Some (wrapError ("executing " +:+ quote stmt) e))
      | Ok _ => applyStatements ch statements (applied + 1)
      end
  end.

Definition applyRetention (i : LangfuseInstance) (statements : list string) : M (St W) (Z * option GoError) :=
  r ← newClickHouseClient i;
  match r with
  | Err e => mret (0, Some e)
  | Ok ch => applyStatements ch statements 0
  end.

Definition queryDiskUsage (i : LangfuseInstance) : M (St W) (result (list nodeDiskUsage)) :=
  r ← newClickHouseClient i;
  match r with
  | Err e => mret (Err e)
  | Ok ch =>
      let source := disk_source i in
      rows ← queryRows ch (disk_query source);
      mret match rows with
           | Err e => Err e
           | Ok [] => Err (newError (source +:+ " returned no rows"))
           | Ok rows => parse_nodes source rows
           end
  end.

(** What the usage that was read makes of the status. *)
Definition applyUsage (usage : diskUsage) (pressure : StoragePressureSpec) (i : LangfuseInstance)
    : LangfuseInstance :=
  let i := set_clickhouse_status (λ s,
    set_ClickHouseStatus_StorageTotal (humanizeBytes (usage_total usage))
      (set_ClickHouseStatus_StorageUsed (humanizeBytes (usage_used usage)) s)) i in
  if usage_total usage =? 0 then
    set_condition "StoragePressure" ConditionUnknown "NoCapacityReported"
      "ClickHouse reported zero total disk capacity" i
  else
    let usedPercent := fullestPercent usage in
    let warn := StoragePressure_WarningThresholdPercent pressure in
    let critical := StoragePressure_CriticalThresholdPercent pressure in
    let summary := usage_summary usage warn critical in
    if (critical >? 0) && (usedPercent >=? critical) then
      set_condition "StoragePressure" ConditionTrue "CriticalThresholdExceeded" summary i
    else if (warn >? 0) && (usedPercent >=? warn) then
      set_condition "StoragePressure" ConditionTrue "WarningThresholdExceeded" summary i
    else set_condition "StoragePressure" ConditionFalse "WithinThresholds" summary i.

Definition evaluateStoragePressure (i : LangfuseInstance) (pressure : StoragePressureSpec)
    : M (St W) LangfuseInstance :=
  r ← queryDiskUsage i;
  mret match r with
       | Err e => set_condition "StoragePressure" ConditionUnknown "QueryFailed"
                    ("Cannot read ClickHouse disk usage: " +:+ err_msg e) i
       | Ok nodes => applyUsage (summarizeDiskUsage nodes) pressure i
       end.

(** The outcome of the statements, on the status. *)
Definition recordRetention (statements : list string) (applied : Z) (err : option GoError)
    (i : LangfuseInstance) : LangfuseInstance :=
  let i := set_clickhouse_status
             (set_ClickHouseStatus_RetentionApplied (Some (match err with None => true | Some _ => false end))) i in
  match err with
  | Some e =>
      set_condition "RetentionConfigured" ConditionFalse "ApplyFailed"
        ("Applied " +:+ itoa applied +:+ "/" +:+ itoa (Z.of_nat (length statements)) +:+
         " retention TTL statements: " +:+ err_msg e) i
  | None =>
      set_condition "RetentionConfigured" ConditionTrue "PoliciesApplied"
        ("Applied " +:+ itoa applied +:+ " retention TTL statements") i
  end.

Definition applyPolicies (i : LangfuseInstance) (retention : RetentionSpec) : M (St W) LangfuseInstance :=
  match buildRetentionStatements i retention with
  | [] => mret (set_condition "RetentionConfigured" ConditionFalse "NoTTLConfigured"
                  "Retention spec present but no table TTLs configured" i)
  | statements =>
      let i := set_clickhouse_status id i in
      '(applied, err) ← applyRetention i statements;
      mret (recordRetention statements applied err i)
  end.

Definition finishRetention (i original : LangfuseInstance) : M (St W) Outcome :=
  e ← updateInstanceStatus i original;
  mret match e with
       | Some e => statusWriteFailed e "updating retention status"
       | None => done_after retentionRequeueInterval
       end.

Definition Reconcile (req : NamespacedName) : M (St W) Outcome :=
  r ← Get_Instance req;
  match r with
  | Err e => if IsNotFound e then mret done_now
             else mret (failed (wrapError "fetching LangfuseInstance" e))
  | Ok instance =>
      match om_DeletionTimestamp (Instance_ObjectMeta instance) with
      | Some _ => mret done_now
      | None =>
          match Spec_ClickHouse (Instance_Spec instance) ≫= ClickHouse_Retention with
          | None =>
              finishRetention (set_condition "RetentionConfigured" ConditionFalse "NotConfigured"
                                 "No ClickHouse retention policy configured" instance) instance
          | Some retention =>
              i ← applyPolicies instance retention;
              i ← match Retention_StoragePressure retention with
                  | Some pressure => if StoragePressure_Enabled pressure
                                     then evaluateStoragePressure i pressure else mret i
                  | None => mret i
                  end;
              finishRetention i instance
          end
      end
  end.
End controller.

(** ** Properties *)

(** *** Statements *)

(** The TTL a spec asks for, by table. *)
Definition wanted_ttl (t : option TableRetentionSpec) : option Z :=
  match t with
  | Some t => if TableRetention_TTLDays t >? 0 then Some (TableRetention_TTLDays t) else None
  | None => None
  end.

Lemma add_ttl_lookup table t ttls k :
  add_ttl table t ttls !! k =
  match wanted_ttl t with
  | Some days => if decide (table = k) then Some days else ttls !! k
  | None => ttls !! k
  end.
Proof.
  unfold add_ttl, wanted_ttl. destruct t as [t|]; [|done]. destruct (_ >? 0); [|done].
  case_decide; subst; [by rewrite lookup_insert_eq|by rewrite lookup_insert_ne].
Qed.

(** Every table with a positive TTL gets its statement, in the order of the
    tables, and no other table gets one. *)
Lemma buildRetentionStatementsFor_eq retention onCluster :
  buildRetentionStatementsFor retention onCluster =
  omap (λ p : tableRetentionMapping * option Z, ttl_statement onCluster p.1 <$> p.2)
    [ (mkMapping "traces" "timestamp", wanted_ttl (Retention_Traces retention));
      (mkMapping "observations" "start_time", wanted_ttl (Retention_Observations retention));
      (mkMapping "scores" "timestamp", wanted_ttl (Retention_Scores retention)) ].
Proof.
  unfold buildRetentionStatementsFor, tableTTLs, langfuseClickHouseTables. cbn [omap list_omap Table].
  rewrite !add_ttl_lookup, !lookup_empty. cbn [decide].
  repeat (rewrite decide_False by done). repeat (rewrite decide_True by done).
  by destruct (wanted_ttl (Retention_Scores retention)), (wanted_ttl (Retention_Observations retention)),
    (wanted_ttl (Retention_Traces retention)).
Qed.

(** *** Applying them *)

Section apply.
Context {W : Type} `{KubeClient W} `{API : ConditionAPI} {LAWS : ConditionLaws API}
  `{HTTP : HTTPTransport W} `{PEM : PEMParser}.

(** A statement, where it went, and whether the server accepted it. *)
Definition statement_of (c : Call) : option (string * string * string * bool) :=
  match c with
  | CStatement endpoint database stmt answer => Some (endpoint, database, stmt, is_ok answer)
  | _ => None
  end.

Definition sent (ch : clickHouseClient) (accepted : bool) (stmt : string) : option (string * string * string * bool) :=
  Some (ch_endpoint ch, ch_database ch, stmt, accepted).

(** [stmts] were executed one by one, [n] were accepted, and the first refusal
    ended it. *)
Definition executed (ch : clickHouseClient) (stmts : list string) (n : nat) (cs : list Call) : Prop :=
  (n ≤ length stmts)%nat ∧
  statement_of <$> cs = (sent ch true <$> take n stmts) ++
       match drop n stmts with [] => [] | stmt :: _ => [sent ch false stmt] end.

Lemma applyStatements_traces ch stmts applied :
  traces (λ r cs, ∃ n, executed ch stmts n cs ∧ r.1 = applied + Z.of_nat n ∧
                       (r.2 = None ↔ n = length stmts)) (applyStatements ch stmts applied).
Proof.
  revert applied. induction stmts as [|stmt stmts IH]; intros applied; cbn [applyStatements].
  { apply traces_mret. exists 0%nat. cbn. split_and!; done || lia. }
  eapply traces_bind; [apply exec_traces|]. intros r cs ->. destruct r as [body|e]; cbn [is_ok].
  - eapply traces_mono; [apply IH|]. cbn beta. intros [a err] cs (n & [Hn Hcs] & Ha & He).
    exists (S n). cbn [fst snd] in Ha, He |- *. split; [split; [cbn; lia|]|].
    { cbn [app fmap list_fmap take drop]. by rewrite Hcs. } split; [lia|]. rewrite He. cbn. lia.
  - apply traces_mret. exists 0%nat. split; [split; [cbn; lia|done]|]. cbn [fst snd length]. split; [lia|]. split; done || lia.
Qed.

Definition retentionApplied (i : LangfuseInstance) : option bool :=
  Status_ClickHouse (Instance_Status i) ≫= ClickHouseStatus_RetentionApplied.

(** [status.clickhouse.retentionApplied] says what ClickHouse accepted.  When
    TTLs are configured, the controller reads Secrets, then sends the statements
    in order and stops at the first refusal; the flag is true exactly when every
    statement was accepted, and the RetentionConfigured condition says the same. *)
Theorem retention_status_honest i retention w i' w' tr :
  run (applyPolicies i retention) w = (i', w', tr) →
  buildRetentionStatements i retention ≠ [] →
  ∃ reads ch n cs, tr = reads ++ cs ∧ Forall secret_read reads ∧
    (executed ch (buildRetentionStatements i retention) n cs ∨ n = 0%nat ∧ cs = []) ∧
    let complete := bool_decide (n = length (buildRetentionStatements i retention)) in
    retentionApplied i' = Some complete ∧
    (cond_Status <$> FindStatusCondition (Status_Conditions (Instance_Status i')) "RetentionConfigured") =
      Some (if complete then ConditionTrue else ConditionFalse).
Proof.
  intros Hrun Hne. set (stmts := buildRetentionStatements i retention) in *.
  assert (traces (λ r cs, ∃ reads ch n cs', cs = reads ++ cs' ∧ Forall secret_read reads ∧
            (executed ch stmts n cs' ∨ n = 0%nat ∧ cs' = []) ∧ (r.2 = None ↔ n = length stmts))
            (applyRetention (set_clickhouse_status id i) stmts)) as Happly.
  { unfold applyRetention. eapply traces_bind; [apply emits_traces, newClickHouseClient_emits|].
    intros r reads [_ Hreads]. destruct r as [ch|e].
    - eapply traces_mono; [apply applyStatements_traces|]. cbn. intros r cs (n & He & _ & Hr).
      exists reads, ch, n, cs. auto.
    - apply traces_mret. exists reads, (mkClient "" "" "" "" None), 0%nat, [].
      do 2 (split; [done|]). split; [by right|]. cbn. split; [done|]. intros E. by apply eq_sym, nil_length_inv in E. }
  assert (traces (λ i' cs, ∃ reads ch n cs', cs = reads ++ cs' ∧ Forall secret_read reads ∧
            (executed ch stmts n cs' ∨ n = 0%nat ∧ cs' = []) ∧
            retentionApplied i' = Some (bool_decide (n = length stmts)) ∧
            (cond_Status <$> FindStatusCondition (Status_Conditions (Instance_Status i')) "RetentionConfigured") =
              Some (if bool_decide (n = length stmts) then ConditionTrue else ConditionFalse))
            (applyPolicies i retention)) as Ht.
  { unfold applyPolicies. fold stmts. destruct stmts as [|s0 ss] eqn:Es; [done|]. rewrite <- Es in *.
    eapply traces_bind; [exact Happly|]. intros [applied err] cs (reads & ch & n & cs' & -> & Hr & Hx & Hn).
    apply traces_mret. rewrite app_nil_r. exists reads, ch, n, cs'. cbn in Hn. do 3 (split; [done|]).
    destruct err as [e|]; unfold recordRetention, retentionApplied, set_condition; cbn.
    - rewrite bool_decide_false by (intros ?%Hn; done). split; [done|].
      by rewrite (find_set_eq _ (condition "RetentionConfigured" _ _ _ _)).
    - rewrite bool_decide_true by by apply Hn. split; [done|].
      by rewrite (find_set_eq _ (condition "RetentionConfigured" _ _ _ _)). }
  destruct (traces_run _ _ _ _ _ _ Ht Hrun) as (reads & ch & n & cs & ? & ? & ? & ? & ?).
  by exists reads, ch, n, cs.
Qed.
End apply.

(** *** Disk usage *)

Lemma uint64_add_l a b : uint64 (uint64 a + b) = uint64 (a + b).
Proof. unfold uint64, wrapU. apply Zplus_mod_idemp_l. Qed.

Definition sum_used (nodes : list nodeDiskUsage) : Z := foldr (λ n s, node_used n + s) 0 nodes.
Definition sum_total (nodes : list nodeDiskUsage) : Z := foldr (λ n s, node_total n + s) 0 nodes.

(** [f] is the first node of [seen] with the highest utilisation, [p]; nodes
    without capacity do not count. *)
Definition is_fullest (seen : list nodeDiskUsage) (f : nodeDiskUsage) (p : Z) : Prop :=
  (node_total f = 0 ∧ p = 0 ∧ ∀ n, n ∈ seen → node_total n = 0) ∨
  (node_total f ≠ 0 ∧ p = node_percent f ∧
   ∃ before after, seen = before ++ f :: after ∧
     (∀ n, n ∈ before → node_total n ≠ 0 → node_percent n < p) ∧
     (∀ n, n ∈ after → node_total n ≠ 0 → node_percent n ≤ p)).

Lemma is_fullest_step seen f p n u :
  is_fullest seen f p → fullest u = f → fullestPercent u = p →
  is_fullest (seen ++ [n]) (fullest (add_node u n)) (fullestPercent (add_node u n)).
Proof.
  intros Hf <- <-. unfold add_node. cbv zeta.
  destruct (Z.eqb_spec (node_total n) 0) as [Hz|Hz]; cbn [fullest fullestPercent].
  - destruct Hf as [(Ht & Hp & Hall)|(Ht & Hp & before & after & -> & Hb & Ha)].
    + left. split_and!; [done..|]. intros m [?|Hm]%elem_of_app; [auto|].
      apply list_elem_of_singleton in Hm as ->. done.
    + right. split_and!; [done..|]. exists before, (after ++ [n]). split_and!; [by rewrite <- app_assoc|done|].
      intros m [?|Hm]%elem_of_app; [auto|]. by apply list_elem_of_singleton in Hm as ->.
  - destruct Hf as [(Ht & Hp & Hall)|(Ht & Hp & before & after & -> & Hb & Ha)].
    + rewrite (proj2 (Z.eqb_eq _ _) Ht). cbn [orb fullest fullestPercent]. right. split_and!; [done..|].
      exists seen, []. split_and!; [done| |set_solver]. intros m Hm Hc. by apply Hall in Hm.
    + rewrite (proj2 (Z.eqb_neq _ _) Ht). cbn [orb].
      destruct (Z.gtb_spec (node_percent n) (fullestPercent u)) as [Hgt|Hle]; cbn [fullest fullestPercent].
      * right. split_and!; [done..|]. exists (before ++ fullest u :: after), [].
        split_and!; [done| |set_solver]. intros m [Hm|[->|Hm]%elem_of_cons]%elem_of_app Hc.
        -- specialize (Hb m Hm Hc). lia.
        -- rewrite <- Hp. lia.
        -- specialize (Ha m Hm Hc). lia.
      * right. split_and!; [done..|]. exists before, (after ++ [n]).
        split_and!; [by rewrite <- app_assoc|done|]. intros m [?|Hm]%elem_of_app Hc; [auto|].
        apply list_elem_of_singleton in Hm as ->. lia.
Qed.

Lemma sum_snoc (g : nodeDiskUsage → Z) seen n :
  foldr (λ n s, g n + s) 0 (seen ++ [n]) = foldr (λ n s, g n + s) 0 seen + g n.
Proof. induction seen; cbn; lia. Qed.

Lemma add_node_sums u n seen :
  usage_used u = uint64 (sum_used seen) → usage_total u = uint64 (sum_total seen) →
  usage_used (add_node u n) = uint64 (sum_used (seen ++ [n])) ∧
  usage_total (add_node u n) = uint64 (sum_total (seen ++ [n])) ∧
  usage_nodes (add_node u n) = usage_nodes u.
Proof.
  intros Hu Ht. unfold sum_used, sum_total in *. rewrite !sum_snoc, <- !(uint64_add_l (foldr _ _ _)), <- Hu, <- Ht.
  unfold add_node. cbv zeta. destruct (_ =? 0); [done|]. by destruct (_ || _).
Qed.

Lemma foldl_add_node seen nodes u :
  is_fullest seen (fullest u) (fullestPercent u) →
  usage_used u = uint64 (sum_used seen) → usage_total u = uint64 (sum_total seen) →
  let u' := foldl add_node u nodes in
  is_fullest (seen ++ nodes) (fullest u') (fullestPercent u') ∧ usage_nodes u' = usage_nodes u ∧
  usage_used u' = uint64 (sum_used (seen ++ nodes)) ∧ usage_total u' = uint64 (sum_total (seen ++ nodes)).
Proof.
  revert seen u. induction nodes as [|n nodes IH]; intros seen u Hf Hu Ht; cbn [foldl].
  { by rewrite app_nil_r. }
  destruct (add_node_sums u n seen Hu Ht) as (Hu' & Ht' & Hn').
  pose proof (is_fullest_step seen _ _ n u Hf eq_refl eq_refl) as Hf'.
  destruct (IH (seen ++ [n]) (add_node u n) Hf' Hu' Ht') as (H1 & H2 & H3 & H4).
  rewrite <- app_assoc in H1, H3, H4. cbn [app] in *. split_and!; [done|congruence|done..].
Qed.

(** The thresholds follow the fullest node: the summary of any list of nodes
    names the first of the nodes with the highest utilisation, nodes without
    capacity aside, and its totals are the sums over all nodes in 64 bits. *)
Theorem summarizeDiskUsage_spec nodes :
  let u := summarizeDiskUsage nodes in
  is_fullest nodes (fullest u) (fullestPercent u) ∧
  usage_nodes u = Z.of_nat (length nodes) ∧
  usage_used u = uint64 (sum_used nodes) ∧ usage_total u = uint64 (sum_total nodes).
Proof.
  unfold summarizeDiskUsage. apply (foldl_add_node [] nodes); [|done..].
  left. split_and!; [done..|]. set_solver.
Qed.

(** A node report the percentage is computed for without wrapping. *)
Definition sane_node (n : nodeDiskUsage) : Prop :=
  0 ≤ node_used n ≤ node_total n ∧ node_total n * 100 < 2 ^ 64.

Lemma node_percent_exact n :
  sane_node n → node_total n ≠ 0 → node_percent n = 100 * node_used n / node_total n ∧ 0 ≤ node_percent n ≤ 100.
Proof.
  intros [Hu Ht] Hz. unfold node_percent. rewrite uint64_id by (unfold in_uint64; lia).
  replace (node_used n * 100) with (100 * node_used n) by lia.
  assert (0 ≤ 100 * node_used n / node_total n ≤ 100) as Hb.
  { split; [apply Z.div_pos; lia|]. apply Z.div_le_upper_bound; lia. }
  rewrite int32_id; [done|]. unfold in_int32. lia.
Qed.

(** Beyond that the product wraps: a full node of 2^58 bytes reports less than
    the critical threshold. *)
Lemma node_percent_wraps : node_percent (mkNode "ch-0" (2 ^ 58) (2 ^ 58)) = 36.
Proof. by vm_compute. Qed.

Lemma percent_reaches n c :
  sane_node n → node_total n ≠ 0 → (c ≤ node_percent n ↔ c * node_total n ≤ 100 * node_used n).
Proof.
  intros Hs Hz. destruct (node_percent_exact n Hs Hz) as [-> _]. destruct Hs as [Hu _]. split; intros Hc.
  - pose proof (Z.mul_div_le (100 * node_used n) (node_total n)). nia.
  - apply Z.div_le_lower_bound; lia.
Qed.

(** Some node with capacity is at or above [c] percent. *)
Definition some_node_at (nodes : list nodeDiskUsage) (c : Z) : Prop :=
  0 < c ∧ ∃ n, n ∈ nodes ∧ node_total n ≠ 0 ∧ c * node_total n ≤ 100 * node_used n.

Lemma threshold_crossed nodes c :
  Forall sane_node nodes →
  (c >? 0) && (fullestPercent (summarizeDiskUsage nodes) >=? c) = true ↔ some_node_at nodes c.
Proof.
  intros Hs. rewrite Forall_forall in Hs.
  destruct (summarizeDiskUsage_spec nodes) as (Hf & _). cbv zeta in Hf.
  set (u := summarizeDiskUsage nodes) in *. rewrite andb_true_iff.
  rewrite Z.gtb_lt, Z.geb_le. unfold some_node_at. split.
  - intros [Hc Hp]. split; [done|].
    destruct Hf as [(_ & Hp0 & _)|(Hz & Hpe & before & after & En & _ & _)]; [lia|].
    assert (fullest u ∈ nodes) as Hin by (rewrite En; set_solver).
    exists (fullest u). split_and!; [done..|]. apply percent_reaches; [auto|done|lia].
  - intros (Hc & n & Hin & Hz & Hn). split; [done|].
    apply percent_reaches in Hn; [|auto|done].
    destruct Hf as [(_ & _ & Hall)|(Hzf & Hpe & before & after & En & Hb & Ha)].
    { by apply Hall in Hin. }
    rewrite En in Hin. apply elem_of_app in Hin as [Hin|[->|Hin]%elem_of_cons].
    + specialize (Hb n Hin Hz). lia.
    + lia.
    + specialize (Ha n Hin Hz). lia.
Qed.

Section alert.
Context `{API : ConditionAPI} {LAWS : ConditionLaws API}.

Lemma find_set_condition t s reason message i :
  FindStatusCondition (Status_Conditions (Instance_Status (set_condition t s reason message i))) t =
  Some (condition t s reason message (om_Generation (Instance_ObjectMeta i))).
Proof. apply (find_set_eq _ (condition t _ _ _ _)). Qed.

(** The storage alarm goes off exactly when a node is short of space.  For
    any report whose byte counts do not wrap, and any thresholds, the StoragePressure
    condition is critical when some node with capacity has reached the critical
    threshold, a warning when none has but one has reached the warning threshold,
    and clear otherwise: an emptier peer never hides a full node.  A threshold of
    zero is off. *)
Theorem storage_pressure_exact nodes pressure i :
  Forall sane_node nodes → sum_total nodes < 2 ^ 64 → Exists (λ n, node_total n ≠ 0) nodes →
  let critical := some_node_at nodes (StoragePressure_CriticalThresholdPercent pressure) in
  let warning := some_node_at nodes (StoragePressure_WarningThresholdPercent pressure) in
  ∃ c, FindStatusCondition
         (Status_Conditions (Instance_Status (applyUsage (summarizeDiskUsage nodes) pressure i)))
         "StoragePressure" = Some c ∧
    ((critical ∧ cond_Status c = ConditionTrue ∧ cond_Reason c = "CriticalThresholdExceeded") ∨
     (¬ critical ∧ warning ∧ cond_Status c = ConditionTrue ∧ cond_Reason c = "WarningThresholdExceeded") ∨
     (¬ critical ∧ ¬ warning ∧ cond_Status c = ConditionFalse ∧ cond_Reason c = "WithinThresholds")).
Proof.
  intros Hs Hsum Hex critical warning.
  assert (0 < sum_total nodes) as Hpos.
  { clear Hsum. induction Hs as [|n nodes [? ?] Hs IH]; [by apply Exists_nil in Hex|].
    unfold sum_total in *. cbn. assert (0 ≤ foldr (λ n s, node_total n + s) 0 nodes).
    { clear - Hs. induction Hs as [|m l [? ?] _ IH]; cbn; [done|lia]. }
    apply Exists_cons in Hex as [?|Hex]; [lia|]. specialize (IH Hex). lia. }
  assert (usage_total (summarizeDiskUsage nodes) ≠ 0) as Ht.
  { destruct (summarizeDiskUsage_spec nodes) as (_ & _ & _ & ->). rewrite uint64_id; [lia|].
    unfold in_uint64. lia. }
  unfold applyUsage. cbv zeta. rewrite (proj2 (Z.eqb_neq _ _) Ht).
  pose proof (threshold_crossed nodes (StoragePressure_CriticalThresholdPercent pressure) Hs) as Hc.
  pose proof (threshold_crossed nodes (StoragePressure_WarningThresholdPercent pressure) Hs) as Hw.
  fold critical in Hc. fold warning in Hw.
  destruct (_ && (_ >=? StoragePressure_CriticalThresholdPercent pressure)).
  { eexists. split; [apply find_set_condition|]. left. split; [by apply Hc|done]. }
  assert (¬ critical) by (intros ?%Hc; done).
  destruct (_ && (_ >=? StoragePressure_WarningThresholdPercent pressure)).
  { eexists. split; [apply find_set_condition|]. right; left. split_and!; [done|by apply Hw|done..]. }
  assert (¬ warning) by (intros ?%Hw; done).
  eexists. split; [apply find_set_condition|]. by right; right.
Qed.
End alert.

(** *** Units *)

Lemma humanize_loop_spec fuel exp n b :
  (exp + fuel = 4)%nat → n = b / 1024 ^ (Z.of_nat exp + 1) → 1024 ^ (Z.of_nat exp + 1) ≤ b → b < 2 ^ 64 →
  let '(div, exp') := humanize_loop fuel n (1024 ^ (Z.of_nat exp + 1)) exp in
  (exp ≤ exp' ≤ 4)%nat ∧ div = 1024 ^ (Z.of_nat exp' + 1) ∧ div ≤ b ∧ ((exp' < 4)%nat → b < 1024 * div).
Proof.
  revert exp n. induction fuel as [|fuel IH]; intros exp n He Hn Hb Hub; cbn [humanize_loop].
  { split_and!; [lia|lia|done|done|]. intros. lia. }
  assert (0 < 1024 ^ (Z.of_nat exp + 1)) as Hp by (apply Z.pow_pos_nonneg; lia).
  destruct (Z.geb_spec n 1024) as [Hge|Hlt]; cbn [andb].
  2: { split_and!; [lia|lia|done|done|]. intros _. subst n.
       pose proof (Z.mul_succ_div_gt b (1024 ^ (Z.of_nat exp + 1)) Hp). nia. }
  rewrite (proj2 (Nat.ltb_lt _ _)) by lia.
  assert (1024 ^ (Z.of_nat (S exp) + 1) = 1024 ^ (Z.of_nat exp + 1) * 1024) as Hpow.
  { replace (Z.of_nat (S exp) + 1) with (Z.of_nat exp + 1 + 1) by lia. rewrite Z.pow_add_r; lia. }
  assert (1024 ^ (Z.of_nat (S exp) + 1) ≤ b) as Hb'.
  { rewrite Hpow. subst n. pose proof (Z.mul_div_le b (1024 ^ (Z.of_nat exp + 1)) Hp). nia. }
  rewrite uint64_id by (unfold in_uint64; lia). rewrite <- Hpow.
  specialize (IH (S exp) (n / 1024)). destruct (humanize_loop _ _ _ _) as [div exp'].
  destruct IH as (? & ? & ? & ?); [lia| |done|done|].
  { rewrite Hn, Hpow, Z.div_div by lia. done. }
  split_and!; [lia|lia|done|done|done].
Qed.

(** A byte count is rendered in the right unit, for every [uint64]: the
    divisor is the power of 1024 of the letter chosen (Ki to Pi), at most the count,
    and the count is less than 1024 of them unless the letter is already the last;
    the loop ends within its four rounds and the divisor never wraps. *)
Theorem humanizeBytes_unit b :
  1024 ≤ b < 2 ^ 64 →
  ∃ exp, (exp ≤ 4)%nat ∧
    humanizeBytes b = format_tenths (float64 b) (1024 ^ (Z.of_nat exp + 1)) +:+ unit_letter exp +:+ "i" ∧
    1024 ^ (Z.of_nat exp + 1) ≤ b ∧ ((exp < 4)%nat → b < 1024 * 1024 ^ (Z.of_nat exp + 1)).
Proof.
  intros [Hlb Hub]. unfold humanizeBytes. rewrite (proj2 (Z.ltb_ge _ _)) by lia.
  pose proof (humanize_loop_spec 4 0 (b / 1024) b) as Hl.
  change (1024 ^ (Z.of_nat 0 + 1)) with 1024 in Hl.
  destruct (humanize_loop 4 (b / 1024) 1024 0) as [div exp].
  destruct (Hl eq_refl eq_refl Hlb Hub) as (He & -> & Hle & Hlt). exists exp. split_and!; [lia|done|done|].
  intros. apply Hlt. lia.
Qed.

(** ** Witnesses *)

Definition accepting : HTTPTransport FakeCluster := {| http_Do _ w := (Response 200 "" None, w) |}.
Definition any_pem : PEMParser := {| AppendCertsFromPEM _ := true |}.

Definition ex_retention : RetentionSpec :=
  mkRetentionSpec (Some (mkTableRetentionSpec 30)) None (Some (mkTableRetentionSpec 90)) None.

Definition ex_ch_cluster : FakeCluster :=
  mkFake ∅ ∅ ∅ {[ mkKey "prod" "ch" := mkSecret (ex_meta "ch")
    (ex_keys [("url", "http://ch:8123/"); ("user", "default"); ("pass", "secret")]) ]} [] None None 0.

Definition ex_policies : LangfuseInstance * FakeCluster * list Call :=
  run (applyPolicies (API := list_conditions) (HTTP := accepting) (PEM := any_pem)
         (ex_instance "3.1" "pg" "db") ex_retention) ex_ch_cluster.

Lemma retention_status_honest_witness :
  retentionApplied ex_policies.1.1 = Some true ∧
  ∃ reads cs, ex_policies.2 = reads ++ cs ∧ Forall secret_read reads.
Proof.
  split; [by vm_compute|].
  destruct (retention_status_honest (LAWS := list_conditions_laws) (HTTP := accepting) (PEM := any_pem)
    (ex_instance "3.1" "pg" "db") ex_retention ex_ch_cluster _ _ _ (triple_eta ex_policies))
    as (reads & _ & _ & cs & Htr & Hr & _); [by vm_compute|].
  by exists reads, cs.
Defined.

Definition ex_nodes : list nodeDiskUsage := [mkNode "ch-0" 10 100; mkNode "ch-1" 95 100; mkNode "ch-2" 0 0].

Lemma storage_pressure_exact_witness :
  some_node_at ex_nodes 90 ∧
  ∃ c, FindStatusCondition (ConditionAPI := list_conditions) (Status_Conditions (Instance_Status
         (applyUsage (API := list_conditions) (summarizeDiskUsage ex_nodes)
            (mkStoragePressureSpec true 80 90 false 0) (ex_instance "3.1" "pg" "db")))) "StoragePressure" = Some c ∧
       cond_Reason c = "CriticalThresholdExceeded".
Proof.
  assert (some_node_at ex_nodes 90) as Hat.
  { split; [done|]. exists (mkNode "ch-1" 95 100). split_and!; [set_solver|done|done]. }
  split; [done|].
  destruct (storage_pressure_exact (LAWS := list_conditions_laws) ex_nodes
    (mkStoragePressureSpec true 80 90 false 0) (ex_instance "3.1" "pg" "db")) as (c & Hc & Hcase).
  - by repeat constructor.
  - by vm_compute.
  - by apply Exists_cons_hd.
  - exists c. split; [exact Hc|]. destruct Hcase as [(_ & _ & Hr)|[(Hn & _)|(Hn & _)]]; [exact Hr|done|done].
Defined.

Lemma humanizeBytes_unit_witness : ∃ exp, (exp ≤ 4)%nat ∧ 1024 ^ (Z.of_nat exp + 1) ≤ 13207024435.
Proof.
  destruct (humanizeBytes_unit 13207024435) as (exp & He & _ & Hd & _); [by vm_compute|].
  by exists exp.
Defined.
