(* ===== verification/SchemaDrift.v ===== *)
(** * Schema drift ([internal/controller/schema_drift_controller.go])

    The check that ClickHouse holds the tables Langfuse's migrations create, and
    what it makes of the status. *)

From S2P Require Import Prelude GoStd GoNet KubeTypes ApiTypes Kube Examples Status Config Identity ClickHouse.
From S2P Require Import Retention.

Open Scope string_scope.
Open Scope list_scope.
Open Scope Z_scope.

Definition defaultSchemaDriftCheckIntervalMinutes : Z := 60.

Definition expectedClickHouseTables : list string :=
  [ "traces"; "observations"; "scores"; "schema_migrations" ].

(** The [present] map of [findMissingTables]. *)
Definition present_tables (rows : list string) : gmap string bool :=
  foldl (λ present row, <[TrimSpace row := true]> present) ∅ rows.

Definition missing_tables (rows : list string) : list string :=
  filter (λ table, default false (present_tables rows !! table) = false) expectedClickHouseTables.

(** The interval of the spec, in minutes. *)
Definition check_interval (i : LangfuseInstance) : Z :=
  match Spec_ClickHouse (Instance_Spec i) ≫= ClickHouse_SchemaDrift with
  | Some d => if SchemaDrift_CheckIntervalMinutes d >? 0 then SchemaDrift_CheckIntervalMinutes d
              else defaultSchemaDriftCheckIntervalMinutes
  | None => defaultSchemaDriftCheckIntervalMinutes
  end.

(** [time.Duration(checkInterval) * time.Minute], in 64 bits. *)
Definition requeue_after (i : LangfuseInstance) : Z := int64 (check_interval i * Minute).

Definition tables_query (i : LangfuseInstance) : string :=
  "SELECT name FROM system.tables WHERE database = '" +:+ clickHouseDatabase i +:+ "'".

Section controller.
Context {W : Type} `{KubeClient W} `{API : ConditionAPI} `{HTTP : HTTPTransport W} `{PEM : PEMParser}.

Definition findMissingTables (i : LangfuseInstance) : M (St W) (result (list string)) :=
  r ← newClickHouseClient i;
  match r with
  | Err e => mret (Err e)
  | Ok ch =>
      rows ← queryRows ch (tables_query i);
      mret (try rows := rows in Ok (missing_tables rows))%go
  end.

(** What the outcome of the check makes of the status. *)
Definition recordDrift (drift : SchemaDriftSpec) (found : result (list string)) (i : LangfuseInstance)
    : LangfuseInstance :=
  match found with
  | Err e =>
      set_condition "SchemaDriftChecked" ConditionUnknown "CheckFailed"
        ("Cannot inspect ClickHouse schema: " +:+ err_msg e) i
  | Ok ((_ :: _) as missing) =>
      let repairNote :=
        if SchemaDrift_AutoRepair drift
        then " autoRepair cannot fix this — Langfuse owns its schema; check that migrations completed."
        else "" in
      set_condition "SchemaDriftChecked" ConditionFalse "TablesMissing"
        ("Expected Langfuse tables missing from ClickHouse database " +:+ quote (clickHouseDatabase i) +:+
         ": " +:+ Join missing ", " +:+ "." +:+ repairNote)
        (set_clickhouse_status (set_ClickHouseStatus_SchemaDrift (Some true)) i)
  | Ok [] =>
      set_condition "SchemaDriftChecked" ConditionTrue "NoDriftDetected"
        ("All " +:+ itoa (Z.of_nat (length expectedClickHouseTables)) +:+
         " expected Langfuse tables present in database " +:+ quote (clickHouseDatabase i) +:+
         " (next check in " +:+ itoa (check_interval i) +:+ "m)")
        (set_clickhouse_status (set_ClickHouseStatus_SchemaDrift (Some false)) i)
  end.

Definition checkDrift (drift : SchemaDriftSpec) (i : LangfuseInstance) : M (St W) LangfuseInstance :=
  let i := set_clickhouse_status id i in
  missing ← findMissingTables i;
  mret (recordDrift drift missing i).

Definition finishDrift (i original : LangfuseInstance) : M (St W) Outcome :=
  e ← updateInstanceStatus i original;
  mret match e with
       | Some e => statusWriteFailed e "updating schema drift status"
       | None => done_after (requeue_after original)
       end.

Definition Reconcile (req : NamespacedName) : M (St W) Outcome :=
  r ← Get_Instance req;
  match r with
  | Err e => if IsNotFound e then mret done_now
             else mret (failed (wrapError "fetching LangfuseInstance" e))
  | Ok instance =>
      match om_DeletionTimestamp (Instance_ObjectMeta instance) with
      | Some _ => mret done_now
      | None =>
          let disabled :=
            finishDrift (set_condition "SchemaDriftChecked" ConditionFalse "Disabled"
                           "Schema drift detection is disabled" instance) instance in
          match Spec_ClickHouse (Instance_Spec instance) ≫= ClickHouse_SchemaDrift with
          | None => disabled
          | Some drift =>
              if SchemaDrift_Enabled drift then
                i ← checkDrift drift instance;
                finishDrift i instance
              else disabled
          end
      end
  end.
End controller.

(** ** Properties *)

Lemma present_tables_lookup rows t :
  default false (present_tables rows !! t) = true ↔ ∃ row, row ∈ rows ∧ TrimSpace row = t.
Proof.
  unfold present_tables.
  assert (∀ (m : gmap string bool), default false (foldl (λ present row, <[TrimSpace row := true]> present) m rows !! t) = true ↔
            default false (m !! t) = true ∨ ∃ row, row ∈ rows ∧ TrimSpace row = t) as Hm.
  { induction rows as [|row rows IH]; intros m; cbn [foldl].
    - split; [by left|]. intros [?|(row & Hr & _)]; [done|]. by apply elem_of_nil in Hr.
    - rewrite IH. destruct (decide (TrimSpace row = t)) as [<-|Hne].
      + rewrite lookup_insert_eq. split; [|by left]. intros _. right. exists row. by split; [left|].
      + rewrite lookup_insert_ne by done. split.
        * intros [?|(r & ? & ?)]; [by left|right; exists r; by split; [right|]].
        * intros [?|(r & [->|?]%elem_of_cons & ?)]; [by left|done|right; by exists r]. }
  rewrite Hm, lookup_empty. split; [intros [?|?]; done|by right].
Qed.

(** The missing tables are the expected ones no row names, in their order. *)
Lemma missing_tables_elem rows t :
  t ∈ missing_tables rows ↔ t ∈ expectedClickHouseTables ∧ ¬ ∃ row, row ∈ rows ∧ TrimSpace row = t.
Proof.
  unfold missing_tables. rewrite list_elem_of_filter, <- present_tables_lookup.
  rewrite not_true_iff_false. tauto.
Qed.

Lemma missing_tables_nil rows :
  missing_tables rows = [] ↔ ∀ t, t ∈ expectedClickHouseTables → ∃ row, row ∈ rows ∧ TrimSpace row = t.
Proof.
  split.
  - intros Hn t Ht. destruct (default false (present_tables rows !! t)) eqn:E; [by apply present_tables_lookup|].
    assert (t ∈ missing_tables rows) as Hin by (unfold missing_tables; by apply list_elem_of_filter).
    rewrite Hn in Hin. by apply elem_of_nil in Hin.
  - intros Hall. destruct (missing_tables rows) as [|t l] eqn:E; [done|].
    assert (t ∈ missing_tables rows) as Hin by (rewrite E; left).
    apply missing_tables_elem in Hin as [Ht Hno]. exfalso. by apply Hno, Hall.
Qed.

Section drift.
Context {W : Type} `{KubeClient W} `{API : ConditionAPI} {LAWS : ConditionLaws API}
  `{HTTP : HTTPTransport W} `{PEM : PEMParser}.

Definition schemaDrift (i : LangfuseInstance) : option bool :=
  Status_ClickHouse (Instance_Status i) ≫= ClickHouseStatus_SchemaDrift.

Definition driftStatus (i : LangfuseInstance) : option ConditionStatus :=
  cond_Status <$> FindStatusCondition (Status_Conditions (Instance_Status i)) "SchemaDriftChecked".

Lemma recordDrift_condition drift found i :
  driftStatus (recordDrift drift found i) =
  Some match found with Err _ => ConditionUnknown | Ok [] => ConditionTrue | Ok (_ :: _) => ConditionFalse end.
Proof. unfold driftStatus. destruct found as [[|t l]|e]; cbn [recordDrift]; by rewrite find_set_condition. Qed.

(** Every expected table is named by some row. *)
Definition schema_complete (rows : list string) : Prop :=
  Forall (λ t, Exists (λ row, TrimSpace row = t) rows) expectedClickHouseTables.

#[global] Instance schema_complete_dec rows : Decision (schema_complete rows).
Proof. unfold schema_complete. apply _. Defined.

Lemma missing_tables_complete rows : missing_tables rows = [] ↔ schema_complete rows.
Proof.
  rewrite missing_tables_nil. unfold schema_complete. rewrite Forall_forall.
  split; intros Hall t Ht; specialize (Hall t Ht); by apply Exists_exists.
Qed.

Lemma findMissingTables_traces i :
  traces (λ r cs, ∃ reads cs', cs = reads ++ cs' ∧ Forall secret_read reads ∧
            ((∃ e, r = Err e) ∧ cs' = [] ∨
             ∃ ch a, cs' = [CStatement (ch_endpoint ch) (ch_database ch) (tables_query i) a] ∧
                     r = (try body := a in Ok (missing_tables (response_rows body)))%go)) (findMissingTables i).
Proof.
  unfold findMissingTables. eapply traces_bind; [apply emits_traces, newClickHouseClient_emits|].
  intros r reads [_ Hreads]. destruct r as [ch|e].
  - eapply traces_bind; [apply queryRows_traces|]. intros rows cs (a & -> & ->). apply traces_mret.
    exists reads, [CStatement (ch_endpoint ch) (ch_database ch) (tables_query i) a].
    do 2 (split; [done|]). right. exists ch, a. split; [done|]. by destruct a.
  - apply traces_mret. exists reads, []. eauto 6.
Qed.

(** The drift flag is what ClickHouse answered.  A check reads Secrets and
    sends at most one statement, the table query of the instance's database.
    When the statement is answered, the flag is false and the SchemaDriftChecked
    condition true exactly when every expected table is among the rows; when it
    is not, the condition is Unknown and the flag of the last good check is
    kept: a failed check is never reported as no drift. *)
Theorem schema_drift_honest drift i w i' w' tr :
  run (checkDrift drift i) w = (i', w', tr) →
  ∃ reads cs, tr = reads ++ cs ∧ Forall secret_read reads ∧
    ((∃ ch body, cs = [CStatement (ch_endpoint ch) (ch_database ch) (tables_query i) (Ok body)] ∧
        let complete := bool_decide (schema_complete (response_rows body)) in
        schemaDrift i' = Some (negb complete) ∧
        driftStatus i' = Some (if complete then ConditionTrue else ConditionFalse)) ∨
     ((cs = [] ∨ ∃ ch e, cs = [CStatement (ch_endpoint ch) (ch_database ch) (tables_query i) (Err e)]) ∧
        schemaDrift i' = schemaDrift i ∧ driftStatus i' = Some ConditionUnknown)).
Proof.
  intros Hrun. unfold checkDrift in Hrun. set (i0 := set_clickhouse_status id i) in *.
  assert (schemaDrift i0 = schemaDrift i) as Hi0.
  { unfold i0, schemaDrift. cbn. by destruct (Status_ClickHouse (Instance_Status i)). }
  eapply traces_run in Hrun; [|apply traces_fmap, findMissingTables_traces].
  destruct Hrun as (r & -> & reads & cs & -> & Hr & Hcase). exists reads, cs. do 2 (split; [done|]).
  rewrite recordDrift_condition.
  destruct Hcase as [[[e ->] ->]|(ch & [body|e] & -> & ->)].
  - right. by split_and!; [left| |].
  - left. exists ch, body. split; [done|]. cbn [result_bind].
    destruct (decide (schema_complete (response_rows body))) as [Hc|Hc].
    + rewrite bool_decide_true by done. apply missing_tables_complete in Hc. by rewrite Hc.
    + rewrite bool_decide_false by done. destruct (missing_tables _) eqn:E; [|done].
      by apply missing_tables_complete in E.
  - right. split_and!; [right; by exists ch, e|done|done].
Qed.
End drift.

(** ** Witnesses *)

(** A server that answers every statement with the given body. *)
Definition answering (body : string) : HTTPTransport FakeCluster :=
  {| http_Do _ w := (Response 200 body None, w) |}.

Definition newline : string := String (Ascii.ascii_of_nat 10) "".

Definition ex_drift : LangfuseInstance * FakeCluster * list Call :=
  run (checkDrift (API := list_conditions) (HTTP := answering ("traces" +:+ newline +:+ "observations"))
         (PEM := any_pem) (mkSchemaDriftSpec true 0 false) (ex_instance "3.1" "pg" "db")) ex_ch_cluster.

Lemma schema_drift_honest_witness :
  schemaDrift ex_drift.1.1 = Some true ∧ ∃ reads cs, ex_drift.2 = reads ++ cs ∧ Forall secret_read reads.
Proof.
  split; [by vm_compute|].
  destruct (schema_drift_honest (LAWS := list_conditions_laws) (PEM := any_pem)
    (HTTP := answering ("traces" +:+ newline +:+ "observations"))
    (mkSchemaDriftSpec true 0 false) (ex_instance "3.1" "pg" "db") ex_ch_cluster _ _ _ (triple_eta ex_drift))
    as (reads & cs & Htr & Hr & _).
  by exists reads, cs.
Defined.
