(* ===== verification/Wiring.v ===== *)
(** * Credentials across components

    What the pods are told to read ([internal/langfuse/config.go]), what the
    secret controller generates and watches, what the operator's own ClickHouse
    client reads, and what the managed ClickHouse server is started with: the
    four must agree on Secrets and keys. *)

From S2P Require Import Prelude GoStd GoNet KubeTypes ApiTypes Kube Examples Config Resources Stores ClickHouse.
From S2P Require Import Secrets.

Open Scope string_scope.
Open Scope list_scope.

(** ** Every Secret a container reads *)

Definition env_ref (e : EnvVar) : option SecretKeySelector :=
  match env_ValueFrom e with Some (SecretKeyRefSource sel) => Some sel | _ => None end.

(** The Secrets the spec names, as the secret controller collects them. *)
Definition spec_secrets (i : LangfuseInstance) : list string := drop 1 (referencedNames i).

(** A variable whose Secret rotation detection does not see. *)
Inductive unwatched (i : LangfuseInstance) : string → string → Prop :=
  | unwatched_admin ref :
      Auth_AdminApiKey (Spec_Auth (Instance_Spec i)) ≫= SecretValue_SecretRef = Some ref →
      unwatched i "ADMIN_API_KEY" (SecretKeyRef_Name ref)
  | unwatched_license ref :
      Spec_EELicenseKey (Instance_Spec i) ≫= SecretValue_SecretRef = Some ref →
      unwatched i "LANGFUSE_EE_LICENSE_KEY" (SecretKeyRef_Name ref)
  | unwatched_cnpg cnpg :
      Spec_Database (Instance_Spec i) ≫= Database_CloudNativePG = Some cnpg →
      unwatched i "DATABASE_URL" (ObjectReference_Name (CloudNativePG_ClusterRef cnpg) +:+ "-app").

(** The variable is a plain value, or reads a key the operator generates, or
    reads a Secret the spec names. *)
Definition provided (i : LangfuseInstance) (e : EnvVar) : Prop :=
  match env_ref e with
  | None => True
  | Some sel =>
      (sks_Name sel = generatedSecretName i ∧ sks_Key sel ∈ generated_names) ∨
      sks_Name sel ∈ spec_secrets i ∨ unwatched i (env_Name e) (sks_Name sel)
  end.

Section provided.
Context (i : LangfuseInstance).

Lemma provided_value n v : provided i (envVar n v).
Proof. exact I. Qed.

Lemma provided_generated n k : k ∈ generated_names → provided i (envFromSecret n (generatedSecretName i) k).
Proof. intros Hk. by left. Qed.

Lemma provided_named n s k : s ∈ spec_secrets i → provided i (envFromSecret n s k).
Proof. intros Hs. by right; left. Qed.

Lemma provided_unwatched n s k : unwatched i n s → provided i (envFromSecret n s k).
Proof. intros Hs. by right; right. Qed.

End provided.

(** A Secret named in some part of the spec is among those collected. *)
Ltac find_named :=
  unfold spec_secrets, referencedNames; cbv zeta;
  repeat match goal with H : _ = Some _ |- _ => progress rewrite ?H; clear H; cbn [mbind option_bind] end;
  match goal with |- _ ∈ drop 1 (_ ++ ?l) => change (drop 1 (_ ++ l)) with l end;
  repeat first [ apply elem_of_app; left; solve [cbn; set_solver] | apply elem_of_app; right ];
  cbn; set_solver.

Ltac find_provided :=
  first [ apply provided_value
        | apply provided_generated; solve [unfold generated_names; set_solver]
        | apply provided_named; solve [assumption | find_named]
        | apply provided_unwatched; solve [constructor; by simplify_option_eq] ].

Ltac solve_provided :=
  unfold opt_env, env_secret_value, envFromRef; repeat (cbn [app]; case_match; cbn [app]);
  rewrite ?Forall_app, ?Forall_cons, ?Forall_nil; split_and?; try exact I; find_provided.

Section environment.
Context (i : LangfuseInstance).

Definition all_provided (c : Config) : Prop := Forall (provided i) (CommonEnv c).

Lemma provided_emit es c : all_provided c → Forall (provided i) es → all_provided (emit es c).
Proof. intros Hc He. apply Forall_app. by split. Qed.

Lemma provided_auth c : all_provided c → all_provided (addAuthEnv c i).
Proof.
  intros Hc. unfold addAuthEnv. cbv zeta.
  repeat apply provided_emit; [done|..].
  1-5: solve_provided.
  - unfold emailPasswordEnv. solve_provided.
  - unfold oidcEnv. solve_provided.
  - unfold initUserEnv. solve_provided.
Qed.

Lemma provided_trusted c : all_provided c → all_provided (addTrustedCAEnv c i).1.
Proof.
  intros Hc. unfold addTrustedCAEnv. destruct (_ ≫= _); [|done]. cbn [fst]. by apply provided_emit; [|solve_provided].
Qed.

Lemma provided_database c path c' : all_provided c → addDatabaseEnv c i path = Ok c' → all_provided c'.
Proof.
  intros Hc. unfold addDatabaseEnv. destruct (Spec_Database _) as [db|] eqn:E; [|by intros [= <-]].
  destruct (Database_Managed db); [done|]. destruct (Database_CloudNativePG db) as [cnpg|] eqn:Ec.
  { intros [= <-]. apply provided_emit; [done|]. apply Forall_singleton, provided_unwatched.
    constructor. by rewrite E. }
  destruct (Database_External db) as [ext|] eqn:Ee; [|by intros [= <-]].
  assert (SecretKeysRef_Name (ExternalDatabase_SecretRef ext) ∈ spec_secrets i) as Hn by find_named.
  cbv zeta. destruct (ExternalDatabase_TLS ext) as [tls|].
  - assert (all_provided (postgresTLSQuery tls path c).2) as Hq.
    { unfold postgresTLSQuery. destruct (decide _); [done|]. by destruct (DatabaseTLS_CASecretRef tls). }
    destruct (postgresTLSQuery _ _ _) as [q c1]. intros [= <-].
    repeat apply provided_emit; solve_provided || done.
  - intros [= <-]. repeat apply provided_emit; solve_provided || done.
Qed.

Lemma provided_clickhouse c c' : all_provided c → addClickHouseEnv c i = Ok c' → all_provided c'.
Proof.
  intros Hc. unfold addClickHouseEnv. destruct (Spec_ClickHouse _) as [ch|] eqn:E; [|by intros [= <-]].
  destruct (_ && _); [done|]. cbv zeta. destruct (ClickHouse_Managed ch) as [m|] eqn:Em.
  - intros [= <-]. do 2 (apply provided_emit; [|solve_provided]). destruct (_ ≫= _) as [ref|] eqn:Er.
    + assert (SecretKeysRef_Name ref ∈ spec_secrets i) as Hn by (clear Hc; find_named).
      apply provided_emit; [|solve_provided]. do 2 (apply provided_emit; [|solve_provided]). done.
    + do 3 (apply provided_emit; [|solve_provided]). done.
  - destruct (ClickHouse_External ch) as [ext|] eqn:Ee; intros [= <-].
    + assert (SecretKeysRef_Name (ExternalClickHouse_SecretRef ext) ∈ spec_secrets i) as Hn by find_named.
      do 5 (apply provided_emit; [|solve_provided]). by do 2 (apply provided_emit; [|solve_provided]).
    + by do 2 (apply provided_emit; [|solve_provided]).
Qed.

Lemma provided_redis_tls c tls path c' : all_provided c → addRedisTLSEnv c tls path = Ok c' → all_provided c'.
Proof.
  intros Hc. unfold addRedisTLSEnv. destruct (negb _); [destruct (_ || _); [done|by intros [= <-]]|].
  cbv zeta. destruct (RedisTLS_CASecretRef tls) as [ca|]; intros [= <-];
    (apply provided_emit; [|solve_provided]); destruct (RedisTLS_ClientCertSecretRef tls) as [cc|];
    repeat (apply provided_emit; [|solve_provided]); done.
Qed.

Lemma provided_redis c path c' : all_provided c → addRedisEnv c i path = Ok c' → all_provided c'.
Proof.
  intros Hc. unfold addRedisEnv. destruct (Spec_Redis _) as [r|] eqn:E; [|by intros [= <-]].
  destruct (Redis_Managed r). { intros [= <-]. by apply provided_emit; [|solve_provided]. }
  destruct (Redis_External r) as [ext|] eqn:Ee; [|by intros [= <-]].
  assert (SecretKeysRef_Name (ExternalRedis_SecretRef ext) ∈ spec_secrets i) as Hn by find_named.
  cbv zeta. destruct (ExternalRedis_TLS ext) as [tls|].
  - apply provided_redis_tls. do 2 (apply provided_emit; [|solve_provided]). done.
  - intros [= <-]. do 3 (apply provided_emit; [|solve_provided]). done.
Qed.

Lemma provided_blob c : all_provided c → all_provided (addBlobStorageEnv c i).
Proof.
  intros Hc. unfold addBlobStorageEnv. destruct (Spec_BlobStorage _) as [bs|] eqn:E; [|done].
  repeat case_decide; try done.
  - destruct (BlobStorage_S3 bs) as [s3|] eqn:E3; [|done]. apply provided_emit; [done|].
    unfold s3Env. solve_provided.
  - destruct (BlobStorage_Azure bs) as [az|] eqn:E3; [|done]. apply provided_emit; [done|].
    unfold azureEnv. solve_provided.
  - destruct (BlobStorage_GCS bs) as [gcs|] eqn:E3; [|done]. apply provided_emit; [done|].
    unfold gcsEnv. solve_provided.
Qed.

Lemma provided_common cfg : BuildConfig i = Ok cfg → all_provided cfg.
Proof.
  unfold BuildConfig. cbv zeta.
  pose proof (provided_trusted _ (provided_auth zero_Config (Forall_nil_2 _))) as H1.
  destruct (addTrustedCAEnv _ i) as [c1 path]. cbn [fst] in H1.
  destruct (addDatabaseEnv c1 i path) as [c2|] eqn:E2; [|done]. cbn [result_bind].
  destruct (addClickHouseEnv c2 i) as [c3|] eqn:E3; [|done]. cbn [result_bind].
  destruct (addRedisEnv c3 i path) as [c4|] eqn:E4; [|done]. cbn [result_bind].
  apply provided_database in E2; [|done]. apply provided_clickhouse in E3; [|done].
  apply provided_redis in E4; [|done]. apply provided_blob in E4. intros [= <-].
  assert (∀ c es es', all_provided c → all_provided (emitWorker es (emitWeb es' c))) as Hw by done.
  apply Hw. repeat apply provided_emit; [exact E4|..].
  - destruct (Spec_LLM _) as [llm|] eqn:El; [|done]. unfold llmEnv. solve_provided.
  - solve_provided.
  - unfold otelEnv. solve_provided.
Qed.

End environment.

(** ** The managed ClickHouse server's credentials *)

(** Both keys of an explicit Secret are mapped. *)
Definition credentials_mapped (managed : ManagedClickHouseSpec) : Prop :=
  ∀ ref, ManagedClickHouse_Auth managed ≫= ClickHouseAuth_SecretRef = Some ref →
    key_of ref "username" ≠ "" ∧ key_of ref "password" ≠ "".

(** The variables that carry a pair of credentials. *)
Definition credential_env (c : string * string * string) : list EnvVar :=
  let '(secret, user, password) := c in
  [envFromSecret "CLICKHOUSE_USER" secret user; envFromSecret "CLICKHOUSE_PASSWORD" secret password].

(** What the pods of a managed instance are given. *)
Definition pod_credentials (i : LangfuseInstance) (managed : ManagedClickHouseSpec) : string * string * string :=
  match ManagedClickHouse_Auth managed ≫= ClickHouseAuth_SecretRef with
  | Some ref => (SecretKeysRef_Name ref, or_default (key_of ref "username") "username",
                 or_default (key_of ref "password") "password")
  | None => (generatedSecretName i, "clickhouse-username", "clickhouse-password")
  end.

Lemma pod_credentials_emitted i ch managed cfg :
  BuildConfig i = Ok cfg → Spec_ClickHouse (Instance_Spec i) = Some ch → ClickHouse_Managed ch = Some managed →
  credential_env (pod_credentials i managed) ⊆ CommonEnv cfg.
Proof.
  intros Hcfg Hch Hm. destruct (BuildConfig_stages _ _ Hcfg) as (c2 & c3 & c4 & path & E3 & _ & S4 & S5).
  intros e He. apply S5, S4.
  unfold addClickHouseEnv in E3. rewrite Hch, Hm in E3. destruct (_ && _); [done|]. cbv zeta in E3.
  injection E3 as <-. rewrite !emit_env. left; left. unfold pod_credentials, credential_env in He.
  destruct (_ ≫= _) as [ref|]; rewrite !emit_env; by right.
Qed.

(** The server's reading of a key is a client's exactly when the key is mapped. *)
Lemma mapped_key_agrees (k : option string) d d' :
  d ≠ d' → d' ≠ "" → default d k = or_default (default "" k) d' ↔ default "" k ≠ "".
Proof. intros. unfold or_default. destruct k as [k|]; cbn; case_decide; subst; naive_solver. Qed.

Lemma envFromSecret_inj n s k k' : envFromSecret n s k = envFromSecret n s k' → k = k'.
Proof. by intros [= ->]. Qed.

Lemma mapped_key (k : option string) d d' : default "" k ≠ "" → default d k = or_default (default "" k) d'.
Proof. intros. unfold or_default. destruct k; cbn in *; case_decide; subst; naive_solver. Qed.

(** C37: when the three users of a managed ClickHouse agree.  For every instance
    with a managed ClickHouse that has a configuration, the pods log in with the
    credentials the server is started with exactly when no explicit Secret is
    given, or one with both keys mapped; the operator's own client then uses the
    same.  With an unmapped key the server reads [clickhouse-username] or
    [clickhouse-password] of that Secret and the pods [username] or [password]. *)
Theorem managed_credentials_agree i ch managed cfg :
  BuildConfig i = Ok cfg → Spec_ClickHouse (Instance_Spec i) = Some ch → ClickHouse_Managed ch = Some managed →
  (clickHouseEnvVars i managed ⊆ CommonEnv cfg ↔ credentials_mapped managed) ∧
  (credentials_mapped managed → clickHouseEnvVars i managed = credential_env (managedCredentials i managed)).
Proof.
  intros Hcfg Hch Hm. pose proof (pod_credentials_emitted i ch managed cfg Hcfg Hch Hm) as Hpod.
  assert (NoDup (env_Name <$> CommonEnv cfg)) as Hnd.
  { rewrite <- (app_nil_r (_ <$> _)). apply (common_names_NoDup i); [done|].
    apply (bool_decide_unpack _). by vm_compute. }
  assert (∀ e e', e ∈ CommonEnv cfg → e' ∈ CommonEnv cfg → env_Name e = env_Name e' → e = e') as Huniq.
  { intros e e' [n He]%list_elem_of_lookup [m He']%list_elem_of_lookup En.
    assert (n = m) as ->; [|congruence]. eapply NoDup_lookup; [exact Hnd| |];
      rewrite list_lookup_fmap; [by rewrite He|by rewrite He', En]. }
  unfold clickHouseEnvVars, credentials_mapped, managedCredentials, pod_credentials, credential_env in *.
  destruct (_ ≫= _) as [ref|].
  - unfold key_of in *. split; [split|].
    + intros Hsub ? [= <-]. split.
      * eapply (mapped_key_agrees _ "clickhouse-username" "username"); [done..|].
        eapply envFromSecret_inj, Huniq; [apply Hsub; by left|apply Hpod; by left|done].
      * eapply (mapped_key_agrees _ "clickhouse-password" "password"); [done..|].
        eapply envFromSecret_inj, Huniq; [apply Hsub; by right; left|apply Hpod; by right; left|done].
    + intros Hmap. destruct (Hmap _ eq_refl) as [Hu Hp].
      by rewrite (mapped_key _ _ "username" Hu), (mapped_key _ _ "password" Hp).
    + intros Hmap. destruct (Hmap _ eq_refl) as [Hu Hp].
      by rewrite (mapped_key _ _ "clickhouse-username" Hu), (mapped_key _ _ "clickhouse-password" Hp).
  - split; [|done]. split; [done|]. intros _. exact Hpod.
Qed.

(** ** Witnesses *)

Definition ex_managed (keys : list (string * string)) : ManagedClickHouseSpec :=
  mkManagedClickHouseSpec None None "" "" None
    (Some (mkClickHouseAuthSpec (Some (mkSecretKeysRef "ch-auth" (ex_keys keys))))).

Definition ex_managed_spec (keys : list (string * string)) : ClickHouseSpec :=
  mkClickHouseSpec (Some (ex_managed keys)) None None None None None "default".

Definition ex_managed_instance (keys : list (string * string)) : LangfuseInstance :=
  mkLangfuseInstance (ex_meta "lf")
    (mkLangfuseInstanceSpec (ex_image "3.1") zero_WebSpec zero_WorkerSpec zero_AuthSpec
       None None None (Some (ex_database "pg")) (Some (ex_managed_spec keys))
       None None None None None None None None None None)
    zero_LangfuseInstanceStatus.

Definition ex_managed_config (keys : list (string * string)) : Config :=
  match BuildConfig (ex_managed_instance keys) with Ok cfg => cfg | Err _ => zero_Config end.


(** An explicit Secret with no key mapped: the pods cannot log in. *)
Lemma managed_credentials_agree_witness :
  ¬ clickHouseEnvVars (ex_managed_instance []) (ex_managed []) ⊆ CommonEnv (ex_managed_config []).
Proof.
  assert (BuildConfig (ex_managed_instance []) = Ok (ex_managed_config [])) as Hcfg by reflexivity.
  destruct (managed_credentials_agree (ex_managed_instance []) (ex_managed_spec []) (ex_managed [])
    (ex_managed_config []) Hcfg eq_refl eq_refl) as [Hiff _].
  intros Hsub. apply Hiff in Hsub. by destruct (Hsub _ eq_refl).
Defined.
