(* ===== verification/Topology.v ===== *)
(** * How the objects of an instance fit together

    The objects [desired_objects] of one instance, and of several in a namespace:
    no two share a name, every selector picks the pods of one workload, Services
    and routes lead to ports that are open, a replica count has one owner, and the
    addresses the pods are given are those of the managed stores. *)

From S2P Require Import Prelude GoStd GoJSON KubeTypes ApiTypes Kube Examples Config.
From S2P Require Import Resources Stores Networking Scaling Instance ClickHouse.

Open Scope string_scope.
Open Scope list_scope.
Open Scope Z_scope.

(** ** The objects, case by case *)

Definition managed_clickhouse (i : LangfuseInstance) : option ManagedClickHouseSpec :=
  Spec_ClickHouse (Instance_Spec i) ≫= ClickHouse_Managed.
Definition managed_redis (i : LangfuseInstance) : option ManagedRedisSpec :=
  Spec_Redis (Instance_Spec i) ≫= Redis_Managed.

Section children.
Context `{QUANT : QuantityParser}.

Inductive child (i : LangfuseInstance) (config : Config) : Object → Prop :=
  | child_clickhouse_config m :
      managed_clickhouse i = Some m → child i config (OConfigMap (BuildClickHouseConfigMap i))
  | child_clickhouse_service m :
      managed_clickhouse i = Some m → child i config (OService (BuildClickHouseService i))
  | child_clickhouse m s :
      managed_clickhouse i = Some m → BuildClickHouseStatefulSet i m = Some s →
      child i config (OStatefulSet s)
  | child_redis_service m : managed_redis i = Some m → child i config (OService (BuildRedisService i))
  | child_redis m s :
      managed_redis i = Some m → BuildRedisStatefulSet i = Some s → child i config (OStatefulSet s)
  | child_web : child i config (ODeployment (BuildWebDeployment i config))
  | child_web_service : child i config (OService (BuildWebService i))
  | child_worker : child i config (ODeployment (BuildWorkerDeployment i config))
  | child_web_policy :
      networkPolicyDisabled i = false → child i config (ONetworkPolicy (BuildWebNetworkPolicy i))
  | child_worker_policy :
      networkPolicyDisabled i = false → child i config (ONetworkPolicy (BuildWorkerNetworkPolicy i))
  | child_ingress s :
      Spec_Ingress (Instance_Spec i) = Some s → Ingress_Enabled s = true →
      child i config (OIngress (BuildIngress i s))
  | child_route s :
      Spec_Route (Instance_Spec i) = Some s → Route_Enabled s = true →
      child i config (OUnstructured (BuildRoute i s))
  | child_httproute s :
      Spec_GatewayAPI (Instance_Spec i) = Some s → GatewayAPI_Enabled s = true →
      child i config (OUnstructured (BuildHTTPRoute i s))
  | child_web_hpa :
      autoscaled (Web_Autoscaling (Spec_Web (Instance_Spec i))) = true →
      child i config (OHPA (BuildWebHPA i))
  | child_worker_hpa :
      autoscaled (Worker_Autoscaling (Spec_Worker (Instance_Spec i))) = true →
      child i config (OHPA (BuildWorkerHPA i))
  | child_web_pdb :
      budgeted (Web_PodDisruptionBudget (Spec_Web (Instance_Spec i))) = true →
      child i config (OPDB (BuildWebPDB i))
  | child_worker_pdb :
      budgeted (Worker_PodDisruptionBudget (Spec_Worker (Instance_Spec i))) = true →
      child i config (OPDB (BuildWorkerPDB i)).

Lemma elem_of_when {A} b (l : list A) x : x ∈ when b l ↔ b = true ∧ x ∈ l.
Proof. destruct b; cbn; [naive_solver|]. split; [intros []%elem_of_nil|naive_solver]. Qed.

Lemma elem_of_from_option {A B} (f : A → list B) o x :
  x ∈ from_option_list f o ↔ ∃ a, o = Some a ∧ x ∈ f a.
Proof. destruct o; cbn; [naive_solver|]. split; [intros []%elem_of_nil|naive_solver]. Qed.

(** Splits a membership in the desired objects into the builder it comes from. *)
Ltac from_desired :=
  repeat match goal with
  | H : _ ∨ _ |- _ => destruct H
  | H : _ ∧ _ |- _ => destruct H
  | H : ∃ _, _ |- _ => destruct H
  | H : _ ∈ _ ++ _ |- _ => apply elem_of_app in H
  | H : _ ∈ when _ _ |- _ => apply elem_of_when in H
  | H : _ ∈ from_option_list _ _ |- _ => apply elem_of_from_option in H
  | H : _ ∈ _ :: _ |- _ => apply elem_of_cons in H
  | H : _ ∈ [] |- _ => by apply elem_of_nil in H
  | H : Some _ = _ <$> _ |- _ => symmetry in H; apply fmap_Some in H as (? & ? & ->)
  | H : Some _ = Some _ |- _ => injection H as ->
  | H : negb _ = true |- _ => apply negb_true_iff in H
  end.

(** Finds a builder's object among the desired ones. *)
Ltac in_desired :=
  first
    [ apply elem_of_from_option; eexists; split; [eassumption|in_desired]
    | apply elem_of_when; split; [first [assumption | by apply negb_true_iff]|in_desired]
    | apply elem_of_app; left; solve [in_desired]
    | apply elem_of_app; right; in_desired
    | solve [repeat (apply elem_of_cons; first [left; first [done | by symmetry; apply fmap_Some; eauto] | right])] ].

Lemma child_desired i config o : Some o ∈ desired_objects i config ↔ child i config o.
Proof.
  unfold desired_objects. fold (managed_clickhouse i) (managed_redis i). split.
  - unfold clickhouse_objects, redis_objects, workload_objects, networking_objects, scaling_objects. cbv zeta.
    intros Ho. from_desired; by eauto using child.
  - unfold clickhouse_objects, redis_objects, workload_objects, networking_objects, scaling_objects. cbv zeta.
    intros []; in_desired.
Qed.
End children.

(** ** Names *)

Definition obj_id (o : Object) : string * NamespacedName := (obj_Kind o, om_key (obj_Meta o)).

(** Every object an instance may have: its kind and the end of its name. *)
Definition child_names : list (string * string) :=
  [("ConfigMap", "-clickhouse"); ("Service", "-clickhouse"); ("StatefulSet", "-clickhouse");
   ("Service", "-redis"); ("StatefulSet", "-redis");
   ("Deployment", "-web"); ("Service", "-web"); ("Deployment", "-worker");
   ("NetworkPolicy", "-web-netpol"); ("NetworkPolicy", "-worker-netpol");
   ("Ingress", "-web"); ("Route", "-web"); ("HTTPRoute", "-web");
   ("HorizontalPodAutoscaler", "-web"); ("HorizontalPodAutoscaler", "-worker");
   ("PodDisruptionBudget", "-web"); ("PodDisruptionBudget", "-worker")].

Definition named (i : LangfuseInstance) (n : string * string) : string * NamespacedName :=
  (n.1, in_ns i (om_Name (Instance_ObjectMeta i) +:+ n.2)).

Section names.
Context `{QUANT : QuantityParser}.

Definition ids (objs : list (option Object)) : list (string * NamespacedName) := obj_id <$> omap id objs.

Lemma ids_app l k : ids (l ++ k) = ids l ++ ids k.
Proof. unfold ids. by rewrite omap_app, fmap_app. Qed.

Lemma ids_when b l L : ids l `sublist_of` L → ids (when b l) `sublist_of` L.
Proof. intros Hl. destruct b; [exact Hl|apply sublist_nil_l]. Qed.

Lemma ids_option {A} (f : A → list (option Object)) o L :
  (∀ a, ids (f a) `sublist_of` L) → ids (from_option_list f o) `sublist_of` L.
Proof. intros Hf. destruct o; [apply Hf|apply sublist_nil_l]. Qed.

Lemma ids_cons_built o k l L : obj_id o = k → ids l `sublist_of` L → ids (Some o :: l) `sublist_of` k :: L.
Proof. intros <- Hl. by apply sublist_skip. Qed.

Lemma ids_cons_maybe {A} (f : A → Object) b k l L :
  (∀ a, b = Some a → obj_id (f a) = k) → ids l `sublist_of` L → ids ((f <$> b) :: l) `sublist_of` k :: L.
Proof. intros Hk Hl. destruct b as [a|]; [apply (ids_cons_built (f a)); [by apply Hk|done]|by apply sublist_cons]. Qed.

Lemma policy_name i s s' :
  ("NetworkPolicy", in_ns i ((om_Name (Instance_ObjectMeta i) +:+ s) +:+ s')) =
  named i ("NetworkPolicy", s +:+ s').
Proof. unfold named. cbn. by rewrite str_app_assoc. Qed.

(** The names in use are those of the list, in its order. *)
Lemma desired_ids i config : ids (desired_objects i config) `sublist_of` (named i <$> child_names).
Proof.
  unfold desired_objects, networking_objects, scaling_objects. cbv zeta. rewrite !ids_app, <- !app_assoc.
  change child_names with (take 3 child_names ++ take 2 (drop 3 child_names) ++ take 3 (drop 5 child_names) ++
    take 2 (drop 8 child_names) ++ take 1 (drop 10 child_names) ++ take 1 (drop 11 child_names) ++
    take 1 (drop 12 child_names) ++ take 1 (drop 13 child_names) ++ take 1 (drop 14 child_names) ++
    take 1 (drop 15 child_names) ++ drop 16 child_names).
  rewrite !fmap_app. repeat apply sublist_app; try apply ids_option; intros; try apply ids_when.
  all: cbn [child_names take drop fmap list_fmap].
  1: apply ids_cons_built; [reflexivity|]; apply ids_cons_built; [reflexivity|]; apply ids_cons_maybe; [|done].
  2: apply ids_cons_built; [reflexivity|]; apply ids_cons_maybe; [|done].
  1,2: intros s Hs; unfold BuildClickHouseStatefulSet, BuildRedisStatefulSet in Hs; cbv zeta in Hs;
    apply bind_Some in Hs as (? & _ & [= <-]); done.
  all: repeat (apply ids_cons_built; [first [reflexivity | apply (policy_name i "-web" "-netpol") | apply (policy_name i "-worker" "-netpol")]|]); apply sublist_nil_l.
Qed.

#[local] Instance named_inj i : Inj (=) (=) (named i).
Proof. intros [k s] [k' s']. unfold named. cbn. intros [= -> E]. by apply (inj (String.append _)) in E as ->. Qed.

Lemma desired_ids_NoDup i config : NoDup (ids (desired_objects i config)).
Proof.
  eapply submseteq_NoDup; [apply sublist_submseteq, desired_ids|].
  apply NoDup_fmap_2; [apply _|]. apply (bool_decide_unpack _). by vm_compute.
Qed.

Lemma desired_named i config o :
  Some o ∈ desired_objects i config → ∃ n, n ∈ child_names ∧ obj_id o = named i n.
Proof.
  intros Ho. assert (obj_id o ∈ ids (desired_objects i config)) as Hin.
  { apply list_elem_of_fmap. exists o. split; [done|]. apply list_elem_of_omap. by exists (Some o). }
  eapply elem_of_submseteq in Hin; [|apply sublist_submseteq, desired_ids].
  apply list_elem_of_fmap in Hin as (n & -> & Hn). eauto.
Qed.

(** Two names of one kind do not end with each other. *)
Lemma child_names_apart n n' :
  n ∈ child_names → n' ∈ child_names → n.1 = n'.1 → suffixes_apart n.2 n'.2 = true.
Proof.
  intros Hn Hn' Hk.
  assert (Forall (λ n, Forall (λ n', n.1 = n'.1 → suffixes_apart n.2 n'.2 = true) child_names) child_names) as Hall
    by (apply (bool_decide_unpack _); by vm_compute).
  rewrite Forall_forall in Hall. specialize (Hall _ Hn). rewrite Forall_forall in Hall. by apply Hall.
Qed.

(** C31: the objects of an instance never collide.  No two objects a pass applies
    have the same kind and key, so no apply overwrites what an earlier one of the
    pass wrote; and an object of one instance is never an object of another: same
    kind and key means same instance, whatever the names of the instances are. *)
Theorem objects_never_collide i config :
  NoDup (obj_id <$> omap id (desired_objects i config)) ∧
  ∀ i' config' o o', Some o ∈ desired_objects i config → Some o' ∈ desired_objects i' config' →
    obj_id o = obj_id o' → om_key (Instance_ObjectMeta i) = om_key (Instance_ObjectMeta i').
Proof.
  split; [apply desired_ids_NoDup|]. intros i' config' o o' Ho Ho' E.
  destruct (desired_named _ _ _ Ho) as (n & Hn & En). destruct (desired_named _ _ _ Ho') as (n' & Hn' & En').
  rewrite En, En' in E. unfold named in E. injection E as Hk Hns Hname.
  apply str_app_apart in Hname as [Hname _]; [|by apply child_names_apart].
  unfold om_key. by rewrite Hns, Hname.
Qed.
End names.

(** ** Selectors and ports *)

(** The label selector of an object. *)
Definition selector_of (o : Object) : option (gmap string string) :=
  match o with
  | ODeployment d => Some (depo_Selector d)
  | OService s => Some (svc_Selector s)
  | OStatefulSet s => Some (sts_Selector s)
  | ONetworkPolicy p => Some (np_PodSelector p)
  | OPDB p => Some (pdb_Selector p)
  | _ => None
  end.

(** The pods an object runs. *)
Definition pods_of (o : Object) : option PodTemplateSpec :=
  match o with
  | ODeployment d => Some (depo_Template d)
  | OStatefulSet s => Some (sts_Template s)
  | _ => None
  end.

Definition selects (sel : gmap string string) (t : PodTemplateSpec) : Prop := sel ⊆ pt_Labels t.

(** A port some container of the pods listens on. *)
Definition listens (t : PodTemplateSpec) (P : ContainerPort → Prop) : Prop :=
  Exists (λ c, Exists P (ctr_Ports c)) (ps_Containers (pt_Spec t)).

(** The ports an object refers to on the pods it selects. *)
Definition ports_open (o : Object) (t : PodTemplateSpec) : Prop :=
  match o with
  | OService s =>
      Forall (λ p, listens t (λ cp, sp_TargetPort p = FromString (cp_Name cp) ∧
                                    sp_Port p = cp_ContainerPort cp ∧ sp_Protocol p = cp_Protocol cp)) (svc_Ports s)
  | ONetworkPolicy p =>
      Forall (Forall (λ np, listens t (λ cp, npp_Port np = cp_ContainerPort cp ∧
                                             npp_Protocol np = cp_Protocol cp))) (np_Ingress p)
  | _ => True
  end.

Lemma common_label i c k v :
  (k, v) ∈ [("app.kubernetes.io/name", "langfuse"); ("app.kubernetes.io/instance", om_Name (Instance_ObjectMeta i));
            ("app.kubernetes.io/component", c)] →
  SelectorLabels i c !! k = Some v ∧ CommonLabels i c !! k = Some v.
Proof. intros Hk. repeat (apply elem_of_cons in Hk as [[= -> ->]|Hk]; [done|]). by apply elem_of_nil in Hk. Qed.

(** A selector picks the pods of its own component of its own instance. *)
Lemma selects_component i c i' c' :
  SelectorLabels i c ⊆ CommonLabels i' c' ↔
  om_Name (Instance_ObjectMeta i) = om_Name (Instance_ObjectMeta i') ∧ c = c'.
Proof.
  split.
  - intros Hsub. rewrite map_subseteq_spec in Hsub. split.
    + assert (CommonLabels i' c' !! "app.kubernetes.io/instance" = Some (om_Name (Instance_ObjectMeta i))) as E
        by by apply Hsub.
      change (CommonLabels i' c' !! "app.kubernetes.io/instance") with (Some (om_Name (Instance_ObjectMeta i'))) in E.
      congruence.
    + assert (CommonLabels i' c' !! "app.kubernetes.io/component" = Some c) as E by by apply Hsub.
      change (CommonLabels i' c' !! "app.kubernetes.io/component") with (Some c') in E. congruence.
  - intros [En ->]. apply map_subseteq_spec. intros k v Hv. apply elem_of_list_to_map_2 in Hv. rewrite En in Hv.
    by apply common_label.
Qed.

(** The workload of each component. *)
Definition workload_name (c : string) : string * string :=
  if String.eqb c "web" then ("Deployment", "-web")
  else if String.eqb c "worker" then ("Deployment", "-worker")
  else if String.eqb c "clickhouse" then ("StatefulSet", "-clickhouse") else ("StatefulSet", "-redis").

Section selectors.
Context `{QUANT : QuantityParser}.

Lemma built_clickhouse i m s :
  BuildClickHouseStatefulSet i m = Some s →
  obj_id (OStatefulSet s) = named i ("StatefulSet", "-clickhouse") ∧ sts_Selector s = SelectorLabels i "clickhouse" ∧
  pt_Labels (sts_Template s) = CommonLabels i "clickhouse" ∧
  ps_Containers (pt_Spec (sts_Template s)) = [clickHouseContainer i m].
Proof. unfold BuildClickHouseStatefulSet. cbv zeta. intros (? & _ & [= <-])%bind_Some. done. Qed.

Lemma built_redis i s :
  BuildRedisStatefulSet i = Some s →
  obj_id (OStatefulSet s) = named i ("StatefulSet", "-redis") ∧ sts_Selector s = SelectorLabels i "redis" ∧
  pt_Labels (sts_Template s) = CommonLabels i "redis" ∧
  ps_Containers (pt_Spec (sts_Template s)) = [redisContainer i].
Proof. unfold BuildRedisStatefulSet. cbv zeta. intros (? & _ & [= <-])%bind_Some. done. Qed.

(** The pods of a workload carry the labels of its component. *)
Lemma workload_component i config w t :
  child i config w → pods_of w = Some t →
  ∃ c, pt_Labels t = CommonLabels i c ∧ obj_id w = named i (workload_name c) ∧ c ≠ "migration".
Proof.
  intros [] Ht; try done; injection Ht as <-.
  - destruct (built_clickhouse _ _ _ H0) as (? & _ & ? & _). by exists "clickhouse".
  - destruct (built_redis _ _ H0) as (? & _ & ? & _). by exists "redis".
  - by exists "web".
  - by exists "worker".
Qed.

(** The component an object selects, its workload, and its ports. *)
Inductive selected (i : LangfuseInstance) (config : Config) (o : Object) (sel : gmap string string) : Prop :=
  | Selected c w t :
      sel = SelectorLabels i c → child i config w → pods_of w = Some t → pt_Labels t = CommonLabels i c →
      obj_id w = named i (workload_name c) → ports_open o t → selected i config o sel.

Ltac listening := unfold listens; apply Exists_cons_hd; first [apply Exists_cons_hd; done | apply Exists_cons_tl, Exists_cons_hd; done].

Lemma built_exists {i config o} : Forall is_Some (desired_objects i config) → o ∈ desired_objects i config → is_Some o.
Proof. rewrite Forall_forall. auto. Qed.

Lemma child_selected i config o sel :
  Forall is_Some (desired_objects i config) → child i config o → selector_of o = Some sel →
  selected i config o sel.
Proof.
  intros Hall Hc Hsel.
  assert (child i config (ODeployment (BuildWebDeployment i config))) as Hweb by constructor.
  assert (child i config (ODeployment (BuildWorkerDeployment i config))) as Hworker by constructor.
  destruct Hc as [| m Hm|m s Hm Hs|m Hm|m s Hm Hs| | | | | | | | | | | |]; try done; injection Hsel as <-.
  - destruct (built_exists Hall (o := OStatefulSet <$> BuildClickHouseStatefulSet i m)) as [o Ho].
    { unfold desired_objects. fold (managed_clickhouse i). apply elem_of_app; left. rewrite Hm. cbn. set_solver. }
    apply fmap_Some in Ho as (s & Hs & ->). destruct (built_clickhouse _ _ _ Hs) as (Hid & Hl & Hp & Hq).
    eapply (Selected _ _ _ _ "clickhouse" (OStatefulSet s)); [done|by econstructor|done|done|done|].
    unfold ports_open, listens. rewrite Hq. repeat constructor; listening.
  - destruct (built_clickhouse _ _ _ Hs) as (Hid & Hl & Hp & Hq).
    eapply (Selected _ _ _ _ "clickhouse" (OStatefulSet s)); [done|by econstructor|done..].
  - destruct (built_exists Hall (o := OStatefulSet <$> BuildRedisStatefulSet i)) as [o Ho].
    { unfold desired_objects. fold (managed_redis i). apply elem_of_app; right. apply elem_of_app; left.
      rewrite Hm. cbn. set_solver. }
    apply fmap_Some in Ho as (s & Hs & ->). destruct (built_redis _ _ Hs) as (Hid & Hl & Hp & Hq).
    eapply (Selected _ _ _ _ "redis" (OStatefulSet s)); [done|by econstructor|done|done|done|].
    unfold ports_open, listens. rewrite Hq. repeat constructor; listening.
  - destruct (built_redis _ _ Hs) as (Hid & Hl & Hp & Hq).
    eapply (Selected _ _ _ _ "redis" (OStatefulSet s)); [done|by econstructor|done..].
  - by apply (Selected _ _ _ _ "web" _ _ eq_refl Hweb eq_refl).
  - eapply (Selected _ _ _ _ "web"); [done|exact Hweb|done..|]. repeat constructor; listening.
  - by apply (Selected _ _ _ _ "worker" _ _ eq_refl Hworker eq_refl).
  - eapply (Selected _ _ _ _ "web"); [done|exact Hweb|done..|]. repeat constructor; listening.
  - eapply (Selected _ _ _ _ "worker"); [done|exact Hworker|done..|]. repeat constructor; listening.
  - by apply (Selected _ _ _ _ "web" _ _ eq_refl Hweb eq_refl).
  - by apply (Selected _ _ _ _ "worker" _ _ eq_refl Hworker eq_refl).
Qed.

(** C32: a selector picks the pods of one workload.  When no builder panics, every
    Service, NetworkPolicy, PodDisruptionBudget and workload of an instance selects
    the pods of exactly one of its workloads, on which the ports it refers to are
    open; among all the instances of the namespace it selects no other workload's
    pods, and never those of a migration Job. *)
Theorem selectors_pick_one_workload i config o sel :
  Forall is_Some (desired_objects i config) → Some o ∈ desired_objects i config → selector_of o = Some sel →
  ∃ w t, Some w ∈ desired_objects i config ∧ pods_of w = Some t ∧ selects sel t ∧ ports_open o t ∧
    (∀ i' config' w' t',
       om_Namespace (Instance_ObjectMeta i') = om_Namespace (Instance_ObjectMeta i) →
       Some w' ∈ desired_objects i' config' → pods_of w' = Some t' → selects sel t' → obj_id w' = obj_id w) ∧
    (∀ i' config', ¬ selects sel (jobo_Template (BuildMigrationJob i' config'))).
Proof.
  intros Hall Ho Hsel. apply child_desired in Ho.
  destruct (child_selected _ _ _ _ Hall Ho Hsel) as [c w t -> Hw Ht Hl Hid Hp].
  exists w, t. unfold selects. rewrite Hl.
  destruct (workload_component _ _ _ _ Hw Ht) as (c0 & Hl0 & _ & Hc0).
  assert (c = c0) as <-.
  { rewrite Hl in Hl0. apply (f_equal (lookup "app.kubernetes.io/component")) in Hl0.
    change (Some c = Some c0) in Hl0. by injection Hl0. }
  split_and!; [by apply child_desired|done|by apply selects_component|done| |].
  - intros i' config' w' t' Hns Hw' Ht' Hs'. apply child_desired in Hw'.
    destruct (workload_component _ _ _ _ Hw' Ht') as (c' & Hl' & Hid' & _).
    rewrite Hl' in Hs'. apply selects_component in Hs' as [Hn <-]. rewrite Hid, Hid'. unfold named, in_ns.
    by rewrite Hns, Hn.
  - intros i' config' Hs'. cbn in Hs'. by apply selects_component in Hs' as [_ ->].
Qed.
End selectors.

(** ** Routes *)

Definition json_field (key : string) (j : JSON) : option JSON :=
  match j with JObject ms => snd <$> find (λ m, String.eqb m.1 key) ms | _ => None end.
Definition json_text (j : JSON) : option string := match j with JString s => Some s | _ => None end.
Definition json_int (j : JSON) : option Z :=
  match j with JNumber lit => match Atoi lit with Ok n => Some n | Err _ => None end | _ => None end.
Definition json_list (j : JSON) : list JSON := match j with JArray l => l | _ => [] end.

Definition json_path (keys : list string) (j : JSON) : option JSON :=
  foldl (λ o k, match o with Some j => json_field k j | None => None end) (Some j) keys.

(** Where an object sends outside traffic: the name of a Service and a port of it. *)
Definition backend (name : option string) (port : option IntOrString) : list (string * IntOrString) :=
  match name, port with Some n, Some p => [(n, p)] | _, _ => [] end.

Definition json_at {A} (read : JSON → option A) (keys : list string) (j : JSON) : option A :=
  match json_path keys j with Some j => read j | None => None end.

Definition route_backends (spec : JSON) : list (string * IntOrString) :=
  backend (json_at json_text ["to"; "name"] spec)
    (FromString <$> json_at json_text ["port"; "targetPort"] spec).

Definition httproute_backends (spec : JSON) : list (string * IntOrString) :=
  mjoin ((λ rule, mjoin ((λ ref, backend (json_at json_text ["name"] ref) (FromInt <$> json_at json_int ["port"] ref)) <$>
                         from_option_list json_list (json_field "backendRefs" rule))) <$>
         from_option_list json_list (json_field "rules" spec)).

Definition backends (o : Object) : list (string * IntOrString) :=
  match o with
  | OIngress g => (λ p, (ip_ServiceName p, FromInt (ip_ServicePort p))) <$> mjoin (snd <$> ing_Rules g)
  | OUnstructured u =>
      if String.eqb (un_Kind u) "Route" then route_backends (JObject (un_Spec u))
      else httproute_backends (JObject (un_Spec u))
  | _ => []
  end.

Definition leads_out (o : Object) : bool :=
  match o with OIngress _ | OUnstructured _ => true | _ => false end.

Definition names_port (b : IntOrString) (p : ServicePort) : Prop :=
  match b with FromInt n => sp_Port p = n | FromString s => sp_Name p = s end.

Section routes.
Context `{QUANT : QuantityParser}.

(** A way in leads to the web pods.  Every Ingress, Route and HTTPRoute a pass
    applies has a backend, and each of its backends is a Service the same pass
    applies, in the namespace, by a port that Service has and whose target a
    container of the web Deployment listens on. *)
Theorem routes_lead_to_web i config o :
  Some o ∈ desired_objects i config → leads_out o = true →
  backends o ≠ [] ∧
  Forall (λ b, ∃ s p, Some (OService s) ∈ desired_objects i config ∧ om_Name (svc_Meta s) = b.1 ∧
                 om_Namespace (svc_Meta s) = om_Namespace (obj_Meta o) ∧
                 p ∈ svc_Ports s ∧ names_port b.2 p ∧
                 listens (depo_Template (BuildWebDeployment i config))
                   (λ cp, sp_TargetPort p = FromString (cp_Name cp) ∧ sp_Port p = cp_ContainerPort cp))
    (backends o).
Proof.
  intros Ho Hlead. apply child_desired in Ho.
  assert (Some (OService (BuildWebService i)) ∈ desired_objects i config) as Hs by (apply child_desired; constructor).
  assert (∀ n, n = FromInt 3000 ∨ n = FromString "http" → ∃ s p, Some (OService s) ∈ desired_objects i config ∧
    om_Name (svc_Meta s) = WebServiceName i ∧ om_Namespace (svc_Meta s) = om_Namespace (Instance_ObjectMeta i) ∧
    p ∈ svc_Ports s ∧ names_port n p ∧ listens (depo_Template (BuildWebDeployment i config))
                   (λ cp, sp_TargetPort p = FromString (cp_Name cp) ∧ sp_Port p = cp_ContainerPort cp)) as Hweb.
  { intros n Hn. exists (BuildWebService i), (mkServicePort "http" 3000 (FromString "http") "TCP").
    split_and!; [done..|by left| |by do 2 constructor]. by destruct Hn as [-> | ->]. }
  destruct Ho; try done; (split; [done|]); apply Forall_singleton; cbn [fst snd]; apply Hweb; auto.
Qed.
End routes.

(** ** Replicas *)

(** The autoscaler scales the Deployment. *)
Definition scales (h : HPAObject) (d : DeploymentObject) : Prop :=
  str_Kind (hpa_ScaleTargetRef h) = "Deployment" ∧ str_Name (hpa_ScaleTargetRef h) = om_Name (depo_Meta d) ∧
  om_Namespace (hpa_Meta h) = om_Namespace (depo_Meta d).

Section replicas.
Context `{QUANT : QuantityParser}.

Lemma ownedReplicas_None c a r : ownedReplicas c a r = None ↔ r = true ∨ autoscaled a = true.
Proof. unfold ownedReplicas. fold (autoscaled a). destruct r, (autoscaled a); naive_solver. Qed.

Lemma web_worker_apart i : WebName i = WorkerName i → False.
Proof. intros E. by apply (inj (String.append _)) in E. Qed.

(** The autoscaler of a Deployment is the one of its component. *)
Lemma scaled_by i config d h :
  child i config (ODeployment d) → child i config (OHPA h) → scales h d →
  (d = BuildWebDeployment i config ∧ autoscaled (Web_Autoscaling (Spec_Web (Instance_Spec i))) = true) ∨
  (d = BuildWorkerDeployment i config ∧ autoscaled (Worker_Autoscaling (Spec_Worker (Instance_Spec i))) = true).
Proof.
  intros Hd Hh (_ & Hname & _). inversion Hd; subst; inversion Hh; subst; auto; cbn in Hname;
    exfalso; by eapply web_worker_apart.
Qed.

(** A replica count has one owner.  The Deployment a pass applies declares its
    replicas unless an autoscaler of the instance scales it or, for the worker, the
    circuit breaker holds it; an autoscaler scales a Deployment of its instance. *)
Theorem replicas_have_one_owner i config :
  (∀ d, Some (ODeployment d) ∈ desired_objects i config →
    depo_Replicas d = None ↔
      (∃ h, Some (OHPA h) ∈ desired_objects i config ∧ scales h d) ∨
      (d = BuildWorkerDeployment i config ∧ circuitBreakerHoldsWorker i = true)) ∧
  (∀ h, Some (OHPA h) ∈ desired_objects i config →
    ∃ d, Some (ODeployment d) ∈ desired_objects i config ∧ scales h d).
Proof.
  split.
  - intros d Hd. apply child_desired in Hd. split.
    + intros Hnone. inversion Hd; subst; cbn in Hnone; apply ownedReplicas_None in Hnone as [Hr|Ha]; [done| |auto|].
      * left. exists (BuildWebHPA i). split; [apply child_desired; by constructor|done].
      * left. exists (BuildWorkerHPA i). split; [apply child_desired; by constructor|done].
    + intros [(h & Hh & Hs)|[-> Hr]].
      * apply child_desired in Hh.
        destruct (scaled_by _ _ _ _ Hd Hh Hs) as [[-> Ha]|[-> Ha]]; apply ownedReplicas_None; by right.
      * apply ownedReplicas_None. by left.
  - intros h Hh. apply child_desired in Hh. inversion Hh; subst.
    + exists (BuildWebDeployment i config). split; [apply child_desired; constructor|done].
    + exists (BuildWorkerDeployment i config). split; [apply child_desired; constructor|done].
Qed.
End replicas.

(** ** Addresses *)

(** A policy lets its pods open connections to a TCP port. *)
Definition egress_allows (p : NetworkPolicyObject) (n : Z) : Prop :=
  Exists (λ rule, mkNetPolPort "TCP" n ∈ rule) (np_Egress p).

(** The pods of both components may connect to the port. *)
Definition connectable (i : LangfuseInstance) (n : Z) : Prop :=
  egress_allows (BuildWebNetworkPolicy i) n ∧ egress_allows (BuildWorkerNetworkPolicy i) n.

Lemma connectable_default i n : n ∈ defaultEgressPorts → int32 n = n → connectable i n.
Proof.
  intros Hn Hi. assert (mkNetPolPort "TCP" n ∈ (λ p, mkNetPolPort "TCP" (intstrPtr p)) <$> defaultEgressPorts) as Hin.
  { apply list_elem_of_fmap. exists n. unfold intstrPtr. by rewrite Hi. }
  split; apply Exists_cons_hd, elem_of_app; by left.
Qed.

(** The URL of a port of a Service, by its name in the namespace. *)
Definition service_url (scheme : string) (s : ServiceObject) (p : ServicePort) : string :=
  scheme +:+ "://" +:+ om_Name (svc_Meta s) +:+ ":" +:+ itoa (sp_Port p).

(** The same port from outside the namespace. *)
Definition cluster_url (s : ServiceObject) (p : ServicePort) : string :=
  "http://" +:+ om_Name (svc_Meta s) +:+ "." +:+ om_Namespace (svc_Meta s) +:+ ".svc:" +:+ itoa (sp_Port p).

Lemma clickhouse_service_url scheme i p :
  service_url scheme (BuildClickHouseService i) p =
  scheme +:+ "://" +:+ om_Name (Instance_ObjectMeta i) +:+ "-clickhouse:" +:+ itoa (sp_Port p).
Proof.
  unfold service_url. change (om_Name (svc_Meta _)) with (om_Name (Instance_ObjectMeta i) +:+ "-clickhouse").
  by rewrite str_app_assoc.
Qed.

Lemma clickhouse_cluster_url i p :
  cluster_url (BuildClickHouseService i) p =
  "http://" +:+ om_Name (Instance_ObjectMeta i) +:+ "-clickhouse." +:+
  om_Namespace (Instance_ObjectMeta i) +:+ ".svc:" +:+ itoa (sp_Port p).
Proof.
  unfold cluster_url. change (om_Name (svc_Meta _)) with (om_Name (Instance_ObjectMeta i) +:+ "-clickhouse").
  by rewrite str_app_assoc.
Qed.

Section addresses.
Context `{QUANT : QuantityParser} {W : Type} `{KubeClient W}.

(** The pods and the operator are given the addresses of the stores the operator
    runs.  For a managed ClickHouse the pods' URL and migration URL, and the URL the
    operator's own client resolves, are those of ports of the Service the pass
    applies; for a managed Redis the host and the port are; and the network policies
    let the web and worker pods connect to each of these ports. *)
Theorem managed_stores_addressed i config :
  BuildConfig i = Ok config →
  (∀ m, managed_clickhouse i = Some m → ∃ s http native,
     Some (OService s) ∈ desired_objects i config ∧ http ∈ svc_Ports s ∧ native ∈ svc_Ports s ∧
     envVar "CLICKHOUSE_URL" (service_url "http" s http) ∈ CommonEnv config ∧
     envVar "CLICKHOUSE_MIGRATION_URL" (service_url "clickhouse" s native) ∈ CommonEnv config ∧
     (∀ st : St W, resolveClickHouseURL i st = (Ok (cluster_url s http), st)) ∧
     connectable i (sp_Port http) ∧ connectable i (sp_Port native)) ∧
  (∀ m, managed_redis i = Some m → ∃ s p,
     Some (OService s) ∈ desired_objects i config ∧ p ∈ svc_Ports s ∧
     envVar "REDIS_HOST" (om_Name (svc_Meta s)) ∈ CommonEnv config ∧
     envVar "REDIS_PORT" (itoa (sp_Port p)) ∈ CommonEnv config ∧ connectable i (sp_Port p)).
Proof.
  intros Hcfg. destruct (BuildConfig_stages _ _ Hcfg) as (c2 & c3 & c4 & path & E3 & E4 & S4 & S5).
  assert (Forall (λ n, connectable i n) [8123; 9000; 6379]) as Hconn.
  { repeat constructor; (apply connectable_default; [apply (bool_decide_unpack _)|]; by vm_compute). }
  apply Forall_cons in Hconn as [Hhttp Hconn]. apply Forall_cons in Hconn as [Hnative Hconn].
  apply Forall_cons in Hconn as [Hredis _]. split.
  - intros m Hm. exists (BuildClickHouseService i), (mkServicePort "http" 8123 (FromString "http") "TCP"),
      (mkServicePort "native" 9000 (FromString "native") "TCP").
    split; [by apply child_desired, (child_clickhouse_service i config m)|].
    split; [by left|]. split; [by right; left|].
    unfold managed_clickhouse in Hm. destruct (Spec_ClickHouse (Instance_Spec i)) as [ch|] eqn:Hch; [|done]. cbn in Hm.
    unfold addClickHouseEnv in E3. rewrite Hch, Hm in E3. destruct (_ && _); [done|]. cbv zeta in E3.
    injection E3 as <-. rewrite !clickhouse_service_url.
    split_and!; [apply S5, S4, emit_env; left; apply emit_env; right; by left
                |apply S5, S4, emit_env; right; by left| |done|done].
    intros st. unfold resolveClickHouseURL. rewrite Hch, Hm, clickhouse_cluster_url. done.
  - intros m Hm. exists (BuildRedisService i), (mkServicePort "redis" 6379 (FromString "redis") "TCP").
    split; [by apply child_desired, (child_redis_service i config m)|]. split; [by left|].
    unfold managed_redis in Hm. destruct (Spec_Redis (Instance_Spec i)) as [r|] eqn:Hr; [|done]. cbn in Hm.
    unfold addRedisEnv in E4. rewrite Hr, Hm in E4. injection E4 as <-.
    split_and!; [apply S5, emit_env; right; by left|apply S5, emit_env; right; by right; left|done].
Qed.
End addresses.

(** ** Witnesses: both stores managed, an ingress, an autoscaled web component *)

Definition ex_full_config : Config :=
  match BuildConfig ex_full with Ok cfg => cfg | Err _ => zero_Config end.

Lemma ex_full_configured : BuildConfig ex_full = Ok ex_full_config.
Proof. by vm_compute. Qed.

Definition ex_full_objects : list (option Object) := desired_objects (QUANT := simple_quantities) ex_full ex_full_config.

Lemma objects_never_collide_witness :
  length ex_full_objects = 13%nat ∧ NoDup (obj_id <$> omap id ex_full_objects) ∧
  om_key (Instance_ObjectMeta ex_full) = om_key (Instance_ObjectMeta ex_refused).
Proof.
  destruct (objects_never_collide (QUANT := simple_quantities) ex_full ex_full_config) as [Hnd Hkey].
  split_and!; [by vm_compute|exact Hnd|].
  apply (Hkey ex_refused zero_Config (OService (BuildWebService ex_full)) (OService (BuildWebService ex_refused)));
    [apply child_desired; constructor..|done].
Defined.

Lemma ex_full_built : Forall is_Some ex_full_objects.
Proof. apply (bool_decide_unpack _). by vm_compute. Qed.

Lemma selectors_pick_one_workload_witness :
  ∃ w t, Some w ∈ ex_full_objects ∧ pods_of w = Some t ∧ selects (SelectorLabels ex_full "redis") t.
Proof.
  destruct (selectors_pick_one_workload (QUANT := simple_quantities) ex_full ex_full_config
    (OService (BuildRedisService ex_full)) (SelectorLabels ex_full "redis")) as (w & t & Hw & Ht & Hs & _).
  - exact ex_full_built.
  - apply child_desired. by econstructor.
  - done.
  - by exists w, t.
Defined.

Definition ex_full_ingress : IngressObject :=
  BuildIngress ex_full (default (mkIngressSpec false "" "" ∅ None) (Spec_Ingress (Instance_Spec ex_full))).

Lemma routes_lead_to_web_witness :
  backends (OIngress ex_full_ingress) = [("lf-web", FromInt 3000)] ∧
  ∃ s p, Some (OService s) ∈ ex_full_objects ∧ om_Name (svc_Meta s) = "lf-web" ∧ p ∈ svc_Ports s ∧ sp_Port p = 3000.
Proof.
  destruct (routes_lead_to_web (QUANT := simple_quantities) ex_full ex_full_config (OIngress ex_full_ingress))
    as [_ Hall].
  - apply child_desired. by apply (child_ingress ex_full ex_full_config _ eq_refl).
  - done.
  - split; [done|]. apply Forall_inv in Hall as (s & p & Hs & Hn & _ & Hp & Hq & _). by exists s, p.
Defined.

Lemma replicas_have_one_owner_witness :
  depo_Replicas (BuildWebDeployment ex_full ex_full_config) = None ∧
  depo_Replicas (BuildWorkerDeployment ex_full ex_full_config) = Some 1 ∧
  ∃ h, Some (OHPA h) ∈ ex_full_objects ∧ scales h (BuildWebDeployment ex_full ex_full_config).
Proof.
  destruct (replicas_have_one_owner (QUANT := simple_quantities) ex_full ex_full_config) as [Hd _].
  destruct (Hd (BuildWebDeployment ex_full ex_full_config)) as [Hweb _]; [apply child_desired; constructor|].
  split_and!; [done..|]. destruct (Hweb eq_refl) as [Hh|[_ Hr]]; [exact Hh|done].
Defined.

Lemma managed_stores_addressed_witness :
  (∃ s http, envVar "CLICKHOUSE_URL" (service_url "http" s http) ∈ CommonEnv ex_full_config) ∧
  ∃ s p, Some (OService s) ∈ ex_full_objects ∧ p ∈ svc_Ports s ∧
    envVar "REDIS_HOST" (om_Name (svc_Meta s)) ∈ CommonEnv ex_full_config ∧ connectable ex_full (sp_Port p).
Proof.
  destruct (managed_stores_addressed (QUANT := simple_quantities) (W := FakeCluster) ex_full ex_full_config
    ex_full_configured) as [Hc Hr].
  destruct (Hc (mkManagedClickHouseSpec None None "20Gi" "" None None) eq_refl) as (s & http & _ & _ & _ & _ & Hurl & _).
  clear Hc. split; [by exists s, http|].
  destruct (Hr (mkManagedRedisSpec None "") eq_refl) as (s' & p & Hs & Hp & Hh & _ & Hc). by exists s', p.
Defined.
