(* ===== verification/LangfuseClient.v ===== *)
(** * The Langfuse API client ([internal/langfuse/client.go])

    The HTTP requests of each method and the reading of their responses, over the
    transport of [GoNet]; and the interface [Client] as the class [LangfuseAPI],
    of which the HTTP client is the instance.  The controllers are written against
    the class. *)

From S2P Require Import Prelude GoStd GoNet GoJSON KubeTypes ApiTypes LangfuseTypes Kube.

Open Scope string_scope.
Open Scope list_scope.
Open Scope Z_scope.

(** ** Clients *)

Definition NewAdminClient (baseURL adminAPIKey : string) : httpClient :=
  mkHttpClient (TrimRight baseURL "/") ("Bearer " +:+ adminAPIKey).

Definition NewProjectClient (baseURL publicKey secretKey : string) : httpClient :=
  mkHttpClient (TrimRight baseURL "/")
    ("Basic " +:+ base64_EncodeToString (publicKey +:+ ":" +:+ secretKey)).

(** ** Requests and responses *)

Definition StatusForbidden : Z := 403.

(** [apiError]: its status is the classification of the error. *)
Definition apiError (status : Z) (body : string) : GoError :=
  mkErr (KindAPI status) ("API returned status " +:+ itoa status +:+ ": " +:+ body).

Definition IsForbidden (e : GoError) : bool :=
  match err_kind e with KindAPI status => status =? StatusForbidden | _ => false end.

(** A response: its status, its body as far as it can be read, and what ended it. *)
Definition HTTPResponse : Type := Z * string * option GoError.

Definition checkResponse (resp : HTTPResponse) : option GoError :=
  let '(status, body, _) := resp in
  if (status >=? 200) && (status <? 300) then None else Some (apiError status (TrimSpace body)).

(** [json.NewDecoder(resp.Body).Decode(&v)]: an incomplete value ends with the error
    that cut the body. *)
Definition decodeBody {A} (fill : JSON → A → A * bool) (zero : A) (resp : HTTPResponse) : result A :=
  let '(_, body, broken) := resp in
  match read_value body, broken with
  | None, Some e => Err e
  | _, _ => Decode fill zero body
  end.

(** The fields of each struct. *)
Definition fill_Organization : JSON → Organization → Organization * bool :=
  fill_struct [("id", text_field (λ v o, mkOrganization v (Organization_Name o)));
               ("name", text_field (λ v o, mkOrganization (Organization_ID o) v))].
Definition fill_OrgMember : JSON → OrgMember → OrgMember * bool :=
  fill_struct [("id", text_field (λ v m, mkOrgMember v (OrgMember_Email m) (OrgMember_Role m)));
               ("email", text_field (λ v m, mkOrgMember (OrgMember_ID m) v (OrgMember_Role m)));
               ("role", text_field (λ v m, mkOrgMember (OrgMember_ID m) (OrgMember_Email m) v))].
Definition fill_Project : JSON → LFProject → LFProject * bool :=
  fill_struct [("id", text_field (λ v p, mkLFProject v (LFProject_Name p)));
               ("name", text_field (λ v p, mkLFProject (LFProject_ID p) v))].
Definition fill_APIKey : JSON → APIKey → APIKey * bool :=
  fill_struct [("id", text_field (λ v k, mkAPIKey v (APIKey_PublicKey k)));
               ("publicKey", text_field (λ v k, mkAPIKey (APIKey_ID k) v))].
Definition fill_APIKeyPair : JSON → APIKeyPair → APIKeyPair * bool :=
  fill_struct
    [("id", text_field (λ v k, mkAPIKeyPair v (APIKeyPair_PublicKey k) (APIKeyPair_SecretKey k)));
     ("publicKey", text_field (λ v k, mkAPIKeyPair (APIKeyPair_ID k) v (APIKeyPair_SecretKey k)));
     ("secretKey", text_field (λ v k, mkAPIKeyPair (APIKeyPair_ID k) (APIKeyPair_PublicKey k) v))].
Definition fill_BackgroundMigrations : JSON → BackgroundMigrations → BackgroundMigrations * bool :=
  fill_struct
    [("pending", int_field (λ v b, mkBackgroundMigrations v (BackgroundMigrations_Running b) (BackgroundMigrations_Completed b)));
     ("running", int_field (λ v b, mkBackgroundMigrations (BackgroundMigrations_Pending b) v (BackgroundMigrations_Completed b)));
     ("completed", int_field (λ v b, mkBackgroundMigrations (BackgroundMigrations_Pending b) (BackgroundMigrations_Running b) v))].

Definition zero_Organization := mkOrganization "" "".
Definition zero_OrgMember := mkOrgMember "" "" "".
Definition zero_Project := mkLFProject "" "".
Definition zero_APIKey := mkAPIKey "" "".
Definition zero_APIKeyPair := mkAPIKeyPair "" "" "".
Definition zero_BackgroundMigrations := mkBackgroundMigrations 0 0 0.

(** A list under one member of an object. *)
Definition fill_list {A} (member : string) (fill : JSON → A → A * bool) (zero : A) : JSON → list A → list A * bool :=
  fill_struct [(member, fill_slice fill zero)].

(** [checkResponse], then the decoding, with the context the methods add to errors. *)
Definition readResponse {A} (what : string) (read : HTTPResponse → result A) (r : result HTTPResponse) : result A :=
  match r with
  | Err e => Err (wrapError what e)
  | Ok resp =>
      match checkResponse resp with
      | Some e => Err (wrapError what e)
      | None => match read resp with
                | Err e => Err (wrapError (what +:+ ": decoding response") e)
                | Ok v => Ok v
                end
      end
  end.

(** The methods that return an error only. *)
Definition readStatus (what : string) (r : result HTTPResponse) : option GoError :=
  match readResponse what (λ _, Ok tt) r with Ok _ => None | Err e => Some e end.

Section http.
Context {W : Type} `{HTTP : HTTPTransport W}.

(** The body, when there is one, is a map given by its members in the order of their keys. *)
Definition doRequest (c : httpClient) (method path : string) (body : option (list (string * string))) (w : W)
    : result HTTPResponse * W :=
  let headers := [("Authorization", hc_authHeader c)] ++
                 match body with Some _ => [("Content-Type", "application/json")] | None => [] end ++
                 [("Accept", "application/json")] in
  let '(a, w) := http_Do (mkRequest method (hc_baseURL c +:+ path) headers
                            match body with Some ms => Marshal ms | None => "" end None) w in
  (match a with
   | BadRequest e => Err (wrapError "building request" e)
   | NoResponse e => Err (wrapError "executing request" e)
   | Response status body broken => Ok (status, body, broken)
   end, w).

Definition http_Health (c : httpClient) (w : W) : option GoError * W :=
  let '(r, w) := doRequest c "GET" "/api/public/health" None w in
  (readStatus "checking health" r, w).

Definition http_ListOrganizations (c : httpClient) (w : W) : result (list Organization) * W :=
  let '(r, w) := doRequest c "GET" "/api/admin/organizations" None w in
  (readResponse "listing organizations" (decodeBody (fill_list "data" fill_Organization zero_Organization) []) r, w).

Definition http_GetOrganization (c : httpClient) (id : string) (w : W) : result Organization * W :=
  let '(r, w) := doRequest c "GET" ("/api/admin/organizations/" +:+ id) None w in
  (readResponse ("getting organization " +:+ quote id) (decodeBody fill_Organization zero_Organization) r, w).

Definition http_CreateOrganization (c : httpClient) (name : string) (w : W) : result Organization * W :=
  let '(r, w) := doRequest c "POST" "/api/admin/organizations" (Some [("name", name)]) w in
  (readResponse "creating organization" (decodeBody fill_Organization zero_Organization) r, w).

Definition http_UpdateOrganization (c : httpClient) (id name : string) (w : W) : result Organization * W :=
  let '(r, w) := doRequest c "PUT" ("/api/admin/organizations/" +:+ id) (Some [("name", name)]) w in
  (readResponse ("updating organization " +:+ quote id) (decodeBody fill_Organization zero_Organization) r, w).

Definition http_DeleteOrganization (c : httpClient) (id : string) (w : W) : option GoError * W :=
  let '(r, w) := doRequest c "DELETE" ("/api/admin/organizations/" +:+ id) None w in
  (readStatus ("deleting organization " +:+ quote id) r, w).

Definition http_ListOrgMembers (c : httpClient) (orgID : string) (w : W) : result (list OrgMember) * W :=
  let '(r, w) := doRequest c "GET" ("/api/admin/organizations/" +:+ orgID +:+ "/members") None w in
  (readResponse ("listing members for organization " +:+ quote orgID)
     (decodeBody (fill_list "data" fill_OrgMember zero_OrgMember) []) r, w).

Definition http_AddOrgMember (c : httpClient) (orgID email role : string) (w : W) : result OrgMember * W :=
  let '(r, w) := doRequest c "POST" ("/api/admin/organizations/" +:+ orgID +:+ "/members")
                   (Some [("email", email); ("role", role)]) w in
  (readResponse ("adding member to organization " +:+ quote orgID) (decodeBody fill_OrgMember zero_OrgMember) r, w).

Definition http_UpdateOrgMemberRole (c : httpClient) (orgID memberID role : string) (w : W) : option GoError * W :=
  let '(r, w) := doRequest c "PUT" ("/api/admin/organizations/" +:+ orgID +:+ "/members/" +:+ memberID)
                   (Some [("role", role)]) w in
  (readStatus ("updating role for member " +:+ quote memberID +:+ " in organization " +:+ quote orgID) r, w).

Definition http_RemoveOrgMember (c : httpClient) (orgID memberID : string) (w : W) : option GoError * W :=
  let '(r, w) := doRequest c "DELETE" ("/api/admin/organizations/" +:+ orgID +:+ "/members/" +:+ memberID) None w in
  (readStatus ("removing member " +:+ quote memberID +:+ " from organization " +:+ quote orgID) r, w).

Definition http_CreateOrganizationAPIKey (c : httpClient) (orgID note : string) (w : W) : result APIKeyPair * W :=
  let '(r, w) := doRequest c "POST" ("/api/admin/organizations/" +:+ orgID +:+ "/apiKeys") (Some [("note", note)]) w in
  (readResponse "creating organization API key" (decodeBody fill_APIKeyPair zero_APIKeyPair) r, w).

Definition http_ListProjects (c : httpClient) (w : W) : result (list LFProject) * W :=
  let '(r, w) := doRequest c "GET" "/api/public/projects" None w in
  (readResponse "listing projects" (decodeBody (fill_list "projects" fill_Project zero_Project) []) r, w).

Definition http_GetProject (c : httpClient) (projectID : string) (w : W) : result LFProject * W :=
  let '(r, w) := doRequest c "GET" ("/api/public/projects/" +:+ projectID) None w in
  (readResponse ("getting project " +:+ quote projectID) (decodeBody fill_Project zero_Project) r, w).

Definition http_CreateProject (c : httpClient) (name : string) (w : W) : result LFProject * W :=
  let '(r, w) := doRequest c "POST" "/api/public/projects" (Some [("name", name)]) w in
  (readResponse "creating project" (decodeBody fill_Project zero_Project) r, w).

Definition http_DeleteProject (c : httpClient) (projectID : string) (w : W) : option GoError * W :=
  let '(r, w) := doRequest c "DELETE" ("/api/public/projects/" +:+ projectID) None w in
  (readStatus ("deleting project " +:+ quote projectID) r, w).

Definition http_ListAPIKeys (c : httpClient) (projectID : string) (w : W) : result (list APIKey) * W :=
  let '(r, w) := doRequest c "GET" ("/api/public/projects/" +:+ projectID +:+ "/apiKeys") None w in
  (readResponse ("listing API keys for project " +:+ quote projectID)
     (decodeBody (fill_list "apiKeys" fill_APIKey zero_APIKey) []) r, w).

Definition http_CreateAPIKey (c : httpClient) (projectID note : string) (w : W) : result APIKeyPair * W :=
  let '(r, w) := doRequest c "POST" ("/api/public/projects/" +:+ projectID +:+ "/apiKeys") (Some [("note", note)]) w in
  (readResponse ("creating API key for project " +:+ quote projectID) (decodeBody fill_APIKeyPair zero_APIKeyPair) r, w).

Definition http_DeleteAPIKey (c : httpClient) (projectID apiKeyID : string) (w : W) : option GoError * W :=
  let '(r, w) := doRequest c "DELETE" ("/api/public/projects/" +:+ projectID +:+ "/apiKeys/" +:+ apiKeyID) None w in
  (readStatus ("deleting API key " +:+ quote apiKeyID) r, w).

Definition http_GetBackgroundMigrations (c : httpClient) (w : W) : result BackgroundMigrations * W :=
  let '(r, w) := doRequest c "GET" "/api/public/background-migrations" None w in
  (readResponse "getting background migrations" (decodeBody fill_BackgroundMigrations zero_BackgroundMigrations) r, w).
End http.

(** ** The interface [Client]

    The methods as the controllers call them, each a transformer of the world, and
    recorded in the trace with its answer. *)

Class LangfuseAPI (W : Type) := {
  lf_Health : httpClient → W → option GoError * W;
  lf_ListOrganizations : httpClient → W → result (list Organization) * W;
  lf_GetOrganization : httpClient → string → W → result Organization * W;
  lf_CreateOrganization : httpClient → string → W → result Organization * W;
  lf_UpdateOrganization : httpClient → string → string → W → result Organization * W;
  lf_DeleteOrganization : httpClient → string → W → option GoError * W;
  lf_ListOrgMembers : httpClient → string → W → result (list OrgMember) * W;
  lf_AddOrgMember : httpClient → string → string → string → W → result OrgMember * W;
  lf_UpdateOrgMemberRole : httpClient → string → string → string → W → option GoError * W;
  lf_RemoveOrgMember : httpClient → string → string → W → option GoError * W;
  lf_CreateOrganizationAPIKey : httpClient → string → string → W → result APIKeyPair * W;
  lf_ListProjects : httpClient → W → result (list LFProject) * W;
  lf_GetProject : httpClient → string → W → result LFProject * W;
  lf_CreateProject : httpClient → string → W → result LFProject * W;
  lf_DeleteProject : httpClient → string → W → option GoError * W;
  lf_ListAPIKeys : httpClient → string → W → result (list APIKey) * W;
  lf_CreateAPIKey : httpClient → string → string → W → result APIKeyPair * W;
  lf_DeleteAPIKey : httpClient → string → string → W → option GoError * W;
  lf_GetBackgroundMigrations : httpClient → W → result BackgroundMigrations * W
}.

#[global] Instance http_langfuse `{HTTPTransport W} : LangfuseAPI W := {|
  lf_Health := http_Health;
  lf_ListOrganizations := http_ListOrganizations;
  lf_GetOrganization := http_GetOrganization;
  lf_CreateOrganization := http_CreateOrganization;
  lf_UpdateOrganization := http_UpdateOrganization;
  lf_DeleteOrganization := http_DeleteOrganization;
  lf_ListOrgMembers := http_ListOrgMembers;
  lf_AddOrgMember := http_AddOrgMember;
  lf_UpdateOrgMemberRole := http_UpdateOrgMemberRole;
  lf_RemoveOrgMember := http_RemoveOrgMember;
  lf_CreateOrganizationAPIKey := http_CreateOrganizationAPIKey;
  lf_ListProjects := http_ListProjects;
  lf_GetProject := http_GetProject;
  lf_CreateProject := http_CreateProject;
  lf_DeleteProject := http_DeleteProject;
  lf_ListAPIKeys := http_ListAPIKeys;
  lf_CreateAPIKey := http_CreateAPIKey;
  lf_DeleteAPIKey := http_DeleteAPIKey;
  lf_GetBackgroundMigrations := http_GetBackgroundMigrations
|}.

Section client.
Context `{LangfuseAPI W}.

Definition Health (c : httpClient) := call (lf_Health c) (λ r, CLangfuse c (AHealth r)).
Definition ListOrganizations (c : httpClient) :=
  call (lf_ListOrganizations c) (λ r, CLangfuse c (AListOrganizations r)).
Definition GetOrganization (c : httpClient) (id : string) :=
  call (lf_GetOrganization c id) (λ r, CLangfuse c (AGetOrganization id r)).
Definition CreateOrganization (c : httpClient) (name : string) :=
  call (lf_CreateOrganization c name) (λ r, CLangfuse c (ACreateOrganization name r)).
Definition UpdateOrganization (c : httpClient) (id name : string) :=
  call (lf_UpdateOrganization c id name) (λ r, CLangfuse c (AUpdateOrganization id name r)).
Definition DeleteOrganization (c : httpClient) (id : string) :=
  call (lf_DeleteOrganization c id) (λ r, CLangfuse c (ADeleteOrganization id r)).
Definition ListOrgMembers (c : httpClient) (orgID : string) :=
  call (lf_ListOrgMembers c orgID) (λ r, CLangfuse c (AListOrgMembers orgID r)).
Definition AddOrgMember (c : httpClient) (orgID email role : string) :=
  call (lf_AddOrgMember c orgID email role) (λ r, CLangfuse c (AAddOrgMember orgID email role r)).
Definition UpdateOrgMemberRole (c : httpClient) (orgID memberID role : string) :=
  call (lf_UpdateOrgMemberRole c orgID memberID role) (λ r, CLangfuse c (AUpdateOrgMemberRole orgID memberID role r)).
Definition RemoveOrgMember (c : httpClient) (orgID memberID : string) :=
  call (lf_RemoveOrgMember c orgID memberID) (λ r, CLangfuse c (ARemoveOrgMember orgID memberID r)).
Definition CreateOrganizationAPIKey (c : httpClient) (orgID note : string) :=
  call (lf_CreateOrganizationAPIKey c orgID note) (λ r, CLangfuse c (ACreateOrganizationAPIKey orgID note r)).
Definition ListProjects (c : httpClient) := call (lf_ListProjects c) (λ r, CLangfuse c (AListProjects r)).
Definition GetProject (c : httpClient) (projectID : string) :=
  call (lf_GetProject c projectID) (λ r, CLangfuse c (AGetProject projectID r)).
Definition CreateProject (c : httpClient) (name : string) :=
  call (lf_CreateProject c name) (λ r, CLangfuse c (ACreateProject name r)).
Definition DeleteProject (c : httpClient) (projectID : string) :=
  call (lf_DeleteProject c projectID) (λ r, CLangfuse c (ADeleteProject projectID r)).
Definition ListAPIKeys (c : httpClient) (projectID : string) :=
  call (lf_ListAPIKeys c projectID) (λ r, CLangfuse c (AListAPIKeys projectID r)).
Definition CreateAPIKey (c : httpClient) (projectID note : string) :=
  call (lf_CreateAPIKey c projectID note) (λ r, CLangfuse c (ACreateAPIKey projectID note r)).
Definition DeleteAPIKey (c : httpClient) (projectID apiKeyID : string) :=
  call (lf_DeleteAPIKey c projectID apiKeyID) (λ r, CLangfuse c (ADeleteAPIKey projectID apiKeyID r)).
Definition GetBackgroundMigrations (c : httpClient) :=
  call (lf_GetBackgroundMigrations c) (λ r, CLangfuse c (AGetBackgroundMigrations r)).
End client.

(** ** A server of members

    What the organization controller relies on of a server that answers every call:
    the members of an organization are a list, which each call reads or changes. *)

Class OrgServer (W : Type) `{LangfuseAPI W} := { members_of : httpClient → string → W → list OrgMember }.

Definition set_role (id role : string) (m : OrgMember) : OrgMember :=
  if String.eqb (OrgMember_ID m) id then mkOrgMember (OrgMember_ID m) (OrgMember_Email m) role else m.

Definition member_ids (l : list OrgMember) : list string := OrgMember_ID <$> l.
Definition member_emails (l : list OrgMember) : list string := OrgMember_Email <$> l.

Class OrgServerLaws (W : Type) `{OrgServer W} : Prop := {
  listing c o w : lf_ListOrgMembers c o w = (Ok (members_of c o w), w);
  adding c o email role w :
    email ∉ member_emails (members_of c o w) →
    ∃ m w', lf_AddOrgMember c o email role w = (Ok m, w') ∧
      OrgMember_Email m = email ∧ OrgMember_Role m = role ∧ (OrgMember_ID m ∉ member_ids (members_of c o w)) ∧
      members_of c o w' = members_of c o w ++ [m];
  promoting c o id role w :
    id ∈ member_ids (members_of c o w) →
    ∃ w', lf_UpdateOrgMemberRole c o id role w = (None, w') ∧
      members_of c o w' = (set_role id role <$> members_of c o w);
  removing c o id w :
    id ∈ member_ids (members_of c o w) →
    ∃ w', lf_RemoveOrgMember c o id w = (None, w') ∧
      members_of c o w' = filter (λ m, OrgMember_ID m ≠ id) (members_of c o w)
}.

(** ** The API as the server documents it

    Each request: its method, the segments of its path, the members of its body. *)

Inductive APIRequest :=
  | RHealth
  | RListOrganizations
  | RGetOrganization (id : string)
  | RCreateOrganization (name : string)
  | RUpdateOrganization (id name : string)
  | RDeleteOrganization (id : string)
  | RListOrgMembers (orgID : string)
  | RAddOrgMember (orgID email role : string)
  | RUpdateOrgMemberRole (orgID memberID role : string)
  | RRemoveOrgMember (orgID memberID : string)
  | RCreateOrganizationAPIKey (orgID note : string)
  | RListProjects
  | RGetProject (projectID : string)
  | RCreateProject (name : string)
  | RDeleteProject (projectID : string)
  | RListAPIKeys (projectID : string)
  | RCreateAPIKey (projectID note : string)
  | RDeleteAPIKey (projectID apiKeyID : string)
  | RGetBackgroundMigrations.

(** Performs a request, with its answer as the trace records it. *)
Definition perform `{LangfuseAPI W} (c : httpClient) (q : APIRequest) (w : W) : APICall * W :=
  match q with
  | RHealth => let '(r, w) := lf_Health c w in (AHealth r, w)
  | RListOrganizations => let '(r, w) := lf_ListOrganizations c w in (AListOrganizations r, w)
  | RGetOrganization id => let '(r, w) := lf_GetOrganization c id w in (AGetOrganization id r, w)
  | RCreateOrganization name => let '(r, w) := lf_CreateOrganization c name w in (ACreateOrganization name r, w)
  | RUpdateOrganization id name => let '(r, w) := lf_UpdateOrganization c id name w in (AUpdateOrganization id name r, w)
  | RDeleteOrganization id => let '(r, w) := lf_DeleteOrganization c id w in (ADeleteOrganization id r, w)
  | RListOrgMembers orgID => let '(r, w) := lf_ListOrgMembers c orgID w in (AListOrgMembers orgID r, w)
  | RAddOrgMember orgID email role => let '(r, w) := lf_AddOrgMember c orgID email role w in (AAddOrgMember orgID email role r, w)
  | RUpdateOrgMemberRole orgID memberID role => let '(r, w) := lf_UpdateOrgMemberRole c orgID memberID role w in (AUpdateOrgMemberRole orgID memberID role r, w)
  | RRemoveOrgMember orgID memberID => let '(r, w) := lf_RemoveOrgMember c orgID memberID w in (ARemoveOrgMember orgID memberID r, w)
  | RCreateOrganizationAPIKey orgID note => let '(r, w) := lf_CreateOrganizationAPIKey c orgID note w in (ACreateOrganizationAPIKey orgID note r, w)
  | RListProjects => let '(r, w) := lf_ListProjects c w in (AListProjects r, w)
  | RGetProject projectID => let '(r, w) := lf_GetProject c projectID w in (AGetProject projectID r, w)
  | RCreateProject name => let '(r, w) := lf_CreateProject c name w in (ACreateProject name r, w)
  | RDeleteProject projectID => let '(r, w) := lf_DeleteProject c projectID w in (ADeleteProject projectID r, w)
  | RListAPIKeys projectID => let '(r, w) := lf_ListAPIKeys c projectID w in (AListAPIKeys projectID r, w)
  | RCreateAPIKey projectID note => let '(r, w) := lf_CreateAPIKey c projectID note w in (ACreateAPIKey projectID note r, w)
  | RDeleteAPIKey projectID apiKeyID => let '(r, w) := lf_DeleteAPIKey c projectID apiKeyID w in (ADeleteAPIKey projectID apiKeyID r, w)
  | RGetBackgroundMigrations => let '(r, w) := lf_GetBackgroundMigrations c w in (AGetBackgroundMigrations r, w)
  end.

Definition admin_path (segments : list string) : list string := ["api"; "admin"; "organizations"] ++ segments.
Definition public_path (segments : list string) : list string := ["api"; "public"] ++ segments.

Definition rest_route (q : APIRequest) : string * list string * option (list (string * string)) :=
  match q with
  | RHealth => ("GET", public_path ["health"], None)
  | RListOrganizations => ("GET", admin_path [], None)
  | RGetOrganization id => ("GET", admin_path [id], None)
  | RCreateOrganization name => ("POST", admin_path [], Some [("name", name)])
  | RUpdateOrganization id name => ("PUT", admin_path [id], Some [("name", name)])
  | RDeleteOrganization id => ("DELETE", admin_path [id], None)
  | RListOrgMembers orgID => ("GET", admin_path [orgID; "members"], None)
  | RAddOrgMember orgID email role => ("POST", admin_path [orgID; "members"], Some [("email", email); ("role", role)])
  | RUpdateOrgMemberRole orgID memberID role => ("PUT", admin_path [orgID; "members"; memberID], Some [("role", role)])
  | RRemoveOrgMember orgID memberID => ("DELETE", admin_path [orgID; "members"; memberID], None)
  | RCreateOrganizationAPIKey orgID note => ("POST", admin_path [orgID; "apiKeys"], Some [("note", note)])
  | RListProjects => ("GET", public_path ["projects"], None)
  | RGetProject projectID => ("GET", public_path ["projects"; projectID], None)
  | RCreateProject name => ("POST", public_path ["projects"], Some [("name", name)])
  | RDeleteProject projectID => ("DELETE", public_path ["projects"; projectID], None)
  | RListAPIKeys projectID => ("GET", public_path ["projects"; projectID; "apiKeys"], None)
  | RCreateAPIKey projectID note => ("POST", public_path ["projects"; projectID; "apiKeys"], Some [("note", note)])
  | RDeleteAPIKey projectID apiKeyID => ("DELETE", public_path ["projects"; projectID; "apiKeys"; apiKeyID], None)
  | RGetBackgroundMigrations => ("GET", public_path ["background-migrations"], None)
  end.

Definition rest_request (c : httpClient) (q : APIRequest) : HTTPRequest :=
  let '(method, path, body) := rest_route q in
  mkRequest method (hc_baseURL c +:+ "/" +:+ Join path "/")
    (match body with
     | Some _ => [("Authorization", hc_authHeader c); ("Content-Type", "application/json"); ("Accept", "application/json")]
     | None => [("Authorization", hc_authHeader c); ("Accept", "application/json")]
     end)
    (from_option Marshal "" body) None.

Definition res_error {A} (r : result A) : option GoError := match r with Ok _ => None | Err e => Some e end.

Definition call_error (a : APICall) : option GoError :=
  match a with
  | AHealth r => r
  | AListOrganizations r => res_error r
  | AGetOrganization _ r => res_error r
  | ACreateOrganization _ r => res_error r
  | AUpdateOrganization _ _ r => res_error r
  | ADeleteOrganization _ r => r
  | AListOrgMembers _ r => res_error r
  | AAddOrgMember _ _ _ r => res_error r
  | AUpdateOrgMemberRole _ _ _ r => r
  | ARemoveOrgMember _ _ r => r
  | ACreateOrganizationAPIKey _ _ r => res_error r
  | AListProjects r => res_error r
  | AGetProject _ r => res_error r
  | ACreateProject _ r => res_error r
  | ADeleteProject _ r => r
  | AListAPIKeys _ r => res_error r
  | ACreateAPIKey _ _ r => res_error r
  | ADeleteAPIKey _ _ r => r
  | AGetBackgroundMigrations r => res_error r
  end.

(** The members of an answer that carries one object, and the value it stands for. *)
Inductive reply : APIRequest → list (string * string) → APICall → Prop :=
  | reply_get_organization id o :
      reply (RGetOrganization id) [("id", Organization_ID o); ("name", Organization_Name o)]
        (AGetOrganization id (Ok o))
  | reply_create_organization name o :
      reply (RCreateOrganization name) [("id", Organization_ID o); ("name", Organization_Name o)]
        (ACreateOrganization name (Ok o))
  | reply_update_organization id name o :
      reply (RUpdateOrganization id name) [("id", Organization_ID o); ("name", Organization_Name o)]
        (AUpdateOrganization id name (Ok o))
  | reply_add_member org email role m :
      reply (RAddOrgMember org email role)
        [("email", OrgMember_Email m); ("id", OrgMember_ID m); ("role", OrgMember_Role m)]
        (AAddOrgMember org email role (Ok m))
  | reply_organization_key org note k :
      reply (RCreateOrganizationAPIKey org note)
        [("id", APIKeyPair_ID k); ("publicKey", APIKeyPair_PublicKey k); ("secretKey", APIKeyPair_SecretKey k)]
        (ACreateOrganizationAPIKey org note (Ok k))
  | reply_get_project id p :
      reply (RGetProject id) [("id", LFProject_ID p); ("name", LFProject_Name p)] (AGetProject id (Ok p))
  | reply_create_project name p :
      reply (RCreateProject name) [("id", LFProject_ID p); ("name", LFProject_Name p)] (ACreateProject name (Ok p))
  | reply_project_key project note k :
      reply (RCreateAPIKey project note)
        [("id", APIKeyPair_ID k); ("publicKey", APIKeyPair_PublicKey k); ("secretKey", APIKeyPair_SecretKey k)]
        (ACreateAPIKey project note (Ok k)).

Lemma decode_Marshal {A} fill (zero v : A) ms status broken :
  ms ≠ [] → Forall utf8_member ms → fill (JObject (text_members ms)) zero = (v, false) →
  decodeBody fill zero (status, Marshal ms, broken) = Ok v.
Proof. intros Hn Hu Hf. unfold decodeBody, Decode. rewrite read_Marshal by done. by rewrite Hf. Qed.

(** No error of the transport is an answer of the API. *)
Class TransportLaws (W : Type) `{HTTPTransport W} : Prop := {
  transport_error r w :
    match (http_Do r w).1 with
    | BadRequest e | NoResponse e | Response _ _ (Some e) => err_kind e = KindOther
    | Response _ _ None => True
    end
}.

(** The status an answer carries. *)
Definition answer_status (a : HTTPAnswer) : option Z :=
  match a with Response status _ _ => Some status | _ => None end.

Definition succeeded (a : HTTPAnswer) : Prop := ∃ status, answer_status a = Some status ∧ 200 ≤ status < 300.

Lemma succeeded_check status : (status >=? 200) && (status <? 300) = true ↔ 200 ≤ status < 300.
Proof. rewrite andb_true_iff, Z.geb_le, Z.ltb_lt. done. Qed.

(** The answer as [doRequest] returns it. *)
Definition answered (a : HTTPAnswer) : result HTTPResponse :=
  match a with
  | BadRequest e => Err (wrapError "building request" e)
  | NoResponse e => Err (wrapError "executing request" e)
  | Response status body broken => Ok (status, body, broken)
  end.

Definition transport_ok (a : HTTPAnswer) : Prop :=
  match a with
  | BadRequest e | NoResponse e | Response _ _ (Some e) => err_kind e = KindOther
  | Response _ _ None => True
  end.

(** What a method reads is an error or a value by the status alone, and forbidden on
    403 alone, when its decoder returns no API error. *)
Lemma readResponse_status {A} what (read : HTTPResponse → result A) a :
  transport_ok a → (∀ status body broken e, a = Response status body broken → read (status, body, broken) = Err e → err_kind e = KindOther) →
  (is_ok (readResponse what read (answered a)) = true → succeeded a) ∧
  (∀ e, readResponse what read (answered a) = Err e → IsForbidden e = true ↔ answer_status a = Some 403).
Proof.
  intros Ha Hread. destruct a as [e|e|status body broken]; cbn.
  - split; [done|]. intros e' [= <-]. unfold IsForbidden. cbn. cbn in Ha. by rewrite Ha.
  - split; [done|]. intros e' [= <-]. unfold IsForbidden. cbn. cbn in Ha. by rewrite Ha.
  - destruct (_ && _) eqn:E.
    + apply succeeded_check in E. split; [intros _; by exists status|].
      destruct (read _) as [v|e] eqn:Er; [done|]. intros e' [= <-]. unfold IsForbidden. cbn.
      rewrite (Hread _ _ _ _ eq_refl Er). split; [done|]. intros [= ->]. lia.
    + split; [done|]. intros e' [= <-]. unfold IsForbidden. cbn. unfold StatusForbidden.
      rewrite Z.eqb_eq. split; [by intros ->|by intros [= ->]].
Qed.

Lemma decodeBody_kind {A} fill (zero : A) a status body broken e :
  transport_ok a → a = Response status body broken → decodeBody fill zero (status, body, broken) = Err e →
  err_kind e = KindOther.
Proof.
  intros Ha ->. unfold decodeBody, Decode. destruct (read_value body) as [j|].
  - destruct (fill j zero) as [v []]; intros E; [by injection E as <-|done].
  - destruct broken as [e'|]; intros E; injection E as <-; [exact Ha|done].
Qed.

Lemma readStatus_status what a :
  transport_ok a →
  (readStatus what (answered a) = None → succeeded a) ∧
  (∀ e, readStatus what (answered a) = Some e → IsForbidden e = true ↔ answer_status a = Some 403).
Proof.
  intros Ha. unfold readStatus.
  destruct (readResponse_status what (λ _ : HTTPResponse, Ok tt) a Ha ltac:(done)) as [H1 H2].
  destruct (readResponse what _ (answered a)) as [[]|e]; [by split; [intros; apply H1|]|].
  split; [done|]. intros e' [= <-]. by apply H2.
Qed.

Section rest.
Context {W : Type} `{HTTP : HTTPTransport W}.

Lemma doRequest_rest c q w method path body :
  rest_route q = (method, path, body) →
  doRequest c method ("/" +:+ Join path "/") body w =
  (answered (http_Do (rest_request c q) w).1, (http_Do (rest_request c q) w).2).
Proof.
  intros Hr. unfold doRequest, rest_request. rewrite Hr.
  destruct body as [ms|]; cbn [app from_option]; by destruct (http_Do _ w) as [[] w'].
Qed.

(** The call a method makes is the one its request documents. *)
Ltac by_request q :=
  match goal with
  | |- context [doRequest ?c ?m ?p ?b ?w] =>
      replace (doRequest c m p b w)
        with (answered (http_Do (rest_request c q) w).1, (http_Do (rest_request c q) w).2)
        by (symmetry; exact (doRequest_rest c q w _ _ _ eq_refl))
  end.

Ltac by_method c q :=
  unfold perform; cbn [http_langfuse lf_Health lf_ListOrganizations lf_GetOrganization lf_CreateOrganization
    lf_UpdateOrganization lf_DeleteOrganization lf_ListOrgMembers lf_AddOrgMember lf_UpdateOrgMemberRole
    lf_RemoveOrgMember lf_CreateOrganizationAPIKey lf_ListProjects lf_GetProject lf_CreateProject
    lf_DeleteProject lf_ListAPIKeys lf_CreateAPIKey lf_DeleteAPIKey lf_GetBackgroundMigrations];
  unfold http_Health, http_ListOrganizations, http_GetOrganization, http_CreateOrganization,
    http_UpdateOrganization, http_DeleteOrganization, http_ListOrgMembers, http_AddOrgMember,
    http_UpdateOrgMemberRole, http_RemoveOrgMember, http_CreateOrganizationAPIKey, http_ListProjects,
    http_GetProject, http_CreateProject, http_DeleteProject, http_ListAPIKeys, http_CreateAPIKey,
    http_DeleteAPIKey, http_GetBackgroundMigrations;
  by_request q.

(** C29: the client speaks the documented API.  Each method sends one request, the one
    the API documents for it, with the client's credentials; it reports success only
    when the answer is a 2xx, and its error counts as forbidden exactly when the
    answer is a 403, not when the request failed or the answer could not be read. *)
Theorem client_speaks_rest {TL : TransportLaws W} c q w :
  let '(a, w') := http_Do (rest_request c q) w in
  let '(r, w'') := perform c q w in
  w'' = w' ∧ (call_error r = None → succeeded a) ∧
  (∀ e, call_error r = Some e → IsForbidden e = true ↔ answer_status a = Some 403).
Proof.
  pose proof (transport_error (rest_request c q) w) as Ha.
  destruct (http_Do (rest_request c q) w) as [a w'] eqn:Hdo. change (transport_ok a) in Ha.
  assert (∀ what, (readStatus what (answered a) = None → succeeded a) ∧ (∀ e, readStatus what (answered a) = Some e → IsForbidden e = true ↔ answer_status a = Some 403)) as Hs
    by (intros what; by apply readStatus_status).
  assert (∀ A what fill (zero : A),
    (res_error (readResponse what (decodeBody fill zero) (answered a)) = None → succeeded a) ∧
    (∀ e, res_error (readResponse what (decodeBody fill zero) (answered a)) = Some e →
       IsForbidden e = true ↔ answer_status a = Some 403)) as Hr.
  { intros A what fill zero. destruct (readResponse_status what (decodeBody fill zero) a Ha) as [H1 H2].
    { intros. by eapply decodeBody_kind. }
    destruct (readResponse _ _ _) as [v|e]; cbn; [by split; [intros; apply H1|]|].
    split; [done|]. intros e' [= <-]. by apply H2. }
  destruct q as [| |id|name|id name|id|o|o email role|o m role|o m|o n| |p|name|p|p|p n|p k|]; cbn beta iota;
  lazymatch goal with |- context [perform _ ?q _] => by_method c q end; rewrite Hdo; cbn [fst snd call_error];
    (split; [done|]); first [apply Hs | apply Hr].
Qed.

(** C30: UTF-8 texts survive the wire, in bodies.  When the arguments that go into the
    body of a request are UTF-8, the server reads from it exactly the members documented
    for the method; and when the server answers 2xx with one object whose fields are
    UTF-8, as a JSON text, the method returns that object, quotes, control bytes and line
    separators included.  Other bytes are replaced by U+FFFD in encoding; ids in paths
    and lists of objects are not the subject here. *)
Theorem client_roundtrip c q w :
  (∀ method path ms, rest_route q = (method, path, Some ms) → Forall utf8_member ms →
     read_value (req_Body (rest_request c q)) = Some (JObject (text_members ms))) ∧
  (∀ ms a status broken w', reply q ms a → Forall utf8_member ms → 200 ≤ status < 300 →
     http_Do (rest_request c q) w = (Response status (Marshal ms) broken, w') →
     perform c q w = (a, w')).
Proof.
  split.
  - intros method path ms Hr Hu. unfold rest_request. rewrite Hr. cbn.
    apply read_Marshal; [|done]. by destruct q; simplify_eq/=.
  - intros ms a status broken w' Hr Hu Hst Hdo. apply succeeded_check in Hst.
    assert (∀ A what fill (zero v : A), ms ≠ [] → fill (JObject (text_members ms)) zero = (v, false) →
      readResponse what (decodeBody fill zero) (Ok (status, Marshal ms, broken)) = Ok v) as Hread.
    { intros. unfold readResponse, checkResponse. rewrite Hst. by erewrite decode_Marshal. }
    inversion Hr; subst q ms a;
      lazymatch goal with |- perform _ ?q _ = _ => by_method c q end; rewrite Hdo; cbn [fst snd answered];
      lazymatch goal with |- context [readResponse _ (decodeBody ?f ?z) _] =>
        erewrite (Hread _ _ f z); [reflexivity|done|] end.
    all: match goal with |- _ = (?v, _) => by destruct v end.
Qed.
End rest.

(** ** Witnesses: a transport that always gives the same answer *)

Definition canned (a : HTTPAnswer) : HTTPTransport unit := {| http_Do _ w := (a, w) |}.

Definition ex_forbidden : HTTPAnswer := Response 403 "not available on your current plan" None.

Lemma canned_laws : TransportLaws (H := canned ex_forbidden) unit.
Proof. by split. Qed.

Definition ex_client : httpClient := NewAdminClient "http://lf-web.default.svc:3000/" "key".

Definition ex_create : APICall := (perform (H := http_langfuse (H := canned ex_forbidden))
                                     ex_client (RCreateOrganization "acme") tt).1.

Lemma client_speaks_rest_witness :
  req_URL (rest_request ex_client (RCreateOrganization "acme")) =
    "http://lf-web.default.svc:3000/api/admin/organizations" ∧
  ∃ e, call_error ex_create = Some e ∧ IsForbidden e = true.
Proof.
  split; [reflexivity|].
  pose proof (client_speaks_rest (HTTP := canned ex_forbidden) (TL := canned_laws) ex_client
    (RCreateOrganization "acme") tt) as H. cbn beta iota in H.
  destruct H as (_ & _ & Hf). eexists. split; [reflexivity|]. by apply Hf.
Defined.

(** A name with a double quote, a newline and a two-byte letter. *)
Definition ex_odd_name : string := chr 34 +:+ chr 10 +:+ chr 195 +:+ chr 169.

Definition ex_org : Organization := mkOrganization "o-1" ex_odd_name.

Definition ex_created : HTTPTransport unit :=
  canned (Response 201 (Marshal [("id", "o-1"); ("name", ex_odd_name)]) None).

Lemma ex_odd_name_utf8 : utf8 ex_odd_name.
Proof. do 2 (apply utf8_ascii; [cbv; lia|]). apply utf8_two; [reflexivity|]. constructor. Qed.

Fixpoint all_ascii (s : string) : bool :=
  match s with "" => true | String c s => (code c <? 128)%nat && all_ascii s end.

Lemma ascii_utf8 s : all_ascii s = true → utf8 s.
Proof.
  induction s as [|c s IH]; cbn [all_ascii]; [by constructor|]. intros [Hc%Nat.ltb_lt Hs]%andb_true_iff.
  by apply utf8_ascii; auto.
Qed.

Lemma client_roundtrip_witness :
  perform (H := http_langfuse (H := ex_created)) ex_client (RGetOrganization "o-1") tt =
  (AGetOrganization "o-1" (Ok ex_org), tt).
Proof.
  destruct (client_roundtrip (HTTP := ex_created) ex_client (RGetOrganization "o-1") tt) as [_ H].
  apply (H [("id", "o-1"); ("name", ex_odd_name)] _ 201 None tt).
  - exact (reply_get_organization "o-1" ex_org).
  - apply Forall_cons. split; [split; by apply ascii_utf8|]. apply Forall_singleton.
    split; [by apply ascii_utf8|exact ex_odd_name_utf8].
  - lia.
  - reflexivity.
Defined.
