(* ===== verification/Tenancy.v ===== *)
(** * A cluster with a Langfuse server, to run the tenant controllers on examples

    The concrete cluster of [Kube], organizations and projects in it, and a Langfuse
    instance in memory that answers the API, with one fault: the error its lookups
    answer with, if any. *)

From S2P Require Import Prelude GoStd GoNet GoJSON KubeTypes ApiTypes LangfuseTypes Kube LangfuseClient.

Open Scope string_scope.
Open Scope list_scope.
Open Scope Z_scope.

Record Tenancy := mkTenancy {
  tn_cluster : FakeCluster;
  tn_orgs : gmap NamespacedName LangfuseOrganization;
  tn_projects : gmap NamespacedName LangfuseProject;
  lf_orgs : list Organization;
  lf_members : gmap string (list OrgMember);
  lf_projects : list LFProject;
  lf_keys : gmap string (list APIKey);
  lf_lookup_error : option GoError
}.

Definition set_cluster (c : FakeCluster) (w : Tenancy) : Tenancy :=
  mkTenancy c (tn_orgs w) (tn_projects w) (lf_orgs w) (lf_members w) (lf_projects w) (lf_keys w) (lf_lookup_error w).
Definition set_orgs (f : gmap NamespacedName LangfuseOrganization → gmap NamespacedName LangfuseOrganization)
    (w : Tenancy) : Tenancy :=
  mkTenancy (tn_cluster w) (f (tn_orgs w)) (tn_projects w) (lf_orgs w) (lf_members w) (lf_projects w) (lf_keys w)
    (lf_lookup_error w).
Definition set_projects (f : gmap NamespacedName LangfuseProject → gmap NamespacedName LangfuseProject)
    (w : Tenancy) : Tenancy :=
  mkTenancy (tn_cluster w) (tn_orgs w) (f (tn_projects w)) (lf_orgs w) (lf_members w) (lf_projects w) (lf_keys w)
    (lf_lookup_error w).
Definition set_lf_orgs (l : list Organization) (w : Tenancy) : Tenancy :=
  mkTenancy (tn_cluster w) (tn_orgs w) (tn_projects w) l (lf_members w) (lf_projects w) (lf_keys w) (lf_lookup_error w).
Definition set_lf_members (o : string) (l : list OrgMember) (w : Tenancy) : Tenancy :=
  mkTenancy (tn_cluster w) (tn_orgs w) (tn_projects w) (lf_orgs w) (<[o := l]> (lf_members w)) (lf_projects w)
    (lf_keys w) (lf_lookup_error w).
Definition set_lf_projects (l : list LFProject) (w : Tenancy) : Tenancy :=
  mkTenancy (tn_cluster w) (tn_orgs w) (tn_projects w) (lf_orgs w) (lf_members w) l (lf_keys w) (lf_lookup_error w).
Definition set_lf_keys (p : string) (l : list APIKey) (w : Tenancy) : Tenancy :=
  mkTenancy (tn_cluster w) (tn_orgs w) (tn_projects w) (lf_orgs w) (lf_members w) (lf_projects w)
    (<[p := l]> (lf_keys w)) (lf_lookup_error w).

(** ** The cluster *)

Definition on_cluster {A} (op : FakeCluster → A * FakeCluster) (w : Tenancy) : A * Tenancy :=
  let '(a, c) := op (tn_cluster w) in (a, set_cluster c w).

#[global] Instance tenancy_client : KubeClient Tenancy := {|
  kc_get_instance k := on_cluster (kc_get_instance k);
  kc_get_deployment k := on_cluster (kc_get_deployment k);
  kc_get_job k := on_cluster (kc_get_job k);
  kc_get_secret k := on_cluster (kc_get_secret k);
  kc_list_instances ns := on_cluster (kc_list_instances ns);
  kc_list_pods ns sel := on_cluster (kc_list_pods ns sel);
  kc_update_status i := on_cluster (kc_update_status i);
  kc_create_job j := on_cluster (kc_create_job j);
  kc_delete_job k p := on_cluster (kc_delete_job k p);
  kc_patch_replicas k n := on_cluster (kc_patch_replicas k n);
  kc_patch_template_annotation k key v o := on_cluster (kc_patch_template_annotation k key v o);
  kc_create_secret s w :=
    if bool_decide (is_Some (fk_secrets (tn_cluster w) !! om_key (sec_Meta s)))
    then (Some (mkErr KindAlreadyExists "secret already exists"), w)
    else (None, set_cluster (set_secrets (<[om_key (sec_Meta s) := s]>) (tn_cluster w)) w);
  kc_update_secret s := on_cluster (kc_update_secret s);
  kc_event t r m := on_cluster (kc_event t r m);
  kc_now := on_cluster kc_now
|}.

Definition lookup_or {V} (what : string) (k : NamespacedName) (o : option V) : result V :=
  match o with Some v => Ok v | None => Err (not_found what k) end.

(** An update leaves the status the server holds. *)
#[global] Instance tenancy_tenants : TenantClient Tenancy := {|
  kc_get_organization k w := (lookup_or "langfuseorganization" k (tn_orgs w !! k), w);
  kc_update_organization o w :=
    let k := om_key (Org_ObjectMeta o) in
    let o := set_Org_Status (from_option Org_Status (Org_Status o) (tn_orgs w !! k)) o in
    (Ok o, set_orgs (<[k := o]>) w);
  kc_update_organization_status o w := (None, set_orgs (<[om_key (Org_ObjectMeta o) := o]>) w);
  kc_list_projects w := (Ok (map_to_list (tn_projects w)).*2, w);
  kc_get_project k w := (lookup_or "langfuseproject" k (tn_projects w !! k), w);
  kc_update_project p w :=
    let k := om_key (Project_ObjectMeta p) in
    let p := set_Project_Status (from_option Project_Status (Project_Status p) (tn_projects w !! k)) p in
    (Ok p, set_projects (<[k := p]>) w);
  kc_update_project_status p w := (None, set_projects (<[om_key (Project_ObjectMeta p) := p]>) w);
  kc_delete_secret k w := (None, set_cluster (set_secrets (delete k) (tn_cluster w)) w)
|}.

(** ** The Langfuse server *)

Definition no_such (what : string) : GoError := apiError 404 (what +:+ " not found").

Definition find_or {A} (w : Tenancy) (what : string) (P : A → bool) (l : list A) : result A :=
  match lf_lookup_error w, find P l with
  | Some e, _ => Err e
  | None, Some a => Ok a
  | None, None => Err (no_such what)
  end.

Definition members_in (w : Tenancy) (o : string) : list OrgMember := default [] (lf_members w !! o).
Definition keys_in (w : Tenancy) (p : string) : list APIKey := default [] (lf_keys w !! p).

#[global] Instance tenancy_langfuse : LangfuseAPI Tenancy := {|
  lf_Health _ w := (None, w);
  lf_ListOrganizations _ w := (Ok (lf_orgs w), w);
  lf_GetOrganization _ id w := (find_or w "organization" (λ o, String.eqb (Organization_ID o) id) (lf_orgs w), w);
  lf_CreateOrganization _ name w :=
    let o := mkOrganization (fresh (Organization_ID <$> lf_orgs w)) name in
    (Ok o, set_lf_orgs (lf_orgs w ++ [o]) w);
  lf_UpdateOrganization _ id name w :=
    (Ok (mkOrganization id name),
     set_lf_orgs ((λ o, if String.eqb (Organization_ID o) id then mkOrganization id name else o) <$> lf_orgs w) w);
  lf_DeleteOrganization _ id w := (None, set_lf_orgs (filter (λ o, Organization_ID o ≠ id) (lf_orgs w)) w);
  lf_ListOrgMembers _ o w := (Ok (members_in w o), w);
  lf_AddOrgMember _ o email role w :=
    let m := mkOrgMember (fresh (OrgMember_ID <$> members_in w o)) email role in
    (Ok m, set_lf_members o (members_in w o ++ [m]) w);
  lf_UpdateOrgMemberRole _ o id role w :=
    (None, set_lf_members o (set_role id role <$> members_in w o) w);
  lf_RemoveOrgMember _ o id w :=
    (None, set_lf_members o (filter (λ m, OrgMember_ID m ≠ id) (members_in w o)) w);
  lf_CreateOrganizationAPIKey _ _ _ w := (Ok (mkAPIKeyPair "ok-1" "pk-org" "sk-org"), w);
  lf_ListProjects _ w := (Ok (lf_projects w), w);
  lf_GetProject _ id w := (find_or w "project" (λ p, String.eqb (LFProject_ID p) id) (lf_projects w), w);
  lf_CreateProject _ name w :=
    let p := mkLFProject (fresh (LFProject_ID <$> lf_projects w)) name in
    (Ok p, set_lf_projects (lf_projects w ++ [p]) w);
  lf_DeleteProject _ id w := (None, set_lf_projects (filter (λ p, LFProject_ID p ≠ id) (lf_projects w)) w);
  lf_ListAPIKeys _ p w := (Ok (keys_in w p), w);
  lf_CreateAPIKey _ p _ w :=
    let pk := fresh (APIKey_PublicKey <$> keys_in w p) in
    (Ok (mkAPIKeyPair pk pk ("sk-" +:+ pk)), set_lf_keys p (keys_in w p ++ [mkAPIKey pk pk]) w);
  lf_DeleteAPIKey _ p id w := (None, set_lf_keys p (filter (λ k, APIKey_ID k ≠ id) (keys_in w p)) w);
  lf_GetBackgroundMigrations _ w := (Ok zero_BackgroundMigrations, w)
|}.

(** The server's members are a list as the controllers expect. *)
#[global] Instance tenancy_server : OrgServer Tenancy := {| members_of _ o w := members_in w o |}.

Lemma members_in_set o l w : members_in (set_lf_members o l w) o = l.
Proof. unfold members_in. cbn. by rewrite lookup_insert_eq. Qed.

#[global] Instance tenancy_server_laws : OrgServerLaws Tenancy.
Proof.
  split; cbn.
  - done.
  - intros _ o email role w _. eexists _, _. split_and!; [reflexivity|done|done|apply infinite_is_fresh|].
    apply members_in_set.
  - intros _ o id role w _. eexists. split; [reflexivity|]. apply members_in_set.
  - intros _ o id w _. eexists. split; [reflexivity|]. apply members_in_set.
Qed.
