(* ===== verification/Organization.v ===== *)
(** * The organization controller ([internal/controller/langfuseorganization_controller.go])

    One pass of [LangfuseOrganizationReconciler.Reconcile]: it finds the instance,
    logs in to its admin API, makes the organization and its members what the
    resource asks for, and reports it; deletion waits for dependent projects. *)

From S2P Require Import Prelude GoStd KubeTypes ApiTypes LangfuseTypes Kube Examples Config Resources.
From S2P Require Import Phase LangfuseClient Tenancy.

Open Scope string_scope.
Open Scope list_scope.
Open Scope Z_scope.

Definition organizationFinalizer : string := "langfuse.palena.ai/organization-cleanup".
Definition orgResyncPeriod : Z := 5 * Minute.

(** ** The resource *)

Section status.
Context `{API : ConditionAPI}.

Definition org_condition (s : ConditionStatus) (reason message : string) (o : LangfuseOrganization)
    : LangfuseOrganization :=
  set_Org_Status (set_OrgStatus_Conditions
    (SetStatusCondition (OrgStatus_Conditions (Org_Status o))
       (condition conditionTypeReady s reason message (om_Generation (Org_ObjectMeta o))))
    (Org_Status o)) o.

Definition org_ready (ready : bool) (o : LangfuseOrganization) : LangfuseOrganization :=
  set_Org_Status (set_OrgStatus_Ready ready (Org_Status o)) o.

(** The Ready condition and flag of a pass that failed. *)
Definition org_failed (reason message : string) (o : LangfuseOrganization) : LangfuseOrganization :=
  org_ready false (org_condition ConditionFalse reason message o).

Definition org_synced (o : LangfuseOrganization) : LangfuseOrganization :=
  org_ready true (org_condition ConditionTrue "Synced" "Organization is synced with Langfuse" o).
End status.

Definition with_org_id (id : string) (o : LangfuseOrganization) : LangfuseOrganization :=
  set_Org_Status (set_OrgStatus_OrganizationID id (Org_Status o)) o.

Definition with_member_counts (synced : Z) (o : LangfuseOrganization) : LangfuseOrganization :=
  set_Org_Status (set_OrgStatus_MemberCount (Z.of_nat (length (OrganizationMembers_Users (OrgSpec_Members (Org_Spec o)))))
    (set_OrgStatus_SyncedMembers synced (Org_Status o))) o.

Definition with_project_count (n : Z) (o : LangfuseOrganization) : LangfuseOrganization :=
  set_Org_Status (set_OrgStatus_ProjectCount n (Org_Status o)) o.

(** The namespace a reference names, or the referrer's own. *)
Definition ref_key (ref : ObjectReference) (namespace : string) : NamespacedName :=
  let ns := ObjectReference_Namespace ref in
  mkKey (if nonempty_str ns then ns else namespace) (ObjectReference_Name ref).

(** A project that refers to the organization. *)
Definition depends_on (o : LangfuseOrganization) (p : LangfuseProject) : bool :=
  bool_decide (ref_key (ProjectSpec_OrganizationRef (Project_Spec p)) (om_Namespace (Project_ObjectMeta p)) =
               om_key (Org_ObjectMeta o)).

Definition eeLicenseMessage : string :=
  "The Langfuse organization-management API requires a self-hosted Enterprise/Pro license. " +:+
  "Set spec.eeLicenseKey on the LangfuseInstance. See docs/guide/multi-tenancy.md.".

(** ** The controller *)

Section controller.
Context {W : Type} `{KubeClient W} `{TenantClient W} `{LangfuseAPI W}.
Context `{API : ConditionAPI} `{FIN : FinalizerAPI}.

(** [resolveInstance], for the key a resource refers to. *)
Definition resolveInstanceAt (key : NamespacedName) : M (St W) (result LangfuseInstance) :=
  r ← Get_Instance key;
  mret match r with
       | Err e =>
           if IsNotFound e then Err (newError ("LangfuseInstance " +:+ quote (key_String key) +:+ " not found"))
           else Err (wrapError ("fetching LangfuseInstance " +:+ quote (key_String key)) e)
       | Ok instance =>
           if Status_Ready (Instance_Status instance) then Ok instance
           else Err (newError ("LangfuseInstance " +:+ quote (key_String key) +:+ " is not ready"))
       end.

Definition resolveInstance (o : LangfuseOrganization) : M (St W) (result LangfuseInstance) :=
  resolveInstanceAt (ref_key (OrgSpec_InstanceRef (Org_Spec o)) (om_Namespace (Org_ObjectMeta o))).

Definition instanceBaseURL (i : LangfuseInstance) : string :=
  "http://" +:+ om_Name (Instance_ObjectMeta i) +:+ "-web." +:+ om_Namespace (Instance_ObjectMeta i) +:+ ".svc:3000".

(** The Secret and key that hold the admin API key. *)
Definition adminKeyRef (i : LangfuseInstance) : string * string :=
  match Auth_AdminApiKey (Spec_Auth (Instance_Spec i)) ≫= SecretValue_SecretRef with
  | Some ref => (SecretKeyRef_Name ref, SecretKeyRef_Key ref)
  | None => (om_Name (Instance_ObjectMeta i) +:+ "-generated-secrets", "admin-api-key")
  end.

Definition buildLangfuseClient (i : LangfuseInstance) : M (St W) (result httpClient) :=
  let '(secretName, secretKey) := adminKeyRef i in
  let key := in_ns i secretName in
  r ← Get_Secret key;
  mret match r with
       | Err e => Err (wrapError ("getting admin API key secret " +:+ quote (key_String key)) e)
       | Ok secret =>
           let adminAPIKey := default "" (sec_Data secret !! secretKey) in
           if nonempty_str adminAPIKey then Ok (NewAdminClient (instanceBaseURL i) adminAPIKey)
           else Err (newError ("admin API key secret " +:+ quote (key_String key) +:+
                               " is missing key " +:+ quote secretKey))
       end.

(** *** The organization *)

(** The search by name, and the creation. *)
Definition findOrganization (c : httpClient) (o : LangfuseOrganization) : M (St W) (result string) :=
  let name := OrgSpec_DisplayName (Org_Spec o) in
  r ← ListOrganizations c;
  match r with
  | Err e => mret (Err (wrapError "listing organizations" e))
  | Ok orgs =>
      match find (λ x, String.eqb (Organization_Name x) name) orgs with
      | Some x => mret (Ok (Organization_ID x))
      | None =>
          r ← CreateOrganization c name;
          mret match r with
               | Err e => Err (wrapError "creating organization" e)
               | Ok created => Ok (Organization_ID created)
               end
      end
  end.

Definition syncOrganization (c : httpClient) (o : LangfuseOrganization) : M (St W) (result string) :=
  let id := OrgStatus_OrganizationID (Org_Status o) in
  let name := OrgSpec_DisplayName (Org_Spec o) in
  if nonempty_str id then
    r ← GetOrganization c id;
    match r with
    | Ok existing =>
        if String.eqb (Organization_Name existing) name then mret (Ok id)
        else
          r ← UpdateOrganization c id name;
          mret match r with
               | Err e => Err (wrapError "updating organization name" e)
               | Ok _ => Ok id
               end
    | Err _ => findOrganization c o
    end
  else findOrganization c o.

(** *** Members *)

(** The current members by email: of two with one email, the last. *)
Definition membersByEmail (l : list OrgMember) : gmap string OrgMember :=
  foldl (λ m x, <[OrgMember_Email x := x]> m) ∅ l.

(** One desired member: the error, if any. *)
Definition syncMember (c : httpClient) (orgID : string) (current : gmap string OrgMember)
    (desired : OrganizationMemberSpec) : M (St W) (option GoError) :=
  let email := OrganizationMember_Email desired in
  let role := OrganizationMember_Role desired in
  match current !! email with
  | Some existing =>
      if String.eqb (OrgMember_Role existing) role then mret None
      else
        e ← UpdateOrgMemberRole c orgID (OrgMember_ID existing) role;
        mret (wrapError ("updating role for member " +:+ quote email) <$> e)
  | None =>
      r ← AddOrgMember c orgID email role;
      mret match r with Err e => Some (wrapError ("adding member " +:+ quote email) e) | Ok _ => None end
  end.

Fixpoint syncUsers (c : httpClient) (orgID : string) (current : gmap string OrgMember)
    (users : list OrganizationMemberSpec) (synced : Z) : M (St W) (result Z) :=
  match users with
  | [] => mret (Ok synced)
  | u :: users =>
      e ← syncMember c orgID current u;
      match e with
      | Some e => mret (Err e)
      | None => syncUsers c orgID current users (synced + 1)
      end
  end.

Fixpoint removeUnlisted (c : httpClient) (orgID : string) (desiredEmails : gset string)
    (members : list OrgMember) : M (St W) (option GoError) :=
  match members with
  | [] => mret None
  | m :: members =>
      if bool_decide (OrgMember_Email m ∈ desiredEmails) then removeUnlisted c orgID desiredEmails members
      else
        e ← RemoveOrgMember c orgID (OrgMember_ID m);
        match e with
        | Some e => mret (Some (wrapError ("removing unlisted member " +:+ quote (OrgMember_Email m)) e))
        | None => removeUnlisted c orgID desiredEmails members
        end
  end.

Definition desiredEmails (o : LangfuseOrganization) : gset string :=
  list_to_set (OrganizationMember_Email <$> OrganizationMembers_Users (OrgSpec_Members (Org_Spec o))).

(** The changes, given the current members. *)
Definition applyMembers (c : httpClient) (o : LangfuseOrganization) (currentMembers : list OrgMember)
    : M (St W) (result Z) :=
  let members := OrgSpec_Members (Org_Spec o) in
  let orgID := OrgStatus_OrganizationID (Org_Status o) in
  r ← syncUsers c orgID (membersByEmail currentMembers) (OrganizationMembers_Users members) 0;
  match r with
  | Err e => mret (Err e)
  | Ok synced =>
      if OrganizationMembers_ManagedExclusively members then
        e ← removeUnlisted c orgID (desiredEmails o) currentMembers;
        mret match e with Some e => Err e | None => Ok synced end
      else mret (Ok synced)
  end.

Definition syncMembers (c : httpClient) (o : LangfuseOrganization) : M (St W) (result Z) :=
  let members := OrgSpec_Members (Org_Spec o) in
  let orgID := OrgStatus_OrganizationID (Org_Status o) in
  if bool_decide (OrganizationMembers_Users members = []) && negb (OrganizationMembers_ManagedExclusively members)
  then mret (Ok 0)
  else if negb (nonempty_str orgID) then mret (Err (newError "organization ID not set, cannot sync members"))
  else
    r ← ListOrgMembers c orgID;
    match r with
    | Err e => mret (Err (wrapError "listing current members" e))
    | Ok currentMembers => applyMembers c o currentMembers
    end.

(** *** Dependent projects *)

Definition countDependentProjects (o : LangfuseOrganization) : M (St W) (result Z) :=
  r ← List_Projects;
  mret match r with
       | Err e => Err (wrapError "listing LangfuseProjects" e)
       | Ok projects => Ok (Z.of_nat (length (filter (λ p, depends_on o p = true) projects)))
       end.

(** *** Deletion *)

(** The organization in Langfuse, best effort. *)
Definition deleteInLangfuse (o : LangfuseOrganization) : M (St W) unit :=
  let id := OrgStatus_OrganizationID (Org_Status o) in
  if nonempty_str id then
    r ← resolveInstance o;
    match r with
    | Err _ => mret tt
    | Ok instance =>
        r ← buildLangfuseClient instance;
        match r with
        | Err _ => mret tt
        | Ok c => _ ← DeleteOrganization c id; mret tt
        end
    end
  else mret tt.

Definition dependentsMessage (n : Z) : string :=
  "Cannot delete: " +:+ itoa n +:+ " LangfuseProject(s) still reference this organization".

Definition handleDeletion (o : LangfuseOrganization) : M (St W) Outcome :=
  if negb (ContainsFinalizer (Org_ObjectMeta o) organizationFinalizer) then mret done_now
  else
    r ← countDependentProjects o;
    match r with
    | Err e => mret (failed (wrapError "checking dependent projects" e))
    | Ok n =>
        if n >? 0 then
          _ ← Status_Update_Organization (org_failed "DependentProjectsExist" (dependentsMessage n) o);
          mret (done_after (30 * Second))
        else
          _ ← deleteInLangfuse o;
          r ← Update_Organization (set_Org_ObjectMeta (RemoveFinalizer (Org_ObjectMeta o) organizationFinalizer) o);
          mret match r with Err e => failed (wrapError "removing finalizer" e) | Ok _ => done_now end
    end.

(** *** The pass *)

(** Steps 7 to 9: the organization is known to Langfuse. *)
Definition finishSync (c : httpClient) (o : LangfuseOrganization) : M (St W) Outcome :=
  r ← syncMembers c o;
  match r with
  | Err e =>
      _ ← Status_Update_Organization (org_failed "MemberSyncFailed" ("Failed to sync members: " +:+ err_msg e) o);
      mret (failed (wrapError "syncing members" e))
  | Ok synced =>
      let o := with_member_counts synced o in
      r ← countDependentProjects o;
      let o := with_project_count (match r with Ok n => n | Err _ => 0 end) o in
      e ← Status_Update_Organization (org_synced o);
      mret match e with
           | Some e => failed (wrapError "updating status" e)
           | None => done_after orgResyncPeriod
           end
  end.

(** The report of a failed step 6. *)
Definition syncFailure (e : GoError) (o : LangfuseOrganization) : LangfuseOrganization :=
  if IsForbidden e then org_failed "RequiresEELicense" eeLicenseMessage o
  else org_failed "SyncFailed" ("Failed to sync organization: " +:+ err_msg e) o.

(** Steps 4 to 9. *)
Definition reconcileOrganization (o : LangfuseOrganization) : M (St W) Outcome :=
  r ← resolveInstance o;
  match r with
  | Err e =>
      _ ← Status_Update_Organization (org_failed "InstanceNotReady" (err_msg e) o);
      mret (done_after (30 * Second))
  | Ok instance =>
      r ← buildLangfuseClient instance;
      match r with
      | Err e =>
          _ ← Status_Update_Organization (org_failed "ClientError" (err_msg e) o);
          mret (done_after (30 * Second))
      | Ok c =>
          r ← syncOrganization c o;
          match r with
          | Err e =>
              _ ← Status_Update_Organization (syncFailure e o);
              mret (if IsForbidden e then done_after orgResyncPeriod
                    else failed (wrapError "syncing organization" e))
          | Ok orgID => finishSync c (with_org_id orgID o)
          end
      end
  end.

(** Step 3: the resource as the API server holds it afterwards. *)
Definition ensureOrgFinalizer (o : LangfuseOrganization) : M (St W) (result LangfuseOrganization) :=
  if ContainsFinalizer (Org_ObjectMeta o) organizationFinalizer then mret (Ok o)
  else Update_Organization (set_Org_ObjectMeta (AddFinalizer (Org_ObjectMeta o) organizationFinalizer) o).

Definition Reconcile (req : NamespacedName) : M (St W) Outcome :=
  r ← Get_Organization req;
  match r with
  | Err e => if IsNotFound e then mret done_now
             else mret (failed (wrapError "fetching LangfuseOrganization" e))
  | Ok o =>
      match om_DeletionTimestamp (Org_ObjectMeta o) with
      | Some _ => handleDeletion o
      | None =>
          r ← ensureOrgFinalizer o;
          match r with
          | Err e => mret (failed (wrapError "adding finalizer" e))
          | Ok o => reconcileOrganization o
          end
      end
  end.
End controller.

(** ** The calls of a pass *)

Definition users (o : LangfuseOrganization) : list OrganizationMemberSpec :=
  OrganizationMembers_Users (OrgSpec_Members (Org_Spec o)).
Definition exclusive (o : LangfuseOrganization) : bool :=
  OrganizationMembers_ManagedExclusively (OrgSpec_Members (Org_Spec o)).
Definition org_id (o : LangfuseOrganization) : string := OrgStatus_OrganizationID (Org_Status o).

(** The changes to the members [l] the resource asks for. *)
Inductive member_change (c : httpClient) (o : LangfuseOrganization) (l : list OrgMember) : Call → Prop :=
  | change_role u m e :
      u ∈ users o → membersByEmail l !! OrganizationMember_Email u = Some m →
      OrgMember_Role m ≠ OrganizationMember_Role u →
      member_change c o l
        (CLangfuse c (AUpdateOrgMemberRole (org_id o) (OrgMember_ID m) (OrganizationMember_Role u) e))
  | change_add u r :
      u ∈ users o → membersByEmail l !! OrganizationMember_Email u = None →
      member_change c o l
        (CLangfuse c (AAddOrgMember (org_id o) (OrganizationMember_Email u) (OrganizationMember_Role u) r))
  | change_remove m e :
      exclusive o = true → m ∈ l → OrgMember_Email m ∉ desiredEmails o →
      member_change c o l (CLangfuse c (ARemoveOrgMember (org_id o) (OrgMember_ID m) e)).

(** A user of the spec is a member with the role asked for, found or made so. *)
Definition in_sync (c : httpClient) (o : LangfuseOrganization) (l : list OrgMember) (cs : list Call)
    (u : OrganizationMemberSpec) : Prop :=
  let email := OrganizationMember_Email u in
  let role := OrganizationMember_Role u in
  match membersByEmail l !! email with
  | Some m => OrgMember_Role m = role ∨
              CLangfuse c (AUpdateOrgMemberRole (org_id o) (OrgMember_ID m) role None) ∈ cs
  | None => ∃ m, CLangfuse c (AAddOrgMember (org_id o) email role (Ok m)) ∈ cs
  end.

(** A member not asked for is gone. *)
Definition expelled (c : httpClient) (o : LangfuseOrganization) (cs : list Call) (m : OrgMember) : Prop :=
  OrgMember_Email m ∈ desiredEmails o ∨
  CLangfuse c (ARemoveOrgMember (org_id o) (OrgMember_ID m) None) ∈ cs.

Inductive member_sync (c : httpClient) (o : LangfuseOrganization) : result Z → list Call → Prop :=
  | sync_nothing : users o = [] → exclusive o = false → member_sync c o (Ok 0) []
  | sync_no_id e : org_id o = "" → member_sync c o (Err e) []
  | sync_unlisted e e' : member_sync c o (Err e) [CLangfuse c (AListOrgMembers (org_id o) (Err e'))]
  | sync_failed l e cs :
      Forall (member_change c o l) cs →
      member_sync c o (Err e) (CLangfuse c (AListOrgMembers (org_id o) (Ok l)) :: cs)
  | sync_done l cs :
      Forall (member_change c o l) cs → Forall (in_sync c o l cs) (users o) →
      (exclusive o = true → Forall (expelled c o cs) l) →
      member_sync c o (Ok (Z.of_nat (length (users o)))) (CLangfuse c (AListOrgMembers (org_id o) (Ok l)) :: cs).

Lemma in_sync_mono c o l cs cs' u : cs ⊆ cs' → in_sync c o l cs u → in_sync c o l cs' u.
Proof. unfold in_sync. intros Hsub. destruct (_ !! _); naive_solver. Qed.

Section traces.
Context {W : Type} `{KubeClient W} `{TenantClient W} `{LangfuseAPI W}.
Context `{API : ConditionAPI} `{FIN : FinalizerAPI}.

Lemma syncMember_traces c o l u :
  u ∈ users o →
  traces (λ e cs, Forall (member_change c o l) cs ∧ (e = None → in_sync c o l cs u))
    (syncMember c (org_id o) (membersByEmail l) u).
Proof.
  intros Hu. unfold syncMember, in_sync. cbv zeta.
  destruct (membersByEmail l !! OrganizationMember_Email u) as [m|] eqn:Em.
  - destruct (String.eqb_spec (OrgMember_Role m) (OrganizationMember_Role u)) as [Er|Er].
    + apply traces_mret. split; [constructor|]. auto.
    + apply traces_call_bind. intros e. apply traces_mret. split.
      * apply Forall_singleton. by apply change_role.
      * destruct e; [done|]. intros _. right. by left.
  - apply traces_call_bind. intros r. apply traces_mret. split.
    + apply Forall_singleton. by apply change_add.
    + destruct r as [m|e]; [|done]. intros _. exists m. by left.
Qed.

Lemma syncUsers_traces c o l us synced :
  us ⊆ users o →
  traces (λ r cs, Forall (member_change c o l) cs ∧
                  (∀ n, r = Ok n → n = synced + Z.of_nat (length us) ∧ Forall (in_sync c o l cs) us))
    (syncUsers c (org_id o) (membersByEmail l) us synced).
Proof.
  revert synced. induction us as [|u us IH]; intros synced Hus; cbn [syncUsers].
  - apply traces_mret. split; [constructor|]. intros n [= <-]. split; [cbn; lia|constructor].
  - eapply traces_bind; [apply (syncMember_traces c o l); set_solver|]. intros [e|] cs [Hc Hs].
    + apply traces_mret. rewrite app_nil_r. split; [done|]. done.
    + eapply traces_mono; [apply IH; set_solver|]. intros r cs' [Hc' Hs']. split; [by apply Forall_app|].
      intros n Hn. destruct (Hs' n Hn) as [-> Hall]. split; [cbn; lia|]. constructor.
      * eapply in_sync_mono; [|by apply Hs]. set_solver.
      * eapply Forall_impl; [exact Hall|]. intros u'. apply in_sync_mono. set_solver.
Qed.

Lemma removeUnlisted_traces c o l ms :
  exclusive o = true → ms ⊆ l →
  traces (λ e cs, Forall (member_change c o l) cs ∧ (e = None → Forall (expelled c o cs) ms))
    (removeUnlisted c (org_id o) (desiredEmails o) ms).
Proof.
  intros Hx. induction ms as [|m ms IH]; intros Hms; cbn [removeUnlisted].
  - apply traces_mret. split; constructor.
  - case_bool_decide as Hd.
    + eapply traces_mono; [apply IH; set_solver|]. intros e cs [Hc Hs]. split; [done|]. intros He.
      constructor; [by left|auto].
    + apply traces_call_bind. intros [e|].
      * apply traces_mret. split; [|done]. apply Forall_singleton. apply change_remove; set_solver.
      * eapply traces_mono; [apply IH; set_solver|]. intros e cs [Hc Hs]. split.
        { constructor; [apply change_remove; set_solver|done]. }
        intros He. constructor; [right; by left|]. eapply Forall_impl; [by apply Hs|].
        intros m' [?|?]; [by left|right; by right].
Qed.

Lemma applyMembers_traces c o l :
  traces (λ r cs, Forall (member_change c o l) cs ∧
            (∀ n, r = Ok n → n = Z.of_nat (length (users o)) ∧ Forall (in_sync c o l cs) (users o) ∧
                             (exclusive o = true → Forall (expelled c o cs) l)))
    (applyMembers c o l).
Proof.
  unfold applyMembers. fold (users o) (exclusive o) (org_id o). cbv zeta.
  eapply traces_bind; [by apply (syncUsers_traces c o l)|]. intros [n|e] cs [Hc Hs].
  - destruct (Hs n eq_refl) as [-> Hin]. destruct (exclusive o) eqn:Hx.
    + eapply traces_bind; [by apply (removeUnlisted_traces c o l)|]. intros e cs' [Hc' Hs']. apply traces_mret.
      rewrite app_nil_r. split; [by apply Forall_app|]. intros n. destruct e; [done|]. intros [= <-].
      split_and!; [lia| |].
      * eapply Forall_impl; [exact Hin|]. intros u. apply in_sync_mono. set_solver.
      * intros _. eapply Forall_impl; [by apply Hs'|]. intros m [?|?]; [by left|right; set_solver].
    + apply traces_mret. rewrite app_nil_r. split; [done|]. intros n [= <-]. split_and!; [lia|done|done].
  - apply traces_mret. rewrite app_nil_r. split; done.
Qed.

Lemma syncMembers_traces c o : traces (member_sync c o) (syncMembers c o).
Proof.
  unfold syncMembers. fold (users o) (exclusive o) (org_id o). cbv zeta.
  destruct (bool_decide (users o = []) && negb (exclusive o)) eqn:Hn.
  { apply traces_mret. to_prop. by apply sync_nothing. }
  destruct (nonempty_str (org_id o)) eqn:Hid; cbn [negb]; [|apply traces_mret, sync_no_id; by destruct (org_id o)].
  apply traces_call_bind. intros [l|e]; [|apply traces_mret; constructor].
  eapply traces_mono; [apply applyMembers_traces|]. intros [n|e] cs [Hc Hs]; [|by apply sync_failed].
  destruct (Hs n eq_refl) as (-> & Hin & Hx). by apply sync_done.
Qed.

(** The organization, searched for and found, or created. *)
Inductive org_found (c : httpClient) (o : LangfuseOrganization) : result string → list Call → Prop :=
  | found_no_list e e' : org_found c o (Err e) [CLangfuse c (AListOrganizations (Err e'))]
  | found_listed orgs x :
      find (λ x, String.eqb (Organization_Name x) (OrgSpec_DisplayName (Org_Spec o))) orgs = Some x →
      org_found c o (Ok (Organization_ID x)) [CLangfuse c (AListOrganizations (Ok orgs))]
  | found_created orgs r id :
      find (λ x, String.eqb (Organization_Name x) (OrgSpec_DisplayName (Org_Spec o))) orgs = None →
      (∀ i, id = Ok i → ∃ x, r = Ok x ∧ i = Organization_ID x) →
      (∀ e, id = Err e → ∃ e', r = Err e' ∧ e = wrapError "creating organization" e') →
      org_found c o id [CLangfuse c (AListOrganizations (Ok orgs));
                        CLangfuse c (ACreateOrganization (OrgSpec_DisplayName (Org_Spec o)) r)].

Inductive org_sync (c : httpClient) (o : LangfuseOrganization) : result string → list Call → Prop :=
  | sync_known x :
      org_id o ≠ "" → Organization_Name x = OrgSpec_DisplayName (Org_Spec o) →
      org_sync c o (Ok (org_id o)) [CLangfuse c (AGetOrganization (org_id o) (Ok x))]
  | sync_renamed x y :
      org_id o ≠ "" → Organization_Name x ≠ OrgSpec_DisplayName (Org_Spec o) →
      org_sync c o (Ok (org_id o))
        [CLangfuse c (AGetOrganization (org_id o) (Ok x));
         CLangfuse c (AUpdateOrganization (org_id o) (OrgSpec_DisplayName (Org_Spec o)) (Ok y))]
  | sync_not_renamed x e :
      org_id o ≠ "" → Organization_Name x ≠ OrgSpec_DisplayName (Org_Spec o) →
      org_sync c o (Err (wrapError "updating organization name" e))
        [CLangfuse c (AGetOrganization (org_id o) (Ok x));
         CLangfuse c (AUpdateOrganization (org_id o) (OrgSpec_DisplayName (Org_Spec o)) (Err e))]
  | sync_lost e r cs :
      org_id o ≠ "" → org_found c o r cs →
      org_sync c o r (CLangfuse c (AGetOrganization (org_id o) (Err e)) :: cs)
  | sync_new r cs : org_id o = "" → org_found c o r cs → org_sync c o r cs.

Lemma findOrganization_traces c o : traces (org_found c o) (findOrganization c o).
Proof.
  unfold findOrganization. cbv zeta. apply traces_call_bind. intros [orgs|e]; [|apply traces_mret; constructor].
  destruct (find _ orgs) as [x|] eqn:Ef; [apply traces_mret; by constructor|].
  apply traces_call_bind. intros [x|e]; apply traces_mret; apply found_created; try done; intros ? [= <-]; eauto.
Qed.

Lemma syncOrganization_traces c o : traces (org_sync c o) (syncOrganization c o).
Proof.
  unfold syncOrganization. fold (org_id o). cbv zeta. destruct (nonempty_str (org_id o)) eqn:Hid.
  - assert (org_id o ≠ "") as Hne by by destruct (org_id o). apply traces_call_bind. intros [x|e].
    + destruct (String.eqb_spec (Organization_Name x) (OrgSpec_DisplayName (Org_Spec o))).
      * apply traces_mret. by constructor.
      * apply traces_call_bind. intros [y|e]; apply traces_mret; by constructor.
    + eapply traces_mono; [apply findOrganization_traces|]. intros. by apply sync_lost.
  - eapply traces_mono; [apply findOrganization_traces|]. intros. apply sync_new; [by destruct (org_id o)|done].
Qed.

(** *** The whole pass *)

(** The instance is ready and its admin key is the one read: a client for it. *)
Definition logged_in (o : LangfuseOrganization) (c : httpClient) (cs : list Call) : Prop :=
  ∃ i s, cs = [CGetInstance (ref_key (OrgSpec_InstanceRef (Org_Spec o)) (om_Namespace (Org_ObjectMeta o))) (Ok i);
               CGetSecret (in_ns i (adminKeyRef i).1) (Ok s)] ∧
    Status_Ready (Instance_Status i) = true ∧ default "" (sec_Data s !! (adminKeyRef i).2) ≠ "" ∧
    c = NewAdminClient (instanceBaseURL i) (default "" (sec_Data s !! (adminKeyRef i).2)).

Definition is_lookup (c : Call) : Prop :=
  match c with CGetInstance _ _ | CGetSecret _ _ => True | _ => False end.

Definition dependents (o : LangfuseOrganization) (ps : list LangfuseProject) : list LangfuseProject :=
  filter (λ p, depends_on o p = true) ps.

Definition dependent_count (o : LangfuseOrganization) (r : result (list LangfuseProject)) : Z :=
  match r with Ok ps => Z.of_nat (length (dependents o ps)) | Err _ => 0 end.

Inductive org_calls (o : LangfuseOrganization) : list Call → Prop :=
  | org_blocked reason msg e cs :
      Forall is_lookup cs →
      org_calls o (cs ++ [CUpdateOrganizationStatus (org_failed reason msg o) e])
  | org_unsynced c e e' pre cs :
      logged_in o c pre → org_sync c o (Err e) cs →
      org_calls o (pre ++ cs ++ [CUpdateOrganizationStatus (syncFailure e o) e'])
  | org_unmembered c id e msg e' pre cs ms :
      logged_in o c pre → org_sync c o (Ok id) cs → member_sync c (with_org_id id o) (Err e) ms →
      org_calls o (pre ++ cs ++ ms ++
        [CUpdateOrganizationStatus (org_failed "MemberSyncFailed" msg (with_org_id id o)) e'])
  | org_complete c id n ps e' pre cs ms :
      logged_in o c pre → org_sync c o (Ok id) cs → member_sync c (with_org_id id o) (Ok n) ms →
      org_calls o (pre ++ cs ++ ms ++
        [CListProjects ps;
         CUpdateOrganizationStatus
           (org_synced (with_project_count (dependent_count o ps) (with_member_counts n (with_org_id id o)))) e']).

(** The best-effort deletion in Langfuse. *)
Definition cleanup_call (o : LangfuseOrganization) (c : Call) : Prop :=
  is_lookup c ∨ (org_id o ≠ "" ∧ ∃ cl e, c = CLangfuse cl (ADeleteOrganization (org_id o) e)).

Definition pinned (o : LangfuseOrganization) : bool :=
  ContainsFinalizer (Org_ObjectMeta o) organizationFinalizer.

Definition unpin (o : LangfuseOrganization) : LangfuseOrganization :=
  set_Org_ObjectMeta (RemoveFinalizer (Org_ObjectMeta o) organizationFinalizer) o.
Definition pin (o : LangfuseOrganization) : LangfuseOrganization :=
  set_Org_ObjectMeta (AddFinalizer (Org_ObjectMeta o) organizationFinalizer) o.

Inductive delete_calls (o : LangfuseOrganization) : list Call → Prop :=
  | delete_released : pinned o = false → delete_calls o []
  | delete_uncounted e : delete_calls o [CListProjects (Err e)]
  | delete_blocked ps msg e :
      dependents o ps ≠ [] →
      delete_calls o [CListProjects (Ok ps);
                      CUpdateOrganizationStatus (org_failed "DependentProjectsExist" msg o) e]
  | delete_done ps cs r :
      pinned o = true → dependents o ps = [] → Forall (cleanup_call o) cs →
      delete_calls o (CListProjects (Ok ps) :: cs ++ [CUpdateOrganization (unpin o) r]).

Definition org_live (o : LangfuseOrganization) : Prop := om_DeletionTimestamp (Org_ObjectMeta o) = None.

(** The resource a pass works on: as read, or as the finalizer's update returned it. *)
Inductive org_source (o0 o : LangfuseOrganization) : list Call → Prop :=
  | source_read : pinned o0 = true → o = o0 → org_source o0 o []
  | source_pinned : pinned o0 = false → org_source o0 o [CUpdateOrganization (pin o0) (Ok o)].

Inductive org_pass (req : NamespacedName) : list Call → Prop :=
  | pass_unread e : org_pass req [CGetOrganization req (Err e)]
  | pass_deletes o cs :
      ¬ org_live o → delete_calls o cs → org_pass req (CGetOrganization req (Ok o) :: cs)
  | pass_unpinned o e :
      org_live o → pinned o = false →
      org_pass req [CGetOrganization req (Ok o); CUpdateOrganization (pin o) (Err e)]
  | pass_syncs o0 o pre cs :
      org_live o0 → org_source o0 o pre → org_calls o cs →
      org_pass req (CGetOrganization req (Ok o0) :: pre ++ cs).

(** The two calls before anything is asked of Langfuse. *)
Lemma resolveInstanceAt_traces key :
  traces (λ r cs, ∃ a, cs = [CGetInstance key a] ∧
            match r with Ok i => a = Ok i ∧ Status_Ready (Instance_Status i) = true | Err _ => True end)
    (resolveInstanceAt key).
Proof.
  unfold resolveInstanceAt. apply traces_call_bind. intros r. apply traces_mret. exists r.
  split; [done|]. destruct r as [i|e]; [|by destruct (IsNotFound e)]. by destruct (Status_Ready _) eqn:E.
Qed.

Lemma buildLangfuseClient_traces i :
  traces (λ r cs, ∃ a, cs = [CGetSecret (in_ns i (adminKeyRef i).1) a] ∧
            match r with
            | Ok c => ∃ s, a = Ok s ∧ default "" (sec_Data s !! (adminKeyRef i).2) ≠ "" ∧
                        c = NewAdminClient (instanceBaseURL i) (default "" (sec_Data s !! (adminKeyRef i).2))
            | Err _ => True
            end)
    (buildLangfuseClient i).
Proof.
  unfold buildLangfuseClient. destruct (adminKeyRef i) as [name key]. cbn [fst snd]. apply traces_call_bind.
  intros r. apply traces_mret. exists r. split; [done|]. destruct r as [s|e]; [|done].
  destruct (nonempty_str _) eqn:E; [|done]. exists s. split_and!; [done| |done]. intros En. by rewrite En in E.
Qed.

Lemma reconcileOrganization_traces o : traces (λ _ cs, org_calls o cs) (reconcileOrganization o).
Proof.
  unfold reconcileOrganization. eapply traces_bind; [apply resolveInstanceAt_traces|]. intros r cs1 (a & -> & Hi).
  destruct r as [i|e]; [destruct Hi as [-> Hi]|].
  2: { apply traces_call_bind. intros e'. apply traces_mret. apply (org_blocked o _ _ e' [_]). by repeat constructor. }
  eapply traces_bind; [apply buildLangfuseClient_traces|]. intros r cs2 (b & -> & Hc).
  destruct r as [c|e]; [destruct Hc as (s & -> & Hk & ->)|].
  2: { apply traces_call_bind. intros e'. apply traces_mret. apply (org_blocked o _ _ e' [_; _]). by repeat constructor. }
  set (c := NewAdminClient _ _).
  assert (logged_in o c [CGetInstance (ref_key (OrgSpec_InstanceRef (Org_Spec o)) (om_Namespace (Org_ObjectMeta o))) (Ok i);
                         CGetSecret (in_ns i (adminKeyRef i).1) (Ok s)]) as Hl by by exists i, s.
  eapply traces_bind; [apply syncOrganization_traces|]. intros [id|e] cs3 Hs.
  2: { apply traces_call_bind. intros e'. apply traces_mret. by apply (org_unsynced o c e e' _ _ Hl). }
  unfold finishSync. eapply traces_bind; [apply syncMembers_traces|]. intros [n|e] cs4 Hm.
  2: { apply traces_call_bind. intros e'. apply traces_mret. by eapply (org_unmembered o c id e _ e' _ _ _ Hl). }
  cbv zeta. unfold countDependentProjects. eapply traces_bind with (T1 := λ r cs, ∃ ps, cs = [CListProjects ps] ∧
    match r with Ok n => n | Err _ => 0 end = dependent_count o ps).
  { apply traces_call_bind. intros ps. apply traces_mret. exists ps. split; [done|]. by destruct ps. }
  intros r cs5 (ps & -> & ->). apply traces_call_bind. intros e'. destruct e'; apply traces_mret; by apply (org_complete o c id n ps _ _ _ _ Hl).
Qed.

Lemma deleteInLangfuse_traces o : traces (λ _ cs, Forall (cleanup_call o) cs) (deleteInLangfuse o).
Proof.
  unfold deleteInLangfuse. fold (org_id o). cbv zeta. destruct (nonempty_str (org_id o)) eqn:Hid; [|apply traces_mret; constructor].
  assert (org_id o ≠ "") as Hne by by destruct (org_id o).
  eapply traces_bind; [apply resolveInstanceAt_traces|]. intros r cs1 (a & -> & _).
  destruct r as [i|e]; [|apply traces_mret; apply Forall_singleton; by left].
  eapply traces_bind; [apply buildLangfuseClient_traces|]. intros r cs2 (b & -> & _).
  destruct r as [c|e]; [|apply traces_mret; constructor; [by left|]; constructor; [by left|constructor]].
  apply traces_call_bind. intros e. apply traces_mret. cbn.
  constructor; [by left|]. constructor; [by left|]. constructor; [right; by eauto|constructor].
Qed.

Lemma length_pos {A} (l : list A) : (Z.of_nat (length l) >? 0) = true ↔ l ≠ [].
Proof. rewrite Z.gtb_lt. destruct l; cbn; split; try done; lia. Qed.

Lemma handleDeletion_traces o : traces (λ _ cs, delete_calls o cs) (handleDeletion o).
Proof.
  unfold handleDeletion. fold (pinned o). destruct (pinned o) eqn:Hp; cbn [negb]; [|apply traces_mret; by constructor].
  unfold countDependentProjects. eapply traces_bind with (T1 := λ r cs, ∃ ps, cs = [CListProjects ps] ∧
    match r with Ok n => ∃ l, ps = Ok l ∧ n = Z.of_nat (length (dependents o l)) | Err _ => ∃ e, ps = Err e end).
  { apply traces_call_bind. intros ps. apply traces_mret. exists ps. split; [done|]. destruct ps; eauto. }
  intros r cs (ps & -> & Hr). destruct r as [n|e]; [|destruct Hr as [e' ->]; apply traces_mret; constructor].
  destruct Hr as (l & -> & ->). destruct (_ >? 0) eqn:Hn.
  - apply length_pos in Hn. apply traces_call_bind. intros e. apply traces_mret. by constructor.
  - assert (dependents o l = []) as Hd.
    { destruct (dependents o l) eqn:E; [done|]. by cbn in Hn. }
    eapply traces_bind; [apply deleteInLangfuse_traces|]. intros u cs Hcs. apply traces_call_bind. intros r.
    apply traces_mret. cbn. by apply delete_done.
Qed.

Lemma organization_pass_traces req : traces (λ _ cs, org_pass req cs) (Reconcile req).
Proof.
  unfold Reconcile. apply traces_call_bind. intros [o|e].
  2: { destruct (IsNotFound e); apply traces_mret; constructor. }
  destruct (om_DeletionTimestamp (Org_ObjectMeta o)) eqn:Hd.
  - eapply traces_mono; [apply handleDeletion_traces|]. intros ? cs Hc. apply pass_deletes; [|done].
    unfold org_live. by rewrite Hd.
  - unfold ensureOrgFinalizer. fold (pinned o). destruct (pinned o) eqn:Hp.
    + eapply traces_bind with (T1 := λ r cs, r = Ok o ∧ cs = []); [by apply traces_mret|]. intros r cs [-> ->].
      eapply traces_mono; [apply reconcileOrganization_traces|]. intros ? cs Hc.
      apply (pass_syncs req o o []); [done|by constructor|done].
    + eapply traces_bind with (T1 := λ r cs, cs = [CUpdateOrganization (pin o) r]); [by apply traces_call|].
      intros r cs ->. destruct r as [o'|e]; [|apply traces_mret; by constructor].
      eapply traces_mono; [apply reconcileOrganization_traces|]. intros ? cs Hc.
      apply (pass_syncs req o o' [_]); [done|by constructor|done].
Qed.
End traces.

(** ** Theorems *)

Section safety.
Context {W : Type} `{KubeClient W} `{TenantClient W} `{LangfuseAPI W}.
Context `{API : ConditionAPI} `{FIN : FinalizerAPI}.

(** The resource a pass over [req] synchronizes, with the id it found. *)
Definition works_on (req : NamespacedName) (tr : list Call) (o : LangfuseOrganization) : Prop :=
  ∃ o0 o1 id pre, CGetOrganization req (Ok o0) ∈ tr ∧ org_live o0 ∧ org_source o0 o1 pre ∧ pre ⊆ tr ∧
    o = with_org_id id o1.

Definition member_call (c : Call) : bool :=
  match c with
  | CLangfuse _ (AAddOrgMember _ _ _ _) | CLangfuse _ (AUpdateOrgMemberRole _ _ _ _)
  | CLangfuse _ (ARemoveOrgMember _ _ _) => true
  | _ => false
  end.

Lemma lookups_no_member cs c : Forall is_lookup cs → c ∈ cs → member_call c = false.
Proof. intros Hf Hc. rewrite Forall_forall in Hf. apply Hf in Hc. by destruct c. Qed.

Lemma logged_in_lookups o c cs : logged_in o c cs → Forall is_lookup cs.
Proof. intros (i & s & -> & _). by repeat constructor. Qed.

(** The kinds of calls of each step. *)
Definition org_sync_call (x : Call) : Prop :=
  match x with
  | CLangfuse _ (AGetOrganization _ _) | CLangfuse _ (AListOrganizations _)
  | CLangfuse _ (ACreateOrganization _ _) | CLangfuse _ (AUpdateOrganization _ _ _) => True
  | _ => False
  end.

Definition member_sync_call (x : Call) : Prop :=
  match x with
  | CLangfuse _ (AListOrgMembers _ _) | CLangfuse _ (AAddOrgMember _ _ _ _)
  | CLangfuse _ (AUpdateOrgMemberRole _ _ _ _) | CLangfuse _ (ARemoveOrgMember _ _ _) => True
  | _ => False
  end.

Lemma org_found_shape c o r cs : org_found c o r cs → Forall org_sync_call cs.
Proof. intros []; by repeat constructor. Qed.

Lemma org_sync_shape c o r cs : org_sync c o r cs → Forall org_sync_call cs.
Proof. intros []; [by repeat constructor..| |by eapply org_found_shape]. constructor; [done|by eapply org_found_shape]. Qed.

Lemma org_sync_no_member c o r cs x : org_sync c o r cs → x ∈ cs → member_call x = false.
Proof.
  intros Hs%org_sync_shape Hx. rewrite Forall_forall in Hs. apply Hs in Hx. destruct x as []; try done.
  by match goal with a : APICall |- _ => destruct a end.
Qed.

Lemma member_sync_shape c o r cs : member_sync c o r cs → Forall member_sync_call cs.
Proof.
  intros [| | |l e cs' Hall|l cs' Hall _ _]; [by repeat constructor..| |];
    (constructor; [done|]; eapply Forall_impl; [exact Hall|]; by intros x []).
Qed.

(** Every call of a synchronizing pass. *)
Lemma org_calls_shape o cs x :
  org_calls o cs → x ∈ cs →
  is_lookup x ∨ org_sync_call x ∨ member_sync_call x ∨ (∃ ps, x = CListProjects ps) ∨
  ∃ o' e, x = CUpdateOrganizationStatus o' e.
Proof.
  intros Ho Hin. cut (Forall (λ x, is_lookup x ∨ org_sync_call x ∨ member_sync_call x ∨
    (∃ ps, x = CListProjects ps) ∨ ∃ o' e, x = CUpdateOrganizationStatus o' e) cs);
    [by rewrite Forall_forall; eauto|]. clear x Hin.
  destruct Ho as [reason msg e cs Hl|c e e' pre cs Hl Hs|c id e msg e' pre cs ms Hl Hs Hms|c id n ps e' pre cs ms Hl Hs Hms];
    try apply logged_in_lookups in Hl; try apply org_sync_shape in Hs; try apply member_sync_shape in Hms;
    rewrite ?Forall_app; split_and?; try (by eapply Forall_impl; [eassumption|]; tauto).
  all: repeat (apply Forall_cons; split); try apply Forall_nil; naive_solver.
Qed.

Lemma cleanup_no_member o cs c : Forall (cleanup_call o) cs → c ∈ cs → member_call c = false.
Proof.
  intros Hf Hc. rewrite Forall_forall in Hf. apply Hf in Hc as [Hc|(_ & cl & e & ->)]; [by destruct c|done].
Qed.

(** The member calls of a pass: those of one synchronization. *)
Lemma pass_members req tr x :
  org_pass req tr → x ∈ tr → member_call x = true →
  ∃ o c r ms lcs, works_on req tr o ∧ logged_in o c lcs ∧ lcs ⊆ tr ∧ member_sync c o r ms ∧ x ∈ ms ∧ ms ⊆ tr.
Proof.
  intros Hp Hx Hm.
  assert (∀ o cs, org_calls o cs → x ∈ cs → ∃ id c r ms lcs, logged_in o c lcs ∧ lcs ⊆ cs ∧
            member_sync c (with_org_id id o) r ms ∧ x ∈ ms ∧ ms ⊆ cs) as Hcalls.
  { intros o cs Ho Hin. destruct Ho as [reason msg e cs Hl|c e e' pre cs Hl Hs|c id e msg e' pre cs ms Hl Hs Hms|c id n ps e' pre cs ms Hl Hs Hms].
    all: rewrite ?elem_of_app in Hin; destruct_or? Hin;
      try (by rewrite (lookups_no_member _ _ (logged_in_lookups _ _ _ Hl) Hin) in Hm);
      try (by rewrite (lookups_no_member _ _ Hl Hin) in Hm);
      try (by rewrite (org_sync_no_member _ _ _ _ _ Hs Hin) in Hm);
      try (exists id, c; eexists _, ms, pre; split_and!; [done|set_solver|done|done|set_solver]).
    all: exfalso; repeat (apply elem_of_cons in Hin as [->|Hin]; [done|]); by apply elem_of_nil in Hin. }
  destruct Hp as [e|o cs Hd Hc|o e Hl Hp|o0 o pre cs Hl Hs Hc].
  - apply list_elem_of_singleton in Hx as ->. done.
  - exfalso. apply elem_of_cons in Hx as [->|Hx]; [done|]. destruct Hc as [|e|ps msg e Hdep|ps cs r Hpin Hdep Hcl].
    + by apply elem_of_nil in Hx.
    + apply list_elem_of_singleton in Hx as ->. done.
    + repeat (apply elem_of_cons in Hx as [->|Hx]; [done|]). by apply elem_of_nil in Hx.
    + apply elem_of_cons in Hx as [->|Hx]; [done|]. apply elem_of_app in Hx as [Hx|Hx].
      * by rewrite (cleanup_no_member _ _ _ Hcl Hx) in Hm.
      * apply list_elem_of_singleton in Hx as ->. done.
  - repeat (apply elem_of_cons in Hx as [->|Hx]; [done|]). by apply elem_of_nil in Hx.
  - apply elem_of_cons in Hx as [->|Hx]; [done|]. apply elem_of_app in Hx as [Hx|Hx].
    { destruct Hs; [by apply elem_of_nil in Hx|]. apply list_elem_of_singleton in Hx as ->. done. }
    destruct (Hcalls _ _ Hc Hx) as (id & c & r & ms & lcs & Hlog & Hsub & Hms & Hin & Hsub').
    exists (with_org_id id o), c, r, ms, lcs. split_and!; [|done|set_solver|done|done|set_solver].
    exists o0, o, id, pre. split_and!; [by left|done|done|set_solver|done].
Qed.

(** C26: members change with cause only.  A pass adds, promotes or removes a member of
    a Langfuse organization only for a resource that is not being deleted, with the
    admin key of its instance, and given the members Langfuse listed in the same pass:
    it adds a user of the spec who was not listed, gives a listed one the role the
    spec asks for when it has another, and removes one only when the spec manages
    the members exclusively and does not name their email. *)
Theorem members_changed_with_cause req w out w' tr x :
  run (Reconcile req) w = (out, w', tr) → x ∈ tr → member_call x = true →
  ∃ o c l lcs, works_on req tr o ∧ logged_in o c lcs ∧ lcs ⊆ tr ∧
    CLangfuse c (AListOrgMembers (org_id o) (Ok l)) ∈ tr ∧ member_change c o l x.
Proof.
  intros Hrun Hx Hm. pose proof (traces_run _ _ _ _ _ _ (organization_pass_traces req) Hrun) as Hp.
  destruct (pass_members _ _ _ Hp Hx Hm) as (o & c & r & ms & lcs & Hw & Hl & Hsub & Hs & Hin & Hms).
  destruct Hs as [| |e e'|l e cs Hall|l cs Hall Hsync Hexp]; try by apply elem_of_nil in Hin.
  - apply list_elem_of_singleton in Hin as ->. done.
  - apply elem_of_cons in Hin as [->|Hin]; [done|]. rewrite Forall_forall in Hall.
    exists o, c, l, lcs. split_and!; [done|done|done|apply Hms; by left|by apply Hall].
  - apply elem_of_cons in Hin as [->|Hin]; [done|]. rewrite Forall_forall in Hall.
    exists o, c, l, lcs. split_and!; [done|done|done|apply Hms; by left|by apply Hall].
Qed.

(** The calls that change Langfuse beyond what synchronization does, or the resource. *)
Definition parting_call (x : Call) : bool :=
  match x with
  | CLangfuse _ (ADeleteOrganization _ _) => true
  | CUpdateOrganization o _ => negb (pinned o)
  | _ => false
  end.

Lemma org_calls_no_parting o cs x : org_calls o cs → x ∈ cs → parting_call x = false.
Proof.
  intros Ho Hin. destruct (org_calls_shape _ _ _ Ho Hin) as [Hx|[Hx|[Hx|[[ps ->]|(o' & e & ->)]]]];
    [..|done|done]; destruct x; try done; by destruct c.
Qed.

(** C27: an organization goes only after its projects.  A pass deletes the organization
    in Langfuse, or lets the resource go by giving up the finalizer, only when the
    resource is being deleted and, in that pass, no project referred to it; and it
    deletes the organization whose id the status holds. *)
Theorem organization_deleted_safely {FL : FinalizerLaws FIN} req w out w' tr x :
  run (Reconcile req) w = (out, w', tr) → x ∈ tr → parting_call x = true →
  ∃ o ps, CGetOrganization req (Ok o) ∈ tr ∧ ¬ org_live o ∧ pinned o = true ∧
    CListProjects (Ok ps) ∈ tr ∧ dependents o ps = [] ∧
    ((∃ c e, org_id o ≠ "" ∧ x = CLangfuse c (ADeleteOrganization (org_id o) e)) ∨
     ∃ r, x = CUpdateOrganization (unpin o) r).
Proof.
  intros Hrun Hx Hpart. pose proof (traces_run _ _ _ _ _ _ (organization_pass_traces req) Hrun) as Hp.
  assert (∀ o, pinned (pin o) = true) as Hpin by (intros o; apply contains_add).
  destruct Hp as [e|o cs Hd Hc|o e Hl Hp|o0 o pre cs Hl Hs Hc].
  - apply list_elem_of_singleton in Hx as ->. done.
  - apply elem_of_cons in Hx as [->|Hx]; [done|]. destruct Hc as [|e|ps msg e Hdep|ps cs r Hpinned Hdep Hcl].
    + by apply elem_of_nil in Hx.
    + apply list_elem_of_singleton in Hx as ->. done.
    + repeat (apply elem_of_cons in Hx as [->|Hx]; [done|]). by apply elem_of_nil in Hx.
    + exists o, ps. split_and!; [by left|done|done|by right; left|done|].
      apply elem_of_cons in Hx as [->|Hx]; [done|]. apply elem_of_app in Hx as [Hx|Hx].
      * rewrite Forall_forall in Hcl. destruct (Hcl _ Hx) as [Hlk|(Hne & c & e & ->)]; [by destruct x|eauto].
      * apply list_elem_of_singleton in Hx as ->. eauto.
  - apply elem_of_cons in Hx as [->|Hx]; [done|]. apply list_elem_of_singleton in Hx as ->.
    cbn in Hpart. by rewrite Hpin in Hpart.
  - apply elem_of_cons in Hx as [->|Hx]; [done|]. apply elem_of_app in Hx as [Hx|Hx].
    + destruct Hs; [by apply elem_of_nil in Hx|]. apply list_elem_of_singleton in Hx as ->.
      cbn in Hpart. by rewrite Hpin in Hpart.
    + by rewrite (org_calls_no_parting _ _ _ Hc Hx) in Hpart.
Qed.

(** *** The status *)

(** The Ready condition a status publishes. *)
Definition ready_condition (o : LangfuseOrganization) : option Condition :=
  FindStatusCondition (OrgStatus_Conditions (Org_Status o)) conditionTypeReady.

(** Flag and condition agree, for the generation seen. *)
Definition ready_published (o : LangfuseOrganization) : Prop :=
  ∃ reason msg, ready_condition o =
    Some (condition conditionTypeReady (if OrgStatus_Ready (Org_Status o) then ConditionTrue else ConditionFalse)
            reason msg (om_Generation (Org_ObjectMeta o))).

Context {AL : ConditionLaws API}.

Lemma org_failed_published reason msg o :
  ready_published (org_failed reason msg o) ∧ OrgStatus_Ready (Org_Status (org_failed reason msg o)) = false.
Proof. split; [|done]. exists reason, msg. apply (find_set_eq _ (condition _ _ _ _ _)). Qed.

Lemma syncFailure_published e o :
  ready_published (syncFailure e o) ∧ OrgStatus_Ready (Org_Status (syncFailure e o)) = false.
Proof. unfold syncFailure. destruct (IsForbidden e); apply org_failed_published. Qed.

(** What a pass has to show for a ready organization. *)
Definition org_in_sync (o' o : LangfuseOrganization) (tr : list Call) : Prop :=
  ∃ c id scs ms ps, org_sync c o (Ok id) scs ∧ scs ⊆ tr ∧ org_id o' = id ∧
    member_sync c (with_org_id id o) (Ok (OrgStatus_SyncedMembers (Org_Status o'))) ms ∧ ms ⊆ tr ∧
    OrgStatus_MemberCount (Org_Status o') = Z.of_nat (length (users o)) ∧
    CListProjects ps ∈ tr ∧ OrgStatus_ProjectCount (Org_Status o') = dependent_count o ps.

Lemma shaped (P : Call → Prop) cs x : Forall P cs → x ∈ cs → P x.
Proof. rewrite Forall_forall. auto. Qed.

Lemma org_calls_status o cs o' e :
  org_calls o cs → CUpdateOrganizationStatus o' e ∈ cs →
  ready_published o' ∧ Org_Spec o' = Org_Spec o ∧
  (OrgStatus_Ready (Org_Status o') = true → org_in_sync o' o cs).
Proof.
  intros Ho Hin.
  destruct Ho as [reason msg e1 cs Hl|c e1 e' pre cs Hl Hs|c id e1 msg e' pre cs ms Hl Hs Hms|c id n ps e' pre cs ms Hl Hs Hms];
    rewrite ?elem_of_app in Hin; destruct_or? Hin;
    try (exfalso; first [ exact (shaped _ _ _ Hl Hin) | exact (shaped _ _ _ (logged_in_lookups _ _ _ Hl) Hin)
                        | exact (shaped _ _ _ (org_sync_shape _ _ _ _ Hs) Hin)
                        | exact (shaped _ _ _ (member_sync_shape _ _ _ _ Hms) Hin) ]).
  - apply list_elem_of_singleton in Hin as [= -> ->].
    destruct (org_failed_published reason msg o) as [? Hf]. split_and!; [done|done|by rewrite Hf].
  - apply list_elem_of_singleton in Hin as [= -> ->].
    destruct (syncFailure_published e1 o) as [? Hf]. split_and!; [done| |by rewrite Hf].
    unfold syncFailure. by destruct (IsForbidden e1).
  - apply list_elem_of_singleton in Hin as [= -> ->].
    destruct (org_failed_published "MemberSyncFailed" msg (with_org_id id o)) as [? Hf].
    split_and!; [done|done|by rewrite Hf].
  - apply elem_of_cons in Hin as [?|Hin]; [done|]. apply list_elem_of_singleton in Hin as [= -> ->].
    split_and!; [|done|].
    + exists "Synced", "Organization is synced with Langfuse". apply (find_set_eq _ (condition _ _ _ _ _)).
    + intros _. exists c, id, cs, ms, ps. split_and!; [done|set_solver|done|done|set_solver|done|set_solver|done].
Qed.

(** An organization's status is honest.  Whatever a pass publishes, the Ready
    condition says what [status.ready] says, for the generation of the resource; and
    it says ready only if, in that pass, Langfuse had or was given an organization
    with the id published and the name of the spec, every user of the spec was found
    or made a member with their role, nobody else is left when the members are managed
    exclusively, and the counts are those of the spec and of the projects listed. *)
Theorem organization_status_honest req w out w' tr o' e :
  run (Reconcile req) w = (out, w', tr) → CUpdateOrganizationStatus o' e ∈ tr →
  ready_published o' ∧
  (OrgStatus_Ready (Org_Status o') = true →
   ∃ o0 o pre, CGetOrganization req (Ok o0) ∈ tr ∧ org_live o0 ∧ org_source o0 o pre ∧ pre ⊆ tr ∧
     Org_Spec o' = Org_Spec o ∧ org_in_sync o' o tr).
Proof.
  intros Hrun Hx. pose proof (traces_run _ _ _ _ _ _ (organization_pass_traces req) Hrun) as Hp.
  destruct Hp as [e1|o cs Hd Hc|o e1 Hl Hp|o0 o pre cs Hl Hs Hc].
  - by apply list_elem_of_singleton in Hx.
  - apply elem_of_cons in Hx as [?|Hx]; [done|]. destruct Hc as [|e1|ps msg e1 Hdep|ps cs r Hpinned Hdep Hcl].
    + by apply elem_of_nil in Hx.
    + by apply list_elem_of_singleton in Hx.
    + apply elem_of_cons in Hx as [?|Hx]; [done|]. apply list_elem_of_singleton in Hx as [= -> ->].
      destruct (org_failed_published "DependentProjectsExist" msg o) as [Hr Hf]. split; [done|by rewrite Hf].
    + apply elem_of_cons in Hx as [?|Hx]; [done|]. apply elem_of_app in Hx as [Hx|Hx].
      * by destruct (shaped _ _ _ Hcl Hx) as [|(_ & ? & ? & ?)].
      * by apply list_elem_of_singleton in Hx.
  - repeat (apply elem_of_cons in Hx as [?|Hx]; [done|]). by apply elem_of_nil in Hx.
  - apply elem_of_cons in Hx as [?|Hx]; [done|]. apply elem_of_app in Hx as [Hx|Hx].
    { destruct Hs; [by apply elem_of_nil in Hx|by apply list_elem_of_singleton in Hx]. }
    destruct (org_calls_status _ _ _ _ Hc Hx) as (Hr & Hspec & Hsync). split; [done|]. intros Hready.
    destruct (Hsync Hready) as (c & id & scs & ms & ps & ? & ? & ? & ? & ? & ? & ? & ?).
    exists o0, o, pre. split_and!; [by left|done|done|set_solver|done|].
    exists c, id, scs, ms, ps. split_and!; [done|set_solver|done|done|set_solver|done|set_solver|done].
Qed.
End safety.

(** ** Members converge *)

(** No two memberships of one id or one user. *)
Definition members_wf (l : list OrgMember) : Prop := NoDup (member_ids l) ∧ NoDup (member_emails l).

Definition has_member (l : list OrgMember) (u : OrganizationMemberSpec) : Prop :=
  ∃ m, m ∈ l ∧ OrgMember_Email m = OrganizationMember_Email u ∧ OrgMember_Role m = OrganizationMember_Role u.

(** The members the resource asks for. *)
Definition converged (o : LangfuseOrganization) (l : list OrgMember) : Prop :=
  Forall (has_member l) (users o) ∧
  (exclusive o = true → Forall (λ m, OrgMember_Email m ∈ desiredEmails o) l).

(** *** The maps and lists involved *)

Lemma membersByEmail_Some l email m :
  membersByEmail l !! email = Some m → m ∈ l ∧ OrgMember_Email m = email.
Proof.
  unfold membersByEmail. intros Hm.
  assert (∀ acc : gmap string OrgMember, foldl (λ m x, <[OrgMember_Email x := x]> m) acc l !! email = Some m →
            (m ∈ l ∧ OrgMember_Email m = email) ∨ acc !! email = Some m) as Hgen.
  { clear Hm. induction l as [|x l IH]; intros acc Hm; cbn in Hm; [by right|].
    destruct (IH _ Hm) as [[? ?]|Hx]; [left; set_solver|].
    apply lookup_insert_Some in Hx as [[<- <-]|[_ ?]]; [left; set_solver|by right]. }
  destruct (Hgen ∅ Hm) as [?|?]; [done|by rewrite lookup_empty in *].
Qed.

Lemma membersByEmail_None l email : membersByEmail l !! email = None → email ∉ member_emails l.
Proof.
  unfold membersByEmail.
  assert (∀ acc : gmap string OrgMember, foldl (λ m x, <[OrgMember_Email x := x]> m) acc l !! email = None →
            (email ∉ member_emails l) ∧ acc !! email = None) as Hgen.
  { induction l as [|x l IH]; intros acc Hm; cbn in *; [split; [by intros ?%elem_of_nil|done]|].
    destruct (IH _ Hm) as [Hl Hx]. apply lookup_insert_None in Hx as [? ?]. split; [|done].
    rewrite elem_of_cons. intros [?|?]; [congruence|done]. }
  intros Hm. by apply (Hgen ∅).
Qed.

Lemma NoDup_fmap_inj {A B} (f : A → B) l x y : NoDup (f <$> l) → x ∈ l → y ∈ l → f x = f y → x = y.
Proof.
  intros Hn [i Hi]%list_elem_of_lookup [j Hj]%list_elem_of_lookup E.
  assert (i = j) as ->; [|congruence].
  eapply NoDup_lookup; [exact Hn| |]; rewrite list_lookup_fmap; [by rewrite Hi|by rewrite Hj, E].
Qed.

Lemma membersByEmail_wf l m : members_wf l → m ∈ l → membersByEmail l !! OrgMember_Email m = Some m.
Proof.
  intros [_ He] Hm. destruct (membersByEmail l !! OrgMember_Email m) as [m'|] eqn:E.
  - apply membersByEmail_Some in E as [Hin E]. f_equal. by eapply (NoDup_fmap_inj OrgMember_Email).
  - apply membersByEmail_None in E. exfalso. apply E. by apply list_elem_of_fmap_2.
Qed.

Lemma set_role_keeps id role m :
  OrgMember_ID (set_role id role m) = OrgMember_ID m ∧ OrgMember_Email (set_role id role m) = OrgMember_Email m.
Proof. unfold set_role. by destruct (String.eqb _ _). Qed.

Lemma set_role_wf id role l : members_wf l → members_wf (set_role id role <$> l).
Proof.
  unfold members_wf, member_ids, member_emails. rewrite <- !list_fmap_compose.
  erewrite (list_fmap_ext (OrgMember_ID ∘ _) OrgMember_ID), (list_fmap_ext (OrgMember_Email ∘ _) OrgMember_Email); [done|..];
    intros ? m ?; apply set_role_keeps.
Qed.

Lemma snoc_wf l m :
  members_wf l → OrgMember_ID m ∉ member_ids l → OrgMember_Email m ∉ member_emails l → members_wf (l ++ [m]).
Proof.
  unfold members_wf, member_ids, member_emails. rewrite !fmap_app. intros [? ?] ? ?. split; apply NoDup_app; cbn;
    (split_and!; [done|set_solver|apply NoDup_singleton]).
Qed.

Lemma filter_wf (P : OrgMember → Prop) `{∀ m, Decision (P m)} l : members_wf l → members_wf (filter P l).
Proof.
  intros [Hi He]. split; [eapply sublist_NoDup; [exact Hi|]|eapply sublist_NoDup; [exact He|]];
    apply fmap_sublist, sublist_filter.
Qed.

Definition user_emails (us : list OrganizationMemberSpec) : list string := OrganizationMember_Email <$> us.

(** The members [l] after the users [done] of a list that started from [l0]. *)
Record progressing (l0 : list OrgMember) (us : list OrganizationMemberSpec) (l : list OrgMember) : Prop := {
  progress_wf : members_wf l;
  progress_done : Forall (has_member l) us;
  progress_old : ∀ m, m ∈ l0 → ∃ m', m' ∈ l ∧ OrgMember_ID m' = OrgMember_ID m ∧
                   OrgMember_Email m' = OrgMember_Email m ∧ (OrgMember_Email m ∉ user_emails us → m' = m);
  progress_new : ∀ m, m ∈ l → OrgMember_Email m ∈ user_emails us ∨ m ∈ l0
}.

Lemma progressing_start l : members_wf l → progressing l [] l.
Proof. intros Hl. split; [done|constructor|intros m Hm; by exists m|by right]. Qed.

(** A listed user with the role asked for. *)
Lemma progress_keep l0 us u l m :
  progressing l0 us l → OrganizationMember_Email u ∉ user_emails us →
  membersByEmail l0 !! OrganizationMember_Email u = Some m → OrgMember_Role m = OrganizationMember_Role u →
  progressing l0 (us ++ [u]) l.
Proof.
  intros [Hwf Hdone Hold Hnew] Hu Hm Hr. apply membersByEmail_Some in Hm as [Hin Hm].
  assert (∀ e, e ∈ user_emails us → e ∈ user_emails (us ++ [u])) as Hsub
    by (unfold user_emails; intros e; rewrite fmap_app; set_solver).
  split; [done| | |].
  - apply Forall_app. split; [done|]. apply Forall_singleton. destruct (Hold m Hin) as (m' & Hm' & _ & _ & E).
    rewrite (E ltac:(by rewrite Hm)) in Hm'. by exists m.
  - intros x Hx. destruct (Hold x Hx) as (x' & ? & ? & ? & E). exists x'. split_and!; [done..|]. eauto.
  - intros x Hx. destruct (Hnew x Hx) as [?|?]; eauto.
Qed.

(** A listed user who gets another role. *)
Lemma progress_promote l0 us u l m :
  progressing l0 us l → OrganizationMember_Email u ∉ user_emails us →
  membersByEmail l0 !! OrganizationMember_Email u = Some m →
  OrgMember_ID m ∈ member_ids l ∧
  progressing l0 (us ++ [u]) (set_role (OrgMember_ID m) (OrganizationMember_Role u) <$> l).
Proof.
  intros [Hwf Hdone Hold Hnew] Hu Hm. apply membersByEmail_Some in Hm as [Hin Hm].
  destruct (Hold m Hin) as (m' & Hm' & Hid & _ & E). rewrite (E ltac:(by rewrite Hm)) in Hm'. clear E Hid m'.
  assert (∀ x, x ∈ l → OrgMember_Email x ≠ OrganizationMember_Email u →
            set_role (OrgMember_ID m) (OrganizationMember_Role u) x = x) as Hkeep.
  { intros x Hx Hne. unfold set_role. destruct (String.eqb_spec (OrgMember_ID x) (OrgMember_ID m)) as [E|]; [|done].
    destruct Hwf as [Hids _]. apply (NoDup_fmap_inj OrgMember_ID _ _ _ Hids Hx Hm') in E. congruence. }
  assert (∀ e, e ∈ user_emails us → e ∈ user_emails (us ++ [u])) as Hsub
    by (unfold user_emails; intros e; rewrite fmap_app; set_solver).
  split; [by apply list_elem_of_fmap_2|]. split.
  - by apply set_role_wf.
  - apply Forall_app. split.
    + rewrite Forall_forall in Hdone |- *. intros u' Hu'. destruct (Hdone u' Hu') as (x & Hx & Ex & Rx). exists x. split; [|done]. apply list_elem_of_fmap. exists x.
      split; [|done]. symmetry. apply Hkeep; [done|]. intros E. apply Hu. rewrite <- E, Ex.
      by apply list_elem_of_fmap_2.
    + apply Forall_singleton. exists (set_role (OrgMember_ID m) (OrganizationMember_Role u) m).
      split; [by apply list_elem_of_fmap_2|]. unfold set_role. by rewrite String.eqb_refl.
  - intros x Hx. destruct (Hold x Hx) as (x' & Hx' & Hid & He & E).
    exists (set_role (OrgMember_ID m) (OrganizationMember_Role u) x').
    destruct (set_role_keeps (OrgMember_ID m) (OrganizationMember_Role u) x') as [-> ->].
    split_and!; [by apply list_elem_of_fmap_2|done|done|]. intros Hn. rewrite Hkeep; [auto|done|].
    intros Eu. apply Hn. rewrite <- He, Eu. unfold user_emails. rewrite fmap_app. set_solver.
  - intros x (x' & -> & Hx')%list_elem_of_fmap.
    destruct (set_role_keeps (OrgMember_ID m) (OrganizationMember_Role u) x') as [_ ->].
    destruct (decide (OrgMember_Email x' = OrganizationMember_Email u)) as [E|E].
    + left. rewrite E. unfold user_emails. rewrite fmap_app. set_solver.
    + rewrite Hkeep by done. destruct (Hnew x' Hx'); eauto.
Qed.

(** A user not listed, who is added. *)
Lemma progress_add l0 us u l m :
  progressing l0 us l → OrganizationMember_Email u ∉ user_emails us →
  membersByEmail l0 !! OrganizationMember_Email u = None →
  (OrganizationMember_Email u ∉ member_emails l) ∧
  (OrgMember_Email m = OrganizationMember_Email u → OrgMember_Role m = OrganizationMember_Role u →
   OrgMember_ID m ∉ member_ids l → progressing l0 (us ++ [u]) (l ++ [m])).
Proof.
  intros [Hwf Hdone Hold Hnew] Hu Hm. apply membersByEmail_None in Hm.
  assert (OrganizationMember_Email u ∉ member_emails l) as Hnot.
  { intros (x & E & Hx)%list_elem_of_fmap. destruct (Hnew x Hx) as [?|Hx0]; [by rewrite E in Hu|].
    apply Hm. rewrite E. by apply list_elem_of_fmap_2. }
  assert (∀ e, e ∈ user_emails us → e ∈ user_emails (us ++ [u])) as Hsub
    by (unfold user_emails; intros e; rewrite fmap_app; set_solver).
  split; [done|]. intros He Hr Hid. split.
  - apply snoc_wf; [done|done|by rewrite He].
  - apply Forall_app. split.
    + eapply Forall_impl; [exact Hdone|]. intros u' (x & ? & ?). exists x. split; [set_solver|done].
    + apply Forall_singleton. exists m. split; [set_solver|done].
  - intros x Hx. destruct (Hold x Hx) as (x' & ? & ? & ? & ?). exists x'. split_and!; [set_solver|done|done|auto].
  - intros x [Hx|Hx%list_elem_of_singleton]%elem_of_app; [destruct (Hnew x Hx); eauto|]. subst x. left.
    rewrite He. unfold user_emails. rewrite fmap_app. set_solver.
Qed.

Section convergence.
Context {W : Type} `{KubeClient W} `{TenantClient W} `{LF : LangfuseAPI W}.
Context {SRV : OrgServer W} {LAWS : OrgServerLaws W}.

Lemma syncMember_wp c id l0 us u (s : St W) :
  progressing l0 us (members_of c id (st_world s)) → OrganizationMember_Email u ∉ user_emails us →
  wp (syncMember c id (membersByEmail l0) u)
    (λ e s', e = None ∧ progressing l0 (us ++ [u]) (members_of c id (st_world s'))) s.
Proof.
  intros Hp Hu. unfold syncMember. cbv zeta.
  destruct (membersByEmail l0 !! OrganizationMember_Email u) as [m|] eqn:Em.
  - destruct (String.eqb_spec (OrgMember_Role m) (OrganizationMember_Role u)) as [Er|Er].
    + apply wp_ret. split; [done|]. by eapply progress_keep.
    + destruct (progress_promote _ _ _ _ _ Hp Hu Em) as [Hid Hp'].
      destruct (promoting c id (OrgMember_ID m) (OrganizationMember_Role u) _ Hid) as (w' & Hw & Hl).
      apply wp_bind, wp_call_run. rewrite Hw. apply wp_ret. split; [done|]. cbn [fst snd st_world]. by rewrite Hl.
  - destruct (adding c id (OrganizationMember_Email u) (OrganizationMember_Role u) (st_world s)) as (m & w' & Hw & He & Hr & Hi & Hl).
    { by destruct (progress_add _ _ _ _ zero_OrgMember Hp Hu Em). }
    destruct (progress_add _ _ _ _ m Hp Hu Em) as [_ Hadd].
    apply wp_bind, wp_call_run. rewrite Hw. apply wp_ret. split; [done|]. cbn [fst snd st_world]. rewrite Hl. by apply Hadd.
Qed.

Lemma syncUsers_wp c id l0 done us n (s : St W) :
  progressing l0 done (members_of c id (st_world s)) → NoDup (user_emails (done ++ us)) →
  wp (syncUsers c id (membersByEmail l0) us n)
    (λ r s', r = Ok (n + Z.of_nat (length us)) ∧ progressing l0 (done ++ us) (members_of c id (st_world s'))) s.
Proof.
  revert done n s. induction us as [|u us IH]; intros done n s Hp Hn; cbn [syncUsers].
  - apply wp_ret. cbn. by rewrite Z.add_0_r, app_nil_r.
  - apply wp_bind. eapply wp_mono; [apply syncMember_wp; [exact Hp|]|].
    + unfold user_emails in *. rewrite fmap_app in Hn. apply NoDup_app in Hn as (_ & Hd & _). cbn in Hd. set_solver.
    + intros e s' [-> Hp']. replace (done ++ u :: us) with ((done ++ [u]) ++ us) in * by by rewrite <- app_assoc.
      eapply wp_mono; [apply IH; [exact Hp'|exact Hn]|]. intros r s'' [-> Hp'']. split; [|done]. cbn [length]. f_equal. lia.
Qed.

(** The members [l] when those of [todo] not asked for are still to be removed. *)
Definition purging (o : LangfuseOrganization) (todo l : list OrgMember) : Prop :=
  members_wf l ∧ Forall (has_member l) (users o) ∧
  (∀ m, m ∈ l → OrgMember_Email m ∈ desiredEmails o ∨ m ∈ todo) ∧
  (∀ m, m ∈ todo → OrgMember_Email m ∉ desiredEmails o → m ∈ l).

Lemma has_member_filter o m l u :
  members_wf l → m ∈ l → OrgMember_Email m ∉ desiredEmails o → u ∈ users o → has_member l u →
  has_member (filter (λ x, OrgMember_ID x ≠ OrgMember_ID m) l) u.
Proof.
  intros [Hids _] Hm He Hu (x & Hx & Ex & Rx). exists x. split; [|done]. apply list_elem_of_filter. split; [|done].
  intros E. apply (NoDup_fmap_inj OrgMember_ID _ _ _ Hids Hx Hm) in E as ->. apply He. rewrite Ex.
  unfold desiredEmails. apply elem_of_list_to_set. by apply list_elem_of_fmap_2.
Qed.

Lemma purging_step o m todo l :
  purging o (m :: todo) l → NoDup (m :: todo) → OrgMember_Email m ∉ desiredEmails o →
  OrgMember_ID m ∈ member_ids l ∧ purging o todo (filter (λ x, OrgMember_ID x ≠ OrgMember_ID m) l).
Proof.
  intros (Hwf & Hus & Hnew & Hold) [Hm _]%NoDup_cons He.
  assert (m ∈ l) as Hin by (apply Hold; [by left|done]).
  split; [by apply list_elem_of_fmap_2|]. split_and!.
  - by apply filter_wf.
  - rewrite Forall_forall in Hus |- *. intros u Hu. eapply has_member_filter; eauto.
  - intros x [Hne Hx]%list_elem_of_filter. destruct (Hnew x Hx) as [?|[->|?]%elem_of_cons]; [by left|done|by right].
  - intros x Hx Hex. apply list_elem_of_filter. split; [|apply Hold; [by right|done]].
    intros E. destruct Hwf as [Hids _].
    apply (NoDup_fmap_inj OrgMember_ID _ _ _ Hids) in E as ->; [done|apply Hold; [by right|done]|done].
Qed.

Lemma removeUnlisted_wp c o todo (s : St W) :
  purging o todo (members_of c (org_id o) (st_world s)) → NoDup todo →
  wp (removeUnlisted c (org_id o) (desiredEmails o) todo)
    (λ e s', e = None ∧ purging o [] (members_of c (org_id o) (st_world s'))) s.
Proof.
  revert s. induction todo as [|m todo IH]; intros s Hp Hn; cbn [removeUnlisted]; [by apply wp_ret|].
  case_bool_decide as He.
  - apply IH; [|by apply NoDup_cons in Hn as [_ ?]]. destruct Hp as (? & ? & Hnew & Hold). split_and!; [done..| |].
    + intros x Hx. destruct (Hnew x Hx) as [?|[->|?]%elem_of_cons]; [by left..|by right].
    + intros x Hx. apply Hold. by right.
  - destruct (purging_step _ _ _ _ Hp Hn He) as [Hid Hp'].
    destruct (removing c (org_id o) (OrgMember_ID m) _ Hid) as (w' & Hw & Hl).
    apply wp_bind, wp_call_run. rewrite Hw. apply IH; [cbn [fst snd st_world]; by rewrite Hl|].
    by apply NoDup_cons in Hn as [_ ?].
Qed.

Lemma elem_of_desired o e : e ∈ desiredEmails o ↔ e ∈ user_emails (users o).
Proof. unfold desiredEmails. by rewrite elem_of_list_to_set. Qed.

Lemma progressing_purging o l0 l : progressing l0 (users o) l → purging o l0 l.
Proof.
  intros [Hwf Hdone Hold Hnew]. split_and!; [done|done| |].
  - intros m Hm. rewrite elem_of_desired. by apply Hnew.
  - intros m Hm He. destruct (Hold m Hm) as (m' & Hm' & _ & _ & E). rewrite elem_of_desired in He.
    by rewrite <- (E He).
Qed.

Lemma members_applied c o (s : St W) :
  members_wf (members_of c (org_id o) (st_world s)) → NoDup (user_emails (users o)) →
  wp (applyMembers c o (members_of c (org_id o) (st_world s)))
    (λ r s', r = Ok (Z.of_nat (length (users o))) ∧ members_wf (members_of c (org_id o) (st_world s')) ∧
             converged o (members_of c (org_id o) (st_world s'))) s.
Proof.
  intros Hwf Hn. unfold applyMembers. fold (users o) (exclusive o) (org_id o). cbv zeta. apply wp_bind.
  eapply wp_mono; [apply (syncUsers_wp _ _ _ [] (users o)); [by apply progressing_start|done]|].
  intros r s' [-> Hp]. cbn [app] in Hp. destruct (exclusive o) eqn:Hx.
  - apply wp_bind. eapply wp_mono; [apply removeUnlisted_wp; [by apply progressing_purging|]|].
    + destruct Hwf as [Hids _]. by eapply NoDup_fmap_1.
    + intros e s'' [-> (Hwf' & Hus & Hnew & _)]. apply wp_ret. split_and!; [done|done|]. split; [done|]. intros _.
      apply Forall_forall. intros m Hm. by destruct (Hnew m Hm) as [?|?%elem_of_nil].
  - apply wp_ret. destruct Hp. split_and!; [done..|]. split; [done|by rewrite Hx].
Qed.

(** Members that are as asked for are left alone. *)
Lemma syncUsers_settled c id l us n (s : St W) :
  members_wf l → Forall (has_member l) us →
  syncUsers c id (membersByEmail l) us n s = (Ok (n + Z.of_nat (length us)), s).
Proof.
  intros Hwf. revert n. induction us as [|u us IH]; intros n Hall; cbn [syncUsers].
  - by rewrite Z.add_0_r.
  - apply Forall_cons in Hall as [(m & Hm & He & Hr) Hall]. unfold syncMember. cbv zeta.
    rewrite <- He, (membersByEmail_wf l m Hwf Hm), Hr, String.eqb_refl.
    unfold mbind, M_bind, mret, M_ret. rewrite (IH (n + 1) Hall). do 2 f_equal. cbn [length]. lia.
Qed.

Lemma removeUnlisted_settled c o ms (s : St W) :
  Forall (λ m, OrgMember_Email m ∈ desiredEmails o) ms →
  removeUnlisted c (org_id o) (desiredEmails o) ms s = (None, s).
Proof.
  induction 1 as [|m ms Hm _ IH]; [done|]. cbn [removeUnlisted]. by rewrite bool_decide_true.
Qed.

Lemma applyMembers_settled c o l (s : St W) :
  members_wf l → converged o l → applyMembers c o l s = (Ok (Z.of_nat (length (users o))), s).
Proof.
  intros Hwf [Hus Hx]. unfold applyMembers. fold (users o) (exclusive o) (org_id o). cbv zeta.
  unfold mbind, M_bind. rewrite (syncUsers_settled c (org_id o) l (users o) 0 s Hwf Hus).
  destruct (exclusive o); [|done]. by rewrite removeUnlisted_settled by auto.
Qed.

(** A synchronization: the listing, then the changes. *)
Lemma syncMembers_listed c o (s : St W) :
  org_id o ≠ "" → users o ≠ [] ∨ exclusive o = true →
  let l := members_of c (org_id o) (st_world s) in
  syncMembers c o s =
  applyMembers c o l (mkSt (st_world s) (st_trace s ++ [CLangfuse c (AListOrgMembers (org_id o) (Ok l))])).
Proof.
  intros Hid Hsome. unfold syncMembers. fold (users o) (exclusive o) (org_id o). cbv zeta.
  assert (bool_decide (users o = []) && negb (exclusive o) = false) as ->.
  { destruct Hsome as [Hu| ->]; [by rewrite bool_decide_false|by rewrite andb_false_r]. }
  assert (nonempty_str (org_id o) = true) as -> by by destruct (org_id o). cbn [negb].
  unfold ListOrgMembers, call, mbind, M_bind. by rewrite listing.
Qed.

(** C28: members converge, where the spec lists no email twice and the server has no two
    members with one id or email.  Against such a server, answering every call, whoever
    its members are, one synchronization of an organization that has an id, and users or
    exclusive members to care for, succeeds: it leaves every user of the spec a
    member with their role, and nobody else when the members are managed exclusively.
    The next one lists the members, finds nothing to do and changes nothing. *)
Theorem members_converge c o w :
  let members w := members_of c (org_id o) w in
  let counted : result Z := Ok (Z.of_nat (length (users o))) in
  members_wf (members w) → NoDup (user_emails (users o)) → org_id o ≠ "" → users o ≠ [] ∨ exclusive o = true →
  ∃ w' tr, run (syncMembers c o) w = (counted, w', tr) ∧ members_wf (members w') ∧ converged o (members w') ∧
    run (syncMembers c o) w' = (counted, w', [CLangfuse c (AListOrgMembers (org_id o) (Ok (members w')))]).
Proof.
  cbv zeta. intros Hwf Hn Hid Hsome. unfold run.
  rewrite (syncMembers_listed c o (mkSt w []) Hid Hsome). cbv zeta. cbn [st_world st_trace app].
  pose proof (members_applied c o (mkSt w [CLangfuse c (AListOrgMembers (org_id o) (Ok (members_of c (org_id o) w)))])
    Hwf Hn) as Hwp. unfold wp in Hwp. cbn [st_world] in Hwp.
  destruct (applyMembers _ _ _ _) as [r [w' tr]]. cbn [st_world st_trace] in Hwp |- *. destruct Hwp as (-> & Hwf' & Hc).
  exists w', tr. split_and!; [done..|].
  rewrite (syncMembers_listed c o (mkSt w' []) Hid Hsome). cbv zeta. cbn [st_world st_trace app].
  by rewrite applyMembers_settled.
Qed.
End convergence.

(** Any failed lookup renames by creation.  When the lookup of the recorded
    organization fails, whatever the error, and the listing shows it, alive and under
    the recorded id, but under another name than the spec's, the pass creates a second
    organization: the rename that a successful lookup would have made is lost. *)
Theorem failed_lookup_duplicates {W} `{LangfuseAPI W} c o (w : W) r w' tr e orgs x :
  run (syncOrganization c o) w = (r, w', tr) →
  CLangfuse c (AGetOrganization (org_id o) (Err e)) ∈ tr → CLangfuse c (AListOrganizations (Ok orgs)) ∈ tr →
  x ∈ orgs → Organization_ID x = org_id o → OrgSpec_DisplayName (Org_Spec o) ∉ Organization_Name <$> orgs →
  ∃ r', CLangfuse c (ACreateOrganization (OrgSpec_DisplayName (Org_Spec o)) r') ∈ tr.
Proof.
  intros Hrun Hget Hlist _ _ Hname. pose proof (traces_run _ _ _ _ _ _ (syncOrganization_traces c o) Hrun) as Hs.
  assert (∀ r cs, org_found c o r cs → CLangfuse c (AListOrganizations (Ok orgs)) ∈ cs →
            ∃ r', CLangfuse c (ACreateOrganization (OrgSpec_DisplayName (Org_Spec o)) r') ∈ cs) as Hfound.
  { intros r0 cs [e0 e1|l y Hf|l r1 id Hf _ _] Hin; [by apply list_elem_of_singleton in Hin| |set_solver].
    apply list_elem_of_singleton in Hin as [= ->]. apply find_some in Hf as [Hy He%String.eqb_eq].
    exfalso. apply Hname. rewrite <- He. by apply list_elem_of_fmap_2, list_elem_of_In. }
  destruct Hs as [y|y z|y e1|e1 r0 cs Hne Hf|r0 cs Hid Hf]; try by (repeat (apply elem_of_cons in Hlist as [?|Hlist]; [done|]);
    apply elem_of_nil in Hlist).
  - apply elem_of_cons in Hlist as [?|Hlist]; [done|]. destruct (Hfound _ _ Hf Hlist) as [r' ?]. exists r'. by right.
  - by apply (Hfound _ _ Hf).
Qed.

(** ** Witnesses, on a cluster with a Langfuse server *)

Definition ex_ready : LangfuseInstance :=
  set_Instance_Status (set_Status_Ready true zero_LangfuseInstanceStatus) (ex_instance "3.1" "pg" "default").

Definition ex_admin_secret : Secret :=
  mkSecret (ex_meta "lf-generated-secrets") {[ "admin-api-key" := "k3y" ]}.

Definition ex_org_key : NamespacedName := mkKey "prod" "acme".

(** An organization that has Ann own it and Bob in it, and nobody else. *)
Definition ex_org (deleted : option Z) (id : string) : LangfuseOrganization :=
  mkLangfuseOrganization (mkObjectMeta "acme" "prod" ∅ ∅ [] 2 deleted [organizationFinalizer])
    (mkLangfuseOrganizationSpec (mkObjectReference "lf" "") "Acme"
       (mkOrganizationMembersSpec true
          [mkOrganizationMemberSpec "ann@acme.io" "OWNER"; mkOrganizationMemberSpec "bob@acme.io" "MEMBER"]))
    (set_OrgStatus_OrganizationID id zero_LangfuseOrganizationStatus).

Definition ex_project_key : NamespacedName := mkKey "prod" "site".

(** The server knows the organization as [name], with Ann a member and Eve too. *)
Definition ex_tenancy (o : LangfuseOrganization) (name : string) (fault : option GoError) : Tenancy :=
  mkTenancy (mkFake {[ ex_key := ex_ready ]} ∅ ∅ {[ mkKey "prod" "lf-generated-secrets" := ex_admin_secret ]} [] None None 0)
    {[ ex_org_key := o ]} ∅ [mkOrganization "o1" name]
    {[ "o1" := [mkOrgMember "m1" "ann@acme.io" "MEMBER"; mkOrgMember "m2" "eve@else.io" "VIEWER"] ]}
    [] ∅ fault.

Definition ex_org_pass (w : Tenancy) : Outcome * Tenancy * list Call :=
  run (Reconcile (API := list_conditions) (FIN := list_finalizers) ex_org_key) w.

Definition ex_admin : httpClient := NewAdminClient (instanceBaseURL ex_ready) "k3y".

Lemma members_changed_with_cause_witness :
  let tr := (ex_org_pass (ex_tenancy (ex_org None "o1") "Acme" None)).2 in
  let x := CLangfuse ex_admin (ARemoveOrgMember "o1" "m2" None) in
  length (filter (λ c, member_call c = true) tr) = 3%nat ∧
  ∃ o c l, works_on (FIN := list_finalizers) ex_org_key tr o ∧ CLangfuse c (AListOrgMembers (org_id o) (Ok l)) ∈ tr ∧ member_change c o l x.
Proof.
  cbv zeta. split; [by vm_compute|].
  destruct (members_changed_with_cause _ _ _ _ _ (CLangfuse ex_admin (ARemoveOrgMember "o1" "m2" None))
    (triple_eta (ex_org_pass (ex_tenancy (ex_org None "o1") "Acme" None)))) as (o & c & l & lcs & Hw & _ & _ & Hl & Hc).
  - apply (list_elem_of_lookup_2 _ 7). by vm_compute.
  - done.
  - exact (ex_intro _ o (ex_intro _ c (ex_intro _ l (conj Hw (conj Hl Hc))))).
Defined.

Lemma organization_deleted_safely_witness :
  let tr := (ex_org_pass (ex_tenancy (ex_org (Some 1) "o1") "Acme" None)).2 in
  lf_orgs (ex_org_pass (ex_tenancy (ex_org (Some 1) "o1") "Acme" None)).1.2 = [] ∧
  ∃ o ps, CGetOrganization ex_org_key (Ok o) ∈ tr ∧ ¬ org_live o ∧ CListProjects (Ok ps) ∈ tr ∧ dependents o ps = [].
Proof.
  cbv zeta. split; [by vm_compute|].
  destruct (organization_deleted_safely (FL := list_finalizers_laws) _ _ _ _ _
    (CLangfuse ex_admin (ADeleteOrganization "o1" None))
    (triple_eta (ex_org_pass (ex_tenancy (ex_org (Some 1) "o1") "Acme" None)))) as (o & ps & Hg & Hd & _ & Hl & Hn & _).
  - apply (list_elem_of_lookup_2 _ 4). by vm_compute.
  - done.
  - exact (ex_intro _ o (ex_intro _ ps (conj Hg (conj Hd (conj Hl Hn))))).
Defined.

(** The resource as the server holds it after a pass. *)
Definition ex_org_after (w : Tenancy) : LangfuseOrganization :=
  default zero_LangfuseOrganization (tn_orgs (ex_org_pass w).1.2 !! ex_org_key).

Lemma organization_status_honest_witness :
  let w := ex_tenancy (ex_org None "o1") "Acme" None in
  OrgStatus_Ready (Org_Status (ex_org_after w)) = true ∧
  ∃ o, org_in_sync (ex_org_after w) o (ex_org_pass w).2.
Proof.
  cbv zeta. split; [by vm_compute|].
  destruct (organization_status_honest (AL := list_conditions_laws) _ _ _ _ _
    (ex_org_after (ex_tenancy (ex_org None "o1") "Acme" None)) None
    (triple_eta (ex_org_pass (ex_tenancy (ex_org None "o1") "Acme" None)))) as (_ & Hr).
  - apply (list_elem_of_lookup_2 _ 9). by vm_compute.
  - destruct Hr as (_ & o & _ & _ & _ & _ & _ & _ & Hs); [by vm_compute|]. exact (ex_intro _ o Hs).
Defined.

Lemma members_converge_witness :
  let w := ex_tenancy (ex_org None "o1") "Acme" None in
  ∃ w', converged (ex_org None "o1") (members_in w' "o1") ∧
    run (syncMembers ex_admin (ex_org None "o1")) w' =
    (Ok 2, w', [CLangfuse ex_admin (AListOrgMembers "o1" (Ok (members_in w' "o1")))]).
Proof.
  cbv zeta.
  destruct (members_converge ex_admin (ex_org None "o1") (ex_tenancy (ex_org None "o1") "Acme" None))
    as (w' & tr & _ & _ & Hc & Hr).
  - split; apply (bool_decide_unpack _); by vm_compute.
  - apply (bool_decide_unpack _). by vm_compute.
  - done.
  - by left.
  - exact (ex_intro _ w' (conj Hc Hr)).
Defined.

Definition ex_org_sync : result string * Tenancy * list Call :=
  run (syncOrganization ex_admin (ex_org None "o1"))
    (ex_tenancy (ex_org None "o1") "Acme Ltd" (Some (newError "connection refused"))).

Lemma failed_lookup_duplicates_witness :
  lf_orgs ex_org_sync.1.2 = [mkOrganization "o1" "Acme Ltd"; mkOrganization "0" "Acme"] ∧
  Exists (λ x, match x with CLangfuse _ (ACreateOrganization "Acme" _) => True | _ => False end) ex_org_sync.2.
Proof.
  split; [by vm_compute|].
  destruct (failed_lookup_duplicates ex_admin (ex_org None "o1") _ _ _ _ (newError "connection refused")
    [mkOrganization "o1" "Acme Ltd"] (mkOrganization "o1" "Acme Ltd") (triple_eta ex_org_sync)) as [r' Hr].
  - apply (list_elem_of_lookup_2 _ 0). by vm_compute.
  - apply (list_elem_of_lookup_2 _ 1). by vm_compute.
  - by left.
  - done.
  - cbn. set_solver.
  - apply Exists_exists. eexists. split; [exact Hr|done].
Defined.
