(* ===== verification/Project.v ===== *)
(** * The project controller ([internal/controller/langfuseproject_controller.go])

    One pass of [LangfuseProjectReconciler.Reconcile]: it finds the instance and the
    organization, speaks to Langfuse with an API key of the organization (minted with
    the admin key and kept in a Secret), makes sure the project exists, and keeps one
    Secret with a valid API key for each the resource asks for. *)

From S2P Require Import Prelude GoStd KubeTypes ApiTypes LangfuseTypes Kube Examples Config Resources.
From S2P Require Import Phase LangfuseClient Tenancy.
From S2P Require Organization.

Open Scope string_scope.
Open Scope list_scope.
Open Scope Z_scope.

Definition projectFinalizer : string := "langfuse.palena.ai/project-cleanup".
Definition projectResyncPeriod : Z := 5 * Minute.
Definition deleteOnRemoveAnnotation : string := "langfuse.palena.ai/delete-on-remove".

(** ** The resource *)

Section status.
Context `{API : ConditionAPI}.

Definition project_condition (s : ConditionStatus) (reason message : string) (p : LangfuseProject) : LangfuseProject :=
  set_Project_Status (set_ProjectStatus_Conditions
    (SetStatusCondition (ProjectStatus_Conditions (Project_Status p))
       (condition conditionTypeReady s reason message (om_Generation (Project_ObjectMeta p))))
    (Project_Status p)) p.

Definition project_ready (ready : bool) (p : LangfuseProject) : LangfuseProject :=
  set_Project_Status (set_ProjectStatus_Ready ready (Project_Status p)) p.

Definition project_failed (reason message : string) (p : LangfuseProject) : LangfuseProject :=
  project_ready false (project_condition ConditionFalse reason message p).

Definition project_synced (p : LangfuseProject) : LangfuseProject :=
  project_ready true (project_condition ConditionTrue "Synced" "Project is synced with Langfuse" p).
End status.

Definition with_organization (org : LangfuseOrganization) (p : LangfuseProject) : LangfuseProject :=
  set_Project_Status (set_ProjectStatus_OrganizationID (OrgStatus_OrganizationID (Org_Status org)) (Project_Status p)) p.
Definition with_project_id (id : string) (p : LangfuseProject) : LangfuseProject :=
  set_Project_Status (set_ProjectStatus_ProjectID id (Project_Status p)) p.
Definition with_api_keys (l : list APIKeyStatus) (p : LangfuseProject) : LangfuseProject :=
  set_Project_Status (set_ProjectStatus_APIKeys l (Project_Status p)) p.

Definition in_ns_of (p : LangfuseProject) (name : string) : NamespacedName :=
  mkKey (om_Namespace (Project_ObjectMeta p)) name.
Definition project_id (p : LangfuseProject) : string := ProjectStatus_ProjectID (Project_Status p).
Definition api_keys (p : LangfuseProject) : list APIKeySpec := ProjectSpec_APIKeys (Project_Spec p).
Definition secret_key (p : LangfuseProject) (k : APIKeySpec) : NamespacedName := in_ns_of p (APIKey_SecretName k).

(** The organization a project belongs to, and its instance. *)
Definition organization_key (p : LangfuseProject) : NamespacedName :=
  Organization.ref_key (ProjectSpec_OrganizationRef (Project_Spec p)) (om_Namespace (Project_ObjectMeta p)).
Definition instance_key (p : LangfuseProject) : NamespacedName :=
  Organization.ref_key (ProjectSpec_InstanceRef (Project_Spec p)) (om_Namespace (Project_ObjectMeta p)).

(** The Secret that keeps an organization's API key. *)
Definition orgkey_name (org : LangfuseOrganization) : string := om_Name (Org_ObjectMeta org) +:+ "-orgkey".
Definition orgkey_key (org : LangfuseOrganization) : NamespacedName :=
  mkKey (om_Namespace (Org_ObjectMeta org)) (orgkey_name org).

(** The Secrets of a pass; the server stores [stringData] as [data]. *)
Definition orgKeySecret (i : LangfuseInstance) (org : LangfuseOrganization) (keyPair : APIKeyPair) : Secret :=
  mkSecret (mkObjectMeta (orgkey_name org) (om_Namespace (Org_ObjectMeta org)) (CommonLabels i "org-api-key") ∅ [] 0 None [])
    (list_to_map [("publicKey", APIKeyPair_PublicKey keyPair); ("secretKey", APIKeyPair_SecretKey keyPair)]).

Definition apiKeySecret (p : LangfuseProject) (host : string) (k : APIKeySpec) (keyPair : APIKeyPair) : Secret :=
  mkSecret (mkObjectMeta (APIKey_SecretName k) (om_Namespace (Project_ObjectMeta p))
      (list_to_map [("app.kubernetes.io/name", "langfuse");
                    ("app.kubernetes.io/managed-by", "langfuse-operator");
                    ("app.kubernetes.io/component", "api-key");
                    ("langfuse.palena.ai/instance", ObjectReference_Name (ProjectSpec_InstanceRef (Project_Spec p)));
                    ("langfuse.palena.ai/project", om_Name (Project_ObjectMeta p))]) ∅ [] 0 None [])
    (list_to_map [("publicKey", APIKeyPair_PublicKey keyPair); ("secretKey", APIKeyPair_SecretKey keyPair); ("host", host)]).

(** A field of a Secret, [""] if absent. *)
Definition field (s : Secret) (name : string) : string := default "" (sec_Data s !! name).

(** [err != nil && !benign(err)]. *)
Definition unless (benign : GoError → bool) (e : option GoError) : option GoError :=
  match e with Some e => if benign e then None else Some e | None => None end.

Definition set_sec_Meta (m : ObjectMeta) (s : Secret) : Secret := mkSecret m (sec_Data s).

(** ** The controller *)

Section controller.
Context {W : Type} `{KubeClient W} `{TenantClient W} `{LangfuseAPI W}.
Context `{API : ConditionAPI} `{FIN : FinalizerAPI} `{OWN : OwnerAPI}.

Definition resolveInstance (p : LangfuseProject) : M (St W) (result LangfuseInstance) :=
  Organization.resolveInstanceAt (instance_key p).

Definition resolveOrganization (p : LangfuseProject) : M (St W) (result LangfuseOrganization) :=
  let key := organization_key p in
  r ← Get_Organization key;
  mret match r with
       | Err e =>
           if IsNotFound e then Err (newError ("LangfuseOrganization " +:+ quote (key_String key) +:+ " not found"))
           else Err (wrapError ("fetching LangfuseOrganization " +:+ quote (key_String key)) e)
       | Ok org =>
           if negb (OrgStatus_Ready (Org_Status org))
           then Err (newError ("LangfuseOrganization " +:+ quote (key_String key) +:+ " is not ready"))
           else if negb (nonempty_str (OrgStatus_OrganizationID (Org_Status org)))
           then Err (newError ("LangfuseOrganization " +:+ quote (key_String key) +:+ " has no organization ID set"))
           else Ok org
       end.

(** The minting of an organization key, and the Secret that keeps it. *)
Definition mintOrgKey (i : LangfuseInstance) (org : LangfuseOrganization) : M (St W) (result httpClient) :=
  r ← Organization.buildLangfuseClient i;
  match r with
  | Err e => mret (Err e)
  | Ok adminClient =>
      r ← CreateOrganizationAPIKey adminClient (OrgStatus_OrganizationID (Org_Status org))
            ("langfuse-operator (" +:+ om_Name (Org_ObjectMeta org) +:+ ")");
      match r with
      | Err e => mret (Err (wrapError "minting organization API key" e))
      | Ok keyPair =>
          let keySecret := orgKeySecret i org keyPair in
          match SetControllerReference (Org_ObjectMeta org) (sec_Meta keySecret) with
          | Err e => mret (Err (wrapError "setting owner reference on org key secret" e))
          | Ok meta =>
              e ← Create_Secret (set_sec_Meta meta keySecret);
              mret match unless IsAlreadyExists e with
                   | Some e => Err (wrapError ("caching org key secret " +:+ quote (orgkey_name org)) e)
                   | None => Ok (NewProjectClient (Organization.instanceBaseURL i)
                                   (APIKeyPair_PublicKey keyPair) (APIKeyPair_SecretKey keyPair))
                   end
          end
      end
  end.

Definition ensureProjectClient (i : LangfuseInstance) (org : LangfuseOrganization) : M (St W) (result httpClient) :=
  r ← Get_Secret (orgkey_key org);
  match r with
  | Ok cached =>
      let pk := field cached "publicKey" in
      let sk := field cached "secretKey" in
      if nonempty_str pk && nonempty_str sk then mret (Ok (NewProjectClient (Organization.instanceBaseURL i) pk sk))
      else mintOrgKey i org
  | Err e =>
      if IsNotFound e then mintOrgKey i org
      else mret (Err (wrapError ("reading cached org key secret " +:+ quote (orgkey_name org)) e))
  end.

(** *** The project *)

Definition findProject (c : httpClient) (p : LangfuseProject) : M (St W) (result string) :=
  let name := ProjectSpec_ProjectName (Project_Spec p) in
  r ← ListProjects c;
  match r with
  | Err e => mret (Err (wrapError "listing projects" e))
  | Ok projects =>
      match find (λ x, String.eqb (LFProject_Name x) name) projects with
      | Some x => mret (Ok (LFProject_ID x))
      | None =>
          r ← CreateProject c name;
          mret match r with
               | Err e => Err (wrapError "creating project" e)
               | Ok created => Ok (LFProject_ID created)
               end
      end
  end.

Definition syncProject (c : httpClient) (p : LangfuseProject) : M (St W) (result string) :=
  if nonempty_str (project_id p) then
    r ← GetProject c (project_id p);
    match r with
    | Ok _ => mret (Ok (project_id p))
    | Err _ => findProject c p
    end
  else findProject c p.

(** *** The API keys *)

(** A new key, and the Secret that holds it. *)
Definition createAPIKey (c : httpClient) (p : LangfuseProject) (host : string) (k : APIKeySpec)
    : M (St W) (result APIKeyStatus) :=
  r ← CreateAPIKey c (project_id p) (APIKey_Name k);
  match r with
  | Err e => mret (Err (wrapError ("creating API key " +:+ quote (APIKey_Name k)) e))
  | Ok keyPair =>
      let secret := apiKeySecret p host k keyPair in
      match SetControllerReference (Project_ObjectMeta p) (sec_Meta secret) with
      | Err e => mret (Err (wrapError ("setting owner reference on API key secret " +:+ quote (APIKey_SecretName k)) e))
      | Ok meta =>
          e ← Create_Secret (set_sec_Meta meta secret);
          match unless IsAlreadyExists e with
          | Some e => mret (Err (wrapError ("creating API key secret " +:+ quote (APIKey_SecretName k)) e))
          | None =>
              now ← Now;
              mret (Ok (mkAPIKeyStatus (APIKey_Name k) (APIKey_SecretName k) true (Some now)))
          end
      end
  end.

(** One entry of the spec: kept while Langfuse knows its key, else made anew. *)
Definition syncAPIKey (c : httpClient) (p : LangfuseProject) (host : string) (remoteKeys : list APIKey) (k : APIKeySpec)
    : M (St W) (result APIKeyStatus) :=
  let secretKey := secret_key p k in
  r ← Get_Secret secretKey;
  match r with
  | Err e =>
      if IsNotFound e then createAPIKey c p host k
      else mret (Err (wrapError ("getting API key secret " +:+ quote (key_String secretKey)) e))
  | Ok existing =>
      if bool_decide (field existing "publicKey" ∈ (APIKey_PublicKey <$> remoteKeys))
      then mret (Ok (mkAPIKeyStatus (APIKey_Name k) (APIKey_SecretName k) true None))
      else
        e ← Delete_Secret (om_key (sec_Meta existing));
        match unless IsNotFound e with
        | Some e => mret (Err (wrapError ("deleting stale API key secret " +:+ quote (key_String secretKey)) e))
        | None => createAPIKey c p host k
        end
  end.

Fixpoint syncKeys (c : httpClient) (p : LangfuseProject) (host : string) (remoteKeys : list APIKey)
    (specs : list APIKeySpec) (statuses : list APIKeyStatus) : M (St W) (result (list APIKeyStatus)) :=
  match specs with
  | [] => mret (Ok statuses)
  | k :: specs =>
      r ← syncAPIKey c p host remoteKeys k;
      match r with
      | Err e => mret (Err e)
      | Ok s => syncKeys c p host remoteKeys specs (statuses ++ [s])
      end
  end.

Definition syncAPIKeys (c : httpClient) (p : LangfuseProject) (i : LangfuseInstance)
    : M (St W) (result (list APIKeyStatus)) :=
  if negb (nonempty_str (project_id p)) then mret (Err (newError "project ID not set, cannot sync API keys"))
  else
    r ← ListAPIKeys c (project_id p);
    match r with
    | Err e => mret (Err (wrapError "listing remote API keys" e))
    | Ok remoteKeys => syncKeys c p (Organization.instanceBaseURL i) remoteKeys (api_keys p) []
    end.

(** *** Deletion *)

(** The public keys in the Secrets of the spec. *)
Fixpoint managedPublicKeys (p : LangfuseProject) (specs : list APIKeySpec) (managed : gset string)
    : M (St W) (gset string) :=
  match specs with
  | [] => mret managed
  | k :: specs =>
      r ← Get_Secret (secret_key p k);
      managedPublicKeys p specs
        match r with
        | Err _ => managed
        | Ok s => if nonempty_str (field s "publicKey") then {[ field s "publicKey" ]} ∪ managed else managed
        end
  end.

Fixpoint revokeManaged (c : httpClient) (p : LangfuseProject) (managed : gset string) (keys : list APIKey)
    : M (St W) unit :=
  match keys with
  | [] => mret tt
  | k :: keys =>
      if bool_decide (APIKey_PublicKey k ∈ managed) then
        _ ← DeleteAPIKey c (project_id p) (APIKey_ID k);
        revokeManaged c p managed keys
      else revokeManaged c p managed keys
  end.

Definition revokeAPIKeys (c : httpClient) (p : LangfuseProject) : M (St W) unit :=
  r ← ListAPIKeys c (project_id p);
  match r with
  | Err _ => mret tt
  | Ok apiKeys =>
      managed ← managedPublicKeys p (api_keys p) ∅;
      revokeManaged c p managed apiKeys
  end.

(** Whether the project goes with the resource. *)
Definition deleteOnRemove (p : LangfuseProject) : bool :=
  bool_decide (om_Annotations (Project_ObjectMeta p) !! deleteOnRemoveAnnotation = Some "true").

(** The [default] branch of the clean-up: keys are revoked, and the project deleted. *)
Definition cleanupThrough (instance : LangfuseInstance) (org : LangfuseOrganization) (p : LangfuseProject)
    : M (St W) unit :=
  r ← ensureProjectClient instance org;
  match r with
  | Err _ => mret tt
  | Ok c =>
      _ ← revokeAPIKeys c p;
      if deleteOnRemove p then _ ← DeleteProject c (project_id p); mret tt else mret tt
  end.

(** The project in Langfuse, best effort. *)
Definition cleanupInLangfuse (p : LangfuseProject) : M (St W) unit :=
  if nonempty_str (project_id p) then
    ri ← resolveInstance p;
    ro ← resolveOrganization p;
    match ri, ro with
    | Ok instance, Ok org => cleanupThrough instance org p
    | _, _ => mret tt
    end
  else mret tt.

Fixpoint deleteSecrets (p : LangfuseProject) (specs : list APIKeySpec) : M (St W) unit :=
  match specs with
  | [] => mret tt
  | k :: specs =>
      r ← Get_Secret (secret_key p k);
      match r with
      | Err _ => deleteSecrets p specs
      | Ok secret =>
          _ ← Delete_Secret (om_key (sec_Meta secret));
          deleteSecrets p specs
      end
  end.

Definition handleDeletion (p : LangfuseProject) : M (St W) Outcome :=
  if negb (ContainsFinalizer (Project_ObjectMeta p) projectFinalizer) then mret done_now
  else
    _ ← cleanupInLangfuse p;
    _ ← deleteSecrets p (api_keys p);
    r ← Update_Project (set_Project_ObjectMeta (RemoveFinalizer (Project_ObjectMeta p) projectFinalizer) p);
    mret match r with Err e => failed (wrapError "removing finalizer" e) | Ok _ => done_now end.

(** *** The pass *)

(** A step that failed: reported, and tried again. *)
Definition blocked (reason : string) (e : GoError) (p : LangfuseProject) : M (St W) Outcome :=
  _ ← Status_Update_Project (project_failed reason (err_msg e) p);
  mret (done_after (30 * Second)).

(** The report of a failed step 6. *)
Definition clientFailure (e : GoError) (p : LangfuseProject) : LangfuseProject :=
  if IsForbidden e then project_failed "RequiresEELicense" Organization.eeLicenseMessage p
  else project_failed "ClientError" (err_msg e) p.

(** Steps 8 and 9. *)
Definition finishProject (c : httpClient) (i : LangfuseInstance) (p : LangfuseProject) : M (St W) Outcome :=
  r ← syncAPIKeys c p i;
  match r with
  | Err e =>
      _ ← Status_Update_Project (project_failed "APIKeySyncFailed" ("Failed to sync API keys: " +:+ err_msg e) p);
      mret (failed (wrapError "syncing API keys" e))
  | Ok statuses =>
      e ← Status_Update_Project (project_synced (with_api_keys statuses p));
      mret match e with
           | Some e => failed (wrapError "updating status" e)
           | None => done_after projectResyncPeriod
           end
  end.

(** Steps 6 to 9. *)
Definition syncWithLangfuse (i : LangfuseInstance) (org : LangfuseOrganization) (p : LangfuseProject)
    : M (St W) Outcome :=
  r ← ensureProjectClient i org;
  match r with
  | Err e =>
      _ ← Status_Update_Project (clientFailure e p);
      mret (done_after (30 * Second))
  | Ok c =>
      r ← syncProject c p;
      match r with
      | Err e =>
          _ ← Status_Update_Project (project_failed "SyncFailed" ("Failed to sync project: " +:+ err_msg e) p);
          mret (failed (wrapError "syncing project" e))
      | Ok id => finishProject c i (with_project_id id p)
      end
  end.

(** Steps 4 to 9. *)
Definition reconcileProject (p : LangfuseProject) : M (St W) Outcome :=
  r ← resolveInstance p;
  match r with
  | Err e => blocked "InstanceNotReady" e p
  | Ok instance =>
      r ← resolveOrganization p;
      match r with
      | Err e => blocked "OrganizationNotReady" e p
      | Ok org => syncWithLangfuse instance org (with_organization org p)
      end
  end.

Definition ensureProjectFinalizer (p : LangfuseProject) : M (St W) (result LangfuseProject) :=
  if ContainsFinalizer (Project_ObjectMeta p) projectFinalizer then mret (Ok p)
  else Update_Project (set_Project_ObjectMeta (AddFinalizer (Project_ObjectMeta p) projectFinalizer) p).

Definition Reconcile (req : NamespacedName) : M (St W) Outcome :=
  r ← Get_Project req;
  match r with
  | Err e => if IsNotFound e then mret done_now
             else mret (failed (wrapError "fetching LangfuseProject" e))
  | Ok p =>
      match om_DeletionTimestamp (Project_ObjectMeta p) with
      | Some _ => handleDeletion p
      | None =>
          r ← ensureProjectFinalizer p;
          match r with
          | Err e => mret (failed (wrapError "adding finalizer" e))
          | Ok p => reconcileProject p
          end
      end
  end.
End controller.

(** ** The calls of a pass *)

Definition admin_key (i : LangfuseInstance) (s : Secret) : string := field s (Organization.adminKeyRef i).2.
Definition admin_client (i : LangfuseInstance) (s : Secret) : httpClient :=
  NewAdminClient (Organization.instanceBaseURL i) (admin_key i s).
Definition admin_key_key (i : LangfuseInstance) : NamespacedName := in_ns i (Organization.adminKeyRef i).1.
Definition org_id (org : LangfuseOrganization) : string := OrgStatus_OrganizationID (Org_Status org).
Definition project_client (i : LangfuseInstance) (publicKey secretKey : string) : httpClient :=
  NewProjectClient (Organization.instanceBaseURL i) publicKey secretKey.

(** The minting of an organization key, with the admin key of the Secret [s]. *)
Definition mint_calls (i : LangfuseInstance) (org : LangfuseOrganization) (s : Secret) (r : result APIKeyPair) : list Call :=
  [CGetSecret (admin_key_key i) (Ok s);
   CLangfuse (admin_client i s)
     (ACreateOrganizationAPIKey (org_id org) ("langfuse-operator (" +:+ om_Name (Org_ObjectMeta org) +:+ ")") r)].

Inductive minting `{OwnerAPI} (i : LangfuseInstance) (org : LangfuseOrganization) : result httpClient → list Call → Prop :=
  | mint_no_admin e a : minting i org (Err e) [CGetSecret (admin_key_key i) a]
  | mint_unstored s r e : admin_key i s ≠ "" → minting i org (Err e) (mint_calls i org s r)
  | mint_stored s kp m e r :
      admin_key i s ≠ "" →
      SetControllerReference (Org_ObjectMeta org) (sec_Meta (orgKeySecret i org kp)) = Ok m →
      (∀ c, r = Ok c → c = project_client i (APIKeyPair_PublicKey kp) (APIKeyPair_SecretKey kp)) →
      minting i org r (mint_calls i org s (Ok kp) ++ [CCreateSecret (set_sec_Meta m (orgKeySecret i org kp)) e]).

(** What makes the operator mint: no Secret, or one without both keys. *)
Definition unusable (a : result Secret) : Prop :=
  match a with
  | Ok s => field s "publicKey" = "" ∨ field s "secretKey" = ""
  | Err e => IsNotFound e = true
  end.

Inductive login `{OwnerAPI} (i : LangfuseInstance) (org : LangfuseOrganization) : result httpClient → list Call → Prop :=
  | login_cached s :
      field s "publicKey" ≠ "" → field s "secretKey" ≠ "" →
      login i org (Ok (project_client i (field s "publicKey") (field s "secretKey"))) [CGetSecret (orgkey_key org) (Ok s)]
  | login_unread e e' : login i org (Err e) [CGetSecret (orgkey_key org) (Err e')]
  | login_minting a r cs : unusable a → minting i org r cs → login i org r (CGetSecret (orgkey_key org) a :: cs).

(** The project, searched for and found, or created. *)
Definition named (p : LangfuseProject) (l : list LFProject) : option LFProject :=
  find (λ x, String.eqb (LFProject_Name x) (ProjectSpec_ProjectName (Project_Spec p))) l.

Inductive project_found (c : httpClient) (p : LangfuseProject) : result string → list Call → Prop :=
  | found_no_list e e' : project_found c p (Err e) [CLangfuse c (AListProjects (Err e'))]
  | found_listed l x :
      named p l = Some x → project_found c p (Ok (LFProject_ID x)) [CLangfuse c (AListProjects (Ok l))]
  | found_created l r id :
      named p l = None → (∀ i, id = Ok i → ∃ x, r = Ok x ∧ i = LFProject_ID x) →
      project_found c p id [CLangfuse c (AListProjects (Ok l));
                            CLangfuse c (ACreateProject (ProjectSpec_ProjectName (Project_Spec p)) r)].

Inductive project_sync (c : httpClient) (p : LangfuseProject) : result string → list Call → Prop :=
  | sync_known x :
      project_id p ≠ "" → project_sync c p (Ok (project_id p)) [CLangfuse c (AGetProject (project_id p) (Ok x))]
  | sync_lost e r cs :
      project_id p ≠ "" → project_found c p r cs →
      project_sync c p r (CLangfuse c (AGetProject (project_id p) (Err e)) :: cs)
  | sync_new r cs : project_id p = "" → project_found c p r cs → project_sync c p r cs.

(** One API key of the spec. *)
Definition known_to (l : list APIKey) (s : Secret) : Prop := field s "publicKey" ∈ (APIKey_PublicKey <$> l).

(** Its Secret is not there, or held a key Langfuse does not list and is gone. *)
Inductive vacant (p : LangfuseProject) (l : list APIKey) (k : APIKeySpec) : list Call → Prop :=
  | vacant_absent e : IsNotFound e = true → vacant p l k [CGetSecret (secret_key p k) (Err e)]
  | vacant_stale s e :
      ¬ known_to l s → unless IsNotFound e = None →
      vacant p l k [CGetSecret (secret_key p k) (Ok s); CDeleteSecret (om_key (sec_Meta s)) e].

Definition new_key (c : httpClient) (p : LangfuseProject) (k : APIKeySpec) (r : result APIKeyPair) : Call :=
  CLangfuse c (ACreateAPIKey (project_id p) (APIKey_Name k) r).

Inductive creation `{OwnerAPI} (c : httpClient) (p : LangfuseProject) (host : string) (k : APIKeySpec)
    : result APIKeyStatus → list Call → Prop :=
  | create_unstored e r : creation c p host k (Err e) [new_key c p k r]
  | create_stored kp m e r :
      SetControllerReference (Project_ObjectMeta p) (sec_Meta (apiKeySecret p host k kp)) = Ok m →
      (∀ s, r = Ok s → unless IsAlreadyExists e = None ∧
         ∃ now, s = mkAPIKeyStatus (APIKey_Name k) (APIKey_SecretName k) true (Some now)) →
      creation c p host k r [new_key c p k (Ok kp); CCreateSecret (set_sec_Meta m (apiKeySecret p host k kp)) e].

Inductive key_sync `{OwnerAPI} (c : httpClient) (p : LangfuseProject) (host : string) (l : list APIKey) (k : APIKeySpec)
    : result APIKeyStatus → list Call → Prop :=
  | key_kept s :
      known_to l s →
      key_sync c p host l k (Ok (mkAPIKeyStatus (APIKey_Name k) (APIKey_SecretName k) true None))
        [CGetSecret (secret_key p k) (Ok s)]
  | key_unread e e' : key_sync c p host l k (Err e) [CGetSecret (secret_key p k) (Err e')]
  | key_stuck s e e' :
      ¬ known_to l s →
      key_sync c p host l k (Err e) [CGetSecret (secret_key p k) (Ok s); CDeleteSecret (om_key (sec_Meta s)) (Some e')]
  | key_made r pre cs : vacant p l k pre → creation c p host k r cs → key_sync c p host l k r (pre ++ cs).

Inductive keys_sync `{OwnerAPI} (c : httpClient) (p : LangfuseProject) (host : string) (l : list APIKey)
    : list APIKeySpec → result (list APIKeyStatus) → list Call → Prop :=
  | keys_done : keys_sync c p host l [] (Ok []) []
  | keys_failed k ks e cs : key_sync c p host l k (Err e) cs → keys_sync c p host l (k :: ks) (Err e) cs
  | keys_cons k ks s r cs cs' :
      key_sync c p host l k (Ok s) cs → keys_sync c p host l ks r cs' →
      keys_sync c p host l (k :: ks) (match r with Ok l => Ok (s :: l) | Err e => Err e end) (cs ++ cs').

Inductive keys_listing `{OwnerAPI} (c : httpClient) (p : LangfuseProject) (host : string)
    : result (list APIKeyStatus) → list Call → Prop :=
  | listing_no_id e : project_id p = "" → keys_listing c p host (Err e) []
  | listing_failed e e' : keys_listing c p host (Err e) [CLangfuse c (AListAPIKeys (project_id p) (Err e'))]
  | listing_done l r cs :
      keys_sync c p host l (api_keys p) r cs →
      keys_listing c p host r (CLangfuse c (AListAPIKeys (project_id p) (Ok l)) :: cs).

(** The keys revoked: listed by Langfuse, and in a Secret of the spec. *)
Definition revoked (c : httpClient) (p : LangfuseProject) (l : list APIKey) (reads : list Call) (x : Call) : Prop :=
  ∃ key k s e, x = CLangfuse c (ADeleteAPIKey (project_id p) (APIKey_ID key) e) ∧ key ∈ l ∧ k ∈ api_keys p ∧
    CGetSecret (secret_key p k) (Ok s) ∈ reads ∧ field s "publicKey" = APIKey_PublicKey key ∧ APIKey_PublicKey key ≠ "".

Definition secret_read (p : LangfuseProject) (x : Call) : Prop :=
  ∃ k a, k ∈ api_keys p ∧ x = CGetSecret (secret_key p k) a.

Inductive revocation (c : httpClient) (p : LangfuseProject) : list Call → Prop :=
  | revoke_unlisted e : revocation c p [CLangfuse c (AListAPIKeys (project_id p) (Err e))]
  | revoke_listed l reads cs :
      Forall (secret_read p) reads → Forall (revoked c p l reads) cs →
      revocation c p (CLangfuse c (AListAPIKeys (project_id p) (Ok l)) :: reads ++ cs).

(** The Secrets swept: read under a name of the spec. *)
Definition swept (p : LangfuseProject) (cs : list Call) (x : Call) : Prop :=
  secret_read p x ∨
  ∃ k s e, k ∈ api_keys p ∧ CGetSecret (secret_key p k) (Ok s) ∈ cs ∧ x = CDeleteSecret (om_key (sec_Meta s)) e.

Section traces.
Context {W : Type} `{KubeClient W} `{TenantClient W} `{LangfuseAPI W}.
Context `{API : ConditionAPI} `{FIN : FinalizerAPI} `{OWN : OwnerAPI}.

Definition resolved_org (p : LangfuseProject) (org : LangfuseOrganization) : Prop :=
  OrgStatus_Ready (Org_Status org) = true ∧ org_id org ≠ "".

Lemma resolveOrganization_traces p :
  traces (λ r cs, ∃ a, cs = [CGetOrganization (organization_key p) a] ∧
            match r with Ok org => a = Ok org ∧ resolved_org p org | Err _ => True end)
    (resolveOrganization p).
Proof.
  unfold resolveOrganization, resolved_org. apply traces_call_bind. intros r. apply traces_mret. exists r. split; [done|].
  destruct r as [org|e]; [|by destruct (IsNotFound e)]. destruct (OrgStatus_Ready _) eqn:Er; [|done]. cbn [negb].
  fold (org_id org). destruct (nonempty_str (org_id org)) eqn:Ei; [|done]. split_and!; [done..|]. by destruct (org_id org).
Qed.

Lemma mintOrgKey_traces i org : traces (minting i org) (mintOrgKey i org).
Proof.
  unfold mintOrgKey. eapply traces_bind; [apply Organization.buildLangfuseClient_traces|]. intros r cs (a & -> & Hc).
  destruct r as [c|e]; [destruct Hc as (s & -> & Hk & ->)|apply traces_mret; constructor].
  apply traces_call_bind. intros [kp|e]; [|apply traces_mret; by apply mint_unstored].
  cbv zeta. destruct (SetControllerReference _ _) as [m|e] eqn:Em; [|apply traces_mret; by apply mint_unstored].
  apply traces_call_bind. intros e. apply traces_mret. apply (mint_stored i org s kp m e); [done..|].
  intros c. destruct (unless _ _); [done|]. by intros [= <-].
Qed.

Lemma ensureProjectClient_traces i org : traces (login i org) (ensureProjectClient i org).
Proof.
  unfold ensureProjectClient. apply traces_call_bind. intros [s|e].
  - cbv zeta. destruct (nonempty_str (field s "publicKey") && nonempty_str (field s "secretKey")) eqn:En.
    + apply traces_mret. apply andb_true_iff in En as [Hp Hs].
      apply login_cached; [by destruct (field s "publicKey")|by destruct (field s "secretKey")].
    + eapply traces_mono; [apply mintOrgKey_traces|]. intros. apply login_minting; [|done]. cbn.
      destruct (field s "publicKey"); [by left|]. destruct (field s "secretKey"); [by right|done].
  - destruct (IsNotFound e) eqn:En; [|apply traces_mret; constructor].
    eapply traces_mono; [apply mintOrgKey_traces|]. intros. by apply login_minting.
Qed.

Lemma findProject_traces c p : traces (project_found c p) (findProject c p).
Proof.
  unfold findProject. cbv zeta. apply traces_call_bind. intros [l|e]; [|apply traces_mret; constructor].
  fold (named p l). destruct (named p l) as [x|] eqn:Ef; [apply traces_mret; by constructor|].
  apply traces_call_bind. intros [x|e]; apply traces_mret; apply found_created; try done; intros ? [= <-]; eauto.
Qed.

Lemma syncProject_traces c p : traces (project_sync c p) (syncProject c p).
Proof.
  unfold syncProject. destruct (nonempty_str (project_id p)) eqn:Hid.
  - assert (project_id p ≠ "") by by destruct (project_id p). apply traces_call_bind. intros [x|e].
    + apply traces_mret. by constructor.
    + eapply traces_mono; [apply findProject_traces|]. intros. by apply sync_lost.
  - eapply traces_mono; [apply findProject_traces|]. intros. apply sync_new; [by destruct (project_id p)|done].
Qed.

Lemma createAPIKey_traces c p host k : traces (creation c p host k) (createAPIKey c p host k).
Proof.
  unfold createAPIKey. fold (new_key c p k). apply traces_call_bind. intros [kp|e]; [|apply traces_mret; constructor].
  cbv zeta. destruct (SetControllerReference _ _) as [m|e] eqn:Em; [|apply traces_mret; constructor].
  apply traces_call_bind. intros e. destruct (unless IsAlreadyExists e) eqn:Ee.
  - apply traces_mret. apply (create_stored c p host k kp m e); [done|]. by intros ? [=].
  - apply traces_silent_bind. intros now. apply traces_mret. apply (create_stored c p host k kp m e); [done|].
    intros s [= <-]. eauto.
Qed.

Lemma syncAPIKey_traces c p host l k : traces (key_sync c p host l k) (syncAPIKey c p host l k).
Proof.
  unfold syncAPIKey. cbv zeta. apply traces_call_bind. intros [s|e].
  - case_bool_decide as Hk; [apply traces_mret; by constructor|]. apply traces_call_bind. intros e.
    destruct (unless IsNotFound e) as [e'|] eqn:Ee.
    + apply traces_mret. destruct e; [by constructor|done].
    + eapply traces_mono; [apply createAPIKey_traces|]. intros r cs Hc.
      apply (key_made c p host l k r [_; _]); [by constructor|done].
  - destruct (IsNotFound e) eqn:Ee; [|apply traces_mret; constructor].
    eapply traces_mono; [apply createAPIKey_traces|]. intros r cs Hc.
    apply (key_made c p host l k r [_]); [by constructor|done].
Qed.

Lemma syncKeys_traces c p host l ks acc :
  traces (λ r cs, ∃ r', keys_sync c p host l ks r' cs ∧
            r = match r' with Ok l => Ok (acc ++ l) | Err e => Err e end)
    (syncKeys c p host l ks acc).
Proof.
  revert acc. induction ks as [|k ks IH]; intros acc; cbn [syncKeys].
  - apply traces_mret. exists (Ok []). split; [constructor|by rewrite app_nil_r].
  - eapply traces_bind; [apply syncAPIKey_traces|]. intros [s|e] cs Hk.
    + eapply traces_mono; [apply IH|]. intros r cs' (r' & Hks & ->).
      eexists. split; [by eapply keys_cons|]. destruct r'; [|done]. by rewrite <- app_assoc.
    + apply traces_mret. rewrite app_nil_r. exists (Err e). split; [by constructor|done].
Qed.

Lemma syncAPIKeys_traces c p i :
  traces (keys_listing c p (Organization.instanceBaseURL i)) (syncAPIKeys c p i).
Proof.
  unfold syncAPIKeys. destruct (nonempty_str (project_id p)) eqn:Hid; cbn [negb].
  2: { apply traces_mret, listing_no_id. by destruct (project_id p). }
  apply traces_call_bind. intros [l|e]; [|apply traces_mret; constructor].
  eapply traces_mono; [apply syncKeys_traces|]. intros r cs (r' & Hk & ->). destruct r'; by constructor.
Qed.

(** Every key collected is in a Secret read. *)
Definition collected (reads : list Call) (p : LangfuseProject) (pk : string) : Prop :=
  ∃ k s, k ∈ api_keys p ∧ CGetSecret (secret_key p k) (Ok s) ∈ reads ∧ field s "publicKey" = pk ∧ pk ≠ "".

Lemma managedPublicKeys_traces p ks managed :
  ks ⊆ api_keys p →
  traces (λ r cs, Forall (secret_read p) cs ∧ ∀ pk, pk ∈ r → pk ∈ managed ∨ collected cs p pk)
    (managedPublicKeys p ks managed).
Proof.
  revert managed. induction ks as [|k ks IH]; intros managed Hks; cbn [managedPublicKeys].
  - apply traces_mret. split; [constructor|by left].
  - assert (k ∈ api_keys p ∧ ks ⊆ api_keys p) as [Hk Hks'] by set_solver.
    apply traces_call_bind. intros a. eapply traces_mono; [by apply IH|]. intros r cs [Hr Hpk]. split.
    + constructor; [by exists k, a|done].
    + intros pk [Hin|(k' & s & ? & Hs & ?)]%Hpk; [|right; exists k', s; split_and!; [done|by right|naive_solver..]].
      destruct a as [s|e]; [|by left]. destruct (nonempty_str (field s "publicKey")) eqn:En; [|by left].
      apply elem_of_union in Hin as [->%elem_of_singleton|]; [|by left]. right. exists k, s.
      split_and!; [done|by left|done|]. by destruct (field s "publicKey").
Qed.

Lemma revokeManaged_traces c p l reads managed ks :
  ks ⊆ l → (∀ pk, pk ∈ managed → collected reads p pk) →
  traces (λ _ cs, Forall (revoked c p l reads) cs) (revokeManaged c p managed ks).
Proof.
  intros Hks Hm. induction ks as [|k ks IH]; cbn [revokeManaged]; [apply traces_mret; constructor|].
  assert (k ∈ l ∧ ks ⊆ l) as [Hk Hks'] by set_solver.
  case_bool_decide as Hin; [|by apply IH]. apply traces_call_bind. intros e.
  eapply traces_mono; [by apply IH|]. intros ? cs Hc. constructor; [|done].
  destruct (Hm _ Hin) as (k' & s & ? & ? & ? & ?). exists k, k', s, e. done.
Qed.

Lemma revokeAPIKeys_traces c p : traces (λ _ cs, revocation c p cs) (revokeAPIKeys c p).
Proof.
  unfold revokeAPIKeys. apply traces_call_bind. intros [l|e]; [|apply traces_mret; constructor].
  eapply traces_bind; [by apply managedPublicKeys_traces|]. intros managed reads [Hr Hm].
  eapply traces_mono; [apply (revokeManaged_traces c p l reads); [done|]|].
  - intros pk [?%elem_of_empty|?]%Hm; done.
  - intros ? cs Hc. by constructor.
Qed.

Lemma swept_mono p cs cs' x : cs ⊆ cs' → swept p cs x → swept p cs' x.
Proof. unfold swept. intros ?. naive_solver. Qed.

Lemma deleteSecrets_traces p ks :
  ks ⊆ api_keys p → traces (λ _ cs, Forall (swept p cs) cs) (deleteSecrets p ks).
Proof.
  induction ks as [|k ks IH]; intros Hks; cbn [deleteSecrets]; [apply traces_mret; constructor|].
  assert (k ∈ api_keys p ∧ ks ⊆ api_keys p) as [Hk Hks'] by set_solver.
  apply traces_call_bind. intros [s|e].
  - apply traces_call_bind. intros e. eapply traces_mono; [by apply IH|]. intros ? cs Hc.
    constructor; [left; by exists k, (Ok s)|]. constructor.
    + right. exists k, s, e. split_and!; [done|by left|done].
    + eapply Forall_impl; [exact Hc|]. intros x. apply swept_mono. set_solver.
  - eapply traces_mono; [by apply IH|]. intros ? cs Hc. constructor; [left; by exists k, (Err e)|].
    eapply Forall_impl; [exact Hc|]. intros x. apply swept_mono. set_solver.
Qed.
End traces.

(** ** Where each call of a pass comes from *)

Definition live (p : LangfuseProject) : Prop := om_DeletionTimestamp (Project_ObjectMeta p) = None.

Section origin.
Context `{FIN : FinalizerAPI} `{API : ConditionAPI} `{OWN : OwnerAPI}.

Definition pinned (p : LangfuseProject) : bool := ContainsFinalizer (Project_ObjectMeta p) projectFinalizer.
Definition unpin (p : LangfuseProject) : LangfuseProject :=
  set_Project_ObjectMeta (RemoveFinalizer (Project_ObjectMeta p) projectFinalizer) p.
Definition pin (p : LangfuseProject) : LangfuseProject :=
  set_Project_ObjectMeta (AddFinalizer (Project_ObjectMeta p) projectFinalizer) p.

(** The resource a pass works on: as read, or as the finalizer's update returned it. *)
Definition live_pass (req : NamespacedName) (tr : list Call) (p : LangfuseProject) : Prop :=
  ∃ p0, CGetProject req (Ok p0) ∈ tr ∧ live p0 ∧
    (p = p0 ∧ pinned p0 = true ∨ pinned p0 = false ∧ CUpdateProject (pin p0) (Ok p) ∈ tr).

Definition deleted_pass (req : NamespacedName) (tr : list Call) (p : LangfuseProject) : Prop :=
  CGetProject req (Ok p) ∈ tr ∧ ¬ live p ∧ pinned p = true.

(** The instance and the organization the pass read, both ready. *)
Definition resolved (tr : list Call) (p : LangfuseProject) (i : LangfuseInstance) (org : LangfuseOrganization) : Prop :=
  CGetInstance (instance_key p) (Ok i) ∈ tr ∧ Status_Ready (Instance_Status i) = true ∧
  CGetOrganization (organization_key p) (Ok org) ∈ tr ∧ resolved_org p org.

(** The client the pass obtained for them. *)
Definition speaks (tr : list Call) (p : LangfuseProject) (i : LangfuseInstance) (org : LangfuseOrganization)
    (c : httpClient) : Prop :=
  resolved tr p i org ∧ ∃ ls, login i org (Ok c) ls ∧ ls ⊆ tr.

(** The synchronization of the keys, once the project is known. *)
Definition keyed (tr : list Call) (p : LangfuseProject) (i : LangfuseInstance) (org : LangfuseOrganization)
    (c : httpClient) (id : string) (r : result (list APIKeyStatus)) (ks : list Call) : Prop :=
  speaks tr p i org c ∧ (∃ ss, project_sync c (with_organization org p) (Ok id) ss ∧ ss ⊆ tr) ∧
  keys_listing c (with_project_id id (with_organization org p)) (Organization.instanceBaseURL i) r ks ∧ ks ⊆ tr.

Definition ready_condition (p : LangfuseProject) : option Condition :=
  FindStatusCondition (ProjectStatus_Conditions (Project_Status p)) conditionTypeReady.

(** Flag and condition agree, for the generation seen. *)
Definition ready_published (p : LangfuseProject) : Prop :=
  ∃ reason msg, ready_condition p =
    Some (condition conditionTypeReady (if ProjectStatus_Ready (Project_Status p) then ConditionTrue else ConditionFalse)
            reason msg (om_Generation (Project_ObjectMeta p))).

(** What a pass has to show for a ready project. *)
Definition in_sync (tr : list Call) (p p' : LangfuseProject) : Prop :=
  ∃ i org c ks, ProjectStatus_OrganizationID (Project_Status p') = org_id org ∧
    keyed tr p i org c (project_id p') (Ok (ProjectStatus_APIKeys (Project_Status p'))) ks.

Inductive origin (req : NamespacedName) (tr : list Call) : Call → Prop :=
  | origin_read r : origin req tr (CGetProject req r)
  | origin_pin p r :
      CGetProject req (Ok p) ∈ tr → live p → pinned p = false → origin req tr (CUpdateProject (pin p) r)
  | origin_instance k r : origin req tr (CGetInstance k r)
  | origin_organization k r : origin req tr (CGetOrganization k r)
  | origin_login p i org r ls x :
      live_pass req tr p ∨ deleted_pass req tr p → resolved tr p i org → login i org r ls → ls ⊆ tr → x ∈ ls →
      origin req tr x
  | origin_project p i org c r ss x :
      live_pass req tr p → speaks tr p i org c → project_sync c (with_organization org p) r ss → ss ⊆ tr → x ∈ ss →
      origin req tr x
  | origin_keys p i org c id r ks x :
      live_pass req tr p → keyed tr p i org c id r ks → x ∈ ks → origin req tr x
  | origin_status p p' e :
      live_pass req tr p → Project_Spec p' = Project_Spec p → ready_published p' →
      (ProjectStatus_Ready (Project_Status p') = true → in_sync tr p p') → origin req tr (CUpdateProjectStatus p' e)
  | origin_revoke p i org c rs x :
      deleted_pass req tr p → speaks tr p i org c → project_id p ≠ "" → revocation c p rs → rs ⊆ tr → x ∈ rs →
      origin req tr x
  | origin_delete p i org c e :
      deleted_pass req tr p → speaks tr p i org c → project_id p ≠ "" → deleteOnRemove p = true →
      origin req tr (CLangfuse c (ADeleteProject (project_id p) e))
  | origin_sweep p ss x :
      deleted_pass req tr p → Forall (swept p ss) ss → ss ⊆ tr → x ∈ ss → origin req tr x
  | origin_unpin p r : deleted_pass req tr p → origin req tr (CUpdateProject (unpin p) r).

Context {AL : ConditionLaws API}.

Lemma project_failed_published reason msg p :
  ready_published (project_failed reason msg p) ∧
  ProjectStatus_Ready (Project_Status (project_failed reason msg p)) = false.
Proof. split; [|done]. exists reason, msg. apply (find_set_eq _ (condition _ _ _ _ _)). Qed.

Lemma clientFailure_published e p :
  ready_published (clientFailure e p) ∧ ProjectStatus_Ready (Project_Status (clientFailure e p)) = false ∧
  Project_Spec (clientFailure e p) = Project_Spec p.
Proof. unfold clientFailure. destruct (IsForbidden e); (split_and!; [apply project_failed_published|done..]). Qed.

(** The report of a failure. *)
Lemma origin_failed req tr p q reason msg e :
  live_pass req tr p → Project_Spec q = Project_Spec p → origin req tr (CUpdateProjectStatus (project_failed reason msg q) e).
Proof.
  intros Hl Hq. destruct (project_failed_published reason msg q) as [Hp Hr].
  apply (origin_status _ _ p); [done|done|done|by rewrite Hr].
Qed.

Context {W : Type} `{KubeClient W} `{TenantClient W} `{LangfuseAPI W}.

Lemma finishProject_origin req tr p i org c id :
  traces (λ _ cs, cs ⊆ tr → live_pass req tr p → speaks tr p i org c →
            (∃ ss, project_sync c (with_organization org p) (Ok id) ss ∧ ss ⊆ tr) → Forall (origin req tr) cs)
    (finishProject c i (with_project_id id (with_organization org p))).
Proof.
  unfold finishProject. eapply traces_bind; [apply syncAPIKeys_traces|]. intros [l|e] ks Hk.
  - apply traces_call_bind. intros e. destruct e; apply traces_mret; intros Hsub Hl Hs Hss;
      (assert (keyed tr p i org c id (Ok l) ks) as Hkeyed by (split_and!; [done|done|done|set_solver]);
       apply Forall_app; split;
       [apply Forall_forall; intros x Hx; by eapply origin_keys
       |apply Forall_singleton, (origin_status _ _ p); [done|done| |]]).
    all: first [intros _; by exists i, org, c, ks
               |exists "Synced", "Project is synced with Langfuse"; apply (find_set_eq _ (condition _ _ _ _ _))].
  - apply traces_call_bind. intros e'. apply traces_mret. intros Hsub Hl Hs Hss. apply Forall_app. split.
    + apply Forall_forall. intros x Hx. eapply (origin_keys _ _ p i org c id (Err e) ks); [done| |done].
      split_and!; [done|done|done|set_solver].
    + apply Forall_singleton. by apply (origin_failed _ _ p).
Qed.

Lemma syncWithLangfuse_origin req tr p i org :
  traces (λ _ cs, cs ⊆ tr → live_pass req tr p → resolved tr p i org → Forall (origin req tr) cs)
    (syncWithLangfuse i org (with_organization org p)).
Proof.
  unfold syncWithLangfuse. eapply traces_bind; [apply ensureProjectClient_traces|]. intros [c|e] ls Hlog.
  - eapply traces_bind; [apply syncProject_traces|]. intros [id|e] ss Hs.
    + eapply traces_mono; [apply (finishProject_origin req tr)|]. intros ? cs Hc Hsub Hl Hr.
      assert (speaks tr p i org c) as Hsp by (split; [done|]; exists ls; split; [done|set_solver]).
      rewrite !Forall_app. split_and!.
      * apply Forall_forall. intros x Hx. eapply (origin_login _ _ p); [by left|done|done|set_solver|done].
      * apply Forall_forall. intros x Hx. eapply (origin_project _ _ p); [done|done|done|set_solver|done].
      * apply Hc; [set_solver|done|done|]. exists ss. split; [done|set_solver].
    + apply traces_call_bind. intros e'. apply traces_mret. intros Hsub Hl Hr.
      assert (speaks tr p i org c) as Hsp by (split; [done|]; exists ls; split; [done|set_solver]).
      rewrite !Forall_app. split_and!.
      * apply Forall_forall. intros x Hx. eapply (origin_login _ _ p); [by left|done|done|set_solver|done].
      * apply Forall_forall. intros x Hx. eapply (origin_project _ _ p); [done|done|done|set_solver|done].
      * apply Forall_singleton. by apply (origin_failed _ _ p).
  - apply traces_call_bind. intros e'. apply traces_mret. intros Hsub Hl Hr. apply Forall_app. split.
    + apply Forall_forall. intros x Hx. eapply (origin_login _ _ p); [by left|done|done|set_solver|done].
    + apply Forall_singleton. destruct (clientFailure_published e (with_organization org p)) as (? & Hrd & Hsp).
      apply (origin_status _ _ p); [done|by rewrite Hsp|done|by rewrite Hrd].
Qed.

Lemma reconcileProject_origin req tr p :
  traces (λ _ cs, cs ⊆ tr → live_pass req tr p → Forall (origin req tr) cs) (reconcileProject p).
Proof.
  unfold reconcileProject. eapply traces_bind; [apply Organization.resolveInstanceAt_traces|]. intros r cs (a & -> & Hi).
  destruct r as [i|e]; [destruct Hi as [-> Hi]|].
  - eapply traces_bind; [apply resolveOrganization_traces|]. intros r cs (b & -> & Ho).
    destruct r as [org|e]; [destruct Ho as [-> Ho]|].
    + eapply traces_mono; [apply (syncWithLangfuse_origin req tr)|]. intros ? cs Hc Hsub Hl. cbn in *.
      constructor; [constructor|]. constructor; [constructor|].
      apply Hc; [set_solver|done|]. split_and!; [set_solver|done|set_solver|done].
    + unfold blocked. apply traces_call_bind. intros e'. apply traces_mret. intros Hsub Hl. cbn.
      constructor; [constructor|]. constructor; [constructor|]. apply Forall_singleton. by apply (origin_failed _ _ p).
  - unfold blocked. apply traces_call_bind. intros e'. apply traces_mret. intros Hsub Hl. cbn.
    constructor; [constructor|]. apply Forall_singleton. by apply (origin_failed _ _ p).
Qed.

Lemma cleanupThrough_origin req tr p i org :
  project_id p ≠ "" →
  traces (λ _ cs, cs ⊆ tr → deleted_pass req tr p → resolved tr p i org → Forall (origin req tr) cs)
    (cleanupThrough i org p).
Proof.
  intros Hne. unfold cleanupThrough. eapply traces_bind; [apply ensureProjectClient_traces|]. intros r ls Hlog.
  assert (ls ⊆ tr → deleted_pass req tr p → resolved tr p i org → Forall (origin req tr) ls) as Hls.
  { intros Hsub Hd Hr. apply Forall_forall. intros x Hx. eapply (origin_login _ _ p i org); [by right|eassumption..]. }
  destruct r as [c|e]; [|apply traces_mret; by rewrite app_nil_r].
  eapply traces_bind; [apply revokeAPIKeys_traces|]. intros ? rs Hrs.
  assert (ls ++ rs ⊆ tr → deleted_pass req tr p → resolved tr p i org →
          speaks tr p i org c ∧ Forall (origin req tr) (ls ++ rs)) as Hboth.
  { intros Hsub Hd Hr. assert (speaks tr p i org c) as Hsp by (split; [done|]; exists ls; split; [done|set_solver]).
    split; [done|]. apply Forall_app. split; [apply Hls; [set_solver|done..]|].
    apply Forall_forall. intros x Hx. apply (origin_revoke _ _ p i org c rs); [done|done|done|exact Hrs|set_solver|done]. }
  destruct (deleteOnRemove p) eqn:Hdel.
  - apply traces_call_bind. intros e. apply traces_mret. rewrite app_assoc. intros Hsub Hd Hr.
    destruct (Hboth ltac:(set_solver) Hd Hr) as [Hsp Hf]. apply Forall_app. split; [done|].
    apply Forall_singleton. by eapply origin_delete.
  - apply traces_mret. rewrite app_nil_r. intros Hsub Hd Hr. by apply Hboth.
Qed.

Lemma cleanupInLangfuse_origin req tr p :
  traces (λ _ cs, cs ⊆ tr → deleted_pass req tr p → Forall (origin req tr) cs) (cleanupInLangfuse p).
Proof.
  unfold cleanupInLangfuse. destruct (nonempty_str (project_id p)) eqn:Hid; [|apply traces_mret; constructor].
  eapply traces_bind; [apply Organization.resolveInstanceAt_traces|]. intros ri cs (a & -> & Hi).
  eapply traces_bind; [apply resolveOrganization_traces|]. intros ro cs (b & -> & Ho). cbn [app].
  assert (Forall (origin req tr) [CGetInstance (instance_key p) a; CGetOrganization (organization_key p) b]) as Hlook
    by by repeat constructor.
  destruct ri as [i|]; [destruct Hi as [-> Hi]|by apply traces_mret].
  destruct ro as [org|]; [destruct Ho as [-> Ho]|by apply traces_mret].
  eapply traces_mono; [apply (cleanupThrough_origin req tr); by destruct (project_id p)|]. intros ? cs Hc Hsub Hd.
  constructor; [constructor|]. constructor; [constructor|]. apply Hc; [set_solver|done|].
  split_and!; [set_solver|done|set_solver|done].
Qed.

Lemma project_pass_origin req tr :
  traces (λ _ cs, cs ⊆ tr → Forall (origin req tr) cs) (Reconcile req).
Proof.
  unfold Reconcile. apply traces_call_bind. intros [p|e].
  2: { destruct (IsNotFound e); apply traces_mret; intros _; repeat constructor. }
  destruct (om_DeletionTimestamp (Project_ObjectMeta p)) eqn:Hd.
  - unfold handleDeletion. fold (pinned p) (unpin p). destruct (pinned p) eqn:Hp; cbn [negb];
      [|apply traces_mret; intros _; repeat constructor].
    eapply traces_bind; [apply (cleanupInLangfuse_origin req tr)|]. intros ? cs1 Hc1.
    eapply traces_bind; [by apply deleteSecrets_traces|]. intros ? cs2 Hc2.
    apply traces_call_bind. intros r. apply traces_mret. intros Hsub.
    assert (deleted_pass req tr p) as Hdel by (split_and!; [set_solver|unfold live; by rewrite Hd|done]).
    constructor; [constructor|]. rewrite !Forall_app. split_and!.
    + apply Hc1; [set_solver|done].
    + apply Forall_forall. intros x Hx. eapply (origin_sweep _ _ p cs2); [done|done|set_solver|done].
    + apply Forall_singleton. by apply origin_unpin.
  - unfold ensureProjectFinalizer. fold (pinned p) (pin p). destruct (pinned p) eqn:Hp.
    + eapply traces_bind with (T1 := λ r cs, r = Ok p ∧ cs = []); [by apply traces_mret|]. intros r cs [-> ->].
      eapply traces_mono; [apply (reconcileProject_origin req tr)|]. intros ? cs Hc Hsub. constructor; [constructor|].
      apply Hc; [set_solver|]. exists p. split_and!; [set_solver|done|by left].
    + eapply traces_bind with (T1 := λ r cs, cs = [CUpdateProject (pin p) r]); [by apply traces_call|].
      intros r cs ->. assert (∀ cs, CGetProject req (Ok p) :: CUpdateProject (pin p) r :: cs ⊆ tr →
        Forall (origin req tr) cs → Forall (origin req tr) (CGetProject req (Ok p) :: CUpdateProject (pin p) r :: cs)) as Hgen.
      { intros cs Hsub Hc. constructor; [constructor|]. constructor; [|done]. apply origin_pin; [set_solver|done|done]. }
      destruct r as [p'|e]; [|apply traces_mret; intros Hsub; by apply Hgen].
      eapply traces_mono; [apply (reconcileProject_origin req tr)|]. intros ? cs Hc Hsub. apply Hgen; [done|].
      apply Hc; [set_solver|]. exists p. split_and!; [set_solver|done|right]. split; [done|set_solver].
Qed.

Lemma project_origin req w out w' tr x :
  run (Reconcile req) w = (out, w', tr) → x ∈ tr → origin req tr x.
Proof.
  intros Hrun Hx. pose proof (traces_run _ _ _ _ _ _ (project_pass_origin req tr) Hrun) as Hp.
  cbv beta in Hp. rewrite Forall_forall in Hp. by apply Hp.
Qed.
End origin.

(** ** Theorems *)

Section safety.
Context {W : Type} `{KubeClient W} `{TenantClient W} `{LangfuseAPI W}.
Context `{API : ConditionAPI} {AL : ConditionLaws API} `{FIN : FinalizerAPI} `{OWN : OwnerAPI}.

Definition mint_org_key (x : Call) : bool :=
  match x with CLangfuse _ (ACreateOrganizationAPIKey _ _ _) => true | _ => false end.

(** Calls that change nothing, and the creation of a project. *)
Definition read_call (x : Call) : bool :=
  match x with CGetProject _ _ | CGetInstance _ _ | CGetOrganization _ _ | CGetSecret _ _ => true | _ => false end.
Definition project_call (a : APICall) : bool :=
  match a with AGetProject _ _ | AListProjects _ | ACreateProject _ _ | AListAPIKeys _ _ => true | _ => false end.

(** The cause of each call, in the terms of the pass. *)
Inductive caused (req : NamespacedName) (tr : list Call) : Call → Prop :=
  | because_read x : read_call x = true → caused req tr x
  | because_pin p r :
      CGetProject req (Ok p) ∈ tr → live p → pinned p = false → caused req tr (CUpdateProject (pin p) r)
  | because_unpin p r : deleted_pass req tr p → caused req tr (CUpdateProject (unpin p) r)
  | because_orgkey p i org s a r :
      live_pass req tr p ∨ deleted_pass req tr p → resolved tr p i org →
      CGetSecret (admin_key_key i) (Ok s) ∈ tr → admin_key i s ≠ "" → CGetSecret (orgkey_key org) a ∈ tr → unusable a →
      caused req tr (CLangfuse (admin_client i s)
        (ACreateOrganizationAPIKey (org_id org) ("langfuse-operator (" +:+ om_Name (Org_ObjectMeta org) +:+ ")") r))
  | because_orgkey_secret p i org s kp m e :
      live_pass req tr p ∨ deleted_pass req tr p → resolved tr p i org → mint_calls i org s (Ok kp) ⊆ tr →
      SetControllerReference (Org_ObjectMeta org) (sec_Meta (orgKeySecret i org kp)) = Ok m →
      caused req tr (CCreateSecret (set_sec_Meta m (orgKeySecret i org kp)) e)
  | because_project p i org c a :
      live_pass req tr p ∨ deleted_pass req tr p → speaks tr p i org c → project_call a = true →
      caused req tr (CLangfuse c a)
  | because_key p i org c id l k pre r :
      live_pass req tr p → speaks tr p i org c → (∃ ss, project_sync c (with_organization org p) (Ok id) ss ∧ ss ⊆ tr) →
      k ∈ api_keys p → CLangfuse c (AListAPIKeys id (Ok l)) ∈ tr → vacant p l k pre → pre ⊆ tr →
      caused req tr (CLangfuse c (ACreateAPIKey id (APIKey_Name k) r))
  | because_key_secret p i org c id k kp m e :
      live_pass req tr p → speaks tr p i org c → k ∈ api_keys p →
      CLangfuse c (ACreateAPIKey id (APIKey_Name k) (Ok kp)) ∈ tr →
      SetControllerReference (Project_ObjectMeta p) (sec_Meta (apiKeySecret p (Organization.instanceBaseURL i) k kp)) = Ok m →
      caused req tr (CCreateSecret (set_sec_Meta m (apiKeySecret p (Organization.instanceBaseURL i) k kp)) e)
  | because_stale p i org c id l k s e :
      live_pass req tr p → speaks tr p i org c → k ∈ api_keys p → CLangfuse c (AListAPIKeys id (Ok l)) ∈ tr →
      ¬ known_to l s → CGetSecret (secret_key p k) (Ok s) ∈ tr → caused req tr (CDeleteSecret (om_key (sec_Meta s)) e)
  | because_swept p k s e :
      deleted_pass req tr p → k ∈ api_keys p → CGetSecret (secret_key p k) (Ok s) ∈ tr →
      caused req tr (CDeleteSecret (om_key (sec_Meta s)) e)
  | because_revoked p i org c l key k s e :
      deleted_pass req tr p → speaks tr p i org c → CLangfuse c (AListAPIKeys (project_id p) (Ok l)) ∈ tr → key ∈ l →
      k ∈ api_keys p → CGetSecret (secret_key p k) (Ok s) ∈ tr → field s "publicKey" = APIKey_PublicKey key →
      APIKey_PublicKey key ≠ "" → caused req tr (CLangfuse c (ADeleteAPIKey (project_id p) (APIKey_ID key) e))
  | because_deleted p i org c e :
      deleted_pass req tr p → speaks tr p i org c → project_id p ≠ "" → deleteOnRemove p = true →
      caused req tr (CLangfuse c (ADeleteProject (project_id p) e))
  | because_status p p' e :
      live_pass req tr p → Project_Spec p' = Project_Spec p → ready_published p' →
      (ProjectStatus_Ready (Project_Status p') = true → in_sync tr p p') → caused req tr (CUpdateProjectStatus p' e).

Lemma login_calls i org r ls x :
  login i org r ls → x ∈ ls →
  (∃ k a, x = CGetSecret k a) ∨
  (∃ s a kp, unusable a ∧ CGetSecret (orgkey_key org) a ∈ ls ∧ CGetSecret (admin_key_key i) (Ok s) ∈ ls ∧ admin_key i s ≠ "" ∧
     x = CLangfuse (admin_client i s)
           (ACreateOrganizationAPIKey (org_id org) ("langfuse-operator (" +:+ om_Name (Org_ObjectMeta org) +:+ ")") kp)) ∨
  (∃ s kp m e, x = CCreateSecret (set_sec_Meta m (orgKeySecret i org kp)) e ∧
     SetControllerReference (Org_ObjectMeta org) (sec_Meta (orgKeySecret i org kp)) = Ok m ∧
     mint_calls i org s (Ok kp) ⊆ ls).
Proof.
  intros Hl Hx. destruct Hl as [s Hp Hs|e e'|a r cs Hu Hm].
  - apply list_elem_of_singleton in Hx as ->. eauto.
  - apply list_elem_of_singleton in Hx as ->. eauto.
  - apply elem_of_cons in Hx as [->|Hx]; [eauto|]. destruct Hm as [e b|s r e Hk|s kp m e r Hk Hm Hr].
    + apply list_elem_of_singleton in Hx as ->. eauto.
    + unfold mint_calls in *. apply elem_of_cons in Hx as [->|Hx%list_elem_of_singleton]; [eauto|]. right; left.
      exists s, a, r. split_and!; [done|set_solver|set_solver|done|done].
    + unfold mint_calls in *. apply elem_of_app in Hx as [Hx|Hx%list_elem_of_singleton].
      * apply elem_of_cons in Hx as [->|Hx%list_elem_of_singleton]; [eauto|]. right; left.
        exists s, a, (Ok kp). split_and!; [done|set_solver|set_solver|done|done].
      * right; right. exists s, kp, m, e. split_and!; [done|done|set_solver].
Qed.

Lemma project_found_calls c p r ss x :
  project_found c p r ss → x ∈ ss → ∃ a, x = CLangfuse c a ∧ project_call a = true.
Proof.
  intros [] Hx; repeat (apply elem_of_cons in Hx as [->|Hx]; [by eexists|]); by apply elem_of_nil in Hx.
Qed.

Lemma project_sync_calls c p r ss x :
  project_sync c p r ss → x ∈ ss → ∃ a, x = CLangfuse c a ∧ project_call a = true.
Proof.
  intros [y|e r' cs _ Hf|r' cs _ Hf] Hx.
  - apply list_elem_of_singleton in Hx as ->. by eexists.
  - apply elem_of_cons in Hx as [->|Hx]; [by eexists|]. by eapply project_found_calls.
  - by eapply project_found_calls.
Qed.

Lemma vacant_calls p l k pre x :
  vacant p l k pre → x ∈ pre →
  (∃ k a, x = CGetSecret k a) ∨
  ∃ s e, x = CDeleteSecret (om_key (sec_Meta s)) e ∧ ¬ known_to l s ∧ CGetSecret (secret_key p k) (Ok s) ∈ pre.
Proof.
  intros [e|s e Hk He] Hx.
  - apply list_elem_of_singleton in Hx as ->. eauto.
  - apply elem_of_cons in Hx as [->|Hx%list_elem_of_singleton]; [eauto|]. right. exists s, e. split_and!; [done..|set_solver].
Qed.

(** The calls that synchronize the keys, each with the entry of the spec it serves. *)
Lemma keys_sync_elem c p host l ks r cs x :
  keys_sync c p host l ks r cs → x ∈ cs → ∃ k r' kcs, k ∈ ks ∧ key_sync c p host l k r' kcs ∧ x ∈ kcs ∧ kcs ⊆ cs.
Proof.
  induction 1 as [|k ks e cs Hk|k ks s r cs cs' Hk Hks IH]; intros Hx.
  - by apply elem_of_nil in Hx.
  - exists k, (Err e), cs. split_and!; [by left|done|done|done].
  - apply elem_of_app in Hx as [Hx|Hx].
    + exists k, (Ok s), cs. split_and!; [by left|done|done|set_solver].
    + destruct (IH Hx) as (k' & r' & kcs & ? & ? & ? & ?). exists k', r', kcs. split_and!; [by right|done|done|set_solver].
Qed.

(** What one entry's calls can be. *)
Definition key_call (c : httpClient) (p : LangfuseProject) (host : string) (l : list APIKey)
    (cs : list Call) (x : Call) : Prop :=
  (∃ k a, x = CGetSecret k a) ∨
  (∃ k s e, k ∈ api_keys p ∧ x = CDeleteSecret (om_key (sec_Meta s)) e ∧ ¬ known_to l s ∧
     CGetSecret (secret_key p k) (Ok s) ∈ cs) ∨
  (∃ k r pre, k ∈ api_keys p ∧ x = new_key c p k r ∧ vacant p l k pre ∧ pre ⊆ cs) ∨
  (∃ k kp m e, k ∈ api_keys p ∧ x = CCreateSecret (set_sec_Meta m (apiKeySecret p host k kp)) e ∧
     SetControllerReference (Project_ObjectMeta p) (sec_Meta (apiKeySecret p host k kp)) = Ok m ∧
     new_key c p k (Ok kp) ∈ cs).

Lemma key_sync_calls c p host l k r kcs cs x :
  k ∈ api_keys p → key_sync c p host l k r kcs → kcs ⊆ cs → x ∈ kcs → key_call c p host l cs x.
Proof.
  intros Hk Hs Hsub Hx. destruct Hs as [s Hkn|e e'|s e e' Hkn|r pre kcs Hv Hc].
  - apply list_elem_of_singleton in Hx as ->. left. eauto.
  - apply list_elem_of_singleton in Hx as ->. left. eauto.
  - apply elem_of_cons in Hx as [->|Hx%list_elem_of_singleton]; [left; eauto|]. right; left.
    exists k, s, (Some e'). split_and!; [done..|set_solver].
  - apply elem_of_app in Hx as [Hx|Hx].
    + destruct (vacant_calls _ _ _ _ _ Hv Hx) as [?|(s & e & ? & ? & ?)]; [by left|]. right; left.
      exists k, s, e. split_and!; [done..|set_solver].
    + right; right. destruct Hc as [e r|kp m e r Hm Hr].
      * apply list_elem_of_singleton in Hx as ->. left. exists k, r, pre. split_and!; [done..|set_solver].
      * apply elem_of_cons in Hx as [->|Hx%list_elem_of_singleton].
        -- left. exists k, (Ok kp), pre. split_and!; [done..|set_solver].
        -- right. exists k, kp, m, e. split_and!; [done..|set_solver].
Qed.

Lemma keys_listing_calls c p host r ks x :
  keys_listing c p host r ks → x ∈ ks →
  (∃ a, x = CLangfuse c (AListAPIKeys (project_id p) a)) ∨
  ∃ l, CLangfuse c (AListAPIKeys (project_id p) (Ok l)) ∈ ks ∧ key_call c p host l ks x.
Proof.
  intros [e Hid|e e'|l r' cs Hs] Hx.
  - by apply elem_of_nil in Hx.
  - apply list_elem_of_singleton in Hx as ->. eauto.
  - apply elem_of_cons in Hx as [->|Hx]; [eauto|]. right. exists l. split; [by left|].
    destruct (keys_sync_elem _ _ _ _ _ _ _ _ Hs Hx) as (k & r0 & kcs & Hk & Hsync & Hin & Hsub).
    eapply key_sync_calls; [done|done|set_solver|done].
Qed.

Lemma revocation_calls c p rs x :
  revocation c p rs → x ∈ rs →
  (∃ k a, x = CGetSecret k a) ∨ (∃ a, x = CLangfuse c (AListAPIKeys (project_id p) a)) ∨
  ∃ l, CLangfuse c (AListAPIKeys (project_id p) (Ok l)) ∈ rs ∧ revoked c p l rs x.
Proof.
  intros [e|l reads cs Hr Hc] Hx.
  - apply list_elem_of_singleton in Hx as ->. eauto.
  - apply elem_of_cons in Hx as [->|Hx]; [eauto|]. apply elem_of_app in Hx as [Hx|Hx].
    + rewrite Forall_forall in Hr. destruct (Hr _ Hx) as (k & a & _ & ->). eauto.
    + rewrite Forall_forall in Hc. right; right. exists l. split; [by left|].
      destruct (Hc _ Hx) as (key & k & s & e & ? & ? & ? & ? & ? & ?). exists key, k, s, e.
      split_and!; [done|done|done|set_solver|done|done].
Qed.


Lemma project_caused req w out w' tr x : run (Reconcile req) w = (out, w', tr) → x ∈ tr → caused req tr x.
Proof.
  intros Hrun Hx. pose proof (project_origin _ _ _ _ _ _ Hrun Hx) as Ho. clear Hrun Hx.
  destruct Ho as [r|p r Hg Hlv Hp|k r|k r|p i org r ls x Hp Hr Hl Hsub Hin|p i org c r ss x Hp Hsp Hs Hsub Hin
    |p i org c id r ks x Hp Hk Hin|p p' e Hp Hspec Hrd Hsync|p i org c rs x Hp Hsp Hne Hrev Hsub Hin|p i org c e Hp Hsp Hne Hd
    |p ss x Hp Hsw Hsub Hin|p r Hp]; try (by constructor); try (by econstructor).
  - destruct (login_calls _ _ _ _ _ Hl Hin) as [(? & ? & ->)|[(s & a & kp & Hu & Ha & Hs & Hk & ->)|(s & kp & m & e & -> & Hm & Hc)]].
    + by constructor.
    + eapply because_orgkey; [exact Hp|exact Hr|by apply Hsub|done|by apply Hsub|done].
    + eapply (because_orgkey_secret _ _ p i org s); [exact Hp|exact Hr|by etrans|exact Hm].
  - destruct (project_sync_calls _ _ _ _ _ Hs Hin) as (a & -> & Ha). eapply because_project; [by left|done|done].
  - destruct Hk as (Hsp & Hpr & Hk & Hsub).
    destruct (keys_listing_calls _ _ _ _ _ _ Hk Hin) as [(a & ->)|(l & Hlist%Hsub & [(? & ? & ->)|
      [(k & s & e & Hkin & -> & Hkn & Hg%Hsub)|[(k & r0 & pre & Hkin & -> & Hv & Hpre)|(k & kp & m & e & Hkin & -> & Hm & Hnew%Hsub)]]])].
    + eapply because_project; [by left|done|done].
    + by constructor.
    + by eapply (because_stale _ _ p i org c).
    + eapply (because_key _ _ p i org c id l k pre); [done|done|done|done|done|destruct Hv|set_solver];
        [by apply (vacant_absent p)|by apply (vacant_stale p)].
    + by eapply (because_key_secret _ _ p i org c).
  - destruct (revocation_calls _ _ _ _ Hrev Hin) as [(? & ? & ->)|[(a & ->)|(l & Hlist%Hsub & key & k & s & e & -> & Hkey & Hk & Hg%Hsub & Hf & Hnz)]].
    + by constructor.
    + eapply because_project; [by right|done|done].
    + by eapply (because_revoked _ _ p i org c l key k s).
  - rewrite Forall_forall in Hsw. destruct (Hsw _ Hin) as [(k & a & _ & ->)|(k & s & e & Hk & Hg%Hsub & ->)]; [by constructor|].
    by eapply because_swept.
Qed.

(** C20: the admin key mints, and nothing else.  A project pass speaks to Langfuse as
    the instance's admin only to mint an API key for the organization it read, with the
    key in the instance's admin Secret, and only when the organization has no Secret
    with both halves of a key; every other call is made as the organization, with the
    pair that Secret holds or the one just minted. *)
Theorem admin_key_only_mints req w out w' tr c a :
  run (Reconcile req) w = (out, w', tr) → CLangfuse c a ∈ tr →
  ∃ p i org, (live_pass req tr p ∨ deleted_pass req tr p) ∧ resolved tr p i org ∧
    if mint_org_key (CLangfuse c a) then
      ∃ s cached r, CGetSecret (admin_key_key i) (Ok s) ∈ tr ∧ admin_key i s ≠ "" ∧ c = admin_client i s ∧
        CGetSecret (orgkey_key org) cached ∈ tr ∧ unusable cached ∧
        a = ACreateOrganizationAPIKey (org_id org) ("langfuse-operator (" +:+ om_Name (Org_ObjectMeta org) +:+ ")") r
    else ∃ ls, login i org (Ok c) ls ∧ ls ⊆ tr.
Proof.
  intros Hrun Hx. pose proof (project_caused _ _ _ _ _ _ Hrun Hx) as Hc. clear Hrun Hx.
  inversion Hc as [? Hr| | |p i org s cached r|?|p i org c' a' Hp Hsp Ha|p i org c' id l k pre r Hp Hsp|?|?|?
    |p i org c' l key k s e Hp Hsp|p i org c' e Hp Hsp|?]; subst; try done.
  - exists p, i, org. split_and!; [done|done|]. by exists s, cached, r.
  - destruct Hsp as [Hr Hl]. exists p, i, org. split_and!; [done|done|]. by destruct a.
  - destruct Hsp as [Hr Hl]. exists p, i, org. auto.
  - destruct Hsp as [Hr Hl]. exists p, i, org. auto.
  - destruct Hsp as [Hr Hl]. exists p, i, org. auto.
Qed.

(** C21: an API key is minted with cause.  A pass asks Langfuse for a new API key only
    for a resource that is not being deleted, for an entry of its spec and under its
    name, in the project it found or made, and only when the entry's Secret was absent,
    or held a public key that Langfuse had just not listed and was deleted. *)
Theorem api_key_minted_with_cause req w out w' tr c pid note r :
  run (Reconcile req) w = (out, w', tr) → CLangfuse c (ACreateAPIKey pid note r) ∈ tr →
  ∃ p i org k l pre, live_pass req tr p ∧ speaks tr p i org c ∧
    (∃ ss, project_sync c (with_organization org p) (Ok pid) ss ∧ ss ⊆ tr) ∧
    k ∈ api_keys p ∧ note = APIKey_Name k ∧ CLangfuse c (AListAPIKeys pid (Ok l)) ∈ tr ∧ vacant p l k pre ∧ pre ⊆ tr.
Proof.
  intros Hrun Hx. pose proof (project_caused _ _ _ _ _ _ Hrun Hx) as Hc. clear Hrun Hx.
  inversion Hc as [| | | | | |p i org c' id l k pre r'| | | | | |]; subst; try done.
  by exists p, i, org, k, l, pre.
Qed.

(** Credentials are stored as minted.  The only Secrets a pass creates are the one
    that keeps the organization's key and those of the spec's entries, each under its
    name in its owner's namespace, and each with the pair that Langfuse minted for it
    in the same pass; an entry's Secret also names the instance's address. *)
Theorem credentials_stored_as_minted {OL : OwnerLaws OWN} req w out w' tr s e :
  run (Reconcile req) w = (out, w', tr) → CCreateSecret s e ∈ tr →
  ∃ kp, field s "publicKey" = APIKeyPair_PublicKey kp ∧ field s "secretKey" = APIKeyPair_SecretKey kp ∧
  ∃ p i org, resolved tr p i org ∧
    ((om_key (sec_Meta s) = orgkey_key org ∧
      ∃ c note, CLangfuse c (ACreateOrganizationAPIKey (org_id org) note (Ok kp)) ∈ tr) ∨
     (live_pass req tr p ∧ field s "host" = Organization.instanceBaseURL i ∧
      ∃ k c id, k ∈ api_keys p ∧ om_key (sec_Meta s) = secret_key p k ∧
        CLangfuse c (ACreateAPIKey id (APIKey_Name k) (Ok kp)) ∈ tr)).
Proof.
  intros Hrun Hx. pose proof (project_caused _ _ _ _ _ _ Hrun Hx) as Hc. clear Hrun Hx.
  inversion Hc as [| | | |p i org s' kp m e' Hp Hr Hsub Hm| | |p i org c id k kp m e' Hp Hsp Hk Hmint Hm| | | | |]; subst;
    [done| |].
  - exists kp. split_and!; [done|done|]. exists p, i, org. split; [done|]. left. apply owner_keeps in Hm as ->. split; [done|].
    eexists _, _. apply Hsub. right. by left.
  - exists kp. split_and!; [done|done|]. destruct Hsp as [Hr _]. exists p, i, org. split; [done|]. right.
    apply owner_keeps in Hm as ->. split_and!; [done|done|]. by exists k, c, id.
Qed.

(** An entry of the status: its Secret held a key Langfuse listed, or got a new one. *)
Definition key_reported (tr : list Call) (p : LangfuseProject) (c : httpClient) (id host : string) (l : list APIKey)
    (k : APIKeySpec) (st : APIKeyStatus) : Prop :=
  APIKeyStatus_Name st = APIKey_Name k ∧ APIKeyStatus_SecretName st = APIKey_SecretName k ∧
  APIKeyStatus_Created st = true ∧
  ((∃ s, CGetSecret (secret_key p k) (Ok s) ∈ tr ∧ known_to l s ∧ APIKeyStatus_LastRotated st = None) ∨
   (∃ kp m e now, CLangfuse c (ACreateAPIKey id (APIKey_Name k) (Ok kp)) ∈ tr ∧
      CCreateSecret (set_sec_Meta m (apiKeySecret p host k kp)) e ∈ tr ∧ unless IsAlreadyExists e = None ∧
      APIKeyStatus_LastRotated st = Some now)).

Lemma keys_sync_reported tr c p host l ks r cs sts :
  keys_sync c p host l ks r cs → cs ⊆ tr → r = Ok sts → Forall2 (key_reported tr p c (project_id p) host l) ks sts.
Proof.
  intros Hs. revert sts. induction Hs as [|k ks e cs Hk|k ks s r cs cs' Hk Hks IH]; intros sts Hsub Hr.
  - injection Hr as <-. constructor.
  - done.
  - destruct r as [l'|e]; [|done]. injection Hr as <-. constructor; [|apply IH; [set_solver|done]].
    clear IH Hks. inversion Hk as [s0 Hkn| | |r0 pre kcs Hv Hc]; subst.
    + split_and!; [done..|]. left. exists s0. split_and!; [set_solver|done|done].
    + inversion Hc as [|kp m e r0 Hm Hr0]; subst. destruct (Hr0 s eq_refl) as [He [now ->]].
      split_and!; [done..|]. right. exists kp, m, e, now. split_and!; [|set_solver|done|done].
      apply Hsub. unfold new_key. set_solver.
Qed.

(** C23: a project's status is honest.  Whatever a pass publishes, the Ready condition
    says what [status.ready] says, for the generation of the resource; and it says
    ready only if, in that pass, the instance and the organization were ready, Langfuse
    had or was given a project under the id published, and every API key of the spec
    is reported, in order: its Secret held a key that Langfuse listed, or a new key was
    minted and a Secret with it either created or refused because one exists under that
    name by then, in which case the new key is reported and kept nowhere. *)
Theorem project_status_honest req w out w' tr p' e :
  run (Reconcile req) w = (out, w', tr) → CUpdateProjectStatus p' e ∈ tr →
  ready_published p' ∧
  (ProjectStatus_Ready (Project_Status p') = true →
   ∃ p i org c l, live_pass req tr p ∧ Project_Spec p' = Project_Spec p ∧ speaks tr p i org c ∧
     ProjectStatus_OrganizationID (Project_Status p') = org_id org ∧
     (∃ ss, project_sync c (with_organization org p) (Ok (project_id p')) ss ∧ ss ⊆ tr) ∧
     CLangfuse c (AListAPIKeys (project_id p') (Ok l)) ∈ tr ∧
     Forall2 (key_reported tr p c (project_id p') (Organization.instanceBaseURL i) l) (api_keys p)
       (ProjectStatus_APIKeys (Project_Status p'))).
Proof.
  intros Hrun Hx. pose proof (project_caused _ _ _ _ _ _ Hrun Hx) as Hc. clear Hrun Hx.
  inversion Hc as [| | | | | | | | | | | |p p0 e' Hp Hspec Hrd Hsync]; subst; [done|]. split; [done|]. intros Hready.
  destruct (Hsync Hready) as (i & org & c & ks & Horg & Hsp & Hss & Hk & Hsub).
  inversion Hk as [| |l r cs Hks]; subst. exists p, i, org, c, l.
  split_and!; [done|done|done|done|done|set_solver|].
  exact (keys_sync_reported tr c _ _ _ _ _ _ _ Hks ltac:(set_solver) eq_refl).
Qed.

(** The calls that destroy: in Langfuse, or the hold on the resource. *)
Definition destructive (x : Call) : bool :=
  match x with
  | CLangfuse _ (ADeleteProject _ _) | CLangfuse _ (ADeleteAPIKey _ _ _) | CDeleteSecret _ _ => true
  | CUpdateProject q _ => negb (pinned q)
  | _ => false
  end.

(** C22: nothing is destroyed but what the resource names.  A pass deletes a project,
    revokes a key or lets the resource go only when the resource is being deleted: the
    project is the one its status names, and only if its annotation asks for that; the
    keys revoked are those Langfuse lists whose public half is in a Secret of its
    entries.  A Secret it deletes was read under the name of an entry, and the resource
    is being deleted, or the key in the Secret is one Langfuse had just not listed.  The
    name is all that counts: nothing asks who owns or made the Secret. *)
Theorem project_destroyed_with_cause {FL : FinalizerLaws FIN} req w out w' tr x :
  run (Reconcile req) w = (out, w', tr) → x ∈ tr → destructive x = true →
  ∃ p, match x with
       | CLangfuse c (ADeleteProject id _) => deleted_pass req tr p ∧ id = project_id p ∧ deleteOnRemove p = true
       | CLangfuse c (ADeleteAPIKey id keyID _) =>
           deleted_pass req tr p ∧ id = project_id p ∧
           ∃ l key k s, CLangfuse c (AListAPIKeys id (Ok l)) ∈ tr ∧ key ∈ l ∧ keyID = APIKey_ID key ∧ k ∈ api_keys p ∧
             CGetSecret (secret_key p k) (Ok s) ∈ tr ∧ field s "publicKey" = APIKey_PublicKey key ∧ APIKey_PublicKey key ≠ ""
       | CDeleteSecret key _ =>
           ∃ k s, k ∈ api_keys p ∧ CGetSecret (secret_key p k) (Ok s) ∈ tr ∧ key = om_key (sec_Meta s) ∧
             (deleted_pass req tr p ∨
              live_pass req tr p ∧ ∃ c id l, CLangfuse c (AListAPIKeys id (Ok l)) ∈ tr ∧ ¬ known_to l s)
       | CUpdateProject q _ => deleted_pass req tr p ∧ q = unpin p
       | _ => False
       end.
Proof.
  intros Hrun Hx Hd. pose proof (project_caused _ _ _ _ _ _ Hrun Hx) as Hc. clear Hrun Hx.
  destruct Hc as [x Hr|p r _ _ _|p r Hp| | |? ? ? ? a| | |p i org c id l k s e Hp Hsp Hk Hl Hkn Hg|p k s e Hp Hk Hg
    |p i org c l key k s e Hp Hsp Hl Hin Hk Hg Hf Hnz|p i org c e Hp Hsp Hne Hdel|]; try done.
  - by destruct x.
  - exfalso. cbn in Hd. unfold pinned, pin in Hd. cbn in Hd. by rewrite contains_add in Hd.
  - by exists p.
  - by destruct a.
  - exists p, k, s. split_and!; [done..|]. right. split; [done|]. by exists c, id, l.
  - exists p, k, s. split_and!; [done..|]. by left.
  - exists p. split_and!; [done..|]. by exists l, key, k, s.
  - by exists p.
Qed.
End safety.

(** *** Projects hold their organization *)

Section hold.
Context {W : Type} `{KubeClient W} `{TenantClient W} `{LangfuseAPI W}.
Context `{API : ConditionAPI} `{FIN : FinalizerAPI} {FL : FinalizerLaws FIN}.

(** C25: a project holds its organization.  Let the organization controller list a
    project that refers to the organization by the key under which the project
    controller looks it up: then the pass neither deletes the organization in Langfuse
    nor gives up the finalizer, so the organization a project is synchronized with
    outlives the project's resource. *)
Theorem project_holds_organization req (w : W) out w' tr o ps p :
  run (Organization.Reconcile req) w = (out, w', tr) →
  CGetOrganization req (Ok o) ∈ tr → CListProjects (Ok ps) ∈ tr →
  p ∈ ps → organization_key p = om_key (Org_ObjectMeta o) →
  Forall (λ x, Organization.parting_call x = false) tr.
Proof.
  intros Hrun Ho Hps Hp Hkey. pose proof (traces_run _ _ _ _ _ _ (Organization.organization_pass_traces req) Hrun) as Ht.
  assert (∀ o, Organization.pinned (Organization.pin o) = true) as Hpin by (intros; apply contains_add).
  destruct Ht as [e|o1 cs Hd Hc|o1 e Hl Hpn|o0 o1 pre cs Hl Hs Hc].
  - by repeat constructor.
  - constructor; [done|]. destruct Hc as [|e|ps1 msg e Hdep|ps1 cs r Hpn Hdep Hcl]; [by repeat constructor..|].
    exfalso. apply elem_of_cons in Ho as [[= <-]|Ho].
    2: { apply elem_of_cons in Ho as [?|Ho]; [done|]. apply elem_of_app in Ho as [Ho|Ho%list_elem_of_singleton]; [|done].
         by destruct (Organization.shaped _ _ _ Hcl Ho) as [|(_ & ? & ? & ?)]. }
    apply elem_of_cons in Hps as [?|Hps]; [done|]. apply elem_of_cons in Hps as [[= <-]|Hps].
    2: { apply elem_of_app in Hps as [Ho|Ho%list_elem_of_singleton]; [|done].
         by destruct (Organization.shaped _ _ _ Hcl Ho) as [|(_ & ? & ? & ?)]. }
    assert (p ∈ Organization.dependents o ps) as Hin.
    { apply list_elem_of_filter. split; [|done]. by apply bool_decide_eq_true_2. }
    rewrite Hdep in Hin. by apply elem_of_nil in Hin.
  - constructor; [done|]. apply Forall_singleton. cbn. by rewrite Hpin.
  - constructor; [done|]. apply Forall_app. split.
    + destruct Hs; [constructor|]. apply Forall_singleton. cbn. by rewrite Hpin.
    + apply Forall_forall. intros x Hx. by apply (Organization.org_calls_no_parting o1 cs).
Qed.
End hold.

(** ** API keys converge

    What the controller relies on of a server and a cluster that answer every call:
    the Secrets are a map by name, the keys of a project a list. *)

Class KeyStore (W : Type) `{KubeClient W} `{TenantClient W} `{LangfuseAPI W} := {
  secrets_of : W → gmap NamespacedName Secret;
  keys_of : httpClient → string → W → list APIKey
}.

(** Every Secret is kept under its name. *)
Definition well_named {W} `{KeyStore W} (w : W) : Prop :=
  ∀ k s, secrets_of w !! k = Some s → om_key (sec_Meta s) = k.

(** [w'] has the keys of [w]. *)
Definition same_keys {W} `{KeyStore W} (w w' : W) : Prop := ∀ c p, keys_of c p w' = keys_of c p w.

Class KeyStoreLaws (W : Type) `{KeyStore W} : Prop := {
  secret_reading k w :
    ∃ e, IsNotFound e = true ∧
      kc_get_secret k w = (match secrets_of w !! k with Some s => Ok s | None => Err e end, w);
  secret_creating s w :
    let k := om_key (sec_Meta s) in
    if secrets_of w !! k is Some _ then ∃ e, IsAlreadyExists e = true ∧ kc_create_secret s w = (Some e, w)
    else ∃ w', kc_create_secret s w = (None, w') ∧ secrets_of w' = <[k := s]> (secrets_of w) ∧ same_keys w w';
  secret_deleting k w :
    ∃ w', kc_delete_secret k w = (None, w') ∧ secrets_of w' = delete k (secrets_of w) ∧ same_keys w w';
  keys_listing_law c p w : lf_ListAPIKeys c p w = (Ok (keys_of c p w), w);
  key_minting c p note w :
    ∃ kp k w', lf_CreateAPIKey c p note w = (Ok kp, w') ∧ APIKey_PublicKey k = APIKeyPair_PublicKey kp ∧
      keys_of c p w' = keys_of c p w ++ [k] ∧ secrets_of w' = secrets_of w;
  time_telling w : (kc_now w).2 = w
}.

Section convergence.
Context {W : Type} `{KeyStore W} {LAWS : KeyStoreLaws W} `{OWN : OwnerAPI} {OL : OwnerLaws OWN}.

(** The Secret of an entry holds a key that Langfuse knows. *)
Definition held (c : httpClient) (p : LangfuseProject) (w : W) (k : APIKeySpec) : Prop :=
  ∃ s, secrets_of w !! secret_key p k = Some s ∧ known_to (keys_of c (project_id p) w) s.

(** Nothing is lost on the way from [w] to [w'], but Secrets named by entries among [ks]. *)
Definition preserved (c : httpClient) (p : LangfuseProject) (ks : list APIKeySpec) (w w' : W) : Prop :=
  keys_of c (project_id p) w ⊆ keys_of c (project_id p) w' ∧
  (∀ key, key ∉ (secret_key p <$> ks) → secrets_of w' !! key = secrets_of w !! key) ∧
  (well_named w → well_named w').

Lemma preserved_trans c p ks ks' w w' w'' :
  preserved c p ks w w' → preserved c p ks' w' w'' → preserved c p (ks ++ ks') w w''.
Proof.
  intros (Hk & Hs & Hw) (Hk' & Hs' & Hw'). split_and!; [by etrans| |auto]. intros key. rewrite fmap_app, not_elem_of_app. intros [? ?].
  by rewrite Hs', Hs.
Qed.

Lemma held_preserved c p ks w w' k :
  held c p w k → preserved c p ks w w' → secret_key p k ∉ (secret_key p <$> ks) → held c p w' k.
Proof.
  intros (s & Hs & Hk) (Hsub & Hsec & _) Hn. exists s. rewrite Hsec by done. split; [done|].
  unfold known_to in *. apply list_elem_of_fmap in Hk as (x & -> & Hx). apply list_elem_of_fmap. exists x. auto.
Qed.

(** The controller reference is accepted: no entry's Secret has an owner yet. *)
Hypothesis owned : ∀ o m, om_OwnerReferences m = [] → is_ok (SetControllerReference o m) = true.

Lemma createAPIKey_wp c p host k (s : St W) :
  secrets_of (st_world s) !! secret_key p k = None →
  wp (createAPIKey c p host k)
    (λ r s', is_ok r = true ∧ held c p (st_world s') k ∧ preserved c p [k] (st_world s) (st_world s')) s.
Proof.
  intros Habs. unfold createAPIKey.
  destruct (key_minting c (project_id p) (APIKey_Name k) (st_world s)) as (kp & key & w1 & Hmint & Hpk & Hkeys & Hsec).
  apply wp_bind, wp_call_run. rewrite Hmint. cbn [fst snd]. cbv zeta.
  destruct (SetControllerReference _ _) as [m|e] eqn:Em.
  2: { pose proof (owned (Project_ObjectMeta p) (sec_Meta (apiKeySecret p host k kp)) eq_refl) as Hok. by rewrite Em in Hok. }
  apply owner_keeps in Em. set (sec := set_sec_Meta m (apiKeySecret p host k kp)).
  assert (om_key (sec_Meta sec) = secret_key p k) as Hkey by (unfold sec; by rewrite Em).
  pose proof (secret_creating sec w1) as Hcr. cbv zeta in Hcr. rewrite Hkey, Hsec, Habs in Hcr.
  destruct Hcr as (w2 & Hcr & Hsec2 & Hk2). apply wp_bind, wp_call_run. cbn [st_world]. rewrite Hcr. cbn [fst snd unless].
  apply wp_bind. unfold wp, Now, silent, mret, M_ret. cbn [st_world]. destruct (kc_now w2) as [now w3] eqn:En.
  pose proof (time_telling w2) as Ht. rewrite En in Ht. cbn in Ht. subst w3. cbn [st_world].
  split_and!; [done| |split; [|split]].
  - exists sec. rewrite Hsec2, lookup_insert_eq. split; [done|]. unfold known_to. rewrite Hk2, Hkeys, fmap_app.
    apply elem_of_app. right. apply list_elem_of_singleton. by rewrite Hpk.
  - rewrite Hk2, Hkeys. set_solver.
  - intros key' Hn. rewrite Hsec2, lookup_insert_ne; [done|]. intros <-. apply Hn. set_solver.
  - intros Hw key' s'. rewrite Hsec2. intros [[<- <-]|[_ Hs]]%lookup_insert_Some; [done|by apply Hw].
Qed.

Lemma syncAPIKey_wp c p host l k (s : St W) :
  l ⊆ keys_of c (project_id p) (st_world s) → well_named (st_world s) →
  wp (syncAPIKey c p host l k)
    (λ r s', is_ok r = true ∧ held c p (st_world s') k ∧ preserved c p [k] (st_world s) (st_world s')) s.
Proof.
  intros Hl Hw. unfold syncAPIKey. cbv zeta.
  destruct (secret_reading (secret_key p k) (st_world s)) as (e & He & Hread).
  apply wp_bind, wp_call_run. rewrite Hread. cbn [fst snd].
  destruct (secrets_of (st_world s) !! secret_key p k) as [sec|] eqn:Esec.
  - case_bool_decide as Hkn.
    + apply wp_ret. cbn [st_world]. split_and!; [done| |done..].
      exists sec. split; [done|]. unfold known_to. apply list_elem_of_fmap in Hkn as (x & -> & Hx).
      apply list_elem_of_fmap. exists x. auto.
    + destruct (secret_deleting (secret_key p k) (st_world s)) as (w1 & Hdel & Hsec & Hkeys).
      rewrite (Hw _ _ Esec).
      apply wp_bind, wp_call_run. cbn [st_world]. rewrite Hdel. cbn [fst snd unless].
      eapply wp_mono; [apply createAPIKey_wp; cbn [st_world]; by rewrite Hsec, lookup_delete_eq|].
      intros r s' (Hok & Hheld & Hk & Hs & Hw'). split_and!; [done|done|]. cbn [st_world] in *. split_and!.
      * by rewrite <- Hkeys.
      * intros key Hn. rewrite Hs, Hsec by done. apply lookup_delete_ne. intros <-. apply Hn. set_solver.
      * intros _. apply Hw'. intros key sec'. rewrite Hsec. intros [_ Hs']%lookup_delete_Some. by apply Hw.
  - rewrite He. eapply wp_mono; [apply createAPIKey_wp; cbn [st_world]; exact Esec|]. done.
Qed.

Lemma syncKeys_wp c p host l ks acc (s : St W) :
  l ⊆ keys_of c (project_id p) (st_world s) → well_named (st_world s) → NoDup (secret_key p <$> ks) →
  wp (syncKeys c p host l ks acc)
    (λ r s', is_ok r = true ∧ Forall (held c p (st_world s')) ks ∧ preserved c p ks (st_world s) (st_world s')) s.
Proof.
  revert acc s. induction ks as [|k ks IH]; intros acc s Hl Hw Hn; cbn [syncKeys].
  - apply wp_ret. by split_and!; [|constructor|split].
  - apply wp_bind. eapply wp_mono; [by apply syncAPIKey_wp|]. intros r s1 (Hok & Hheld & Hp1).
    destruct r as [st|]; [|done]. cbn in Hn. apply NoDup_cons in Hn as [Hnk Hn].
    eapply wp_mono; [destruct Hp1 as (? & _ & Hw1); apply IH; [by etrans|by apply Hw1|done]|]. intros r s2 (Hok2 & Hall & Hp2).
    split_and!; [done| |exact (preserved_trans _ _ [k] ks _ _ _ Hp1 Hp2)].
    constructor; [by eapply held_preserved|done].
Qed.

(** The status of an entry whose key is kept. *)
Definition kept_status (k : APIKeySpec) : APIKeyStatus := mkAPIKeyStatus (APIKey_Name k) (APIKey_SecretName k) true None.

Definition reads_of (p : LangfuseProject) (w : W) (ks : list APIKeySpec) : list Call :=
  omap (λ k, CGetSecret (secret_key p k) ∘ Ok <$> secrets_of w !! secret_key p k) ks.

Lemma syncKeys_settled c p host ks acc (s : St W) :
  Forall (held c p (st_world s)) ks →
  syncKeys c p host (keys_of c (project_id p) (st_world s)) ks acc s =
  (Ok (acc ++ (kept_status <$> ks)), mkSt (st_world s) (st_trace s ++ reads_of p (st_world s) ks)).
Proof.
  revert acc s. induction ks as [|k ks IH]; intros acc s Hall; cbn [syncKeys].
  - unfold reads_of. cbn. rewrite !app_nil_r. by destruct s.
  - apply Forall_cons in Hall as [(sec & Hsec & Hkn) Hall]. unfold syncAPIKey. cbv zeta.
    destruct (secret_reading (secret_key p k) (st_world s)) as (e & He & Hread).
    unfold Get_Secret, call, mbind, M_bind, mret, M_ret. rewrite Hread, Hsec. cbv beta iota.
    rewrite bool_decide_true by exact Hkn.
    rewrite (IH _ (mkSt (st_world s) (st_trace s ++ [CGetSecret (secret_key p k) (Ok sec)]))) by done.
    cbn [st_world st_trace]. unfold reads_of. cbn [omap list_omap]. rewrite Hsec. cbn. by rewrite <- !app_assoc.
Qed.

Lemma syncAPIKeys_listed c p i (s : St W) :
  project_id p ≠ "" →
  let l := keys_of c (project_id p) (st_world s) in
  syncAPIKeys c p i s =
  syncKeys c p (Organization.instanceBaseURL i) l (api_keys p) []
    (mkSt (st_world s) (st_trace s ++ [CLangfuse c (AListAPIKeys (project_id p) (Ok l))])).
Proof.
  intros Hid. unfold syncAPIKeys. assert (nonempty_str (project_id p) = true) as -> by by destruct (project_id p).
  cbn [negb]. unfold ListAPIKeys, call, mbind, M_bind. by rewrite keys_listing_law.
Qed.

(** C24: API keys converge, where no two entries name the same Secret.  Against a cluster
    that keeps Secrets under their names and a server, both answering every call,
    whatever they hold, one synchronization of a project with an id succeeds and leaves
    each entry a Secret whose key Langfuse knows; it loses no key of the project and
    touches no Secret but those the entries name, replacing one whose key is unknown
    whatever else it holds.  The next one reads and changes
    nothing: it keeps every key, and reports none as rotated. *)
Theorem api_keys_converge c p i w :
  project_id p ≠ "" → well_named w → NoDup (secret_key p <$> api_keys p) →
  ∃ sts w' tr, run (syncAPIKeys c p i) w = (Ok sts, w', tr) ∧
    Forall (held c p w') (api_keys p) ∧ preserved c p (api_keys p) w w' ∧
    run (syncAPIKeys c p i) w' =
      (Ok (kept_status <$> api_keys p), w',
       CLangfuse c (AListAPIKeys (project_id p) (Ok (keys_of c (project_id p) w'))) :: reads_of p w' (api_keys p)).
Proof.
  intros Hid Hw Hn. unfold run. rewrite (syncAPIKeys_listed c p i (mkSt w []) Hid). cbv zeta. cbn [st_world st_trace app].
  set (l := keys_of c (project_id p) w).
  pose proof (syncKeys_wp c p (Organization.instanceBaseURL i) l (api_keys p) []
    (mkSt w [CLangfuse c (AListAPIKeys (project_id p) (Ok l))]) (λ _ Hx, Hx) Hw Hn) as Hwp.
  unfold wp in Hwp. destruct (syncKeys _ _ _ _ _ _ _) as [r [w' tr]]. cbn [st_world] in Hwp.
  destruct Hwp as (Hok & Hall & Hp). destruct r as [sts|]; [|done]. exists sts, w', tr. split_and!; [done..|].
  rewrite (syncAPIKeys_listed c p i (mkSt w' []) Hid). cbv zeta. cbn [st_world st_trace app].
  by rewrite (syncKeys_settled c p _ (api_keys p) [] (mkSt w' [_])) by done.
Qed.

(** An incomplete organization key is never repaired.  While the Secret that keeps
    an organization's key lacks a half of it, every pass mints another key in Langfuse
    and works with that one, but the Secret stays as it is: writing the new pair is
    refused because the Secret exists, and the refusal is taken for success. *)
Theorem incomplete_orgkey_reminted i org s a w :
  secrets_of w !! orgkey_key org = Some s → field s "publicKey" = "" ∨ field s "secretKey" = "" →
  secrets_of w !! admin_key_key i = Some a → admin_key i a ≠ "" →
  (∀ c id note w, ∃ kp w', lf_CreateOrganizationAPIKey c id note w = (Ok kp, w') ∧ secrets_of w' = secrets_of w) →
  ∃ c w' tr, run (ensureProjectClient i org) w = (Ok c, w', tr) ∧ secrets_of w' = secrets_of w ∧
    filter (λ x, mint_org_key x = true) tr ≠ [].
Proof.
  intros Hs Hinc Ha Hk Hmint. unfold run, ensureProjectClient.
  destruct (secret_reading (orgkey_key org) w) as (e1 & _ & R1). rewrite Hs in R1.
  destruct (secret_reading (admin_key_key i) w) as (e2 & _ & R2). rewrite Ha in R2.
  unfold Get_Secret, call, mbind, M_bind. cbn [st_world]. rewrite R1. cbv beta iota zeta. cbn [st_trace app].
  assert (nonempty_str (field s "publicKey") && nonempty_str (field s "secretKey") = false) as ->
    by (destruct Hinc as [-> | ->]; [done|by rewrite andb_false_r]).
  unfold mintOrgKey, Organization.buildLangfuseClient. unfold admin_key_key in R2. unfold admin_key, field in Hk.
  destruct (Organization.adminKeyRef i) as [name key]. cbn [fst snd] in *.
  unfold Get_Secret, call, mbind, M_bind, mret, M_ret. cbn [st_world]. rewrite R2. cbv beta iota zeta. cbn [st_trace app].
  assert (nonempty_str (default "" (sec_Data a !! key)) = true) as -> by by destruct (default _ _).
  unfold CreateOrganizationAPIKey, call. cbn [st_world st_trace].
  edestruct Hmint as (kp & w1 & Hm & Hsec). rewrite Hm. cbv beta iota zeta.
  destruct (SetControllerReference _ _) as [m|e] eqn:Em.
  2: { pose proof (owned (Org_ObjectMeta org) (sec_Meta (orgKeySecret i org kp)) eq_refl) as Hok. by rewrite Em in Hok. }
  apply owner_keeps in Em. pose proof (secret_creating (set_sec_Meta m (orgKeySecret i org kp)) w1) as Hc. cbv zeta in Hc.
  assert (om_key (sec_Meta (set_sec_Meta m (orgKeySecret i org kp))) = orgkey_key org) as Hkey by by rewrite Em.
  rewrite Hkey, Hsec, Hs in Hc. destruct Hc as (e & He & Hc).
  unfold Create_Secret, call. cbn [st_world st_trace]. rewrite Hc. cbv beta iota zeta. cbn [unless]. rewrite He.
  eexists _, _, _. split_and!; [done|exact Hsec|]. cbn [app]. done.
Qed.
End convergence.

(** ** Witnesses, on a cluster with a Langfuse server *)

#[global] Instance tenancy_keys : KeyStore Tenancy := {|
  secrets_of w := fk_secrets (tn_cluster w);
  keys_of _ p w := keys_in w p
|}.

#[global] Instance tenancy_keys_laws : KeyStoreLaws Tenancy.
Proof.
  split.
  - intros k []. exists (not_found "secret" k). by split.
  - intros s w. cbn. destruct (fk_secrets (tn_cluster w) !! om_key (sec_Meta s)) as [s'|] eqn:E.
    + eexists. rewrite bool_decide_true by by eexists. split; [|done]. done.
    + rewrite bool_decide_false by (by intros []). by eexists.
  - intros k w. by eexists.
  - done.
  - intros c p note w. eexists _, (mkAPIKey _ _), _. split_and!; [reflexivity|reflexivity| |reflexivity].
    cbn. unfold keys_in at 1. cbn. by rewrite lookup_insert_eq.
  - by intros [].
Qed.

Definition ex_ready_org : LangfuseOrganization :=
  set_Org_Status (set_OrgStatus_Ready true (set_OrgStatus_OrganizationID "o1" zero_LangfuseOrganizationStatus))
    (Organization.ex_org None "o1").

Definition ex_project_meta (deleted : option Z) : ObjectMeta :=
  mkObjectMeta "site" "prod" ∅ {[ deleteOnRemoveAnnotation := "true" ]} [] 1 deleted [projectFinalizer].

Definition ex_project (deleted : option Z) (id : string) : LangfuseProject :=
  mkLangfuseProject (ex_project_meta deleted)
    (mkLangfuseProjectSpec (mkObjectReference "lf" "") (mkObjectReference "acme" "") "Site"
       [mkAPIKeySpec "ci" "ci-key"; mkAPIKeySpec "app" "app-key"])
    (set_ProjectStatus_ProjectID id zero_LangfuseProjectStatus).

Definition ex_secret (name publicKey : string) : Secret :=
  mkSecret (ex_meta name) {[ "publicKey" := publicKey; "secretKey" := "s" ]}.

(** The server knows one key of the project, which the Secret of [app] holds; [ci] holds
    one that was revoked. *)
Definition ex_cluster_of (secrets : list Secret) : FakeCluster :=
  mkFake {[ ex_key := Organization.ex_ready ]} ∅ ∅
    (list_to_map ((λ s, (om_key (sec_Meta s), s)) <$> Organization.ex_admin_secret :: secrets)) [] None None 7.

Definition ex_world (p : LangfuseProject) (secrets : list Secret) : Tenancy :=
  mkTenancy (ex_cluster_of secrets) {[ Organization.ex_org_key := ex_ready_org ]} {[ Organization.ex_project_key := p ]}
    [mkOrganization "o1" "Acme"] ∅ [mkLFProject "p1" "Site"] {[ "p1" := [mkAPIKey "k1" "pk-app"] ]} None.

Definition ex_secrets : list Secret := [ex_secret "ci-key" "pk-old"; ex_secret "app-key" "pk-app"].

Definition ex_pass (w : Tenancy) : Outcome * Tenancy * list Call :=
  run (Reconcile (API := list_conditions) (FIN := list_finalizers) (OWN := list_owner) Organization.ex_project_key) w.

Definition ex_live : Outcome * Tenancy * list Call := ex_pass (ex_world (ex_project None "p1") ex_secrets).
Definition ex_deleted : Outcome * Tenancy * list Call := ex_pass (ex_world (ex_project (Some 1) "p1") ex_secrets).

Definition ex_member_client : httpClient := project_client Organization.ex_ready "pk-org" "sk-org".

Lemma admin_key_only_mints_witness :
  let c := admin_client Organization.ex_ready Organization.ex_admin_secret in
  let kp := mkAPIKeyPair "ok-1" "pk-org" "sk-org" in
  CLangfuse c (ACreateOrganizationAPIKey "o1" "langfuse-operator (acme)" (Ok kp)) ∈ ex_live.2 ∧
  ∃ org a, CGetSecret (orgkey_key org) a ∈ ex_live.2 ∧ unusable a.
Proof.
  cbv zeta. match goal with |- ?A ∧ _ => assert A as Hin by (apply (list_elem_of_lookup_2 _ 5); by vm_compute) end.
  split; [exact Hin|].
  destruct (admin_key_only_mints (AL := list_conditions_laws) _ _ _ _ _ _ _ (triple_eta ex_live) Hin)
    as (p & i & org & _ & _ & s & a & r & _ & _ & _ & Ha & Hu & _).
  exact (ex_intro _ org (ex_intro _ a (conj Ha Hu))).
Defined.

Lemma api_key_minted_with_cause_witness :
  let kp := mkAPIKeyPair "0" "0" "sk-0" in
  CLangfuse ex_member_client (ACreateAPIKey "p1" "ci" (Ok kp)) ∈ ex_live.2 ∧
  ∃ p k l pre, k ∈ api_keys p ∧ "ci" = APIKey_Name k ∧ vacant p l k pre ∧ pre ⊆ ex_live.2.
Proof.
  cbv zeta. match goal with |- ?A ∧ _ => assert A as Hin by (apply (list_elem_of_lookup_2 _ 11); by vm_compute) end.
  split; [exact Hin|].
  destruct (api_key_minted_with_cause (AL := list_conditions_laws) _ _ _ _ _ _ _ _ _ (triple_eta ex_live) Hin)
    as (p & i & org & k & l & pre & _ & _ & _ & Hk & Hn & _ & Hv & Hs).
  exact (ex_intro _ p (ex_intro _ k (ex_intro _ l (ex_intro _ pre (conj Hk (conj Hn (conj Hv Hs))))))).
Defined.

(** The Secret of [ci] after the pass. *)
Definition ex_ci : Secret :=
  default (mkSecret zero_ObjectMeta ∅) (fk_secrets (tn_cluster ex_live.1.2) !! mkKey "prod" "ci-key").

Lemma credentials_stored_as_minted_witness :
  CCreateSecret ex_ci None ∈ ex_live.2 ∧
  ∃ kp, field ex_ci "publicKey" = APIKeyPair_PublicKey kp ∧ field ex_ci "secretKey" = APIKeyPair_SecretKey kp.
Proof.
  assert (CCreateSecret ex_ci None ∈ ex_live.2) as Hin by (apply (list_elem_of_lookup_2 _ 12); by vm_compute).
  split; [exact Hin|].
  destruct (credentials_stored_as_minted (AL := list_conditions_laws) (OL := list_owner_laws) _ _ _ _ _ _ _
    (triple_eta ex_live) Hin) as (kp & Hp & Hs & _).
  exact (ex_intro _ kp (conj Hp Hs)).
Defined.

Definition ex_after : LangfuseProject :=
  default zero_LangfuseProject (tn_projects ex_live.1.2 !! Organization.ex_project_key).

Lemma project_status_honest_witness :
  ProjectStatus_Ready (Project_Status ex_after) = true ∧
  ∃ p i org c l, speaks (OWN := list_owner) ex_live.2 p i org c ∧
    Forall2 (key_reported ex_live.2 p c (project_id ex_after) (Organization.instanceBaseURL i) l) (api_keys p)
      (ProjectStatus_APIKeys (Project_Status ex_after)).
Proof.
  split; [by vm_compute|].
  destruct (project_status_honest (AL := list_conditions_laws) _ _ _ _ _ ex_after None (triple_eta ex_live)) as (_ & Hr).
  - apply (list_elem_of_lookup_2 _ 14). by vm_compute.
  - destruct Hr as (p & i & org & c & l & _ & _ & Hsp & _ & _ & _ & Hk); [by vm_compute|].
    exact (ex_intro _ p (ex_intro _ i (ex_intro _ org (ex_intro _ c (ex_intro _ l (conj Hsp Hk)))))).
Defined.

Lemma project_destroyed_with_cause_witness :
  CLangfuse ex_member_client (ADeleteProject "p1" None) ∈ ex_deleted.2 ∧
  ∃ p, deleted_pass (FIN := list_finalizers) Organization.ex_project_key ex_deleted.2 p ∧ deleteOnRemove p = true.
Proof.
  assert (CLangfuse ex_member_client (ADeleteProject "p1" None) ∈ ex_deleted.2) as Hin
    by (apply (list_elem_of_lookup_2 _ 11); by vm_compute).
  split; [exact Hin|].
  destruct (project_destroyed_with_cause (AL := list_conditions_laws) (FL := list_finalizers_laws) _ _ _ _ _ _
    (triple_eta ex_deleted) Hin eq_refl) as (p & Hp & _ & Hd).
  exact (ex_intro _ p (conj Hp Hd)).
Defined.

(** The organization is being deleted while the project is there. *)
Definition ex_hold : Outcome * Tenancy * list Call :=
  Organization.ex_org_pass (set_projects (λ _, {[ Organization.ex_project_key := ex_project None "p1" ]})
    (Organization.ex_tenancy (Organization.ex_org (Some 1) "o1") "Acme" None)).

Lemma project_holds_organization_witness :
  ex_hold.1.1 = done_after (30 * Second) ∧ Forall (λ x, Organization.parting_call (FIN := list_finalizers) x = false) ex_hold.2.
Proof.
  split; [by vm_compute|].
  apply (project_holds_organization (API := list_conditions) (FL := list_finalizers_laws) Organization.ex_org_key _ _ _ _
    (Organization.ex_org (Some 1) "o1") [ex_project None "p1"] (ex_project None "p1") (triple_eta ex_hold)).
  - apply (list_elem_of_lookup_2 _ 0). by vm_compute.
  - apply (list_elem_of_lookup_2 _ 1). by vm_compute.
  - by left.
  - done.
Defined.

Definition ex_start : Tenancy := ex_world (ex_project None "p1") ex_secrets.

Lemma ex_named : well_named ex_start.
Proof.
  intros k s Hs.
  assert (map_Forall (λ k s, om_key (sec_Meta s) = k) (secrets_of ex_start)) as Hall
    by (apply (bool_decide_unpack _); by vm_compute).
  by apply (Hall k s).
Qed.

Lemma list_owner_accepts o m : om_OwnerReferences m = [] → is_ok (SetControllerReference (OwnerAPI := list_owner) o m) = true.
Proof. cbn. by intros ->. Qed.

Lemma api_keys_converge_witness :
  let p := ex_project None "p1" in
  ∃ w', Forall (held ex_member_client p w') (api_keys p) ∧
    (run (syncAPIKeys (OWN := list_owner) ex_member_client p Organization.ex_ready) w').1 =
    (Ok (kept_status <$> api_keys p), w').
Proof.
  cbv zeta.
  destruct (api_keys_converge (OL := list_owner_laws) list_owner_accepts ex_member_client (ex_project None "p1")
    Organization.ex_ready ex_start) as (sts & w' & tr & _ & Hh & _ & Hr).
  - done.
  - apply ex_named.
  - apply (bool_decide_unpack _). by vm_compute.
  - exact (ex_intro _ w' (conj Hh (f_equal fst Hr))).
Defined.

Definition ex_broken : Tenancy :=
  ex_world (ex_project None "p1") [mkSecret (ex_meta "acme-orgkey") {[ "publicKey" := "pk-org" ]}].

Lemma incomplete_orgkey_reminted_witness :
  ∃ c w' tr, run (ensureProjectClient (OWN := list_owner) Organization.ex_ready ex_ready_org) ex_broken = (Ok c, w', tr) ∧
    secrets_of w' = secrets_of ex_broken ∧ filter (λ x, mint_org_key x = true) tr ≠ [].
Proof.
  apply (incomplete_orgkey_reminted (OL := list_owner_laws) list_owner_accepts Organization.ex_ready ex_ready_org
    (mkSecret (ex_meta "acme-orgkey") {[ "publicKey" := "pk-org" ]}) Organization.ex_admin_secret).
  - by vm_compute.
  - right. by vm_compute.
  - by vm_compute.
  - by vm_compute.
  - intros c id note w. eexists _, _. split; reflexivity.
Defined.
