(* ===== verification/Sharing.v ===== *)
(** * One status, seven writers

    Seven controllers write the status of a [LangfuseInstance], each from its own
    read.  This file divides that status into facets, says which controller writes
    which, and proves of the code of every controller that a pass writes the status
    once at most and changes its own facets only, keeping them consistent with one
    another: the guarantee the histories of [History] are built on. *)

From S2P Require Import Instance Migration HealthMonitor CircuitBreaker Secrets Retention SchemaDrift.
From S2P Require Import Prelude GoStd GoNet KubeTypes ApiTypes Kube Interfaces Status Config Stores.
From S2P Require Import Examples Resources PodIssues Phase Identity ClickHouse.

Open Scope string_scope.
Open Scope list_scope.
Open Scope Z_scope.

(** ** The controllers *)

Inductive Controller :=
  | LangfuseInstanceReconciler | MigrationController | SecretController | HealthMonitorReconciler
  | RetentionController | SchemaDriftController | CircuitBreakerController.

#[global] Instance Controller_eq_dec : EqDecision Controller.
Proof. solve_decision. Defined.

Section dispatch.
Context {W : Type} `{KubeClient W} `{ApplyClient W} `{API : ConditionAPI} `{OWN : OwnerAPI}.
Context `{SCH : Instance.Scheme} `{QUANT : QuantityParser} `{PROBES : DependencyProbes W}.
Context `{ORD : MapOrder} `{ENT : Secrets.Entropy W} `{HASH : Secrets.Hasher}.
Context `{HTTP : HTTPTransport W} `{PEM : PEMParser}.

(** One pass of a controller; the memory is the circuit breaker's. *)
Definition reconcile (c : Controller) (mem : CircuitBreaker.Memory) (req : NamespacedName)
    : M (St W) (Outcome * CircuitBreaker.Memory) :=
  let keeping (m : M (St W) Outcome) := out ← m; mret (out, mem) in
  match c with
  | LangfuseInstanceReconciler => keeping (Instance.Reconcile req)
  | MigrationController => keeping (Migration.Reconcile req)
  | SecretController => keeping (Secrets.Reconcile req)
  | HealthMonitorReconciler => keeping (HealthMonitor.Reconcile req)
  | RetentionController => keeping (Retention.Reconcile req)
  | SchemaDriftController => keeping (SchemaDrift.Reconcile req)
  | CircuitBreakerController => CircuitBreaker.Reconcile mem req
  end.
End dispatch.

(** ** The facets of the status

    A part of the status that is absent counts as one with zero values. *)

Inductive Facet :=
  | FReady | FPhase | FVersion | FPublicUrl
  | FWebCounts | FWebIssues | FWorkerCounts | FWorkerIssues | FBreaker | FQueueDepth
  | FDatabaseConnected | FMigrationVersion | FBackgroundMigrations | FMigration
  | FClickHouseConnected | FStorage | FSchemaDrift | FRetentionApplied
  | FRedis | FBlobStorage | FSecrets | FOrganizations | FProjects
  | FCondition (t : string).

Section views.
Variable s : LangfuseInstanceStatus.

Definition web_of : ComponentStatus := default zero_ComponentStatus (Status_Web s).
Definition worker_of : WorkerComponentStatus := default zero_WorkerComponentStatus (Status_Worker s).
Definition database_of : DatabaseStatus := default zero_DatabaseStatus (Status_Database s).
Definition clickhouse_of : ClickHouseStatus := default zero_ClickHouseStatus (Status_ClickHouse s).
Definition redis_of : ConnectionStatus := default zero_ConnectionStatus (Status_Redis s).
Definition blob_of : BlobStorageStatus := default zero_BlobStorageStatus (Status_BlobStorage s).
Definition secrets_of : SecretsStatus := default zero_SecretsStatus (Status_Secrets s).
Definition migration_of : MigrationStatus := default zero_MigrationStatus (Status_Migration s).
Definition counts_of (c : ComponentStatus) : Z * Z * string :=
  (Component_Replicas c, Component_ReadyReplicas c, Component_Endpoint c).
Definition breaker_of : bool * string :=
  (WorkerStatus_CircuitBreakerActive worker_of, WorkerStatus_CircuitBreakerReason worker_of).

Definition find `{ConditionAPI} (t : string) : option Condition :=
  FindStatusCondition (Status_Conditions s) t.
End views.

(** The facet has the same value in both statuses. *)
Definition same `{ConditionAPI} (f : Facet) (a b : LangfuseInstanceStatus) : Prop :=
  match f with
  | FReady => Status_Ready a = Status_Ready b
  | FPhase => Status_Phase a = Status_Phase b
  | FVersion => Status_Version a = Status_Version b
  | FPublicUrl => Status_PublicUrl a = Status_PublicUrl b
  | FWebCounts => counts_of (web_of a) = counts_of (web_of b)
  | FWebIssues => Component_Issues (web_of a) = Component_Issues (web_of b)
  | FWorkerCounts => counts_of (WorkerStatus_ComponentStatus (worker_of a)) =
                     counts_of (WorkerStatus_ComponentStatus (worker_of b))
  | FWorkerIssues => Component_Issues (WorkerStatus_ComponentStatus (worker_of a)) =
                     Component_Issues (WorkerStatus_ComponentStatus (worker_of b))
  | FBreaker => breaker_of a = breaker_of b
  | FQueueDepth => WorkerStatus_QueueDepth (worker_of a) = WorkerStatus_QueueDepth (worker_of b)
  | FDatabaseConnected => DatabaseStatus_Connected (database_of a) = DatabaseStatus_Connected (database_of b)
  | FMigrationVersion => DatabaseStatus_MigrationVersion (database_of a) =
                         DatabaseStatus_MigrationVersion (database_of b)
  | FBackgroundMigrations => DatabaseStatus_BackgroundMigrations (database_of a) =
                             DatabaseStatus_BackgroundMigrations (database_of b)
  | FMigration => migration_of a = migration_of b
  | FClickHouseConnected => ClickHouseStatus_Connected (clickhouse_of a) =
                            ClickHouseStatus_Connected (clickhouse_of b)
  | FStorage => (ClickHouseStatus_StorageUsed (clickhouse_of a), ClickHouseStatus_StorageTotal (clickhouse_of a)) =
                (ClickHouseStatus_StorageUsed (clickhouse_of b), ClickHouseStatus_StorageTotal (clickhouse_of b))
  | FSchemaDrift => ClickHouseStatus_SchemaDrift (clickhouse_of a) = ClickHouseStatus_SchemaDrift (clickhouse_of b)
  | FRetentionApplied => ClickHouseStatus_RetentionApplied (clickhouse_of a) =
                         ClickHouseStatus_RetentionApplied (clickhouse_of b)
  | FRedis => redis_of a = redis_of b
  | FBlobStorage => blob_of a = blob_of b
  | FSecrets => secrets_of a = secrets_of b
  | FOrganizations => Status_Organizations a = Status_Organizations b
  | FProjects => Status_Projects a = Status_Projects b
  | FCondition t => find a t = find b t
  end.

(** The condition types each controller publishes. *)
Definition conditions_written (c : Controller) : list string :=
  match c with
  | LangfuseInstanceReconciler => [conditionTypeReady; conditionTypeDatastoreTarget; conditionTypeDeprecated]
  | MigrationController => [conditionMigrationsComplete]
  | SecretController => []
  | HealthMonitorReconciler => HealthMonitor.health_conditions
  | RetentionController => ["RetentionConfigured"; "StoragePressure"]
  | SchemaDriftController => ["SchemaDriftChecked"]
  | CircuitBreakerController => ["CircuitBreakerHealthy"]
  end.

(** Who writes which facet. *)
Definition writes (c : Controller) (f : Facet) : bool :=
  match f, c with
  | FCondition t, _ => bool_decide (t ∈ conditions_written c)
  | (FReady | FPhase | FVersion | FPublicUrl | FWebCounts | FWorkerCounts), LangfuseInstanceReconciler => true
  | (FWebIssues | FWorkerIssues), (LangfuseInstanceReconciler | HealthMonitorReconciler) => true
  | FBreaker, CircuitBreakerController => true
  | (FMigrationVersion | FMigration), MigrationController => true
  | (FDatabaseConnected | FClickHouseConnected | FRedis | FBlobStorage), HealthMonitorReconciler => true
  | (FStorage | FRetentionApplied), RetentionController => true
  | FSchemaDrift, SchemaDriftController => true
  | FSecrets, SecretController => true
  | _, _ => false
  end.

(** [i'] is [i] but for the facets [c] writes. *)
Record framed `{ConditionAPI} (c : Controller) (i i' : LangfuseInstance) : Prop := {
  framed_meta : Instance_ObjectMeta i' = Instance_ObjectMeta i;
  framed_spec : Instance_Spec i' = Instance_Spec i;
  framed_others f : writes c f = false → same f (Instance_Status i') (Instance_Status i)
}.

(** ** A pass writes the status once at most *)

Definition written (c : Call) : option LangfuseInstance :=
  match c with CUpdateStatus i _ => Some i | _ => None end.
Definition status_writes (cs : list Call) : list LangfuseInstance := omap written cs.
Definition no_status (c : Call) : Prop := written c = None.

(** No status write, or a single one, of a status in [R]. *)
Definition writes_once (R : LangfuseInstance → Prop) (cs : list Call) : Prop :=
  status_writes cs = [] ∨ ∃ i', status_writes cs = [i'] ∧ R i'.

Lemma status_writes_app cs cs' : status_writes (cs ++ cs') = status_writes cs ++ status_writes cs'.
Proof. apply omap_app. Qed.

Lemma quiet_writes cs : Forall no_status cs → status_writes cs = [].
Proof. unfold status_writes. induction 1 as [|c cs Hc _ IH]; [done|]. cbn. by rewrite Hc. Qed.

Lemma elem_of_status_writes i e cs : CUpdateStatus i e ∈ cs → i ∈ status_writes cs.
Proof. intros Hin. apply list_elem_of_omap. by exists (CUpdateStatus i e). Qed.

Lemma writes_once_elem R cs i e : writes_once R cs → CUpdateStatus i e ∈ cs → R i.
Proof. intros [E|(j & E & HR)] Hin%elem_of_status_writes; rewrite E in Hin; set_solver. Qed.

(** A part that writes no status, with a postcondition. *)
Abbreviation quiet := (emits_ret no_status).

Section publishing.
Context {W : Type} `{KubeClient W}.

Definition publishing {A} (R : LangfuseInstance → Prop) (m : M (St W) A) : Prop :=
  traces (λ _ cs, writes_once R cs) m.

Lemma publishing_quiet {A} R Q (m : M (St W) A) : quiet Q m → publishing R m.
Proof.
  intros Hm%emits_traces. eapply traces_mono; [exact Hm|]. intros a cs [_ Hcs]. left. by apply quiet_writes.
Qed.

Lemma publishing_ret {A} R (a : A) : publishing R (mret a).
Proof. apply traces_mret. by left. Qed.

Lemma publishing_read {A B} R Q (m : M (St W) A) (f : A → M (St W) B) :
  quiet Q m → (∀ a, Q a → publishing R (f a)) → publishing R (m ≫= f).
Proof.
  intros Hm%emits_traces Hf. eapply traces_bind; [exact Hm|]. intros a cs [Ha Hcs].
  eapply traces_mono; [by apply Hf|]. intros b cs'. unfold writes_once.
  by rewrite status_writes_app, (quiet_writes cs).
Qed.

Lemma publishing_write {B} (R : LangfuseInstance → Prop) i original (f : option GoError → M (St W) B) :
  R i → (∀ e, quiet (λ _, True) (f e)) → publishing R (updateInstanceStatus i original ≫= f).
Proof.
  intros HR Hf. eapply traces_bind; [apply updateInstanceStatus_traces|]. intros e cs Hw.
  eapply traces_mono; [apply emits_traces, Hf|]. intros b cs' [_ Hcs]. unfold writes_once.
  rewrite status_writes_app, (quiet_writes cs'), app_nil_r by done.
  destruct Hw as [(_ & _ & ->)|(_ & e' & _ & ->)]; [by left|right]. by exists i.
Qed.

Lemma publishing_then {A B} R (m : M (St W) A) (f : A → M (St W) B) :
  publishing R m → (∀ a, quiet (λ _, True) (f a)) → publishing R (m ≫= f).
Proof.
  intros Hm Hf. eapply traces_bind; [exact Hm|]. intros a cs Ha.
  eapply traces_mono; [apply emits_traces, Hf|]. intros b cs' [_ Hcs]. unfold writes_once.
  by rewrite status_writes_app, (quiet_writes cs'), app_nil_r.
Qed.

Lemma publishing_mono {A} (R R' : LangfuseInstance → Prop) (m : M (St W) A) :
  (∀ i, R i → R' i) → publishing R m → publishing R' m.
Proof.
  intros HR Hm. eapply traces_mono; [exact Hm|]. intros a cs [E|(i & E & Hi)]; [by left|right]. eauto.
Qed.

Lemma quiet_mono {A} (P : Call → Prop) Q Q' (m : M (St W) A) :
  emits_ret P Q m → (∀ c, P c → no_status c) → (∀ a, Q a → Q' a) → quiet Q' m.
Proof. intros. by eapply emits_ret_mono. Qed.
End publishing.

(** Follows the text of a part that writes no status. *)
Ltac quiet_step :=
  match goal with
  | |- quiet _ (mret _) => apply emits_ret_mret
  | |- quiet _ (call _ _) => apply emits_ret_call; intros ?; split; [|reflexivity]
  | |- quiet (λ _, True) (silent _) => apply emits_ret_silent
  | |- quiet _ (match ?x with _ => _ end) => destruct x eqn:?
  | |- quiet (λ _, True) (_ ≫= _) => apply emits_ret_bind with (λ _, True); [|intros ? _]
  | |- quiet _ _ => apply emits_ret_call; intros ?; split; [|reflexivity]
  | |- quiet (λ _, True) _ => apply emits_ret_silent
  end.
Ltac quiet_steps := repeat first [quiet_step | done].

(** ** Frames *)

Section frames.
Context `{API : ConditionAPI} {AL : ConditionLaws API}.

#[export] Instance same_equiv f : Equivalence (same f).
Proof. split; destruct f; cbn; intros ?**; congruence. Qed.

#[export] Instance framed_preorder c : PreOrder (framed c).
Proof.
  split.
  - intros i. split; [done..|]. intros f _. reflexivity.
  - intros i j k [M1 S1 F1] [M2 S2 F2]. split; [congruence..|]. intros f Hf.
    etransitivity; [by apply F2|by apply F1].
Qed.

Lemma framed_status c i s' :
  (∀ f, writes c f = false → same f s' (Instance_Status i)) → framed c i (set_Instance_Status s' i).
Proof. by intros Hs. Qed.

(** A condition of its own. *)
Lemma framed_condition c i cd :
  cond_Type cd ∈ conditions_written c →
  framed c i (set_Instance_Status (set_Status_Conditions
    (SetStatusCondition (Status_Conditions (Instance_Status i)) cd) (Instance_Status i)) i).
Proof.
  intros Hc. apply framed_status. intros [] Hf; try reflexivity. cbn in *.
  apply bool_decide_eq_false in Hf. unfold find. apply find_set_ne. congruence.
Qed.

Lemma framed_uncondition c i t :
  t ∈ conditions_written c →
  framed c i (set_Instance_Status (set_Status_Conditions
    (RemoveStatusCondition (Status_Conditions (Instance_Status i)) t) (Instance_Status i)) i).
Proof.
  intros Hc. apply framed_status. intros [] Hf; try reflexivity. cbn in *.
  apply bool_decide_eq_false in Hf. unfold find. apply find_remove_ne. congruence.
Qed.
End frames.

(** A change to parts of the status: facet by facet. *)
Ltac frame_fields :=
  match goal with |- framed ?c ?i ?j => change (framed c i (set_Instance_Status (Instance_Status j) i)) end;
  apply framed_status; intros [] ?; try done; unfold same, web_of, worker_of, database_of, clickhouse_of,
    redis_of, blob_of, secrets_of, migration_of, breaker_of; cbn; try done;
  repeat match goal with |- context [default _ ?x] => destruct x; try done end.

(** ** Each controller keeps its facets consistent

    What holds of the facets of a controller whenever it has written them. *)

Definition status_says (b : bool) (cd : Condition) : Prop :=
  cond_Status cd = if b then ConditionTrue else ConditionFalse.

Section invariants.
Context `{API : ConditionAPI} {AL : ConditionLaws API}.

(** The condition [t] reports the flag, where there is one. *)
Definition mirrored (t : string) (flag : option bool) (s : LangfuseInstanceStatus) : Prop :=
  ∀ cd, find s t = Some cd → ∃ b, flag = Some b ∧ status_says b cd.

(** Readiness is the phase Running, and the Ready condition says the same unless it
    reports a refused configuration. *)
Definition instance_inv (s : LangfuseInstanceStatus) : Prop :=
  (Status_Ready s = true ↔ Status_Phase s = phaseRunning) ∧
  ∀ cd, find s conditionTypeReady = Some cd →
    (status_says (Status_Ready s) cd ∧ cond_Reason cd = Instance.phaseToReason (Status_Phase s)) ∨
    (cond_Status cd = ConditionFalse ∧ cond_Reason cd = "ConfigError").

(** Complete migrations have a target on record. *)
Definition migration_inv (s : LangfuseInstanceStatus) : Prop :=
  ∀ cd, find s conditionMigrationsComplete = Some cd → cond_Status cd = ConditionTrue →
        MigrationStatus_AppliedIdentity (migration_of s) ≠ "".

Definition secrets_inv (s : LangfuseInstanceStatus) : Prop :=
  SecretsStatus_AutoGenerated (secrets_of s) = true ↔ SecretsStatus_ManagedSecretName (secrets_of s) ≠ "".

(** The connection flags say what the conditions say. *)
Definition health_inv (s : LangfuseInstanceStatus) : Prop :=
  mirrored conditionDatabaseReady (DatabaseStatus_Connected (database_of s)) s ∧
  mirrored conditionClickHouseReady (ClickHouseStatus_Connected (clickhouse_of s)) s ∧
  mirrored conditionRedisReady (ConnectionStatus_Connected (redis_of s)) s ∧
  ∀ cd, find s conditionBlobStorageReady = Some cd → cond_Reason cd ≠ "NotConfigured" →
        ∃ b, BlobStorageStatus_Connected (blob_of s) = Some b ∧ status_says b cd.

Definition retention_inv (s : LangfuseInstanceStatus) : Prop :=
  ∀ cd, find s "RetentionConfigured" = Some cd →
    cond_Reason cd = "ApplyFailed" ∨ cond_Reason cd = "PoliciesApplied" →
    ∃ b, ClickHouseStatus_RetentionApplied (clickhouse_of s) = Some b ∧ status_says b cd.

Definition drift_inv (s : LangfuseInstanceStatus) : Prop :=
  ∀ cd, find s "SchemaDriftChecked" = Some cd →
    cond_Reason cd = "TablesMissing" ∨ cond_Reason cd = "NoDriftDetected" →
    ∃ b, ClickHouseStatus_SchemaDrift (clickhouse_of s) = Some b ∧ status_says (negb b) cd.

Definition breaker_inv (s : LangfuseInstanceStatus) : Prop :=
  ∀ cd, find s "CircuitBreakerHealthy" = Some cd → status_says (negb (breaker_of s).1) cd.

Definition consistent (c : Controller) (s : LangfuseInstanceStatus) : Prop :=
  match c with
  | LangfuseInstanceReconciler => instance_inv s
  | MigrationController => migration_inv s
  | SecretController => secrets_inv s
  | HealthMonitorReconciler => health_inv s
  | RetentionController => retention_inv s
  | SchemaDriftController => drift_inv s
  | CircuitBreakerController => breaker_inv s
  end.

(** The facets each invariant speaks of. *)
Definition footprint (c : Controller) : list Facet :=
  match c with
  | LangfuseInstanceReconciler => [FReady; FPhase; FCondition conditionTypeReady]
  | MigrationController => [FMigration; FCondition conditionMigrationsComplete]
  | SecretController => [FSecrets]
  | HealthMonitorReconciler =>
      [FDatabaseConnected; FClickHouseConnected; FRedis; FBlobStorage; FCondition conditionDatabaseReady;
       FCondition conditionClickHouseReady; FCondition conditionRedisReady; FCondition conditionBlobStorageReady]
  | RetentionController => [FRetentionApplied; FCondition "RetentionConfigured"]
  | SchemaDriftController => [FSchemaDrift; FCondition "SchemaDriftChecked"]
  | CircuitBreakerController => [FBreaker; FCondition "CircuitBreakerHealthy"]
  end.

Lemma consistent_same c a b : Forall (λ f, same f a b) (footprint c) → consistent c a → consistent c b.
Proof.
  intros Hf. destruct c; cbn in Hf; rewrite !Forall_cons in Hf; destruct_and?; cbn in *;
    unfold instance_inv, migration_inv, secrets_inv, health_inv, retention_inv, drift_inv, breaker_inv, mirrored;
    repeat match goal with E : _ = _ |- _ => rewrite <- E; clear E end; done.
Qed.

(** Nobody else writes them. *)
Lemma footprint_exclusive c c' f : f ∈ footprint c → c' ≠ c → writes c' f = false.
Proof.
  intros Hf Hc. rewrite <- not_true_iff_false. intros Hw.
  cut (forallb (λ f, negb (writes c' f)) (footprint c) = true).
  { rewrite forallb_forall. intros Hall. specialize (Hall f (proj1 (list_elem_of_In _ _) Hf)). by rewrite Hw in Hall. }
  clear f Hf Hw. destruct c, c'; done.
Qed.

(** What a controller guarantees about a status it makes of another. *)
Record guarantee (c : Controller) (i i' : LangfuseInstance) : Prop := {
  guarantee_frame : framed c i i';
  guarantee_own : consistent c (Instance_Status i) → consistent c (Instance_Status i')
}.

#[export] Instance guarantee_preorder c : PreOrder (guarantee c).
Proof.
  split.
  - intros i. by split.
  - intros i j k [F1 O1] [F2 O2]. split; [by etransitivity|auto].
Qed.
End invariants.

(** ** The passes, controller by controller *)

(** Setting a condition of its own, seen from the invariant. *)
Lemma find_after_set `{API : ConditionAPI} {AL : ConditionLaws API} cs cd t :
  FindStatusCondition (SetStatusCondition cs cd) t = if decide (t = cond_Type cd) then Some cd else FindStatusCondition cs t.
Proof. case_decide; [subst; apply find_set_eq|by apply find_set_ne]. Qed.

(** A condition under another type, or fields elsewhere, leave a consistent status consistent. *)
Lemma consistent_frame `{API : ConditionAPI} {AL : ConditionLaws API} c a b :
  (∀ f, f ∈ footprint c → same f a b) → consistent c a → consistent c b.
Proof. intros Hf. by apply consistent_same, Forall_forall. Qed.

Section ret_drift.
Context {W : Type} `{KubeClient W} `{API : ConditionAPI} {AL : ConditionLaws API}.
Context `{HTTP : HTTPTransport W} `{PEM : PEMParser}.

Lemma exec_quiet ch stmt : quiet (λ _, True) (exec ch stmt).
Proof. unfold exec. quiet_steps. Qed.

Lemma newClickHouseClient_quiet i : quiet (λ _, True) (newClickHouseClient i).
Proof. eapply quiet_mono; [apply newClickHouseClient_emits| |done]. by intros []. Qed.

Lemma queryRows_quiet ch stmt : quiet (λ _, True) (queryRows ch stmt).
Proof. unfold queryRows. quiet_steps. apply exec_quiet. Qed.

#[local] Hint Resolve exec_quiet newClickHouseClient_quiet queryRows_quiet : go.

(** *** Schema drift *)

Lemma findMissingTables_quiet i : quiet (λ _, True) (SchemaDrift.findMissingTables i).
Proof. unfold SchemaDrift.findMissingTables. quiet_steps; eauto with go. Qed.

Lemma drift_condition_guarantee s reason message i :
  reason ≠ "TablesMissing" → reason ≠ "NoDriftDetected" →
  guarantee SchemaDriftController i (Retention.set_condition "SchemaDriftChecked" s reason message i).
Proof.
  intros H1 H2. split; [apply framed_condition; cbn; set_solver|]. intros _ cd. unfold find. cbn.
  rewrite find_after_set, decide_True by done. intros [= <-]. cbn. naive_solver.
Qed.

Lemma drift_flag_guarantee (b : bool) s reason message i :
  s = (if b then ConditionFalse else ConditionTrue) →
  guarantee SchemaDriftController i
    (Retention.set_condition "SchemaDriftChecked" s reason message
       (Retention.set_clickhouse_status (set_ClickHouseStatus_SchemaDrift (Some b)) i)).
Proof.
  intros ->. split.
  - etransitivity; [|apply framed_condition; cbn; set_solver]. unfold Retention.set_clickhouse_status. frame_fields.
  - intros _ cd. unfold find. cbn. rewrite find_after_set, decide_True by done. intros [= <-] _.
    exists b. split; [done|]. by destruct b.
Qed.

Lemma clickhouse_touched_guarantee c i : guarantee c i (Retention.set_clickhouse_status id i).
Proof.
  split; [unfold Retention.set_clickhouse_status; frame_fields|].
  apply consistent_frame. intros [] _; try done; cbn; unfold clickhouse_of; cbn; by destruct (Status_ClickHouse _).
Qed.

Lemma recordDrift_guarantee drift found i :
  guarantee SchemaDriftController i (SchemaDrift.recordDrift drift found i).
Proof.
  unfold SchemaDrift.recordDrift. destruct found as [[|t l]|e].
  - by apply drift_flag_guarantee.
  - by apply drift_flag_guarantee.
  - by apply drift_condition_guarantee.
Qed.

Lemma disabled_publishes i :
  publishing (guarantee SchemaDriftController i)
    (SchemaDrift.finishDrift (Retention.set_condition "SchemaDriftChecked" ConditionFalse "Disabled"
       "Schema drift detection is disabled" i) i).
Proof.
  unfold SchemaDrift.finishDrift. apply publishing_write; [by apply drift_condition_guarantee|]. intros. quiet_steps.
Qed.

Lemma drift_publishes drift i :
  publishing (guarantee SchemaDriftController i)
    (if SchemaDrift_Enabled drift then i' ← SchemaDrift.checkDrift drift i; SchemaDrift.finishDrift i' i
     else SchemaDrift.finishDrift (Retention.set_condition "SchemaDriftChecked" ConditionFalse "Disabled"
                                     "Schema drift detection is disabled" i) i).
Proof.
  destruct (SchemaDrift_Enabled drift); [|apply disabled_publishes]. unfold SchemaDrift.finishDrift.
  apply publishing_read with (λ i', guarantee SchemaDriftController i i').
  - unfold SchemaDrift.checkDrift. cbv zeta. eapply emits_ret_bind; [apply findMissingTables_quiet|].
    intros found _. apply emits_ret_mret. etransitivity; [apply clickhouse_touched_guarantee|apply recordDrift_guarantee].
  - intros i' Hi'. apply publishing_write; [done|]. intros. quiet_steps.
Qed.

(** *** Retention *)

Lemma retention_condition_guarantee t s reason message i :
  t ∈ conditions_written RetentionController →
  (t = "RetentionConfigured" → reason ≠ "ApplyFailed" ∧ reason ≠ "PoliciesApplied") →
  guarantee RetentionController i (Retention.set_condition t s reason message i).
Proof.
  intros Ht Hr. split; [by apply framed_condition|]. intros Hi cd. unfold find. cbn.
  rewrite find_after_set. case_decide as E; cbn in E.
  - intros [= <-]. cbn. destruct (Hr (eq_sym E)). naive_solver.
  - apply Hi.
Qed.

Lemma recordRetention_guarantee stmts n err i :
  guarantee RetentionController i (Retention.recordRetention stmts n err i).
Proof.
  unfold Retention.recordRetention. cbv zeta.
  assert (∀ b s reason message, s = (if b : bool then ConditionTrue else ConditionFalse) →
    guarantee RetentionController i (Retention.set_condition "RetentionConfigured" s reason message
      (Retention.set_clickhouse_status (set_ClickHouseStatus_RetentionApplied (Some b)) i))) as Hg.
  { intros b s reason message ->. split.
    - etransitivity; [|apply framed_condition; cbn; set_solver]. unfold Retention.set_clickhouse_status. frame_fields.
    - intros _ cd. unfold find. cbn. rewrite find_after_set, decide_True by done. intros [= <-] _.
      by exists b. }
  destruct err; by apply Hg.
Qed.

Lemma applyRetention_quiet i stmts : quiet (λ _, True) (Retention.applyRetention i stmts).
Proof.
  unfold Retention.applyRetention. apply emits_ret_bind with (λ _, True); [eauto with go|].
  intros [ch|e] _; [|by apply emits_ret_mret]. generalize 0.
  induction stmts as [|stmt stmts IH]; intros n; cbn [Retention.applyStatements]; quiet_steps; eauto with go.
Qed.

Lemma applyPolicies_guarantee i retention :
  quiet (guarantee RetentionController i) (Retention.applyPolicies i retention).
Proof.
  unfold Retention.applyPolicies. destruct (Retention.buildRetentionStatements _ _) as [|stmt stmts].
  - apply emits_ret_mret. by apply retention_condition_guarantee; [cbn; set_solver|].
  - cbv zeta. eapply emits_ret_bind; [apply applyRetention_quiet|]. intros [n err] _. apply emits_ret_mret.
    etransitivity; [apply clickhouse_touched_guarantee|apply recordRetention_guarantee].
Qed.

Lemma applyUsage_guarantee usage pressure i :
  guarantee RetentionController i (Retention.applyUsage usage pressure i).
Proof.
  unfold Retention.applyUsage. cbv zeta.
  etransitivity; [|repeat case_match; (apply retention_condition_guarantee; [cbn; set_solver|done])].
  split; [unfold Retention.set_clickhouse_status; frame_fields|].
  apply consistent_same. repeat constructor; cbn; unfold clickhouse_of; cbn; by destruct (Status_ClickHouse _).
Qed.

Lemma evaluateStoragePressure_guarantee i pressure :
  quiet (guarantee RetentionController i) (Retention.evaluateStoragePressure i pressure).
Proof.
  unfold Retention.evaluateStoragePressure. eapply emits_ret_bind with (λ _, True).
  - unfold Retention.queryDiskUsage. quiet_steps; eauto with go.
  - intros [nodes|e] _; apply emits_ret_mret; [apply applyUsage_guarantee|].
    by apply retention_condition_guarantee; [cbn; set_solver|].
Qed.

Lemma retention_publishes retention i :
  publishing (guarantee RetentionController i)
    (i' ← Retention.applyPolicies i retention;
     i' ← match Retention_StoragePressure retention with
          | Some pressure => if StoragePressure_Enabled pressure
                             then Retention.evaluateStoragePressure i' pressure else mret i'
          | None => mret i'
          end;
     Retention.finishRetention i' i).
Proof.
  eapply publishing_read; [apply applyPolicies_guarantee|]. intros i1 H1.
  apply publishing_read with (guarantee RetentionController i1).
  - repeat case_match; try by apply emits_ret_mret. apply evaluateStoragePressure_guarantee.
  - intros i2 H2. unfold Retention.finishRetention. apply publishing_write; [by etransitivity|]. intros. quiet_steps.
Qed.

Lemma unconfigured_publishes i :
  publishing (guarantee RetentionController i)
    (Retention.finishRetention (Retention.set_condition "RetentionConfigured" ConditionFalse "NotConfigured"
       "No ClickHouse retention policy configured" i) i).
Proof.
  unfold Retention.finishRetention. apply publishing_write; [|intros; quiet_steps].
  by apply retention_condition_guarantee; [cbn; set_solver|].
Qed.
End ret_drift.

(** *** Secrets *)

Section secrets.
Context {W : Type} `{KubeClient W} `{API : ConditionAPI} {AL : ConditionLaws API} `{OWN : OwnerAPI}.
Context `{ORD : MapOrder} `{ENT : Secrets.Entropy W} `{HASH : Secrets.Hasher}.

Lemma generateSecureRandom_quiet n : quiet (λ _, True) (Secrets.generateSecureRandom n).
Proof. unfold Secrets.generateSecureRandom. quiet_steps. Qed.

Lemma generateAlphanumeric_quiet n : quiet (λ _, True) (Secrets.generateAlphanumeric n).
Proof. induction n; cbn [Secrets.generateAlphanumeric]; quiet_steps. Qed.

Lemma fillKeys_quiet data added : quiet (λ _, True) (Secrets.fillKeys Secrets.generatedSecretKeys data added).
Proof.
  assert (Forall (λ k : string * M (St W) (result string), quiet (λ _, True) k.2) Secrets.generatedSecretKeys) as Hk.
  { unfold Secrets.generatedSecretKeys. repeat apply Forall_cons_2; [..|apply Forall_nil_2]; cbn [snd]; first [apply generateSecureRandom_quiet|apply generateAlphanumeric_quiet|by quiet_steps]. }
  revert data added. induction Hk as [|[key gen] keys Hg _ IH]; intros data added; cbn [Secrets.fillKeys]; quiet_steps; auto.
Qed.

Lemma ensureGeneratedSecret_quiet i name : quiet (λ _, True) (Secrets.ensureGeneratedSecret i name).
Proof. unfold Secrets.ensureGeneratedSecret. quiet_steps; apply fillKeys_quiet. Qed.

Lemma detectRotation_quiet i : quiet (λ _, True) (Secrets.detectRotation i).
Proof.
  unfold Secrets.detectRotation. apply emits_ret_bind with (λ _, True).
  - unfold Secrets.computeSecretHashes. apply emits_ret_bind with (λ _, True); [|intros; quiet_steps].
    generalize "". generalize (Secrets.collectReferencedSecretNames i).
    induction l as [|name names IH]; intros acc; cbn [Secrets.hashInput]; quiet_steps; apply IH.
  - intros [[web worker]|e] _; [|by apply emits_ret_mret]. apply (emits_ret_mfold _ (λ _, True)); [done|].
    intros rotated name _ _. unfold Secrets.patchDeploymentSecretHash. quiet_steps.
Qed.

Lemma secrets_guarantee f i :
  (SecretsStatus_AutoGenerated (f (secrets_of (Instance_Status i))) = SecretsStatus_AutoGenerated (secrets_of (Instance_Status i)) ∧
   SecretsStatus_ManagedSecretName (f (secrets_of (Instance_Status i))) = SecretsStatus_ManagedSecretName (secrets_of (Instance_Status i))) ∨
  (SecretsStatus_AutoGenerated (f (secrets_of (Instance_Status i))) = true ∧
   SecretsStatus_ManagedSecretName (f (secrets_of (Instance_Status i))) ≠ "") →
  guarantee SecretController i (Secrets.set_secrets_status f i).
Proof.
  intros Hf. split; [unfold Secrets.set_secrets_status; frame_fields|]. cbn. unfold secrets_inv, secrets_of in *. cbn.
  destruct Hf as [[-> ->]|[-> ?]]; [done|]. by intros _.
Qed.

Lemma reconcileHashes_publishes i original :
  guarantee SecretController original i →
  publishing (guarantee SecretController original) (Secrets.reconcileHashes i original).
Proof.
  intros Hi. unfold Secrets.reconcileHashes. eapply publishing_read; [apply detectRotation_quiet|]. intros rotated _.
  apply publishing_read with (λ _, True); [destruct rotated; quiet_steps|]. intros now _. cbv zeta.
  apply publishing_write; [|intros; quiet_steps]. destruct now; [|exact Hi].
  etransitivity; [exact Hi|]. apply secrets_guarantee. by left.
Qed.

Lemma suffixed_nonempty s t : t ≠ "" → s +:+ t ≠ "".
Proof. by destruct s. Qed.

Lemma secrets_publishes i :
  publishing (guarantee SecretController i)
    (if Secrets.autoGenerateEnabled i then
       let secretName := om_Name (Instance_ObjectMeta i) +:+ Secrets.generatedSecretSuffix in
       e ← Secrets.ensureGeneratedSecret i secretName;
       match e with
       | Some e => mret (failed (wrapError "ensuring generated secret" e))
       | None =>
           Secrets.reconcileHashes (Secrets.set_secrets_status (λ s, set_SecretsStatus_ManagedSecretName secretName
                              (set_SecretsStatus_AutoGenerated true s)) i) i
       end
     else Secrets.reconcileHashes i i).
Proof.
  destruct (Secrets.autoGenerateEnabled i); [|by apply reconcileHashes_publishes].
  cbv zeta. eapply publishing_read; [apply ensureGeneratedSecret_quiet|]. intros [e|] _; [apply publishing_ret|].
  apply reconcileHashes_publishes, secrets_guarantee. right. split; [done|]. by apply suffixed_nonempty.
Qed.
End secrets.

(** *** The circuit breaker *)

Section breaker.
Context {W : Type} `{KubeClient W} `{API : ConditionAPI} {AL : ConditionLaws API}.
Context `{PROBES : DependencyProbes W} {PL : ProbeLaws PROBES}.

Lemma reads_secrets_quiet {A} (m : M (St W) A) : emits_ret reads_secrets (λ _, True) m → quiet (λ _, True) m.
Proof. intros Hm. eapply quiet_mono; [exact Hm| |done]. by intros []. Qed.

Lemma set_breaker_framed active reason i :
  framed CircuitBreakerController i (CircuitBreaker.set_breaker active reason i).
Proof. unfold CircuitBreaker.set_breaker. frame_fields. Qed.

Let acted (i : LangfuseInstance) (a : CircuitBreaker.Acted) : Prop := framed CircuitBreakerController i a.1.2.

Lemma openCircuitBreaker_framed mem i k comp spec :
  quiet (acted i) (CircuitBreaker.openCircuitBreaker mem i k comp spec).
Proof.
  unfold CircuitBreaker.openCircuitBreaker. case_match.
  - apply emits_ret_bind with (λ _, True); [quiet_steps|]. intros _ _. by apply emits_ret_mret.
  - cbv zeta. apply emits_ret_bind with (λ _, True); [quiet_steps|]. intros [d|e] _; [|by apply emits_ret_mret].
    case_match; [by apply emits_ret_mret|]. apply emits_ret_bind with (λ _, True); [quiet_steps|].
    intros [e|] _; [by apply emits_ret_mret|]. apply emits_ret_bind with (λ _, True); [quiet_steps|].
    intros _ _. apply emits_ret_mret. apply set_breaker_framed.
Qed.

Lemma recoverCircuitBreaker_framed mem i k comp spec :
  quiet (acted i) (CircuitBreaker.recoverCircuitBreaker mem i k comp spec).
Proof.
  unfold CircuitBreaker.recoverCircuitBreaker. case_match.
  - apply emits_ret_bind with (λ _, True); [quiet_steps|]. intros _ _. by apply emits_ret_mret.
  - cbv zeta. apply emits_ret_bind with (λ _, True); [quiet_steps|]. intros [d|e] _; [|by apply emits_ret_mret].
    apply emits_ret_bind with (λ _, True); [quiet_steps|]. intros [e|] _; [by apply emits_ret_mret|].
    apply emits_ret_bind with (λ _, True); [quiet_steps|]. intros _ _. apply emits_ret_mret. apply set_breaker_framed.
Qed.

Lemma applyVerdict_framed mem i k comp spec b :
  quiet (λ r, framed CircuitBreakerController i r.2) (CircuitBreaker.applyVerdict mem i k comp spec b).
Proof.
  unfold CircuitBreaker.applyVerdict. cbv zeta.
  destruct b; (case_match; [|by apply emits_ret_mret]);
    (eapply emits_ret_bind; [apply recoverCircuitBreaker_framed || apply openCircuitBreaker_framed|]);
    intros [[mem' i'] e] Hi; by apply emits_ret_mret.
Qed.

Lemma checkComponent_framed k (s : CircuitBreaker.LoopState) comp :
  (∀ i, quiet (λ _, True) (CircuitBreaker.check_probe comp i)) →
  quiet (λ s', framed CircuitBreakerController s.1.2 s'.1.2) (CircuitBreaker.checkComponent k s comp).
Proof.
  intros Hp. destruct s as [[mem i] shortest]. unfold CircuitBreaker.checkComponent.
  destruct (CircuitBreaker.check_spec comp) as [spec|]; [|by apply emits_ret_mret]. cbv zeta.
  eapply emits_ret_bind; [apply Hp|]. intros res _.
  apply emits_ret_bind with (λ _, True).
  { intros st. unfold wp, note. split; [done|]. eexists. split; [done|]. by repeat constructor. }
  intros _ _. eapply emits_ret_bind; [apply applyVerdict_framed|]. intros [mem' i'] Hi. by apply emits_ret_mret.
Qed.

Lemma breaker_publishes mem k i :
  publishing (guarantee CircuitBreakerController i) (CircuitBreaker.superviseInstance mem k i).
Proof.
  unfold CircuitBreaker.superviseInstance. destruct (CircuitBreaker.breakerEnabled i) as [cb|]; [|apply publishing_ret].
  apply publishing_read with (λ s : CircuitBreaker.LoopState, framed CircuitBreakerController i s.1.2).
  - apply (emits_ret_mfold _ (λ s : CircuitBreaker.LoopState, framed CircuitBreakerController i s.1.2)); [done|].
    intros s comp Hc Hs. eapply emits_ret_mono; [apply checkComponent_framed| |]; [|done|].
    + intros j. apply reads_secrets_quiet. unfold CircuitBreaker.components in Hc.
      repeat (apply elem_of_cons in Hc as [->|Hc]; [apply PL|]). by apply elem_of_nil in Hc.
    + intros s' Hs'. by etransitivity.
  - intros [[mem' i'] shortest] Hi. cbn in Hi. apply publishing_write; [|intros; quiet_steps].
    split; [etransitivity; [exact Hi|]; apply framed_condition; cbn; set_solver|].
    intros _ cd. unfold find. cbn. rewrite find_after_set, decide_True by done. intros [= <-].
    unfold status_says. cbn. unfold CircuitBreaker.isCircuitBreakerActive, circuitBreakerHoldsWorker, breaker_of, worker_of. cbn.
    by destruct (Status_Worker (Instance_Status i')).
Qed.
End breaker.

(** *** The health monitor *)

Section health.
Context {W : Type} `{KubeClient W} `{API : ConditionAPI} {AL : ConditionLaws API}.
Context `{PROBES : DependencyProbes W} {PL : ProbeLaws PROBES}.

(** One check, seen as what it makes of the instance. *)
Definition checks_guarantee (check : LangfuseInstance → M (St W) LangfuseInstance) : Prop :=
  ∀ i, quiet (guarantee HealthMonitorReconciler i) (check i).

Lemma applyCondition_quiet i c :
  quiet (λ i', i' = set_Instance_Status (set_Status_Conditions
           (SetStatusCondition (Status_Conditions (Instance_Status i)) c) (Instance_Status i)) i)
    (HealthMonitor.applyCondition i c).
Proof.
  unfold HealthMonitor.applyCondition. apply emits_ret_bind with (λ _, True).
  - destruct (find_condition _ _); [case_match|]; quiet_steps.
  - intros _ _. by apply emits_ret_mret.
Qed.

(** A step that gives a value to a mirror, and a condition that says the same. *)
Lemma checked_guarantee (check : LangfuseInstance → M (St W) (LangfuseInstance * Condition)) :
  (∀ i, quiet (λ p, ∀ cs, cs = SetStatusCondition (Status_Conditions (Instance_Status p.1)) p.2 →
           guarantee HealthMonitorReconciler i
             (set_Instance_Status (set_Status_Conditions cs (Instance_Status p.1)) p.1)) (check i)) →
  checks_guarantee (HealthMonitor.checkAndApply check).
Proof.
  intros Hc i. unfold HealthMonitor.checkAndApply. eapply emits_ret_bind; [apply Hc|]. intros [j c] Hj.
  eapply emits_ret_mono; [apply applyCondition_quiet|done|]. intros i' ->. by apply Hj.
Qed.

Lemma probed_quiet i comp (probe : LangfuseInstance → M (St W) probeResult) :
  emits_ret reads_secrets (λ _, True) (probe i) → quiet (λ _, True) (HealthMonitor.probed i comp probe).
Proof.
  intros Hp. unfold HealthMonitor.probed. eapply emits_ret_bind; [by apply reads_secrets_quiet|]. intros res _.
  apply emits_ret_bind with (λ _, True); [|intros; quiet_steps].
  intros st. unfold wp, note. split; [done|]. eexists. split; [done|]. by repeat constructor.
Qed.

(** The guarantee of a step, from its frame and the four mirrors after it. *)
Lemma health_step i j c :
  framed HealthMonitorReconciler i j → cond_Type c ∈ conditions_written HealthMonitorReconciler →
  (health_inv (Instance_Status i) → health_inv (set_Status_Conditions
     (SetStatusCondition (Status_Conditions (Instance_Status j)) c) (Instance_Status j))) →
  guarantee HealthMonitorReconciler i
    (set_Instance_Status (set_Status_Conditions
       (SetStatusCondition (Status_Conditions (Instance_Status j)) c) (Instance_Status j)) j).
Proof. intros Hf Hc Hi. split; [|exact Hi]. etransitivity; [exact Hf|]. by apply framed_condition. Qed.

(** Turns the invariant of the new status into cases on the condition looked at. *)
Ltac health_cases :=
  let D := fresh "D" in let C := fresh "C" in let R := fresh "R" in let B := fresh "B" in
  intros (D & C & R & B); unfold health_inv, mirrored, find in *; cbn in *; split_and!;
  intros cd; rewrite find_after_set; cbn; (case_decide; [intros [= <-]; cbn|]);
  try first [done | exact (D cd) | exact (C cd) | exact (R cd) | exact (B cd)].

Lemma status_says_probe t res g : status_says (Connected res) (HealthMonitor.conditionFromProbe t res g).
Proof. done. Qed.

Lemma checkDatabase_guarantee : checks_guarantee (HealthMonitor.checkAndApply HealthMonitor.checkDatabase).
Proof.
  apply checked_guarantee. intros i. unfold HealthMonitor.checkDatabase.
  eapply emits_ret_bind; [apply probed_quiet, PL|]. intros res _. apply emits_ret_mret. intros cs ->.
  apply health_step; [unfold HealthMonitor.set_database_connected; frame_fields|cbn; set_solver|].
  health_cases. exists (Connected res). eauto using status_says_probe.
Qed.

Lemma checkClickHouse_guarantee : checks_guarantee (HealthMonitor.checkAndApply HealthMonitor.checkClickHouse).
Proof.
  apply checked_guarantee. intros i. unfold HealthMonitor.checkClickHouse.
  eapply emits_ret_bind; [apply probed_quiet, PL|]. intros res _. apply emits_ret_mret. intros cs ->.
  apply health_step; [unfold HealthMonitor.set_clickhouse_connected; frame_fields|cbn; set_solver|].
  health_cases. exists (Connected res). eauto using status_says_probe.
Qed.

Lemma checkRedis_guarantee : checks_guarantee (HealthMonitor.checkAndApply HealthMonitor.checkRedis).
Proof.
  apply checked_guarantee. intros i. unfold HealthMonitor.checkRedis.
  eapply emits_ret_bind; [apply probed_quiet, PL|]. intros res _. apply emits_ret_mret. intros cs ->.
  apply health_step; [unfold HealthMonitor.set_redis_connected; frame_fields|cbn; set_solver|].
  health_cases. exists (Connected res). eauto using status_says_probe.
Qed.

Lemma checkBlobStorage_guarantee : checks_guarantee (HealthMonitor.checkAndApply HealthMonitor.checkBlobStorage).
Proof.
  apply checked_guarantee. intros i. unfold HealthMonitor.checkBlobStorage.
  destruct (Spec_BlobStorage (Instance_Spec i)) as [bs|].
  - eapply emits_ret_bind; [apply probed_quiet, PL|]. intros res _. apply emits_ret_mret. intros cs ->.
    apply health_step; [unfold HealthMonitor.set_blob_connected; frame_fields|cbn; set_solver|].
    health_cases. intros _. exists (Connected res). eauto using status_says_probe.
  - apply emits_ret_mret. intros cs ->. apply health_step; [reflexivity|cbn; set_solver|]. health_cases.
Qed.

Lemma checkComponent_quiet i component name t :
  quiet (λ p, cond_Type p.1 = t) (HealthMonitor.checkComponentDeployment i component name t).
Proof.
  unfold HealthMonitor.checkComponentDeployment. cbv zeta. apply emits_ret_bind with (λ _, True); [quiet_steps|].
  intros [d|e] _; [|apply emits_ret_mret; by case_match].
  case_match; [by apply emits_ret_mret|]. apply emits_ret_bind with (λ _, True); [unfold collectPodIssues; quiet_steps|].
  intros [issues|e] _; apply emits_ret_mret; [by destruct (summarizePodIssues _ _ _)|done].
Qed.

(** The conditions on the two workloads have no mirror. *)
Lemma deployment_step i j c :
  framed HealthMonitorReconciler i j →
  Status_Conditions (Instance_Status j) = Status_Conditions (Instance_Status i) →
  Status_Database (Instance_Status j) = Status_Database (Instance_Status i) →
  Status_ClickHouse (Instance_Status j) = Status_ClickHouse (Instance_Status i) →
  Status_Redis (Instance_Status j) = Status_Redis (Instance_Status i) →
  Status_BlobStorage (Instance_Status j) = Status_BlobStorage (Instance_Status i) →
  cond_Type c ∈ [conditionWebReady; conditionWorkerReady] →
  guarantee HealthMonitorReconciler i
    (set_Instance_Status (set_Status_Conditions
       (SetStatusCondition (Status_Conditions (Instance_Status j)) c) (Instance_Status j)) j).
Proof.
  intros Hf Hc Hd Hch Hr Hb Ht. apply health_step; [done|cbn; set_solver|].
  assert (∀ t, t ∈ dependencyConditions → t ≠ cond_Type c) as Hne.
  { intros t Hin ->. revert Hin Ht. unfold dependencyConditions. rewrite !elem_of_cons, !elem_of_nil.
    intros [E|[E|[E|[E|[]]]]]; rewrite E; naive_solver. }
  intros (D & C & R & B). unfold health_inv, mirrored, find, database_of, clickhouse_of, redis_of, blob_of in *. cbn.
  rewrite Hd, Hch, Hr, Hb, Hc. split_and!; intros cd; rewrite find_set_ne by (apply Hne; cbn; set_solver); auto.
Qed.

Lemma checkWeb_guarantee : checks_guarantee (HealthMonitor.checkAndApply HealthMonitor.checkWebDeployment).
Proof.
  apply checked_guarantee. intros i. unfold HealthMonitor.checkWebDeployment.
  eapply emits_ret_bind; [apply checkComponent_quiet|]. intros [c issues] Hc. cbn in Hc. apply emits_ret_mret.
  intros cs ->. apply deployment_step; [unfold HealthMonitor.set_web_issues; frame_fields|done..|].
  cbn. rewrite Hc. set_solver.
Qed.

Lemma checkWorker_guarantee : checks_guarantee (HealthMonitor.checkAndApply HealthMonitor.checkWorkerDeployment).
Proof.
  apply checked_guarantee. intros i. unfold HealthMonitor.checkWorkerDeployment.
  eapply emits_ret_bind; [apply checkComponent_quiet|]. intros [c issues] Hc. cbn in Hc. apply emits_ret_mret.
  intros cs ->. apply deployment_step; [unfold HealthMonitor.set_worker_issues; frame_fields|done..|].
  cbn. rewrite Hc. set_solver.
Qed.

Lemma inspect_guarantee : checks_guarantee HealthMonitor.inspect.
Proof.
  intros i. unfold HealthMonitor.inspect.
  repeat (match goal with
          | |- quiet (guarantee _ i) (HealthMonitor.checkAndApply _ i ≫= _) =>
              eapply emits_ret_bind with (guarantee HealthMonitorReconciler i)
          | |- quiet (guarantee _ i) (HealthMonitor.checkAndApply _ ?j ≫= _) =>
              eapply emits_ret_bind with (guarantee HealthMonitorReconciler i);
              [eapply emits_ret_mono with (R := guarantee HealthMonitorReconciler j);
                 [|done|intros ? ?; etransitivity; eassumption]|]
          end; [first [apply checkDatabase_guarantee|apply checkClickHouse_guarantee|apply checkRedis_guarantee
                      |apply checkBlobStorage_guarantee|apply checkWeb_guarantee]|intros ? ?]).
  eapply emits_ret_mono; [apply checkWorker_guarantee|done|]. intros ? ?. etransitivity; eassumption.
Qed.

Lemma health_publishes i :
  publishing (guarantee HealthMonitorReconciler i)
    (i' ← HealthMonitor.inspect i;
     e ← updateInstanceStatus i' i;
     mret match e with
          | Some e => statusWriteFailed e "updating health status"
          | None => done_after HealthMonitor.healthCheckInterval
          end).
Proof.
  eapply publishing_read; [apply inspect_guarantee|]. intros i' Hi'.
  apply publishing_write; [done|]. intros. quiet_steps.
Qed.
End health.

(** *** Migrations *)

Section migration.
Context {W : Type} `{KubeClient W} `{API : ConditionAPI} {AL : ConditionLaws API} `{OWN : OwnerAPI}.

Lemma applied_guarantee identity i :
  identity ≠ "" → guarantee MigrationController i (with_applied identity i).
Proof. intros Hn. split; [unfold with_applied; frame_fields|]. intros _ cd _ _. exact Hn. Qed.

Lemma outcome_framed status reason message i :
  framed MigrationController i (Migration.set_migrations_complete status reason message i).
Proof. apply framed_condition. cbn. set_solver. Qed.

Lemma incomplete_guarantee reason message i :
  guarantee MigrationController i (Migration.set_migrations_complete ConditionFalse reason message i).
Proof.
  split; [apply outcome_framed|]. intros Hi cd. unfold find. cbn.
  rewrite find_after_set, decide_True by done. by intros [= <-].
Qed.

Lemma progress_guarantee name failed issues i :
  guarantee MigrationController i (Migration.with_progress name failed issues i).
Proof. split; [unfold Migration.with_progress; frame_fields|]. by intros Hi. Qed.

Lemma migrated_guarantee i : guarantee MigrationController i (Migration.migrated i).
Proof.
  unfold Migration.migrated. cbv zeta. split; [|intros _ cd _ _; apply build_nonempty].
  etransitivity; [|apply applied_guarantee, build_nonempty].
  etransitivity; [apply outcome_framed|]. frame_fields.
Qed.

Lemma refuse_publishes i message :
  publishing (guarantee MigrationController i) (Migration.refuse i i message).
Proof. unfold Migration.refuse. cbv zeta. apply publishing_write; [apply incomplete_guarantee|]. intros. quiet_steps. Qed.

Lemma reportProgress_publishes i job :
  publishing (guarantee MigrationController i) (Migration.reportProgress i i job).
Proof.
  unfold Migration.reportProgress. cbv zeta. apply publishing_read with (λ _, True).
  { unfold Migration.migrationPodIssues, collectPodIssues. quiet_steps. }
  intros issues _. destruct (Migration.jobExhausted job).
  - destruct (summarizePodIssues _ _ _) as [? message]. apply publishing_write; [|intros; quiet_steps].
    etransitivity; [apply progress_guarantee|apply incomplete_guarantee].
  - apply publishing_write; [|intros; quiet_steps]. etransitivity; [apply progress_guarantee|].
    destruct issues; [reflexivity|]. destruct (summarizePodIssues _ _ _). apply incomplete_guarantee.
Qed.

Lemma startMigration_publishes i config :
  publishing (guarantee MigrationController i) (Migration.startMigration i i config).
Proof.
  unfold Migration.startMigration. cbv zeta. destruct (SetControllerReference _ _); [|apply publishing_ret].
  apply publishing_write; [apply incomplete_guarantee|]. intros. quiet_steps.
Qed.

Lemma reconcileJob_publishes i config :
  publishing (guarantee MigrationController i) (Migration.reconcileJob i i config).
Proof.
  unfold Migration.reconcileJob. apply publishing_read with (λ _, True); [quiet_steps|]. intros [job|e] _.
  - cbv zeta. case_match.
    { apply publishing_quiet with (λ _, True). unfold Migration.replaceStaleJob. quiet_steps. }
    case_match; [|apply reportProgress_publishes]. unfold Migration.recordSuccess.
    apply publishing_write; [apply migrated_guarantee|]. intros. quiet_steps.
  - case_match; [apply startMigration_publishes|apply publishing_ret].
Qed.

Lemma legacy_nonempty i baseline :
  legacyBaselineIdentity i (migrationIdentity i) = Some baseline → baseline ≠ "".
Proof.
  unfold legacyBaselineIdentity. cbv zeta. repeat (case_match; [done|]). intros [= <-]. apply build_nonempty.
Qed.

Lemma migration_publishes i : publishing (guarantee MigrationController i) (Migration.reconcileInstance i).
Proof.
  unfold Migration.reconcileInstance. cbv zeta.
  destruct (legacyBaselineIdentity _ _) as [baseline|] eqn:El.
  { apply publishing_write; [by eapply applied_guarantee, legacy_nonempty|]. intros. quiet_steps. }
  case_match; [apply publishing_ret|]. case_match.
  { apply publishing_quiet with (λ _, True). unfold Migration.cleanupCompletedJobs. quiet_steps. }
  case_match; [|apply refuse_publishes]. case_match; [|apply refuse_publishes].
  destruct (BuildConfig i); [apply reconcileJob_publishes|apply publishing_ret].
Qed.
End migration.

(** *** The instance controller *)

Section instance.
Context {W : Type} `{KubeClient W} `{ApplyClient W} `{API : ConditionAPI} {AL : ConditionLaws API} `{OWN : OwnerAPI}.
Context `{SCH : Instance.Scheme} `{QUANT : QuantityParser}.

Lemma own_condition_framed t s reason message i :
  t ∈ conditions_written LangfuseInstanceReconciler →
  framed LangfuseInstanceReconciler i (Instance.set_condition t s reason message i).
Proof. intros Ht. by apply framed_condition. Qed.

Lemma own_uncondition_framed t i :
  t ∈ conditions_written LangfuseInstanceReconciler →
  framed LangfuseInstanceReconciler i (Instance.remove_condition t i).
Proof. intros Ht. by apply framed_uncondition. Qed.

#[local] Hint Extern 1 (_ ∈ conditions_written _) => (cbn; set_solver) : go.
#[local] Hint Resolve own_condition_framed own_uncondition_framed : go.

Lemma initial_framed i : framed LangfuseInstanceReconciler i (Instance.withInitialPhase i).
Proof. unfold Instance.withInitialPhase. destruct (nonempty_str _); [reflexivity|frame_fields]. Qed.

Lemma prepared_framed i : framed LangfuseInstanceReconciler i (Instance.prepared i).
Proof.
  unfold Instance.prepared, Instance.setDeprecationCondition. etransitivity; [apply initial_framed|].
  etransitivity; [apply (own_uncondition_framed conditionTypeDatastoreTarget); cbn; set_solver|].
  destruct (Instance.deprecatedFields _); eauto with go.
Qed.

Lemma observed_web_framed i i' cs : Instance.observed_web i i' cs → framed LangfuseInstanceReconciler i i'.
Proof. destruct 1; [reflexivity|unfold Instance.webStatus; frame_fields..]. Qed.

Lemma observed_worker_framed i i' cs : Instance.observed_worker i i' cs → framed LangfuseInstanceReconciler i i'.
Proof. destruct 1; [reflexivity|unfold Instance.workerStatus; cbv zeta; frame_fields..]. Qed.

Lemma derived_framed i b : framed LangfuseInstanceReconciler i (Instance.derivedStatus i b).
Proof.
  unfold Instance.derivedStatus. destruct (derivePhase i). cbv zeta.
  etransitivity; [|apply own_condition_framed; cbn; set_solver]. destruct b; frame_fields.
Qed.

(** What [derivePhase] gives is consistent, whatever it was derived from. *)
Lemma derived_consistent i b : instance_inv (Instance_Status (Instance.derivedStatus i b)).
Proof.
  destruct (Instance.derivedStatus_spec i b) as (Hd & _ & Hc & _). split.
  - apply derivePhase_refines in Hd. destruct Hd; done.
  - intros cd Hcd. unfold find_condition in Hc. unfold find in Hcd. rewrite Hc in Hcd. injection Hcd as <-. left.
    by destruct (Status_Ready _).
Qed.

Lemma status_calls_guarantee i j b r cs :
  framed LangfuseInstanceReconciler i j → Instance.status_calls j i b r cs →
  writes_once (guarantee LangfuseInstanceReconciler i) cs.
Proof.
  intros Hj [e cs' Hl|i1 i2 cs1 cs2 r' ws H1 H2 Hw].
  - left. apply quiet_writes. eapply Forall_impl; [exact Hl|]. by intros [].
  - assert (∀ l, Forall Instance.is_look l → status_writes l = []) as Hq.
    { intros l Hl. apply quiet_writes. eapply Forall_impl; [exact Hl|]. by intros []. }
    unfold writes_once. rewrite !status_writes_app.
    rewrite (Hq cs1), (Hq cs2) by (eapply Instance.observed_look; eassumption). cbn [app].
    destruct Hw as [(_ & _ & ->)|(_ & e & _ & ->)]; [by left|right]. eexists. split; [done|].
    split; [|intros _; apply derived_consistent].
    etransitivity; [exact Hj|]. etransitivity; [by eapply observed_web_framed|].
    etransitivity; [by eapply observed_worker_framed|]. apply derived_framed.
Qed.

Lemma config_error_guarantee e i :
  guarantee LangfuseInstanceReconciler i
    (Instance.configError e (Instance.remove_condition conditionTypeDatastoreTarget (Instance.withInitialPhase i))).
Proof.
  split.
  - etransitivity; [apply initial_framed|]. etransitivity; [apply (own_uncondition_framed conditionTypeDatastoreTarget); cbn; set_solver|].
    apply own_condition_framed. cbn. set_solver.
  - intros [Hr _]. split.
    + unfold Instance.configError, Instance.set_condition, Instance.remove_condition, Instance.withInitialPhase. cbn.
      destruct (nonempty_str _) eqn:E; [exact Hr|]. cbn. split; [|done].
      intros Ht. apply Hr in Ht. by rewrite Ht in E.
    + intros cd. unfold find. cbn. rewrite find_after_set, decide_True by done. intros [= <-]. by right.
Qed.

Lemma applied_quiet i l ok cs : Instance.applied i l ok cs → status_writes cs = [].
Proof.
  intros Ha. apply quiet_writes, Forall_forall. intros c Hc.
  destruct (Instance.applied_calls _ _ _ _ _ Ha Hc) as [(? & ? & ? & _ & _ & ->)|(? & _ & ->)]; done.
Qed.

Lemma instance_publishes i : publishing (guarantee LangfuseInstanceReconciler i) (Instance.reconcileInstance i).
Proof.
  eapply traces_mono; [apply Instance.live_pass_traces|].
  intros out cs [r cs' Hm Hs|e r cs' Hm Hc Hw|config e cs' Hm Hc Ha|config r cs1 cs2 Hm Hc Ha Hs].
  - eapply status_calls_guarantee; [|exact Hs]. etransitivity; [apply initial_framed|].
    apply own_condition_framed. cbn. set_solver.
  - destruct Hw as [(_ & _ & ->)|(_ & e' & _ & ->)]; [by left|right]. eexists. split; [done|]. apply config_error_guarantee.
  - left. by eapply applied_quiet.
  - unfold writes_once. rewrite status_writes_app, (applied_quiet _ _ _ _ Ha). cbn [app].
    eapply status_calls_guarantee; [|exact Hs]. apply prepared_framed.
Qed.
End instance.

(** ** Any pass of any controller *)

Section passes.
Context {W : Type} `{KubeClient W} `{ApplyClient W} `{API : ConditionAPI} {AL : ConditionLaws API} `{OWN : OwnerAPI}.
Context `{SCH : Instance.Scheme} `{QUANT : QuantityParser} `{PROBES : DependencyProbes W} {PL : ProbeLaws PROBES}.
Context `{ORD : MapOrder} `{ENT : Secrets.Entropy W} `{HASH : Secrets.Hasher}.
Context `{HTTP : HTTPTransport W} `{PEM : PEMParser}.

(** It reads the instance first, and writes at most one status made of what it read. *)
Definition guarded_pass (c : Controller) (req : NamespacedName) (cs : list Call) : Prop :=
  ∃ g rest, cs = CGetInstance req g :: rest ∧
    match g with Ok i => writes_once (guarantee c i) rest | Err _ => status_writes rest = [] end.

Lemma guarded_read {A} c req (f : LangfuseInstance → M (St W) A) (g : GoError → M (St W) A) :
  (∀ i, publishing (guarantee c i) (f i)) → (∀ e, quiet (λ _, True) (g e)) →
  traces (λ _ cs, guarded_pass c req cs)
    (r ← Get_Instance req; match r with Ok i => f i | Err e => g e end).
Proof.
  intros Hf Hg. apply traces_call_bind. intros [i|e].
  - eapply traces_mono; [apply Hf|]. intros a cs Hcs. by exists (Ok i), cs.
  - eapply traces_mono; [apply emits_traces, Hg|]. intros a cs [_ Hcs].
    exists (Err e), cs. split; [done|]. by apply quiet_writes.
Qed.

Lemma guarded_keeping {A B} c req (m : M (St W) A) (h : A → B) :
  traces (λ _ cs, guarded_pass c req cs) m → traces (λ _ cs, guarded_pass c req cs) (m ≫= λ a, mret (h a)).
Proof. intros Hm. eapply traces_bind; [exact Hm|]. intros a cs Hcs. apply traces_mret. by rewrite app_nil_r. Qed.

Lemma pass_guarded c mem req : traces (λ _ cs, guarded_pass c req cs) (reconcile c mem req).
Proof.
  destruct c; cbn [reconcile]; try apply guarded_keeping.
  - apply guarded_read; [|intros; quiet_steps]. intros i. case_match; [apply publishing_ret|apply instance_publishes].
  - apply guarded_read; [|intros; quiet_steps]. intros i. case_match; [apply publishing_ret|apply migration_publishes].
  - apply guarded_read; [|intros; quiet_steps]. intros i. case_match; [apply publishing_ret|apply secrets_publishes].
  - apply guarded_read; [|intros; quiet_steps]. intros i. case_match; [apply publishing_ret|].
    case_match; [apply publishing_ret|apply health_publishes].
  - apply guarded_read; [|intros; quiet_steps]. intros i. case_match; [apply publishing_ret|].
    case_match; [apply retention_publishes|apply unconfigured_publishes].
  - apply guarded_read; [|intros; quiet_steps]. intros i. case_match; [apply publishing_ret|].
    cbv zeta. destruct (_ ≫= ClickHouse_SchemaDrift) as [drift|] eqn:E; [apply drift_publishes|apply disabled_publishes].
  - apply guarded_read; [|intros; quiet_steps]. intros i. case_match; [apply publishing_ret|apply breaker_publishes].
Qed.

(** C6: the seven controllers divide the status among them.  Whatever the API server
    answers, a pass of any of them writes one status at most; it is made of the
    instance the pass read, keeps metadata and spec, changes no facet but the
    controller's own (the fields and condition types [writes] lists), and keeps those
    consistent with one another. *)
Theorem status_facets_owned c mem req w out w' tr i' e :
  run (reconcile c mem req) w = (out, w', tr) → CUpdateStatus i' e ∈ tr →
  ∃ i, head tr = Some (CGetInstance req (Ok i)) ∧ status_writes tr = [i'] ∧
    Instance_ObjectMeta i' = Instance_ObjectMeta i ∧ Instance_Spec i' = Instance_Spec i ∧
    (∀ f, writes c f = false → same f (Instance_Status i') (Instance_Status i)) ∧
    (consistent c (Instance_Status i) → consistent c (Instance_Status i')).
Proof.
  intros Hrun Hin. destruct (traces_run _ _ _ _ _ _ (pass_guarded c mem req) Hrun) as (g & rest & -> & Hg).
  apply elem_of_cons in Hin as [|Hin]; [done|]. pose proof (elem_of_status_writes _ _ _ Hin) as Hw.
  destruct g as [i|e']; [|rewrite Hg in Hw; by apply elem_of_nil in Hw].
  destruct Hg as [E|(j & E & [[Hm Hs Hf] Ho])]; [rewrite E in Hw; by apply elem_of_nil in Hw|].
  rewrite E in Hw. apply list_elem_of_singleton in Hw as ->. by exists i.
Qed.
End passes.

(** ** The facets with two writers

    Pod issues are written by the instance controller and the health monitor.  The two
    do not fight over them: of the same Deployment and pods they report the same. *)

Section shared.
Context {W : Type} `{KubeClient W} `{API : ConditionAPI}.

Lemma issue_writers_agree i component name t d w w1 cs cs1 :
  kc_get_deployment (in_ns i name) w = (Ok d, w1) →
  (HealthMonitor.checkComponentDeployment i component name t (mkSt w cs)).1.2 =
  (Instance.podIssuesFor i component d (mkSt w1 cs1)).1.
Proof.
  intros Hd. unfold HealthMonitor.checkComponentDeployment, Instance.podIssuesFor, collectPodIssues,
    HealthMonitor.deploymentReady, Get_Deployment, List_Pods, call, mbind, M_bind. cbn [st_world st_trace].
  rewrite Hd. destruct (_ && _); [done|]. cbn [st_world st_trace].
  destruct (kc_list_pods _ _ w1) as [[pods|e] w2]; [|done]. cbn. by destruct (summarizePodIssues _ _ _).
Qed.
End shared.

(** ** Witness *)

(** A pass over an instance in a cluster that holds it, with every dependency up. *)
Definition ex_pass_of (c : Controller) (i : LangfuseInstance)
    : (Outcome * CircuitBreaker.Memory) * FakeCluster * list Call :=
  run (reconcile (API := list_conditions) (OWN := list_owner) (SCH := Instance.full_scheme)
         (QUANT := simple_quantities) (PROBES := fixed_probes true true true) (ORD := list_order)
         (ENT := Secrets.zero_entropy) (HASH := Secrets.id_hash) (HTTP := Retention.accepting)
         (PEM := Retention.any_pem) c CircuitBreaker.empty_memory ex_key) (ex_cluster i None).

(** What it wrote. *)
Definition ex_written (c : Controller) (i : LangfuseInstance) : LangfuseInstance :=
  default i (head (status_writes (ex_pass_of c i).2)).

Lemma ex_written_call c i :
  status_writes (ex_pass_of c i).2 ≠ [] → ∃ e, CUpdateStatus (ex_written c i) e ∈ (ex_pass_of c i).2.
Proof.
  unfold ex_written. intros Hne. assert (default i (head (status_writes (ex_pass_of c i).2)) ∈ status_writes (ex_pass_of c i).2) as Hin
    by (destruct (status_writes _); [done|by left]).
  apply list_elem_of_omap in Hin as ([] & Hc & Hw); try done. injection Hw as <-. eauto.
Qed.

(** The instance it read. *)
Lemma ex_health_read :
  head (ex_pass_of HealthMonitorReconciler (ex_instance "3.1" "pg" "db")).2 =
    Some (CGetInstance ex_key (Ok (ex_instance "3.1" "pg" "db"))).
Proof. by vm_compute. Qed.

Lemma status_facets_owned_witness :
  let i' := ex_written HealthMonitorReconciler (ex_instance "3.1" "pg" "db") in
  Status_Phase (Instance_Status i') = "" ∧ DatabaseStatus_Connected (database_of (Instance_Status i')) = Some true.
Proof.
  cbv zeta. split; [|by vm_compute].
  destruct (status_facets_owned (AL := list_conditions_laws) (PL := fixed_probes_laws true true true)
    HealthMonitorReconciler _ _ _ _ _ _ (ex_written HealthMonitorReconciler (ex_instance "3.1" "pg" "db")) None
    (triple_eta (ex_pass_of HealthMonitorReconciler (ex_instance "3.1" "pg" "db")))) as (i & Hi & _ & _ & _ & Hf & _).
  { apply (list_elem_of_lookup_2 _ 6). by vm_compute. }
  specialize (Hf FPhase eq_refl). cbn [same] in Hf. rewrite Hf. clear Hf.
  rewrite ex_health_read in Hi. by injection Hi as <-.
Defined.
