(* ===== verification/History.v ===== *)
(** * Histories of a shared status

    The seven controllers run concurrently, each on its own, possibly stale, read;
    the API server accepts a status write only on the version that was read.  A
    [System] is one [LangfuseInstance] with all its versions and the reads in flight;
    the theorems hold of every history the controllers, the users and the server can
    make together. *)

From stdpp Require Import relations.
From S2P Require Import Instance Migration HealthMonitor CircuitBreaker Secrets Retention SchemaDrift.
From S2P Require Import Prelude GoStd GoNet KubeTypes ApiTypes Kube Interfaces Examples Status Stores.
From S2P Require Import PodIssues Phase ClickHouse Sharing.

Open Scope string_scope.
Open Scope list_scope.

(** Who made a version: an edit of spec or metadata, by a user or the server, or
    the status write of a controller. *)
Inductive Author := Edit | Writer (c : Controller).

Record System := mkSystem {
  versions : list (Author * LangfuseInstance);      (* the oldest first *)
  reads : Controller → option (nat * LangfuseInstance)   (* version and copy of a pass under way *)
}.

Definition with_read (c : Controller) (r : option (nat * LangfuseInstance))
    (reads : Controller → option (nat * LangfuseInstance)) : Controller → option (nat * LangfuseInstance) :=
  λ c', if decide (c' = c) then r else reads c'.

(** The status subresource: a write keeps the rest of the object. *)
Definition stored (current written : LangfuseInstance) : LangfuseInstance :=
  set_Instance_Status (Instance_Status written) current.

Section histories.
Context {W : Type} `{KubeClient W} `{ApplyClient W} `{API : ConditionAPI} {AL : ConditionLaws API} `{OWN : OwnerAPI}.
Context `{SCH : Instance.Scheme} `{QUANT : QuantityParser} `{PROBES : DependencyProbes W} {PL : ProbeLaws PROBES}.
Context `{ORD : MapOrder} `{ENT : Secrets.Entropy W} `{HASH : Secrets.Hasher}.
Context `{HTTP : HTTPTransport W} `{PEM : PEMParser}.

(** Some pass of the controller's code that reads [i] asks for the status of [i']. *)
Definition publishes (c : Controller) (i i' : LangfuseInstance) : Prop :=
  ∃ mem req w out w' tr e,
    run (reconcile c mem req) w = (out, w', tr) ∧
    head tr = Some (CGetInstance req (Ok i)) ∧ CUpdateStatus i' e ∈ tr.

Inductive step : System → System → Prop :=
  | step_edit vs rs a i j :
      last vs = Some (a, i) → Instance_Status j = Instance_Status i →
      step (mkSystem vs rs) (mkSystem (vs ++ [(Edit, j)]) rs)
  | step_read vs rs c v a i :                       (* from a cache: any version so far *)
      vs !! v = Some (a, i) →
      step (mkSystem vs rs) (mkSystem vs (with_read c (Some (v, i)) rs))
  | step_write vs rs c v i i' a current :           (* the version read is the current one *)
      rs c = Some (v, i) → publishes c i i' → S v = length vs → last vs = Some (a, current) →
      step (mkSystem vs rs) (mkSystem (vs ++ [(Writer c, stored current i')]) (with_read c None rs))
  | step_refused vs rs c :                          (* a conflict, another error, or no write *)
      step (mkSystem vs rs) (mkSystem vs (with_read c None rs)).

(** A new instance, not yet reconciled. *)
Definition started (s : System) : Prop :=
  ∃ i, versions s = [(Edit, i)] ∧ Instance_Status i = zero_LangfuseInstanceStatus ∧ ∀ c, reads s c = None.

Definition reachable (s : System) : Prop := ∃ s0, started s0 ∧ rtc step s0 s.

(** ** The invariant *)

(** How a version relates to the one before. *)
Definition follows (x : LangfuseInstance) (e : Author * LangfuseInstance) : Prop :=
  match e with
  | (Edit, y) => Instance_Status y = Instance_Status x
  | (Writer c, y) => publishes c x y ∧ guarantee c x y
  end.

Record wf (s : System) : Prop := {
  wf_reads c v i : reads s c = Some (v, i) → ∃ a, versions s !! v = Some (a, i);
  wf_chain n x e : snd <$> versions s !! n = Some x → versions s !! S n = Some e → follows x e;
  wf_first e : versions s !! 0%nat = Some e → Instance_Status e.2 = zero_LangfuseInstanceStatus
}.

Lemma publishes_guarantee c i i' : publishes c i i' → guarantee c i i'.
Proof.
  intros (mem & req & w & out & w' & tr & e & Hrun & Hhead & Hin).
  destruct (traces_run _ _ _ _ _ _ (pass_guarded c mem req) Hrun) as (g & rest & -> & Hg).
  injection Hhead as ->. apply elem_of_cons in Hin as [|Hin]; [done|]. by eapply writes_once_elem.
Qed.

Lemma stored_published c i i' : guarantee c i i' → stored i i' = i'.
Proof. intros [[Hm Hs _] _]. unfold stored. destruct i, i'; cbn in *. by subst. Qed.

(** A new version at the end of a chain. *)
Lemma chain_snoc (vs : list (Author * LangfuseInstance)) e a x :
  last vs = Some (a, x) → follows x e →
  (∀ n y f, snd <$> vs !! n = Some y → vs !! S n = Some f → follows y f) →
  ∀ n y f, snd <$> (vs ++ [e]) !! n = Some y → (vs ++ [e]) !! S n = Some f → follows y f.
Proof.
  intros Hl He Hc n y f Hn Hf. rewrite last_lookup in Hl. destruct (decide (S n < length vs)%nat) as [Hlt|Hge].
  - rewrite lookup_app_l in Hf by done. rewrite lookup_app_l in Hn by lia. eauto.
  - pose proof (lookup_lt_Some _ _ _ Hf) as Hlen. rewrite length_app in Hlen. cbn in Hlen.
    rewrite lookup_app_r in Hf by lia. replace (S n - length vs)%nat with 0%nat in Hf by lia. injection Hf as <-.
    rewrite lookup_app_l in Hn by lia. replace (pred (length vs)) with n in Hl by lia.
    rewrite Hl in Hn. by injection Hn as <-.
Qed.

Lemma lookup_snoc_some {A} (l : list A) e n x : l !! n = Some x → (l ++ [e]) !! n = Some x.
Proof. intros Hn. rewrite lookup_app_l; [done|by eapply lookup_lt_Some]. Qed.

Lemma with_read_some c c' r rs p : with_read c r rs c' = Some p → (c' = c ∧ r = Some p) ∨ rs c' = Some p.
Proof. unfold with_read. case_decide; auto. Qed.

Lemma snoc_first (vs : list (Author * LangfuseInstance)) a x e f :
  last vs = Some (a, x) → (vs ++ [e]) !! 0%nat = Some f → vs !! 0%nat = Some f.
Proof. destruct vs; [done|]. by cbn. Qed.

Lemma step_wf s s' : step s s' → wf s → wf s'.
Proof.
  intros Hst [Hr Hc Hfst]. destruct Hst as [vs rs a i j Hl Hj|vs rs c v a i Hv|vs rs c v i i' a current Hrc Hp Hv Hl|vs rs c];
    cbn [versions reads] in *.
  - split; cbn [versions reads].
    + intros c v k Hk. destruct (Hr c v k Hk) as [b Hb]. exists b. by apply lookup_snoc_some.
    + by eapply chain_snoc.
    + intros e He. eapply Hfst, snoc_first; eassumption.
  - split; cbn [versions reads]; [|done..]. intros c' v' k [[_ [= <- <-]]|Hk]%with_read_some; eauto.
  - assert (current = i) as ->.
    { destruct (Hr _ _ _ Hrc) as [b Hb]. rewrite last_lookup in Hl. rewrite <- Hv in Hl. cbn in Hl. congruence. }
    pose proof (publishes_guarantee _ _ _ Hp) as Hg. rewrite (stored_published _ _ _ Hg).
    split; cbn [versions reads].
    + intros c' v' k [[_ ?]|Hk]%with_read_some; [done|]. destruct (Hr _ _ _ Hk) as [b Hb]. exists b. by apply lookup_snoc_some.
    + by eapply chain_snoc.
    + intros e He. eapply Hfst, snoc_first; eassumption.
  - split; cbn [versions reads]; [|done..]. intros c' v' k [[_ ?]|Hk]%with_read_some; [done|eauto].
Qed.

Lemma started_wf s : started s → wf s.
Proof.
  intros (i & Hv & Hs & Hr). split.
  - intros c v j. by rewrite Hr.
  - intros n x e. rewrite Hv. by destruct n.
  - intros e. rewrite Hv. by intros [= <-].
Qed.

Lemma reachable_wf s : reachable s → wf s.
Proof.
  intros (s0 & Hstart & Hs). apply started_wf in Hstart. induction Hs; eauto using step_wf.
Qed.

(** ** What holds of every history *)

(** A facet changes in a version of one of its writers only. *)
Lemma facet_step x a y f :
  follows x (a, y) → (∀ c, a = Writer c → writes c f = false) → same f (Instance_Status y) (Instance_Status x).
Proof.
  destruct a as [|c]; cbn [follows].
  - intros -> _. reflexivity.
  - intros [_ [[_ _ Hf] _]] Hw. by apply Hf, Hw.
Qed.

(** C5: no controller loses another's report.  In every history, however the passes
    interleave and however stale their reads: a status that is accepted was made by its
    controller from the very version it replaces; and a facet of the status has the
    value it had at any earlier version as long as no controller that writes the facet
    has written in between, whatever the other controllers and the users did. *)
Theorem no_report_lost s :
  reachable s →
  (∀ n a x c y, versions s !! n = Some (a, x) → versions s !! S n = Some (Writer c, y) → publishes c x y) ∧
  (∀ f n d a b x y,
    versions s !! n = Some (a, x) → versions s !! (n + d)%nat = Some (b, y) →
    (∀ k c z, (n < k ≤ n + d)%nat → versions s !! k = Some (Writer c, z) → writes c f = false) →
    same f (Instance_Status y) (Instance_Status x)).
Proof.
  intros [_ Hc _]%reachable_wf. split.
  - intros n a x c y Hx Hy. eapply (Hc n x (Writer c, y)); [by rewrite Hx|exact Hy].
  - intros f n d. induction d as [|d IH]; intros a b x y Hx Hy Hno.
    + rewrite Nat.add_0_r, Hx in Hy. injection Hy as <- <-. reflexivity.
    + destruct (versions s !! (n + d)%nat) as [[b' y']|] eqn:Ey.
      2: { apply lookup_lt_Some in Hy. apply lookup_ge_None in Ey. lia. }
      rewrite Nat.add_succ_r in Hy. etransitivity.
      * eapply facet_step; [eapply Hc; [by rewrite Ey|exact Hy]|]. intros c ->. apply (Hno (S (n + d)) c y); [lia|exact Hy].
      * eapply IH; [exact Hx|reflexivity|]. intros k c z Hk. apply Hno. lia.
Qed.

Lemma zero_consistent c : consistent c zero_LangfuseInstanceStatus.
Proof.
  destruct c; cbn; unfold instance_inv, migration_inv, secrets_inv, health_inv, retention_inv, drift_inv,
    breaker_inv, mirrored, find; cbn; rewrite ?find_nil; repeat split; try done;
    intros cd; rewrite ?find_nil; try done.
Qed.

Lemma follows_consistent x a y c : follows x (a, y) → consistent c (Instance_Status x) → consistent c (Instance_Status y).
Proof.
  destruct a as [|c']; cbn [follows]; [by intros ->|]. intros [_ [[_ _ Hf] Ho]] Hx.
  destruct (decide (c' = c)) as [->|Hne]; [auto|]. eapply consistent_frame; [|exact Hx].
  intros f Hin. symmetry. apply Hf. by eapply footprint_exclusive.
Qed.

(** C4: in every version of every history the status agrees with itself.  Ready is
    true exactly in phase Running and the Ready condition says the same, unless it
    reports a refused configuration; complete migrations have a target on record; a
    generated Secret is named; each connection flag says what its condition says, as do
    the retention, schema drift and circuit breaker flags.  Each controller keeps its
    own part, given only what the others promise not to touch. *)
Theorem status_always_consistent s a i c :
  reachable s → (a, i) ∈ versions s → consistent c (Instance_Status i).
Proof.
  intros [_ Hc Hfirst]%reachable_wf [n Hn]%list_elem_of_lookup. revert a i Hn.
  induction n as [|n IH]; intros a i Hn.
  - specialize (Hfirst _ Hn). cbn in Hfirst. rewrite Hfirst. apply zero_consistent.
  - destruct (versions s !! n) as [[b x]|] eqn:Ex.
    2: { apply lookup_lt_Some in Hn. apply lookup_ge_None in Ex. lia. }
    eapply follows_consistent; [eapply Hc; [by rewrite Ex|exact Hn]|by eapply IH].
Qed.
End histories.

(** ** Witnesses

    Two controllers read a new instance; one writes, the other loses the race, reads
    again and writes. *)

Definition ex_first : LangfuseInstance := ex_instance "3.1" "pg" "db".
Definition ex_second : LangfuseInstance := stored ex_first (ex_written SchemaDriftController ex_first).
Definition ex_third : LangfuseInstance := stored ex_second (ex_written HealthMonitorReconciler ex_second).
Definition ex_versions : list (Author * LangfuseInstance) :=
  [(Edit, ex_first); (Writer SchemaDriftController, ex_second); (Writer HealthMonitorReconciler, ex_third)].

Section example.
#[local] Existing Instances list_conditions list_owner Instance.full_scheme simple_quantities list_order
  Secrets.zero_entropy Secrets.id_hash Retention.accepting Retention.any_pem.
#[local] Instance ex_probes : DependencyProbes FakeCluster := fixed_probes true true true.
#[local] Instance ex_probe_laws : ProbeLaws ex_probes := fixed_probes_laws true true true.
#[local] Instance ex_condition_laws : ConditionLaws list_conditions := list_conditions_laws.

Lemma ex_publishes c i :
  status_writes (ex_pass_of c i).2 ≠ [] → head (ex_pass_of c i).2 = Some (CGetInstance ex_key (Ok i)) →
  publishes (W := FakeCluster) c i (ex_written c i).
Proof.
  intros (e & He)%ex_written_call Hh. exists CircuitBreaker.empty_memory, ex_key, (ex_cluster i None).
  eexists _, _, (ex_pass_of c i).2, e. split; [apply triple_eta|by split].
Qed.

Lemma ex_history_reachable : ∃ rs, reachable (W := FakeCluster) (mkSystem ex_versions rs).
Proof.
  eexists. exists (mkSystem [(Edit, ex_first)] (λ _, None)). split; [by exists ex_first|].
  eapply rtc_l; [apply (step_read _ _ SchemaDriftController 0 Edit ex_first); reflexivity|].
  eapply rtc_l; [apply (step_read _ _ HealthMonitorReconciler 0 Edit ex_first); reflexivity|].
  eapply rtc_l; [eapply (step_write _ _ SchemaDriftController 0 ex_first); try reflexivity|].
  { apply ex_publishes; by vm_compute. }
  eapply rtc_l; [apply (step_refused _ _ HealthMonitorReconciler)|].
  eapply rtc_l; [apply (step_read _ _ HealthMonitorReconciler 1 (Writer SchemaDriftController) ex_second); reflexivity|].
  eapply rtc_l; [eapply (step_write _ _ HealthMonitorReconciler 1 ex_second); try reflexivity|].
  { apply ex_publishes; by vm_compute. }
  reflexivity.
Qed.

Lemma no_report_lost_witness :
  publishes (W := FakeCluster) HealthMonitorReconciler ex_second ex_third ∧
  same (FCondition "SchemaDriftChecked") (Instance_Status ex_third) (Instance_Status ex_second).
Proof.
  destruct ex_history_reachable as [rs Hr]. destruct (no_report_lost _ Hr) as [Hp Hs]. split.
  - by apply (Hp 1%nat (Writer SchemaDriftController) ex_second HealthMonitorReconciler ex_third).
  - apply (Hs (FCondition "SchemaDriftChecked") 1%nat 1%nat _ _ ex_second ex_third eq_refl eq_refl).
    intros k c z Hk Hz. assert (k = 2%nat) as -> by lia. by injection Hz as <-.
Defined.

Lemma status_always_consistent_witness :
  consistent HealthMonitorReconciler (Instance_Status ex_third) ∧
  DatabaseStatus_Connected (database_of (Instance_Status ex_third)) = Some true.
Proof.
  destruct ex_history_reachable as [rs Hr]. split; [|by vm_compute].
  apply (status_always_consistent _ (Writer HealthMonitorReconciler) ex_third _ Hr), (list_elem_of_lookup_2 _ 2). reflexivity.
Defined.
End example.
