(* ===== verification/Watches.v ===== *)
(** * What wakes the controllers (the [SetupWithManager] functions)

    Each controller registers with the manager the types it watches.  The builder of
    controller-runtime is outside the repository: here is what the nine controllers
    hand to it, as data, and what it makes of an event by its documentation.  The
    predicate on generations and the lookup of an object's controller are interfaces
    with laws. *)

From S2P Require Import Prelude Secrets.
From S2P Require Import Prelude GoStd KubeTypes ApiTypes Kube Examples Resources Stores Networking Instance Topology.
From S2P Require Import Sharing.

Open Scope string_scope.
Open Scope list_scope.
Open Scope Z_scope.

(** ** Types and events *)

(** [schema.GroupVersionKind]. *)
Record GroupVersionKind := mkGVK { gvk_Group : string; gvk_Version : string; gvk_Kind : string }.

(** [ToAPIVersionAndKind]: the core group has no name. *)
Definition gvk_APIVersion (g : GroupVersionKind) : string :=
  if nonempty_str (gvk_Group g) then gvk_Group g +:+ "/" +:+ gvk_Version g else gvk_Version g.

(** [GroupVersion] of [api/v1alpha1/groupversion_info.go]. *)
Definition GroupVersion : string * string := ("langfuse.palena.ai", "v1alpha1").

(** The Go types that are watched, as the scheme names them. *)
Definition v1alpha1 (kind : string) : GroupVersionKind := mkGVK GroupVersion.1 GroupVersion.2 kind.
Definition appsv1 (kind : string) : GroupVersionKind := mkGVK "apps" "v1" kind.
Definition corev1 (kind : string) : GroupVersionKind := mkGVK "" "v1" kind.
Definition batchv1 (kind : string) : GroupVersionKind := mkGVK "batch" "v1" kind.
Definition networkingv1 (kind : string) : GroupVersionKind := mkGVK "networking.k8s.io" "v1" kind.
Definition autoscalingv2 (kind : string) : GroupVersionKind := mkGVK "autoscaling" "v2" kind.
Definition policyv1 (kind : string) : GroupVersionKind := mkGVK "policy" "v1" kind.

(** An object as an event shows it. *)
Record Watched := mkWatched { w_APIVersion : string; w_Kind : string; w_Meta : ObjectMeta }.

Definition of_type (g : GroupVersionKind) (m : ObjectMeta) : Watched :=
  mkWatched (gvk_APIVersion g) (gvk_Kind g) m.

Inductive WatchEvent := Created (o : Watched) | Updated (old new : Watched) | Deleted (o : Watched).

(** The object of the event, and the metadata it shows. *)
Definition subject (e : WatchEvent) : Watched :=
  match e with Created o | Updated _ o | Deleted o => o end.
Definition metas (e : WatchEvent) : list ObjectMeta :=
  match e with Created o | Deleted o => [w_Meta o] | Updated old new => [w_Meta old; w_Meta new] end.

(** [predicate.GenerationChangedPredicate]: it drops updates that leave the
    generation as it was, and no other event. *)
Class PredicateAPI := { GenerationChangedPredicate : WatchEvent → bool }.

Definition generation_moved (old new : Watched) : bool :=
  negb (om_Generation (w_Meta old) =? om_Generation (w_Meta new)).

Class PredicateLaws (P : PredicateAPI) : Prop := {
  predicate_created o : GenerationChangedPredicate (Created o) = true;
  predicate_deleted o : GenerationChangedPredicate (Deleted o) = true;
  predicate_updated old new : GenerationChangedPredicate (Updated old new) = generation_moved old new
}.

Definition generation_predicate : PredicateAPI := {|
  GenerationChangedPredicate e :=
    match e with Updated old new => generation_moved old new | _ => true end
|}.

Lemma generation_predicate_laws : PredicateLaws generation_predicate.
Proof. by split. Qed.

(** [handler.EnqueueRequestForOwner] with [OnlyControllerOwner]: the controller of
    the object, where it is of the given kind. *)
Class OwnerHandler := { EnqueueRequestForOwner : string → ObjectMeta → list NamespacedName }.

(** It finds the controller that [SetControllerReference] has set. *)
Class OwnerHandlerLaws (O : OwnerAPI) (E : OwnerHandler) : Prop := {
  enqueue_controller owner m m' :
    SetControllerReference owner m = Ok m' →
    EnqueueRequestForOwner "LangfuseInstance" m' = [mkKey (om_Namespace m) (om_Name owner)];
  enqueue_ext kind m m' :
    om_Namespace m' = om_Namespace m → om_OwnerReferences m' = om_OwnerReferences m →
    EnqueueRequestForOwner kind m' = EnqueueRequestForOwner kind m
}.

Definition list_owner_handler : OwnerHandler := {|
  EnqueueRequestForOwner kind m :=
    (λ r, mkKey (om_Namespace m) (owner_Name r)) <$> filter (λ r, owner_Kind r = kind) (om_OwnerReferences m)
|}.

Lemma list_owner_handler_laws : OwnerHandlerLaws list_owner list_owner_handler.
Proof.
  split.
  - intros o m m'. cbn. destruct (om_OwnerReferences m); [|done]. by intros [= <-].
  - intros kind m m'. cbn. by intros -> ->.
Qed.

(** ** The builder *)

Definition Predicates : Type := list (WatchEvent → bool).

Record Builder (W : Type) := mkBuilder {
  b_Name : string;
  b_For : GroupVersionKind * Predicates;
  b_Owns : list (GroupVersionKind * Predicates);
  b_Watches : list (GroupVersionKind * (NamespacedName → M (St W) (list NamespacedName)))
}.
Arguments mkBuilder {W}.
Arguments b_Name {W}.
Arguments b_For {W}.
Arguments b_Owns {W}.
Arguments b_Watches {W}.

Definition is_of (g : GroupVersionKind) (o : Watched) : bool :=
  String.eqb (gvk_APIVersion g) (w_APIVersion o) && String.eqb (gvk_Kind g) (w_Kind o).

Definition passes (ps : Predicates) (e : WatchEvent) : bool := forallb (λ p, p e) ps.

Section requests.
Context {W : Type} `{OWNER : OwnerHandler}.

Definition owned_requests (b : Builder W) (e : WatchEvent) : list NamespacedName :=
  concat ((λ w : GroupVersionKind * Predicates,
    if is_of w.1 (subject e) && passes w.2 e
    then concat (EnqueueRequestForOwner (gvk_Kind (b_For b).1) <$> metas e) else []) <$> b_Owns b).

(** The requests an event gives a controller. *)
Definition requests (b : Builder W) (e : WatchEvent) : M (St W) (list NamespacedName) :=
  let own := if is_of (b_For b).1 (subject e) && passes (b_For b).2 e
             then [om_key (w_Meta (subject e))] else [] in
  mapped ← mfold (λ acc (w : GroupVersionKind * (NamespacedName → M (St W) (list NamespacedName))),
             if is_of w.1 (subject e)
             then mfold (λ acc m, l ← w.2 (om_key m); mret (acc ++ l)) (metas e) acc
             else mret acc) (b_Watches b) [];
  mret (own ++ owned_requests b e ++ mapped).
End requests.

(** ** The nine registrations *)

Section setup.
Context {W : Type} `{KubeClient W} `{PRED : PredicateAPI} `{ORD : MapOrder}.

Definition routeGVK : GroupVersionKind := mkGVK "route.openshift.io" "v1" "Route".
Definition httpRouteGVK : GroupVersionKind := mkGVK "gateway.networking.k8s.io" "v1" "HTTPRoute".

(** [RESTMapping] is the manager's mapper: does the API server know the kind? *)
Definition LangfuseInstanceReconciler_SetupWithManager (RESTMapping : GroupVersionKind → bool) : Builder W :=
  let driftOnly := [GenerationChangedPredicate] in
  mkBuilder "langfuseinstance" (v1alpha1 "LangfuseInstance", [])
    ([(appsv1 "Deployment", []); (appsv1 "StatefulSet", driftOnly); (corev1 "Service", driftOnly);
      (corev1 "ConfigMap", driftOnly); (networkingv1 "NetworkPolicy", driftOnly);
      (networkingv1 "Ingress", driftOnly); (autoscalingv2 "HorizontalPodAutoscaler", driftOnly);
      (policyv1 "PodDisruptionBudget", driftOnly)] ++
     (if RESTMapping routeGVK then [(routeGVK, driftOnly)] else []) ++
     (if RESTMapping httpRouteGVK then [(httpRouteGVK, driftOnly)] else [])) [].

(** Of an instance, the others want the changes of its spec, and no more. *)
Definition MigrationController_SetupWithManager : Builder W :=
  mkBuilder "migration" (v1alpha1 "LangfuseInstance", [GenerationChangedPredicate])
    [(batchv1 "Job", [])] [].

Definition CircuitBreakerController_SetupWithManager : Builder W :=
  mkBuilder "circuitbreaker" (v1alpha1 "LangfuseInstance", [GenerationChangedPredicate]) [] [].

Definition HealthMonitorReconciler_SetupWithManager : Builder W :=
  mkBuilder "healthmonitor" (v1alpha1 "LangfuseInstance", [GenerationChangedPredicate]) [] [].

Definition RetentionController_SetupWithManager : Builder W :=
  mkBuilder "retention" (v1alpha1 "LangfuseInstance", [GenerationChangedPredicate]) [] [].

Definition SchemaDriftController_SetupWithManager : Builder W :=
  mkBuilder "schemadrift" (v1alpha1 "LangfuseInstance", [GenerationChangedPredicate]) [] [].

Definition SecretController_SetupWithManager : Builder W :=
  mkBuilder "secret" (v1alpha1 "LangfuseInstance", [GenerationChangedPredicate]) []
    [(corev1 "Secret", Secrets.findInstancesForSecret)].

Definition LangfuseOrganizationReconciler_SetupWithManager : Builder W :=
  mkBuilder "langfuseorganization" (v1alpha1 "LangfuseOrganization", []) [] [].

Definition LangfuseProjectReconciler_SetupWithManager : Builder W :=
  mkBuilder "langfuseproject" (v1alpha1 "LangfuseProject", []) [(corev1 "Secret", [])] [].

(** The registration of each of the instance's controllers. *)
Definition setup (RESTMapping : GroupVersionKind → bool) (c : Controller) : Builder W :=
  match c with
  | LangfuseInstanceReconciler => LangfuseInstanceReconciler_SetupWithManager RESTMapping
  | MigrationController => MigrationController_SetupWithManager
  | SecretController => SecretController_SetupWithManager
  | HealthMonitorReconciler => HealthMonitorReconciler_SetupWithManager
  | RetentionController => RetentionController_SetupWithManager
  | SchemaDriftController => SchemaDriftController_SetupWithManager
  | CircuitBreakerController => CircuitBreakerController_SetupWithManager
  end.
End setup.

(** ** What the events of an instance do *)

(** Does the event concern the controller? *)
Definition wakes (c : Controller) (e : WatchEvent) : bool :=
  match c, e with
  | LangfuseInstanceReconciler, _ => true
  | _, Updated old new => generation_moved old new
  | _, _ => true
  end.

(** The object of an event about an instance. *)
Definition instance_object (i : LangfuseInstance) : Watched :=
  of_type (v1alpha1 "LangfuseInstance") (Instance_ObjectMeta i).

Definition instance_event (e : WatchEvent) : Prop :=
  ∃ i, subject e = instance_object i.

Section events.
Context {W : Type} `{KubeClient W} `{PRED : PredicateAPI} `{ORD : MapOrder} `{OWNER : OwnerHandler}.
Context {PL : PredicateLaws PRED}.

Lemma predicate_wakes c e : c ≠ LangfuseInstanceReconciler → GenerationChangedPredicate e = wakes c e.
Proof.
  intros Hc. destruct e as [o|old new|o]; rewrite ?predicate_created, ?predicate_deleted, ?predicate_updated; by destruct c.
Qed.

(** Requests computed without a call. *)
Lemma requests_unmapped (b : Builder W) e w :
  (∀ g f, (g, f) ∈ b_Watches b → is_of g (subject e) = false) →
  run (requests b e) w =
    ((if is_of (b_For b).1 (subject e) && passes (b_For b).2 e then [om_key (w_Meta (subject e))] else []) ++
     owned_requests b e, w, []).
Proof.
  intros Hno. unfold run, requests. cbn [mbind M_bind].
  assert (∀ acc s, mfold (λ acc (w : GroupVersionKind * (NamespacedName → M (St W) (list NamespacedName))),
             if is_of w.1 (subject e)
             then mfold (λ acc m, l ← w.2 (om_key m); mret (acc ++ l)) (metas e) acc
             else mret acc) (b_Watches b) acc s = (acc, s)) as Hfold.
  { revert Hno. induction (b_Watches b) as [|[g f] l IH]; intros Hno acc s; cbn [mfold]; [done|]. cbn [fst].
    rewrite (Hno g f) by by left. unfold mbind, M_bind at 1. cbn. apply IH. intros g' f' Hin. apply (Hno g' f'). by right. }
  unfold mbind, M_bind at 1. rewrite Hfold. cbn. by rewrite app_nil_r.
Qed.

Lemma owned_unrelated (b : Builder W) e :
  (∀ g ps, (g, ps) ∈ b_Owns b → is_of g (subject e) = false) → owned_requests b e = [].
Proof.
  unfold owned_requests. intros Hno. induction (b_Owns b) as [|[g ps] l IH]; [done|]. cbn.
  rewrite (Hno g ps) by by left. cbn. apply IH. intros g' ps' Hin. apply (Hno g' ps'). by right.
Qed.

(** The requests of an event about an instance, controller by controller. *)
Lemma instance_requests RESTMapping c e w :
  instance_event e →
  run (requests (setup RESTMapping c) e) w =
  ((if wakes c e then [om_key (w_Meta (subject e))] else []), w, []).
Proof.
  intros [i Hi]. rewrite requests_unmapped.
  2: { rewrite Hi. destruct c; cbn; intros g f Hin; try by apply elem_of_nil in Hin.
       apply list_elem_of_singleton in Hin. by injection Hin as -> _. }
  rewrite owned_unrelated, app_nil_r.
  2: { rewrite Hi. destruct c; cbn; intros g ps Hin; try by apply elem_of_nil in Hin.
       - destruct (RESTMapping routeGVK), (RESTMapping httpRouteGVK); cbn in Hin;
           rewrite !elem_of_cons, elem_of_nil in Hin; by destruct_or?; simplify_eq.
       - apply list_elem_of_singleton in Hin. by injection Hin as -> _. }
  rewrite Hi. destruct (decide (c = LangfuseInstanceReconciler)) as [->|Hne]; [done|].
  rewrite <- predicate_wakes by done. destruct c; try done; cbn; by rewrite andb_true_r.
Qed.

(** C16: who is woken by an instance.  When an instance is created or deleted, all
    seven controllers get a request for it; when it is updated, the instance controller
    does, and the six others exactly when the generation moved, so when the spec was
    edited; the tenant controllers never.  In particular a status write, which leaves
    the generation alone, wakes the instance controller only. *)
Theorem instance_events_exact RESTMapping e w :
  instance_event e →
  (∀ c, run (requests (setup RESTMapping c) e) w =
        ((if wakes c e then [om_key (w_Meta (subject e))] else []), w, [])) ∧
  run (requests LangfuseOrganizationReconciler_SetupWithManager e) w = ([], w, []) ∧
  run (requests LangfuseProjectReconciler_SetupWithManager e) w = ([], w, []).
Proof.
  intros He. split; [intros c; by apply instance_requests|]. destruct He as [i Hi]. split.
  - rewrite requests_unmapped, owned_unrelated; rewrite ?Hi; try done; intros ? ? []%elem_of_nil.
  - rewrite requests_unmapped, owned_unrelated; rewrite ?Hi; try done; [|intros ? ? []%elem_of_nil].
    intros g ps Hin. apply list_elem_of_singleton in Hin. by injection Hin as -> _.
Qed.
End events.

(** ** The children are watched *)

Definition obj_APIVersion (o : Object) : string :=
  match o with
  | ODeployment _ | OStatefulSet _ => "apps/v1"
  | OService _ | OConfigMap _ => "v1"
  | ONetworkPolicy _ | OIngress _ => "networking.k8s.io/v1"
  | OHPA _ => "autoscaling/v2"
  | OPDB _ => "policy/v1"
  | OUnstructured u => un_APIVersion u
  end.

Definition watched (o : Object) : Watched := mkWatched (obj_APIVersion o) (obj_Kind o) (obj_Meta o).

(** An event about the object [o], whatever became of its content: its type,
    namespace and owners are those of [o]. *)
Record child_event (o : Object) (e : WatchEvent) : Prop := {
  child_type : w_APIVersion (subject e) = obj_APIVersion o ∧ w_Kind (subject e) = obj_Kind o;
  child_owned m : m ∈ metas e →
    om_Namespace m = om_Namespace (obj_Meta o) ∧ om_OwnerReferences m = om_OwnerReferences (obj_Meta o)
}.

(** Of a Deployment every event counts; of the other children an update must have
    moved the generation. *)
Definition child_wakes (o : Object) (e : WatchEvent) : bool :=
  match o, e with
  | ODeployment _, _ => true
  | _, Updated old new => generation_moved old new
  | _, _ => true
  end.

Section children.
Context {W : Type} `{KubeClient W} `{PRED : PredicateAPI} `{ORD : MapOrder} `{OWNER : OwnerHandler}.
Context {PL : PredicateLaws PRED} `{OWN : OwnerAPI} {OHL : OwnerHandlerLaws OWN OWNER}.
Context `{API : ConditionAPI} `{QUANT : QuantityParser}.

Lemma set_obj_Meta_type m o :
  obj_APIVersion (set_obj_Meta m o) = obj_APIVersion o ∧ obj_Kind (set_obj_Meta m o) = obj_Kind o.
Proof. by destruct o. Qed.

Lemma predicate_child o e : (∀ d, o ≠ ODeployment d) → GenerationChangedPredicate e = child_wakes o e.
Proof.
  intros Hd. assert (child_wakes o e = match e with Updated old new => generation_moved old new | _ => true end) as ->
    by (destruct o; done || by destruct (Hd d)).
  destruct e; [apply predicate_created|apply predicate_updated|apply predicate_deleted].
Qed.

Lemma elem_of_owned_requests (b : Builder W) e k :
  k ∈ owned_requests b e ↔
  ∃ g ps, (g, ps) ∈ b_Owns b ∧ is_of g (subject e) = true ∧ passes ps e = true ∧
    ∃ m, m ∈ metas e ∧ k ∈ EnqueueRequestForOwner (gvk_Kind (b_For b).1) m.
Proof.
  unfold owned_requests. rewrite list_elem_of_In, in_concat. split.
  - intros (l & Hl & Hk). apply list_elem_of_In, list_elem_of_fmap in Hl as ([g ps] & -> & Hin). cbn [fst snd] in Hk.
    destruct (_ && _) eqn:Eb; [|done]. apply andb_true_iff in Eb as [Hg Hp]. apply in_concat in Hk as (l & Hl & Hk).
    apply list_elem_of_In, list_elem_of_fmap in Hl as (m & -> & Hm). exists g, ps. split_and!; try done.
    exists m. split; [done|]. by apply list_elem_of_In.
  - intros (g & ps & Hin & Hg & Hp & m & Hm & Hk). eexists. split.
    + apply list_elem_of_In, list_elem_of_fmap. exists (g, ps). split; [reflexivity|exact Hin].
    + cbn [fst snd]. rewrite Hg, Hp. cbn. apply in_concat. eexists. split; [|by apply list_elem_of_In].
      apply list_elem_of_In, list_elem_of_fmap. by exists m.
Qed.

(** What the registration says of the types of the children. *)
Definition registered (RESTMapping : GroupVersionKind → bool) : list (GroupVersionKind * Predicates) :=
  b_Owns (LangfuseInstanceReconciler_SetupWithManager (W := W) RESTMapping).

Ltac registered_as g ps :=
  exists g, ps; split; [unfold registered; cbn; set_solver|reflexivity].

(** Every builder's object is of a type on the list. *)
Lemma child_registered i config o RESTMapping :
  child i config o →
  (∀ g, g ∈ [routeGVK; httpRouteGVK] → is_of g (watched o) = true → RESTMapping g = true) →
  ∃ g ps, (g, ps) ∈ registered RESTMapping ∧ is_of g (watched o) = true.
Proof.
  intros Ho Hm. destruct o as [d|s|s|c|p|g|h|p|u].
  1: registered_as (appsv1 "Deployment") ([] : Predicates).
  1: registered_as (corev1 "Service") [GenerationChangedPredicate].
  1: registered_as (appsv1 "StatefulSet") [GenerationChangedPredicate].
  1: registered_as (corev1 "ConfigMap") [GenerationChangedPredicate].
  1: registered_as (networkingv1 "NetworkPolicy") [GenerationChangedPredicate].
  1: registered_as (networkingv1 "Ingress") [GenerationChangedPredicate].
  1: registered_as (autoscalingv2 "HorizontalPodAutoscaler") [GenerationChangedPredicate].
  1: registered_as (policyv1 "PodDisruptionBudget") [GenerationChangedPredicate].
  inversion Ho; subst.
  - exists routeGVK, [GenerationChangedPredicate]. split; [|reflexivity]. unfold registered. cbn.
    rewrite (Hm routeGVK) by (set_solver || reflexivity). set_solver.
  - exists httpRouteGVK, [GenerationChangedPredicate]. split; [|reflexivity]. unfold registered. cbn.
    rewrite (Hm httpRouteGVK) by (set_solver || reflexivity). set_solver.
Qed.

(** And the entries of that type let the right events through. *)
Lemma child_passes i config o RESTMapping g ps e :
  child i config o → (g, ps) ∈ registered RESTMapping → is_of g (watched o) = true →
  passes ps e = child_wakes o e.
Proof.
  intros Ho Hin Hg.
  assert ((g, ps) = (appsv1 "Deployment", []) ∨
          ps = [GenerationChangedPredicate] ∧ ∀ d, is_of g (watched (ODeployment d)) = false) as Hcase.
  { unfold registered in Hin. cbn in Hin. destruct (RESTMapping routeGVK), (RESTMapping httpRouteGVK); cbn in Hin;
      rewrite !elem_of_cons, elem_of_nil in Hin; destruct_or?; simplify_eq; auto. }
  destruct Hcase as [[= -> ->]|[-> Hne]].
  - by destruct Ho; try discriminate Hg.
  - cbn. rewrite andb_true_r. apply predicate_child. intros d ->. by rewrite Hne in Hg.
Qed.

(** C17: the instance controller watches what it makes.  Of every object a pass
    applies, with the instance as its controller, an event gives a request for that
    very instance and for nothing else: any event of a Deployment, whose status the
    phase is derived from; of the other kinds a creation, a deletion, and an update
    that moved the generation, and no other update.  Services and ConfigMaps keep no
    generation, so of them no update counts ([service_edit_unseen]).  Routes and HTTPRoutes count where the API server knew
    them when the operator started. *)
Theorem children_watched RESTMapping i config o o' e w k :
  Some o ∈ desired_objects i config → owned i o o' →
  (∀ g, g ∈ [routeGVK; httpRouteGVK] → is_of g (watched o) = true → RESTMapping g = true) →
  child_event o' e →
  k ∈ (run (requests (LangfuseInstanceReconciler_SetupWithManager (W := W) RESTMapping) e) w).1.1 ↔
  k = om_key (Instance_ObjectMeta i) ∧ child_wakes o e = true.
Proof.
  intros Hd (m & Hm & ->) Hmap [Ht He]. pose proof (proj1 (child_desired i config o) Hd) as Hc.
  destruct (set_obj_Meta_type m o) as [Ea Ek]. rewrite Ea, Ek in Ht. rewrite obj_Meta_set in He.
  assert (∀ g, is_of g (subject e) = is_of g (watched o)) as Hsub.
  { intros g. unfold is_of, watched. cbn. by destruct Ht as [-> ->]. }
  assert (om_Namespace (obj_Meta o) = om_Namespace (Instance_ObjectMeta i)) as Hns.
  { apply desired_named in Hd as (n & _ & Hn). unfold obj_id, named, in_ns in Hn. by injection Hn. }
  assert (∀ m', m' ∈ metas e → EnqueueRequestForOwner "LangfuseInstance" m' = [om_key (Instance_ObjectMeta i)]) as Hq.
  { intros m' [E1 E2]%He. rewrite (enqueue_ext _ m m' E1 E2), (enqueue_controller _ _ _ Hm), Hns. done. }
  assert (∃ m', m' ∈ metas e) as [m0 Hm0] by (destruct e; cbn; eexists; left).
  rewrite requests_unmapped by (cbn; intros ? ? []%elem_of_nil).
  cbn [fst snd]. rewrite Hsub.
  assert (is_of (v1alpha1 "LangfuseInstance") (watched o) = false) as Hno by by destruct Hc.
  change (b_For _) with (v1alpha1 "LangfuseInstance", [] : Predicates). cbn [fst]. rewrite Hno. cbn [andb app].
  rewrite elem_of_owned_requests. change (gvk_Kind (b_For _).1) with "LangfuseInstance". fold (registered RESTMapping). split.
  - intros (g & ps & Hin & Hg & Hp & m' & Hm' & Hk). rewrite Hsub in Hg. rewrite Hq in Hk by done.
    apply list_elem_of_singleton in Hk as ->. split; [done|]. by rewrite <- (child_passes i config o RESTMapping g ps e).
  - intros [-> Hw]. destruct (child_registered i config o RESTMapping Hc Hmap) as (g & ps & Hin & Hg).
    exists g, ps. split_and!; [done|by rewrite Hsub|by rewrite (child_passes i config o RESTMapping g ps e)|].
    exists m0. split; [done|]. rewrite Hq by done. by left.
Qed.
End children.

(** ** Witnesses *)

Definition ex_all_apis (g : GroupVersionKind) : bool := true.

(** A status write, as an event. *)
Definition ex_status_event : WatchEvent := Updated (instance_object ex_full) (instance_object ex_full).

Lemma instance_events_exact_witness :
  (run (requests (OWNER := list_owner_handler)
     (setup (W := FakeCluster) (PRED := generation_predicate) (ORD := list_order) ex_all_apis LangfuseInstanceReconciler)
     ex_status_event) empty_cluster).1.1 = [ex_key] ∧
  (run (requests (OWNER := list_owner_handler)
     (setup (W := FakeCluster) (PRED := generation_predicate) (ORD := list_order) ex_all_apis MigrationController)
     ex_status_event) empty_cluster).1.1 = [].
Proof.
  assert (instance_event ex_status_event) as He by by exists ex_full.
  destruct (instance_events_exact (W := FakeCluster) (PRED := generation_predicate) (ORD := list_order)
    (OWNER := list_owner_handler) (PL := generation_predicate_laws) ex_all_apis _ empty_cluster He) as [Hall _].
  split; [by rewrite (Hall LangfuseInstanceReconciler)|by rewrite (Hall MigrationController)].
Defined.

Definition ex_web_service : Object := OService (BuildWebService ex_full).
Definition ex_service_meta : ObjectMeta :=
  let m := obj_Meta ex_web_service in
  mkObjectMeta (om_Name m) (om_Namespace m) (om_Labels m) (om_Annotations m)
    [mkOwnerRef "LangfuseInstance" "lf"] (om_Generation m) (om_DeletionTimestamp m) (om_Finalizers m).
Definition ex_owned_service : Object := set_obj_Meta ex_service_meta ex_web_service.

Definition ex_service_requests (e : WatchEvent) : list NamespacedName :=
  (run (requests (OWNER := list_owner_handler)
     (LangfuseInstanceReconciler_SetupWithManager (W := FakeCluster) (PRED := generation_predicate) ex_all_apis) e)
     empty_cluster).1.1.

Lemma children_watched_witness :
  ex_key ∈ ex_service_requests (Deleted (watched ex_owned_service)).
Proof.
  apply (children_watched (W := FakeCluster) (PRED := generation_predicate) (OWNER := list_owner_handler)
    (PL := generation_predicate_laws) (OWN := list_owner) (OHL := list_owner_handler_laws)
    (QUANT := simple_quantities) ex_all_apis ex_full ex_full_config ex_web_service ex_owned_service).
  - apply child_desired, child_web_service.
  - exists ex_service_meta. by split.
  - done.
  - split; [done|]. intros m Hm. by apply list_elem_of_singleton in Hm as ->.
  - done.
Defined.

(** A Service has no generation of its own: an edit of it, here of its selector's
    labels, is an update that leaves the generation at zero, and nobody is told. *)
Lemma service_edit_unseen :
  ex_service_requests (Updated (watched ex_owned_service)
    (watched (set_obj_Meta (mkObjectMeta "lf-web" "prod" ∅ ∅ [mkOwnerRef "LangfuseInstance" "lf"] 0 None [])
       ex_owned_service))) = [].
Proof. by vm_compute. Qed.
