(* ===== verification/Operator.v ===== *)
(** * The binary ([cmd/main.go])

    Which namespaces the controllers see (the flag, else the environment, read as a
    list), the options the manager is made with, and the order in which [main] sets
    the operator up: a step that fails ends the process before anything runs. *)

From Stdlib Require Import Ascii.
From S2P Require Import Prelude GoStd KubeTypes Kube Sharing Watches.

Open Scope string_scope.
Open Scope list_scope.

Definition comma := ","%char.

(** The flag, else [WATCH_NAMESPACE]. *)
Definition watchNamespaces (flag env : string) : string := if nonempty_str flag then flag else env.

Definition namespaceList (s : string) : list string :=
  filter (λ ns, nonempty_str ns = true) (TrimSpace <$> Split comma s).

(** [cacheOptions.DefaultNamespaces]: [None] is the nil map. *)
Definition DefaultNamespaces (flag env : string) : option (gset string) :=
  let watch := watchNamespaces flag env in
  if nonempty_str watch then Some (list_to_set (namespaceList watch)) else None.

(** What the cache watches, by its documentation: everything when the map is empty. *)
Definition sees (cache : option (gset string)) (ns : string) : Prop :=
  match cache with Some namespaces => namespaces = ∅ ∨ ns ∈ namespaces | None => True end.

(** A name as the list takes it over: no comma in it, no space around it. *)
Definition plain_name (ns : string) : Prop :=
  nonempty_str ns = true ∧ has_char comma ns = false ∧ TrimSpace ns = ns.

Lemma Split_Join c l : l ≠ [] → Forall (λ s, has_char c s = false) l → Split c (Join l (String c "")) = l.
Proof.
  intros Hne. induction 1 as [|s l Hs _ IH]; [done|]. destruct l as [|s' l]; [by apply Split_nochar|].
  change (Join (s :: s' :: l) (String c "")) with (s +:+ String c (Join (s' :: l) (String c ""))).
  by rewrite Split_app, IH.
Qed.

(** The list written out is the list read. *)
Theorem namespaces_roundtrip l : l ≠ [] → Forall plain_name l → namespaceList (Join l ",") = l.
Proof.
  intros Hne Hl. unfold namespaceList.
  rewrite Split_Join by (done || (eapply Forall_impl; [exact Hl|]; by intros ns (_ & ? & _))).
  clear Hne. induction Hl as [|ns l (Hn & _ & Ht) _ IH]; [done|].
  rewrite fmap_cons, Ht, filter_cons_True by done. by rewrite IH.
Qed.

(** The scope is the list of the flag, else of the environment; with no name in it,
    everything is in scope, a list of blanks included. *)
Theorem scope_exact flag env ns :
  sees (DefaultNamespaces flag env) ns ↔
  namespaceList (watchNamespaces flag env) = [] ∨ ns ∈ namespaceList (watchNamespaces flag env).
Proof.
  unfold DefaultNamespaces. destruct (watchNamespaces flag env) as [|c s]; cbn [nonempty_str sees].
  - split; [intros _; by left|done].
  - rewrite elem_of_list_to_set. generalize (namespaceList (String c s)). intros [|x l]; cbn; [set_solver|].
    split; [|set_solver]. intros [He|]; [|by right]. exfalso. set_solver.
Qed.

Example blank_list_sees_all ns : sees (DefaultNamespaces " , " "langfuse") ns.
Proof. left. by vm_compute. Qed.

(** ** Flags and options *)

Record Flags := mkFlags {
  metricsAddr : string;
  probeAddr : string;
  enableLeaderElection : bool;
  secureMetrics : bool;
  webhookCertPath : string; webhookCertName : string; webhookCertKey : string;
  metricsCertPath : string; metricsCertName : string; metricsCertKey : string;
  flag_watchNamespaces : string;
  enableHTTP2 : bool
}.

(** The values of flags that are not given. *)
Definition default_flags : Flags := {|
  metricsAddr := "0"; probeAddr := ":8081"; enableLeaderElection := false; secureMetrics := true;
  webhookCertPath := ""; webhookCertName := "tls.crt"; webhookCertKey := "tls.key";
  metricsCertPath := ""; metricsCertName := "tls.crt"; metricsCertKey := "tls.key";
  flag_watchNamespaces := ""; enableHTTP2 := false
|}.

(** The files a certificate watcher reads: a directory, the certificate and the key. *)
Record CertFiles := mkCertFiles { cert_dir : string; cert_name : string; cert_key : string }.

(** [tls.Config], as far as the options set it; [None] is a nil slice or function. *)
Record TLSConfig := mkTLSConfig { NextProtos : option (list string); GetCertificate : option CertFiles }.
Definition TLSOpts : Type := list (TLSConfig → TLSConfig).

(** The options applied in order to the configuration a server starts from. *)
Definition configured (base : TLSConfig) (opts : TLSOpts) : TLSConfig := foldl (λ c f, f c) base opts.

Definition disableHTTP2 (c : TLSConfig) : TLSConfig := mkTLSConfig (Some ["http/1.1"]) (GetCertificate c).
Definition with_certificate (files : CertFiles) (c : TLSConfig) : TLSConfig :=
  mkTLSConfig (NextProtos c) (Some files).

Definition tlsOpts (f : Flags) : TLSOpts := if negb (enableHTTP2 f) then [disableHTTP2] else [].

(** A watcher is configured by its directory. *)
Definition webhookCert (f : Flags) : option CertFiles :=
  if nonempty_str (webhookCertPath f)
  then Some (mkCertFiles (webhookCertPath f) (webhookCertName f) (webhookCertKey f)) else None.
Definition metricsCert (f : Flags) : option CertFiles :=
  if nonempty_str (metricsCertPath f)
  then Some (mkCertFiles (metricsCertPath f) (metricsCertName f) (metricsCertKey f)) else None.

Definition with_watcher (cert : option CertFiles) (opts : TLSOpts) : TLSOpts :=
  match cert with Some files => opts ++ [with_certificate files] | None => opts end.

(** [ctrl.Options]. *)
Record ManagerOptions := mkManagerOptions {
  Metrics_BindAddress : string;
  Metrics_SecureServing : bool;
  Metrics_TLSOpts : TLSOpts;
  Metrics_Authenticated : bool;          (* filters.WithAuthenticationAndAuthorization *)
  Webhook_TLSOpts : TLSOpts;
  HealthProbeBindAddress : string;
  LeaderElection : bool;
  LeaderElectionID : string;
  Cache_DefaultNamespaces : option (gset string)
}.

Definition managerOptions (f : Flags) (env : string) : ManagerOptions := {|
  Metrics_BindAddress := metricsAddr f;
  Metrics_SecureServing := secureMetrics f;
  Metrics_TLSOpts := with_watcher (metricsCert f) (tlsOpts f);
  Metrics_Authenticated := secureMetrics f;
  Webhook_TLSOpts := with_watcher (webhookCert f) (tlsOpts f);
  HealthProbeBindAddress := probeAddr f;
  LeaderElection := enableLeaderElection f;
  LeaderElectionID := "e7849af6.palena.ai";
  Cache_DefaultNamespaces := DefaultNamespaces (flag_watchNamespaces f) env
|}.

(** ** The steps of main *)

(** The calls into controller-runtime, each of which may fail. *)
Inductive SetupCall :=
  | NewCertWatcher (files : CertFiles)
  | NewManager (options : ManagerOptions)
  | SetupController (name : string)
  | AddWatcher (files : CertFiles)
  | AddHealthzCheck (name : string)
  | AddReadyzCheck (name : string)
  | StartManager.

Class Startup (S : Type) := { setup_call : SetupCall → S → option GoError * S }.

(** The calls made so far, with their errors. *)
Definition Boot (S : Type) : Type := S * list (SetupCall * option GoError).

Inductive Exit := ExitFailure | Returned.

Section main.
Context {S : Type} `{STARTUP : Startup S}.

Definition perform (c : SetupCall) : M (Boot S) (option GoError) :=
  λ b, let '(e, s) := setup_call c b.1 in (e, (s, b.2 ++ [(c, e)])).

(** [if err := ...; err != nil { os.Exit(1) }], and the rest. *)
Definition orExit (c : SetupCall) (k : M (Boot S) Exit) : M (Boot S) Exit :=
  e ← perform c; match e with Some _ => mret ExitFailure | None => k end.

Definition whenSome {A} (o : option A) (f : A → SetupCall) (k : M (Boot S) Exit) : M (Boot S) Exit :=
  match o with Some a => orExit (f a) k | None => k end.

Fixpoint setupAll (names : list string) (k : M (Boot S) Exit) : M (Boot S) Exit :=
  match names with
  | [] => k
  | name :: names => orExit (SetupController name) (setupAll names k)
  end.

(** The controllers in the order of their registration, under the names of their builders. *)
Definition registrations {W} `{KubeClient W} `{PredicateAPI} `{MapOrder}
    (RESTMapping : GroupVersionKind → bool) : list string :=
  [b_Name (LangfuseInstanceReconciler_SetupWithManager (W := W) RESTMapping);
   b_Name (LangfuseOrganizationReconciler_SetupWithManager (W := W));
   b_Name (LangfuseProjectReconciler_SetupWithManager (W := W));
   b_Name (MigrationController_SetupWithManager (W := W));
   b_Name (SecretController_SetupWithManager (W := W));
   b_Name (HealthMonitorReconciler_SetupWithManager (W := W));
   b_Name (RetentionController_SetupWithManager (W := W));
   b_Name (SchemaDriftController_SetupWithManager (W := W));
   b_Name (CircuitBreakerController_SetupWithManager (W := W))].

Definition main (controllers : list string) (f : Flags) (env : string) : M (Boot S) Exit :=
  whenSome (webhookCert f) NewCertWatcher (
  whenSome (metricsCert f) NewCertWatcher (
  orExit (NewManager (managerOptions f env)) (
  setupAll controllers (
  whenSome (metricsCert f) AddWatcher (
  whenSome (webhookCert f) AddWatcher (
  orExit (AddHealthzCheck "healthz") (
  orExit (AddReadyzCheck "readyz") (
  orExit StartManager (mret Returned))))))))).
End main.

(** ** What a start has done *)

(** The steps a complete start takes, in order. *)
Definition option_steps {A} (o : option A) (f : A → SetupCall) : list SetupCall :=
  match o with Some a => [f a] | None => [] end.

Definition startup_steps (controllers : list string) (f : Flags) (env : string) : list SetupCall :=
  option_steps (webhookCert f) NewCertWatcher ++ option_steps (metricsCert f) NewCertWatcher ++
  [NewManager (managerOptions f env)] ++ (SetupController <$> controllers) ++
  option_steps (metricsCert f) AddWatcher ++ option_steps (webhookCert f) AddWatcher ++
  [AddHealthzCheck "healthz"; AddReadyzCheck "readyz"; StartManager].

(** The calls of a process: all the steps without an error, or the steps up to the
    first error. *)
Definition went (steps : list SetupCall) (x : Exit) (cs : list (SetupCall * option GoError)) : Prop :=
  (x = Returned ∧ cs = (λ c, (c, None)) <$> steps) ∨
  (x = ExitFailure ∧ ∃ done c e rest,
     steps = done ++ c :: rest ∧ cs = ((λ c, (c, None)) <$> done) ++ [(c, Some e)]).

Section steps.
Context {S : Type} `{STARTUP : Startup S}.

Definition goes (steps : list SetupCall) (m : M (Boot S) Exit) : Prop :=
  ∀ b, wp m (λ x b', ∃ cs, b'.2 = b.2 ++ cs ∧ went steps x cs) b.

Lemma goes_returned : goes [] (mret Returned).
Proof. intros b. apply wp_ret. exists []. rewrite app_nil_r. split; [done|by left]. Qed.

Lemma goes_orExit c steps k : goes steps k → goes (c :: steps) (orExit c k).
Proof.
  intros Hk b. apply wp_bind. unfold wp at 1, perform. destruct (setup_call c b.1) as [[e|] s].
  - apply wp_ret. exists [(c, Some e)]. split; [done|]. right. split; [done|]. by exists [], c, e, steps.
  - eapply wp_mono; [apply Hk|]. cbn [snd]. intros x b' (cs & -> & Hw). exists ((c, None) :: cs).
    split; [by rewrite <- app_assoc|]. destruct Hw as [[-> ->]|(-> & done & c' & e & rest & -> & ->)]; [by left|right].
    split; [done|]. by exists (c :: done), c', e, rest.
Qed.

Lemma goes_whenSome {A} (o : option A) f steps k : goes steps k → goes (option_steps o f ++ steps) (whenSome o f k).
Proof. intros Hk. destruct o; [by apply goes_orExit|exact Hk]. Qed.

Lemma goes_setupAll names steps k : goes steps k → goes ((SetupController <$> names) ++ steps) (setupAll names k).
Proof. intros Hk. induction names; [exact Hk|by apply goes_orExit]. Qed.

Lemma main_goes controllers f env : goes (startup_steps controllers f env) (main controllers f env).
Proof.
  unfold main, startup_steps. apply goes_whenSome, goes_whenSome, goes_orExit, goes_setupAll, goes_whenSome,
    goes_whenSome, goes_orExit, goes_orExit, goes_orExit, goes_returned.
Qed.
End steps.

(** The steps before the start. *)
Definition preparation (controllers : list string) (f : Flags) (env : string) : list SetupCall :=
  option_steps (webhookCert f) NewCertWatcher ++ option_steps (metricsCert f) NewCertWatcher ++
  [NewManager (managerOptions f env)] ++ (SetupController <$> controllers) ++
  option_steps (metricsCert f) AddWatcher ++ option_steps (webhookCert f) AddWatcher ++
  [AddHealthzCheck "healthz"; AddReadyzCheck "readyz"].

Lemma startup_prepared controllers f env :
  startup_steps controllers f env = preparation controllers f env ++ [StartManager].
Proof. unfold startup_steps, preparation. by rewrite <- !app_assoc. Qed.

Lemma preparation_no_start controllers f env : StartManager ∉ preparation controllers f env.
Proof.
  unfold preparation, webhookCert, metricsCert. rewrite !elem_of_app, list_elem_of_fmap.
  destruct (nonempty_str (webhookCertPath f)), (nonempty_str (metricsCertPath f));
    cbn; rewrite ?elem_of_cons, ?elem_of_nil; naive_solver.
Qed.

(** Nothing follows the start of the manager. *)
Lemma start_last controllers f env before c rest :
  startup_steps controllers f env = before ++ c :: rest → StartManager ∉ before.
Proof.
  rewrite startup_prepared. intros Hst Hin. apply (preparation_no_start controllers f env).
  destruct (exists_last (l := c :: rest)) as (rest' & z & Hz); [done|]. rewrite Hz, app_assoc in Hst.
  apply app_inj_tail in Hst as [-> _]. apply elem_of_app. by left.
Qed.

(** The TLS configuration of a server that starts from [base]: what the flags ask for,
    and nothing else changed. *)
Definition tls_asked (f : Flags) (cert : option CertFiles) (base : TLSConfig) : TLSConfig :=
  mkTLSConfig (if enableHTTP2 f then NextProtos base else Some ["http/1.1"])
    (match cert with Some files => Some files | None => GetCertificate base end).

(** The TLS options come out as asked for, in any combination. *)
Lemma configured_options base cert f : configured base (with_watcher cert (tlsOpts f)) = tls_asked f cert base.
Proof. unfold tlsOpts, tls_asked. by destruct base, (enableHTTP2 f), cert. Qed.

(** C19: the operator runs whole or not at all.  [main] reports a failure exactly when
    some step failed, and the first failure ends it.  When the manager is started,
    everything before has gone through, each once and in order: the manager made with
    the options of the flags, the nine controllers registered under nine different
    names, both health checks and the certificate watchers that are configured added.
    On both servers, whatever configuration they start from, HTTP/2 is off unless the
    flag asks for it and the certificate is the one configured for that server, if any,
    and secure metrics are authenticated. *)
Theorem manager_starts_complete {W S} `{KubeClient W} `{PredicateAPI} `{MapOrder} `{Startup S}
    (RESTMapping : GroupVersionKind → bool) f env s x b :
  let controllers := registrations (W := W) RESTMapping in
  main controllers f env (s, []) = (x, b) →
  (x = ExitFailure ↔ ∃ c e, (c, Some e) ∈ b.2) ∧
  (∀ e, (StartManager, e) ∈ b.2 →
    b.2 = ((λ c, (c, None)) <$> preparation controllers f env) ++ [(StartManager, e)] ∧
    NewManager (managerOptions f env) ∈ preparation controllers f env ∧
    NoDup controllers ∧ length controllers = 9%nat) ∧
  (let o := managerOptions f env in
   (∀ base, configured base (Metrics_TLSOpts o) = tls_asked f (metricsCert f) base ∧
            configured base (Webhook_TLSOpts o) = tls_asked f (webhookCert f) base) ∧
   (Metrics_SecureServing o = true → Metrics_Authenticated o = true)).
Proof.
  cbv zeta. set (controllers := registrations RESTMapping). intros Hrun. split; [|split].
  3: { split; [|done]. intros base. cbn. by rewrite !configured_options. }
  all: pose proof (main_goes controllers f env (s, [])) as Hg; unfold wp in Hg; rewrite Hrun in Hg;
    destruct Hg as (cs & Hcs & Hw); cbn in Hcs; rewrite Hcs in *; clear Hcs;
    rewrite startup_prepared in Hw;
    assert (∀ l c e, (c, Some e) ∉ (λ c : SetupCall, (c, None (A := GoError))) <$> l) as Hnone
      by (intros l c e (c' & [=] & _)%list_elem_of_fmap).
  - destruct Hw as [[-> ->]|(-> & steps & c & e & rest & _ & ->)]; split; try done.
    + intros (c & e & Hin). by apply Hnone in Hin.
    + intros _. exists c, e. apply elem_of_app. right. by left.
  - intros e Hin. split; [|split; [|split; [|done]]].
    + destruct Hw as [[-> ->]|(-> & steps & c & e' & rest & Hst & ->)].
      * rewrite fmap_app in Hin |- *. f_equal. apply elem_of_app in Hin as [Hin|Hin].
        -- apply list_elem_of_fmap in Hin as (c & [= <- _] & Hc). by apply preparation_no_start in Hc.
        -- apply list_elem_of_singleton in Hin. by injection Hin as ->.
      * apply elem_of_app in Hin as [Hin|Hin].
        -- apply list_elem_of_fmap in Hin as (c' & [= <- _] & Hc). rewrite <- startup_prepared in Hst.
           by destruct (start_last _ _ _ _ _ _ Hst Hc).
        -- apply list_elem_of_singleton in Hin. injection Hin as <- ->.
           destruct rest as [|r rest _] using rev_ind.
           ++ apply app_inj_tail in Hst as [<- _]. done.
           ++ rewrite app_comm_cons, app_assoc in Hst. apply app_inj_tail in Hst as [Hst _].
              exfalso. apply (preparation_no_start controllers f env). rewrite Hst. apply elem_of_app. right. by left.
    + unfold preparation. rewrite !elem_of_app. right. right. left. by left.
    + unfold controllers, registrations. cbn. repeat (constructor; [rewrite ?elem_of_cons, ?elem_of_nil; naive_solver|]). constructor.
Qed.

(** A start in which every call succeeds. *)
Definition willing : Startup unit := {| setup_call _ s := (None, s) |}.
Definition ex_flags : Flags := {|
  metricsAddr := ":8443"; probeAddr := ":8081"; enableLeaderElection := true; secureMetrics := true;
  webhookCertPath := ""; webhookCertName := "tls.crt"; webhookCertKey := "tls.key";
  metricsCertPath := "/certs"; metricsCertName := "tls.crt"; metricsCertKey := "tls.key";
  flag_watchNamespaces := "langfuse"; enableHTTP2 := false
|}.

Definition ex_controllers : list string :=
  registrations (W := FakeCluster) (H0 := generation_predicate) (H1 := list_order) ex_all_apis.

Definition ex_boot : Exit * Boot unit := main (STARTUP := willing) ex_controllers ex_flags "" (tt, []).

Lemma manager_starts_complete_witness :
  ex_boot.1 = Returned ∧ length ex_boot.2.2 = 15%nat ∧ NoDup ex_controllers.
Proof.
  split; [done|]. split; [done|].
  destruct (manager_starts_complete (W := FakeCluster) (H0 := generation_predicate) (H1 := list_order) (H2 := willing)
    ex_all_apis ex_flags "" tt ex_boot.1 ex_boot.2) as (_ & Hs & _); [by destruct ex_boot eqn:E|].
  apply (Hs None), (list_elem_of_lookup_2 _ 14). reflexivity.
Defined.

Lemma namespaces_roundtrip_witness :
  namespaceList "langfuse,langfuse-staging" = ["langfuse"; "langfuse-staging"].
Proof.
  apply (namespaces_roundtrip ["langfuse"; "langfuse-staging"]); [done|].
  repeat constructor; by vm_compute.
Defined.
