(* ===== verification/Settling.v ===== *)
(** * Status updates come to rest

    A status write is an event, and an event wakes controllers.  This file shows that
    the chain ends: a pass of the instance controller over what the last one published
    writes nothing, whatever the reason the instance is in; and since the other
    controllers are deaf to status writes, a bounded number of passes can follow from
    status writes alone. *)

From stdpp Require Import relations.
From S2P Require Import CircuitBreaker Secrets Retention.
From S2P Require Import Prelude GoStd GoNet KubeTypes ApiTypes Kube Interfaces Examples Status Config.
From S2P Require Import Resources Stores PodIssues Phase Identity ClickHouse Instance Sharing History Watches.

Open Scope string_scope.
Open Scope list_scope.
Open Scope Z_scope.

(** ** What a look at a Deployment found *)

Inductive Look := LookAbsent | LookSeen (d : Deployment) (issues : list PodIssue).

Definition look_effect (record : LangfuseInstance → Deployment → list PodIssue → LangfuseInstance)
    (l : Look) (i : LangfuseInstance) : LangfuseInstance :=
  match l with LookAbsent => i | LookSeen d issues => record i d issues end.

(** The calls of a look. *)
Inductive look_calls (i : LangfuseInstance) (name component : string) : Look → list Call → Prop :=
  | look_absent e :
      err_kind e = KindNotFound →
      look_calls i name component LookAbsent [CGetDeployment (in_ns i name) (Err e)]
  | look_ready d :
      0 < dep_StatusReadyReplicas d → dep_StatusReplicas d ≤ dep_StatusReadyReplicas d →
      look_calls i name component (LookSeen d []) [CGetDeployment (in_ns i name) (Ok d)]
  | look_unready d r :
      ¬ (0 < dep_StatusReadyReplicas d ∧ dep_StatusReplicas d ≤ dep_StatusReadyReplicas d) →
      look_calls i name component
        (LookSeen d (match r with Ok pods => reportIssues pods | Err _ => [] end))
        [CGetDeployment (in_ns i name) (Ok d);
         CListPods (om_Namespace (Instance_ObjectMeta i)) (SelectorLabels i component) r].

Lemma observed_looks i name component record i' cs :
  observed i name component record i' cs →
  ∃ l, i' = look_effect record l i ∧ look_calls i name component l cs.
Proof.
  destruct 1 as [e He|d H1 H2|d r Hn].
  - exists LookAbsent. split; [done|by constructor].
  - exists (LookSeen d []). split; [done|by constructor].
  - eexists (LookSeen d _). split; [done|by constructor].
Qed.

(** The metadata of the instance decide where it looks. *)
Lemma look_calls_meta i j name component l cs :
  Instance_ObjectMeta j = Instance_ObjectMeta i → look_calls i name component l cs → look_calls j name component l cs.
Proof.
  intros Hm. destruct 1; unfold in_ns, SelectorLabels; rewrite <- Hm; by constructor.
Qed.

(** Equal answers, equal findings. *)
Lemma look_calls_det i name component l cs l' cs' r r' :
  look_calls i name component l cs → look_calls i name component l' cs' → cs ++ r = cs' ++ r' →
  l = l' ∧ cs = cs' ∧ r = r'.
Proof. destruct 1, 1; cbn; intros [=]; subst; try done; exfalso; tauto. Qed.

(** What two looks and a write amount to. *)
Lemma derived_looks i i1 i2 cs1 cs2 :
  observed_web i i1 cs1 → observed_worker i1 i2 cs2 →
  ∃ web worker, i2 = look_effect workerStatus worker (look_effect webStatus web i) ∧
    look_calls i (WebName i) componentWeb web cs1 ∧ look_calls i (WorkerName i) componentWorker worker cs2.
Proof.
  intros H1 H2. destruct (observed_web_alike _ _ _ H1) as (Em & _).
  destruct (observed_looks _ _ _ _ _ _ H1) as (web & -> & L1).
  destruct (observed_looks _ _ _ _ _ _ H2) as (worker & -> & L2).
  exists web, worker. split_and!; [done..|]. unfold WorkerName in *. rewrite Em in L2.
  by apply (look_calls_meta _ i) in L2.
Qed.

(** ** The status a pass derives, and the pass after it *)

Lemma set_Instance_Status_same s i : s = Instance_Status i → set_Instance_Status s i = i.
Proof. intros ->. by destruct i. Qed.

Lemma set_Status_Web_same v st : Status_Web st = v → set_Status_Web v st = st.
Proof. intros <-. by destruct st. Qed.

Lemma set_Status_Worker_same v st : Status_Worker st = v → set_Status_Worker v st = st.
Proof. intros <-. by destruct st. Qed.

Lemma moved_ext i i' :
  Instance_ObjectMeta i' = Instance_ObjectMeta i → Instance_Spec i' = Instance_Spec i →
  Status_Migration (Instance_Status i') = Status_Migration (Instance_Status i) →
  Status_Database (Instance_Status i') = Status_Database (Instance_Status i) →
  moved i' = moved i ∧ BuildConfig i' = BuildConfig i.
Proof.
  destruct i as [m sp st], i' as [m' sp' st']; cbn. intros -> -> Hg Hd. split; [|done].
  unfold moved, appliedMigrationIdentity, recordedIdentity. cbn. by rewrite Hg, Hd.
Qed.

Lemma deprecatedFields_ext i i' : Instance_Spec i' = Instance_Spec i → deprecatedFields i' = deprecatedFields i.
Proof. unfold deprecatedFields. by intros ->. Qed.

Lemma phase_nonempty `{ConditionAPI} j : nonempty_str (derivePhase j).1 = true.
Proof.
  unfold derivePhase. destruct (dependencyHealth j) as [any all].
  repeat (case_match; try done).
Qed.

Section conditions.
Context `{API : ConditionAPI} {AL : ConditionLaws API}.

Lemma remove_condition_absent t j : find_condition j t = None → remove_condition t j = j.
Proof.
  intros Hf. unfold remove_condition. apply set_Instance_Status_same.
  rewrite (remove_absent (C := API)) by done. by destruct (Instance_Status j).
Qed.

Lemma set_condition_present t s reason message j :
  find_condition j t = Some (condition t s reason message (om_Generation (Instance_ObjectMeta j))) →
  set_condition t s reason message j = j.
Proof.
  intros Hf. unfold set_condition. apply set_Instance_Status_same.
  rewrite (set_same (C := API)) by done. by destruct (Instance_Status j).
Qed.
End conditions.

(** The instance [base] is [i] as a pass hands it to the status update: with other
    conditions or an initial phase. *)
Record hands_on (i base : LangfuseInstance) : Prop := {
  hands_meta : Instance_ObjectMeta base = Instance_ObjectMeta i;
  hands_spec : Instance_Spec base = Instance_Spec i;
  hands_migration : Status_Migration (Instance_Status base) = Status_Migration (Instance_Status i);
  hands_database : Status_Database (Instance_Status base) = Status_Database (Instance_Status i)
}.

Section fixpoint.
Context `{API : ConditionAPI} {AL : ConditionLaws API}.
Context (i base : LangfuseInstance) (b : bool) (web worker : Look) (HB : hands_on i base).
Let seen : LangfuseInstance := look_effect workerStatus worker (look_effect webStatus web base).
Let final : LangfuseInstance := derivedStatus seen b.

Lemma seen_keeps :
  hands_on i seen ∧ Status_Conditions (Instance_Status seen) = Status_Conditions (Instance_Status base).
Proof. destruct HB as [Pm Ps Pg Pd]. unfold seen. by destruct web, worker. Qed.

Lemma final_keeps :
  hands_on i final ∧ Status_Web (Instance_Status final) = Status_Web (Instance_Status seen) ∧
  Status_Worker (Instance_Status final) = Status_Worker (Instance_Status seen).
Proof.
  destruct seen_keeps as [[Sm Ss Sg Sd] _]. unfold final, derivedStatus.
  destruct (derivePhase seen), b; by split_and!.
Qed.

Lemma final_derived : derivedStatus final b = final.
Proof.
  destruct (derivedStatus_spec seen b) as (D1 & D2 & D3 & D4 & D5 & _ & D6). fold final in D1, D2, D3, D4, D5, D6.
  unfold derivedStatus. rewrite D1. set (st := Instance_Status final) in *. cbv zeta.
  assert (set_Status_Ready (Status_Ready st) (set_Status_Phase (Status_Phase st) st) = st) as E0 by by destruct st.
  rewrite E0. rewrite (set_Instance_Status_same st final) by done.
  assert ((if b then set_Instance_Status (set_Status_PublicUrl (Auth_NextAuthUrl (Spec_Auth (Instance_Spec final)))
             (set_Status_Version (Image_Tag (Spec_Image (Instance_Spec final))) (Instance_Status final))) final
           else final) = final) as ->.
  { destruct b; [|done]. apply set_Instance_Status_same. fold st. injection D6 as V U. rewrite D4, <- V, <- U. by destruct st. }
  apply set_condition_present. rewrite D5. exact D3.
Qed.

Lemma final_initial : withInitialPhase final = final.
Proof.
  unfold withInitialPhase. destruct (derivedStatus_spec seen b) as (D1 & _). fold final in D1.
  pose proof (phase_nonempty final) as Hn. rewrite D1 in Hn. cbn in Hn. by rewrite Hn.
Qed.

Lemma find_final t : t ≠ conditionTypeReady → find_condition final t = find_condition base t.
Proof.
  intros Ht. unfold final, derivedStatus. destruct (derivePhase seen).
  rewrite find_instance_condition, decide_False by done. destruct seen_keeps as [_ Hc].
  unfold find_condition. rewrite <- Hc. by destruct b.
Qed.

Lemma final_web : look_effect webStatus web final = final.
Proof.
  cut (∀ l, web = l → look_effect webStatus l final = final); [by eauto|].
  intros [|d issues] Ew; [done|]. cbn [look_effect]. unfold webStatus at 1.
  apply set_Instance_Status_same, set_Status_Web_same. destruct final_keeps as ([Fm _ _ _] & -> & _).
  transitivity (Status_Web (Instance_Status (webStatus base d issues))).
  { unfold seen. rewrite Ew. by destruct worker. }
  unfold webStatus, WebServiceName. cbn. by rewrite Fm, (hands_meta _ _ HB).
Qed.

Lemma final_worker : look_effect workerStatus worker final = final.
Proof.
  cut (∀ l, worker = l → look_effect workerStatus l final = final); [by eauto|].
  intros [|d issues] Ew; [done|]. cbn [look_effect]. unfold workerStatus at 1. cbv zeta.
  apply set_Instance_Status_same, set_Status_Worker_same. destruct final_keeps as (_ & _ & ->).
  unfold seen. by rewrite Ew.
Qed.
End fixpoint.

(** ** The three ways a pass publishes a status *)

Section settle.
Context `{API : ConditionAPI} {AL : ConditionLaws API} `{OWN : OwnerAPI} `{QUANT : QuantityParser}.

(** Preparing and freezing an instance hand it on, and are idempotent across the
    status update. *)
Lemma prepared_hands_on i : hands_on i (prepared i).
Proof.
  unfold prepared, setDeprecationCondition, withInitialPhase.
  destruct (nonempty_str _), (deprecatedFields _); by split.
Qed.

Lemma frozen_hands_on i : hands_on i (freeze (moved i) (withInitialPhase i)).
Proof. unfold freeze, withInitialPhase. destruct (nonempty_str _); by split. Qed.

Lemma final_prepared i web worker :
  let final := derivedStatus (look_effect workerStatus worker (look_effect webStatus web (prepared i))) true in
  prepared final = final.
Proof.
  cbv zeta. destruct (final_keeps i (prepared i) true web worker (prepared_hands_on i)) as [[Fm Fs _ _] _].
  pose proof (final_initial (prepared i) true web worker) as E1.
  pose proof (find_final i (prepared i) true web worker (prepared_hands_on i)) as Hf.
  set (final := derivedStatus _ true) in *.
  assert (remove_condition conditionTypeDatastoreTarget final = final) as E2.
  { apply remove_condition_absent. rewrite Hf by done. unfold prepared, setDeprecationCondition.
    destruct (deprecatedFields _); [rewrite find_remove_condition|rewrite find_instance_condition];
      rewrite decide_False by done; by rewrite find_remove_condition, decide_True. }
  unfold prepared at 1. rewrite E1, E2. unfold setDeprecationCondition. rewrite (deprecatedFields_ext i final) by done.
  assert (find_condition (prepared i) conditionTypeDeprecated =
          match deprecatedFields i with
          | [] => None
          | _ => Some (condition conditionTypeDeprecated ConditionTrue "ManagedDatastoresDeprecated"
                   ("Deprecated fields in use, removal in 0.11.0: " +:+ Join (deprecatedFields i) "; ")
                   (om_Generation (Instance_ObjectMeta i)))
          end) as E3.
  { unfold prepared, setDeprecationCondition.
    assert (deprecatedFields (remove_condition conditionTypeDatastoreTarget (withInitialPhase i)) = deprecatedFields i) as ->.
    { apply deprecatedFields_ext. cbn. by destruct (withInitialPhase_keeps i) as (_ & -> & _). }
    destruct (deprecatedFields i); [by rewrite find_remove_condition, decide_True|].
    rewrite find_instance_condition, decide_True by done.
    cbn. by destruct (withInitialPhase_keeps i) as (-> & _). }
  rewrite <- Hf in E3 by done. revert E3.
  destruct (deprecatedFields i) as [|f fs] eqn:Ef; intros E3; [by apply remove_condition_absent|].
  apply set_condition_present. by rewrite Fm.
Qed.

Lemma final_frozen i web worker :
  let base := freeze (moved i) (withInitialPhase i) in
  let final := derivedStatus (look_effect workerStatus worker (look_effect webStatus web base)) false in
  freeze (moved final) (withInitialPhase final) = final.
Proof.
  cbv zeta. pose proof (frozen_hands_on i) as HB. set (base := freeze (moved i) _) in *.
  destruct (final_keeps i base false web worker HB) as [[Fm Fs Fg Fd] _].
  pose proof (final_initial base false web worker) as E1.
  pose proof (find_final i base false web worker HB conditionTypeDatastoreTarget) as Hf.
  set (final := derivedStatus _ false) in *.
  rewrite E1, (proj1 (moved_ext i final Fm Fs Fg Fd)). apply set_condition_present. rewrite Hf by done.
  unfold base, freeze. rewrite find_instance_condition, decide_True by done. rewrite Fm.
  by destruct (withInitialPhase_keeps i) as (-> & _).
Qed.

(** What was found when a status update wrote: the two looks. *)
Lemma status_calls_found i base original b r cs i' e :
  hands_on i base → status_calls base original b r cs → CUpdateStatus i' e ∈ cs →
  ∃ web worker cs1 cs2 ws,
    cs = cs1 ++ cs2 ++ ws ∧ Forall (λ c, ¬ is_look c) ws ∧ Forall is_look (cs1 ++ cs2) ∧
    look_calls i (WebName i) componentWeb web cs1 ∧ look_calls i (WorkerName i) componentWorker worker cs2 ∧
    i' = derivedStatus (look_effect workerStatus worker (look_effect webStatus web base)) b ∧
    Instance_Status original ≠ Instance_Status i'.
Proof.
  intros HB Hs Hin. destruct Hs as [e' cs Hf|i1 i2 cs1 cs2 r ws H1 H2 Hw].
  { rewrite Forall_forall in Hf. by apply Hf in Hin. }
  pose proof (observed_look _ _ _ _ _ _ H1) as F1. pose proof (observed_look _ _ _ _ _ _ H2) as F2.
  destruct (derived_looks _ _ _ _ _ H1 H2) as (web & worker & -> & L1 & L2).
  exists web, worker, cs1, cs2, ws. pose proof (hands_meta _ _ HB) as Hm.
  unfold WebName, WorkerName in L1, L2. rewrite Hm in L1, L2.
  split; [done|]. split; [|split; [by apply Forall_app|]].
  { apply Forall_forall. intros c Hc. destruct (status_write_elem _ _ _ _ _ Hw Hc) as [? ->]. intros []. }
  split; [by apply (look_calls_meta _ i) in L1|]. split; [by apply (look_calls_meta _ i) in L2|].
  rewrite Forall_forall in F1, F2. rewrite !elem_of_app in Hin. destruct Hin as [Hin|[Hin|Hin]].
  1: by apply F1 in Hin.
  1: by apply F2 in Hin.
  destruct Hw as [(_ & _ & ->)|(Hne & e0 & _ & ->)]; [by apply elem_of_nil in Hin|].
  apply list_elem_of_singleton in Hin. by injection Hin as -> _.
Qed.

(** How a pass came to write a status: the looks it is derived from, or a refused
    configuration. *)
Inductive origin (i : LangfuseInstance) (web worker : Look) : LangfuseInstance → Prop :=
  | origin_frozen :
      moved i ≠ [] →
      origin i web worker
        (derivedStatus (look_effect workerStatus worker (look_effect webStatus web
           (freeze (moved i) (withInitialPhase i)))) false)
  | origin_completed :
      moved i = [] → is_ok (BuildConfig i) = true →
      origin i web worker
        (derivedStatus (look_effect workerStatus worker (look_effect webStatus web (prepared i))) true)
  | origin_misconfigured e :
      moved i = [] → BuildConfig i = Err e →
      origin i web worker
        (configError e (remove_condition conditionTypeDatastoreTarget (withInitialPhase i))).

(** The pass over a published status computes that status again. *)
Lemma origin_again i web worker i' i'' :
  origin i web worker i' → origin i' web worker i'' → i'' = i'.
Proof.
  intros [Hm|Hm Hok|e Hm Hc].
  - pose proof (frozen_hands_on i) as HB. pose proof (final_frozen i web worker) as Hbase. cbv zeta in Hbase.
    destruct (final_keeps i _ false web worker HB) as [[Fm Fs Fg Fd] _].
    pose proof (final_web i _ false web worker HB) as Ew. pose proof (final_worker i _ false web worker HB) as Ek.
    pose proof (final_derived (freeze (moved i) (withInitialPhase i)) false web worker) as Ed.
    set (final := derivedStatus _ false) in *. destruct (moved_ext i final Fm Fs Fg Fd) as [Em Ec].
    intros [Hn|Hn ?|e Hn ?]; [|congruence..]. by rewrite Hbase, Ew, Ek, Ed.
  - pose proof (prepared_hands_on i) as HB. pose proof (final_prepared i web worker) as Hbase. cbv zeta in Hbase.
    destruct (final_keeps i _ true web worker HB) as [[Fm Fs Fg Fd] _].
    pose proof (final_web i _ true web worker HB) as Ew. pose proof (final_worker i _ true web worker HB) as Ek.
    pose proof (final_derived (prepared i) true web worker) as Ed.
    set (final := derivedStatus _ true) in *. destruct (moved_ext i final Fm Fs Fg Fd) as [Em Ec].
    intros [Hn|Hn ?|e Hn He]; [congruence| |rewrite <- Ec, He in Hok; done]. by rewrite Hbase, Ew, Ek, Ed.
  - assert (withInitialPhase (configError e (remove_condition conditionTypeDatastoreTarget (withInitialPhase i))) =
            configError e (remove_condition conditionTypeDatastoreTarget (withInitialPhase i))) as E1.
    { unfold withInitialPhase at 1. unfold configError, set_condition, remove_condition, withInitialPhase. cbn.
      destruct (nonempty_str (Status_Phase (Instance_Status i))) eqn:E; cbn; by rewrite ?E. }
    assert (∀ t, find_condition (configError e (remove_condition conditionTypeDatastoreTarget (withInitialPhase i))) t =
              if decide (t = conditionTypeReady) then Some (condition conditionTypeReady ConditionFalse "ConfigError"
                 (err_msg e) (om_Generation (Instance_ObjectMeta i)))
              else if decide (t = conditionTypeDatastoreTarget) then None
              else find_condition (withInitialPhase i) t) as Hfind.
    { intros t. unfold configError. rewrite find_instance_condition, find_remove_condition. cbn.
      by destruct (withInitialPhase_keeps i) as (-> & _). }
    assert (hands_on i (configError e (remove_condition conditionTypeDatastoreTarget (withInitialPhase i)))) as [Fm Fs Fg Fd].
    { unfold configError, set_condition, remove_condition, withInitialPhase. destruct (nonempty_str _); by split. }
    set (final := configError e _) in *. destruct (moved_ext i final Fm Fs Fg Fd) as [Em Ec].
    intros [Hn|Hn Hok|e' Hn He]; [congruence|rewrite Ec, Hc in Hok; done|].
    rewrite Ec, Hc in He. injection He as <-. rewrite E1, remove_condition_absent by by rewrite Hfind.
    unfold configError. apply set_condition_present. by rewrite Hfind, Fm.
Qed.
End settle.

(** ** Passes over equal answers *)

(** The looks of a pass at the cluster, with the answers. *)
Definition lookb (c : Call) : bool :=
  match c with CGetDeployment _ _ | CListPods _ _ _ => true | _ => false end.
Definition looks (cs : list Call) : list Call := filter (λ c, lookb c = true) cs.

Lemma looks_app cs1 cs2 : looks (cs1 ++ cs2) = looks cs1 ++ looks cs2.
Proof. apply filter_app. Qed.

Lemma looks_all cs : Forall is_look cs → looks cs = cs.
Proof.
  induction 1 as [|c cs Hc]; [done|]. unfold looks. rewrite filter_cons_True by by destruct c.
  fold (looks cs). by rewrite IHForall.
Qed.

Lemma looks_none cs : Forall (λ c, ¬ is_look c) cs → looks cs = [].
Proof.
  induction 1 as [|c cs Hc]; [done|]. unfold looks. rewrite filter_cons_False by (by destruct c; auto). done.
Qed.

Lemma elem_of_looks c cs : c ∈ looks cs → c ∈ cs.
Proof. unfold looks. rewrite list_elem_of_filter. by intros [_ ?]. Qed.

Section passes.
Context `{API : ConditionAPI} {AL : ConditionLaws API} `{OWN : OwnerAPI} `{QUANT : QuantityParser}.

Lemma applied_not_look i l ok cs : applied i l ok cs → Forall (λ c, ¬ is_look c) cs.
Proof.
  intros Ha. apply Forall_forall. intros c Hin.
  destruct (applied_calls _ _ _ _ _ Ha Hin) as [(? & ? & ? & _ & _ & ->)|(? & _ & ->)]; intros [].
Qed.

(** Where a status written by a pass comes from. *)
Inductive found (i i' : LangfuseInstance) (cs : list Call) : Prop :=
  | found_anyway : (∀ web worker, origin i web worker i') → found i i' cs
  | found_looking web worker cs1 cs2 :
      origin i web worker i' → looks cs = cs1 ++ cs2 →
      look_calls i (WebName i) componentWeb web cs1 → look_calls i (WorkerName i) componentWorker worker cs2 →
      found i i' cs.

Lemma pass_found i out cs i' e :
  pass_calls i out cs → CUpdateStatus i' e ∈ cs →
  found i i' cs ∧ Instance_Status i ≠ Instance_Status i'.
Proof.
  intros [r cs' Hm Hs|ce r cs' Hm Hc Hw|config ce cs' Hm Hc Ha|config r cs1 cs2 Hm Hc Ha Hs] Hin.
  - destruct (status_calls_found i _ _ _ _ _ _ _ (frozen_hands_on i) Hs Hin)
      as (web & worker & l1 & l2 & ws & -> & Hws & Hl & L1 & L2 & -> & Hne).
    split; [|done]. eapply found_looking; [by apply origin_frozen| |exact L1|exact L2].
    by rewrite app_assoc, looks_app, (looks_all _ Hl), (looks_none _ Hws), app_nil_r.
  - destruct Hw as [(_ & _ & ->)|(Hne & e0 & _ & ->)]; [by apply elem_of_nil in Hin|].
    apply list_elem_of_singleton in Hin. injection Hin as -> _. split; [|done].
    apply found_anyway. intros. by apply origin_misconfigured.
  - by destruct (applied_no_status _ _ _ _ i' e Ha).
  - apply elem_of_app in Hin as [Hin|Hin]; [by destruct (applied_no_status _ _ _ _ i' e Ha)|].
    destruct (status_calls_found i _ _ _ _ _ _ _ (prepared_hands_on i) Hs Hin)
      as (web & worker & l1 & l2 & ws & -> & Hws & Hl & L1 & L2 & -> & Hne).
    split; [|done]. eapply found_looking; [apply origin_completed; [done|by rewrite Hc]| |exact L1|exact L2].
    rewrite looks_app, (looks_none _ (applied_not_look _ _ _ _ Ha)), app_assoc, looks_app.
    by rewrite (looks_all _ Hl), (looks_none _ Hws), app_nil_r.
Qed.

Lemma origin_keeps i web worker i' : origin i web worker i' → Instance_ObjectMeta i' = Instance_ObjectMeta i.
Proof.
  intros [Hm|Hm Hok|e Hm Hc].
  - by destruct (final_keeps i _ false web worker (frozen_hands_on i)) as [[-> _ _ _] _].
  - by destruct (final_keeps i _ true web worker (prepared_hands_on i)) as [[-> _ _ _] _].
  - unfold configError, set_condition, remove_condition, withInitialPhase. by destruct (nonempty_str _).
Qed.

(** Agreeing answers: two passes that look at all of a Deployment and its pods learn
    the same. *)
Definition agreeing (i : LangfuseInstance) (cs cs' : list Call) : Prop :=
  ∀ web worker l1 l2 web' worker' l1' l2',
    looks cs = l1 ++ l2 → looks cs' = l1' ++ l2' →
    look_calls i (WebName i) componentWeb web l1 → look_calls i (WorkerName i) componentWorker worker l2 →
    look_calls i (WebName i) componentWeb web' l1' → look_calls i (WorkerName i) componentWorker worker' l2' →
    web' = web ∧ worker' = worker.

Lemma pass_settles i out cs i' e out' cs' :
  pass_calls i out cs → CUpdateStatus i' e ∈ cs → pass_calls i' out' cs' → agreeing i cs cs' →
  ∀ j e', CUpdateStatus j e' ∉ cs'.
Proof.
  intros Hp Hin Hp' Hag j e' Hin'.
  destruct (pass_found _ _ _ _ _ Hp Hin) as [Hf _]. destruct (pass_found _ _ _ _ _ Hp' Hin') as [Hf' Hne].
  apply Hne. f_equal. symmetry.
  destruct Hf' as [Ho'|web' worker' l1' l2' Ho' Hl' L1' L2'].
  - destruct Hf as [Ho|web worker l1 l2 Ho _ _ _]; [specialize (Ho LookAbsent LookAbsent)|];
      eapply origin_again; eauto.
  - destruct Hf as [Ho|web worker l1 l2 Ho Hl L1 L2]; [by eapply origin_again; eauto|].
    pose proof (origin_keeps _ _ _ _ Ho) as Hm.
    assert (WebName i' = WebName i ∧ WorkerName i' = WorkerName i) as [Ew Ek] by (unfold WebName, WorkerName; by rewrite Hm).
    rewrite Ew in L1'. rewrite Ek in L2'. apply (look_calls_meta i' i) in L1', L2'; [|done..].
    destruct (Hag _ _ _ _ _ _ _ _ Hl Hl' L1 L2 L1' L2') as [-> ->]. by eapply origin_again.
Qed.
End passes.

Section settles.
Context {W : Type} `{KubeClient W} `{ApplyClient W} `{API : ConditionAPI} `{OWN : OwnerAPI}.
Context `{SCH : Scheme} `{QUANT : QuantityParser} {AL : ConditionLaws API}.

(** C14: an instance settles.  Let a pass over an instance publish a status, be it
    running, frozen on a moved datastore or refused for its configuration, and let the
    next pass read back what was published and find the same Deployments and pods: it
    writes no status, so the write wakes the controller once and no chain of status
    updates follows. *)
Theorem instance_settles i w out w1 tr i' e w2 out2 w2' tr2 :
  run (reconcileInstance i) w = (out, w1, tr) → CUpdateStatus i' e ∈ tr →
  run (reconcileInstance i') w2 = (out2, w2', tr2) → looks tr2 = looks tr →
  ∀ j e', CUpdateStatus j e' ∉ tr2.
Proof.
  intros Hrun Hin Hrun2 Hlooks.
  eapply pass_settles; [exact (traces_run _ _ _ _ _ _ (live_pass_traces i) Hrun)|exact Hin
    |exact (traces_run _ _ _ _ _ _ (live_pass_traces i') Hrun2)|].
  intros web worker l1 l2 web' worker' l1' l2' E1 E2 L1 L2 L1' L2'. rewrite Hlooks, E1 in E2. symmetry in E2.
  destruct (look_calls_det _ _ _ _ _ _ _ _ _ L1' L1 E2) as (-> & -> & E3).
  by destruct (look_calls_det _ _ _ _ _ _ _ [] [] L2' L2 ltac:(by rewrite !app_nil_r)) as (-> & _).
Qed.
End settles.

(** ** Chains of passes started by status writes

    The environment holds still: Deployments and pods answer the same to everybody, no
    timer runs out, nothing but statuses is written.  [queue] holds the controllers with
    a request for the instance. *)

Record Environment := mkEnvironment {
  env_deployment : NamespacedName → result Deployment;
  env_pods : string → gmap string string → result (list Pod)
}.

Definition answered (E : Environment) (c : Call) : Prop :=
  match c with
  | CGetDeployment k r => r = env_deployment E k
  | CListPods ns selector r => r = env_pods E ns selector
  | _ => True
  end.

Definition all_controllers : list Controller :=
  [LangfuseInstanceReconciler; MigrationController; SecretController; HealthMonitorReconciler;
   RetentionController; SchemaDriftController; CircuitBreakerController].

Record Churn := mkChurn { current : LangfuseInstance; queue : list Controller }.

(** The status the server accepted from a pass. *)
Definition accepted (tr : list Call) : option LangfuseInstance :=
  head (omap (λ c, match c with CUpdateStatus i None => Some i | _ => None end) tr).

(** A queue holds a request once. *)
Definition enqueue (q new : list Controller) : list Controller := q ++ filter (λ c, c ∉ q) new.
Definition dequeue (c : Controller) (q : list Controller) : list Controller := filter (λ c', c' ≠ c) q.

Section churn.
Context {W : Type} `{KubeClient W} `{ApplyClient W} `{API : ConditionAPI} {AL : ConditionLaws API} `{OWN : OwnerAPI}.
Context `{SCH : Scheme} `{QUANT : QuantityParser} `{PROBES : DependencyProbes W} {PRL : ProbeLaws PROBES}.
Context `{ORD : MapOrder} `{ENT : Secrets.Entropy W} `{HASH : Secrets.Hasher}.
Context `{HTTP : HTTPTransport W} `{PEM : ClickHouse.PEMParser} `{PRED : PredicateAPI} {PL : PredicateLaws PRED}.
Context `{OWNER : OwnerHandler}.

(** Who gets a request for the instance when a status write of [i'] over [i] is seen. *)
Definition woken (RESTMapping : GroupVersionKind → bool) (w : W) (i i' : LangfuseInstance) : list Controller :=
  filter (λ c, om_key (Instance_ObjectMeta i) ∈
                 (run (requests (setup RESTMapping c) (Updated (instance_object i) (instance_object i'))) w).1.1)
    all_controllers.

(** A controller with a request runs a pass over the current instance. *)
Inductive churn_step (RESTMapping : GroupVersionKind → bool) (E : Environment) : Churn → Churn → Prop :=
  | churn_quiet i q c mem req w out w' tr :
      c ∈ q → run (reconcile c mem req) w = (out, w', tr) →
      head tr = Some (CGetInstance req (Ok i)) → Forall (answered E) tr →
      accepted tr = None → churn_step RESTMapping E (mkChurn i q) (mkChurn i (dequeue c q))
  | churn_write i q c mem req w out w' tr i' :
      c ∈ q → run (reconcile c mem req) w = (out, w', tr) →
      head tr = Some (CGetInstance req (Ok i)) → Forall (answered E) tr →
      accepted tr = Some i' →
      churn_step RESTMapping E (mkChurn i q)
        (mkChurn (stored i i') (enqueue (dequeue c q) (woken RESTMapping w' i (stored i i')))).

(** How many controllers other than the instance controller have a request, and
    whether that one has. *)
Definition others (q : list Controller) : nat := length (dequeue LangfuseInstanceReconciler q).
Definition pending (q : list Controller) : nat := if decide (LangfuseInstanceReconciler ∈ q) then 1 else 0.

(** The instance carries what a pass of the instance controller just published. *)
Definition settled (E : Environment) (i : LangfuseInstance) : Prop :=
  ∃ i0 out cs e, pass_calls i0 out cs ∧ CUpdateStatus i e ∈ cs ∧ Forall (answered E) cs.

Lemma woken_instance RESTMapping w i i' :
  Instance_ObjectMeta i' = Instance_ObjectMeta i →
  woken RESTMapping w i i' = [LangfuseInstanceReconciler].
Proof.
  intros Hm. unfold woken.
  assert (∀ c, (run (requests (setup RESTMapping c) (Updated (instance_object i) (instance_object i'))) w).1.1 =
     if wakes c (Updated (instance_object i) (instance_object i')) then [om_key (Instance_ObjectMeta i')] else []) as Hr.
  { intros c. rewrite instance_requests by by exists i'. done. }
  assert (generation_moved (instance_object i) (instance_object i') = false) as Hg.
  { unfold generation_moved, instance_object. cbn. rewrite Hm, Z.eqb_refl. done. }
  unfold all_controllers. rewrite filter_cons_True by (rewrite Hr, Hm; cbn; by left).
  repeat (rewrite filter_cons_False by (rewrite Hr; cbn [wakes]; rewrite Hg; apply not_elem_of_nil)). done.
Qed.

(** *** Queues *)

Lemma filter_length_lt {A} (P : A → Prop) `{∀ x, Decision (P x)} (l : list A) x :
  x ∈ l → ¬ P x → (length (filter P l) < length l)%nat.
Proof.
  intros Hx Hp. induction l as [|y l IH]; [by apply elem_of_nil in Hx|]. rewrite filter_cons.
  pose proof (length_filter P l) as Hle. case_decide; cbn; [|lia].
  apply elem_of_cons in Hx as [->|Hx]; [done|]. specialize (IH Hx). lia.
Qed.

Lemma others_dequeue c q :
  c ∈ q → (others (dequeue c q) + (if decide (c = LangfuseInstanceReconciler) then 0 else 1) ≤ others q)%nat.
Proof.
  intros Hc. unfold others, dequeue. rewrite list_filter_filter.
  rewrite (list_filter_iff _ (λ c', c' ≠ c ∧ c' ≠ LangfuseInstanceReconciler)) by naive_solver.
  case_decide as Hi.
  - rewrite (list_filter_iff _ (λ c', c' ≠ LangfuseInstanceReconciler)) by (subst; naive_solver). lia.
  - rewrite <- list_filter_filter.
    assert (c ∈ filter (λ c', c' ≠ LangfuseInstanceReconciler) q) as Hin by (by apply list_elem_of_filter).
    pose proof (filter_length_lt (λ c', c' ≠ c) _ c Hin ltac:(naive_solver)). lia.
Qed.

Lemma others_enqueue q : others (enqueue q [LangfuseInstanceReconciler]) = others q.
Proof.
  unfold others, dequeue, enqueue. rewrite filter_app, length_app.
  rewrite filter_cons. case_decide; rewrite ?filter_cons, ?filter_nil; repeat case_decide; cbn; done || lia.
Qed.

Lemma pending_dequeue q : pending (dequeue LangfuseInstanceReconciler q) = 0%nat.
Proof. unfold pending, dequeue. rewrite decide_False; [done|]. rewrite list_elem_of_filter. naive_solver. Qed.

Lemma pending_le q : (pending q ≤ 1)%nat.
Proof. unfold pending. case_decide; lia. Qed.

Lemma pending_in q : LangfuseInstanceReconciler ∈ q → pending q = 1%nat.
Proof. intros Hq. unfold pending. by rewrite decide_True. Qed.

(** *** One pass *)

Lemma answered_looks E cs : Forall (answered E) (looks cs) → Forall (answered E) cs.
Proof.
  induction cs as [|c cs IH]; [done|]. unfold looks. rewrite filter_cons. destruct (decide (lookb c = true)) as [Hl|Hl].
  - intros [? ?]%Forall_cons. constructor; auto.
  - intros Hf. constructor; [by destruct c|by apply IH].
Qed.

Lemma answered_agree E i cs cs' : Forall (answered E) cs → Forall (answered E) cs' → agreeing i cs cs'.
Proof.
  intros F F' web worker l1 l2 web' worker' l1' l2' E1 E2 L1 L2 L1' L2'.
  assert (∀ c, c ∈ l1 ++ l2 → answered E c) as A.
  { intros c Hc. rewrite Forall_forall in F. apply F, elem_of_looks. by rewrite E1. }
  assert (∀ c, c ∈ l1' ++ l2' → answered E c) as A'.
  { intros c Hc. rewrite Forall_forall in F'. apply F', elem_of_looks. by rewrite E2. }
  assert (∀ n comp k k' l l', look_calls i n comp k l → look_calls i n comp k' l' →
            (∀ c, c ∈ l → answered E c) → (∀ c, c ∈ l' → answered E c) → k' = k) as Hdet.
  { intros n comp k k' l l' Hl Hl' B B'.
    destruct Hl as [e He|d G1 G2|d r Hn]; destruct Hl' as [e' He'|d' G1' G2'|d' r' Hn']; try done;
      pose proof (B _ ltac:(by left)) as X; pose proof (B' _ ltac:(by left)) as X'; cbn in X, X';
      rewrite <- X in X'; try discriminate X'; injection X' as ->; try done; try (by destruct Hn); try (by destruct Hn').
    pose proof (B _ ltac:(by right; left)) as Y. pose proof (B' _ ltac:(by right; left)) as Y'. cbn in Y, Y'. by subst. }
  split; eapply Hdet; eauto; intros c Hc;
    first [apply A; apply elem_of_app; by auto|apply A'; apply elem_of_app; by auto].
Qed.

Lemma accepted_elem tr i' : accepted tr = Some i' → CUpdateStatus i' None ∈ tr.
Proof.
  unfold accepted. intros Hh%head_Some_elem_of. apply list_elem_of_omap in Hh as ([] & Hc & Hw); try done.
  by destruct e; simplify_eq.
Qed.

Lemma pass_read c mem req w out w' tr i i' e :
  run (reconcile c mem req) w = (out, w', tr) → head tr = Some (CGetInstance req (Ok i)) →
  CUpdateStatus i' e ∈ tr → guarantee c i i'.
Proof. intros Hrun Hh Hin. apply publishes_guarantee. by repeat eexists. Qed.

Lemma instance_pass_read mem req w out w' tr i i' e :
  run (reconcile LangfuseInstanceReconciler mem req) w = (out, w', tr) → head tr = Some (CGetInstance req (Ok i)) →
  CUpdateStatus i' e ∈ tr → ∃ o cs, pass_calls i o cs ∧ CUpdateStatus i' e ∈ cs ∧ cs ⊆ tr.
Proof.
  intros Hrun Hh Hin. cbn [reconcile] in Hrun.
  assert (traces (λ (p : Outcome * CircuitBreaker.Memory) cs, whole_pass req p.1 cs)
            (out ← Instance.Reconcile req; mret (out, mem))) as Ht.
  { eapply traces_bind; [apply instance_pass_traces|]. intros o cs Ho. apply traces_mret. by rewrite app_nil_r. }
  destruct (traces_run _ _ _ _ _ _ Ht Hrun) as (g & rest & -> & Hg). injection Hh as ->.
  apply elem_of_cons in Hin as [|Hin]; [done|]. destruct Hg as [[_ ->]|[_ Hp]]; [by apply elem_of_nil in Hin|].
  exists out.1, rest. split_and!; [done..|]. intros c Hc. by right.
Qed.

(** An instance that has settled is not written again. *)
Lemma settled_quiet E i mem req w out w' tr :
  settled E i → run (reconcile LangfuseInstanceReconciler mem req) w = (out, w', tr) →
  head tr = Some (CGetInstance req (Ok i)) → Forall (answered E) tr → accepted tr = None.
Proof.
  intros (i0 & o0 & cs0 & e0 & Hp & Hin & Hf) Hrun Hh Ha.
  destruct (accepted tr) as [i'|] eqn:Eacc; [|done]. apply accepted_elem in Eacc.
  destruct (instance_pass_read _ _ _ _ _ _ _ _ _ Hrun Hh Eacc) as (o & cs & Hp' & Hin' & Hsub).
  destruct (pass_settles _ _ _ _ _ _ _ Hp Hin Hp') with (j := i') (e' := None (A := GoError)); [|done].
  apply (answered_agree E); [done|]. rewrite Forall_forall in Ha |- *. auto.
Qed.

Lemma churn_bounds RESTMapping E n s s' :
  nsteps (churn_step RESTMapping E) n s s' →
  (n ≤ 3 * others (queue s) + 2 * pending (queue s))%nat ∧
  (settled E (current s) → n ≤ 3 * others (queue s) + pending (queue s))%nat.
Proof.
  revert s. induction n as [|n IH]; intros s Hn; [lia|].
  inversion Hn as [|? ? s1 ? Hst Hrest]; subst. apply IH in Hrest as [H1 H2]. clear IH Hn.
  destruct Hst as [i q c mem req w out w' tr Hc Hrun Hh Hf Ha|i q c mem req w out w' tr i' Hc Hrun Hh Hf Ha];
    cbn [queue current] in *; pose proof (others_dequeue c q Hc) as Ho.
  - destruct (decide (c = LangfuseInstanceReconciler)) as [->|Hne].
    + rewrite pending_dequeue in H1. rewrite (pending_in q Hc). lia.
    + pose proof (pending_le (dequeue c q)). lia.
  - pose proof (accepted_elem _ _ Ha) as Hin. pose proof (pass_read _ _ _ _ _ _ _ _ _ _ Hrun Hh Hin) as Hg.
    rewrite (stored_published _ _ _ Hg) in *.
    rewrite (woken_instance _ _ _ _ (framed_meta _ _ _ (guarantee_frame _ _ _ Hg))) in *. rewrite others_enqueue in *.
    pose proof (pending_le (enqueue (dequeue c q) [LangfuseInstanceReconciler])) as Hp.
    destruct (decide (c = LangfuseInstanceReconciler)) as [->|Hne]; [|lia].
    rewrite (pending_in q Hc). split.
    + destruct (instance_pass_read _ _ _ _ _ _ _ _ _ Hrun Hh Hin) as (o & cs & Hp' & Hin' & Hsub).
      assert (settled E i') as Hs.
      { exists i, o, cs, None. split_and!; [done..|]. rewrite Forall_forall in Hf |- *. auto. }
      specialize (H2 Hs). lia.
    + intros Hs. rewrite (settled_quiet E _ _ _ _ _ _ _ Hs Hrun Hh Hf) in Ha. done.
Qed.

Lemma others_six q : NoDup q → (others q ≤ 6)%nat.
Proof.
  intros Hq. unfold others. change 6%nat with (length (tail all_controllers)). apply submseteq_length, NoDup_submseteq.
  - by apply NoDup_filter.
  - intros c [Hc _]%list_elem_of_filter. destruct c; [done|cbn; set_solver..].
Qed.

(** C15: status writes cannot keep the operator busy.  While the Deployments and pods
    hold still, start from any status and any queue of controllers with a request for
    the instance: each pass takes a request, and a status it writes makes one at most,
    for the instance controller, which does not write twice in a row.  So the passes
    that follow from status writes alone are bounded: three for every other controller
    in the queue and two for the instance controller, twenty in all. *)
Theorem status_churn_ends RESTMapping E n s s' :
  nsteps (churn_step RESTMapping E) n s s' →
  (n ≤ 3 * others (queue s) + 2 * pending (queue s))%nat ∧ (NoDup (queue s) → n ≤ 20)%nat.
Proof.
  intros [Hn _]%churn_bounds. split; [exact Hn|]. intros Hq.
  pose proof (others_six _ Hq). pose proof (pending_le (queue s)). lia.
Qed.
End churn.

(** ** Witnesses *)

Lemma instance_settles_witness :
  ¬ ∃ j e, CUpdateStatus j e ∈ (ex_reconcile (published_status (ex_reconcile ex_full empty_cluster).2)
                                  (ex_reconcile ex_full empty_cluster).1.2).2.
Proof.
  intros (j & e & Hj). revert Hj. revert j e.
  assert (CUpdateStatus (published_status (ex_reconcile ex_full empty_cluster).2) None
            ∈ (ex_reconcile ex_full empty_cluster).2) as Hin by (apply writes_status; by vm_compute).
  apply (instance_settles (AL := list_conditions_laws) ex_full empty_cluster _ _ _ _ None
    (ex_reconcile ex_full empty_cluster).1.2 _ _ _
    (ex_reconcile_run ex_full empty_cluster) Hin (ex_reconcile_run _ _)).
  vm_cast_no_check (eq_refl (looks (ex_reconcile ex_full empty_cluster).2)).
Defined.

(** A new instance, its controller woken: it publishes a status, and looks again. *)
Definition ex_new : LangfuseInstance := ex_instance "3.1" "pg" "db".
Definition ex_noted : LangfuseInstance := stored ex_new (ex_written LangfuseInstanceReconciler ex_new).
Definition ex_instance_trace (i : LangfuseInstance) : list Call := (ex_pass_of LangfuseInstanceReconciler i).2.

(** The Deployments the first pass applied, with no pods yet. *)
Definition ex_still : Environment :=
  mkEnvironment (λ k, (kc_get_deployment k (ex_pass_of LangfuseInstanceReconciler ex_new).1.2).1) (λ _ _, Ok []).

Section example.
#[local] Existing Instances list_conditions list_owner Instance.full_scheme simple_quantities list_order
  Secrets.zero_entropy Secrets.id_hash Retention.accepting Retention.any_pem generation_predicate list_owner_handler.
#[local] Instance ex_still_probes : DependencyProbes FakeCluster := fixed_probes true true true.

Lemma ex_looks i : i = ex_new ∨ i = ex_noted →
  looks (ex_instance_trace i) =
    [CGetDeployment (in_ns ex_new (WebName ex_new)) (env_deployment ex_still (in_ns ex_new (WebName ex_new)));
     CListPods "prod" (SelectorLabels ex_new componentWeb) (env_pods ex_still "prod" (SelectorLabels ex_new componentWeb));
     CGetDeployment (in_ns ex_new (WorkerName ex_new)) (env_deployment ex_still (in_ns ex_new (WorkerName ex_new)));
     CListPods "prod" (SelectorLabels ex_new componentWorker)
       (env_pods ex_still "prod" (SelectorLabels ex_new componentWorker))].
Proof. intros [->| ->]; by vm_compute. Qed.

Lemma ex_answered i : i = ex_new ∨ i = ex_noted → Forall (answered ex_still) (ex_instance_trace i).
Proof. intros Hi. apply answered_looks. rewrite (ex_looks i Hi). by repeat constructor. Qed.

Lemma ex_first_accepted :
  accepted (ex_instance_trace ex_new) = Some (ex_written LangfuseInstanceReconciler ex_new).
Proof. by vm_compute. Qed.

Lemma ex_second_accepted : accepted (ex_instance_trace ex_noted) = None.
Proof. by vm_compute. Qed.

Lemma ex_reads i : i = ex_new ∨ i = ex_noted → head (ex_instance_trace i) = Some (CGetInstance ex_key (Ok i)).
Proof. intros [->| ->]; by vm_compute. Qed.

Lemma ex_chain :
  nsteps (churn_step (W := FakeCluster) ex_all_apis ex_still) 2
    (mkChurn ex_new [LangfuseInstanceReconciler]) (mkChurn ex_noted []).
Proof.
  eapply nsteps_l.
  - exact (churn_write ex_all_apis ex_still ex_new [LangfuseInstanceReconciler] LangfuseInstanceReconciler
      CircuitBreaker.empty_memory ex_key _ _ _ _ _ (list_elem_of_here _ _)
      (triple_eta (ex_pass_of LangfuseInstanceReconciler ex_new)) (ex_reads _ (or_introl eq_refl))
      (ex_answered _ (or_introl eq_refl)) ex_first_accepted).
  - fold ex_noted. rewrite (woken_instance (PL := generation_predicate_laws)) by done. apply nsteps_once.
    exact (churn_quiet ex_all_apis ex_still ex_noted [LangfuseInstanceReconciler] LangfuseInstanceReconciler
      CircuitBreaker.empty_memory ex_key _ _ _ _ (list_elem_of_here _ _)
      (triple_eta (ex_pass_of LangfuseInstanceReconciler ex_noted)) (ex_reads _ (or_intror eq_refl))
      (ex_answered _ (or_intror eq_refl)) ex_second_accepted).
Qed.

Lemma status_churn_ends_witness :
  ∃ s s' n, nsteps (churn_step (W := FakeCluster) ex_all_apis ex_still) n s s' ∧ queue s' = [] ∧ (0 < n ≤ 20)%nat.
Proof.
  exists (mkChurn ex_new [LangfuseInstanceReconciler]), (mkChurn ex_noted []), 2%nat.
  split; [exact ex_chain|]. split; [done|]. split; [lia|].
  apply (proj2 (status_churn_ends (AL := list_conditions_laws) (PRL := fixed_probes_laws true true true)
    (PL := generation_predicate_laws) _ _ _ _ _ ex_chain)).
  repeat constructor. set_solver.
Defined.
End example.
