(* ===== verification/Pacing.v ===== *)
(** * When the controllers run again

    All but the instance controller are deaf to status events, and most things they
    watch over send no event at all: they rely on the delay a pass asks for.  This file
    bounds that delay for each of the seven, and shows that the ones that poll never
    stop while the instance lives. *)

From S2P Require Import CircuitBreaker Secrets Retention SchemaDrift HealthMonitor Migration Instance.
From S2P Require Import Prelude GoStd GoNet KubeTypes ApiTypes Kube Interfaces Examples Status Config.
From S2P Require Import Resources Stores PodIssues Phase Identity ClickHouse Sharing.

Open Scope string_scope.
Open Scope list_scope.
Open Scope Z_scope.

(** ** What a computation may return, whatever it sees *)

Section returns.
Context {W : Type}.

Definition returns {A} (R : A → Prop) (m : M (St W) A) : Prop := ∀ s, wp m (λ a _, R a) s.

Lemma returns_mret {A} (R : A → Prop) (a : A) : R a → returns R (mret a).
Proof. intros HR s. by apply wp_ret. Qed.

Lemma returns_bind {A B} (R : B → Prop) (m : M (St W) A) (f : A → M (St W) B) :
  (∀ a, returns R (f a)) → returns R (m ≫= f).
Proof.
  intros Hf s. apply wp_bind. unfold wp at 1. destruct (m s) as [a s']. apply Hf.
Qed.

(** The same, knowing something of the value bound. *)
Lemma returns_bind_with {A B} (Q : A → Prop) (R : B → Prop) (m : M (St W) A) (f : A → M (St W) B) :
  returns Q m → (∀ a, Q a → returns R (f a)) → returns R (m ≫= f).
Proof.
  intros Hm Hf s. apply wp_bind. eapply wp_mono; [apply Hm|]. intros a s' Ha. by apply Hf.
Qed.

Lemma returns_mfold {A B} (I : A → Prop) (f : A → B → M (St W) A) l a :
  I a → (∀ a b, I a → returns I (f a b)) → returns I (mfold f l a).
Proof.
  revert a. induction l as [|b l IH]; intros a Ha Hf; cbn [mfold]; [by apply returns_mret|].
  eapply returns_bind_with; [by apply Hf|]. intros. by apply IH.
Qed.

Lemma traces_returns {A} (T : A → list Call → Prop) (R : A → Prop) (m : M (St W) A) :
  traces T m → returns R m → traces (λ a _, R a) m.
Proof.
  intros Hm Hr s. eapply wp_mono; [apply wp_and; [apply Hm|apply Hr]|].
  intros a s' [(cs & E & _) HR]. by exists cs.
Qed.
End returns.

(** Follows the text of a computation to its results. *)
Ltac returns_step :=
  match goal with
  | |- returns _ (mret _) => apply returns_mret
  | |- returns _ (_ ≫= _) => apply returns_bind; intros ?
  | |- returns _ (match ?x with _ => _ end) => destruct x eqn:?
  | |- returns _ (let '(_, _) := ?x in _) => destruct x eqn:?
  end.
Ltac returns_steps := repeat (cbv zeta; returns_step).

(** ** The delays *)

(** A pass that reports no error asks for a delay in [D]. *)
Definition asks (D : Z → Prop) (out : Outcome) : Prop := out.2 = None → D (RequeueAfter out.1).

Lemma asks_failed D e : asks D (failed e).
Proof. by intros [=]. Qed.

Lemma asks_status_failed (D : Z → Prop) e what : D Second → asks D (statusWriteFailed e what).
Proof. intros HD. destruct (statusWriteFailed_spec e what) as [[_ ->]|[_ ->]]; [by intros _|by intros [=]]. Qed.

Lemma asks_requeueIf (D : Z → Prop) b : D 0 → D Second → asks D (requeueIf b, None).
Proof. intros ?? _. by destruct b. Qed.

#[export] Hint Resolve asks_failed asks_status_failed asks_requeueIf : go.

(** Closes a result. *)
Ltac paced :=
  repeat match goal with |- asks _ (match ?x with _ => _ end) => destruct x end;
  first [apply asks_failed | apply asks_status_failed; cbn; by auto | apply asks_requeueIf; cbn; by auto
        | intros _; cbn; by auto | by intros [=]].

(** The delays each controller may ask for, over the live instance [i]. *)
Definition pace (c : Controller) (i : LangfuseInstance) (d : Z) : Prop :=
  match c with
  | LangfuseInstanceReconciler | SecretController => d = 0 ∨ d = Second
  | MigrationController => d = 0 ∨ d = Second ∨ d = 5 * Second ∨ d = 10 * Second
  | HealthMonitorReconciler => d = Second ∨ d = 30 * Second
  | RetentionController => d = Second ∨ d = 5 * Minute
  | SchemaDriftController =>
      d = Second ∨ (d = requeue_after i ∧ (check_interval i * Minute < 2 ^ 63 → Minute ≤ d))
  | CircuitBreakerController =>
      match breakerEnabled i with Some _ => Second ≤ d ≤ 15 * Second | None => d = 0 end
  end.

Section paces.
Context {W : Type} `{KubeClient W} `{ApplyClient W} `{API : ConditionAPI} `{OWN : OwnerAPI}.
Context `{SCH : Scheme} `{QUANT : QuantityParser} `{PROBES : DependencyProbes W}.
Context `{ORD : MapOrder} `{ENT : Entropy W} `{HASH : Hasher}.
Context `{HTTP : HTTPTransport W} `{PEM : PEMParser}.

Lemma instance_paced i : returns (asks (pace LangfuseInstanceReconciler i)) (Instance.reconcileInstance i).
Proof. unfold Instance.reconcileInstance. returns_steps; paced. Qed.

Lemma secrets_paced i j original : returns (asks (pace SecretController i)) (reconcileHashes j original).
Proof. unfold reconcileHashes. returns_steps; paced. Qed.

Lemma migration_paced i : returns (asks (pace MigrationController i)) (Migration.reconcileInstance i).
Proof.
  unfold Migration.reconcileInstance, refuse, cleanupCompletedJobs, reconcileJob, startMigration, replaceStaleJob,
    recordSuccess, reportProgress.
  returns_steps; paced.
Qed.

Lemma health_paced i j : returns (asks (pace HealthMonitorReconciler i))
  (e ← updateInstanceStatus j i;
   mret match e with
        | Some e => statusWriteFailed e "updating health status"
        | None => done_after healthCheckInterval
        end).
Proof. returns_steps; paced. Qed.

Lemma retention_paced i j original : returns (asks (pace RetentionController i)) (finishRetention j original).
Proof. unfold finishRetention. returns_steps; paced. Qed.

Lemma check_interval_pos i : 0 < check_interval i.
Proof.
  unfold check_interval. destruct (_ ≫= ClickHouse_SchemaDrift) as [d|]; [|done].
  destruct (_ >? 0) eqn:E; [lia|done].
Qed.

Lemma drift_paced i j : returns (asks (pace SchemaDriftController i)) (finishDrift j i).
Proof.
  unfold finishDrift. returns_steps. destruct a as [e|]; [apply asks_status_failed; by left|].
  intros _. right. split; [done|]. intros Hlt. pose proof (check_interval_pos i).
  cbn [RequeueAfter done_after fst]. unfold requeue_after. rewrite int64_id; unfold in_int64, Minute, Second in *; lia.
Qed.

Lemma breaker_interval_pos spec : Second ≤ breaker_interval spec.
Proof.
  unfold breaker_interval. destruct (_ <=? 0) eqn:E; unfold defaultProbeIntervalSeconds, Second in *; lia.
Qed.

(** The shortest interval of the loop: at least a second, at most the default. *)
Lemma check_paced k (s : LoopState) comp :
  Second ≤ s.2 ≤ 15 * Second → returns (λ s' : LoopState, Second ≤ s'.2 ≤ 15 * Second) (checkComponent k s comp).
Proof.
  intros Hs. destruct s as [[mem i] shortest]. unfold checkComponent. destruct (check_spec comp) as [spec|];
    [|by apply returns_mret].
  pose proof (breaker_interval_pos spec). cbn [snd] in Hs. returns_steps. cbn [snd].
  destruct (_ <? _) eqn:E; lia.
Qed.

Lemma breaker_paced mem k i :
  returns (λ p, asks (pace CircuitBreakerController i) p.1) (superviseInstance mem k i).
Proof.
  unfold superviseInstance. destruct (breakerEnabled i) as [cb|] eqn:Eb.
  2: { apply returns_mret. intros _. unfold pace. by rewrite Eb. }
  eapply returns_bind_with with (Q := λ s : LoopState, Second ≤ s.2 ≤ 15 * Second).
  - apply returns_mfold; [unfold defaultProbeIntervalSeconds, Second; cbn; lia|]. intros. by apply check_paced.
  - intros [[mem' i'] shortest] Hs. cbn [snd] in Hs. returns_steps; cbn [fst].
    + apply asks_status_failed. unfold pace. rewrite Eb. unfold Second. lia.
    + intros _. unfold pace. rewrite Eb. exact Hs.
Qed.

(** ** Any pass *)

(** What a pass asks for, by what it read. *)
Definition paced_pass (c : Controller) (req : NamespacedName) (out : Outcome) (cs : list Call) : Prop :=
  ∃ g rest, cs = CGetInstance req g :: rest ∧
    match g with
    | Ok i => match om_DeletionTimestamp (Instance_ObjectMeta i) with
              | Some _ => out = done_now
              | None => asks (pace c i) out
              end
    | Err e => err_kind e = KindNotFound ∧ out = done_now ∨ is_Some out.2
    end.

(** Having read no instance: gone, or an error for the rate limiter. *)
Definition unread (e : GoError) (out : Outcome) : Prop :=
  err_kind e = KindNotFound ∧ out = done_now ∨ is_Some out.2.

Lemma paced_read {A} (get : A → Outcome) c req (f : LangfuseInstance → M (St W) A) (g : GoError → M (St W) A)
    (gone : LangfuseInstance → A) (R : LangfuseInstance → LangfuseInstance → Prop) :
  (∀ e, traces (λ a _, unread e (get a)) (g e)) → (∀ i, get (gone i) = done_now) →
  (∀ i, publishing (R i) (f i)) → (∀ i, returns (λ a, asks (pace c i) (get a)) (f i)) →
  traces (λ a cs, paced_pass c req (get a) cs)
    (r ← Get_Instance req;
     match r with
     | Err e => g e
     | Ok i => match om_DeletionTimestamp (Instance_ObjectMeta i) with Some _ => mret (gone i) | None => f i end
     end).
Proof.
  intros Hg Hgone Hp Hr. apply traces_call_bind. intros [i|e].
  - destruct (om_DeletionTimestamp _) eqn:Ed.
    + apply traces_mret. exists (Ok i), []. rewrite Ed. auto.
    + eapply traces_mono; [eapply traces_returns; [apply Hp|apply Hr]|]. intros a cs Ha. exists (Ok i), cs. by rewrite Ed.
  - eapply traces_mono; [apply Hg|]. intros a cs Ha. by exists (Err e), cs.
Qed.

Lemma unread_ignored e what :
  traces (λ out _, unread e out) (if IsNotFound e then mret done_now else mret (failed (wrapError what e)) : M (St W) Outcome).
Proof.
  unfold IsNotFound. case_bool_decide; apply traces_mret; [by left|right; by eexists].
Qed.

Lemma paced_keeping c req (mem : Memory) (m : M (St W) Outcome) :
  traces (paced_pass c req) m → traces (λ p : Outcome * Memory, paced_pass c req p.1) (out ← m; mret (out, mem)).
Proof. intros Hm. eapply traces_bind; [exact Hm|]. intros a cs Hcs. apply traces_mret. by rewrite app_nil_r. Qed.

Context {AL : ConditionLaws API} {PL : ProbeLaws PROBES}.

Lemma pass_paced c mem req : traces (λ p, paced_pass c req p.1) (reconcile c mem req).
Proof.
  destruct c; cbn [reconcile]; try apply paced_keeping.
  - apply (paced_read id _ _ _ _ (λ _, done_now) (guarantee LangfuseInstanceReconciler));
      [intros; apply unread_ignored|done|apply instance_publishes|apply instance_paced].
  - apply (paced_read id _ _ _ _ (λ _, done_now) (guarantee MigrationController));
      [|done|apply migration_publishes|apply migration_paced].
    intros e. apply traces_mret. unfold IgnoreNotFound, IsNotFound. case_bool_decide; [by left|right; by eexists].
  - apply (paced_read id _ _ _ _ (λ _, done_now) (guarantee SecretController));
      [intros; apply unread_ignored|done|apply secrets_publishes|].
    intros i. destruct (autoGenerateEnabled i); [|apply secrets_paced]. cbv zeta. apply returns_bind. intros [e|];
      [apply returns_mret, asks_failed|apply secrets_paced].
  - apply (paced_read id _ _ _ _ (λ _, done_now) (guarantee HealthMonitorReconciler));
      [intros; apply unread_ignored|done| |]; intros i; destruct (migrationRunning i).
    + apply publishing_ret.
    + apply health_publishes.
    + apply returns_mret. intros _. by right.
    + apply returns_bind. intros. apply health_paced.
  - apply (paced_read id _ _ _ _ (λ _, done_now) (guarantee RetentionController));
      [intros; apply unread_ignored|done| |]; intros i; destruct (_ ≫= ClickHouse_Retention).
    + apply retention_publishes.
    + apply unconfigured_publishes.
    + apply returns_bind. intros. apply returns_bind. intros. apply retention_paced.
    + apply retention_paced.
  - apply (paced_read id _ _ _ _ (λ _, done_now) (guarantee SchemaDriftController));
      [intros; apply unread_ignored|done| |]; intros i; cbv zeta;
      destruct (_ ≫= ClickHouse_SchemaDrift) as [drift|].
    + apply drift_publishes.
    + apply (disabled_publishes i).
    + destruct (SchemaDrift_Enabled drift); [apply returns_bind; intros|]; apply drift_paced.
    + apply drift_paced.
  - apply (paced_read fst _ _ _ _ (λ _, (done_now, forget (key_String req) mem)) (guarantee CircuitBreakerController));
      [|done|apply breaker_publishes|apply breaker_paced].
    intros e. unfold IsNotFound. case_bool_decide; apply traces_mret; [by left|right; by eexists].
Qed.

(** C18: no pass is the last of its controller by accident.  A pass that reports no
    error and finds the instance alive asks for the next one within bounds: the health
    monitor and the retention controller always, after a second or their interval of
    thirty seconds and five minutes; the circuit breaker, where it is configured, after
    one to fifteen seconds; the schema drift controller after its own interval, at least
    a minute unless that exceeds 292 years; the others in at most ten seconds, or when
    an event comes.  Without a delay or an error there is no live instance. *)
Theorem requeue_bounds c mem req w out w' tr :
  run (reconcile c mem req) w = (out, w', tr) →
  ∃ g, head tr = Some (CGetInstance req g) ∧
    match g with
    | Ok i => match om_DeletionTimestamp (Instance_ObjectMeta i) with
              | Some _ => out.1 = done_now
              | None => out.1.2 = None → pace c i (RequeueAfter out.1.1)
              end
    | Err e => err_kind e = KindNotFound ∧ out.1 = done_now ∨ is_Some out.1.2
    end.
Proof.
  intros Hrun. destruct (traces_run _ _ _ _ _ _ (pass_paced c mem req) Hrun) as (g & rest & -> & Hg). by exists g.
Qed.
End paces.

Lemma requeue_bounds_witness :
  (ex_pass_of HealthMonitorReconciler (ex_instance "3.1" "pg" "db")).1.1.1 = done_after (30 * Second) ∧
  ∃ g, head (ex_pass_of HealthMonitorReconciler (ex_instance "3.1" "pg" "db")).2 = Some (CGetInstance ex_key g).
Proof.
  split; [by vm_compute|].
  destruct (requeue_bounds (AL := list_conditions_laws) (PL := fixed_probes_laws true true true)
    HealthMonitorReconciler _ _ _ _ _ _ (triple_eta (ex_pass_of HealthMonitorReconciler (ex_instance "3.1" "pg" "db"))))
    as (g & Hg & _).
  by exists g.
Defined.
